(* ===== verification/_CoqProject ===== *)
-Q . S2P
Prelude.v
GoStrings.v
GoRegexp.v
K8s.v
Types.v
KObjects.v
Webhook.v
WebhookSpec.v
Version.v
Effects.v
Events.v
Status.v
Labels.v
Autoscaler.v
AutoscalerSpec.v
Converge.v
Atconf.v
ScFinder.v
PodFacts.v
PodFactsSpec.v
Builder.v
BuilderSpec.v
Cmds.v
Restart.v
RestartSpec.v
Install.v
Scaling.v
ScalingSpec.v
Upgrade.v
ObjRec.v
InitDB.v
StatusRec.v
Online.v
Controller.v
Frame.v
UpgradeSpec.v
ObjSpec.v
InitSpec.v
Origin.v
Facts.v
StatusSpec.v
Liveness.v
ObjLive.v
Rules.v
Tracks.v
OnlineSpec.v
ControllerSpec.v
Complete.v
GoJson.v
VdbGen.v
VdbGenSpec.v
AzureSpec.v
Exec.v
Metrics.v
Flags.v
Mains.v
