(* ===== verification/Prelude.v ===== *)
(** * The VerticaDB operator

    A verification of the Kubernetes operator for Vertica and of its companion
    [vdb-gen] ([src/]).  The operator watches two custom resources: [VerticaDB], a
    database cluster made of subclusters, and [VerticaAutoscaler], which changes
    the size of the subclusters behind a service.  An admission webhook defaults
    and validates every write of the resources by users.  For each resource a
    controller runs a list of reconcilers until one asks to stop; they read the
    resource, collect facts about the pods by running commands in them, and then
    run [admintools] and [vsql] commands, or update Kubernetes objects and the
    status of the resource.  [vdb-gen] inspects a live database and prints the
    manifests from which the operator revives it.

    ** Files: the libraries of the language and the data

    - [Prelude]: machine integers, errors and panics, tactics and generic lemmas.
    - [GoStrings], [GoRegexp], [GoJson], [Flags]: what the programs use of Go's
      [strings], [strconv], [fmt], [regexp], [encoding/json] and [flag].
    - [K8s], [KObjects]: the Kubernetes objects that the operator reads and writes.
    - [Types]: [api/v1beta1/verticadb_types.go], the structs of
      [api/v1beta1/verticaautoscaler_types.go], [pkg/names], [pkg/paths].
    - [Effects]: the environment (API server, pods, clock, retries), the monad of
      computations and its reasoning principles ([wp], [only], [safe]);
      [pkg/errors].  [Events]: [pkg/events].

    ** Files: admission, versions, status, autoscaler

    - [Webhook], [WebhookSpec]: [api/v1beta1/verticadb_webhook.go]; the contracts
      [ValidSpec] and [ValidUpdate], that the webhook decides them, that they hold
      along the life of a resource, and that defaulting is idempotent.
    - [Version]: [pkg/version]; parsing, order, upgrade paths, annotations.
    - [Status]: [pkg/vdbstatus]; the retried read-modify-write of the status.
    - [Labels]: [pkg/builder/labels_annotations.go]; selectors.
    - [Autoscaler], [AutoscalerSpec]: [pkg/controllers/vas], [pkg/vasstatus],
      [api/v1beta1/verticaautoscaler_webhook.go]; every update of a VerticaDB is
      one that the autoscaler's granularity allows, the loops end, and the
      controller makes no other kinds of calls.
    - [Converge]: with a server that accepts current writes ([Converge.Server]) and
      where there is something to scale, one iteration of the autoscaler reaches its
      target and later ones keep it.

    ** Files: the VerticaDB controller, [pkg/controllers/vdb]

    - [Atconf]: [pkg/atconf/file_writer.go], [pkg/net/ipv6.go]; admintools.conf.
    - [ScFinder]: [pkg/iter/sc_finder.go]; the objects of a VerticaDB.
    - [PodFacts], [PodFactsSpec]: [podfacts.go]; the facts are consistent and
      complete, the queries do not depend on the iteration order of the map.
    - [Builder], [BuilderSpec]: [pkg/builder]; exactly when the pods that are built
      pass the checks of Kubernetes, and that they do not depend on map order.
    - [Cmds], [Exec]: [pkg/cmds/exec.go]; how a command is completed with the
      password, what is logged, and the request that runs it.  [Exec] refines the
      calls of [Effects]: one request per command of a trace, in its order, with the
      password where the command needs it.
    - [Restart], [RestartSpec], [Liveness]: [restart_reconcile.go]; what must have
      happened before a cluster or a node is restarted, and that an iteration
      without error has restarted what was down.
    - [Install], [Scaling], [ScalingSpec]: installation, nodes and subclusters,
      routing, draining and stopping; when nodes are added, removed, uninstalled.
    - [Upgrade], [UpgradeSpec], [Online], [OnlineSpec]: versions, annotations and
      both upgrades; in which order they change things, and that no subcluster is
      restarted before its clients were sent elsewhere.
    - [ObjRec], [ObjSpec], [ObjLive]: [obj_reconcile.go]; what is created, patched
      and deleted, when, and that a successful iteration leaves nothing undone.
    - [InitDB], [InitSpec]: [init_db.go], [createdb_reconcile.go],
      [revivedb_reconcile.go], [pkg/cloud], [pkg/license]; the interface
      [DatabaseInitializer] is a class, the safety theorem is proved against its
      promises and both instances keep them.
    - [StatusRec], [StatusSpec]: [status_reconcile.go], [metrics_reconcile.go],
      [upgradeoperator120_reconciler.go]; the status tells what the facts say.
    - [Metrics]: [pkg/metrics]; counters and gauges and their clean-up.
    - [Controller]: [verticadb_controller.go]; the sequence of 37 reconcilers.
    - [Frame], [Origin], [Facts], [Rules], [Tracks], [ControllerSpec]: a whole iteration.
      [Frame] gives each reconciler a row of the kinds of calls it can make (the
      tools of admintools and the reasons of events are kinds).  [Origin] shows
      that a VerticaDB in use was read from or sent to the API server in the same
      iteration, [Facts] that facts in use were collected in it.  [Rules] are conditions on
      single calls, [Tracks] proves that all reconcilers keep them, and
      [ControllerSpec] concludes for the iteration: what each reconciler can do,
      that the spec the user wrote is kept, and that every command that changes the
      database is justified by facts and by a VerticaDB of the same iteration.
    - [Complete]: an iteration that ends well has run all reconcilers to their end,
      restarted what was down, put all objects in place and routed every pod.

    ** Files: the programs

    - [VdbGen], [VdbGenSpec], [AzureSpec]: [pkg/vdbgen]; the generated manifests
      refer only to objects that are written with them, and the operator's own
      functions read back what the generator read from the database.
    - [Mains]: [cmd/vdb-gen/main.go] from the command line to the output and the exit code, and
      [cmd/operator/main.go]: flags, environment, logger and the order of the set-up.

    ** How the code is modelled

    A struct is a record, a pointer or a slice that can be [nil] and is compared
    is an [option], an error is a value of [result] or [option go_error], a panic
    is the [Panic] outcome.  [int32] and [int] are [Z] with the wrap-around of
    [wrap32] and [wrap64] where the code computes.  Kubernetes payloads that the
    code only copies and compares are opaque values.

    A function that talks to the cluster is a computation of the monad [M] of
    [Effects]: it maps the trace of the calls made so far to a result and a longer
    trace.  The answers come from the class [Env], a function of the trace, so a
    theorem over all [Env] covers every behaviour of the cluster and every
    interference by others.  An object that the code shares through a pointer is
    passed along, with the changes a failed attempt leaves in it.  Where Go
    ranges over a map, the model works on a list and the theorems quantify over
    its order ([PodOrder] and [AnnotationOrder] for the reconcilers, permutations
    elsewhere).

    Code outside the repository is a class: [Env] (API server, pods, clock,
    [retry.DefaultBackoff]), [AtConfDeps] with the laws [AtConfLaws] for
    names and values that the parser does not normalise
    (the configuration parser, [dedent], temporary files), [Exec.Api] (the client
    library), [Metrics.Registry] with [RegistryLaws] (Prometheus),
    [VdbGen.GenEnv] (database, file system, YAML), [VdbGen.Writer] (standard output,
    whose writes can fail), [OperatorMain.Libraries] (the
    manager and the logger), [Converge.Server] (an API server with optimistic
    locking and no other clients, for convergence only).  Each
    law has an instance that shows it can hold.

    ** Bounds

    [genNextSubclusterName] searches an unbounded sequence of names; the model
    tries one name more than there are subclusters, and
    [AutoscalerSpec.genNextSubclusterName_fresh] shows that one of them is free.
    [adding_loop] has as many iterations as pods are missing, which is enough
    unless the new subclusters are empty ([AutoscalerSpec.scale_returns]), in which
    case the code does not terminate.  [retry_on_conflict] has the number of
    attempts of the backoff.  The regular-expression matcher uses the length of
    the text as its bound on repetitions, the JSON decoder one more than the length
    of the text; [GoJson] shows that more fuel gives the same result.  Theorems on
    totals assume fewer than [2^31] nodes where they say so, as the counters of the
    code are [int32].

    ** Not modelled

    Log lines other than those of commands; watches, caches and leader election
    of the controller library; the Go client, [zap], [lumberjack] and Prometheus
    behind their classes; registration of the API types and generated deep copies;
    constructors of reconcilers and accessors without behaviour; [pkg/test],
    the fakes and the functions of the builder that only tests call
    ([BuildPod], [BuildS3CommunalCredSecret] and the like). *)

From stdpp Require Import base gmap strings pretty fin_maps sorting numbers list.

(** String append reduces on constructors in this development. *)
#[global] Arguments String.append !_ _ : simpl nomatch.

(** ** Machine integers

    Go's [int32] and [int] (64 bits on every platform the operator is built
    for) wrap around silently.  [wrap w x] is the two's complement value of
    [x] at width [w]. *)
Definition wrap (w x : Z) : Z := (x + 2 ^ (w - 1)) `mod` 2 ^ w - 2 ^ (w - 1).

Definition wrap32 (x : Z) : Z := wrap 32 x.

Definition wrap64 (x : Z) : Z := wrap 64 x.

Definition int32_range (x : Z) : Prop := (- 2 ^ 31 ≤ x < 2 ^ 31)%Z.

Definition int64_range (x : Z) : Prop := (- 2 ^ 63 ≤ x < 2 ^ 63)%Z.

(** ** Errors and panics

    The Kubernetes client distinguishes two errors the operator reacts to
    (not found, conflict); every other error is only propagated. *)
Inductive go_error : Type :=
| ErrNotFound
| ErrConflict
| ErrMsg (msg : string).

#[global] Instance go_error_eq_dec : EqDecision go_error.
Proof. solve_decision. Defined.

Inductive result (A : Type) : Type :=
| Ok (a : A)
| Err (e : go_error).

Arguments Ok {A} a.
Arguments Err {A} e.

(** A Go function that may panic returns an [outcome]. *)
Inductive outcome (A : Type) : Type :=
| Ret (a : A)
| Panic (msg : string).

Arguments Ret {A} a.
Arguments Panic {A} msg.

(** ** Development tactics *)

(** Split the boolean connectives of a hypothesis or goal and turn
    [bool_decide] tests into propositions. *)
Ltac go_bool :=
  repeat match goal with
  | H : context [ bool_decide ?P ] |- _ => rewrite (bool_decide_eq_true_2 P) in H by done
  | H : context [ bool_decide ?P ] |- _ => rewrite (bool_decide_eq_false_2 P) in H by done
  | |- context [ bool_decide ?P ] => rewrite (bool_decide_eq_true_2 P) by done
  | |- context [ bool_decide ?P ] => rewrite (bool_decide_eq_false_2 P) by done
  end.

Ltac go_cases :=
  repeat (case_match || case_bool_decide || case_decide); simplify_eq/=.

Create HintDb vdb.

(** ** Generic lemmas *)

Lemma wrap_small w x :
  (0 < w)%Z → (- 2 ^ (w - 1) ≤ x < 2 ^ (w - 1))%Z → wrap w x = x.
Proof.
  intros Hw Hx. unfold wrap.
  assert (2 ^ w = 2 * 2 ^ (w - 1))%Z as Hp.
  { rewrite <- Z.pow_succ_r by lia. f_equal. lia. }
  rewrite Z.mod_small; lia.
Qed.

Lemma wrap32_small x : int32_range x → wrap32 x = x.
Proof. intros H. apply wrap_small; [lia|]. exact H. Qed.

Lemma wrap64_small x : int64_range x → wrap64 x = x.
Proof. intros H. apply wrap_small; [lia|]. exact H. Qed.

Lemma wrap_range w x :
  (0 < w)%Z → (- 2 ^ (w - 1) ≤ wrap w x < 2 ^ (w - 1))%Z.
Proof.
  intros Hw. unfold wrap.
  assert (2 ^ w = 2 * 2 ^ (w - 1))%Z as Hp.
  { rewrite <- Z.pow_succ_r by lia. f_equal. lia. }
  pose proof (Z.mod_pos_bound (x + 2 ^ (w - 1)) (2 ^ w)) as Hb.
  assert (0 < 2 ^ (w - 1))%Z by (apply Z.pow_pos_nonneg; lia).
  lia.
Qed.

Lemma wrap32_range x : int32_range (wrap32 x).
Proof. apply (wrap_range 32). lia. Qed.

#[export] Hint Resolve wrap32_small wrap64_small wrap32_range : vdb.

Lemma app_nil_iff {A} (l k : list A) : l ++ k = [] ↔ l = [] ∧ k = [].
Proof. destruct l, k; naive_solver. Qed.

Lemma bool_decide_iff_true (P : Prop) `{Decision P} (b : bool) :
  bool_decide P = b → (P ↔ b = true).
Proof. intros <-. symmetry. apply bool_decide_eq_true. Qed.

(** A bounded prefix search: the first index from [i] on, among [fuel]
    candidates, at which the test succeeds. *)
Fixpoint find_index_from (test : nat → bool) (fuel i : nat) : option nat :=
  match fuel with
  | 0 => None
  | S fuel => if test i then Some i else find_index_from test fuel (S i)
  end.

Lemma find_index_from_Some test fuel i j :
  find_index_from test fuel i = Some j →
  i ≤ j < i + fuel ∧ test j = true ∧ ∀ k, i ≤ k < j → test k = false.
Proof.
  revert i. induction fuel as [|fuel IH]; intros i; [done|]. simpl.
  destruct (test i) eqn:Ht.
  - intros [= ->]. split_and!; [lia|lia|done|lia].
  - intros Hj. destruct (IH (S i) Hj) as (Hb & Hj' & Hall).
    split_and!; [lia|lia|done|]. intros k Hk.
    destruct (decide (k = i)) as [->|]; [done|]. apply Hall. lia.
Qed.

Lemma find_index_from_None test fuel i :
  find_index_from test fuel i = None → ∀ k, i ≤ k < i + fuel → test k = false.
Proof.
  revert i. induction fuel as [|fuel IH]; intros i; simpl; [lia|].
  destruct (test i) eqn:Ht; [done|]. intros Hn k Hk.
  destruct (decide (k = i)) as [->|]; [done|]. apply (IH (S i)); [done|lia].
Qed.
