(* ===== verification/GoStrings.v ===== *)
(** * Go strings

    The functions of Go's [strings], [strconv] and [fmt] packages that the
    operator calls, on byte strings.  Separators are single bytes, as in every
    call of the repository. *)

From stdpp Require Import base gmap strings pretty numbers list.
From Stdlib Require Import Ascii.
From S2P Require Import Prelude.

(** [strings.HasPrefix(s, p)] *)
Definition HasPrefix (s p : string) : bool := String.prefix p s.

#[global] Arguments HasPrefix : simpl never.

(** [strings.HasSuffix(s, suf)] *)
Fixpoint HasSuffix (s suf : string) : bool :=
  bool_decide (s = suf) ||
  match s with
  | EmptyString => false
  | String _ s' => HasSuffix s' suf
  end.

(** [strings.Contains(s, sub)] *)
Fixpoint Contains (s sub : string) : bool :=
  HasPrefix s sub ||
  match s with
  | EmptyString => false
  | String _ s' => Contains s' sub
  end.

(** [strings.Count(s, sep)] for a one-byte separator *)
Fixpoint CountByte (s : string) (c : ascii) : nat :=
  match s with
  | EmptyString => 0
  | String d s' => (if bool_decide (d = c) then 1 else 0) + CountByte s' c
  end.

(** [strings.Split(s, sep)] for a one-byte separator: never empty. *)
Fixpoint SplitByte (s : string) (c : ascii) : list string :=
  match s with
  | EmptyString => [EmptyString]
  | String d s' =>
      let r := SplitByte s' c in
      if bool_decide (d = c) then EmptyString :: r
      else match r with
           | [] => [String d EmptyString]
           | w :: ws => String d w :: ws
           end
  end.

(** [strings.Join(l, sep)] *)
Fixpoint Join (l : list string) (sep : string) : string :=
  match l with
  | [] => EmptyString
  | [w] => w
  | w :: ws => w +:+ sep +:+ Join ws sep
  end.

(** [strings.ToLower] on the ASCII range *)
Definition lower_byte (c : ascii) : ascii :=
  let n := Ascii.nat_of_ascii c in
  if (65 <=? n)%nat && (n <=? 90)%nat then Ascii.ascii_of_nat (n + 32) else c.

Fixpoint ToLower (s : string) : string :=
  match s with
  | EmptyString => EmptyString
  | String c s' => String (lower_byte c) (ToLower s')
  end.

(** [strings.TrimLeft] and [strings.Trim] for a one-byte cut set *)
Fixpoint TrimLeftByte (s : string) (c : ascii) : string :=
  match s with
  | String d s' => if bool_decide (d = c) then TrimLeftByte s' c else s
  | EmptyString => EmptyString
  end.

Definition TrimByte (s : string) (c : ascii) : string :=
  String.rev (TrimLeftByte (String.rev (TrimLeftByte s c)) c).

(** [strings.TrimSuffix(s, suf)] *)
Fixpoint TrimSuffix (s suf : string) : string :=
  if bool_decide (s = suf) then EmptyString
  else match s with
       | EmptyString => EmptyString
       | String c s' => String c (TrimSuffix s' suf)
       end.

(** [k[n:]] *)
Fixpoint drop_str (n : nat) (s : string) : string :=
  match n, s with
  | 0, _ => s
  | S n, String _ s' => drop_str n s'
  | S _, EmptyString => EmptyString
  end.

(** The [%d] verb *)
Definition Itoa (z : Z) : string := pretty z.

(** Digits and [strconv.Atoi].  The result is [None] on a syntax error and on
    a value outside [int64]. *)
Definition is_digit (c : ascii) : bool :=
  let n := Ascii.nat_of_ascii c in (48 <=? n)%nat && (n <=? 57)%nat.

Definition digit_val (c : ascii) : Z := Z.of_nat (Ascii.nat_of_ascii c) - 48.

Fixpoint digits_val (s : string) (acc : Z) : option Z :=
  match s with
  | EmptyString => Some acc
  | String c s' => if is_digit c then digits_val s' (10 * acc + digit_val c) else None
  end.

Definition parse_digits (s : string) : option Z :=
  match s with
  | EmptyString => None
  | _ => digits_val s 0
  end.

Definition check_int64 (z : Z) : option Z :=
  if bool_decide (- 2 ^ 63 ≤ z)%Z && bool_decide (z < 2 ^ 63)%Z then Some z else None.

Definition Atoi (s : string) : option Z :=
  match s with
  | String "-"%char s' => z ← parse_digits s'; check_int64 (- z)
  | String "+"%char s' => z ← parse_digits s'; check_int64 z
  | _ => z ← parse_digits s; check_int64 z
  end.

(** The [%04d] verb on a non-negative number: zero padded to four digits. *)
Fixpoint zeros (n : nat) : string :=
  match n with
  | 0 => EmptyString
  | S n => String "0"%char (zeros n)
  end.

Definition Pad4 (z : Z) : string :=
  let s := Itoa z in zeros (4 - String.length s) +:+ s.

(** [strconv.ParseBool] *)
Definition ParseBool (s : string) : option bool :=
  if bool_decide (s ∈ ["1"; "t"; "T"; "true"; "TRUE"; "True"]) then Some true
  else if bool_decide (s ∈ ["0"; "f"; "F"; "false"; "FALSE"; "False"]) then Some false
  else None.

(** ** Append, prefix, suffix, containment *)

Lemma str_app_nil_r (s : string) : s +:+ "" = s.
Proof. induction s as [|c s IH]; simpl; [done|]. by rewrite IH. Qed.

Lemma str_app_assoc (a b c : string) : (a +:+ b) +:+ c = a +:+ b +:+ c.
Proof. induction a as [|x a IH]; simpl; [done|]. by rewrite IH. Qed.

Lemma str_app_inj_l (a b c : string) : a +:+ b = a +:+ c → b = c.
Proof. induction a as [|x a IH]; simpl; [done|]. intros [= H]. auto. Qed.

Lemma str_length_app (a b : string) :
  String.length (a +:+ b) = String.length a + String.length b.
Proof. induction a as [|x a IH]; simpl; [done|]. by rewrite IH. Qed.

Lemma str_app_inj_r (a b c : string) : a +:+ c = b +:+ c → a = b.
Proof.
  revert b. induction a as [|x a IH]; intros [|y b]; simpl; intros H; [done|..].
  - apply (f_equal String.length) in H. simpl in H. rewrite str_length_app in H. lia.
  - apply (f_equal String.length) in H. simpl in H. rewrite str_length_app in H. lia.
  - injection H as -> H. by rewrite (IH b).
Qed.

Lemma HasPrefix_spec s p : HasPrefix s p = true ↔ ∃ t, s = p +:+ t.
Proof.
  unfold HasPrefix. revert s. induction p as [|c p IH]; intros s; simpl.
  - split; [by exists s|by destruct s].
  - destruct s as [|d s]; simpl; [by split; [|intros [t Ht]]|].
    destruct (Ascii.ascii_dec c d) as [->|Hne].
    + rewrite IH. split; intros [t Ht]; exists t; [by rewrite Ht|by injection Ht].
    + split; [done|]. intros [t Ht]. by injection Ht.
Qed.

Lemma HasSuffix_spec s suf : HasSuffix s suf = true ↔ ∃ t, s = t +:+ suf.
Proof.
  induction s as [|c s IH]; simpl; rewrite orb_true_iff, bool_decide_eq_true.
  - split; [intros [<-|]; [by exists ""|done]|].
    intros [[|??] H]; [by left|done].
  - rewrite IH. split.
    + intros [<-|[t ->]]; [by exists ""|by exists (String c t)].
    + intros [[|d t] H]; [by left|]. simpl in H. injection H as -> H. right. by exists t.
Qed.

Lemma Contains_spec s sub : Contains s sub = true ↔ ∃ a b, s = a +:+ sub +:+ b.
Proof.
  induction s as [|c s IH]; simpl; rewrite orb_true_iff, HasPrefix_spec.
  - split; [intros [[t Ht]|]; [by exists "", t|done]|].
    intros ([|??] & b & H); [left; by exists b|done].
  - rewrite IH. split.
    + intros [[t ->]|(a & b & ->)]; [by exists "", t|by exists (String c a), b].
    + intros ([|d a] & b & H); simpl in H; [left; by exists b|].
      injection H as -> H. right. by exists a, b.
Qed.

Lemma Contains_byte s c :
  Contains s (String c EmptyString) = true ↔ c ∈ String.list_ascii_of_string s.
Proof.
  induction s as [|d s IH]; simpl.
  - split; [done|]. intros H. by inversion H.
  - rewrite orb_true_iff, IH, elem_of_cons. unfold HasPrefix. simpl.
    destruct (Ascii.ascii_dec c d); destruct s; naive_solver.
Qed.

(** ** Split and join *)

Definition no_byte (c : ascii) (s : string) : Prop := c ∉ String.list_ascii_of_string s.

Lemma SplitByte_not_nil s c : SplitByte s c ≠ [].
Proof. destruct s; simpl; repeat case_match; done. Qed.

Lemma Join_cons w ws sep :
  ws ≠ [] → Join (w :: ws) sep = w +:+ sep +:+ Join ws sep.
Proof. by destruct ws. Qed.

Lemma Join_glue a b ws sep : Join ((a +:+ sep +:+ b) :: ws) sep = Join (a :: b :: ws) sep.
Proof. destruct ws as [|w ws]; [done|]. rewrite !Join_cons by done. by rewrite !str_app_assoc. Qed.

Lemma Join_SplitByte s c : Join (SplitByte s c) (String c EmptyString) = s.
Proof.
  induction s as [|d s IH]; simpl; [done|].
  pose proof (SplitByte_not_nil s c) as Hn.
  case_bool_decide as Hd.
  - subst. rewrite Join_cons by done. simpl. by rewrite IH.
  - destruct (SplitByte s c) as [|w ws]; [done|].
    destruct ws; simpl in *; by rewrite IH.
Qed.

Lemma SplitByte_app_sep w s c :
  no_byte c w → SplitByte (w +:+ String c s) c = w :: SplitByte s c.
Proof.
  unfold no_byte. induction w as [|d w IH]; simpl; intros Hn.
  - by rewrite bool_decide_eq_true_2.
  - rewrite elem_of_cons in Hn. rewrite bool_decide_eq_false_2 by set_solver.
    rewrite IH by set_solver. done.
Qed.

Lemma SplitByte_no_sep w c : no_byte c w → SplitByte w c = [w].
Proof.
  unfold no_byte. induction w as [|d w IH]; simpl; intros Hn; [done|].
  rewrite elem_of_cons in Hn. rewrite bool_decide_eq_false_2 by set_solver.
  rewrite IH by set_solver. done.
Qed.

Lemma SplitByte_Join l c :
  l ≠ [] → Forall (no_byte c) l → SplitByte (Join l (String c EmptyString)) c = l.
Proof.
  intros Hne Hl. induction l as [|w ws IH]; [done|].
  apply Forall_cons in Hl as [Hw Hws].
  destruct ws as [|w' ws]; [by apply SplitByte_no_sep|].
  rewrite Join_cons by done.
  change (String c "" +:+ ?s) with (String c s).
  rewrite SplitByte_app_sep by done. by rewrite IH.
Qed.

Lemma SplitByte_parts s c : Forall (no_byte c) (SplitByte s c).
Proof.
  unfold no_byte. induction s as [|d s IH]; simpl.
  - repeat constructor. simpl. apply not_elem_of_nil.
  - case_bool_decide as Hd; [constructor; [apply not_elem_of_nil|done]|].
    destruct (SplitByte s c) as [|w ws]; [repeat constructor; simpl|].
    + rewrite list_elem_of_singleton. naive_solver.
    + apply Forall_cons in IH as [Hw Hws]. constructor; [|done]. simpl.
      rewrite elem_of_cons. naive_solver.
Qed.

(** ** Numbers *)

Lemma is_digit_char (n : N) : (n < 10)%N → is_digit (pretty_N_char n) = true.
Proof.
  intros Hn. assert (n = 0 ∨ n = 1 ∨ n = 2 ∨ n = 3 ∨ n = 4 ∨ n = 5 ∨ n = 6 ∨ n = 7
    ∨ n = 8 ∨ n = 9)%N as H by lia. by repeat destruct H as [->|H]; [..|subst].
Qed.

Lemma digit_val_char (n : N) : (n < 10)%N → digit_val (pretty_N_char n) = Z.of_N n.
Proof.
  intros Hn. assert (n = 0 ∨ n = 1 ∨ n = 2 ∨ n = 3 ∨ n = 4 ∨ n = 5 ∨ n = 6 ∨ n = 7
    ∨ n = 8 ∨ n = 9)%N as H by lia. by repeat destruct H as [->|H]; [..|subst].
Qed.

Lemma digits_val_pretty_go (x : N) (s : string) (acc : Z) :
  (0 < x)%N →
  digits_val (pretty_N_go x s) acc =
  digits_val s (acc * 10 ^ Z.of_nat (String.length (pretty_N_go x "")) + Z.of_N x).
Proof.
  revert s acc.
  induction x as [x IH] using (well_founded_induction N.lt_wf_0); intros s acc Hx.
  assert (Hlen : ∀ y t, String.length (pretty_N_go y t)
                        = String.length (pretty_N_go y "") + String.length t).
  { clear. intros y. induction y as [y IH] using (well_founded_induction N.lt_wf_0).
    intros t. destruct (decide (y = 0)%N) as [->|Hy]; [by rewrite !pretty_N_go_0|].
    rewrite (pretty_N_go_step y t), (pretty_N_go_step y "") by lia.
    assert (y `div` 10 < y)%N as Hlt by (apply N.div_lt; lia).
    rewrite (IH _ Hlt (String _ t)), (IH _ Hlt (String _ "")). simpl. lia. }
  rewrite pretty_N_go_step, (pretty_N_go_step x "") by lia.
  assert (x `mod` 10 < 10)%N as Hm by (apply N.mod_lt; lia).
  rewrite Hlen. simpl (String.length (String _ "")).
  destruct (decide (x `div` 10 = 0)%N) as [H0|H0].
  - rewrite H0, !pretty_N_go_0. simpl. rewrite is_digit_char, digit_val_char by done.
    f_equal. pose proof (N.div_mod x 10). rewrite H0 in *.
    assert (x `mod` 10 = x)%N as -> by lia. lia.
  - assert (x `div` 10 < x)%N as Hlt by (apply N.div_lt; lia).
    rewrite (IH _ Hlt) by by apply N.neq_0_lt_0.
    simpl. rewrite is_digit_char, digit_val_char by done. f_equal.
    rewrite Nat2Z.inj_add, Z.pow_add_r by lia.
    change (10 ^ Z.of_nat 1)%Z with 10%Z.
    assert (Z.of_N x = 10 * Z.of_N (x `div` 10) + Z.of_N (x `mod` 10))%Z as Hx10.
    { pose proof (N.div_mod' x 10). lia. }
    rewrite Hx10. ring.
Qed.

Lemma pretty_N_digits (x : N) :
  Forall (λ c, is_digit c = true) (String.list_ascii_of_string (pretty x)).
Proof.
  assert (∀ s, Forall (λ c, is_digit c = true) (String.list_ascii_of_string s) →
    Forall (λ c, is_digit c = true) (String.list_ascii_of_string (pretty_N_go x s))) as Hgo.
  { induction x as [x IH] using (well_founded_induction N.lt_wf_0). intros s Hs.
    destruct (decide (x = 0)%N) as [->|Hx]; [by rewrite pretty_N_go_0|].
    rewrite pretty_N_go_step by lia. apply IH; [apply N.div_lt; lia|].
    simpl. constructor; [|done]. apply is_digit_char, N.mod_lt. lia. }
  unfold pretty, pretty_N. case_decide; [by repeat constructor|]. apply Hgo. constructor.
Qed.

Lemma pretty_N_go_not_nil (x : N) (s : string) : s ≠ "" → pretty_N_go x s ≠ "".
Proof.
  revert s. induction x as [x IH] using (well_founded_induction N.lt_wf_0).
  intros s Hs. destruct (decide (x = 0)%N) as [->|]; [by rewrite pretty_N_go_0|].
  rewrite pretty_N_go_step by lia. apply IH; [apply N.div_lt; lia|done].
Qed.

Lemma pretty_N_not_nil (x : N) : pretty x ≠ "".
Proof.
  unfold pretty, pretty_N. case_decide; [done|].
  rewrite pretty_N_go_step by lia. by apply pretty_N_go_not_nil.
Qed.

Lemma parse_digits_pretty (x : N) : parse_digits (pretty x) = Some (Z.of_N x).
Proof.
  pose proof (pretty_N_not_nil x) as Hn.
  assert (parse_digits (pretty x) = digits_val (pretty x) 0) as ->.
  { by destruct (pretty x). }
  unfold pretty, pretty_N in *. case_decide as Hx; [by subst|].
  rewrite digits_val_pretty_go by lia. done.
Qed.

Lemma Itoa_nonneg (z : Z) : (0 ≤ z)%Z → Itoa z = pretty (Z.to_N z).
Proof. intros Hz. unfold Itoa. destruct z; [done|done|lia]. Qed.

Lemma Itoa_digits (z : Z) :
  (0 ≤ z)%Z → Forall (λ c, is_digit c = true) (String.list_ascii_of_string (Itoa z)).
Proof. intros Hz. rewrite Itoa_nonneg by done. apply pretty_N_digits. Qed.

Lemma Itoa_not_nil (z : Z) : (0 ≤ z)%Z → Itoa z ≠ "".
Proof. intros Hz. rewrite Itoa_nonneg by done. apply pretty_N_not_nil. Qed.

Lemma Itoa_inj (x y : Z) : Itoa x = Itoa y → x = y.
Proof. apply (inj pretty). Qed.

Lemma parse_digits_Itoa (z : Z) : (0 ≤ z)%Z → parse_digits (Itoa z) = Some z.
Proof.
  intros Hz. rewrite Itoa_nonneg, parse_digits_pretty by done. f_equal. lia.
Qed.

Lemma check_int64_Some z : int64_range z → check_int64 z = Some z.
Proof.
  unfold int64_range, check_int64. intros [H1 H2].
  rewrite !bool_decide_eq_true_2 by done. done.
Qed.

Lemma Atoi_digits (s : string) :
  Forall (λ c, is_digit c = true) (String.list_ascii_of_string s) →
  Atoi s = (z ← parse_digits s; check_int64 z).
Proof.
  destruct s as [|c s]; [done|]. simpl. intros H%Forall_cons.
  destruct H as [Hc _]. unfold Atoi.
  destruct (decide (c = "-"%char)) as [->|Hm]; [done|].
  destruct (decide (c = "+"%char)) as [->|Hp]; [done|].
  by destruct c as [[] [] [] [] [] [] [] []].
Qed.

Lemma Atoi_Itoa (z : Z) : (0 ≤ z)%Z → int64_range z → Atoi (Itoa z) = Some z.
Proof.
  intros Hz Hr. rewrite Atoi_digits by by apply Itoa_digits.
  rewrite parse_digits_Itoa by done. simpl. by apply check_int64_Some.
Qed.

Lemma digits_val_zeros n s acc :
  acc = 0%Z → digits_val (zeros n +:+ s) acc = digits_val s acc.
Proof. intros ->. induction n as [|n IH]; simpl; [done|]. exact IH. Qed.

Lemma list_ascii_app (a b : string) :
  String.list_ascii_of_string (a +:+ b)
  = String.list_ascii_of_string a ++ String.list_ascii_of_string b.
Proof. induction a as [|c a IH]; simpl; [done|]. by rewrite IH. Qed.

Lemma Pad4_digits (z : Z) :
  (0 ≤ z)%Z → Forall (λ c, is_digit c = true) (String.list_ascii_of_string (Pad4 z)).
Proof.
  intros Hz. unfold Pad4. rewrite list_ascii_app. apply Forall_app. split.
  - induction (4 - String.length (Itoa z)) as [|n IH]; simpl; by constructor.
  - by apply Itoa_digits.
Qed.

(** Reading back a zero-padded number. *)
Lemma Atoi_Pad4 (z : Z) : (0 ≤ z)%Z → int64_range z → Atoi (Pad4 z) = Some z.
Proof.
  intros Hz Hr. rewrite Atoi_digits by by apply Pad4_digits.
  assert (parse_digits (Pad4 z) = Some z) as ->; [|by apply check_int64_Some].
  pose proof (parse_digits_Itoa z Hz) as Hp. pose proof (Itoa_not_nil z Hz) as Hn.
  unfold Pad4. set (n := 4 - String.length (Itoa z)).
  assert (digits_val (Itoa z) 0 = Some z) as Hd.
  { by destruct (Itoa z). }
  assert (zeros n +:+ Itoa z ≠ "") as Hne.
  { destruct n; [done|]. simpl. done. }
  transitivity (digits_val (zeros n +:+ Itoa z) 0).
  - by destruct (zeros n +:+ Itoa z).
  - by rewrite digits_val_zeros.
Qed.

Lemma Pad4_inj (x y : Z) :
  (0 ≤ x)%Z → (0 ≤ y)%Z → int64_range x → int64_range y → Pad4 x = Pad4 y → x = y.
Proof.
  intros Hx Hy Hrx Hry H.
  enough (Some x = Some y) by congruence.
  by rewrite <- (Atoi_Pad4 x), <- (Atoi_Pad4 y), H.
Qed.

(** A digit string has no separator byte. *)
Lemma digits_no_byte (c : ascii) (s : string) :
  is_digit c = false →
  Forall (λ d, is_digit d = true) (String.list_ascii_of_string s) → no_byte c s.
Proof.
  intros Hc Hs Hin. rewrite Forall_forall in Hs. specialize (Hs _ Hin). congruence.
Qed.

Lemma no_byte_Join l c d :
  c ≠ d → Forall (no_byte c) l → no_byte c (Join l (String d EmptyString)).
Proof.
  intros Hcd Hl. induction Hl as [|w ws Hw Hws IH]; [apply not_elem_of_nil|].
  destruct ws as [|w' ws]; [done|]. rewrite Join_cons by done. unfold no_byte in *.
  rewrite !list_ascii_app. simpl. rewrite elem_of_app, elem_of_cons. tauto.
Qed.
