(* ===== verification/GoRegexp.v ===== *)
(** * Go regular expressions

    The part of Go's [regexp] syntax that the operator's patterns use, with
    the leftmost-first matching of that package written as a backtracking
    matcher over byte strings.  A pattern is a syntax tree; [^] and [$] are the
    entry points [match_prefix] and [match_full]; an unanchored search tries
    every start position from the left ([find_submatch]).

    [lang] is the set of words of a pattern and [rmatch_defined] relates the
    matcher to it. *)

From Stdlib Require Import Ascii.
From stdpp Require Import base gmap strings pretty numbers list.
From S2P Require Import Prelude GoStrings.

Inductive re : Type :=
| RSet (p : ascii → bool)
| REps
| RSeq (r1 r2 : re)
| RAlt (r1 r2 : re)
| RStar (r : re)
| RGroup (n : nat) (r : re).

(** Captured groups, the latest first. *)
Abbreviation captures := (list (nat * string)).

(** The text consumed between two positions of the same input. *)
Fixpoint take_str (n : nat) (s : string) : string :=
  match n, s with
  | S n, String c s' => String c (take_str n s')
  | _, _ => EmptyString
  end.

Definition consumed (s s' : string) : string :=
  take_str (String.length s - String.length s') s.

(** The matcher in continuation-passing style: alternatives and iterations are
    tried in order of preference, and the first one for which the rest of the
    pattern also matches is kept. *)
Fixpoint rmatch (r : re) (s : string) (caps : captures)
    (k : string → captures → option captures) : option captures :=
  match r with
  | RSet p =>
      match s with
      | String c s' => if p c then k s' caps else None
      | EmptyString => None
      end
  | REps => k s caps
  | RSeq r1 r2 => rmatch r1 s caps (λ s' caps', rmatch r2 s' caps' k)
  | RAlt r1 r2 =>
      match rmatch r1 s caps k with
      | Some x => Some x
      | None => rmatch r2 s caps k
      end
  | RStar r1 =>
      (fix loop (n : nat) (s : string) (caps : captures) : option captures :=
         match n with
         | 0 => k s caps
         | S n =>
             match rmatch r1 s caps (λ s' caps',
                     if (String.length s' <? String.length s)%nat then loop n s' caps' else None) with
             | Some x => Some x
             | None => k s caps
             end
         end) (String.length s) s caps
  | RGroup n r1 => rmatch r1 s caps (λ s' caps', k s' ((n, consumed s s') :: caps'))
  end.

(** The text of group [n]; a group that did not take part is empty. *)
Fixpoint group (n : nat) (caps : captures) : string :=
  match caps with
  | [] => EmptyString
  | (m, w) :: caps => if bool_decide (m = n) then w else group n caps
  end.

(** A pattern that starts with [^] *)
Definition match_prefix (r : re) (s : string) : option captures :=
  rmatch r s [] (λ _ caps, Some caps).

(** A pattern that starts with [^] and ends with [$] *)
Definition match_full (r : re) (s : string) : option captures :=
  rmatch r s [] (λ s' caps, if bool_decide (s' = "") then Some caps else None).

(** An unanchored pattern: the leftmost match *)
Fixpoint find_submatch (r : re) (s : string) : option captures :=
  match match_prefix r s with
  | Some caps => Some caps
  | None =>
      match s with
      | EmptyString => None
      | String _ s' => find_submatch r s'
      end
  end.

(** Derived forms: [r?], [r+], [r{n}], [r{0,n}], literals and classes *)
Definition ROpt (r : re) : re := RAlt r REps.

Definition RPlus (r : re) : re := RSeq r (RStar r).

Fixpoint RRep (n : nat) (r : re) : re :=
  match n with
  | 0 => REps
  | S n => RSeq r (RRep n r)
  end.

Fixpoint RUpto (n : nat) (r : re) : re :=
  match n with
  | 0 => REps
  | S n => ROpt (RSeq r (RUpto n r))
  end.

Definition RByte (c : ascii) : re := RSet (λ d, bool_decide (d = c)).

Fixpoint RLit (s : string) : re :=
  match s with
  | EmptyString => REps
  | String c s' => RSeq (RByte c) (RLit s')
  end.

Definition in_range (lo hi c : ascii) : bool :=
  (nat_of_ascii lo <=? nat_of_ascii c)%nat && (nat_of_ascii c <=? nat_of_ascii hi)%nat.

Definition is_lower (c : ascii) : bool := in_range "a" "z" c.

Definition is_upper (c : ascii) : bool := in_range "A" "Z" c.

(** [.] : any byte but the newline *)
Definition any_byte (c : ascii) : bool := negb (bool_decide (c = "010"%char)).

(** ** Words of a pattern *)

Inductive star_lang (P : string → Prop) : string → Prop :=
| star_nil : star_lang P ""
| star_app u v : P u → star_lang P v → star_lang P (u +:+ v).

Fixpoint lang (r : re) (w : string) : Prop :=
  match r with
  | RSet p => ∃ c, w = String c "" ∧ p c = true
  | REps => w = ""
  | RSeq r1 r2 => ∃ u v, w = u +:+ v ∧ lang r1 u ∧ lang r2 v
  | RAlt r1 r2 => lang r1 w ∨ lang r2 w
  | RStar r1 => star_lang (lang r1) w
  | RGroup _ r1 => lang r1 w
  end.

(** A continuation succeeds exactly on the inputs of [P], whatever was
    captured before. *)
Definition succeeds_on (k : string → captures → option captures) (P : string → Prop) : Prop :=
  ∀ s caps, is_Some (k s caps) ↔ P s.

Definition then_lang (L : string → Prop) (P : string → Prop) (s : string) : Prop :=
  ∃ u v, s = u +:+ v ∧ L u ∧ P v.

Lemma star_lang_nonempty P w :
  star_lang P w → w = "" ∨ ∃ u v, u ≠ "" ∧ w = u +:+ v ∧ P u ∧ star_lang P v.
Proof.
  induction 1 as [|u v Hu Hv IH]; [by left|].
  destruct (decide (u = "")) as [->|Hne]; [done|]. right. eauto 10.
Qed.

Lemma rmatch_star_defined r1 (P : string → Prop) k :
  (∀ k' P', succeeds_on k' P' →
     succeeds_on (λ s caps, rmatch r1 s caps k') (then_lang (lang r1) P')) →
  succeeds_on k P →
  succeeds_on (λ s caps, rmatch (RStar r1) s caps k) (then_lang (star_lang (lang r1)) P).
Proof.
  intros Hr1 Hk s caps. simpl.
  enough (∀ n s caps, String.length s ≤ n →
    is_Some ((fix loop (n : nat) (s : string) (caps : captures) : option captures :=
         match n with
         | 0 => k s caps
         | S n =>
             match rmatch r1 s caps (λ s' caps',
                     if (String.length s' <? String.length s)%nat then loop n s' caps' else None) with
             | Some x => Some x
             | None => k s caps
             end
         end) n s caps) ↔ then_lang (star_lang (lang r1)) P s) as H by by apply H.
  clear s caps. intros n. induction n as [|n IH]; intros s caps Hlen.
  - rewrite (Hk s caps). destruct s; simpl in Hlen; [|lia]. split.
    + intros HP. exists "", "". split_and!; [done|constructor|done].
    + intros (u & v & Heq & _ & HP). destruct u; [|done]. simpl in Heq. by subst.
  - set (kl := λ s' caps', _).
    assert (succeeds_on kl (λ s', String.length s' < String.length s ∧
              then_lang (star_lang (lang r1)) P s')) as Hkl.
    { intros s' caps'. unfold kl. destruct (Nat.ltb_spec (String.length s') (String.length s)).
      - rewrite IH by lia. naive_solver.
      - split; [by intros []|lia]. }
    pose proof (Hr1 _ _ Hkl s caps) as Hm. simpl in Hm.
    transitivity (is_Some (rmatch r1 s caps kl) ∨ is_Some (k s caps)).
    { unfold kl. destruct (rmatch r1 s caps _); split; naive_solver. }
    rewrite Hm, (Hk s caps). split.
    + intros [(u & v & -> & Hu & Hlt & u' & v' & -> & Hu' & HP)|HP].
      * exists (u +:+ u'), v'. rewrite str_app_assoc. split_and!; [done|by constructor|done].
      * exists "", s. split_and!; [done|constructor|done].
    + intros (u & v & -> & Hu & HP). destruct (star_lang_nonempty _ _ Hu) as [->|H]; [by right|].
      destruct H as (u1 & u2 & Hne & -> & Hu1 & Hu2). left.
      exists u1, (u2 +:+ v). rewrite str_app_assoc. split_and!; [done|done| |].
      * rewrite (str_length_app u1). destruct u1; [done|]. simpl. lia.
      * by exists u2, v.
Qed.

(** The matcher succeeds exactly when some prefix of the input is a word of
    the pattern and the rest of the pattern accepts what remains. *)
Lemma rmatch_defined r : ∀ k P, succeeds_on k P →
  succeeds_on (λ s caps, rmatch r s caps k) (then_lang (lang r) P).
Proof.
  induction r as [p| |r1 IH1 r2 IH2|r1 IH1 r2 IH2|r1 IH1|n r1 IH1]; intros k P Hk.
  - intros s caps. simpl. destruct s as [|c s].
    + split; [by intros []|]. by intros (u & v & H & (c & -> & _) & _).
    + destruct (p c) eqn:Hp.
      * rewrite (Hk s caps). split.
        -- intros HP. exists (String c ""), s. eauto 10.
        -- intros (u & v & H & (d & -> & _) & HP). simpl in H. by injection H as -> ->.
      * split; [by intros []|]. intros (u & v & H & (d & -> & Hd) & HP).
        simpl in H. injection H as -> ->. congruence.
  - intros s caps. simpl. rewrite (Hk s caps). split.
    + intros HP. by exists "", s.
    + by intros (u & v & -> & -> & HP).
  - intros s caps. simpl. pose proof (IH1 _ _ (IH2 _ _ Hk) s caps) as H. simpl in H.
    rewrite H. split.
    + intros (u & v & -> & Hu & u' & v' & -> & Hu' & HP). exists (u +:+ u'), v'.
      rewrite str_app_assoc. eauto 10.
    + intros (w & v & -> & (u & u' & -> & Hu & Hu') & HP). exists u, (u' +:+ v).
      rewrite str_app_assoc. split_and!; [done|done|]. by exists u', v.
  - intros s caps. simpl.
    transitivity (is_Some (rmatch r1 s caps k) ∨ is_Some (rmatch r2 s caps k)).
    { destruct (rmatch r1 s caps k); split; naive_solver. }
    rewrite (IH1 _ _ Hk s caps), (IH2 _ _ Hk s caps). unfold then_lang. naive_solver.
  - by apply rmatch_star_defined.
  - intros s caps. simpl.
    apply (IH1 (λ s' caps', k s' ((n, consumed s s') :: caps')) P).
    intros s' caps'. apply Hk.
Qed.

Lemma match_full_lang r s : is_Some (match_full r s) ↔ lang r s.
Proof.
  unfold match_full.
  assert (succeeds_on (λ s' caps, if bool_decide (s' = "") then Some caps else None)
    (λ s', s' = "")) as Hk.
  { intros s' caps. case_bool_decide; [naive_solver|]. split; [by intros []|done]. }
  pose proof (rmatch_defined r _ _ Hk s []) as H. simpl in H. rewrite H. split.
  - intros (u & v & -> & Hu & ->). by rewrite str_app_nil_r.
  - intros Hs. exists s, "". by rewrite str_app_nil_r.
Qed.

(** ** Words of the derived forms *)

Definition all_bytes (p : ascii → bool) (s : string) : Prop :=
  Forall (λ c, p c = true) (String.list_ascii_of_string s).

Lemma lang_RUpto_set n p w :
  lang (RUpto n (RSet p)) w ↔ String.length w ≤ n ∧ all_bytes p w.
Proof.
  unfold all_bytes. revert w. induction n as [|n IH]; intros w; simpl.
  - split; [intros ->; by split; [|constructor]|]. by intros [Hl _]; destruct w; [|simpl in Hl; lia].
  - split.
    + intros [(u & v & -> & (c & -> & Hc) & Hv)| ->]; [|split; [simpl; lia|constructor]].
      apply IH in Hv as [Hl Hv]. simpl. split; [lia|by constructor].
    + intros [Hl Hw]. destruct w as [|c w]; [by right|]. left. simpl in *.
      apply Forall_cons in Hw as [Hc Hw].
      exists (String c ""), w. split_and!; [done|eauto|]. apply IH. split; [lia|done].
Qed.

(** ** Greedy runs of a byte class

    A greedy class followed by a part that accepts the rest consumes the
    longest run. *)
Definition stops (p : ascii → bool) (s : string) : Prop :=
  match s with
  | EmptyString => True
  | String c _ => p c = false
  end.

Fixpoint star_set (p : ascii → bool) (s : string) (caps : captures)
    (k : string → captures → option captures) : option captures :=
  match s with
  | EmptyString => k EmptyString caps
  | String c s' =>
      if p c then
        match star_set p s' caps k with
        | Some x => Some x
        | None => k s caps
        end
      else k s caps
  end.

Lemma rmatch_star_set p s caps k :
  rmatch (RStar (RSet p)) s caps k = star_set p s caps k.
Proof.
  simpl. induction s as [|c s IH]; simpl; [done|].
  destruct (p c); [|done].
  rewrite (proj2 (Nat.ltb_lt _ _) (Nat.lt_succ_diag_r _)). by rewrite IH.
Qed.

Lemma star_set_run p d rest caps k x :
  all_bytes p d → stops p rest → k rest caps = Some x →
  star_set p (d +:+ rest) caps k = Some x.
Proof.
  unfold all_bytes. induction d as [|c d IH]; simpl; intros Hd Hrest Hk.
  - destruct rest as [|c rest]; simpl in *; [done|]. by rewrite Hrest.
  - apply Forall_cons in Hd as [Hc Hd]. rewrite Hc. by rewrite IH.
Qed.

Lemma rmatch_plus_run p d rest caps k x :
  d ≠ "" → all_bytes p d → stops p rest → k rest caps = Some x →
  rmatch (RPlus (RSet p)) (d +:+ rest) caps k = Some x.
Proof.
  intros Hne Hd Hrest Hk. destruct d as [|c d]; [done|].
  unfold all_bytes in Hd. simpl in Hd. apply Forall_cons in Hd as [Hc Hd].
  change (rmatch (RPlus (RSet p)) (String c (d +:+ rest)) caps k = Some x).
  change (rmatch (RPlus (RSet p)) (String c (d +:+ rest)) caps k)
    with (if p c then rmatch (RStar (RSet p)) (d +:+ rest) caps k else None).
  rewrite Hc, rmatch_star_set. by apply star_set_run.
Qed.

Lemma take_str_app a b : take_str (String.length a) (a +:+ b) = a.
Proof. induction a as [|c a IH]; simpl; [by destruct b|]. by rewrite IH. Qed.

Lemma consumed_app a b : consumed (a +:+ b) b = a.
Proof.
  unfold consumed. rewrite str_length_app.
  replace (String.length a + String.length b - String.length b) with (String.length a) by lia.
  apply take_str_app.
Qed.

(** A capturing group around a greedy run *)
Lemma rmatch_group_run n p d rest caps k x :
  d ≠ "" → all_bytes p d → stops p rest → k rest ((n, d) :: caps) = Some x →
  rmatch (RGroup n (RPlus (RSet p))) (d +:+ rest) caps k = Some x.
Proof.
  intros Hne Hd Hrest Hk.
  change (rmatch (RPlus (RSet p)) (d +:+ rest) caps
            (λ s' caps', k s' ((n, consumed (d +:+ rest) s') :: caps')) = Some x).
  apply rmatch_plus_run; [done..|]. by rewrite consumed_app.
Qed.
