(* ===== verification/K8s.v ===== *)
(** * Kubernetes data

    The parts of the Kubernetes API types that the operator builds, changes or
    compares: containers, volumes, mounts and what belongs to them.  Fields that
    the operator only copies are kept as opaque values. *)

From stdpp Require Import base gmap strings pretty numbers list.
From S2P Require Import Prelude.

(** A value of a Kubernetes API type that the operator copies and compares
    but never inspects (tolerations, resources, ...).  Values are kept up to
    equality. *)
Record k8s_opaque : Type := Opaque { opaque_id : positive }.

#[global] Instance k8s_opaque_eq_dec : EqDecision k8s_opaque.
Proof. solve_decision. Defined.

(** What a field has that nobody sets *)
Definition zero_opaque : k8s_opaque := Opaque 1.

(** ** Volumes *)

(** A [fieldRef] names a field of the pod, a [resourceFieldRef] a container and
    a resource of it. *)
Record DownwardAPIVolumeFile : Type := MkDownwardAPIVolumeFile {
  dw_Path : string;
  dw_FieldRef : option string;
  dw_ResourceFieldRef : option (string * string) }.

(** [ConfigMapProjection] and [SecretProjection]: the object, and pairs of a key
    and a path *)
Record KeyProjection : Type := MkKeyProjection {
  kp_Name : string;
  kp_Items : list (string * string) }.

Record VolumeProjection : Type := MkVolumeProjection {
  vp_DownwardAPI : option (list DownwardAPIVolumeFile);
  vp_ConfigMap : option KeyProjection;
  vp_Secret : option KeyProjection }.

Inductive VolumeSource : Type :=
| SecretVolume (secretName : string)
| ConfigMapVolume (name : string)
| ProjectedVolume (sources : list VolumeProjection)
| OtherVolume (source : k8s_opaque).

Record Volume : Type := MkVolume { vol_Name : string; vol_Source : VolumeSource }.

Record VolumeMount : Type := MkVolumeMount {
  vm_Name : string;
  vm_MountPath : string;
  vm_SubPath : string;
  vm_Rest : k8s_opaque }.

(** ** Containers *)

(** [valueFrom] with a [fieldRef], or anything else *)
Inductive EnvVarSource : Type :=
| FieldEnv (fieldPath : string)
| OtherEnv (source : k8s_opaque).

Record EnvVar : Type := MkEnvVar {
  ev_Name : string;
  ev_Value : string;
  ev_ValueFrom : option EnvVarSource }.

Record Capabilities : Type := MkCapabilities {
  cap_Add : list string;
  cap_Drop : list string }.

Record SecurityContext : Type := MkSecurityContext {
  sctx_Capabilities : option Capabilities;
  sctx_Rest : k8s_opaque }.

Inductive Probe : Type :=
| ExecProbe (command : list string)
| OtherProbe (probe : k8s_opaque).

Record Container : Type := MkContainer {
  c_Name : string;
  c_Image : string;
  c_ImagePullPolicy : string;
  c_Resources : k8s_opaque;
  c_Ports : list (Z * string);
  c_ReadinessProbe : option Probe;
  c_SecurityContext : option SecurityContext;
  c_Env : list EnvVar;
  c_VolumeMounts : list VolumeMount;
  c_Rest : k8s_opaque }.

Section eq_decisions.

#[global] Instance DownwardAPIVolumeFile_eq_dec : EqDecision DownwardAPIVolumeFile.
Proof. solve_decision. Defined.

#[global] Instance KeyProjection_eq_dec : EqDecision KeyProjection.
Proof. solve_decision. Defined.

#[global] Instance VolumeProjection_eq_dec : EqDecision VolumeProjection.
Proof. solve_decision. Defined.

#[global] Instance VolumeSource_eq_dec : EqDecision VolumeSource.
Proof. solve_decision. Defined.

#[global] Instance Volume_eq_dec : EqDecision Volume.
Proof. solve_decision. Defined.

#[global] Instance VolumeMount_eq_dec : EqDecision VolumeMount.
Proof. solve_decision. Defined.

#[global] Instance EnvVarSource_eq_dec : EqDecision EnvVarSource.
Proof. solve_decision. Defined.

#[global] Instance EnvVar_eq_dec : EqDecision EnvVar.
Proof. solve_decision. Defined.

#[global] Instance Capabilities_eq_dec : EqDecision Capabilities.
Proof. solve_decision. Defined.

#[global] Instance SecurityContext_eq_dec : EqDecision SecurityContext.
Proof. solve_decision. Defined.

#[global] Instance Probe_eq_dec : EqDecision Probe.
Proof. solve_decision. Defined.

#[global] Instance Container_eq_dec : EqDecision Container.
Proof. solve_decision. Defined.

End eq_decisions.
