(* ===== verification/Types.v ===== *)
(** * The VerticaDB custom resource

    [api/v1beta1/verticadb_types.go], [pkg/paths/paths.go] and
    [pkg/names/names.go]: the resource as records (a field [F] of a struct with
    prefix [p] is [p_F]) and the methods on it.

    Go strings with a closed set of intended values ([KSafetyType],
    [CommunalInitPolicy], ...) stay strings, because a resource can hold any
    string and the webhook decides which are accepted.  A slice or map that is
    compared with [reflect.DeepEqual] is an [option]: [None] is [nil], which
    [DeepEqual] distinguishes from an empty value. *)

From Stdlib Require Import Ascii.
From stdpp Require Import base gmap strings pretty numbers list.
From S2P Require Import Prelude GoStrings GoRegexp K8s.

(** [metav1.Time]: the zero time, or a number of nanoseconds since the epoch *)
Inductive Time : Type :=
| ZeroTime
| UnixTime (ns : Z).

#[global] Instance Time_eq_dec : EqDecision Time.
Proof. solve_decision. Defined.

(** [types.NamespacedName] *)
Record NamespacedName : Type := MkNamespacedName { nn_Namespace : string; nn_Name : string }.

#[global] Instance NamespacedName_eq_dec : EqDecision NamespacedName.
Proof. solve_decision. Defined.

#[global] Instance NamespacedName_countable : Countable NamespacedName.
Proof.
  apply (inj_countable' (λ n, (nn_Namespace n, nn_Name n))
    (λ p, MkNamespacedName p.1 p.2)). by intros [].
Defined.

(** ** [verticadb_types.go]: the spec *)

Definition CommunalInitPolicyCreate : string := "Create".
Definition CommunalInitPolicyRevive : string := "Revive".
Definition CommunalInitPolicyScheduleOnly : string := "ScheduleOnly".

Definition URTime : Z := 30.

Definition EncryptSpreadCommWithVertica : string := "vertica".

Definition KSafety0 : string := "0".
Definition KSafety1 : string := "1".

Definition OfflineUpgrade : string := "Offline".
Definition OnlineUpgrade : string := "Online".
Definition AutoUpgrade : string := "Auto".

Record SubclusterPodCount : Type := MkSubclusterPodCount {
  spc_SubclusterIndex : Z;
  spc_PodCount : Z }.

Record CommunalStorage : Type := MkCommunalStorage {
  com_Path : string;
  com_IncludeUIDInPath : bool;
  com_Endpoint : string;
  com_CredentialSecret : string;
  com_CaFile : string;
  com_Region : string;
  com_HadoopConfig : string;
  com_KerberosServiceName : string;
  com_KerberosRealm : string }.

(** [RequestSize] is a [resource.Quantity], of which only the numeric value
    matters ([Cmp]). *)
Record LocalStorage : Type := MkLocalStorage {
  loc_StorageClass : string;
  loc_RequestSize : Z;
  loc_DataPath : string;
  loc_DepotPath : string }.

Record Affinity : Type := MkAffinity {
  aff_NodeAffinity : option k8s_opaque;
  aff_PodAffinity : option k8s_opaque;
  aff_PodAntiAffinity : option k8s_opaque }.

#[global] Instance Affinity_eq_dec : EqDecision Affinity.
Proof. solve_decision. Defined.

Record Subcluster : Type := MkSubcluster {
  sc_Name : string;
  sc_Size : Z;
  sc_IsPrimary : bool;
  sc_IsTransient : bool;
  sc_ImageOverride : string;
  sc_NodeSelector : option (gmap string string);
  sc_Affinity : Affinity;
  sc_PriorityClassName : string;
  sc_Tolerations : option (list k8s_opaque);
  sc_Resources : k8s_opaque;
  sc_ServiceType : string;
  sc_ServiceName : string;
  sc_NodePort : Z;
  sc_ExternalIPs : option (list string);
  sc_LoadBalancerIP : string;
  sc_ServiceAnnotations : option (gmap string string) }.

#[global] Instance Subcluster_eq_dec : EqDecision Subcluster.
Proof. solve_decision. Defined.

Record SubclusterSelection : Type := MkSubclusterSelection {
  sel_Names : option (list string);
  sel_Template : Subcluster }.

Record VerticaDBSpec : Type := MkVerticaDBSpec {
  spec_ImagePullPolicy : string;
  spec_ImagePullSecrets : list string;
  spec_Image : string;
  spec_Labels : gmap string string;
  spec_Annotations : gmap string string;
  spec_AutoRestartVertica : bool;
  spec_DBName : string;
  spec_ShardCount : Z;
  spec_SuperuserPasswordSecret : string;
  spec_LicenseSecret : string;
  spec_IgnoreClusterLease : bool;
  spec_InitPolicy : string;
  spec_UpgradePolicy : string;
  spec_IgnoreUpgradePath : bool;
  spec_ReviveOrder : list SubclusterPodCount;
  spec_RestartTimeout : Z;
  spec_Communal : CommunalStorage;
  spec_Local : LocalStorage;
  spec_Subclusters : list Subcluster;
  spec_TemporarySubclusterRouting : SubclusterSelection;
  spec_KSafety : string;
  spec_RequeueTime : Z;
  spec_UpgradeRequeueTime : Z;
  spec_Sidecars : list Container;
  spec_Volumes : list Volume;
  spec_VolumeMounts : list VolumeMount;
  spec_CertSecrets : list string;
  spec_KerberosSecret : string;
  spec_SSHSecret : string;
  spec_EncryptSpreadComm : string;
  spec_SecurityContext : option SecurityContext }.

(** ** The status *)

Inductive VerticaDBConditionType : Type :=
| AutoRestartVertica
| DBInitialized
| ImageChangeInProgress
| OfflineUpgradeInProgress
| OnlineUpgradeInProgress
| VerticaRestartNeeded
| OtherConditionType (name : string).

#[global] Instance VerticaDBConditionType_eq_dec : EqDecision VerticaDBConditionType.
Proof. solve_decision. Defined.

(** [corev1.ConditionStatus] *)
Inductive ConditionStatus : Type :=
| ConditionTrue
| ConditionFalse
| ConditionUnknown
| ConditionEmpty.

#[global] Instance ConditionStatus_eq_dec : EqDecision ConditionStatus.
Proof. solve_decision. Defined.

Definition AutoRestartVerticaIndex : nat := 0.
Definition DBInitializedIndex : nat := 1.
Definition ImageChangeInProgressIndex : nat := 2.
Definition OfflineUpgradeInProgressIndex : nat := 3.
Definition OnlineUpgradeInProgressIndex : nat := 4.
Definition VerticaRestartNeededIndex : nat := 5.

Definition VerticaDBConditionIndexMap (t : VerticaDBConditionType) : option nat :=
  match t with
  | AutoRestartVertica => Some AutoRestartVerticaIndex
  | DBInitialized => Some DBInitializedIndex
  | ImageChangeInProgress => Some ImageChangeInProgressIndex
  | OfflineUpgradeInProgress => Some OfflineUpgradeInProgressIndex
  | OnlineUpgradeInProgress => Some OnlineUpgradeInProgressIndex
  | VerticaRestartNeeded => Some VerticaRestartNeededIndex
  | OtherConditionType _ => None
  end.

(** A missing key of the Go map reads as the empty condition type. *)
Definition VerticaDBConditionNameMap (i : nat) : VerticaDBConditionType :=
  match i with
  | 0 => AutoRestartVertica
  | 1 => DBInitialized
  | 2 => ImageChangeInProgress
  | 3 => OfflineUpgradeInProgress
  | 4 => OnlineUpgradeInProgress
  | 5 => VerticaRestartNeeded
  | _ => OtherConditionType ""
  end.

Record VerticaDBCondition : Type := MkVerticaDBCondition {
  cond_Type : VerticaDBConditionType;
  cond_Status : ConditionStatus;
  cond_LastTransitionTime : Time }.

#[global] Instance VerticaDBCondition_eq_dec : EqDecision VerticaDBCondition.
Proof. solve_decision. Defined.

Record VerticaDBPodStatus : Type := MkVerticaDBPodStatus {
  vps_Installed : bool;
  vps_AddedToDB : bool;
  vps_VNodeName : string;
  vps_UpNode : bool;
  vps_ReadOnly : bool }.

#[global] Instance VerticaDBPodStatus_eq_dec : EqDecision VerticaDBPodStatus.
Proof. solve_decision. Defined.

Record SubclusterStatus : Type := MkSubclusterStatus {
  scs_Name : string;
  scs_InstallCount : Z;
  scs_AddedToDBCount : Z;
  scs_UpNodeCount : Z;
  scs_ReadOnlyCount : Z;
  scs_Detail : list VerticaDBPodStatus }.

#[global] Instance SubclusterStatus_eq_dec : EqDecision SubclusterStatus.
Proof. solve_decision. Defined.

Record VerticaDBStatus : Type := MkVerticaDBStatus {
  st_InstallCount : Z;
  st_AddedToDBCount : Z;
  st_UpNodeCount : Z;
  st_SubclusterCount : Z;
  st_Subclusters : list SubclusterStatus;
  st_Conditions : list VerticaDBCondition;
  st_UpgradeStatus : string }.

#[global] Instance VerticaDBStatus_eq_dec : EqDecision VerticaDBStatus.
Proof. solve_decision. Defined.

Record VerticaDB : Type := MkVerticaDB {
  vdb_Name : string;
  vdb_Namespace : string;
  vdb_UID : string;
  vdb_Annotations : gmap string string;
  vdb_ResourceVersion : Z;
  vdb_Spec : VerticaDBSpec;
  vdb_Status : VerticaDBStatus }.

(** Field updates: the fields of the spec that the operator's own code
    assigns, and the parts of the resource. *)
Definition set_spec_fields (s : VerticaDBSpec) (pull : string) (com : CommunalStorage)
    (subs : list Subcluster) (tsr : SubclusterSelection) : VerticaDBSpec :=
  {| spec_ImagePullPolicy := pull;
     spec_ImagePullSecrets := spec_ImagePullSecrets s;
     spec_Image := spec_Image s;
     spec_Labels := spec_Labels s;
     spec_Annotations := spec_Annotations s;
     spec_AutoRestartVertica := spec_AutoRestartVertica s;
     spec_DBName := spec_DBName s;
     spec_ShardCount := spec_ShardCount s;
     spec_SuperuserPasswordSecret := spec_SuperuserPasswordSecret s;
     spec_LicenseSecret := spec_LicenseSecret s;
     spec_IgnoreClusterLease := spec_IgnoreClusterLease s;
     spec_InitPolicy := spec_InitPolicy s;
     spec_UpgradePolicy := spec_UpgradePolicy s;
     spec_IgnoreUpgradePath := spec_IgnoreUpgradePath s;
     spec_ReviveOrder := spec_ReviveOrder s;
     spec_RestartTimeout := spec_RestartTimeout s;
     spec_Communal := com;
     spec_Local := spec_Local s;
     spec_Subclusters := subs;
     spec_TemporarySubclusterRouting := tsr;
     spec_KSafety := spec_KSafety s;
     spec_RequeueTime := spec_RequeueTime s;
     spec_UpgradeRequeueTime := spec_UpgradeRequeueTime s;
     spec_Sidecars := spec_Sidecars s;
     spec_Volumes := spec_Volumes s;
     spec_VolumeMounts := spec_VolumeMounts s;
     spec_CertSecrets := spec_CertSecrets s;
     spec_KerberosSecret := spec_KerberosSecret s;
     spec_SSHSecret := spec_SSHSecret s;
     spec_EncryptSpreadComm := spec_EncryptSpreadComm s;
     spec_SecurityContext := spec_SecurityContext s |}.

Definition set_spec (v : VerticaDB) (s : VerticaDBSpec) : VerticaDB :=
  MkVerticaDB (vdb_Name v) (vdb_Namespace v) (vdb_UID v) (vdb_Annotations v)
    (vdb_ResourceVersion v) s (vdb_Status v).

Definition set_Subclusters (v : VerticaDB) (subs : list Subcluster) : VerticaDB :=
  let s := vdb_Spec v in
  set_spec v (set_spec_fields s (spec_ImagePullPolicy s) (spec_Communal s) subs
                (spec_TemporarySubclusterRouting s)).

Definition set_Status (v : VerticaDB) (st : VerticaDBStatus) : VerticaDB :=
  MkVerticaDB (vdb_Name v) (vdb_Namespace v) (vdb_UID v) (vdb_Annotations v)
    (vdb_ResourceVersion v) (vdb_Spec v) st.

Definition set_Annotations (v : VerticaDB) (a : gmap string string) : VerticaDB :=
  MkVerticaDB (vdb_Name v) (vdb_Namespace v) (vdb_UID v) a
    (vdb_ResourceVersion v) (vdb_Spec v) (vdb_Status v).

Definition set_Conditions (st : VerticaDBStatus) (cs : list VerticaDBCondition) : VerticaDBStatus :=
  MkVerticaDBStatus (st_InstallCount st) (st_AddedToDBCount st) (st_UpNodeCount st)
    (st_SubclusterCount st) (st_Subclusters st) cs (st_UpgradeStatus st).

Definition set_UpgradeStatus (st : VerticaDBStatus) (msg : string) : VerticaDBStatus :=
  MkVerticaDBStatus (st_InstallCount st) (st_AddedToDBCount st) (st_UpNodeCount st)
    (st_SubclusterCount st) (st_Subclusters st) (st_Conditions st) msg.

(** The shape of [Subcluster] updates *)
Definition set_sc_Name (c : Subcluster) (n : string) : Subcluster :=
  MkSubcluster n (sc_Size c) (sc_IsPrimary c) (sc_IsTransient c) (sc_ImageOverride c)
    (sc_NodeSelector c) (sc_Affinity c) (sc_PriorityClassName c) (sc_Tolerations c)
    (sc_Resources c) (sc_ServiceType c) (sc_ServiceName c) (sc_NodePort c)
    (sc_ExternalIPs c) (sc_LoadBalancerIP c) (sc_ServiceAnnotations c).

Definition set_sc_Size (c : Subcluster) (n : Z) : Subcluster :=
  MkSubcluster (sc_Name c) n (sc_IsPrimary c) (sc_IsTransient c) (sc_ImageOverride c)
    (sc_NodeSelector c) (sc_Affinity c) (sc_PriorityClassName c) (sc_Tolerations c)
    (sc_Resources c) (sc_ServiceType c) (sc_ServiceName c) (sc_NodePort c)
    (sc_ExternalIPs c) (sc_LoadBalancerIP c) (sc_ServiceAnnotations c).

Definition set_sc_IsPrimary (c : Subcluster) (b : bool) : Subcluster :=
  MkSubcluster (sc_Name c) (sc_Size c) b (sc_IsTransient c) (sc_ImageOverride c)
    (sc_NodeSelector c) (sc_Affinity c) (sc_PriorityClassName c) (sc_Tolerations c)
    (sc_Resources c) (sc_ServiceType c) (sc_ServiceName c) (sc_NodePort c)
    (sc_ExternalIPs c) (sc_LoadBalancerIP c) (sc_ServiceAnnotations c).

Definition set_sc_ServiceName (c : Subcluster) (n : string) : Subcluster :=
  MkSubcluster (sc_Name c) (sc_Size c) (sc_IsPrimary c) (sc_IsTransient c) (sc_ImageOverride c)
    (sc_NodeSelector c) (sc_Affinity c) (sc_PriorityClassName c) (sc_Tolerations c)
    (sc_Resources c) (sc_ServiceType c) n (sc_NodePort c)
    (sc_ExternalIPs c) (sc_LoadBalancerIP c) (sc_ServiceAnnotations c).

(** The Go zero values *)

Definition zero_Affinity : Affinity := MkAffinity None None None.

Definition zero_Subcluster : Subcluster :=
  MkSubcluster "" 0 false false "" None zero_Affinity "" None zero_opaque "" "" 0 None "" None.

Definition zero_SubclusterStatus : SubclusterStatus := MkSubclusterStatus "" 0 0 0 0 [].

Definition zero_Status : VerticaDBStatus := MkVerticaDBStatus 0 0 0 0 [] [] "".

Definition zero_CommunalStorage : CommunalStorage :=
  MkCommunalStorage "" false "" "" "" "" "" "" "".

Definition zero_VerticaDBSpec : VerticaDBSpec :=
  MkVerticaDBSpec "" [] "" ∅ ∅ false "" 0 "" "" false "" "" false [] 0 zero_CommunalStorage
    (MkLocalStorage "" 0 "" "") [] (MkSubclusterSelection None zero_Subcluster) "" 0 0 [] [] [] []
    "" "" "" None.

Definition zero_vdb : VerticaDB := MkVerticaDB "" "" "" ∅ 0 zero_VerticaDBSpec zero_Status.

(** ** Methods of [VerticaDB] and [Subcluster] *)

Definition VersionAnnotation : string := "vertica.com/version".
Definition BuildDateAnnotation : string := "vertica.com/buildDate".
Definition BuildRefAnnotation : string := "vertica.com/buildRef".
Definition DefaultS3Region : string := "us-east-1".
Definition DefaultGCloudRegion : string := "US-EAST1".
Definition DefaultGCloudEndpoint : string := "https://storage.googleapis.com".

Definition ExtractNamespacedName (v : VerticaDB) : NamespacedName :=
  MkNamespacedName (vdb_Namespace v) (vdb_Name v).

Definition MakeVDBName : NamespacedName := MkNamespacedName "default" "vertica-sample".

(** The first transient subcluster of the list *)
Fixpoint find_transient (scs : list Subcluster) : option Subcluster :=
  match scs with
  | [] => None
  | sc :: scs => if sc_IsTransient sc then Some sc else find_transient scs
  end.

Definition FindTransientSubcluster (v : VerticaDB) : option Subcluster :=
  find_transient (spec_Subclusters (vdb_Spec v)).

Definition MakeVDB : VerticaDB :=
  {| vdb_Name := nn_Name MakeVDBName;
     vdb_Namespace := nn_Namespace MakeVDBName;
     vdb_UID := "abcdef-ghi";
     vdb_Annotations := ∅;
     vdb_ResourceVersion := 0;
     vdb_Spec :=
       {| spec_ImagePullPolicy := "";
          spec_ImagePullSecrets := [];
          spec_Image := "vertica-k8s:latest";
          spec_Labels := ∅;
          spec_Annotations := ∅;
          spec_AutoRestartVertica := true;
          spec_DBName := "db";
          spec_ShardCount := 12;
          spec_SuperuserPasswordSecret := "";
          spec_LicenseSecret := "";
          spec_IgnoreClusterLease := false;
          spec_InitPolicy := CommunalInitPolicyCreate;
          spec_UpgradePolicy := "";
          spec_IgnoreUpgradePath := false;
          spec_ReviveOrder := [];
          spec_RestartTimeout := 0;
          spec_Communal := MkCommunalStorage "s3://nimbusdb/mspilchen" false "http://minio"
                             "s3-auth" "" "" "" "" "";
          spec_Local := MkLocalStorage "" 0 "/data" "/depot";
          spec_Subclusters :=
            [MkSubcluster "defaultsubcluster" 3 true false "" None zero_Affinity "" None
               zero_opaque "ClusterIP" "" 0 None "" None];
          spec_TemporarySubclusterRouting := MkSubclusterSelection None zero_Subcluster;
          spec_KSafety := KSafety1;
          spec_RequeueTime := 0;
          spec_UpgradeRequeueTime := 0;
          spec_Sidecars := [];
          spec_Volumes := [];
          spec_VolumeMounts := [];
          spec_CertSecrets := [];
          spec_KerberosSecret := "";
          spec_SSHSecret := "";
          spec_EncryptSpreadComm := "";
          spec_SecurityContext := None |};
     vdb_Status := zero_Status |}.

(** Later subclusters overwrite earlier ones of the same name. *)
Definition GenSubclusterMap (v : VerticaDB) : gmap string Subcluster :=
  fold_left (λ m sc, <[sc_Name sc := sc]> m) (spec_Subclusters (vdb_Spec v)) ∅.

(** [^[a-z0-9](?:[a-z0-9\-]{0,61}[a-z0-9])?$] *)
Definition is_alnum (c : ascii) : bool := is_lower c || is_digit c.

Definition is_alnum_dash (c : ascii) : bool := is_alnum c || bool_decide (c = "-"%char).

Definition subcluster_name_re : re :=
  RSeq (RSet is_alnum) (ROpt (RSeq (RUpto 61 (RSet is_alnum_dash)) (RSet is_alnum))).

Definition IsValidSubclusterName (scName : string) : bool :=
  match match_full subcluster_name_re scName with
  | Some _ => true
  | None => false
  end.

Definition GetVerticaVersion (v : VerticaDB) : option string :=
  vdb_Annotations v !! VersionAnnotation.

Definition InstallerIndicatorFile : string :=
  "/opt/vertica/config/update_vertica.called.for.uid.".

Definition GenInstallerIndicatorFileName (v : VerticaDB) : string :=
  InstallerIndicatorFile +:+ vdb_UID v.

Definition GetPVSubPath (v : VerticaDB) (subPath : string) : string :=
  vdb_UID v +:+ "/" +:+ subPath.

Definition GetDBDataPath (v : VerticaDB) : string :=
  loc_DataPath (spec_Local (vdb_Spec v)) +:+ "/" +:+ spec_DBName (vdb_Spec v).

Definition GetCommunalPath (v : VerticaDB) : string :=
  let com := spec_Communal (vdb_Spec v) in
  if negb (com_IncludeUIDInPath com) then com_Path com
  else com_Path com +:+ "/" +:+ vdb_UID v.

Definition GetDepotPath (v : VerticaDB) : string :=
  loc_DepotPath (spec_Local (vdb_Spec v)) +:+ "/" +:+ spec_DBName (vdb_Spec v).

Definition PrimarySubclusterType : string := "primary".
Definition SecondarySubclusterType : string := "secondary".

Definition GetType (s : Subcluster) : string :=
  if sc_IsPrimary s then PrimarySubclusterType else SecondarySubclusterType.

Definition GetServiceName (s : Subcluster) : string :=
  if bool_decide (sc_ServiceName s = "") then sc_Name s else sc_ServiceName s.

(** The matching subclusters in order, and the total of their sizes in
    [int32] arithmetic *)
Fixpoint find_for_service (svcName : string) (scs : list Subcluster)
    (acc : list Subcluster) (totalSize : Z) : list Subcluster * Z :=
  match scs with
  | [] => (acc, totalSize)
  | sc :: scs =>
      if bool_decide (GetServiceName sc = svcName)
      then find_for_service svcName scs (acc ++ [sc]) (wrap32 (totalSize + sc_Size sc))
      else find_for_service svcName scs acc totalSize
  end.

Definition FindSubclusterForServiceName (v : VerticaDB) (svcName : string) : list Subcluster * Z :=
  find_for_service svcName (spec_Subclusters (vdb_Spec v)) [] 0.

Definition RequiresTransientSubcluster (v : VerticaDB) : bool :=
  let t := sel_Template (spec_TemporarySubclusterRouting (vdb_Spec v)) in
  negb (bool_decide (sc_Name t = "")) && bool_decide (0 < sc_Size t)%Z.

(** A condition that is not in the array yet is off. *)
Definition isConditionIndexSet (v : VerticaDB) (inx : nat) : bool :=
  match st_Conditions (vdb_Status v) !! inx with
  | Some c => bool_decide (cond_Status c = ConditionTrue)
  | None => false
  end.

Definition IsOnlineUpgradeInProgress (v : VerticaDB) : bool :=
  isConditionIndexSet v OnlineUpgradeInProgressIndex.

(** The string value of a condition type *)
Definition condition_type_string (t : VerticaDBConditionType) : string :=
  match t with
  | AutoRestartVertica => "AutoRestartVertica"
  | DBInitialized => "DBInitialized"
  | ImageChangeInProgress => "ImageChangeInProgress"
  | OfflineUpgradeInProgress => "OfflineUpgradeInProgress"
  | OnlineUpgradeInProgress => "OnlineUpgradeInProgress"
  | VerticaRestartNeeded => "VerticaRestartNeeded"
  | OtherConditionType name => name
  end.

Definition IsConditionSet (v : VerticaDB) (statusCondition : VerticaDBConditionType)
    : bool * option go_error :=
  match VerticaDBConditionIndexMap statusCondition with
  | None => (false, Some (ErrMsg ("verticaDB condition '" +:+
      condition_type_string statusCondition +:+ "' missing from VerticaDBConditionType")))
  | Some inx => (isConditionIndexSet v inx, None)
  end.

(** Durations are in nanoseconds, as Go's [time.Duration]. *)
Definition Second : Z := 1000000000.

Definition GetUpgradeRequeueTime (v : VerticaDB) : Z :=
  if bool_decide (spec_UpgradeRequeueTime (vdb_Spec v) = 0%Z) then wrap64 (Second * URTime)
  else wrap64 (Second * spec_UpgradeRequeueTime (vdb_Spec v)).

Definition BuildTransientSubcluster (v : VerticaDB) (imageOverride : string) : Subcluster :=
  let t := sel_Template (spec_TemporarySubclusterRouting (vdb_Spec v)) in
  {| sc_Name := sc_Name t;
     sc_Size := sc_Size t;
     sc_IsPrimary := false;
     sc_IsTransient := true;
     sc_ImageOverride := imageOverride;
     sc_NodeSelector := sc_NodeSelector t;
     sc_Affinity := sc_Affinity t;
     sc_PriorityClassName := sc_PriorityClassName t;
     sc_Tolerations := sc_Tolerations t;
     sc_Resources := sc_Resources t;
     sc_ServiceType := "";
     sc_ServiceName := "";
     sc_NodePort := 0;
     sc_ExternalIPs := None;
     sc_LoadBalancerIP := "";
     sc_ServiceAnnotations := None |}.

Fixpoint find_status (scName : string) (l : list SubclusterStatus) : option SubclusterStatus :=
  match l with
  | [] => None
  | s :: l => if bool_decide (scs_Name s = scName) then Some s else find_status scName l
  end.

Definition FindSubclusterStatus (v : VerticaDB) (scName : string) : SubclusterStatus * bool :=
  match find_status scName (st_Subclusters (vdb_Status v)) with
  | Some s => (s, true)
  | None => (zero_SubclusterStatus, false)
  end.

(** ** [pkg/paths/paths.go] *)

Definition LocalDataPath : string := "/home/dbadmin/local-data".
Definition CELicensePath : string :=
  "/home/dbadmin/licensing/ce/vertica_community_edition.license.key".
Definition MountedLicensePath : string := "/home/dbadmin/licensing/mnt".
Definition HadoopConfPath : string := "/etc/hadoop".
Definition ConfigPath : string := "/opt/vertica/config".
Definition ConfigSharePath : string := "/opt/vertica/config/share".
Definition ConfigLogrotatePath : string := "/opt/vertica/config/logrotate".
Definition LogPath : string := "/opt/vertica/log".
Definition PodInfoPath : string := "/etc/podinfo".
Definition AdminToolsConf : string := "/opt/vertica/config/admintools.conf".
Definition AuthParmsFile : string := "/home/dbadmin/auth_parms.conf".
Definition EulaAcceptanceFile : string :=
  "/opt/vertica/config/d5415f948449e9d4c421b568f2411140.dat".
Definition EulaAcceptanceScript : string := "/opt/vertica/config/accept_eula.py".
Definition CertsRoot : string := "/certs".
Definition Krb5Conf : string := "/etc/krb5.conf".
Definition Krb5Keytab : string := "/etc/krb5/krb5.keytab".
Definition SSHPath : string := "/home/dbadmin/.ssh".

Definition MountPaths : list string :=
  [LocalDataPath; CELicensePath; MountedLicensePath;
   HadoopConfPath; ConfigPath; ConfigSharePath; ConfigLogrotatePath;
   LogPath; PodInfoPath; AdminToolsConf; AuthParmsFile; EulaAcceptanceFile;
   EulaAcceptanceScript; CertsRoot; Krb5Conf; Krb5Keytab; SSHPath].

(** ** [pkg/names/names.go] *)

Definition ServerContainer : string := "server".

Definition GenNamespacedName (v : VerticaDB) (name : string) : NamespacedName :=
  MkNamespacedName (vdb_Namespace v) name.

Definition GenExtSvcName (v : VerticaDB) (sc : Subcluster) : NamespacedName :=
  GenNamespacedName v (vdb_Name v +:+ "-" +:+ GetServiceName sc).

Definition GenHlSvcName (v : VerticaDB) : NamespacedName := GenNamespacedName v (vdb_Name v).

Definition GenStsName (v : VerticaDB) (sc : Subcluster) : NamespacedName :=
  GenNamespacedName v (vdb_Name v +:+ "-" +:+ sc_Name sc).

Definition GenCommunalCredSecretName (v : VerticaDB) : NamespacedName :=
  GenNamespacedName v (com_CredentialSecret (spec_Communal (vdb_Spec v))).

Definition GenKrb5SecretName (v : VerticaDB) : NamespacedName :=
  GenNamespacedName v (spec_KerberosSecret (vdb_Spec v)).

Definition GenSUPasswdSecretName (v : VerticaDB) : NamespacedName :=
  GenNamespacedName v (spec_SuperuserPasswordSecret (vdb_Spec v)).

Definition GenPodName (v : VerticaDB) (sc : Subcluster) (podIndex : Z) : NamespacedName :=
  GenNamespacedName v (vdb_Name v +:+ "-" +:+ sc_Name sc +:+ "-" +:+ Itoa podIndex).

Definition GenPodNameFromSts (v : VerticaDB) (stsName : string) (podIndex : Z) : NamespacedName :=
  MkNamespacedName (vdb_Namespace v) (stsName +:+ "-" +:+ Itoa podIndex).

(** ** [api/v1beta1/verticaautoscaler_types.go] *)

Definition PodScalingGranularity : string := "Pod".
Definition SubclusterScalingGranularity : string := "Subcluster".

Record VerticaAutoscalerSpec : Type := MkVerticaAutoscalerSpec {
  vas_VerticaDBName : string;
  vas_ScalingGranularity : string;
  vas_ServiceName : string;
  vas_Template : Subcluster;
  vas_TargetSize : Z }.

Inductive VerticaAutoscalerConditionType : Type :=
| TargetSizeInitialized
| OtherVasConditionType (name : string).

#[global] Instance VerticaAutoscalerConditionType_eq_dec : EqDecision VerticaAutoscalerConditionType.
Proof. solve_decision. Defined.

Definition TargetSizeInitializedIndex : nat := 0.

Record VerticaAutoscalerCondition : Type := MkVerticaAutoscalerCondition {
  vcond_Type : VerticaAutoscalerConditionType;
  vcond_Status : ConditionStatus;
  vcond_LastTransitionTime : Time }.

#[global] Instance VerticaAutoscalerCondition_eq_dec : EqDecision VerticaAutoscalerCondition.
Proof. solve_decision. Defined.

Record VerticaAutoscalerStatus : Type := MkVerticaAutoscalerStatus {
  vst_ScalingCount : Z;
  vst_CurrentSize : Z;
  vst_Selector : string;
  vst_Conditions : list VerticaAutoscalerCondition }.

#[global] Instance VerticaAutoscalerStatus_eq_dec : EqDecision VerticaAutoscalerStatus.
Proof. solve_decision. Defined.

Record VerticaAutoscaler : Type := MkVerticaAutoscaler {
  vas_Name : string;
  vas_Namespace : string;
  vas_ResourceVersion : Z;
  vas_Spec : VerticaAutoscalerSpec;
  vas_Status : VerticaAutoscalerStatus }.

Definition set_vas_TargetSize (v : VerticaAutoscaler) (n : Z) : VerticaAutoscaler :=
  let s := vas_Spec v in
  MkVerticaAutoscaler (vas_Name v) (vas_Namespace v) (vas_ResourceVersion v)
    (MkVerticaAutoscalerSpec (vas_VerticaDBName s) (vas_ScalingGranularity s) (vas_ServiceName s)
       (vas_Template s) n) (vas_Status v).

Definition set_vas_Status (v : VerticaAutoscaler) (st : VerticaAutoscalerStatus) : VerticaAutoscaler :=
  MkVerticaAutoscaler (vas_Name v) (vas_Namespace v) (vas_ResourceVersion v) (vas_Spec v) st.

Definition MakeVASName : NamespacedName := MkNamespacedName "default" "vertica-vas-sample".

Definition MakeVAS : VerticaAutoscaler :=
  {| vas_Name := nn_Name MakeVASName;
     vas_Namespace := nn_Namespace MakeVASName;
     vas_ResourceVersion := 0;
     vas_Spec :=
       {| vas_VerticaDBName := nn_Name MakeVDBName;
          vas_ScalingGranularity := PodScalingGranularity;
          vas_ServiceName := "sc1";
          vas_Template := zero_Subcluster;
          vas_TargetSize := 0 |};
     vas_Status := MkVerticaAutoscalerStatus 0 0 "" [] |}.

Definition CanUseTemplate (v : VerticaAutoscaler) : bool :=
  bool_decide (0 < sc_Size (vas_Template (vas_Spec v)))%Z.

(** ** Facts *)

(** The total of the sizes of the subclusters a service selects *)
Definition svc_members (svcName : string) (scs : list Subcluster) : list Subcluster :=
  filter (λ sc, GetServiceName sc = svcName) scs.

Definition sum_sizes (scs : list Subcluster) : Z := fold_right (λ sc n, (sc_Size sc + n)%Z) 0%Z scs.

Lemma sum_sizes_app a b : sum_sizes (a ++ b) = (sum_sizes a + sum_sizes b)%Z.
Proof. induction a as [|x a IH]; simpl; [done|]. rewrite IH. lia. Qed.

Lemma sum_sizes_nonneg l : Forall (λ sc, (0 ≤ sc_Size sc)%Z) l → (0 ≤ sum_sizes l)%Z.
Proof. induction 1; simpl; lia. Qed.

Lemma wrap32_add_l x y : wrap32 (wrap32 x + y) = wrap32 (x + y).
Proof.
  unfold wrap32, wrap. f_equal.
  replace ((x + 2 ^ (32 - 1)) `mod` 2 ^ 32 - 2 ^ (32 - 1) + y + 2 ^ (32 - 1))%Z
    with ((x + 2 ^ (32 - 1)) `mod` 2 ^ 32 + y)%Z by lia.
  rewrite Zplus_mod_idemp_l. f_equal. lia.
Qed.

Lemma find_for_service_spec svc scs acc tot :
  find_for_service svc scs acc (wrap32 tot) =
  (acc ++ svc_members svc scs, wrap32 (tot + sum_sizes (svc_members svc scs))).
Proof.
  revert acc tot. unfold svc_members. induction scs as [|sc scs IH]; intros acc tot; simpl.
  - rewrite app_nil_r. f_equal. f_equal. lia.
  - rewrite filter_cons. case_bool_decide as Hs.
    + rewrite decide_True by done. rewrite wrap32_add_l, IH, <- (assoc_L (++)). simpl.
      f_equal. f_equal. lia.
    + rewrite decide_False by done. apply IH.
Qed.

Lemma FindSubclusterForServiceName_spec v svc :
  FindSubclusterForServiceName v svc =
  (svc_members svc (spec_Subclusters (vdb_Spec v)),
   wrap32 (sum_sizes (svc_members svc (spec_Subclusters (vdb_Spec v))))).
Proof.
  unfold FindSubclusterForServiceName. change 0%Z with (wrap32 0).
  rewrite find_for_service_spec. done.
Qed.

Lemma GenSubclusterMap_dom_fold scs (m : gmap string Subcluster) :
  dom (fold_left (λ m sc, <[sc_Name sc := sc]> m) scs m)
  = dom m ∪ list_to_set (sc_Name <$> scs).
Proof.
  revert m. induction scs as [|sc scs IH]; intros m; simpl; [set_solver|].
  rewrite IH, dom_insert_L. set_solver.
Qed.

(** A name is a key of the map exactly when some subcluster has it. *)
Lemma GenSubclusterMap_lookup v n :
  is_Some (GenSubclusterMap v !! n) ↔ n ∈ sc_Name <$> spec_Subclusters (vdb_Spec v).
Proof.
  rewrite <- elem_of_dom. unfold GenSubclusterMap.
  rewrite GenSubclusterMap_dom_fold. set_solver.
Qed.

Lemma GenSubclusterMap_fold_in scs (m : gmap string Subcluster) n sc :
  fold_left (λ m sc, <[sc_Name sc := sc]> m) scs m !! n = Some sc →
  (sc ∈ scs ∧ sc_Name sc = n) ∨ m !! n = Some sc.
Proof.
  revert m. induction scs as [|x scs IH]; intros m; simpl; [by right|].
  intros H. apply IH in H as [[H Hn]|H]; [left; split; [set_solver|done]|].
  destruct (decide (sc_Name x = n)) as [<-|Hne].
  - rewrite lookup_insert_eq in H. injection H as ->. left. split; [set_solver|done].
  - rewrite lookup_insert_ne in H by done. by right.
Qed.

Lemma GenSubclusterMap_lookup_Some v n sc :
  GenSubclusterMap v !! n = Some sc → sc ∈ spec_Subclusters (vdb_Spec v) ∧ sc_Name sc = n.
Proof.
  intros H. apply GenSubclusterMap_fold_in in H as [H|H]; [done|]. by rewrite lookup_empty in H.
Qed.

(** With unique names the map returns the subcluster itself. *)
Lemma GenSubclusterMap_nodup v sc :
  NoDup (sc_Name <$> spec_Subclusters (vdb_Spec v)) →
  sc ∈ spec_Subclusters (vdb_Spec v) → GenSubclusterMap v !! sc_Name sc = Some sc.
Proof.
  intros Hnd Hin.
  destruct (proj2 (GenSubclusterMap_lookup v (sc_Name sc))) as [sc' Hsc'].
  { apply list_elem_of_fmap. eauto. }
  rewrite Hsc'. destruct (GenSubclusterMap_lookup_Some _ _ _ Hsc') as [Hin' Hname].
  apply list_elem_of_lookup in Hin as [i Hi]. apply list_elem_of_lookup in Hin' as [j Hj].
  assert (i = j) as ->; [|congruence].
  apply (NoDup_lookup (sc_Name <$> spec_Subclusters (vdb_Spec v)) i j (sc_Name sc)); [done|..].
  - by rewrite list_lookup_fmap, Hi.
  - rewrite list_lookup_fmap, Hj. simpl. by rewrite Hname.
Qed.
