(* ===== verification/KObjects.v ===== *)
(** * Kubernetes objects

    The objects that the operator reads and writes: pods, statefulsets, services
    and secrets, with the fields that it builds, changes or compares. *)

From stdpp Require Import base gmap strings pretty numbers list.
From S2P Require Import Prelude K8s Types.

Record ObjectMeta : Type := MkObjectMeta {
  om_Name : string;
  om_Namespace : string;
  om_Labels : gmap string string;
  om_Annotations : gmap string string }.

#[global] Instance ObjectMeta_eq_dec : EqDecision ObjectMeta.
Proof. solve_decision. Defined.

(** ** Statefulsets *)

(** [corev1.PodSpec].  The containers are the server container, at
    [ServerContainerIndex], and the sidecars after it: the API server accepts no
    pod without a container. *)
Record PodSpec : Type := MkPodSpec {
  ps_NodeSelector : option (gmap string string);
  ps_Affinity : Affinity;
  ps_Tolerations : option (list k8s_opaque);
  ps_ImagePullSecrets : list string;
  ps_Server : Container;
  ps_Sidecars : list Container;
  ps_Volumes : list Volume;
  ps_TerminationGracePeriodSeconds : option Z;
  ps_ServiceAccountName : string;
  ps_Rest : k8s_opaque }.

Record PersistentVolumeClaim : Type := MkPersistentVolumeClaim {
  pvc_Name : string;
  pvc_AccessModes : list string;
  pvc_StorageClassName : option string;
  pvc_StorageRequest : Z }.

Record StatefulSetSpec : Type := MkStatefulSetSpec {
  ss_Selector : gmap string string;
  ss_ServiceName : string;
  ss_Replicas : option Z;
  ss_TemplateLabels : gmap string string;
  ss_TemplateAnnotations : gmap string string;
  ss_Pod : PodSpec;
  ss_UpdateStrategy : string;
  ss_PodManagementPolicy : string;
  ss_VolumeClaimTemplates : list PersistentVolumeClaim;
  ss_Rest : k8s_opaque }.

(** [sts_StatusReplicas] is the number of pods that the statefulset controller
    reports. *)
Record StatefulSet : Type := MkStatefulSet {
  sts_Meta : ObjectMeta;
  sts_Spec : StatefulSetSpec;
  sts_StatusReplicas : Z }.

Section eq_decisions.

#[global] Instance PodSpec_eq_dec : EqDecision PodSpec.
Proof. solve_decision. Defined.

#[global] Instance PersistentVolumeClaim_eq_dec : EqDecision PersistentVolumeClaim.
Proof. solve_decision. Defined.

#[global] Instance StatefulSetSpec_eq_dec : EqDecision StatefulSetSpec.
Proof. solve_decision. Defined.

#[global] Instance StatefulSet_eq_dec : EqDecision StatefulSet.
Proof. solve_decision. Defined.

End eq_decisions.

Definition sts_Replicas (s : StatefulSet) : option Z := ss_Replicas (sts_Spec s).

(** The image of the server container *)
Definition spec_image (s : StatefulSetSpec) : string := c_Image (ps_Server (ss_Pod s)).

Definition sts_Image (s : StatefulSet) : string := spec_image (sts_Spec s).

Definition set_container_image (c : Container) (image : string) : Container :=
  MkContainer (c_Name c) image (c_ImagePullPolicy c) (c_Resources c) (c_Ports c)
    (c_ReadinessProbe c) (c_SecurityContext c) (c_Env c) (c_VolumeMounts c) (c_Rest c).

Definition set_pod_image (p : PodSpec) (image : string) : PodSpec :=
  MkPodSpec (ps_NodeSelector p) (ps_Affinity p) (ps_Tolerations p) (ps_ImagePullSecrets p)
    (set_container_image (ps_Server p) image) (ps_Sidecars p) (ps_Volumes p)
    (ps_TerminationGracePeriodSeconds p) (ps_ServiceAccountName p) (ps_Rest p).

Definition set_spec_image (s : StatefulSetSpec) (image : string) : StatefulSetSpec :=
  MkStatefulSetSpec (ss_Selector s) (ss_ServiceName s) (ss_Replicas s) (ss_TemplateLabels s)
    (ss_TemplateAnnotations s) (set_pod_image (ss_Pod s) image) (ss_UpdateStrategy s)
    (ss_PodManagementPolicy s) (ss_VolumeClaimTemplates s) (ss_Rest s).

Definition set_update_strategy (s : StatefulSetSpec) (strategy : string) : StatefulSetSpec :=
  MkStatefulSetSpec (ss_Selector s) (ss_ServiceName s) (ss_Replicas s) (ss_TemplateLabels s)
    (ss_TemplateAnnotations s) (ss_Pod s) strategy (ss_PodManagementPolicy s)
    (ss_VolumeClaimTemplates s) (ss_Rest s).

Lemma spec_image_set s image : spec_image (set_spec_image s image) = image.
Proof. done. Qed.

Lemma set_spec_image_replicas s image : ss_Replicas (set_spec_image s image) = ss_Replicas s.
Proof. done. Qed.

(** A statefulset with a size and an image, and nothing else set: for examples *)
Definition bare_container (image : string) : Container :=
  MkContainer "server" image "" zero_opaque [] None None [] [] zero_opaque.

Definition bare_sts (meta : ObjectMeta) (replicas : option Z) (status : Z) (image : string) : StatefulSet :=
  MkStatefulSet meta
    (MkStatefulSetSpec ∅ "" replicas ∅ ∅
      (MkPodSpec None zero_Affinity None [] (bare_container image) [] [] None "" zero_opaque)
      "" "" [] zero_opaque)
    status.

(** ** Pods *)

(** [pod_Image] is the image of the server container. *)
Record Pod : Type := MkPod {
  pod_Meta : ObjectMeta;
  pod_Phase : string;
  pod_PodIP : string;
  pod_Hostname : string;
  pod_Subdomain : string;
  pod_Image : string }.

#[global] Instance Pod_eq_dec : EqDecision Pod.
Proof. solve_decision. Defined.

Definition pod_nn (p : Pod) : NamespacedName :=
  MkNamespacedName (om_Namespace (pod_Meta p)) (om_Name (pod_Meta p)).

(** ** Services *)

Record ServicePort : Type := MkServicePort {
  sp_Port : Z;
  sp_Name : string;
  sp_NodePort : Z }.

(** The annotations are an [option] because they are compared with
    [reflect.DeepEqual], for which a nil map, [None], is not an empty one. *)
Record Service : Type := MkService {
  svc_Name : string;
  svc_Namespace : string;
  svc_Labels : gmap string string;
  svc_Annotations : option (gmap string string);
  svc_Selector : gmap string string;
  svc_Type : string;
  svc_Ports : list ServicePort;
  svc_ExternalIPs : option (list string);
  svc_LoadBalancerIP : string;
  svc_ClusterIP : string;
  svc_PublishNotReadyAddresses : bool;
  svc_Rest : k8s_opaque }.

#[global] Instance ServicePort_eq_dec : EqDecision ServicePort.
Proof. solve_decision. Defined.

#[global] Instance Service_eq_dec : EqDecision Service.
Proof. solve_decision. Defined.

(** ** Secrets *)

Record Secret : Type := MkSecret { secret_Data : gmap string string }.
