(* ===== verification/Webhook.v ===== *)
(** * The admission webhook of VerticaDB

    [api/v1beta1/verticadb_webhook.go]: defaulting and validation.  Every check
    takes the error list accumulated so far and returns it extended, as in the
    source.  A field error keeps its path and its message; the offending value
    that the API server prints next to them is left out.

    [ValidSpec] states what an accepted spec satisfies without reference to the
    checks, and the class [Checks] relates one check to one clause of it. *)

From Stdlib Require Import Ascii.
From stdpp Require Import base gmap strings pretty numbers list.
From S2P Require Import Prelude GoStrings GoRegexp K8s Types.

(** [field.Error] of [k8s.io/apimachinery/pkg/util/validation/field] *)
Record field_error : Type := Invalid { fe_Path : list string; fe_Detail : string }.

Abbreviation ErrorList := (list field_error).

Definition Index (i : nat) : string := "[" +:+ Itoa (Z.of_nat i) +:+ "]".

(** [for i := range l] with the loop body working on the error list *)
Fixpoint for_range {A} (body : nat → A → ErrorList → ErrorList) (l : list A) (i : nat)
    (allErrs : ErrorList) : ErrorList :=
  match l with
  | [] => allErrs
  | x :: l => for_range body l (S i) (body i x allErrs)
  end.

Definition dquote : string := String (ascii_of_nat 34) EmptyString.

Definition invalidDBNameChars : string :=
  "$=<>`" +:+ "'^\" +:+ dquote +:+ ".@*?#&/-:;{}()[] \~!%+|,".

Definition dbNameLengthLimit : nat := 30.
Definition KSafety0MinHosts : Z := 1.
Definition KSafety0MaxHosts : Z := 3.
Definition KSafety1MinHosts : Z := 3.
Definition portLowerBound : Z := 30000.
Definition portUpperBound : Z := 32767.
Definition LocalDataPVC : string := "local-data".
Definition PodInfoMountName : string := "podinfo".
Definition LicensingMountName : string := "licensing".
Definition HadoopConfigMountName : string := "hadoop-conf".
Definition Krb5SecretMountName : string := "krb5".
Definition SSHMountName : string := "ssh".
Definition S3Prefix : string := "s3://".
Definition GCloudPrefix : string := "gs://".
Definition AzurePrefix : string := "azb://".

Definition hdfsPrefixes : list string := ["webhdfs://"; "swebhdfs://"].

Definition ServiceTypeClusterIP : string := "ClusterIP".
Definition ServiceTypeNodePort : string := "NodePort".
Definition ServiceTypeLoadBalancer : string := "LoadBalancer".
Definition ServiceTypeExternalName : string := "ExternalName".

Definition IsHDFS (v : VerticaDB) : bool :=
  existsb (λ p, HasPrefix (com_Path (spec_Communal (vdb_Spec v))) p) hdfsPrefixes.

Definition IsS3 (v : VerticaDB) : bool := HasPrefix (com_Path (spec_Communal (vdb_Spec v))) S3Prefix.

Definition IsGCloud (v : VerticaDB) : bool :=
  HasPrefix (com_Path (spec_Communal (vdb_Spec v))) GCloudPrefix.

Definition IsAzure (v : VerticaDB) : bool :=
  HasPrefix (com_Path (spec_Communal (vdb_Spec v))) AzurePrefix.

Definition HasKerberosConfig (v : VerticaDB) : bool :=
  negb (bool_decide (com_KerberosServiceName (spec_Communal (vdb_Spec v)) = "")).

(** ** Defaulting *)

Definition setDefaultServiceName (scs : list Subcluster) : list Subcluster :=
  (λ sc, if bool_decide (sc_ServiceName sc = "") then set_sc_ServiceName sc (GetServiceName sc)
         else sc) <$> scs.

Definition set_Region (c : CommunalStorage) (r : string) : CommunalStorage :=
  MkCommunalStorage (com_Path c) (com_IncludeUIDInPath c) (com_Endpoint c) (com_CredentialSecret c)
    (com_CaFile c) r (com_HadoopConfig c) (com_KerberosServiceName c) (com_KerberosRealm c).

Definition set_Endpoint (c : CommunalStorage) (e : string) : CommunalStorage :=
  MkCommunalStorage (com_Path c) (com_IncludeUIDInPath c) e (com_CredentialSecret c)
    (com_CaFile c) (com_Region c) (com_HadoopConfig c) (com_KerberosServiceName c)
    (com_KerberosRealm c).

(** The three conditional assignments to the communal storage, in order *)
Definition defaultCommunal (isS3 isGCloud : bool) (com0 : CommunalStorage) : CommunalStorage :=
  let com1 := if bool_decide (com_Region com0 = "") && isS3
              then set_Region com0 DefaultS3Region else com0 in
  let com2 := if bool_decide (com_Region com1 = "") && isGCloud
              then set_Region com1 DefaultGCloudRegion else com1 in
  if bool_decide (com_Endpoint com2 = "") && isGCloud
  then set_Endpoint com2 DefaultGCloudEndpoint else com2.

Definition Default (v : VerticaDB) : VerticaDB :=
  let s := vdb_Spec v in
  let pull := if HasSuffix (spec_Image s) ":latest" then "Always" else spec_ImagePullPolicy s in
  let tsr := spec_TemporarySubclusterRouting s in
  set_spec v (set_spec_fields s pull (defaultCommunal (IsS3 v) (IsGCloud v) (spec_Communal s))
    (setDefaultServiceName (spec_Subclusters s))
    (MkSubclusterSelection (sel_Names tsr) (set_sc_IsPrimary (sel_Template tsr) false))).

(** ** Validation of a spec *)

Definition hasAtLeastOneSC (v : VerticaDB) (allErrs : ErrorList) : ErrorList :=
  if bool_decide (length (spec_Subclusters (vdb_Spec v)) = 0)
  then allErrs ++ [Invalid ["spec"; "subclusters"] "there should be at least one subcluster defined"]
  else allErrs.

Definition hasValidInitPolicy (v : VerticaDB) (allErrs : ErrorList) : ErrorList :=
  let p := spec_InitPolicy (vdb_Spec v) in
  if bool_decide (p = CommunalInitPolicyCreate) then allErrs
  else if bool_decide (p = CommunalInitPolicyRevive) then allErrs
  else if bool_decide (p = CommunalInitPolicyScheduleOnly) then allErrs
  else allErrs ++ [Invalid ["spec"; "initPolicy"]
         "initPolicy should either be Create, Revive or ScheduleOnly."].

Definition validateCommunalPath (v : VerticaDB) (allErrs : ErrorList) : ErrorList :=
  if bool_decide (spec_InitPolicy (vdb_Spec v) = CommunalInitPolicyScheduleOnly) then allErrs
  else
    let allPrefs := [S3Prefix; GCloudPrefix; AzurePrefix] ++ hdfsPrefixes in
    if existsb (λ pref, HasPrefix (com_Path (spec_Communal (vdb_Spec v))) pref) allPrefs
    then allErrs
    else allErrs ++ [Invalid ["spec"; "communal"; "path"]
           "communal.Path is not prefixed with an accepted type"].

Definition validateEndpoint (v : VerticaDB) (allErrs : ErrorList) : ErrorList :=
  if bool_decide (spec_InitPolicy (vdb_Spec v) = CommunalInitPolicyScheduleOnly) then allErrs
  else if IsHDFS v || IsAzure v then allErrs
  else
    let e := com_Endpoint (spec_Communal (vdb_Spec v)) in
    if negb (HasPrefix e "http://" || HasPrefix e "https://")
    then allErrs ++ [Invalid ["spec"; "communal"; "endpoint"]
      "communal.endpoint must be prefaced with http:// or https:// to know what protocol to connect with"]
    else allErrs.

Definition credentialSecretExists (v : VerticaDB) (allErrs : ErrorList) : ErrorList :=
  if bool_decide (spec_InitPolicy (vdb_Spec v) = CommunalInitPolicyScheduleOnly) then allErrs
  else if IsHDFS v then allErrs
  else if bool_decide (com_CredentialSecret (spec_Communal (vdb_Spec v)) = "")
  then allErrs ++ [Invalid ["spec"; "communal"; "credentialSecret"]
         "communal.credentialSecret must exist"]
  else allErrs.

Definition hasValidDBName (v : VerticaDB) (allErrs : ErrorList) : ErrorList :=
  let dbName := spec_DBName (vdb_Spec v) in
  let allErrs :=
    if (dbNameLengthLimit <? String.length dbName)%nat
    then allErrs ++ [Invalid ["spec"; "dbName"] "dbName cannot exceed 30 characters"]
    else allErrs in
  for_range (λ _ c allErrs,
    if Contains dbName (String c EmptyString)
    then allErrs ++ [Invalid ["spec"; "dbName"]
           ("dbName cannot have the '" +:+ String c "' character")]
    else allErrs) (String.list_ascii_of_string invalidDBNameChars) 0 allErrs.

Definition hasPrimarySubcluster (v : VerticaDB) (allErrs : ErrorList) : ErrorList :=
  if existsb sc_IsPrimary (spec_Subclusters (vdb_Spec v)) then allErrs
  else allErrs ++ [Invalid ["spec"; "subclusters"] "there must be at least one primary subcluster"].

(** [int] is 64 bits wide and every size is an [int32]: the sum is exact. *)
Definition getClusterSize (v : VerticaDB) : Z :=
  fold_left (λ sizeSum sc, (sizeSum + sc_Size sc)%Z) (spec_Subclusters (vdb_Spec v)) 0%Z.

Definition validateKsafety (v : VerticaDB) (allErrs : ErrorList) : ErrorList :=
  if bool_decide (spec_InitPolicy (vdb_Spec v) = CommunalInitPolicyScheduleOnly) then allErrs
  else
    let sizeSum := getClusterSize v in
    let k := spec_KSafety (vdb_Spec v) in
    if bool_decide (k = KSafety0) then
      if bool_decide (sizeSum < KSafety0MinHosts)%Z || bool_decide (KSafety0MaxHosts < sizeSum)%Z
      then allErrs ++ [Invalid ["spec"; "kSafety"]
             ("with kSafety 0, the total size of the cluster must have between " +:+
              Itoa KSafety0MinHosts +:+ " and " +:+ Itoa KSafety0MaxHosts +:+ " hosts")]
      else allErrs
    else if bool_decide (k = KSafety1) then
      if bool_decide (sizeSum < KSafety1MinHosts)%Z
      then allErrs ++ [Invalid ["spec"; "kSafety"]
             ("with kSafety 1, the total size of the cluster must have at least " +:+
              Itoa KSafety1MinHosts +:+ " hosts")]
      else allErrs
    else allErrs ++ [Invalid ["spec"; "kSafety"]
           ("kSafety can only be " +:+ KSafety0 +:+ " or " +:+ KSafety1)].

Definition hasValidDomainName (v : VerticaDB) (allErrs : ErrorList) : ErrorList :=
  for_range (λ i sc allErrs,
    if negb (IsValidSubclusterName (sc_Name sc))
    then allErrs ++ [Invalid ["spec"; "subcluster"; Index i; "name"] "is not a valid domain name"]
    else allErrs) (spec_Subclusters (vdb_Spec v)) 0 allErrs.

Definition hasValidNodePort (v : VerticaDB) (allErrs : ErrorList) : ErrorList :=
  for_range (λ i sc allErrs,
    if bool_decide (sc_ServiceType sc = ServiceTypeNodePort) then
      if negb (bool_decide (sc_NodePort sc = 0%Z)) &&
         (bool_decide (sc_NodePort sc < portLowerBound)%Z ||
          bool_decide (portUpperBound < sc_NodePort sc)%Z)
      then allErrs ++ [Invalid ["spec"; "subclusters"; Index i; "nodePort"]
             ("nodePort must be 0 or in the range of " +:+ Itoa portLowerBound +:+ "-" +:+
              Itoa portUpperBound)]
      else allErrs
    else allErrs) (spec_Subclusters (vdb_Spec v)) 0 allErrs.

Definition isNodePortProperlySpecified (v : VerticaDB) (allErrs : ErrorList) : ErrorList :=
  for_range (λ i sc allErrs,
    if negb (bool_decide (sc_ServiceType sc = ServiceTypeLoadBalancer)) &&
       negb (bool_decide (sc_ServiceType sc = ServiceTypeNodePort)) then
      if negb (bool_decide (sc_NodePort sc = 0%Z))
      then allErrs ++ [Invalid ["spec"; "subclusters"; Index i; "nodePort"]
             ("nodePort can only be specified for service types " +:+ ServiceTypeLoadBalancer +:+
              " and " +:+ ServiceTypeNodePort)]
      else allErrs
    else allErrs) (spec_Subclusters (vdb_Spec v)) 0 allErrs.

Definition isServiceTypeValid (v : VerticaDB) (allErrs : ErrorList) : ErrorList :=
  for_range (λ i sc allErrs,
    if bool_decide (sc_ServiceType sc ∈ [ServiceTypeLoadBalancer; ServiceTypeNodePort;
                                         ServiceTypeExternalName; ServiceTypeClusterIP])
    then allErrs
    else allErrs ++ [Invalid ["spec"; "subclusters"; Index i; "serviceType"]
           "not a valid service type"]) (spec_Subclusters (vdb_Spec v)) 0 allErrs.

(** The two nested index loops: [j] runs over the subclusters after [i]. *)
Definition hasDuplicateScName (v : VerticaDB) (allErrs : ErrorList) : ErrorList :=
  let scs := spec_Subclusters (vdb_Spec v) in
  for_range (λ i sc1 allErrs,
    for_range (λ j sc2 allErrs,
      if bool_decide (sc_Name sc1 = sc_Name sc2)
      then allErrs ++ [Invalid ["spec"; "subclusters"; Index j; "name"]
             ("duplicates the name of subcluster[" +:+ Itoa (Z.of_nat i) +:+ "]")]
      else allErrs) (drop (S i) scs) (S i) allErrs) scs 0 allErrs.

Definition hasValidVolumeName (v : VerticaDB) (allErrs : ErrorList) : ErrorList :=
  for_range (λ i vol allErrs,
    if bool_decide (vol_Name vol = LocalDataPVC) || bool_decide (vol_Name vol = PodInfoMountName) ||
       bool_decide (vol_Name vol = LicensingMountName) ||
       bool_decide (vol_Name vol = HadoopConfigMountName)
    then allErrs ++ [Invalid ["spec"; "volumes"; Index i; "name"]
           "conflicts with the name of one of the internally generated volumes"]
    else allErrs) (spec_Volumes (vdb_Spec v)) 0 allErrs.

Definition hasValidVolumeMountName (v : VerticaDB) (allErrs : ErrorList) : ErrorList :=
  let loc := spec_Local (vdb_Spec v) in
  let invalidPaths := MountPaths ++ [loc_DataPath loc; loc_DepotPath loc] in
  for_range (λ i volMnt allErrs,
    let allErrs := for_range (λ _ path allErrs,
      if bool_decide (vm_MountPath volMnt = path)
      then allErrs ++ [Invalid ["spec"; "volumeMounts"; Index i; "mountPath"]
             "conflicts with the mount path of one of the internally generated paths"]
      else allErrs) invalidPaths 0 allErrs in
    if HasPrefix (vm_MountPath volMnt) CertsRoot
    then allErrs ++ [Invalid ["spec"; "volumeMounts"; Index i; "mountPath"]
           ("cannot shared the same path prefix as the certs root '" +:+ CertsRoot +:+ "'")]
    else allErrs) (spec_VolumeMounts (vdb_Spec v)) 0 allErrs.

Definition hasValidKerberosSetup (v : VerticaDB) (allErrs : ErrorList) : ErrorList :=
  let realm := com_KerberosRealm (spec_Communal (vdb_Spec v)) in
  let svc := com_KerberosServiceName (spec_Communal (vdb_Spec v)) in
  let secret := spec_KerberosSecret (vdb_Spec v) in
  if (bool_decide (realm = "") && bool_decide (svc = "")) ||
     (negb (bool_decide (realm = "")) && negb (bool_decide (svc = "")) &&
      negb (bool_decide (secret = "")))
  then allErrs
  else
    let allErrs := if bool_decide (realm = "")
      then allErrs ++ [Invalid ["spec"; "communal"; "kerberosRealm"]
             "kerberosRealm must be set if setting up Kerberos"] else allErrs in
    let allErrs := if bool_decide (svc = "")
      then allErrs ++ [Invalid ["spec"; "communal"; "kerberosServiceName"]
             "kerberosServiceName must be set if setting up Kerberos"] else allErrs in
    let allErrs := if bool_decide (secret = "")
      then allErrs ++ [Invalid ["spec"; "kerberosSecret"]
             "kerberosSecret must be set if setting up Kerberos"] else allErrs in
    allErrs.

Definition hasValidTemporarySubclusterRouting (v : VerticaDB) (allErrs : ErrorList) : ErrorList :=
  let scMap := GenSubclusterMap v in
  let tsr := spec_TemporarySubclusterRouting (vdb_Spec v) in
  let names := default [] (sel_Names tsr) in
  let t := sel_Template tsr in
  let fieldPrefix := ["spec"; "temporarySubclusterRouting"] in
  let templateFieldPrefix := fieldPrefix ++ ["template"] in
  let allErrs :=
    if negb (bool_decide (sc_Name t = "")) then
      let allErrs := if sc_IsPrimary t
        then allErrs ++ [Invalid (templateFieldPrefix ++ ["isPrimary"])
               "subcluster template must be a secondary subcluster"] else allErrs in
      let allErrs := if bool_decide (sc_Size t = 0%Z)
        then allErrs ++ [Invalid (templateFieldPrefix ++ ["size"])
               "size of subcluster template must be greater than zero"] else allErrs in
      match scMap !! sc_Name t with
      | Some sc =>
          if negb (sc_IsTransient sc)
          then allErrs ++ [Invalid (templateFieldPrefix ++ ["name"])
                 "cannot choose a name of an existing subcluster"]
          else allErrs
      | None => allErrs
      end
    else allErrs in
  let allErrs := for_range (λ i name allErrs,
    match scMap !! name with
    | Some _ => allErrs
    | None => allErrs ++ [Invalid (fieldPrefix ++ ["names"; Index i])
                "name must be an existing subcluster"]
    end) names 0 allErrs in
  if (0 <? length names)%nat && RequiresTransientSubcluster v
  then allErrs ++ [Invalid fieldPrefix
         "cannot use a template and a list of subcluster names at the same time"]
  else allErrs.

(** The comparison of two subclusters that share a service name *)
Definition compareServiceFields (i j : nat) (sc osc : Subcluster) (allErrs : ErrorList) : ErrorList :=
  let fieldPrefix := ["spec"; "subclusters"; Index j] in
  let allErrs := if negb (bool_decide (sc_ExternalIPs sc = sc_ExternalIPs osc))
    then allErrs ++ [Invalid (fieldPrefix ++ ["externalIPs"; Index i])
           "externalIPs don't match other subcluster(s) sharing the same serviceName"] else allErrs in
  let allErrs := if negb (bool_decide (sc_LoadBalancerIP sc = sc_LoadBalancerIP osc))
    then allErrs ++ [Invalid (fieldPrefix ++ ["loadBalancerIP"; Index i])
           "loadBalancerIP doesn't match other subcluster(s) sharing the same serviceName"] else allErrs in
  let allErrs := if negb (bool_decide (sc_ServiceAnnotations sc = sc_ServiceAnnotations osc))
    then allErrs ++ [Invalid (fieldPrefix ++ ["serviceAnnotations"; Index i])
           "serviceAnnotations don't match other subcluster(s) sharing the same serviceName"] else allErrs in
  let allErrs := if negb (bool_decide (sc_NodePort sc = sc_NodePort osc))
    then allErrs ++ [Invalid (fieldPrefix ++ ["nodePort"; Index i])
           "nodePort doesn't match other subcluster(s) sharing the same serviceName"] else allErrs in
  if negb (bool_decide (sc_ServiceType sc = sc_ServiceType osc))
  then allErrs ++ [Invalid (fieldPrefix ++ ["serviceType"; Index i])
         "serviceType doesn't match other subcluster(s) sharing the same serviceName"] else allErrs.

(** The outer loop carries the set of service names already processed; the
    rest of the list is what the inner loop runs over. *)
Fixpoint matchingServiceNames_loop (scs : list Subcluster) (i : nat)
    (processedServiceName : gset string) (allErrs : ErrorList) : ErrorList :=
  match scs with
  | [] => allErrs
  | sc :: rest =>
      if bool_decide (GetServiceName sc ∈ processedServiceName)
      then matchingServiceNames_loop rest (S i) processedServiceName allErrs
      else
        let allErrs := for_range (λ j osc allErrs,
          if bool_decide (GetServiceName sc = GetServiceName osc)
          then compareServiceFields i j sc osc allErrs else allErrs) rest (S i) allErrs in
        matchingServiceNames_loop rest (S i) ({[GetServiceName sc]} ∪ processedServiceName) allErrs
  end.

Definition matchingServiceNamesAreConsistent (v : VerticaDB) (allErrs : ErrorList) : ErrorList :=
  matchingServiceNames_loop (spec_Subclusters (vdb_Spec v)) 0 ∅ allErrs.

Definition transientSubclusterMustMatchTemplate (v : VerticaDB) (allErrs : ErrorList) : ErrorList :=
  for_range (λ i sc allErrs,
    if negb (sc_IsTransient sc) then allErrs
    else if negb (bool_decide (sc_Name sc =
              sc_Name (sel_Template (spec_TemporarySubclusterRouting (vdb_Spec v)))))
    then allErrs ++ [Invalid ["spec"; "subclusters"; Index i; "Name"; Index i]
           "Transient subcluster name doesn't match template"]
    else allErrs) (spec_Subclusters (vdb_Spec v)) 0 allErrs.

Definition validateRequeueTimes (v : VerticaDB) (allErrs : ErrorList) : ErrorList :=
  let allErrs := if bool_decide (spec_RequeueTime (vdb_Spec v) < 0)%Z
    then allErrs ++ [Invalid ["spec"; "requeueTime"] "requeueTime cannot be negative"]
    else allErrs in
  if bool_decide (spec_UpgradeRequeueTime (vdb_Spec v) < 0)%Z
  then allErrs ++ [Invalid ["spec"; "upgradeRequeueTime"] "upgradeRequeueTime cannot be negative"]
  else allErrs.

Definition validateEncryptSpreadComm (v : VerticaDB) (allErrs : ErrorList) : ErrorList :=
  let e := spec_EncryptSpreadComm (vdb_Spec v) in
  if negb (bool_decide (e = "")) && negb (bool_decide (e = EncryptSpreadCommWithVertica))
  then allErrs ++ [Invalid ["spec"; "encrpytSpreadComm"]
         ("encryptSpreadComm can either be an empty string or set to " +:+
          EncryptSpreadCommWithVertica)]
  else allErrs.

Definition validateVerticaDBSpec (v : VerticaDB) : ErrorList :=
  let allErrs := hasAtLeastOneSC v [] in
  let allErrs := hasValidInitPolicy v allErrs in
  let allErrs := hasValidDBName v allErrs in
  let allErrs := hasPrimarySubcluster v allErrs in
  let allErrs := validateKsafety v allErrs in
  let allErrs := validateCommunalPath v allErrs in
  let allErrs := validateEndpoint v allErrs in
  let allErrs := hasValidDomainName v allErrs in
  let allErrs := credentialSecretExists v allErrs in
  let allErrs := hasValidNodePort v allErrs in
  let allErrs := isNodePortProperlySpecified v allErrs in
  let allErrs := isServiceTypeValid v allErrs in
  let allErrs := hasDuplicateScName v allErrs in
  let allErrs := hasValidVolumeName v allErrs in
  let allErrs := hasValidVolumeMountName v allErrs in
  let allErrs := hasValidKerberosSetup v allErrs in
  let allErrs := hasValidTemporarySubclusterRouting v allErrs in
  let allErrs := matchingServiceNamesAreConsistent v allErrs in
  let allErrs := transientSubclusterMustMatchTemplate v allErrs in
  let allErrs := validateRequeueTimes v allErrs in
  validateEncryptSpreadComm v allErrs.

(** ** Validation of an update *)

(** The names of the old subclusters with at least one pod in the database.
    The status entry is looked up by position. *)
Fixpoint addedScNames (scs : list Subcluster) (sts : list SubclusterStatus) : gset string :=
  match scs, sts with
  | sc :: scs, st :: sts =>
      (if bool_decide (0 < scs_AddedToDBCount st)%Z then {[sc_Name sc]} else ∅)
      ∪ addedScNames scs sts
  | _, _ => ∅
  end.

Definition canUpdateScName (v oldObj : VerticaDB) : bool :=
  let scMap := addedScNames (spec_Subclusters (vdb_Spec oldObj))
                 (st_Subclusters (vdb_Status oldObj)) in
  if (0 <? size scMap)%nat
  then existsb (λ scNew, bool_decide (sc_Name scNew ∈ scMap)) (spec_Subclusters (vdb_Spec v))
  else true.

Definition nameToPrimaryMap (scs : list Subcluster) : gmap string bool :=
  fold_left (λ m sc, <[sc_Name sc := sc_IsPrimary sc]> m) scs ∅.

Fixpoint find_type_change (m : gmap string bool) (scs : list Subcluster) (i : nat)
    : option (nat * Subcluster) :=
  match scs with
  | [] => None
  | sc :: scs =>
      match m !! sc_Name sc with
      | Some isPrimary =>
          if negb (bool_decide (isPrimary = sc_IsPrimary sc)) then Some (i, sc)
          else find_type_change m scs (S i)
      | None => find_type_change m scs (S i)
      end
  end.

(** The first subcluster whose type changes, with its index *)
Definition isSubclusterTypeIsChanging (v oldObj : VerticaDB) : option (nat * Subcluster) :=
  find_type_change (nameToPrimaryMap (spec_Subclusters (vdb_Spec oldObj)))
    (spec_Subclusters (vdb_Spec v)) 0.

Definition isImageChangeInProgress (v : VerticaDB) : bool :=
  isConditionIndexSet v ImageChangeInProgressIndex.

Definition checkImmutableUpgradePolicy (v oldObj : VerticaDB) (allErrs : ErrorList) : ErrorList :=
  if bool_decide (spec_UpgradePolicy (vdb_Spec v) = spec_UpgradePolicy (vdb_Spec oldObj)) ||
     negb (isImageChangeInProgress oldObj)
  then allErrs
  else allErrs ++ [Invalid ["spec"; "upgradePolicy"]
         "upgradePolicy cannot change because upgrade is in progress"].

Definition checkImmutableTemporarySubclusterRouting (v oldObj : VerticaDB) (allErrs : ErrorList)
    : ErrorList :=
  if negb (isImageChangeInProgress oldObj) then allErrs
  else
    let tsr := spec_TemporarySubclusterRouting (vdb_Spec v) in
    let old := spec_TemporarySubclusterRouting (vdb_Spec oldObj) in
    let allErrs := if negb (bool_decide (sel_Names tsr = sel_Names old))
      then allErrs ++ [Invalid ["spec"; "temporarySubclusterRouting"; "names"]
        "subcluster names for temporasySubclusterRouting cannot change when an upgrade is in progress"]
      else allErrs in
    if negb (bool_decide (sel_Template tsr = sel_Template old))
    then allErrs ++ [Invalid ["spec"; "temporarySubclusterRouting"; "template"]
      "template for temporasySubclusterRouting cannot change when an upgrade is in progress"]
    else allErrs.

Definition checkImmutableEncryptSpreadComm (v oldObj : VerticaDB) (allErrs : ErrorList) : ErrorList :=
  if negb (bool_decide (spec_EncryptSpreadComm (vdb_Spec v) = spec_EncryptSpreadComm (vdb_Spec oldObj)))
  then allErrs ++ [Invalid ["spec"; "encryptSpreadComm"]
         "encryptSpreadComm cannot change after creation"]
  else allErrs.

(** One immutable field: an error when it differs *)
Definition immutable (same : bool) (path : list string) (msg : string) (allErrs : ErrorList)
    : ErrorList :=
  if negb same then allErrs ++ [Invalid path msg] else allErrs.

Definition validateImmutableFields (v oldObj : VerticaDB) : ErrorList :=
  let s := vdb_Spec v in
  let o := vdb_Spec oldObj in
  let allErrs := immutable (bool_decide (spec_KSafety s = spec_KSafety o))
    ["spec"; "kSafety"] "kSafety cannot change after creation." [] in
  let allErrs := immutable (bool_decide (spec_InitPolicy s = spec_InitPolicy o))
    ["spec"; "initPolicy"] "initPolicy cannot change after creation." allErrs in
  let allErrs := immutable (bool_decide (spec_DBName s = spec_DBName o))
    ["spec"; "dbName"] "dbName cannot change after creation." allErrs in
  let allErrs := immutable (bool_decide (loc_DataPath (spec_Local s) = loc_DataPath (spec_Local o)))
    ["spec"; "local"; "dataPath"] "dataPath cannot change after creation." allErrs in
  let allErrs := immutable (bool_decide (loc_DepotPath (spec_Local s) = loc_DepotPath (spec_Local o)))
    ["spec"; "local"; "depotPath"] "depotPath cannot change after creation." allErrs in
  let allErrs := immutable (bool_decide (spec_ShardCount s = spec_ShardCount o))
    ["spec"; "shardCount"] "shardCount cannot change after creation." allErrs in
  let allErrs := immutable (bool_decide (com_Path (spec_Communal s) = com_Path (spec_Communal o)))
    ["spec"; "communal"; "path"] "communal.path cannot change after creation" allErrs in
  let allErrs := immutable (bool_decide (com_Endpoint (spec_Communal s) = com_Endpoint (spec_Communal o)))
    ["spec"; "communal"; "endpoint"] "communal.endpoint cannot change after creation" allErrs in
  let allErrs := immutable (bool_decide (loc_RequestSize (spec_Local s) = loc_RequestSize (spec_Local o)))
    ["spec"; "local"; "requestSize"] "local.requestSize cannot change after creation" allErrs in
  let allErrs := immutable (bool_decide (loc_StorageClass (spec_Local s) = loc_StorageClass (spec_Local o)))
    ["spec"; "local"; "storageClass"] "local.storageClass cannot change after creation" allErrs in
  let allErrs := immutable (canUpdateScName v oldObj)
    ["spec"; "subclusters"] "at least one subcluster name should match its old name" allErrs in
  let allErrs :=
    match isSubclusterTypeIsChanging v oldObj with
    | Some (inx, sc) => allErrs ++ [Invalid ["spec"; "subclusters"; "isPrimary"]
        ("subcluster " +:+ sc_Name sc +:+ " cannot have its isPrimary type change")]
    | None => allErrs
    end in
  let allErrs := checkImmutableUpgradePolicy v oldObj allErrs in
  let allErrs := checkImmutableTemporarySubclusterRouting v oldObj allErrs in
  checkImmutableEncryptSpreadComm v oldObj allErrs.

(** The answer of the validating webhook: [nil], or the error that
    [apierrors.NewInvalid] builds from the list *)
Inductive admission : Type :=
| Allowed
| Denied (errs : ErrorList).

Definition admission_of (allErrs : ErrorList) : admission :=
  match allErrs with
  | [] => Allowed
  | _ => Denied allErrs
  end.

Definition ValidateCreate (v : VerticaDB) : admission := admission_of (validateVerticaDBSpec v).

Definition ValidateUpdate (v old : VerticaDB) : admission :=
  admission_of (validateImmutableFields v old ++ validateVerticaDBSpec v).

Definition ValidateDelete (v : VerticaDB) : admission := Allowed.
