(* ===== verification/WebhookSpec.v ===== *)
(** * What the VerticaDB webhook guarantees

    [ValidSpec] is the contract of an accepted resource and [UpdateAllowed] the
    contract of an accepted update, both stated on the resource alone.  The
    checks of [Webhook] implement them: one instance of [Checks] per check, and
    the composition of the instances along [validateVerticaDBSpec] and
    [validateImmutableFields].  [resource_step] is the life of a resource under
    the webhook. *)

From Stdlib Require Import Ascii.
From stdpp Require Import base gmap strings pretty numbers list.
From S2P Require Import Prelude GoStrings GoRegexp K8s Types Webhook.

(** ** The contract of a spec *)

Definition schedule_only (v : VerticaDB) : Prop :=
  spec_InitPolicy (vdb_Spec v) = CommunalInitPolicyScheduleOnly.

(** An RFC 1123 label *)
Definition dns_label (s : string) : Prop :=
  1 ≤ String.length s ≤ 63 ∧ all_bytes is_alnum_dash s ∧
  (∃ c t, s = String c t ∧ is_alnum c = true) ∧
  (∃ c t, s = t +:+ String c "" ∧ is_alnum c = true).

Definition has_prefix_of (l : list string) (s : string) : Prop :=
  ∃ p t, p ∈ l ∧ s = p +:+ t.

Definition communal_path (v : VerticaDB) : string := com_Path (spec_Communal (vdb_Spec v)).

(** Two subclusters agree on everything that goes into a service object. *)
Definition same_service (a b : Subcluster) : Prop :=
  sc_ExternalIPs a = sc_ExternalIPs b ∧ sc_LoadBalancerIP a = sc_LoadBalancerIP b ∧
  sc_ServiceAnnotations a = sc_ServiceAnnotations b ∧ sc_NodePort a = sc_NodePort b ∧
  sc_ServiceType a = sc_ServiceType b.

Definition ksafety_ok (v : VerticaDB) : Prop :=
  let total := sum_sizes (spec_Subclusters (vdb_Spec v)) in
  schedule_only v ∨
  (spec_KSafety (vdb_Spec v) = "0" ∧ 1 ≤ total ≤ 3)%Z ∨
  (spec_KSafety (vdb_Spec v) = "1" ∧ 3 ≤ total)%Z.

Definition db_name_ok (v : VerticaDB) : Prop :=
  String.length (spec_DBName (vdb_Spec v)) ≤ 30 ∧
  ∀ c, c ∈ String.list_ascii_of_string invalidDBNameChars →
       c ∉ String.list_ascii_of_string (spec_DBName (vdb_Spec v)).

Definition communal_ok (v : VerticaDB) : Prop :=
  schedule_only v ∨
  has_prefix_of ["s3://"; "gs://"; "azb://"; "webhdfs://"; "swebhdfs://"] (communal_path v).

Definition endpoint_ok (v : VerticaDB) : Prop :=
  schedule_only v ∨
  has_prefix_of ["webhdfs://"; "swebhdfs://"; "azb://"] (communal_path v) ∨
  has_prefix_of ["http://"; "https://"] (com_Endpoint (spec_Communal (vdb_Spec v))).

Definition credential_ok (v : VerticaDB) : Prop :=
  schedule_only v ∨ has_prefix_of ["webhdfs://"; "swebhdfs://"] (communal_path v) ∨
  com_CredentialSecret (spec_Communal (vdb_Spec v)) ≠ "".

Definition node_port_ok (sc : Subcluster) : Prop :=
  (sc_ServiceType sc = "NodePort" → sc_NodePort sc = 0 ∨ 30000 ≤ sc_NodePort sc ≤ 32767)%Z ∧
  (sc_NodePort sc ≠ 0%Z → sc_ServiceType sc = "LoadBalancer" ∨ sc_ServiceType sc = "NodePort").

Definition kerberos_ok (v : VerticaDB) : Prop :=
  let realm := com_KerberosRealm (spec_Communal (vdb_Spec v)) in
  let svc := com_KerberosServiceName (spec_Communal (vdb_Spec v)) in
  (realm = "" ∧ svc = "") ∨ (realm ≠ "" ∧ svc ≠ "" ∧ spec_KerberosSecret (vdb_Spec v) ≠ "").

Definition routing_ok (v : VerticaDB) : Prop :=
  let tsr := spec_TemporarySubclusterRouting (vdb_Spec v) in
  let t := sel_Template tsr in
  let names := default [] (sel_Names tsr) in
  (sc_Name t ≠ "" →
     sc_IsPrimary t = false ∧ sc_Size t ≠ 0%Z ∧
     ∀ sc, GenSubclusterMap v !! sc_Name t = Some sc → sc_IsTransient sc = true) ∧
  (∀ n, n ∈ names → n ∈ sc_Name <$> spec_Subclusters (vdb_Spec v)) ∧
  (names = [] ∨ sc_Name t = "" ∨ (sc_Size t ≤ 0)%Z).

Definition reserved_volume_names : list string := ["local-data"; "podinfo"; "licensing"; "hadoop-conf"].

Definition mount_ok (v : VerticaDB) (m : VolumeMount) : Prop :=
  vm_MountPath m ∉ MountPaths ++ [loc_DataPath (spec_Local (vdb_Spec v));
                                   loc_DepotPath (spec_Local (vdb_Spec v))] ∧
  ¬ ∃ t, vm_MountPath m = "/certs" +:+ t.

Record ValidSpec (v : VerticaDB) : Prop := {
  valid_nonempty : spec_Subclusters (vdb_Spec v) ≠ [];
  valid_init : spec_InitPolicy (vdb_Spec v) ∈ ["Create"; "Revive"; "ScheduleOnly"];
  valid_db_name : db_name_ok v;
  valid_primary : ∃ sc, sc ∈ spec_Subclusters (vdb_Spec v) ∧ sc_IsPrimary sc = true;
  valid_ksafety : ksafety_ok v;
  valid_communal : communal_ok v;
  valid_endpoint : endpoint_ok v;
  valid_credential : credential_ok v;
  valid_names : ∀ sc, sc ∈ spec_Subclusters (vdb_Spec v) → dns_label (sc_Name sc);
  valid_unique : NoDup (sc_Name <$> spec_Subclusters (vdb_Spec v));
  valid_node_port : ∀ sc, sc ∈ spec_Subclusters (vdb_Spec v) → node_port_ok sc;
  valid_service_type : ∀ sc, sc ∈ spec_Subclusters (vdb_Spec v) →
    sc_ServiceType sc ∈ ["LoadBalancer"; "NodePort"; "ExternalName"; "ClusterIP"];
  valid_volumes : ∀ vol, vol ∈ spec_Volumes (vdb_Spec v) → vol_Name vol ∉ reserved_volume_names;
  valid_mounts : ∀ m, m ∈ spec_VolumeMounts (vdb_Spec v) → mount_ok v m;
  valid_kerberos : kerberos_ok v;
  valid_routing : routing_ok v;
  valid_services : ∀ a b, a ∈ spec_Subclusters (vdb_Spec v) → b ∈ spec_Subclusters (vdb_Spec v) →
    GetServiceName a = GetServiceName b → same_service a b;
  valid_transient : ∀ sc, sc ∈ spec_Subclusters (vdb_Spec v) → sc_IsTransient sc = true →
    sc_Name sc = sc_Name (sel_Template (spec_TemporarySubclusterRouting (vdb_Spec v)));
  valid_requeue : (0 ≤ spec_RequeueTime (vdb_Spec v) ∧ 0 ≤ spec_UpgradeRequeueTime (vdb_Spec v))%Z;
  valid_encrypt : spec_EncryptSpreadComm (vdb_Spec v) ∈ [""; "vertica"] }.

(** ** The contract of an update *)

(** The fields that never change during the life of a resource *)
Definition immutable_part (s : VerticaDBSpec) :=
  (spec_KSafety s, spec_InitPolicy s, spec_DBName s, spec_Local s,
   spec_ShardCount s, (com_Path (spec_Communal s), com_Endpoint (spec_Communal s)),
   spec_EncryptSpreadComm s).

(** Subclusters kept by name keep their type. *)
Definition types_kept (scs old : list Subcluster) : Prop :=
  ∀ i sc p, scs !! i = Some sc → nameToPrimaryMap old !! sc_Name sc = Some p → p = sc_IsPrimary sc.

(** Some subcluster that has pods in the database is kept, if there is one. *)
Definition keeps_one (v old : VerticaDB) : Prop :=
  let added := addedScNames (spec_Subclusters (vdb_Spec old)) (st_Subclusters (vdb_Status old)) in
  added = ∅ ∨ ∃ sc, sc ∈ spec_Subclusters (vdb_Spec v) ∧ sc_Name sc ∈ added.

Record UpdateAllowed (v old : VerticaDB) : Prop := {
  upd_immutable : immutable_part (vdb_Spec v) = immutable_part (vdb_Spec old);
  upd_keeps_one : keeps_one v old;
  upd_types : types_kept (spec_Subclusters (vdb_Spec v)) (spec_Subclusters (vdb_Spec old));
  upd_policy : isImageChangeInProgress old = true →
    spec_UpgradePolicy (vdb_Spec v) = spec_UpgradePolicy (vdb_Spec old);
  upd_routing : isImageChangeInProgress old = true →
    sel_Names (spec_TemporarySubclusterRouting (vdb_Spec v))
      = sel_Names (spec_TemporarySubclusterRouting (vdb_Spec old)) ∧
    sel_Template (spec_TemporarySubclusterRouting (vdb_Spec v))
      = sel_Template (spec_TemporarySubclusterRouting (vdb_Spec old)) }.

(** ** Checks and clauses *)

(** A check that extends an error list implements a clause when it leaves an
    empty list empty exactly if the clause holds. *)
Class Checks (f : ErrorList → ErrorList) (P : Prop) : Prop :=
  checks : ∀ errs, f errs = [] ↔ errs = [] ∧ P.

Lemma checks_equiv f P Q : Checks f P → (P ↔ Q) → Checks f Q.
Proof. intros Hf HPQ errs. rewrite (Hf errs). tauto. Qed.

Lemma snoc_not_nil {A} (l : list A) x : l ++ [x] ≠ [].
Proof. by destruct l. Qed.

#[export] Instance checks_id : Checks (λ errs, errs) True.
Proof. intros errs. tauto. Qed.

(** The two shapes of a test: report when the test holds, or when it fails *)
#[export] Instance checks_if_report (b : bool) (e : field_error) :
  Checks (λ errs, if b then errs ++ [e] else errs) (b = false).
Proof. intros errs. destruct b; [|tauto]. pose proof (snoc_not_nil errs e). naive_solver. Qed.

#[export] Instance checks_if_ok (b : bool) f P :
  Checks f P → Checks (λ errs, if b then errs else f errs) (b = true ∨ P).
Proof. intros Hf errs. destruct b; [tauto|]. rewrite (Hf errs). naive_solver. Qed.

#[export] Instance checks_if_then (b : bool) f P :
  Checks f P → Checks (λ errs, if b then f errs else errs) (b = true → P).
Proof. intros Hf errs. destruct b; [|naive_solver]. rewrite (Hf errs). naive_solver. Qed.

#[export] Instance checks_if_else (b : bool) f g P Q :
  Checks f P → Checks g Q →
  Checks (λ errs, if b then f errs else g errs) ((b = true → P) ∧ (b = false → Q)) | 20.
Proof. intros Hf Hg errs. destruct b; [rewrite (Hf errs)|rewrite (Hg errs)]; naive_solver. Qed.

#[export] Instance checks_report (e : field_error) : Checks (λ errs, errs ++ [e]) False.
Proof. intros errs. pose proof (snoc_not_nil errs e). tauto. Qed.

Lemma checks_seq f g P Q : Checks f P → Checks g Q → Checks (λ errs, g (f errs)) (P ∧ Q).
Proof. intros Hf Hg errs. rewrite (Hg (f errs)), (Hf errs). tauto. Qed.

Lemma checks_for_range {A} (body : nat → A → ErrorList → ErrorList) (P : nat → A → Prop) l i :
  (∀ j x, Checks (body j x) (P j x)) →
  Checks (for_range body l i) (∀ j x, l !! j = Some x → P (i + j) x).
Proof.
  intros Hb. revert i. induction l as [|x l IH]; intros i errs; simpl.
  - split; [|tauto]. intros ->. split; [done|]. intros j x Hj. by rewrite lookup_nil in Hj.
  - rewrite (IH (S i) (body i x errs)), (Hb i x errs). split.
    + intros [[-> Hx] Hl]. split; [done|]. intros [|j] y Hj; simpl in Hj.
      * injection Hj as <-. by rewrite Nat.add_0_r.
      * rewrite <- Nat.add_succ_comm. by apply Hl.
    + intros [-> Hall]. split; [split; [done|]|].
      * rewrite <- (Nat.add_0_r i). by apply (Hall 0 x).
      * intros j y Hj. rewrite Nat.add_succ_comm. by apply (Hall (S j) y).
Qed.

(** The common case: the clause of an element does not depend on its index. *)
Lemma checks_for_all {A} (body : nat → A → ErrorList → ErrorList) (P : A → Prop) l i :
  (∀ j x, Checks (body j x) (P x)) →
  Checks (for_range body l i) (∀ x, x ∈ l → P x).
Proof.
  intros Hb. eapply checks_equiv; [by apply (checks_for_range body (λ _, P))|].
  split.
  - intros H x Hx. apply list_elem_of_lookup in Hx as [j Hj]. eauto.
  - intros H j x Hj. apply H. apply list_elem_of_lookup. eauto.
Qed.

(** Boolean tests as propositions *)
Ltac clause :=
  repeat first
    [ rewrite orb_true_iff | rewrite orb_false_iff | rewrite andb_true_iff
    | rewrite andb_false_iff | rewrite negb_true_iff | rewrite negb_false_iff
    | rewrite bool_decide_eq_true | rewrite bool_decide_eq_false ].

Lemma existsb_prefix l s : existsb (λ p, HasPrefix s p) l = true ↔ has_prefix_of l s.
Proof.
  rewrite existsb_exists. unfold has_prefix_of. split.
  - intros (p & Hp & H). apply HasPrefix_spec in H as [t ->]. exists p, t.
    split; [by apply list_elem_of_In|done].
  - intros (p & t & Hp & ->). exists p. split; [by apply list_elem_of_In|].
    apply HasPrefix_spec. eauto.
Qed.

Lemma has_prefix_of_app l k s : has_prefix_of (l ++ k) s ↔ has_prefix_of l s ∨ has_prefix_of k s.
Proof. unfold has_prefix_of. setoid_rewrite elem_of_app. naive_solver. Qed.

Lemma has_prefix_of_one p s : has_prefix_of [p] s ↔ HasPrefix s p = true.
Proof. rewrite HasPrefix_spec. unfold has_prefix_of. setoid_rewrite list_elem_of_singleton. naive_solver. Qed.

(** ** Subcluster names *)

Lemma str_snoc_inv (s : string) : s ≠ "" → ∃ t c, s = t +:+ String c "".
Proof.
  induction s as [|d s IH]; [done|]. intros _. destruct s as [|d' s].
  - by exists "", d.
  - destruct IH as (t & c & ->); [done|]. by exists (String d t), c.
Qed.

Lemma all_bytes_app p a b : all_bytes p (a +:+ b) ↔ all_bytes p a ∧ all_bytes p b.
Proof. unfold all_bytes. rewrite list_ascii_app. apply Forall_app. Qed.

Lemma all_bytes_one p c : all_bytes p (String c "") ↔ p c = true.
Proof. unfold all_bytes. simpl. rewrite Forall_singleton. done. Qed.

Lemma is_alnum_is_dash c : is_alnum c = true → is_alnum_dash c = true.
Proof. intros H. unfold is_alnum_dash. by rewrite H. Qed.

Lemma IsValidSubclusterName_iff s : IsValidSubclusterName s = true ↔ dns_label s.
Proof.
  unfold IsValidSubclusterName.
  transitivity (is_Some (match_full subcluster_name_re s)).
  { destruct (match_full subcluster_name_re s); split; naive_solver. }
  rewrite match_full_lang.
  change (lang subcluster_name_re s) with
    (∃ u v, s = u +:+ v ∧ (∃ c, u = String c "" ∧ is_alnum c = true) ∧
      ((∃ x y, v = x +:+ y ∧ lang (RUpto 61 (RSet is_alnum_dash)) x ∧
               ∃ d, y = String d "" ∧ is_alnum d = true) ∨ v = "")).
  setoid_rewrite lang_RUpto_set. split.
  - intros (? & v & -> & (c & -> & Hc) & [(x & ? & -> & [Hl Hx] & d & -> & Hd)| ->]).
    + unfold dns_label. rewrite !all_bytes_app, !all_bytes_one. simpl.
      rewrite !str_length_app. simpl. split_and!; [lia|lia|by apply is_alnum_is_dash|done|
        by apply is_alnum_is_dash|eauto|]. exists d, (String c x). done.
    + unfold dns_label. rewrite !all_bytes_app, !all_bytes_one. simpl.
      split_and!; [lia|lia|by apply is_alnum_is_dash|constructor|eauto|by exists c, ""].
  - intros ([Hl Hu] & Hall & (c & t & -> & Hc) & (d & t' & Heq & Hd)).
    exists (String c ""), t. split_and!; [done|eauto|].
    destruct (decide (t = "")) as [->|Hne]; [by right|]. left.
    destruct (str_snoc_inv t Hne) as (x & e & ->).
    exists x, (String e ""). split_and!; [done|..].
    + simpl in Hu. rewrite str_length_app in Hu. simpl in Hu. lia.
    + change (String c (x +:+ String e "")) with (String c "" +:+ x +:+ String e "") in Hall.
      rewrite !all_bytes_app in Hall. naive_solver.
    + exists e. split; [done|]. destruct t' as [|c' t']; simpl in Heq.
      * injection Heq as _ H. by destruct x.
      * injection Heq as _ H.
        assert (String.length x = String.length t') as Hlen.
        { apply (f_equal String.length) in H. rewrite !str_length_app in H. simpl in H. lia. }
        assert (e = d) as ->; [|done]. clear -H Hlen.
        revert t' H Hlen. induction x as [|a x IH]; intros [|b t'] H Hlen; simpl in *; try lia.
        -- by injection H.
        -- injection H as -> H. eauto.
Qed.

(** ** One clause per check *)

Section clauses.
Context (v : VerticaDB).

Lemma check_nonempty : Checks (hasAtLeastOneSC v) (spec_Subclusters (vdb_Spec v) ≠ []).
Proof.
  unfold hasAtLeastOneSC. eapply checks_equiv; [apply _|]. clause.
  by rewrite length_zero_iff_nil.
Qed.

Lemma check_init :
  Checks (hasValidInitPolicy v) (spec_InitPolicy (vdb_Spec v) ∈ ["Create"; "Revive"; "ScheduleOnly"]).
Proof.
  unfold hasValidInitPolicy. eapply checks_equiv; [apply _|]. clause.
  unfold CommunalInitPolicyCreate, CommunalInitPolicyRevive, CommunalInitPolicyScheduleOnly.
  set_solver.
Qed.

Lemma check_db_name : Checks (hasValidDBName v) (db_name_ok v).
Proof.
  unfold hasValidDBName, db_name_ok. eapply checks_equiv.
  - apply (checks_seq _ (for_range _ _ 0)); [apply _|].
    apply (checks_for_all _ (λ c, c ∉ String.list_ascii_of_string (spec_DBName (vdb_Spec v)))).
    intros j c. eapply checks_equiv; [apply _|].
    rewrite <- not_true_iff_false, Contains_byte. done.
  - unfold dbNameLengthLimit. rewrite Nat.ltb_ge. done.
Qed.

Lemma check_primary :
  Checks (hasPrimarySubcluster v)
    (∃ sc, sc ∈ spec_Subclusters (vdb_Spec v) ∧ sc_IsPrimary sc = true).
Proof.
  unfold hasPrimarySubcluster. eapply checks_equiv; [apply _|].
  rewrite existsb_exists. setoid_rewrite list_elem_of_In. naive_solver.
Qed.

Lemma getClusterSize_sum : getClusterSize v = sum_sizes (spec_Subclusters (vdb_Spec v)).
Proof.
  unfold getClusterSize, sum_sizes.
  enough (∀ scs n, fold_left (λ s sc, (s + sc_Size sc)%Z) scs n
                   = (n + fold_right (λ sc n, (sc_Size sc + n)%Z) 0%Z scs)%Z) as H.
  { by rewrite H. }
  intros scs. induction scs as [|sc scs IH]; intros n; simpl; [lia|]. rewrite IH. lia.
Qed.

Lemma check_ksafety : Checks (validateKsafety v) (ksafety_ok v).
Proof.
  unfold validateKsafety, ksafety_ok, schedule_only. rewrite getClusterSize_sum.
  unfold KSafety0, KSafety1, KSafety0MinHosts, KSafety0MaxHosts, KSafety1MinHosts.
  eapply checks_equiv; [apply _|]. clause. apply or_iff_compat_l.
  destruct (decide (spec_KSafety (vdb_Spec v) = "0")) as [->|H0].
  { split; [intros [H _]; left; split; [done|]; destruct (H eq_refl); lia|].
    intros [[_ H]|[? _]]; [|done]. split; [intros _; lia|done]. }
  destruct (decide (spec_KSafety (vdb_Spec v) = "1")) as [->|H1].
  { split; [intros [_ H]; right; split; [done|]; destruct H as [H' _]; [done|]; pose proof (H' eq_refl); lia|].
    intros [[? _]|[_ H]]; [done|]. split; [done|]. intros _. split; [intros _; lia|done]. }
  tauto.
Qed.

Lemma check_communal : Checks (validateCommunalPath v) (communal_ok v).
Proof.
  unfold validateCommunalPath. eapply checks_equiv; [apply _|]. clause.
  rewrite existsb_prefix. unfold communal_ok, schedule_only, communal_path. simpl. tauto.
Qed.

Lemma check_endpoint : Checks (validateEndpoint v) (endpoint_ok v).
Proof.
  unfold validateEndpoint. eapply checks_equiv; [apply _|]. clause.
  unfold IsHDFS, IsAzure. rewrite existsb_prefix, <- !has_prefix_of_one, <- !has_prefix_of_app.
  unfold endpoint_ok, schedule_only, communal_path. simpl. tauto.
Qed.

Lemma check_credential : Checks (credentialSecretExists v) (credential_ok v).
Proof.
  unfold credentialSecretExists. eapply checks_equiv; [apply _|]. clause.
  unfold IsHDFS. rewrite existsb_prefix.
  unfold credential_ok, schedule_only, communal_path. simpl. tauto.
Qed.

Lemma check_names :
  Checks (hasValidDomainName v)
    (∀ sc, sc ∈ spec_Subclusters (vdb_Spec v) → dns_label (sc_Name sc)).
Proof.
  unfold hasValidDomainName. apply checks_for_all. intros j sc.
  eapply checks_equiv; [apply _|]. clause. apply IsValidSubclusterName_iff.
Qed.

Lemma check_node_port :
  Checks (λ errs, isNodePortProperlySpecified v (hasValidNodePort v errs))
    (∀ sc, sc ∈ spec_Subclusters (vdb_Spec v) → node_port_ok sc).
Proof.
  unfold isNodePortProperlySpecified, hasValidNodePort.
  eapply checks_equiv.
  - apply checks_seq.
    + apply (checks_for_all _ (λ sc, sc_ServiceType sc = "NodePort" →
        sc_NodePort sc = 0 ∨ 30000 ≤ sc_NodePort sc ≤ 32767)%Z).
      intros j sc. eapply checks_equiv; [apply _|]. clause.
      unfold ServiceTypeNodePort, portLowerBound, portUpperBound. naive_solver lia.
    + apply (checks_for_all _ (λ sc, sc_NodePort sc ≠ 0%Z →
        sc_ServiceType sc = "LoadBalancer" ∨ sc_ServiceType sc = "NodePort")).
      intros j sc. eapply checks_equiv; [apply _|]. clause.
      unfold ServiceTypeNodePort, ServiceTypeLoadBalancer.
      destruct (decide (sc_ServiceType sc = "LoadBalancer")), (decide (sc_ServiceType sc = "NodePort")),
        (decide (sc_NodePort sc = 0%Z)); tauto.
  - unfold node_port_ok. naive_solver.
Qed.

Lemma check_service_type :
  Checks (isServiceTypeValid v) (∀ sc, sc ∈ spec_Subclusters (vdb_Spec v) →
    sc_ServiceType sc ∈ ["LoadBalancer"; "NodePort"; "ExternalName"; "ClusterIP"]).
Proof.
  unfold isServiceTypeValid. apply checks_for_all. intros j sc.
  eapply checks_equiv; [apply _|]. clause. tauto.
Qed.

Lemma check_unique : Checks (hasDuplicateScName v) (NoDup (sc_Name <$> spec_Subclusters (vdb_Spec v))).
Proof.
  unfold hasDuplicateScName. set (scs := spec_Subclusters (vdb_Spec v)).
  eapply checks_equiv.
  - apply (checks_for_range _ (λ i sc1, ∀ sc2, sc2 ∈ drop (S i) scs → sc_Name sc1 ≠ sc_Name sc2)).
    intros i sc1. apply checks_for_all. intros j sc2.
    eapply checks_equiv; [apply _|]. by clause.
  - rewrite NoDup_alt. split.
    + intros H i j n Hi Hj. rewrite list_lookup_fmap in Hi, Hj.
      destruct (scs !! i) as [a|] eqn:Ha; [|done]. destruct (scs !! j) as [b|] eqn:Hb; [|done].
      simpl in Hi, Hj. injection Hi as <-. injection Hj as Hab.
      destruct (lt_eq_lt_dec i j) as [[Hlt|Heq]|Hlt]; [|done|].
      * exfalso. apply (H i a Ha b); [|done]. apply list_elem_of_lookup. exists (j - S i).
        rewrite lookup_drop. by replace (S (0 + i) + (j - S i)) with j by lia.
      * exfalso. apply (H j b Hb a); [|done]. apply list_elem_of_lookup. exists (i - S j).
        rewrite lookup_drop. by replace (S (0 + j) + (i - S j)) with i by lia.
    + intros H i a Ha b Hb Hab. apply list_elem_of_lookup in Hb as [k Hk].
      rewrite lookup_drop in Hk.
      assert (i = S (0 + i) + k); [|lia].
      apply (H i _ (sc_Name a)); rewrite list_lookup_fmap; [by rewrite Ha|by rewrite Hk, Hab].
Qed.

Lemma check_volumes :
  Checks (hasValidVolumeName v)
    (∀ vol, vol ∈ spec_Volumes (vdb_Spec v) → vol_Name vol ∉ reserved_volume_names).
Proof.
  unfold hasValidVolumeName. apply checks_for_all. intros j vol.
  eapply checks_equiv; [apply _|]. clause. unfold reserved_volume_names,
    LocalDataPVC, PodInfoMountName, LicensingMountName, HadoopConfigMountName. set_solver.
Qed.

Lemma check_mounts :
  Checks (hasValidVolumeMountName v) (∀ m, m ∈ spec_VolumeMounts (vdb_Spec v) → mount_ok v m).
Proof.
  unfold hasValidVolumeMountName. apply checks_for_all. intros j m.
  eapply checks_equiv.
  - apply (checks_seq (for_range _ _ 0)
      (λ errs, if HasPrefix (vm_MountPath m) CertsRoot then errs ++ [_] else errs)); [|apply _].
    apply (checks_for_all _ (λ p, vm_MountPath m ≠ p)). intros k p.
    eapply checks_equiv; [apply _|]. by clause.
  - unfold mount_ok. rewrite <- not_true_iff_false, HasPrefix_spec.
    unfold CertsRoot. split; [|set_solver]. intros [H1 H2]. split; [|done].
    intros Hin. by apply (H1 _ Hin).
Qed.

Lemma check_kerberos : Checks (hasValidKerberosSetup v) (kerberos_ok v).
Proof.
  unfold hasValidKerberosSetup, kerberos_ok. intros errs.
  repeat case_bool_decide; simpl; rewrite ?app_nil_iff; naive_solver.
Qed.

Lemma check_routing : Checks (hasValidTemporarySubclusterRouting v) (routing_ok v).
Proof.
  unfold hasValidTemporarySubclusterRouting, routing_ok.
  set (tsr := spec_TemporarySubclusterRouting (vdb_Spec v)).
  set (t := sel_Template tsr). set (names := default [] (sel_Names tsr)).
  intros errs. simpl.
  match goal with |- context [for_range ?b names 0 ?e] => set (body := b); set (errs1 := e) end.
  assert (Checks (for_range body names 0)
    (∀ n, n ∈ names → n ∈ sc_Name <$> spec_Subclusters (vdb_Spec v))) as Hb.
  { apply checks_for_all. intros j n errs'. unfold body. rewrite <- GenSubclusterMap_lookup.
    destruct (GenSubclusterMap v !! n).
    - split; [|tauto]. intros ->. eauto.
    - split; [|by intros [_ [? ?]]]. intros H. by apply snoc_not_nil in H. }
  assert (errs1 = [] ↔ errs = [] ∧ (sc_Name t ≠ "" →
     sc_IsPrimary t = false ∧ sc_Size t ≠ 0%Z ∧
     ∀ sc, GenSubclusterMap v !! sc_Name t = Some sc → sc_IsTransient sc = true)) as H1.
  { unfold errs1. case_bool_decide as Hn; simpl; [tauto|].
    destruct (sc_IsPrimary t), (bool_decide_reflect (sc_Size t = 0%Z)),
      (GenSubclusterMap v !! sc_Name t) as [sc|]; try destruct (sc_IsTransient sc) eqn:Ht;
      simpl; rewrite ?app_nil_iff; split; intros H; destruct_and?; split_and?; simplify_eq;
      try done; try (intros _; split_and!; [done|done|congruence]);
      match goal with H : _ → _ |- _ => destruct (H Hn) as (Hp & Hsz & Hall) end; try done.
    specialize (Hall sc eq_refl). congruence. }
  assert (Checks (λ e, if (0 <? length names)%nat && RequiresTransientSubcluster v
      then e ++ [Invalid ["spec"; "temporarySubclusterRouting"]
         "cannot use a template and a list of subcluster names at the same time"] else e)
      (names = [] ∨ sc_Name t = "" ∨ (sc_Size t ≤ 0)%Z)) as Hlast.
  { eapply checks_equiv; [apply _|]. unfold RequiresTransientSubcluster. clause.
    fold tsr t. rewrite Nat.ltb_ge, Nat.le_0_r, length_zero_iff_nil, Z.nlt_ge. tauto. }
  rewrite (Hlast _), (Hb _), H1. tauto.
Qed.

Lemma check_compare i j a b : Checks (compareServiceFields i j a b) (same_service a b).
Proof.
  unfold compareServiceFields, same_service. intros errs.
  repeat case_bool_decide; simpl; rewrite ?app_nil_iff; naive_solver.
Qed.

#[local] Instance same_service_equiv : Equivalence same_service.
Proof. unfold same_service. split; repeat intro; naive_solver congruence. Qed.

(** One pass that skips processed service names establishes the consistency
    of every pair. *)
Lemma check_services_loop scs i done :
  Checks (matchingServiceNames_loop scs i done)
    (∀ a b, a ∈ scs → b ∈ scs → GetServiceName a = GetServiceName b →
            GetServiceName a ∉ done → same_service a b).
Proof.
  revert i done. induction scs as [|sc scs IH]; intros i dn errs; simpl.
  { split; [|tauto]. intros ->. split; [done|]. set_solver. }
  case_bool_decide as Hd.
  - rewrite (IH (S i) dn errs). apply and_iff_compat_l. split.
    + intros H a b Ha Hb Hab Hn.
      apply elem_of_cons in Ha as [->|Ha]; [done|].
      apply elem_of_cons in Hb as [->|Hb]; [congruence|]. by apply H.
    + intros H a b Ha Hb. apply H; by right.
  - set (body := λ (j : nat) (osc : Subcluster) (e : ErrorList), _).
    assert (Checks (for_range body scs (S i)) (∀ b, b ∈ scs →
      GetServiceName sc = GetServiceName b → same_service sc b)) as Hb.
    { apply checks_for_all. intros j b. unfold body. pose proof (check_compare i j sc b).
      eapply checks_equiv; [apply _|]. by clause. }
    rewrite (IH (S i) _ _), (Hb _), <- (assoc and). apply and_iff_compat_l. split.
    + intros [Hsc Hrest] a b Ha Hb' Hab Hn.
      destruct (decide (GetServiceName a = GetServiceName sc)) as [Heq|Hne].
      * assert (∀ x, x ∈ sc :: scs → GetServiceName x = GetServiceName sc → same_service sc x) as Hx.
        { intros x [->|Hx]%elem_of_cons Hs; [reflexivity|]. by apply Hsc. }
        transitivity sc; [symmetry|]; apply Hx; congruence.
      * apply elem_of_cons in Ha as [->|Ha]; [done|].
        apply elem_of_cons in Hb' as [->|Hb']; [congruence|]. apply Hrest; set_solver.
    + intros H. split.
      * intros b Hb' Hs. apply H; [by left|by right|done|done].
      * intros a b Ha Hb' Hab Hn. apply H; [by right|by right|done|set_solver].
Qed.

Lemma check_services :
  Checks (matchingServiceNamesAreConsistent v)
    (∀ a b, a ∈ spec_Subclusters (vdb_Spec v) → b ∈ spec_Subclusters (vdb_Spec v) →
       GetServiceName a = GetServiceName b → same_service a b).
Proof.
  unfold matchingServiceNamesAreConsistent.
  eapply checks_equiv; [apply check_services_loop|]. split; [|naive_solver].
  intros H a b Ha Hb Hab. apply H; [done..|set_solver].
Qed.

Lemma check_transient :
  Checks (transientSubclusterMustMatchTemplate v)
    (∀ sc, sc ∈ spec_Subclusters (vdb_Spec v) → sc_IsTransient sc = true →
       sc_Name sc = sc_Name (sel_Template (spec_TemporarySubclusterRouting (vdb_Spec v)))).
Proof.
  unfold transientSubclusterMustMatchTemplate. apply checks_for_all. intros j sc.
  eapply checks_equiv; [apply _|]. clause. destruct (sc_IsTransient sc); naive_solver.
Qed.

Lemma check_requeue :
  Checks (validateRequeueTimes v)
    (0 ≤ spec_RequeueTime (vdb_Spec v) ∧ 0 ≤ spec_UpgradeRequeueTime (vdb_Spec v))%Z.
Proof.
  unfold validateRequeueTimes. intros errs.
  do 2 case_bool_decide; rewrite ?app_nil_iff; naive_solver lia.
Qed.

Lemma check_encrypt :
  Checks (validateEncryptSpreadComm v) (spec_EncryptSpreadComm (vdb_Spec v) ∈ [""; "vertica"]).
Proof.
  unfold validateEncryptSpreadComm. eapply checks_equiv; [apply _|]. clause.
  unfold EncryptSpreadCommWithVertica. set_solver.
Qed.

Lemma validateVerticaDBSpec_iff : validateVerticaDBSpec v = [] ↔ ValidSpec v.
Proof.
  unfold validateVerticaDBSpec.
  rewrite (check_encrypt _), (check_requeue _), (check_transient _), (check_services _),
    (check_routing _), (check_kerberos _), (check_mounts _), (check_volumes _), (check_unique _),
    (check_service_type _), (check_node_port _), (check_credential _), (check_names _),
    (check_endpoint _), (check_communal _), (check_ksafety _), (check_primary _),
    (check_db_name _), (check_init _), (check_nonempty _).
  split; [|by intros []].
  intros H. repeat match goal with H : _ ∧ _ |- _ => destruct H end. by constructor.
Qed.

End clauses.

(** ** Updates *)

Lemma immutable_checks b path msg : Checks (immutable b path msg) (b = true).
Proof. unfold immutable. eapply checks_equiv; [apply _|]. by clause. Qed.

Lemma addedScNames_size (m : gset string) : (0 <? size m)%nat = false ↔ m = ∅.
Proof. rewrite Nat.ltb_ge, Nat.le_0_r. rewrite size_empty_iff. apply leibniz_equiv_iff. Qed.

Lemma canUpdateScName_iff v old : canUpdateScName v old = true ↔ keeps_one v old.
Proof.
  unfold canUpdateScName, keeps_one. set (m := addedScNames _ _).
  destruct (0 <? size m)%nat eqn:Hs.
  - assert (m ≠ ∅) as Hne. { intros H. apply addedScNames_size in H. congruence. }
    rewrite existsb_exists. setoid_rewrite bool_decide_eq_true.
    setoid_rewrite <- list_elem_of_In. naive_solver.
  - apply addedScNames_size in Hs. naive_solver.
Qed.

Lemma find_type_change_None m scs i :
  find_type_change m scs i = None ↔
  ∀ j sc p, scs !! j = Some sc → m !! sc_Name sc = Some p → p = sc_IsPrimary sc.
Proof.
  revert i. induction scs as [|sc scs IH]; intros i; simpl.
  { split; [|done]. intros _ j sc p Hj. by rewrite lookup_nil in Hj. }
  transitivity ((∀ p, m !! sc_Name sc = Some p → p = sc_IsPrimary sc) ∧
                find_type_change m scs (S i) = None).
  { destruct (m !! sc_Name sc) as [p|]; [|naive_solver].
    case_bool_decide as Hp; simpl; [naive_solver|]. split; [done|]. intros [H _].
    destruct Hp. by apply H. }
  rewrite IH. split.
  - intros [H1 H2] [|j] sc' p Hj Hp; simpl in Hj; [injection Hj as <-|]; eauto.
  - intros H. split; [intros p; apply (H 0 sc p); done|].
    intros j sc' p Hj. apply (H (S j) sc' p). done.
Qed.

Lemma check_type_change v old e :
  Checks (λ errs, match isSubclusterTypeIsChanging v old with
                  | Some (inx, sc) => errs ++ [e inx sc]
                  | None => errs
                  end)
    (types_kept (spec_Subclusters (vdb_Spec v)) (spec_Subclusters (vdb_Spec old))).
Proof.
  unfold types_kept. intros errs. rewrite <- (find_type_change_None _ _ 0).
  fold (isSubclusterTypeIsChanging v old).
  destruct (isSubclusterTypeIsChanging v old) as [[i sc]|]; [|tauto].
  pose proof (snoc_not_nil errs (e i sc)). naive_solver.
Qed.

Lemma check_policy v old :
  Checks (checkImmutableUpgradePolicy v old)
    (isImageChangeInProgress old = true →
     spec_UpgradePolicy (vdb_Spec v) = spec_UpgradePolicy (vdb_Spec old)).
Proof.
  unfold checkImmutableUpgradePolicy. eapply checks_equiv; [apply _|]. clause.
  destruct (isImageChangeInProgress old); naive_solver.
Qed.

Lemma check_immutable_routing v old :
  Checks (checkImmutableTemporarySubclusterRouting v old)
    (isImageChangeInProgress old = true →
     sel_Names (spec_TemporarySubclusterRouting (vdb_Spec v))
       = sel_Names (spec_TemporarySubclusterRouting (vdb_Spec old)) ∧
     sel_Template (spec_TemporarySubclusterRouting (vdb_Spec v))
       = sel_Template (spec_TemporarySubclusterRouting (vdb_Spec old))).
Proof.
  unfold checkImmutableTemporarySubclusterRouting. intros errs.
  destruct (isImageChangeInProgress old); simpl; [|naive_solver].
  repeat case_bool_decide; simpl; rewrite ?app_nil_iff; naive_solver.
Qed.

Lemma check_immutable_encrypt v old :
  Checks (checkImmutableEncryptSpreadComm v old)
    (spec_EncryptSpreadComm (vdb_Spec v) = spec_EncryptSpreadComm (vdb_Spec old)).
Proof.
  unfold checkImmutableEncryptSpreadComm. eapply checks_equiv; [apply _|]. by clause.
Qed.

Lemma validateImmutableFields_iff v old : validateImmutableFields v old = [] ↔ UpdateAllowed v old.
Proof.
  unfold validateImmutableFields.
  rewrite (check_immutable_encrypt v old _), (check_immutable_routing v old _),
    (check_policy v old _),
    (check_type_change v old (λ _ sc, Invalid ["spec"; "subclusters"; "isPrimary"]
        ("subcluster " +:+ sc_Name sc +:+ " cannot have its isPrimary type change")) _).
  rewrite !(immutable_checks _ _ _ _), canUpdateScName_iff, !bool_decide_eq_true.
  split.
  - intros H. repeat match goal with H : _ ∧ _ |- _ => destruct H end.
    constructor; [|done..]. unfold immutable_part.
    destruct (spec_Local (vdb_Spec v)), (spec_Local (vdb_Spec old)). simpl in *. congruence.
  - intros [Him ? ? ? ?]. unfold immutable_part in Him. split_and!; try done; try congruence;
    destruct (spec_Local (vdb_Spec v)), (spec_Local (vdb_Spec old)); simpl in *; congruence.
Qed.

Lemma admission_of_Allowed errs : admission_of errs = Allowed ↔ errs = [].
Proof. by destruct errs. Qed.

(** ** The life of a resource *)

(** A resource changes by an admitted update of the spec, which the mutating
    webhook has defaulted first, or by a write of the status. *)
Inductive resource_step : VerticaDB → VerticaDB → Prop :=
| step_update old new :
    ValidateUpdate (Default new) old = Allowed → resource_step old (Default new)
| step_status old st :
    resource_step old (set_Status old st).

(** ** Defaulting *)

Lemma GetServiceName_default sc :
  GetServiceName (if bool_decide (sc_ServiceName sc = "")
                  then set_sc_ServiceName sc (GetServiceName sc) else sc) = GetServiceName sc.
Proof. unfold GetServiceName. repeat (case_bool_decide; simpl in *; try done). Qed.

(** A subcluster after defaulting: only the service name may differ, and the
    service it selects does not. *)
Definition defaulted (sc sc' : Subcluster) : Prop :=
  sc' = set_sc_ServiceName sc (sc_ServiceName sc') ∧ GetServiceName sc' = GetServiceName sc.

Lemma setDefaultServiceName_elem sc' scs :
  sc' ∈ setDefaultServiceName scs → ∃ sc, sc ∈ scs ∧ defaulted sc sc'.
Proof.
  intros (sc & -> & Hin)%list_elem_of_fmap. exists sc. split; [done|].
  split; [|apply GetServiceName_default]. by destruct sc; case_bool_decide.
Qed.

Lemma setDefaultServiceName_names scs : sc_Name <$> setDefaultServiceName scs = sc_Name <$> scs.
Proof.
  unfold setDefaultServiceName. rewrite <- list_fmap_compose. apply list_fmap_ext.
  intros i sc _. simpl. by case_bool_decide.
Qed.

Lemma setDefaultServiceName_idemp scs :
  setDefaultServiceName (setDefaultServiceName scs) = setDefaultServiceName scs.
Proof.
  unfold setDefaultServiceName. rewrite <- list_fmap_compose. apply list_fmap_ext.
  intros i sc _. simpl. destruct (bool_decide_reflect (sc_ServiceName sc = "")) as [H|H].
  - case_bool_decide as H'; [|done]. simpl in H'. unfold GetServiceName in *.
    rewrite bool_decide_eq_true_2 in H' by done. destruct sc. simpl in *. subst.
    by rewrite bool_decide_eq_true_2.
  - by rewrite bool_decide_eq_false_2.
Qed.

Lemma Default_Subclusters v :
  spec_Subclusters (vdb_Spec (Default v)) = setDefaultServiceName (spec_Subclusters (vdb_Spec v)).
Proof. done. Qed.

Lemma set_Region_Path c r : com_Path (set_Region c r) = com_Path c.
Proof. done. Qed.

(** What defaulting does to the communal storage: the path, credentials and
    Kerberos settings stay; an endpoint is only ever filled in for [gs://]. *)
Lemma Default_Communal v :
  com_Path (spec_Communal (vdb_Spec (Default v))) = com_Path (spec_Communal (vdb_Spec v)) ∧
  com_CredentialSecret (spec_Communal (vdb_Spec (Default v)))
    = com_CredentialSecret (spec_Communal (vdb_Spec v)) ∧
  com_KerberosRealm (spec_Communal (vdb_Spec (Default v)))
    = com_KerberosRealm (spec_Communal (vdb_Spec v)) ∧
  com_KerberosServiceName (spec_Communal (vdb_Spec (Default v)))
    = com_KerberosServiceName (spec_Communal (vdb_Spec v)) ∧
  (com_Endpoint (spec_Communal (vdb_Spec (Default v))) = com_Endpoint (spec_Communal (vdb_Spec v)) ∨
   com_Endpoint (spec_Communal (vdb_Spec v)) = "" ∧
   com_Endpoint (spec_Communal (vdb_Spec (Default v))) = DefaultGCloudEndpoint).
Proof.
  unfold Default. simpl. unfold defaultCommunal.
  destruct (IsS3 v), (IsGCloud v); rewrite ?andb_false_r, ?andb_true_r;
    repeat case_bool_decide; simpl in *; split_and!; auto.
Qed.

Lemma Default_communal_path v : communal_path (Default v) = communal_path v.
Proof. apply Default_Communal. Qed.

Lemma Default_elem v sc' :
  sc' ∈ spec_Subclusters (vdb_Spec (Default v)) →
  ∃ sc, sc ∈ spec_Subclusters (vdb_Spec v) ∧ defaulted sc sc'.
Proof. rewrite Default_Subclusters. apply setDefaultServiceName_elem. Qed.

Lemma Default_sum_sizes scs : sum_sizes (setDefaultServiceName scs) = sum_sizes scs.
Proof.
  induction scs as [|sc scs IH]; simpl; [done|]. rewrite IH. by case_bool_decide.
Qed.

Lemma defaulted_fields sc sc' :
  defaulted sc sc' →
  sc_Name sc' = sc_Name sc ∧ sc_IsPrimary sc' = sc_IsPrimary sc ∧
  sc_IsTransient sc' = sc_IsTransient sc ∧ sc_ServiceType sc' = sc_ServiceType sc ∧
  sc_NodePort sc' = sc_NodePort sc ∧ same_service sc' sc.
Proof. intros [-> _]. unfold same_service. simpl. auto 10. Qed.

Lemma Default_routing v : ValidSpec v → routing_ok (Default v).
Proof.
  intros Hv. destruct (valid_routing v Hv) as (H1 & H2 & H3). unfold routing_ok. simpl.
  split_and!.
  - intros Hn. destruct (H1 Hn) as (_ & Hs & Ht). split_and!; [done|done|].
    intros sc' Hsc'. apply GenSubclusterMap_lookup_Some in Hsc' as [Hin Hname].
    apply Default_elem in Hin as (sc & Hin & Hd). apply defaulted_fields in Hd as (Hd & _ & -> & _).
    apply Ht. rewrite <- Hname, Hd. apply GenSubclusterMap_nodup; [apply Hv|done].
  - intros n Hn. rewrite setDefaultServiceName_names. by apply H2.
  - done.
Qed.

Lemma Default_endpoint v : endpoint_ok v → endpoint_ok (Default v).
Proof.
  unfold endpoint_ok. rewrite Default_communal_path.
  destruct (Default_Communal v) as (_ & _ & _ & _ & [He|[He0 He]]); rewrite He.
  - done.
  - intros _. right; right. exists "https://", "storage.googleapis.com". split; [set_solver|done].
Qed.

Lemma Default_valid_lemma v : ValidSpec v → ValidSpec (Default v).
Proof.
  intros Hv. pose proof (Default_Communal v) as (Hpath & Hcred & Hrealm & Hsvc & _).
  constructor; try exact (valid_init v Hv); try exact (valid_db_name v Hv);
    try exact (valid_requeue v Hv); try exact (valid_encrypt v Hv);
    try exact (valid_volumes v Hv); try exact (valid_mounts v Hv).
  - rewrite Default_Subclusters. pose proof (valid_nonempty v Hv).
    by destruct (spec_Subclusters (vdb_Spec v)).
  - destruct (valid_primary v Hv) as (sc & Hin & Hp).
    eexists. rewrite Default_Subclusters. split; [by apply list_elem_of_fmap_2|].
    by case_bool_decide.
  - unfold ksafety_ok. rewrite Default_Subclusters, Default_sum_sizes. apply (valid_ksafety v Hv).
  - unfold communal_ok. rewrite Default_communal_path. apply (valid_communal v Hv).
  - apply Default_endpoint, Hv.
  - unfold credential_ok. rewrite Default_communal_path, Hcred. apply (valid_credential v Hv).
  - intros sc' (sc & Hin & Hd)%Default_elem. apply defaulted_fields in Hd as (-> & _).
    by apply (valid_names v Hv).
  - rewrite Default_Subclusters, setDefaultServiceName_names. apply (valid_unique v Hv).
  - intros sc' (sc & Hin & Hd)%Default_elem. apply defaulted_fields in Hd as (_ & _ & _ & Ht & Hn & _).
    unfold node_port_ok. rewrite Ht, Hn. by apply (valid_node_port v Hv).
  - intros sc' (sc & Hin & Hd)%Default_elem. apply defaulted_fields in Hd as (_ & _ & _ & -> & _).
    by apply (valid_service_type v Hv).
  - unfold kerberos_ok. rewrite Hrealm, Hsvc. apply (valid_kerberos v Hv).
  - by apply Default_routing.
  - intros a' b' (a & Ha & Hda)%Default_elem (b & Hb & Hdb)%Default_elem Hab.
    destruct (defaulted_fields _ _ Hda) as (_ & _ & _ & _ & _ & Hsa).
    destruct (defaulted_fields _ _ Hdb) as (_ & _ & _ & _ & _ & Hsb).
    assert (same_service a b) as Hs.
    { apply (valid_services v Hv); [done..|]. destruct Hda as [_ <-], Hdb as [_ <-]. done. }
    unfold same_service in *. intuition congruence.
  - intros sc' (sc & Hin & Hd)%Default_elem. apply defaulted_fields in Hd as (-> & _ & -> & _).
    by apply (valid_transient v Hv).
Qed.

Lemma defaultCommunal_idemp s3 gc com :
  defaultCommunal s3 gc (defaultCommunal s3 gc com) = defaultCommunal s3 gc com.
Proof.
  destruct com as [path uid [|] cred ca [|] hadoop svc realm], s3, gc; reflexivity.
Qed.

Lemma Default_idemp_lemma v : Default (Default v) = Default v.
Proof.
  assert (IsS3 (Default v) = IsS3 v) as Hs3.
  { unfold IsS3. by rewrite (proj1 (Default_Communal v)). }
  assert (IsGCloud (Default v) = IsGCloud v) as Hgc.
  { unfold IsGCloud. by rewrite (proj1 (Default_Communal v)). }
  unfold Default at 1. rewrite Hs3, Hgc, Default_Subclusters, setDefaultServiceName_idemp.
  unfold Default, set_spec, set_spec_fields. simpl. rewrite defaultCommunal_idemp.
  by destruct (HasSuffix _ _).
Qed.

(** ** Properties *)

(** C1: a resource is admitted on creation exactly when it satisfies the
    declarative contract [ValidSpec]: every check of the webhook, taken
    together, neither misses nor adds a condition. *)
Theorem ValidateCreate_correct v : ValidateCreate v = Allowed ↔ ValidSpec v.
Proof. unfold ValidateCreate. rewrite admission_of_Allowed. apply validateVerticaDBSpec_iff. Qed.

(** C21: an update is admitted exactly when the new spec is valid and the update
    respects the contract [UpdateAllowed] (immutable fields equal, subcluster
    types kept, a populated subcluster kept, routing and policy frozen during
    an upgrade). *)
Theorem ValidateUpdate_correct v old :
  ValidateUpdate v old = Allowed ↔ UpdateAllowed v old ∧ ValidSpec v.
Proof.
  unfold ValidateUpdate. rewrite admission_of_Allowed, app_nil_iff.
  by rewrite validateImmutableFields_iff, validateVerticaDBSpec_iff.
Qed.

(** C4: along every sequence of admitted updates and status writes, a resource
    that was created valid stays valid and keeps its immutable fields (kSafety,
    initPolicy, database name, local storage, shard count, communal path and
    endpoint, spread encryption). *)
Theorem lifecycle_invariant v0 v :
  ValidSpec v0 → rtc resource_step v0 v →
  ValidSpec v ∧ immutable_part (vdb_Spec v) = immutable_part (vdb_Spec v0).
Proof.
  intros Hv0 Hsteps. induction Hsteps as [v|v0 v1 v Hstep _ IH]; [done|].
  assert (ValidSpec v1 ∧ immutable_part (vdb_Spec v1) = immutable_part (vdb_Spec v0)) as [Hv1 Him].
  { destruct Hstep as [old new Hup|old st].
    - unfold ValidateUpdate in Hup. rewrite admission_of_Allowed, app_nil_iff in Hup.
      rewrite validateImmutableFields_iff, validateVerticaDBSpec_iff in Hup.
      destruct Hup as [Hu Hn]. split; [done|]. apply Hu.
    - split; [|done]. destruct Hv0. by constructor. }
  destruct (IH Hv1) as [? ?]. split; [done|congruence].
Qed.

Definition bigger_vdb : VerticaDB :=
  Default (set_Subclusters MakeVDB
    (spec_Subclusters (vdb_Spec MakeVDB) ++ [set_sc_Name (hd zero_Subcluster
       (spec_Subclusters (vdb_Spec MakeVDB))) "sc2"])).

Lemma MakeVDB_valid : ValidSpec (Default MakeVDB).
Proof. apply validateVerticaDBSpec_iff. vm_compute. reflexivity. Qed.

Lemma lifecycle_invariant_witness :
  ValidSpec bigger_vdb ∧
  immutable_part (vdb_Spec bigger_vdb) = immutable_part (vdb_Spec (Default MakeVDB)).
Proof.
  apply (lifecycle_invariant (Default MakeVDB)); [exact MakeVDB_valid|].
  apply rtc_once. apply (step_update (Default MakeVDB)). vm_compute. reflexivity.
Defined.

(** Defaulting is idempotent, so the mutating webhook is stable under
    repeated admission. *)
Theorem Default_idempotent v : Default (Default v) = Default v.
Proof. apply Default_idemp_lemma. Qed.

(** Defaulting never turns an acceptable resource into a rejected one. *)
Theorem Default_valid v : ValidSpec v → ValidateCreate (Default v) = Allowed.
Proof.
  intros Hv. unfold ValidateCreate. rewrite admission_of_Allowed, validateVerticaDBSpec_iff.
  by apply Default_valid_lemma.
Qed.

Lemma Default_valid_witness : ValidateCreate (Default (Default MakeVDB)) = Allowed.
Proof. apply Default_valid. exact MakeVDB_valid. Defined.

(** The regular expression for subcluster names accepts exactly the
    RFC 1123 labels of at most 63 bytes. *)
Theorem IsValidSubclusterName_correct s : IsValidSubclusterName s = true ↔ dns_label s.
Proof. apply IsValidSubclusterName_iff. Qed.
