(* ===== verification/Version.v ===== *)
(** * Vertica versions

    [pkg/version/version.go] and [pkg/version/metadata.go]: parsing of a version
    string, comparison, the upgrade paths, and the annotations taken from the
    output of [vertica --version].  A call of [panic] is the [Panic] outcome. *)

From Stdlib Require Import Ascii.
From stdpp Require Import base gmap strings pretty numbers list.
From S2P Require Import Prelude GoStrings GoRegexp K8s Types.

Record Components : Type := MkComponents { VdbMajor : Z; VdbMinor : Z; VdbPatch : Z }.

#[global] Instance Components_eq_dec : EqDecision Components.
Proof. solve_decision. Defined.

Record Info : Type := MkInfo { VdbVer : string; info_Components : Components }.

Definition MinimumVersion : string := "v11.0.0".
Definition NodesHaveReadOnlyStateVersion : string := "v11.0.2".
Definition OnlineUpgradeVersion : string := "v11.1.0".
Definition ReIPAllowedWithUpNodesVersion : string := "v11.1.0".
Definition StartDBAcceptsHostListVersion : string := "v11.0.1".
Definition CGroupV2UnsupportedVersion : string := "v12.0.0".

(** The map literal, as an association list (its keys are distinct) *)
Definition UpgradePaths : list (Components * Info) :=
  [(MkComponents 11 0 0, MkInfo "v11.1.x" (MkComponents 11 1 0));
   (MkComponents 11 0 1, MkInfo "v11.1.x" (MkComponents 11 1 0));
   (MkComponents 11 0 2, MkInfo "v11.1.x" (MkComponents 11 1 0));
   (MkComponents 11 1 0, MkInfo "v12.0.x" (MkComponents 12 0 0));
   (MkComponents 11 1 1, MkInfo "v12.0.x" (MkComponents 12 0 0))].

Fixpoint path_lookup (c : Components) (l : list (Components * Info)) : option Info :=
  match l with
  | [] => None
  | (c', i) :: l => if bool_decide (c' = c) then Some i else path_lookup c l
  end.

(** [v(\d+)\.(\d+)\.(\d+)] *)
Definition version_re : re :=
  RSeq (RByte "v") (RSeq (RGroup 1 (RPlus (RSet is_digit))) (RSeq (RByte ".")
    (RSeq (RGroup 2 (RPlus (RSet is_digit))) (RSeq (RByte ".")
      (RGroup 3 (RPlus (RSet is_digit))))))).

(** The four named results of the Go function: on a failure the components
    read so far are returned with [ok = false]. *)
Definition parseVersion (v : string) : Components * bool :=
  match find_submatch version_re v with
  | None => (MkComponents 0 0 0, false)
  | Some m =>
      match Atoi (group 1 m) with
      | None => (MkComponents 0 0 0, false)
      | Some major =>
          match Atoi (group 2 m) with
          | None => (MkComponents major 0 0, false)
          | Some minor =>
              match Atoi (group 3 m) with
              | None => (MkComponents major minor 0, false)
              | Some patch => (MkComponents major minor patch, true)
              end
          end
      end
  end.

Definition MakeInfoFromStr (ver : string) : Info * bool :=
  let '(c, ok) := parseVersion ver in (MkInfo ver c, ok).

Definition MakeInfoFromVdb (vdb : VerticaDB) : option Info :=
  match GetVerticaVersion vdb with
  | None => None
  | Some vdbVer =>
      let '(i, ok) := MakeInfoFromStr vdbVer in
      if ok : bool then Some i else None
  end.

(** The [switch] of comparisons *)
Definition IsEqualOrNewer_components (i inVer : Components) : bool :=
  if bool_decide (VdbMajor inVer < VdbMajor i)%Z then true
  else if bool_decide (VdbMajor i < VdbMajor inVer)%Z then false
  else if bool_decide (VdbMinor inVer < VdbMinor i)%Z then true
  else if bool_decide (VdbMinor i < VdbMinor inVer)%Z then false
  else if bool_decide (VdbPatch inVer < VdbPatch i)%Z then true
  else if bool_decide (VdbPatch i < VdbPatch inVer)%Z then false
  else true.

Definition IsEqualOrNewer (i : Info) (inVer : string) : outcome bool :=
  let '(c, ok) := parseVersion inVer in
  if negb ok then Panic ("could not parse input version: " +:+ inVer)
  else Ret (IsEqualOrNewer_components (info_Components i) c).

Definition IsSupported (i : Info) : outcome bool := IsEqualOrNewer i MinimumVersion.

Definition IsUnsupported (i : Info) : outcome bool :=
  match IsSupported i with
  | Ret b => Ret (negb b)
  | Panic m => Panic m
  end.

Definition IsEqualExceptPatch (i other : Info) : bool :=
  bool_decide (VdbMajor (info_Components other) = VdbMajor (info_Components i)) &&
  bool_decide (VdbMinor (info_Components other) = VdbMinor (info_Components i)).

Definition IsEqual (i other : Info) : bool :=
  IsEqualExceptPatch i other &&
  bool_decide (VdbPatch (info_Components other) = VdbPatch (info_Components i)).

Definition is_downgrade (i t : Components) : bool :=
  bool_decide (VdbMajor t < VdbMajor i)%Z ||
  (bool_decide (VdbMajor t = VdbMajor i) && bool_decide (VdbMinor t < VdbMinor i)%Z) ||
  (bool_decide (VdbMajor t = VdbMajor i) && bool_decide (VdbMinor t = VdbMinor i) &&
   bool_decide (VdbPatch t < VdbPatch i)%Z).

Definition IsValidUpgradePath (i : Info) (targetVer : string) : outcome (bool * string) :=
  let '(t, ok) := MakeInfoFromStr targetVer in
  if negb ok then Panic ("could not parse input version: " +:+ targetVer)
  else if IsEqual i t then Ret (true, "")
  else if is_downgrade (info_Components i) (info_Components t) then
    Ret (false, "Version '" +:+ VdbVer i +:+ "' to '" +:+ VdbVer t +:+
                "' is a downgrade and is not supported")
  else if IsEqualExceptPatch i t then Ret (true, "")
  else
    match path_lookup (info_Components i) UpgradePaths with
    | None => Ret (true, "")
    | Some nextVer =>
        if IsEqualExceptPatch t nextVer then Ret (true, "")
        else Ret (false, "Version '" +:+ VdbVer i +:+ "' to '" +:+ VdbVer t +:+
                         "' is invalid because it skips '" +:+ VdbVer nextVer +:+ "'")
    end.

(** ** [metadata.go] *)

(** [kvs] is the order in which Go ranges over the new annotations. *)
Fixpoint merge_annotations (kvs : list (string * string)) (anns : gmap string string)
    (changedAnnotations : bool) : gmap string string * bool :=
  match kvs with
  | [] => (anns, changedAnnotations)
  | (k, newValue) :: kvs =>
      if bool_decide (anns !! k = Some newValue)
      then merge_annotations kvs anns changedAnnotations
      else merge_annotations kvs (<[k := newValue]> anns) true
  end.

Definition MergeAnnotations (vdb : VerticaDB) (kvs : list (string * string)) : VerticaDB * bool :=
  let '(anns, changed) := merge_annotations kvs (vdb_Annotations vdb) false in
  (set_Annotations vdb anns, changed).

(** [(v[0-9a-zA-Z.-]+)\n] *)
Definition version_line_re : re :=
  RSeq (RGroup 1 (RSeq (RByte "v") (RPlus (RSet (λ c,
    is_digit c || is_lower c || is_upper c || bool_decide (c = "."%char) ||
    bool_decide (c = "-"%char)))))) (RByte "010").

(** [built by .* from .*@([^ ]+) ] *)
Definition build_ref_re : re :=
  RSeq (RLit "built by ") (RSeq (RStar (RSet any_byte)) (RSeq (RLit " from ")
    (RSeq (RStar (RSet any_byte)) (RSeq (RByte "@")
      (RSeq (RGroup 1 (RPlus (RSet (λ c, negb (bool_decide (c = " "%char)))))) (RByte " ")))))).

(** [on '([A-Za-z0-9: ]+)'] *)
Definition build_date_re : re :=
  RSeq (RLit "on '") (RSeq (RGroup 1 (RPlus (RSet (λ c,
    is_upper c || is_lower c || is_digit c || bool_decide (c = ":"%char) ||
    bool_decide (c = " "%char))))) (RByte "'")).

Definition regMap : list (string * re) :=
  [(VersionAnnotation, version_line_re); (BuildRefAnnotation, build_ref_re);
   (BuildDateAnnotation, build_date_re)].

Definition ParseVersionOutput (op : string) : gmap string string :=
  fold_left (λ annotations '(annName, r),
    match find_submatch r op with
    | Some parse => <[annName := group 1 parse]> annotations
    | None => annotations
    end) regMap ∅.

Definition IsUpgradePathSupported (vdb : VerticaDB) (newAnnotations : gmap string string)
    : outcome (bool * string) :=
  match MakeInfoFromVdb vdb with
  | None => Ret (true, "")
  | Some vinf => IsValidUpgradePath vinf (default "" (newAnnotations !! VersionAnnotation))
  end.

(** ** The order on versions *)

(** The lexicographic order on (major, minor, patch) *)
Definition version_le (a b : Components) : Prop :=
  (VdbMajor a < VdbMajor b ∨
   VdbMajor a = VdbMajor b ∧ (VdbMinor a < VdbMinor b ∨
   VdbMinor a = VdbMinor b ∧ VdbPatch a ≤ VdbPatch b))%Z.

Definition same_release (a b : Components) : Prop :=
  VdbMajor a = VdbMajor b ∧ VdbMinor a = VdbMinor b.

#[global] Instance version_le_total : Total version_le.
Proof. intros a b. unfold version_le. lia. Qed.

#[global] Instance version_le_partial : PartialOrder version_le.
Proof.
  split; [split|].
  - intros a. unfold version_le. lia.
  - intros a b c. unfold version_le. lia.
  - intros [] [] H1 H2. unfold version_le in *. simpl in *. f_equal; lia.
Qed.

Lemma IsEqualOrNewer_components_spec i c : IsEqualOrNewer_components i c = true ↔ version_le c i.
Proof. unfold IsEqualOrNewer_components, version_le. repeat case_bool_decide; split; try done; lia. Qed.

Lemma is_downgrade_spec i t : is_downgrade i t = true ↔ ¬ version_le i t.
Proof.
  unfold is_downgrade, version_le.
  rewrite !orb_true_iff, !andb_true_iff, !bool_decide_eq_true. lia.
Qed.

Lemma IsEqualExceptPatch_spec i t :
  IsEqualExceptPatch i t = true ↔ same_release (info_Components t) (info_Components i).
Proof. unfold IsEqualExceptPatch, same_release. by rewrite andb_true_iff, !bool_decide_eq_true. Qed.

Lemma IsEqual_spec i t : IsEqual i t = true ↔ info_Components i = info_Components t.
Proof.
  unfold IsEqual. rewrite andb_true_iff, IsEqualExceptPatch_spec, bool_decide_eq_true.
  unfold same_release. destruct (info_Components i), (info_Components t). simpl. naive_solver.
Qed.

(** ** Parsing *)

Definition version_string (c : Components) : string :=
  "v" +:+ Itoa (VdbMajor c) +:+ "." +:+ Itoa (VdbMinor c) +:+ "." +:+ Itoa (VdbPatch c).

Definition components_ok (c : Components) : Prop :=
  (0 ≤ VdbMajor c ∧ 0 ≤ VdbMinor c ∧ 0 ≤ VdbPatch c)%Z ∧
  int64_range (VdbMajor c) ∧ int64_range (VdbMinor c) ∧ int64_range (VdbPatch c).

(** A prefix without the letter [v] cannot start a match. *)
Lemma find_submatch_skip pre s m :
  no_byte "v" pre → find_submatch version_re s = Some m →
  find_submatch version_re (pre +:+ s) = Some m.
Proof.
  unfold no_byte. induction pre as [|c pre IH]; simpl String.append; [done|].
  intros Hn Hs. simpl in Hn. rewrite not_elem_of_cons in Hn. destruct Hn as [Hc Hn].
  change (match match_prefix version_re (String c (pre +:+ s)) with
          | Some caps => Some caps
          | None => find_submatch version_re (pre +:+ s)
          end = Some m).
  assert (match_prefix version_re (String c (pre +:+ s)) = None) as ->; [|by apply IH].
  unfold match_prefix, version_re, RByte. cbn [rmatch].
  by rewrite bool_decide_eq_false_2.
Qed.

Lemma match_version_prefix (a b c rest : string) :
  a ≠ "" → b ≠ "" → c ≠ "" → all_bytes is_digit a → all_bytes is_digit b → all_bytes is_digit c →
  stops is_digit rest →
  match_prefix version_re ("v" +:+ a +:+ "." +:+ b +:+ "." +:+ c +:+ rest)
  = Some [(3, c); (2, b); (1, a)].
Proof.
  intros Ha Hb Hc Hda Hdb Hdc Hrest. unfold match_prefix, version_re.
  assert (∀ d s caps k, rmatch (RByte d) (String d s) caps k = k s caps) as Hbyte.
  { intros d s caps k. unfold RByte. cbn [rmatch]. by rewrite bool_decide_eq_true_2. }
  assert (∀ r1 r2 s caps k, rmatch (RSeq r1 r2) s caps k
            = rmatch r1 s caps (λ s' caps', rmatch r2 s' caps' k)) as Hseq by done.
  change ("v" +:+ ?s) with (String "v" s). rewrite Hseq, Hbyte, Hseq.
  apply rmatch_group_run; [done|done|done|].
  change ("." +:+ ?s) with (String "." s). rewrite Hseq, Hbyte, Hseq.
  apply rmatch_group_run; [done|done|done|].
  change ("." +:+ ?s) with (String "." s). rewrite Hseq, Hbyte. by apply rmatch_group_run.
Qed.

Lemma parseVersion_version_string pre c rest :
  no_byte "v" pre → components_ok c → stops is_digit rest →
  parseVersion (pre +:+ version_string c +:+ rest) = (c, true).
Proof.
  intros Hpre ((H1 & H2 & H3) & Hr1 & Hr2 & Hr3) Hrest. unfold parseVersion.
  assert (find_submatch version_re (version_string c +:+ rest)
    = Some [(3, Itoa (VdbPatch c)); (2, Itoa (VdbMinor c)); (1, Itoa (VdbMajor c))]) as Hfind.
  { assert (match_prefix version_re (version_string c +:+ rest)
      = Some [(3, Itoa (VdbPatch c)); (2, Itoa (VdbMinor c)); (1, Itoa (VdbMajor c))]) as Hm.
    { unfold version_string. rewrite !str_app_assoc.
      apply match_version_prefix; auto using Itoa_not_nil; by apply Itoa_digits. }
    destruct (version_string c +:+ rest) as [|x s]; [done|].
    cbn [find_submatch]. by rewrite Hm. }
  rewrite (find_submatch_skip pre _ _ Hpre Hfind). simpl.
  rewrite !Atoi_Itoa by done. by destruct c.
Qed.

(** ** Annotations *)

Lemma merge_annotations_spec kvs : ∀ anns changed,
  NoDup kvs.*1 →
  merge_annotations kvs anns changed =
  (list_to_map kvs ∪ anns,
   changed || negb (bool_decide (list_to_map kvs ∪ anns = anns))).
Proof.
  induction kvs as [|[k x] kvs IH]; intros anns changed Hnd; simpl.
  - rewrite (left_id_L ∅ (∪)), bool_decide_eq_true_2 by done. by rewrite orb_false_r.
  - simpl in Hnd. apply NoDup_cons in Hnd as [Hk Hnd].
    assert ((list_to_map kvs : gmap string string) !! k = None) as Hlk.
    { by apply not_elem_of_list_to_map_1. }
    case_bool_decide as Hx.
    + rewrite IH by done.
      assert (<[k:=x]> (list_to_map kvs) ∪ anns = list_to_map kvs ∪ anns) as ->; [|done].
      rewrite <- insert_union_l. apply insert_id. rewrite lookup_union_r; done.
    + rewrite IH by done. rewrite <- insert_union_l, <- insert_union_r by done.
      f_equal. simpl. rewrite (bool_decide_eq_false_2 (<[k:=x]> (list_to_map kvs ∪ anns) = anns)).
      { by rewrite orb_true_r. }
      intros Heq. apply Hx. rewrite <- Heq. apply lookup_insert_eq.
Qed.

Lemma path_lookup_Some c i :
  path_lookup c UpgradePaths = Some i →
  (VdbMajor c = 11 ∧ VdbMinor c = 0 ∧ info_Components i = MkComponents 11 1 0)%Z ∨
  (VdbMajor c = 11 ∧ VdbMinor c = 1 ∧ info_Components i = MkComponents 12 0 0)%Z.
Proof.
  simpl. repeat (case_bool_decide; [subst; intros [= <-]; simpl; auto|]). done.
Qed.

(** ** Properties *)

(** C33: parsing inverts printing.  A version embedded in any text, such as
    "Vertica Analytic Database v11.0.0-20210601", is read back exactly, as long
    as no letter [v] precedes it and no digit follows it. *)
Theorem parseVersion_roundtrip pre c rest :
  no_byte "v" pre → components_ok c → stops is_digit rest →
  parseVersion (pre +:+ version_string c +:+ rest) = (c, true).
Proof. apply parseVersion_version_string. Qed.

Lemma parseVersion_roundtrip_witness :
  parseVersion ("Analytic Database " +:+ version_string (MkComponents 11 0 2) +:+ "-20210601")
  = (MkComponents 11 0 2, true).
Proof.
  apply parseVersion_roundtrip.
  - refine (bool_decide_eq_true_1
      (not ("v"%char ∈ String.list_ascii_of_string "Analytic Database ")) _).
    vm_compute. reflexivity.
  - unfold components_ok, int64_range. simpl. lia.
  - reflexivity.
Defined.

(** [IsEqualOrNewer] decides the lexicographic order on (major, minor,
    patch), which is a total order, and panics exactly on an input version that
    does not parse. *)
Theorem IsEqualOrNewer_correct i inVer :
  (snd (parseVersion inVer) = false ↔ ∃ msg, IsEqualOrNewer i inVer = Panic msg) ∧
  (snd (parseVersion inVer) = true ↔ ∃ b, IsEqualOrNewer i inVer = Ret b ∧
     (b = true ↔ version_le (fst (parseVersion inVer)) (info_Components i))).
Proof.
  unfold IsEqualOrNewer. destruct (parseVersion inVer) as [c []]; simpl.
  - split; [split; [done|by intros []]|]. split; [|done]. intros _.
    eexists. split; [done|]. apply IsEqualOrNewer_components_spec.
  - split; [split; [eauto|done]|]. split; [done|]. by intros (b & Hb & _).
Qed.

(** The complete decision table of [IsValidUpgradePath] for a target that
    parses: an upgrade is accepted exactly when it is not a downgrade and either
    stays within the release, leaves a version that has no entry in
    [UpgradePaths], or goes to the release that the entry names. *)
Theorem IsValidUpgradePath_correct i targetVer t :
  parseVersion targetVer = (t, true) →
  ∃ ok reason, IsValidUpgradePath i targetVer = Ret (ok, reason) ∧
    (ok = true ↔ version_le (info_Components i) t ∧
       (same_release (info_Components i) t ∨
        path_lookup (info_Components i) UpgradePaths = None ∨
        ∃ next, path_lookup (info_Components i) UpgradePaths = Some next ∧
                same_release (info_Components next) t)).
Proof.
  intros Hp. unfold IsValidUpgradePath, MakeInfoFromStr. rewrite Hp. cbn [negb].
  set (ti := MkInfo targetVer t).
  destruct (IsEqual i ti) eqn:He.
  { apply IsEqual_spec in He. simpl in He. do 2 eexists. split; [done|]. rewrite He.
    split; [|done]. intros _. split; [reflexivity|]. by left. }
  change (info_Components ti) with t.
  destruct (is_downgrade (info_Components i) t) eqn:Hd.
  { apply is_downgrade_spec in Hd. do 2 eexists. split; [done|]. naive_solver. }
  rewrite <- not_true_iff_false, is_downgrade_spec in Hd.
  assert (version_le (info_Components i) t) as Hle.
  { unfold version_le in *. lia. }
  destruct (IsEqualExceptPatch i ti) eqn:Hs.
  { apply IsEqualExceptPatch_spec in Hs as [? ?]. do 2 eexists. split; [done|].
    split; [|done]. intros _. split; [done|]. left. by split. }
  assert (¬ same_release (info_Components i) t) as Hns.
  { intros [? ?]. rewrite <- not_true_iff_false, IsEqualExceptPatch_spec in Hs.
    apply Hs. by split. }
  destruct (path_lookup (info_Components i) UpgradePaths) as [next|] eqn:Hl.
  - destruct (IsEqualExceptPatch ti next) eqn:Hn; do 2 eexists; (split; [done|]).
    + apply IsEqualExceptPatch_spec in Hn. split; [|done]. intros _. split; [done|].
      right; right. exists next. by split.
    + rewrite <- not_true_iff_false, IsEqualExceptPatch_spec in Hn.
      split; [done|]. intros [_ [?|[?|(? & [= <-] & ?)]]]; done.
  - do 2 eexists. split; [done|]. split; [|done]. auto.
Qed.

Lemma IsValidUpgradePath_correct_witness :
  ∃ ok reason, IsValidUpgradePath (MkInfo "v11.0.1" (MkComponents 11 0 1)) "v12.0.0" = Ret (ok, reason) ∧
    (ok = true ↔ version_le (MkComponents 11 0 1) (MkComponents 12 0 0) ∧
       (same_release (MkComponents 11 0 1) (MkComponents 12 0 0) ∨
        path_lookup (MkComponents 11 0 1) UpgradePaths = None ∨
        ∃ next, path_lookup (MkComponents 11 0 1) UpgradePaths = Some next ∧
                same_release (info_Components next) (MkComponents 12 0 0))).
Proof.
  apply (IsValidUpgradePath_correct (MkInfo "v11.0.1" (MkComponents 11 0 1)) "v12.0.0").
  vm_compute. reflexivity.
Defined.

(** A patch release of 11.0 that is not listed in [UpgradePaths] (11.0.3
    and later) escapes the enforced path: it may skip 11.1 and go to 12.0
    directly, although the map's comment says patch releases need no entry. *)
Theorem unlisted_patch_skips_release ver p :
  (2 < p)%Z → IsValidUpgradePath (MkInfo ver (MkComponents 11 0 p)) "v12.0.0" = Ret (true, "").
Proof.
  intros Hp. unfold IsValidUpgradePath, MakeInfoFromStr.
  assert (parseVersion "v12.0.0" = (MkComponents 12 0 0, true)) as -> by (vm_compute; done).
  cbn [negb]. unfold IsEqual, is_downgrade, IsEqualExceptPatch. cbn [info_Components VdbMajor VdbMinor VdbPatch].
  change (bool_decide (12%Z = 11%Z)) with false. change (bool_decide (12 < 11)%Z) with false.
  cbn [andb orb path_lookup UpgradePaths].
  rewrite !bool_decide_eq_false_2; [done|intros [=]; lia..].
Qed.

Lemma unlisted_patch_skips_release_witness :
  IsValidUpgradePath (MkInfo "v11.0.3" (MkComponents 11 0 3)) "v12.0.0" = Ret (true, "").
Proof. apply unlisted_patch_skips_release. lia. Defined.

(** Whatever order Go ranges over the new annotations in, the merge gives
    the new annotations priority over the old ones, keeps the other old ones,
    and reports a change exactly when the stored annotations differ. *)
Theorem MergeAnnotations_correct vdb (new : gmap string string) kvs :
  kvs ≡ₚ map_to_list new →
  MergeAnnotations vdb kvs =
  (set_Annotations vdb (new ∪ vdb_Annotations vdb),
   negb (bool_decide (new ∪ vdb_Annotations vdb = vdb_Annotations vdb))).
Proof.
  intros Hkvs. unfold MergeAnnotations.
  assert (NoDup kvs.*1) as Hnd. { rewrite Hkvs. apply NoDup_fst_map_to_list. }
  rewrite merge_annotations_spec by done.
  assert ((list_to_map kvs : gmap string string) = new) as ->; [|done].
  rewrite (list_to_map_proper kvs (map_to_list new)) by done. apply list_to_map_to_list.
Qed.

Lemma MergeAnnotations_correct_witness :
  MergeAnnotations MakeVDB [(VersionAnnotation, "v11.0.0")] =
  (set_Annotations MakeVDB ({[ VersionAnnotation := "v11.0.0" ]} ∪ ∅), true).
Proof.
  rewrite (MergeAnnotations_correct MakeVDB {[ VersionAnnotation := "v11.0.0" ]}).
  - reflexivity.
  - by rewrite map_to_list_singleton.
Defined.

(** Enforcing the upgrade path on an image whose version output has no
    version line panics, whenever the resource already carries a version. *)
Theorem missing_version_panics vdb op :
  is_Some (MakeInfoFromVdb vdb) → find_submatch version_line_re op = None →
  ∃ msg, IsUpgradePathSupported vdb (ParseVersionOutput op) = Panic msg.
Proof.
  intros [i Hi] Hop. unfold IsUpgradePathSupported. rewrite Hi.
  assert (ParseVersionOutput op !! VersionAnnotation = None) as ->.
  { unfold ParseVersionOutput. simpl. rewrite Hop.
    destruct (find_submatch build_ref_re op), (find_submatch build_date_re op);
      rewrite ?lookup_insert_ne by done; by rewrite lookup_empty. }
  simpl. eauto.
Qed.

Lemma missing_version_panics_witness :
  ∃ msg, IsUpgradePathSupported
    (set_Annotations MakeVDB {[ VersionAnnotation := "v11.0.0" ]})
    (ParseVersionOutput "command not found") = Panic msg.
Proof.
  apply missing_version_panics; [|vm_compute; reflexivity].
  eexists. vm_compute. reflexivity.
Defined.
