(* ===== verification/Effects.v ===== *)
(** * The outside world of the controllers

    The Kubernetes API server, the pods and the clock are not part of this
    repository.  They are the class [Env]: what each call answers, as a
    function of everything the operator has done so far.  A computation of a
    controller is a function on the trace of its calls, so that a theorem
    quantified over [Env] holds for every behaviour of the cluster, including
    the interference of other clients.

    [pkg/errors/errors.go] is here as well. *)

From stdpp Require Import base gmap strings pretty numbers list.
From S2P Require Import Prelude GoStrings K8s Types KObjects.

(** [ctrl.Result]; [RequeueAfter] is in nanoseconds. *)
Record Result : Type := MkResult { Requeue : bool; RequeueAfter : Z }.

#[global] Instance Result_eq_dec : EqDecision Result.
Proof. solve_decision. Defined.

Definition no_requeue : Result := MkResult false 0.

Definition requeue : Result := MkResult true 0.

Definition IsReconcileAborted (res : Result) (err : option go_error) : bool :=
  Requeue res || match err with Some _ => true | None => false end ||
  bool_decide (0 < RequeueAfter res)%Z.

(** ** Calls *)

(** What a command in a pod returns: standard output, standard error, and
    whether it failed *)
Record exec_result : Type := MkExec { stdout : string; stderr : string; exec_err : option go_error }.

Inductive action : Type :=
| AExecInPod (pod : NamespacedName) (cmd : list string)
| AExecVSQL (pod : NamespacedName) (cmd : list string)
| AExecAdmintools (pod : NamespacedName) (cmd : list string)
| AEvent (reason : string)
| AGetVdb (nm : NamespacedName)
| AUpdateVdb (v : VerticaDB)
| AUpdateVdbStatus (v : VerticaDB)
| AGetVas (nm : NamespacedName)
| AUpdateVas (v : VerticaAutoscaler)
| AUpdateVasStatus (v : VerticaAutoscaler)
| AGetSts (nm : NamespacedName)
| AGetPod (nm : NamespacedName)
| AListSts (ns : string) (sel : gmap string string)
| AListPods (ns : string) (sel : gmap string string)
| AListServices (ns : string) (sel : gmap string string)
| AUpdateSts (s : StatefulSet)
| ADeletePod (p : Pod)
| ACopyToPod (pod : NamespacedName) (contents destFile : string)
| AUpdatePod (p : Pod)
| APatchPod (p : Pod)
| AServerVersion
| AGetSecret (nm : NamespacedName)
| AGetConfigMap (nm : NamespacedName)
| AGetService (nm : NamespacedName)
| ACreateService (s : Service)
| AUpdateService (s : Service)
| ADeleteService (s : Service)
| ACreateSts (s : StatefulSet)
| APatchSts (s : StatefulSet)
| ADeleteSts (s : StatefulSet).

(** The latest call is the head. *)
Abbreviation Trace := (list action).

(** The answers of the environment.  The trace is the one before the call.
    Updates return the object as stored, which client-go decodes into the
    caller's object.  [env_retry_steps] is the number of attempts of client-go's
    [retry.DefaultBackoff]. *)
Class Env : Type := {
  env_exec : Trace → NamespacedName → list string → exec_result;
  env_vsql : Trace → NamespacedName → list string → exec_result;
  env_admintools : Trace → NamespacedName → list string → exec_result;
  env_get_vdb : Trace → NamespacedName → result VerticaDB;
  env_update_vdb : Trace → VerticaDB → result VerticaDB;
  env_update_vdb_status : Trace → VerticaDB → result VerticaDB;
  env_get_vas : Trace → NamespacedName → result VerticaAutoscaler;
  env_update_vas : Trace → VerticaAutoscaler → result VerticaAutoscaler;
  env_update_vas_status : Trace → VerticaAutoscaler → result VerticaAutoscaler;
  env_get_sts : Trace → NamespacedName → result StatefulSet;
  env_get_pod : Trace → NamespacedName → result Pod;
  env_list_sts : Trace → string → gmap string string → result (list StatefulSet);
  env_list_pods : Trace → string → gmap string string → result (list Pod);
  env_list_services : Trace → string → gmap string string → result (list Service);
  env_update_sts : Trace → StatefulSet → result StatefulSet;
  env_delete_pod : Trace → Pod → option go_error;
  env_copy : Trace → NamespacedName → string → string → exec_result;
  env_update_pod : Trace → Pod → result Pod;
  env_patch_pod : Trace → Pod → result Pod;
  env_server_version : Trace → result (string * string * string);
  env_get_secret : Trace → NamespacedName → result Secret;
  env_get_configmap : Trace → NamespacedName → option go_error;
  env_get_service : Trace → NamespacedName → result Service;
  env_create_service : Trace → Service → option go_error;
  env_update_service : Trace → Service → result Service;
  env_delete_service : Trace → Service → option go_error;
  env_create_sts : Trace → StatefulSet → option go_error;
  env_patch_sts : Trace → StatefulSet → result StatefulSet;
  env_delete_sts : Trace → StatefulSet → option go_error;
  env_set_controller : Trace → VerticaDB → option go_error;
  env_now : Trace → Z;
  env_retry_steps : nat }.

(** ** The monad of computations *)

Definition M (A : Type) : Type := Trace → A * Trace.

#[global] Instance M_ret : MRet M := λ A a t, (a, t).

#[global] Instance M_bind : MBind M := λ A B f m t, let '(a, t') := m t in f a t'.

(** One call: record it and give the answer of the environment. *)
Definition call {A} (a : action) (answer : Trace → A) : M A := λ t, (answer t, a :: t).

Section calls.
Context `{Env}.

Definition ExecInPod (pod : NamespacedName) (cmd : list string) : M exec_result :=
  call (AExecInPod pod cmd) (λ t, env_exec t pod cmd).

Definition ExecVSQL (pod : NamespacedName) (cmd : list string) : M exec_result :=
  call (AExecVSQL pod cmd) (λ t, env_vsql t pod cmd).

Definition ExecAdmintools (pod : NamespacedName) (cmd : list string) : M exec_result :=
  call (AExecAdmintools pod cmd) (λ t, env_admintools t pod cmd).

Definition Event (reason : string) : M unit := call (AEvent reason) (λ _, tt).

Definition GetVdb (nm : NamespacedName) : M (result VerticaDB) :=
  call (AGetVdb nm) (λ t, env_get_vdb t nm).

Definition UpdateVdb (v : VerticaDB) : M (result VerticaDB) :=
  call (AUpdateVdb v) (λ t, env_update_vdb t v).

Definition UpdateVdbStatus (v : VerticaDB) : M (result VerticaDB) :=
  call (AUpdateVdbStatus v) (λ t, env_update_vdb_status t v).

Definition GetVas (nm : NamespacedName) : M (result VerticaAutoscaler) :=
  call (AGetVas nm) (λ t, env_get_vas t nm).

Definition UpdateVas (v : VerticaAutoscaler) : M (result VerticaAutoscaler) :=
  call (AUpdateVas v) (λ t, env_update_vas t v).

Definition UpdateVasStatus (v : VerticaAutoscaler) : M (result VerticaAutoscaler) :=
  call (AUpdateVasStatus v) (λ t, env_update_vas_status t v).

Definition GetSts (nm : NamespacedName) : M (result StatefulSet) :=
  call (AGetSts nm) (λ t, env_get_sts t nm).

Definition GetPod (nm : NamespacedName) : M (result Pod) :=
  call (AGetPod nm) (λ t, env_get_pod t nm).

Definition ListSts (ns : string) (sel : gmap string string) : M (result (list StatefulSet)) :=
  call (AListSts ns sel) (λ t, env_list_sts t ns sel).

Definition ListPods (ns : string) (sel : gmap string string) : M (result (list Pod)) :=
  call (AListPods ns sel) (λ t, env_list_pods t ns sel).

Definition ListServices (ns : string) (sel : gmap string string) : M (result (list Service)) :=
  call (AListServices ns sel) (λ t, env_list_services t ns sel).

Definition UpdateSts (s : StatefulSet) : M (result StatefulSet) :=
  call (AUpdateSts s) (λ t, env_update_sts t s).

Definition DeletePod (p : Pod) : M (option go_error) :=
  call (ADeletePod p) (λ t, env_delete_pod t p).

(** [contents] is what the local source file holds. *)
Definition CopyToPod (pod : NamespacedName) (contents destFile : string) : M exec_result :=
  call (ACopyToPod pod contents destFile) (λ t, env_copy t pod contents destFile).

Definition UpdatePod (p : Pod) : M (result Pod) :=
  call (AUpdatePod p) (λ t, env_update_pod t p).

(** A patch with the difference between the fetched pod and [p] *)
Definition PatchPod (p : Pod) : M (result Pod) :=
  call (APatchPod p) (λ t, env_patch_pod t p).

(** [discoveryClient.ServerVersion]: the version, git commit and build date *)
Definition ServerVersion : M (result (string * string * string)) :=
  call AServerVersion env_server_version.

(** Secrets and config maps; only whether a config map exists is read. *)
Definition GetSecret (nm : NamespacedName) : M (result Secret) :=
  call (AGetSecret nm) (λ t, env_get_secret t nm).

Definition GetConfigMap (nm : NamespacedName) : M (option go_error) :=
  call (AGetConfigMap nm) (λ t, env_get_configmap t nm).

Definition GetService (nm : NamespacedName) : M (result Service) :=
  call (AGetService nm) (λ t, env_get_service t nm).

Definition CreateService (s : Service) : M (option go_error) :=
  call (ACreateService s) (λ t, env_create_service t s).

Definition UpdateService (s : Service) : M (result Service) :=
  call (AUpdateService s) (λ t, env_update_service t s).

Definition DeleteService (s : Service) : M (option go_error) :=
  call (ADeleteService s) (λ t, env_delete_service t s).

Definition CreateSts (s : StatefulSet) : M (option go_error) :=
  call (ACreateSts s) (λ t, env_create_sts t s).

(** A patch with the difference between the fetched statefulset and [s] *)
Definition PatchSts (s : StatefulSet) : M (result StatefulSet) :=
  call (APatchSts s) (λ t, env_patch_sts t s).

Definition DeleteSts (s : StatefulSet) : M (option go_error) :=
  call (ADeleteSts s) (λ t, env_delete_sts t s).

(** [ctrl.SetControllerReference]: sets the owner of a new object, which
    nothing reads; it can fail but is not a call. *)
Definition SetControllerReference (v : VerticaDB) : M (option go_error) :=
  λ t, (env_set_controller t v, t).

(** The clock is read without leaving a trace. *)
Definition Now : M Z := λ t, (env_now t, t).

(** [retry.RetryOnConflict(retry.DefaultBackoff, fn)]: the attempts share the
    state [s] that [fn] works on; a conflict is retried while attempts are left,
    any other result is final. *)
Fixpoint retry_on_conflict {S} (steps : nat) (fn : S → M (S * option go_error)) (s : S)
    : M (S * option go_error) :=
  match steps with
  | 0 => mret (s, None)
  | 1 => fn s
  | S steps' =>
      '(s', err) ← fn s;
      match err with
      | Some ErrConflict => retry_on_conflict steps' fn s'
      | _ => mret (s', err)
      end
  end.

Definition RetryOnConflict {S} (fn : S → M (S * option go_error)) (s : S) : M (S * option go_error) :=
  retry_on_conflict env_retry_steps fn s.

End calls.

(** A computation that can panic; a panic ends it. *)
Definition obind {A B} (m : M (outcome A)) (f : A → M (outcome B)) : M (outcome B) :=
  m ≫= λ o, match o with Ret a => f a | Panic msg => mret (Panic msg) end.

Notation "x ←! m ; k" := (obind m (λ x, k))
  (at level 20, m at level 100, k at level 200, only parsing) : stdpp_scope.

(** [mret (Ret a)] *)
Definition oret {A} (a : A) : M (outcome A) := mret (Ret a).

(** A computation that does not panic *)
Definition olift {A} (m : M A) : M (outcome A) := a ← m; oret a.

(** ** Reasoning about computations

    [wp m t Q] says that running [m] from trace [t] ends with a result and a
    trace that satisfy [Q].  Computations are total functions, so this is a
    total-correctness statement. *)
Definition wp {A} (m : M A) (t : Trace) (Q : A → Trace → Prop) : Prop :=
  Q (fst (m t)) (snd (m t)).

Lemma wp_ret {A} (a : A) t (Q : A → Trace → Prop) : Q a t → wp (mret a) t Q.
Proof. done. Qed.

Lemma wp_bind {A B} (m : M A) (f : A → M B) t (Q : B → Trace → Prop) :
  wp m t (λ a t', wp (f a) t' Q) → wp (m ≫= f) t Q.
Proof. unfold wp, mbind, M_bind. by destruct (m t). Qed.

Lemma wp_call {A} (a : action) (ans : Trace → A) t (Q : A → Trace → Prop) :
  Q (ans t) (a :: t) → wp (call a ans) t Q.
Proof. done. Qed.

Lemma wp_mono {A} (m : M A) t (Q Q' : A → Trace → Prop) :
  (∀ a t', Q a t' → Q' a t') → wp m t Q → wp m t Q'.
Proof. unfold wp. auto. Qed.

Lemma wp_obind {A B} (m : M (outcome A)) (f : A → M (outcome B)) t (Q : outcome B → Trace → Prop) :
  wp m t (λ o t', match o with Ret a => wp (f a) t' Q | Panic msg => Q (Panic msg) t' end) →
  wp (obind m f) t Q.
Proof. intros Hm. apply wp_bind. eapply wp_mono; [|done]. by intros [a|msg] t'. Qed.

Lemma wp_run {A} (m : M A) t : wp m t (λ a t', m t = (a, t')).
Proof. unfold wp. by destruct (m t). Qed.

Lemma wp_and {A} (m : M A) t (Q Q' : A → Trace → Prop) :
  wp m t Q → wp m t Q' → wp m t (λ a t', Q a t' ∧ Q' a t').
Proof. by unfold wp. Qed.

(** The trace only grows. *)
Definition extends (t t' : Trace) : Prop := ∃ new, t' = new ++ t.

#[global] Instance extends_preorder : PreOrder extends.
Proof.
  split; [intros t; by exists []|]. intros t1 t2 t3 [n1 ->] [n2 ->].
  exists (n2 ++ n1). by rewrite (assoc_L (++)).
Qed.

Lemma extends_cons a t : extends t (a :: t).
Proof. by exists [a]. Qed.

#[export] Hint Resolve extends_cons : vdb.

(** A retried computation satisfies what every attempt establishes, if the
    invariant is kept between attempts. *)
Lemma wp_retry {S} steps (fn : S → M (S * option go_error)) (I : S → Trace → Prop)
    (Q : S * option go_error → Trace → Prop) s t :
  0 < steps →
  I s t →
  (∀ s t, I s t → wp (fn s) t (λ r t', Q r t' ∧ (snd r = Some ErrConflict → I (fst r) t'))) →
  wp (retry_on_conflict steps fn s) t Q.
Proof.
  intros Hs HI Hfn. revert s t HI. induction steps as [|steps IH]; intros s t HI; [lia|].
  simpl. destruct steps as [|steps].
  - apply (wp_mono _ _ (λ r t', Q r t' ∧ (snd r = Some ErrConflict → I (fst r) t'))); [naive_solver|].
    by apply Hfn.
  - apply wp_bind. eapply wp_mono; [|by apply Hfn].
    intros [s' err] t' [HQ HI']. simpl in HI'.
    destruct err as [[]|]; try exact HQ. apply IH; [lia|]. by apply HI'.
Qed.

Lemma wp_retry_inv {S} steps (fn : S → M (S * option go_error)) (I : S → Trace → Prop) s t :
  I s t → (∀ s t, I s t → wp (fn s) t (λ r t', I (fst r) t')) →
  wp (retry_on_conflict steps fn s) t (λ r t', I (fst r) t').
Proof.
  intros HI Hfn. destruct steps as [|steps]; [by apply wp_ret|].
  eapply wp_retry; [lia|exact HI|]. intros s' t' HI'. eapply wp_mono; [|by apply Hfn].
  by intros r t'' Hr.
Qed.

(** Stepping through a computation: unfold the calls and binds. *)
Ltac wp_step :=
  lazymatch goal with
  | |- wp (mbind _ _) _ _ => apply wp_bind
  | |- wp (mret _) _ _ => apply wp_ret
  | |- wp (oret _) _ _ => apply wp_ret
  | |- wp (call _ _) _ _ => apply wp_call
  | |- wp (let '(_, _) := ?x in _) _ _ => destruct x
  | |- wp (match ?x with _ => _ end) _ _ => destruct x eqn:?
  end.

Ltac wp_calls :=
  unfold ExecInPod, ExecVSQL, ExecAdmintools, Event, GetVdb, UpdateVdb, UpdateVdbStatus,
    GetVas, UpdateVas, UpdateVasStatus, GetSts, GetPod, ListSts, ListPods, ListServices,
    UpdateSts, DeletePod, CopyToPod, UpdatePod, PatchPod, ServerVersion, GetSecret, GetConfigMap,
    GetService, CreateService, UpdateService, DeleteService, CreateSts, PatchSts, DeleteSts.

Lemma IsReconcileAborted_false res err :
  IsReconcileAborted res err = false ↔
  Requeue res = false ∧ err = None ∧ (RequeueAfter res ≤ 0)%Z.
Proof.
  unfold IsReconcileAborted. rewrite !orb_false_iff, bool_decide_eq_false, Z.nlt_ge.
  destruct err; naive_solver.
Qed.

(** ** Trace invariants

    [keeps I m]: running [m] from a trace that satisfies [I] ends in one that
    satisfies [I]. *)
Definition keeps {A} (I : Trace → Prop) (m : M A) : Prop :=
  ∀ t, I t → wp m t (λ _ t', I t').

Section keeps.
Context (I : Trace → Prop).

Lemma keeps_ret {A} (a : A) : keeps I (mret a).
Proof. by intros t Ht. Qed.

Lemma keeps_bind {A B} (m : M A) (f : A → M B) :
  keeps I m → (∀ a, keeps I (f a)) → keeps I (m ≫= f).
Proof.
  intros Hm Hf t Ht. apply wp_bind. eapply wp_mono; [|by apply Hm].
  intros a t' Ht'. by apply Hf.
Qed.

Lemma keeps_call {A} (a : action) (ans : Trace → A) :
  (∀ t, I t → I (a :: t)) → keeps I (call a ans).
Proof. intros Ha t Ht. apply wp_call. by apply Ha. Qed.

(** A call whose answer the continuation may use *)
Lemma keeps_bind_call {A B} (a : action) (ans : Trace → A) (f : A → M B) :
  (∀ t, I t → I (a :: t)) → (∀ t, keeps I (f (ans t))) → keeps I (call a ans ≫= f).
Proof.
  intros Ha Hf t Ht. apply wp_bind, wp_call. apply Hf. by apply Ha.
Qed.

Lemma keeps_retry {S} steps (fn : S → M (S * option go_error)) s :
  (∀ s, keeps I (fn s)) → keeps I (retry_on_conflict steps fn s).
Proof.
  intros Hfn. revert s. induction steps as [|steps IH]; intros s; simpl; [apply keeps_ret|].
  destruct steps; [apply Hfn|]. apply keeps_bind; [apply Hfn|].
  intros [s' err]. destruct err as [[]|]; solve [apply IH | apply keeps_ret].
Qed.

End keeps.

(** Walk through a computation, leaving the obligations of the calls that the
    side condition [tac] does not discharge. *)
Ltac keeps_step tac :=
  lazymatch goal with
  | |- keeps _ (mret _) => apply keeps_ret
  | |- keeps _ (mbind _ (call _ _)) => apply keeps_bind_call; [tac|intros ?; simpl]
  | |- keeps _ (mbind _ _) => apply keeps_bind; [|intros ?; simpl]
  | |- keeps _ (call _ _) => apply keeps_call; tac
  | |- keeps _ (RetryOnConflict _ _) => apply keeps_retry; intros ?
  | |- keeps _ (let '(_, _) := ?x in _) => destruct x
  | |- keeps _ (match ?x with _ => _ end) => destruct x eqn:?
  end.

(** ** Rules on what may be sent when

    [safe P t]: every call of the trace satisfies [P] with respect to the calls
    before it. *)
Fixpoint safe (P : action → Trace → Prop) (t : Trace) : Prop :=
  match t with
  | [] => True
  | a :: t => P a t ∧ safe P t
  end.

Lemma safe_at P n1 a n2 : safe P (n1 ++ a :: n2) → P a n2.
Proof. induction n1 as [|b n1 IH]; simpl; [by intros []|]. intros [_ Hs]. by apply IH. Qed.

Lemma safe_True t : safe (λ _ _, True) t.
Proof. by induction t. Qed.

(** Every trace is safe for a rule on what comes after it. *)
Lemma safe_base (P : action → Trace → Prop) t0 :
  safe (λ a past, length past < length t0 ∨ P a past) t0.
Proof.
  assert (∀ t n, length t ≤ n → safe (λ a past, length past < n ∨ P a past) t) as Hg.
  { induction t as [|a t IH]; intros n Hn; simpl in *; [done|]. split; [left; lia|].
    apply IH. lia. }
  by apply Hg.
Qed.

Lemma extends_length t t' : extends t t' → length t ≤ length t'.
Proof. intros [n ->]. rewrite length_app. lia. Qed.

Lemma safe_app P new t :
  safe P t → (∀ n1 a n2, new = n1 ++ a :: n2 → P a (n2 ++ t)) → safe P (new ++ t).
Proof.
  intros Ht Hn. induction new as [|a new IH]; [done|]. simpl. split; [by apply (Hn [] a new)|].
  apply IH. intros n1 b n2 ->. by apply (Hn (a :: n1) b n2).
Qed.

Lemma extends_app new t : extends t (new ++ t).
Proof. by exists new. Qed.

Lemma extends_trans_cons a t t' : extends (a :: t) t' → extends t t'.
Proof. intros He. etrans; [apply extends_cons|done]. Qed.

(** A computation that only sends calls of the kind [ok] *)
Definition only {A} (ok : action → Prop) (m : M A) : Prop :=
  ∀ t, wp m t (λ _ t', ∃ new, t' = new ++ t ∧ Forall ok new).

Section only.
Context (ok : action → Prop).

Lemma only_ret {A} (a : A) : only ok (mret a).
Proof. intros t. exists []. by split. Qed.

Lemma only_call {A} (a : action) (ans : Trace → A) : ok a → only ok (call a ans).
Proof. intros Ha t. exists [a]. split; [done|by constructor]. Qed.

Lemma only_bind {A B} (m : M A) (f : A → M B) :
  only ok m → (∀ a, only ok (f a)) → only ok (m ≫= f).
Proof.
  intros Hm Hf t. apply wp_bind. eapply wp_mono; [|by apply Hm].
  intros a t' (n1 & -> & Hn1). eapply wp_mono; [|by apply Hf].
  intros b t'' (n2 & -> & Hn2). exists (n2 ++ n1).
  rewrite (assoc_L (++)). split; [done|by apply Forall_app_2].
Qed.

(** The rest may rely on the value. *)
Lemma only_bind_val {A B} (P : A → Prop) (m : M A) (f : A → M B) :
  only ok m → (∀ t, P (fst (m t))) → (∀ a, P a → only ok (f a)) → only ok (m ≫= f).
Proof.
  intros Hm HP Hf t. apply wp_bind. destruct (Hm t) as (n1 & H1 & Hn1).
  change (wp (f (fst (m t))) (snd (m t)) (λ _ t', ∃ new, t' = new ++ t ∧ Forall ok new)).
  eapply wp_mono; [|apply (Hf _ (HP t))]. intros b t' (n2 & -> & Hn2). exists (n2 ++ n1). rewrite H1.
  rewrite (assoc_L (++)). split; [done|by apply Forall_app].
Qed.

Lemma only_obind {A B} (m : M (outcome A)) (f : A → M (outcome B)) :
  only ok m → (∀ a, only ok (f a)) → only ok (obind m f).
Proof. intros Hm Hf. apply only_bind; [done|]. intros [a|msg]; [apply Hf|apply only_ret]. Qed.

Lemma only_retry {S} steps (fn : S → M (S * option go_error)) s :
  (∀ s, only ok (fn s)) → only ok (retry_on_conflict steps fn s).
Proof.
  intros Hfn. revert s. induction steps as [|steps IH]; intros s; simpl; [apply only_ret|].
  destruct steps; [apply Hfn|]. apply only_bind; [apply Hfn|].
  intros [s' err]. destruct err as [[]|]; solve [apply IH | apply only_ret].
Qed.

(** Calls of a kind that the rules allow from now on keep the rules and extend
    the trace. *)
Lemma wp_only_from {A} (m : M A) (P : action → Trace → Prop) t (R Q : A → Trace → Prop) :
  only ok m → (∀ a past, extends t past → ok a → P a past) → safe P t → wp m t R →
  (∀ a t', R a t' → safe P t' → extends t t' → Q a t') → wp m t Q.
Proof.
  intros Hm Hok Ht HR Hq. unfold wp in *. destruct (Hm t) as (new & Heq & Hnew).
  apply Hq; [done| |exists new; done]. rewrite Heq. apply safe_app; [done|].
  intros n1 a n2 ->. apply Hok; [by exists n2|]. apply Forall_app in Hnew as [_ Hnew].
  by apply Forall_cons in Hnew as [Hnew _].
Qed.

Lemma wp_only {A} (m : M A) (P : action → Trace → Prop) t (R Q : A → Trace → Prop) :
  only ok m → (∀ a t, ok a → P a t) → safe P t → wp m t R →
  (∀ a t', R a t' → safe P t' → extends t t' → Q a t') → wp m t Q.
Proof. intros Hm Hok. apply wp_only_from; [done|]. intros a past _. apply Hok. Qed.

End only.

Lemma only_mono {A} (ok ok' : action → Prop) (m : M A) :
  (∀ a, ok a → ok' a) → only ok m → only ok' m.
Proof.
  intros Hi Hm t. eapply wp_mono; [|apply Hm]. intros a t' (new & Ht & Hn).
  exists new. split; [done|]. by eapply Forall_impl.
Qed.

(** Walk through a computation; [tac] shows that a call is of the kind. *)
Ltac only_step tac :=
  lazymatch goal with
  | |- only _ (mret _) => apply only_ret
  | |- only _ (oret _) => apply only_ret
  | |- only _ (mbind _ _) => apply only_bind; [|intros ?; simpl]
  | |- only _ (call _ _) => apply only_call; tac
  | |- only _ (RetryOnConflict _ _) => apply only_retry; intros ?
  | |- only _ (let '(_, _) := ?x in _) => destruct x
  | |- only _ (match ?x with _ => _ end) => destruct x eqn:?
  end.
