(* ===== verification/Events.v ===== *)
(** * The reasons of events

    The constants of [pkg/events/event.go], in their order.  The reconcilers record
    an event with one of these reasons; [Frame] says which of them can record which. *)

From stdpp Require Import base strings list.

(** The VerticaDB controller *)
Definition vdb_reasons : list string :=
  ["AddNodeStart"; "AddNodeSucceeded"; "AddNodeLicenseFail"; "AddNodeFailed"; "CreateDBStart";
   "CreateDBSucceeded"; "CreateDBFailed"; "ReviveDBStart"; "ReviveDBSucceeded"; "ReviveDBFailed";
   "ReviveDBClusterInUse"; "ReviveDBNotFound"; "ReviveDBPermissionDenied"; "ReviveDBNodeCountMismatch";
   "ReviveOrderBad"; "ObjectNotFound"; "CommunalCredsWrongKey"; "S3EndpointIssue"; "S3BucketDoesNotExist";
   "S3WrongRegion"; "CommunalPathIsNotEmpty"; "RemoveNodesStart"; "RemoveNodesSucceeded"; "RemoveNodesFailed";
   "NodeRestartStarted"; "NodeRestartFailed"; "NodeRestartSucceeded"; "ClusterRestartStarted";
   "ClusterRestartFailed"; "ClusterRestartSucceeded"; "SubclusterAdded"; "SubclusterRemoved";
   "SuperuserPasswordSecretNotFound"; "UnsupportedVerticaVersion"; "ATConfPartiallyCopied";
   "AuthParmsCopyFailed"; "UpgradeStart"; "UpgradeSucceeded"; "IncompatibleOnlineUpgrade";
   "ClusterShutdownStarted"; "ClusterShutdownFailed"; "ClusterShutdownSucceeded"; "ReipFailed";
   "MissingSecretKeys"; "KerberosAuthError"; "OperatorUpgrade"; "InvalidUpgradePath"; "RebalanceShards";
   "DrainNodeRetry"; "DrainSubclusterRetry"; "SuboptimalNodeCount"; "StopDBStart"; "StopDBSucceeded";
   "StopDBFailed"].

(** The VerticaAutoscaler controller *)
Definition vas_reasons : list string :=
  ["SubclusterServiceNameNotFound"; "VerticaDBNotFound"; "NoSubclusterTemplate"].

(** Reasons are distinct, so an event tells what happened. *)
Lemma reasons_distinct : NoDup (vdb_reasons ++ vas_reasons).
Proof. apply (bool_decide_unpack _). vm_compute. exact I. Qed.
