(* ===== verification/Status.v ===== *)
(** * The status of VerticaDB

    [pkg/vdbstatus/status.go]: the retried read-modify-write of the status
    subresource, the conditions array and the upgrade message. *)

From stdpp Require Import base gmap strings pretty numbers list.
From S2P Require Import Prelude GoStrings K8s Types KObjects Effects.

Section vdbstatus.
Context `{Env}.

(** One attempt of [Update].  The caller's object is overwritten by the fetch,
    and by the answer of the status write. *)
Definition Update_attempt (updateFunc : VerticaDB → result VerticaDB) (vdb : VerticaDB)
    : M (VerticaDB * option go_error) :=
  r ← GetVdb (ExtractNamespacedName vdb);
  match r with
  | Err e => mret (vdb, Some e)
  | Ok vdb =>
      match updateFunc vdb with
      | Err e => mret (vdb, Some e)
      | Ok vdbChg =>
          if negb (bool_decide (vdb_Status vdb = vdb_Status vdbChg)) then
            let vdb := set_Status vdb (vdb_Status vdbChg) in
            r ← UpdateVdbStatus vdb;
            match r with
            | Err e => mret (vdb, Some e)
            | Ok vdb' => mret (vdb', None)
            end
          else mret (vdb, None)
      end
  end.

Definition Update (vdb : VerticaDB) (updateFunc : VerticaDB → result VerticaDB)
    : M (VerticaDB * option go_error) :=
  RetryOnConflict (Update_attempt updateFunc) vdb.

(** "Ensure the array is big enough": [n] more conditions, all false *)
Fixpoint grow_conditions (n : nat) (cs : list VerticaDBCondition) : list VerticaDBCondition :=
  match n with
  | 0 => cs
  | S n => grow_conditions n (cs ++ [MkVerticaDBCondition
             (VerticaDBConditionNameMap (length cs)) ConditionFalse (UnixTime 0)])
  end.

Definition set_condition (inx : nat) (condition : VerticaDBCondition) (cs : list VerticaDBCondition)
    : list VerticaDBCondition :=
  let cs := grow_conditions (S inx - length cs) cs in
  match cs !! inx with
  | Some old =>
      if negb (bool_decide (cond_Status old = cond_Status condition))
      then <[inx := condition]> cs else cs
  | None => cs
  end.

Definition refreshConditionInPlace (condition : VerticaDBCondition) (vdb : VerticaDB)
    : result VerticaDB :=
  match VerticaDBConditionIndexMap (cond_Type condition) with
  | None => Err (ErrMsg ("vertica DB condition '" +:+ condition_type_string (cond_Type condition)
              +:+ "' missing from VerticaDBConditionType"))
  | Some inx =>
      Ok (set_Status vdb (set_Conditions (vdb_Status vdb)
            (set_condition inx condition (st_Conditions (vdb_Status vdb)))))
  end.

Definition UpdateCondition (vdb : VerticaDB) (condition : VerticaDBCondition)
    : M (VerticaDB * option go_error) :=
  now ← Now;
  let condition :=
    match cond_LastTransitionTime condition with
    | ZeroTime => MkVerticaDBCondition (cond_Type condition) (cond_Status condition) (UnixTime now)
    | UnixTime _ => condition
    end in
  Update vdb (refreshConditionInPlace condition).

Definition UpdateUpgradeStatus (vdb : VerticaDB) (msg : string) : M (VerticaDB * option go_error) :=
  Update vdb (λ vdb, Ok (set_Status vdb (set_UpgradeStatus (vdb_Status vdb) msg))).

End vdbstatus.

(** ** The conditions array *)

(** Every condition sits at its fixed index. *)
Definition conditions_wf (cs : list VerticaDBCondition) : Prop :=
  ∀ i c, cs !! i = Some c → cond_Type c = VerticaDBConditionNameMap i.

Lemma index_name_inverse t inx :
  VerticaDBConditionIndexMap t = Some inx ↔ inx < 6 ∧ VerticaDBConditionNameMap inx = t.
Proof.
  split.
  - destruct t; intros [= <-]; (split; [vm_compute; lia|reflexivity]).
  - intros [Hi <-]. do 6 (destruct inx as [|inx]; [reflexivity|]). lia.
Qed.

Lemma grow_conditions_spec n cs :
  grow_conditions n cs = cs ++ ((λ i, MkVerticaDBCondition (VerticaDBConditionNameMap i)
                                   ConditionFalse (UnixTime 0)) <$> seq (length cs) n).
Proof.
  revert cs. induction n as [|n IH]; intros cs; simpl; [by rewrite app_nil_r|].
  rewrite IH, <- (assoc_L (++)), length_app. simpl.
  by replace (length cs + 1) with (S (length cs)) by lia.
Qed.

Lemma grow_conditions_wf n cs : conditions_wf cs → conditions_wf (grow_conditions n cs).
Proof.
  intros Hwf i c. rewrite grow_conditions_spec. rewrite lookup_app_Some.
  intros [Hc|[Hi Hc]]; [by apply Hwf|].
  apply list_lookup_fmap_Some in Hc as (j & -> & Hj).
  apply lookup_seq in Hj as [-> _]. simpl. f_equal. lia.
Qed.

Lemma grow_conditions_length inx cs : inx < length (grow_conditions (S inx - length cs) cs).
Proof. rewrite grow_conditions_spec, length_app, length_fmap, length_seq. lia. Qed.

(** Conditions that are added are false, and a missing condition reads as
    false: growing the array is invisible. *)
Definition cond_on (cs : list VerticaDBCondition) (i : nat) : bool :=
  match cs !! i with
  | Some c => bool_decide (cond_Status c = ConditionTrue)
  | None => false
  end.

Lemma isConditionIndexSet_on v i : isConditionIndexSet v i = cond_on (st_Conditions (vdb_Status v)) i.
Proof. done. Qed.

Lemma cond_on_grow n cs i : cond_on (grow_conditions n cs) i = cond_on cs i.
Proof.
  unfold cond_on. rewrite grow_conditions_spec.
  destruct (cs !! i) as [c|] eqn:Hc; [by rewrite (lookup_app_l_Some _ _ _ _ Hc)|].
  rewrite lookup_app_r by by apply lookup_ge_None.
  rewrite list_lookup_fmap. by destruct (seq _ _ !! _).
Qed.

Lemma set_condition_on inx condition cs i :
  cond_on (set_condition inx condition cs) i =
  if bool_decide (i = inx) then bool_decide (cond_Status condition = ConditionTrue)
  else cond_on cs i.
Proof.
  unfold set_condition. pose proof (grow_conditions_length inx cs) as Hlen.
  set (cs' := grow_conditions (S inx - length cs) cs) in *.
  destruct (lookup_lt_is_Some_2 _ _ Hlen) as [old Hold]. rewrite Hold.
  assert (∀ j, cond_on cs' j = cond_on cs j) as Hg by (intros; apply cond_on_grow).
  case_bool_decide as Hs; simpl; case_bool_decide as Hi.
  - subst i. unfold cond_on. by rewrite Hold, Hs.
  - apply Hg.
  - subst i. unfold cond_on. by rewrite list_lookup_insert_eq.
  - rewrite <- Hg. unfold cond_on. by rewrite list_lookup_insert_ne.
Qed.

Lemma set_condition_wf inx condition cs :
  conditions_wf cs → cond_Type condition = VerticaDBConditionNameMap inx →
  conditions_wf (set_condition inx condition cs).
Proof.
  intros Hwf Ht. unfold set_condition. set (cs' := grow_conditions _ cs).
  assert (conditions_wf cs') as Hwf' by by apply grow_conditions_wf.
  destruct (cs' !! inx) as [old|] eqn:Hold; [|done]. case_bool_decide; simpl; [done|].
  intros i c Hc. destruct (decide (i = inx)) as [->|Hne].
  - rewrite list_lookup_insert_eq in Hc by by eapply lookup_lt_Some.
    by injection Hc as <-.
  - rewrite list_lookup_insert_ne in Hc by done. by apply Hwf'.
Qed.

(** A second update with the same status changes nothing, not even the
    transition time. *)
Lemma set_condition_same_status inx c1 c2 cs :
  cond_Status c1 = cond_Status c2 →
  set_condition inx c2 (set_condition inx c1 cs) = set_condition inx c1 cs.
Proof.
  intros Hs. unfold set_condition at 1.
  assert (inx < length (set_condition inx c1 cs)) as Hlen.
  { unfold set_condition. pose proof (grow_conditions_length inx cs).
    destruct (_ !! inx); [|done]. case_bool_decide; simpl; [done|]. by rewrite length_insert. }
  replace (S inx - length (set_condition inx c1 cs)) with 0 by lia. simpl.
  assert (∃ old, set_condition inx c1 cs !! inx = Some old ∧ cond_Status old = cond_Status c1)
    as (old & -> & Hold).
  { unfold set_condition. pose proof (grow_conditions_length inx cs) as Hl.
    destruct (lookup_lt_is_Some_2 _ _ Hl) as [old Hold]. rewrite Hold.
    case_bool_decide; simpl; [eauto|]. rewrite list_lookup_insert_eq by done. eauto. }
  by rewrite bool_decide_eq_true_2 by congruence.
Qed.

(** ** Read-modify-write against a versioned store *)

(** What the API server documents for the status subresource: at any point of
    the trace one object is stored; a fetch returns it; a status write succeeds
    only if it carries the stored resource version, fails with a conflict
    otherwise; and equal resource versions mean equal objects. *)
Class StatusStore `{E : Env} : Type := {
  stored : Trace → NamespacedName → VerticaDB;
  store_name : ∀ t nm, ExtractNamespacedName (stored t nm) = nm;
  store_get : ∀ t nm v, env_get_vdb t nm = Ok v → v = stored t nm;
  store_version : ∀ t t' nm,
    vdb_ResourceVersion (stored t nm) = vdb_ResourceVersion (stored t' nm) →
    stored t nm = stored t' nm;
  store_write : ∀ t v v', env_update_vdb_status t v = Ok v' →
    vdb_ResourceVersion v = vdb_ResourceVersion (stored t (ExtractNamespacedName v)) ∧
    vdb_Status v' = vdb_Status v;
  store_steps : 0 < env_retry_steps }.

Section store.
Context `{E : Env} `{!StatusStore}.

(** What a successful [Update] of the object [nm] did: either the stored status
    already was what the update function makes of it, or the last call is a
    write of that status, computed from the object stored at that moment. *)
Definition updated (updateFunc : VerticaDB → result VerticaDB) (nm : NamespacedName)
    (vdb : VerticaDB) (t' : Trace) : Prop :=
  (∃ t chg, t' = AGetVdb nm :: t ∧ vdb = stored t nm ∧
     updateFunc vdb = Ok chg ∧ vdb_Status vdb = vdb_Status chg) ∨
  (∃ t cur chg w, t' = AUpdateVdbStatus w :: t ∧ cur = stored t nm ∧ updateFunc cur = Ok chg ∧
     w = set_Status cur (vdb_Status chg) ∧ vdb_Status vdb = vdb_Status chg).

Lemma Update_attempt_spec updateFunc nm vdb t :
  ExtractNamespacedName vdb = nm →
  wp (Update_attempt updateFunc vdb) t (λ r t',
    (snd r = None → updated updateFunc nm (fst r) t') ∧
    (snd r = Some ErrConflict → ExtractNamespacedName (fst r) = nm)).
Proof.
  intros Hnm. unfold Update_attempt. wp_calls. wp_step. wp_step. rewrite Hnm.
  destruct (env_get_vdb t nm) as [v|e] eqn:Hget; [|by wp_step].
  apply store_get in Hget. subst v.
  destruct (updateFunc (stored t nm)) as [chg|e] eqn:Hf.
  2: { wp_step. simpl. split; [done|]. intros _. apply store_name. }
  case_bool_decide as Hs; simpl.
  - wp_step. simpl. split; [|done]. intros _. left. by exists t, chg.
  - wp_step. wp_step. set (w := set_Status _ _).
    destruct (env_update_vdb_status _ w) as [v'|e] eqn:Hw; wp_step; simpl.
    + split; [|done]. intros _. right. apply store_write in Hw as [Hrv Hst].
      exists (AGetVdb nm :: t), (stored t nm), chg, w. split_and!; [done| |done|done|done].
      assert (ExtractNamespacedName w = nm) as Hwn by apply (store_name t nm).
      rewrite Hwn in Hrv. by apply store_version.
    + split; [done|]. intros _. apply (store_name t nm).
Qed.

Lemma Update_spec updateFunc vdb t :
  wp (Update vdb updateFunc) t (λ r t',
    snd r = None → updated updateFunc (ExtractNamespacedName vdb) (fst r) t').
Proof.
  unfold Update, RetryOnConflict.
  apply (wp_retry _ _ (λ v _, ExtractNamespacedName v = ExtractNamespacedName vdb));
    [apply store_steps|done|].
  intros v t' Hv. by apply Update_attempt_spec.
Qed.

End store.

(** ** A store with interference

    Another client changes the object between the first fetch and the first
    write: the first write conflicts and the second attempt succeeds. *)
Definition interfered (v : VerticaDB) (t : Trace) (nm : NamespacedName) : VerticaDB :=
  let n := if (1 <=? length t)%nat then 1%Z else 0%Z in
  MkVerticaDB (nn_Name nm) (nn_Namespace nm) (vdb_UID v) (vdb_Annotations v) n (vdb_Spec v)
    (set_UpgradeStatus (vdb_Status v) (Itoa n)).

Definition no_exec : exec_result := MkExec "" "" None.

Definition interfered_env (v : VerticaDB) : Env := {|
  env_exec _ _ _ := no_exec;
  env_vsql _ _ _ := no_exec;
  env_admintools _ _ _ := no_exec;
  env_get_vdb t nm := Ok (interfered v t nm);
  env_update_vdb _ w := Ok w;
  env_update_vdb_status t w :=
    if bool_decide (vdb_ResourceVersion w
                    = vdb_ResourceVersion (interfered v t (ExtractNamespacedName w)))
    then Ok w else Err ErrConflict;
  env_get_vas _ _ := Err ErrNotFound;
  env_update_vas _ w := Ok w;
  env_update_vas_status _ w := Ok w;
  env_get_sts _ _ := Err ErrNotFound;
  env_get_pod _ _ := Err ErrNotFound;
  env_list_sts _ _ _ := Ok [];
  env_list_pods _ _ _ := Ok [];
  env_list_services _ _ _ := Ok [];
  env_update_sts _ s := Ok s;
  env_delete_pod _ _ := None;
  env_copy _ _ _ _ := MkExec "" "" None;
  env_update_pod _ q := Ok q;
  env_patch_pod _ q := Ok q;
  env_server_version _ := Ok ("v1", "c", "d");
  env_get_secret _ _ := Err ErrNotFound;
  env_get_configmap _ _ := Some ErrNotFound;
  env_get_service _ _ := Err ErrNotFound;
  env_create_service _ _ := None;
  env_update_service _ s := Ok s;
  env_delete_service _ _ := None;
  env_create_sts _ _ := None;
  env_patch_sts _ s := Ok s;
  env_delete_sts _ _ := None;
  env_set_controller _ _ := None;
  env_now _ := 7%Z;
  env_retry_steps := 4 |}.

#[global] Instance interfered_store (v : VerticaDB) : @StatusStore (interfered_env v).
Proof.
  refine {| stored := interfered v |}; simpl.
  - intros t nm. by destruct nm.
  - by intros t nm w [= <-].
  - intros t t' nm. unfold interfered. simpl. by intros ->.
  - intros t w w'. by case_bool_decide; [|done]; intros [= <-].
  - lia.
Defined.

(** ** Properties *)

(** C23: no update of the status is lost.  When [Update] succeeds after any
    number of conflicts, the status it leaves is the update function applied to
    the object stored at the moment of its last call, and everything else of the
    written object is as stored. *)
Theorem Update_no_lost_update `{StatusStore} updateFunc vdb t :
  snd (fst (Update vdb updateFunc t)) = None →
  updated updateFunc (ExtractNamespacedName vdb) (fst (fst (Update vdb updateFunc t)))
    (snd (Update vdb updateFunc t)).
Proof. exact (Update_spec updateFunc vdb t). Qed.

Definition set_msg (msg : string) (v : VerticaDB) : result VerticaDB :=
  Ok (set_Status v (set_UpgradeStatus (vdb_Status v) msg)).

Lemma Update_no_lost_update_witness :
  let E := interfered_env MakeVDB in
  updated (set_msg "done") (ExtractNamespacedName MakeVDB)
    (fst (fst (Update MakeVDB (set_msg "done") [])))
    (snd (Update MakeVDB (set_msg "done") [])) ∧
  length (snd (Update MakeVDB (set_msg "done") [])) = 4.
Proof.
  split; [|vm_compute; reflexivity].
  apply (@Update_no_lost_update _ (interfered_store MakeVDB)). vm_compute. reflexivity.
Defined.

(** Setting a condition turns exactly that condition to the requested
    value as every reader sees it ([isConditionIndexSet]), leaves all other
    conditions as they were, and fails only on an unknown condition type. *)
Theorem refreshConditionInPlace_correct condition vdb :
  match VerticaDBConditionIndexMap (cond_Type condition) with
  | Some inx => ∃ vdb', refreshConditionInPlace condition vdb = Ok vdb' ∧
      vdb_Spec vdb' = vdb_Spec vdb ∧
      ∀ i, isConditionIndexSet vdb' i =
        if bool_decide (i = inx) then bool_decide (cond_Status condition = ConditionTrue)
        else isConditionIndexSet vdb i
  | None => ∃ e, refreshConditionInPlace condition vdb = Err e
  end.
Proof.
  unfold refreshConditionInPlace.
  destruct (VerticaDBConditionIndexMap (cond_Type condition)) as [inx|]; [|eauto].
  eexists. split_and!; [done|done|]. intros i. rewrite !isConditionIndexSet_on. simpl.
  apply set_condition_on.
Qed.

(** C36: setting a condition keeps the conditions array well formed: every
    entry, those added as padding included, carries the type of its index. *)
Theorem conditions_wf_invariant condition vdb vdb' :
  conditions_wf (st_Conditions (vdb_Status vdb)) →
  refreshConditionInPlace condition vdb = Ok vdb' →
  conditions_wf (st_Conditions (vdb_Status vdb')).
Proof.
  unfold refreshConditionInPlace. intros Hwf.
  destruct (VerticaDBConditionIndexMap (cond_Type condition)) as [inx|] eqn:Hi; [|done].
  intros [= <-]. simpl. apply set_condition_wf; [done|].
  by apply index_name_inverse in Hi as [_ ->].
Qed.

Lemma conditions_wf_invariant_witness :
  let c := MkVerticaDBCondition OnlineUpgradeInProgress ConditionTrue (UnixTime 5) in
  ∃ vdb', refreshConditionInPlace c MakeVDB = Ok vdb' ∧
          conditions_wf (st_Conditions (vdb_Status vdb')) ∧
          length (st_Conditions (vdb_Status vdb')) = 5.
Proof.
  eexists. split; [reflexivity|]. split; [|reflexivity].
  apply (conditions_wf_invariant
    (MkVerticaDBCondition OnlineUpgradeInProgress ConditionTrue (UnixTime 5)) MakeVDB);
    [|reflexivity].
  intros i c Hc. simpl in Hc. by rewrite lookup_nil in Hc.
Defined.

(** Setting a condition is idempotent: repeating it with the same status
    (and a later transition time) leaves the resource unchanged, so [Update]
    sends no second write. *)
Theorem refreshConditionInPlace_idempotent c1 c2 vdb vdb' :
  cond_Type c1 = cond_Type c2 → cond_Status c1 = cond_Status c2 →
  refreshConditionInPlace c1 vdb = Ok vdb' → refreshConditionInPlace c2 vdb' = Ok vdb'.
Proof.
  unfold refreshConditionInPlace. intros <- Hs.
  destruct (VerticaDBConditionIndexMap (cond_Type c1)) as [inx|]; [|done].
  intros [= <-]. f_equal. unfold set_Status, set_Conditions. simpl.
  by rewrite set_condition_same_status.
Qed.

Lemma refreshConditionInPlace_idempotent_witness :
  let c n := MkVerticaDBCondition DBInitialized ConditionTrue (UnixTime n) in
  ∃ vdb', refreshConditionInPlace (c 1%Z) MakeVDB = Ok vdb' ∧
          refreshConditionInPlace (c 2%Z) vdb' = Ok vdb'.
Proof.
  eexists. split; [reflexivity|].
  apply (refreshConditionInPlace_idempotent
    (MkVerticaDBCondition DBInitialized ConditionTrue (UnixTime 1)) _ MakeVDB); reflexivity.
Defined.
