(* ===== verification/Labels.v ===== *)
(** * Labels and selectors

    [pkg/builder/labels_annotations.go]: the labels of the objects the operator
    creates, and the selectors by which statefulsets and services find their
    pods. *)

From stdpp Require Import base gmap strings pretty numbers list.
From S2P Require Import Prelude GoStrings K8s Types.

Definition SvcTypeLabel : string := "vertica.com/svc-type".
Definition SubclusterNameLabel : string := "vertica.com/subcluster-name".
Definition SubclusterLegacyNameLabel : string := "vertica.com/subcluster".
Definition SubclusterTypeLabel : string := "vertica.com/subcluster-type".
Definition SubclusterSvcNameLabel : string := "vertica.com/subcluster-svc".
Definition SubclusterTransientLabel : string := "vertica.com/subcluster-transient".
Definition ClientRoutingLabel : string := "vertica.com/client-routing".
Definition ClientRoutingVal : string := "true".
Definition VDBInstanceLabel : string := "app.kubernetes.io/instance".
Definition OperatorVersionLabel : string := "app.kubernetes.io/version".
Definition ManagedByLabel : string := "app.kubernetes.io/managed-by".
Definition OperatorName : string := "verticadb-operator".
Definition CurOperatorVersion : string := "1.7.0".
Definition OperatorVersion100 : string := "1.0.0".
Definition OperatorVersion110 : string := "1.1.0".
Definition OperatorVersion120 : string := "1.2.0".
Definition OperatorVersion130 : string := "1.3.0".

Definition FormatBool (b : bool) : string := if b then "true" else "false".

(** [for k, v := range m { labels[k] = v }]: the keys of a map are distinct, so
    the order of the iteration does not matter. *)
Definition assign_all (labels m : gmap string string) : gmap string string := m ∪ labels.

Definition MakeSubclusterLabels (sc : Subcluster) : gmap string string :=
  let m := <[SubclusterNameLabel := sc_Name sc]>
           (<[SubclusterTypeLabel := GetType sc]>
           {[SubclusterTransientLabel := FormatBool (sc_IsTransient sc)]}) in
  if negb (sc_IsTransient sc) then <[SubclusterSvcNameLabel := GetServiceName sc]> m else m.

Definition MakeOperatorLabels (vdb : VerticaDB) : gmap string string :=
  <[ManagedByLabel := OperatorName]>
  (<["app.kubernetes.io/name" := "vertica"]>
  (<[VDBInstanceLabel := vdb_Name vdb]>
  (<["app.kubernetes.io/component" := "database"]>
  {["vertica.com/database" := spec_DBName (vdb_Spec vdb)]}))).

Definition MakeCommonLabels (vdb : VerticaDB) (sc : option Subcluster) (forPod : bool)
    : gmap string string :=
  let labels := MakeOperatorLabels vdb in
  let labels := if negb forPod then <[OperatorVersionLabel := CurOperatorVersion]> labels
                else labels in
  match sc with
  | None => labels
  | Some sc => assign_all labels (MakeSubclusterLabels sc)
  end.

Definition makeLabelsForObject (vdb : VerticaDB) (sc : option Subcluster) (forPod : bool)
    : gmap string string :=
  assign_all (MakeCommonLabels vdb sc forPod) (spec_Labels (vdb_Spec vdb)).

Definition MakeLabelsForPodObject (vdb : VerticaDB) (sc : option Subcluster) : gmap string string :=
  makeLabelsForObject vdb sc true.

Definition MakeLabelsForStsObject (vdb : VerticaDB) (sc : option Subcluster) : gmap string string :=
  makeLabelsForObject vdb sc false.

Definition MakeLabelsForSvcObject (vdb : VerticaDB) (sc : option Subcluster) (svcType : string)
    : gmap string string :=
  <[SvcTypeLabel := svcType]> (makeLabelsForObject vdb sc false).

Definition MakeAnnotationsForObject (vdb : VerticaDB) : gmap string string :=
  assign_all ∅ (spec_Annotations (vdb_Spec vdb)).

Definition MakeBaseSvcSelectorLabels (vdb : VerticaDB) : gmap string string :=
  {[VDBInstanceLabel := vdb_Name vdb]}.

Definition MakeSvcSelectorLabelsForServiceNameRouting (vdb : VerticaDB) (sc : Subcluster)
    : gmap string string :=
  <[ClientRoutingLabel := ClientRoutingVal]>
  (<[SubclusterSvcNameLabel := GetServiceName sc]> (MakeBaseSvcSelectorLabels vdb)).

Definition MakeSvcSelectorLabelsForSubclusterNameRouting (vdb : VerticaDB) (sc : Subcluster)
    : gmap string string :=
  <[ClientRoutingLabel := ClientRoutingVal]>
  (<[SubclusterNameLabel := sc_Name sc]> (MakeBaseSvcSelectorLabels vdb)).

Definition MakeStsSelectorLabels (vdb : VerticaDB) (sc : Subcluster) : gmap string string :=
  <[SubclusterNameLabel := sc_Name sc]> (MakeBaseSvcSelectorLabels vdb).

Definition MakeAnnotationsForSubclusterService (vdb : VerticaDB) (sc : Subcluster)
    : gmap string string :=
  assign_all (MakeAnnotationsForObject vdb) (default ∅ (sc_ServiceAnnotations sc)).

(** ** Selection

    Kubernetes selects a pod when every pair of the selector is a label of it. *)
Definition selects (sel labels : gmap string string) : Prop := sel ⊆ labels.

#[global] Instance selects_dec sel labels : Decision (selects sel labels).
Proof. unfold selects. apply _. Defined.

(** The custom labels of the spec leave the labels of the selectors alone. *)
Definition labels_reserved (vdb : VerticaDB) : Prop :=
  Forall (λ k, spec_Labels (vdb_Spec vdb) !! k = None)
    [VDBInstanceLabel; SubclusterNameLabel; SubclusterSvcNameLabel; ClientRoutingLabel].

(** The labels of a pod: those of the template and, once it owns a shard, the
    routing label. *)
Definition pod_labels (vdb : VerticaDB) (sc : Subcluster) (routed : bool) : gmap string string :=
  let m := MakeLabelsForPodObject vdb (Some sc) in
  if routed then <[ClientRoutingLabel := ClientRoutingVal]> m else m.

Lemma selects_insert k x sel labels :
  sel !! k = None → selects (<[k := x]> sel) labels ↔ labels !! k = Some x ∧ selects sel labels.
Proof.
  unfold selects. intros Hk. split.
  - intros Hs. split.
    + eapply lookup_weaken; [apply lookup_insert_eq|done].
    + etrans; [|exact Hs]. by apply insert_subseteq.
  - intros [Hl Hs]. by apply insert_subseteq_l.
Qed.

Lemma selects_singleton k x labels :
  selects {[k := x]} labels ↔ labels !! k = Some x.
Proof. unfold selects. apply map_singleton_subseteq_l. Qed.

(** The labels that selectors read, on every pod *)
Lemma pod_labels_lookup vdb sc routed :
  labels_reserved vdb →
  pod_labels vdb sc routed !! VDBInstanceLabel = Some (vdb_Name vdb) ∧
  pod_labels vdb sc routed !! SubclusterNameLabel = Some (sc_Name sc) ∧
  pod_labels vdb sc routed !! SubclusterSvcNameLabel
    = (if sc_IsTransient sc then None else Some (GetServiceName sc)) ∧
  pod_labels vdb sc routed !! ClientRoutingLabel
    = (if routed then Some ClientRoutingVal else None).
Proof.
  unfold labels_reserved. rewrite !Forall_cons. intros (Hi & Hn & Hs & Hr & _).
  unfold pod_labels, MakeLabelsForPodObject, makeLabelsForObject, assign_all, MakeCommonLabels,
    assign_all, MakeSubclusterLabels.
  destruct routed, (sc_IsTransient sc); simpl;
    repeat first [rewrite lookup_insert_eq | rewrite lookup_insert_ne by done];
    rewrite ?lookup_union, ?Hi, ?Hn, ?Hs, ?Hr; repeat split; reflexivity.
Qed.

(** ** Properties *)

(** A service that routes by service name selects exactly the pods with
    the routing label of the non-transient subclusters that have its service
    name, and the statefulset of a subcluster selects exactly the pods of that
    subcluster; neither ever selects a pod of another VerticaDB. *)
Theorem selectors_correct vdb vdb' sc sc' routed :
  labels_reserved vdb →
  (selects (MakeSvcSelectorLabelsForServiceNameRouting vdb' sc') (pod_labels vdb sc routed) ↔
     vdb_Name vdb = vdb_Name vdb' ∧ routed = true ∧ sc_IsTransient sc = false ∧
     GetServiceName sc = GetServiceName sc') ∧
  (selects (MakeSvcSelectorLabelsForSubclusterNameRouting vdb' sc') (pod_labels vdb sc routed) ↔
     vdb_Name vdb = vdb_Name vdb' ∧ routed = true ∧ sc_Name sc = sc_Name sc') ∧
  (selects (MakeStsSelectorLabels vdb' sc') (pod_labels vdb sc routed) ↔
     vdb_Name vdb = vdb_Name vdb' ∧ sc_Name sc = sc_Name sc').
Proof.
  intros Hres. destruct (pod_labels_lookup vdb sc routed Hres) as (Hi & Hn & Hs & Hr).
  unfold MakeSvcSelectorLabelsForServiceNameRouting, MakeSvcSelectorLabelsForSubclusterNameRouting,
    MakeStsSelectorLabels, MakeBaseSvcSelectorLabels.
  rewrite !selects_insert by done. rewrite !selects_singleton, Hi, Hn, Hs, Hr.
  destruct routed, (sc_IsTransient sc);
    (split_and!; split; intros; destruct_and?; split_and?; congruence).
Qed.

Lemma selectors_correct_witness :
  let sc := zero_Subcluster in
  labels_reserved MakeVDB ∧
  selects (MakeStsSelectorLabels MakeVDB sc) (pod_labels MakeVDB sc false).
Proof.
  split; [by repeat constructor|].
  apply (selectors_correct MakeVDB MakeVDB zero_Subcluster zero_Subcluster false);
    [by repeat constructor|done].
Defined.
