(* ===== verification/Autoscaler.v ===== *)
(** * The VerticaAutoscaler controller

    [pkg/controllers/vas], [pkg/vasstatus/status.go] and
    [api/v1beta1/verticaautoscaler_webhook.go].  The actors of the controller
    are computations in the monad of [Effects]; the object the actors share
    through a pointer ([Vas]) is passed along. *)

From stdpp Require Import base gmap strings pretty numbers list.
From S2P Require Import Prelude GoStrings K8s Types Webhook KObjects Effects Labels.

(** ** [verticaautoscaler_webhook.go] *)

Definition validateScalingGranularity (v : VerticaAutoscaler) (allErrs : ErrorList) : ErrorList :=
  if bool_decide (vas_ScalingGranularity (vas_Spec v) = PodScalingGranularity) ||
     bool_decide (vas_ScalingGranularity (vas_Spec v) = SubclusterScalingGranularity)
  then allErrs
  else allErrs ++ [Invalid ["spec"; "scalingGranularity"]
    ("scalingGranularity must be set to either " +:+ SubclusterScalingGranularity +:+ " or "
       +:+ PodScalingGranularity)].

Definition validateSubclusterTemplate (v : VerticaAutoscaler) (allErrs : ErrorList) : ErrorList :=
  let allErrs :=
    if CanUseTemplate v &&
       negb (bool_decide (sc_ServiceName (vas_Template (vas_Spec v)) = vas_ServiceName (vas_Spec v)))
    then allErrs ++ [Invalid ["spec"; "template"; "serviceName"]
      "The serviceName in the subcluster template must match spec.serviceName"]
    else allErrs in
  if CanUseTemplate v &&
     bool_decide (vas_ScalingGranularity (vas_Spec v) = PodScalingGranularity)
  then allErrs ++ [Invalid ["spec"; "template"; "serviceName"]
    "You cannot use the template if scalingGranularity is Pod.  Set the template size to 0 to disable the template"]
  else allErrs.

Definition validateSpec (v : VerticaAutoscaler) : ErrorList :=
  validateSubclusterTemplate v (validateScalingGranularity v []).

(** [nil], or the invalid-resource error with the list *)
Definition ValidateCreate (v : VerticaAutoscaler) : option ErrorList :=
  let allErrs := validateSpec v in
  if bool_decide (length allErrs = 0) then None else Some allErrs.

(** [old] is not used. *)
Definition ValidateUpdate (v old : VerticaAutoscaler) : option ErrorList :=
  let allErrs := validateSpec v in
  if bool_decide (length allErrs = 0) then None else Some allErrs.

(** ** [pkg/vasstatus/status.go] *)

Section vas.
Context `{Env}.

(** The comparison that guards the write is [reflect.DeepEqual(vasOrig,
    vas.Status)] with [vasOrig] a pointer to a VerticaAutoscaler: values of
    different types are never deeply equal. *)
Definition DeepEqual_vasOrig_status (vasOrig : VerticaAutoscaler) (st : VerticaAutoscalerStatus)
    : bool := false.

Definition vasStatusUpdater (req : NamespacedName)
    (statusUpdateFunc : VerticaAutoscaler → VerticaAutoscaler) : M (option go_error) :=
  r ← RetryOnConflict (λ _ : unit,
    r ← GetVas req;
    match r with
    | Err ErrNotFound => mret (tt, None)
    | Err e => mret (tt, Some e)
    | Ok vas =>
        let vasOrig := vas in
        let vas := statusUpdateFunc vas in
        if negb (DeepEqual_vasOrig_status vasOrig (vas_Status vas)) then
          r ← UpdateVasStatus vas;
          match r with
          | Err e => mret (tt, Some e)
          | Ok _ => mret (tt, None)
          end
        else mret (tt, None)
    end) tt;
  mret (snd r).

Definition getLabelSelector (vas : VerticaAutoscaler) : string :=
  SubclusterSvcNameLabel +:+ "=" +:+ vas_ServiceName (vas_Spec vas) +:+ "," +:+
  VDBInstanceLabel +:+ "=" +:+ vas_VerticaDBName (vas_Spec vas) +:+ "," +:+
  ManagedByLabel +:+ "=" +:+ OperatorName.

Definition SetSelector (req : NamespacedName) : M (option go_error) :=
  vasStatusUpdater req (λ vas,
    let st := vas_Status vas in
    set_vas_Status vas (MkVerticaAutoscalerStatus (vst_ScalingCount st) (vst_CurrentSize st)
      (getLabelSelector vas) (vst_Conditions st))).

Definition ReportScalingOperation (req : NamespacedName) (currentSize : Z) : M (option go_error) :=
  vasStatusUpdater req (λ vas,
    let st := vas_Status vas in
    set_vas_Status vas (MkVerticaAutoscalerStatus (wrap64 (vst_ScalingCount st + 1)) currentSize
      (vst_Selector st) (vst_Conditions st))).

Definition vasstatus_RefreshCurrentSize (req : NamespacedName) (currentSize : Z) : M (option go_error) :=
  vasStatusUpdater req (λ vas,
    let st := vas_Status vas in
    set_vas_Status vas (MkVerticaAutoscalerStatus (vst_ScalingCount st) currentSize
      (vst_Selector st) (vst_Conditions st))).

Definition zero_vas_condition : VerticaAutoscalerCondition :=
  MkVerticaAutoscalerCondition (OtherVasConditionType "") ConditionEmpty ZeroTime.

(** The array has at least one entry when index 0 is read. *)
Definition refreshConditionInPlace (condition : VerticaAutoscalerCondition)
    (vas : VerticaAutoscaler) : VerticaAutoscaler :=
  let st := vas_Status vas in
  let cs := if bool_decide (length (vst_Conditions st) = 0) then [zero_vas_condition]
            else vst_Conditions st in
  let cs :=
    match cs !! TargetSizeInitializedIndex with
    | Some old =>
        if negb (bool_decide (vcond_Status old = vcond_Status condition))
        then <[TargetSizeInitializedIndex := condition]> cs else cs
    | None => cs
    end in
  set_vas_Status vas (MkVerticaAutoscalerStatus (vst_ScalingCount st) (vst_CurrentSize st)
    (vst_Selector st) cs).

Definition UpdateCondition (req : NamespacedName) (condition : VerticaAutoscalerCondition)
    : M (option go_error) :=
  now ← Now;
  let condition :=
    match vcond_LastTransitionTime condition with
    | ZeroTime => MkVerticaAutoscalerCondition (vcond_Type condition) (vcond_Status condition)
                    (UnixTime now)
    | UnixTime _ => condition
    end in
  vasStatusUpdater req (refreshConditionInPlace condition).

(** ** [k8s.go] *)

Definition VerticaDBNotFound : string := "VerticaDBNotFound".
Definition SubclusterServiceNameNotFound : string := "SubclusterServiceNameNotFound".
Definition NoSubclusterTemplate : string := "NoSubclusterTemplate".

Definition vdb_name_of (vas : VerticaAutoscaler) : NamespacedName :=
  MkNamespacedName (vas_Namespace vas) (vas_VerticaDBName (vas_Spec vas)).

(** The fetched object, or [vdb] as it was *)
Definition fetchVDB (vas : VerticaAutoscaler) (vdb : VerticaDB)
    : M (VerticaDB * (Result * option go_error)) :=
  r ← GetVdb (vdb_name_of vas);
  match r with
  | Ok v => mret (v, (no_requeue, None))
  | Err ErrNotFound => _ ← Event VerticaDBNotFound; mret (vdb, (requeue, None))
  | Err e => mret (vdb, (no_requeue, Some e))
  end.

(** ** The actors that change the VerticaDB share this state across attempts:
    the object, the result and whether an update went through. *)
Record scale_state : Type := MkScale { ss_Vdb : VerticaDB; ss_res : Result; ss_done : bool }.

(** ** [subclusterresize_reconcile.go] *)

(** The loop over [subclusters], last one first.  The slice holds pointers into
    [Spec.Subclusters], so the loop is a walk over that slice from its end that
    skips what the service does not select.  [rl] is what is left, reversed;
    [kept] is what has been passed. *)
Fixpoint resize_loop (svc : string) (delta : Z) (rl kept : list Subcluster) : list Subcluster :=
  match rl with
  | [] => kept
  | targetSc :: rl =>
      if bool_decide (GetServiceName targetSc = svc) then
        let '(size, delta) :=
          if bool_decide (0 < delta)%Z then (wrap32 (sc_Size targetSc + delta), 0%Z)
          else if bool_decide (sc_Size targetSc < wrap32 (-1 * delta))%Z
               then (0%Z, wrap32 (delta + sc_Size targetSc))
               else (wrap32 (sc_Size targetSc + delta), 0%Z) in
        let targetSc := set_sc_Size targetSc size in
        if bool_decide (delta = 0%Z) then rev rl ++ targetSc :: kept
        else resize_loop svc delta rl (targetSc :: kept)
      else resize_loop svc delta rl (targetSc :: kept)
  end.

(** The end of both retried updates of the VerticaDB *)
Definition update_vdb_attempt (s : scale_state) : M (scale_state * option go_error) :=
  r ← UpdateVdb (ss_Vdb s);
  match r with
  | Ok v => mret (MkScale v (ss_res s) true, None)
  | Err e => mret (s, Some e)
  end.

Definition resize_attempt (vas : VerticaAutoscaler) (s : scale_state)
    : M (scale_state * option go_error) :=
  f ← fetchVDB vas (ss_Vdb s);
  let '(vdb, (r, e)) := f in
  if IsReconcileAborted r e then mret (MkScale vdb r (ss_done s), e) else
  let svc := vas_ServiceName (vas_Spec vas) in
  let '(subclusters, totSize) := FindSubclusterForServiceName vdb svc in
  if bool_decide (length subclusters = 0) then
    _ ← Event SubclusterServiceNameNotFound;
    mret (MkScale vdb (MkResult true (RequeueAfter (ss_res s))) (ss_done s), None)
  else
    let delta := wrap32 (vas_TargetSize (vas_Spec vas) - totSize) in
    if bool_decide (delta = 0%Z) then mret (MkScale vdb (ss_res s) (ss_done s), None)
    else
      let vdb := set_Subclusters vdb
                   (resize_loop svc delta (rev (spec_Subclusters (vdb_Spec vdb))) []) in
      update_vdb_attempt (MkScale vdb (ss_res s) (ss_done s)).

(** The end of both actors: report the new size if an update went through *)
Definition report_scaling (vas : VerticaAutoscaler) (req : NamespacedName)
    (s : scale_state) (err : option go_error) : M (Result * option go_error) :=
  if IsReconcileAborted (ss_res s) err then mret (ss_res s, err) else
  if ss_done s then
    let '(_, totSize) := FindSubclusterForServiceName (ss_Vdb s) (vas_ServiceName (vas_Spec vas)) in
    err ← ReportScalingOperation req totSize;
    mret (ss_res s, err)
  else mret (ss_res s, err).

Definition resizeSubcluster (vas : VerticaAutoscaler) (req : NamespacedName)
    : M (Result * option go_error) :=
  r ← RetryOnConflict (resize_attempt vas) (MkScale zero_vdb no_requeue false);
  let '(s, err) := r in report_scaling vas req s err.

Definition SubclusterResizeReconciler_Reconcile (vas : VerticaAutoscaler) (req : NamespacedName)
    : M (Result * option go_error) :=
  if negb (bool_decide (vas_ScalingGranularity (vas_Spec vas) = PodScalingGranularity))
  then mret (no_requeue, None)
  else resizeSubcluster vas req.

(** ** [subclusterscale_reconcile.go] *)

(** The deleting loop, from the last subcluster down; [rl] and [kept] as in
    [resize_loop]. *)
Fixpoint remove_loop (svc : string) (podsToRemove : Z) (rl kept : list Subcluster)
    : list Subcluster :=
  match rl with
  | [] => kept
  | sc :: rl =>
      if bool_decide (GetServiceName sc = svc) then
        if bool_decide (0 < podsToRemove)%Z && bool_decide (sc_Size sc ≤ podsToRemove)%Z
        then remove_loop svc (wrap32 (podsToRemove - sc_Size sc)) rl kept
        else rev rl ++ sc :: kept
      else remove_loop svc podsToRemove rl (sc :: kept)
  end.

Definition considerRemovingSubclusters (vas : VerticaAutoscaler) (vdb : VerticaDB)
    (podsToRemove : Z) : VerticaDB * bool :=
  let scs := spec_Subclusters (vdb_Spec vdb) in
  let scs' := remove_loop (vas_ServiceName (vas_Spec vas)) podsToRemove (rev scs) [] in
  (set_Subclusters vdb scs', negb (bool_decide (length scs = length scs'))).

(** [for { ... i++ }]: among [size scMap + 1] candidates one is not a key
    ([genNextSubclusterName_fresh]), so the bound is never reached. *)
Definition genNextSubclusterName (vas : VerticaAutoscaler) (scMap : gmap string Subcluster) : string :=
  let baseName := sc_Name (vas_Template (vas_Spec vas)) in
  let baseName := if bool_decide (baseName = "") then vas_Name vas else baseName in
  let name i := baseName +:+ "-" +:+ Itoa (Z.of_nat i) in
  match find_index_from (λ i, bool_decide (scMap !! name i = None)) (S (size scMap)) 0 with
  | Some i => name i
  | None => ""
  end.

Definition calcNextSubcluster (vas : VerticaAutoscaler) (vdb : VerticaDB)
    (scMap : gmap string Subcluster) : M (option Subcluster) :=
  if CanUseTemplate vas
  then mret (Some (set_sc_Name (vas_Template (vas_Spec vas)) (genNextSubclusterName vas scMap)))
  else
    let '(scs, _) := FindSubclusterForServiceName vdb (vas_ServiceName (vas_Spec vas)) in
    match last scs with
    | None => _ ← Event NoSubclusterTemplate; mret None
    | Some sc =>
        let newSc := set_sc_ServiceName sc (vas_ServiceName (vas_Spec vas)) in
        mret (Some (set_sc_Name newSc (genNextSubclusterName vas scMap)))
    end.

Definition calcNextSubclusterSize (vas : VerticaAutoscaler) (vdb : VerticaDB)
    (scMap : gmap string Subcluster) : M (Z * bool) :=
  newSc ← calcNextSubcluster vas vdb scMap;
  match newSc with
  | None => mret (0%Z, false)
  | Some newSc => mret (sc_Size newSc, true)
  end.

(** [for newPodsNeeded >= newScSize { ... }], with at most [fuel] iterations:
    [None] if the loop is not done by then. *)
Fixpoint adding_loop (fuel : nat) (vas : VerticaAutoscaler) (vdb : VerticaDB)
    (scMap : gmap string Subcluster) (newScSize newPodsNeeded : Z) : M (option VerticaDB) :=
  if bool_decide (newScSize ≤ newPodsNeeded)%Z then
    match fuel with
    | 0 => mret None
    | S fuel =>
        newSc ← calcNextSubcluster vas vdb scMap;
        match newSc with
        | None => mret None
        | Some newSc =>
            let vdb := set_Subclusters vdb (spec_Subclusters (vdb_Spec vdb) ++ [newSc]) in
            adding_loop fuel vas vdb (<[sc_Name newSc := newSc]> scMap) newScSize
              (wrap32 (newPodsNeeded - sc_Size newSc))
        end
    end
  else mret (Some vdb).

(** [None] if the loop does not end within [fuel] iterations *)
Definition considerAddingSubclusters (fuel : nat) (vas : VerticaAutoscaler) (vdb : VerticaDB)
    (newPodsNeeded : Z) : M (option (VerticaDB * bool)) :=
  let scMap := GenSubclusterMap vdb in
  sz ← calcNextSubclusterSize vas vdb scMap;
  let '(newScSize, ok) := sz in
  if negb ok then mret (Some (vdb, false)) else
  r ← adding_loop fuel vas vdb scMap newScSize newPodsNeeded;
  match r with
  | None => mret None
  | Some vdb' =>
      mret (Some (vdb', negb (bool_decide (length (spec_Subclusters (vdb_Spec vdb))
                                          = length (spec_Subclusters (vdb_Spec vdb'))))))
  end.

(** The switch on [delta].  An iteration that adds a subcluster adds at least
    one pod, so as many iterations as missing pods are enough unless the new
    subclusters are empty. *)
Definition scale_decision (vas : VerticaAutoscaler) (cur : VerticaDB) (totSize : Z)
    : M (option (VerticaDB * bool)) :=
  let delta := wrap32 (vas_TargetSize (vas_Spec vas) - totSize) in
  if bool_decide (delta < 0)%Z
  then mret (Some (considerRemovingSubclusters vas cur (wrap32 (delta * -1))))
  else if bool_decide (0 < delta)%Z
  then considerAddingSubclusters (Z.to_nat delta) vas cur delta
  else mret (Some (cur, false)).

(** One attempt; the state [None] is that of a loop that has not ended. *)
Definition scale_attempt (vas : VerticaAutoscaler) (os : option scale_state)
    : M (option scale_state * option go_error) :=
  match os with
  | None => mret (None, None)
  | Some s =>
      f ← fetchVDB vas (ss_Vdb s);
      let '(vdb, (r, e)) := f in
      if IsReconcileAborted r e then mret (Some (MkScale vdb r (ss_done s)), e) else
      let '(_, totSize) := FindSubclusterForServiceName vdb (vas_ServiceName (vas_Spec vas)) in
      c ← scale_decision vas vdb totSize;
      match c with
      | None => mret (None, None)
      | Some (vdb, changed) =>
          let s := MkScale vdb (ss_res s) (ss_done s) in
          if negb changed then mret (Some s, None)
          else
            u ← update_vdb_attempt s;
            let '(s, err) := u in mret (Some s, err)
      end
  end.

(** [None]: the call does not return. *)
Definition scaleSubcluster (vas : VerticaAutoscaler) (req : NamespacedName)
    : M (option (Result * option go_error)) :=
  r ← RetryOnConflict (scale_attempt vas) (Some (MkScale zero_vdb no_requeue false));
  let '(os, err) := r in
  match os with
  | None => mret None
  | Some s => rep ← report_scaling vas req s err; mret (Some rep)
  end.

Definition SubclusterScaleReconciler_Reconcile (vas : VerticaAutoscaler) (req : NamespacedName)
    : M (option (Result * option go_error)) :=
  if negb (bool_decide (vas_ScalingGranularity (vas_Spec vas) = SubclusterScalingGranularity))
  then mret (Some (no_requeue, None))
  else scaleSubcluster vas req.

(** ** [targetsizeinitializer_reconcile.go] *)

(** One attempt: [Vas] is shared with the other actors and is changed before
    the write. *)
Definition initTargetSize_attempt (s : VerticaAutoscaler * (VerticaDB * Result))
    : M ((VerticaAutoscaler * (VerticaDB * Result)) * option go_error) :=
  let '(vas, (vdb, _)) := s in
  f ← fetchVDB vas vdb;
  let '(vdb, (res, e)) := f in
  if IsReconcileAborted res e then mret ((vas, (vdb, res)), e) else
  let '(_, totSize) := FindSubclusterForServiceName vdb (vas_ServiceName (vas_Spec vas)) in
  if negb (bool_decide (vas_TargetSize (vas_Spec vas) = totSize)) then
    let vas := set_vas_TargetSize vas totSize in
    r ← UpdateVas vas;
    match r with
    | Ok vas' => mret ((vas', (vdb, res)), None)
    | Err e => mret ((vas, (vdb, res)), Some e)
    end
  else mret ((vas, (vdb, res)), None).

Definition initTargetSize (vas : VerticaAutoscaler)
    : M (VerticaAutoscaler * (Result * option go_error)) :=
  r ← RetryOnConflict initTargetSize_attempt (vas, (zero_vdb, no_requeue));
  let '((vas, (_, res)), err) := r in mret (vas, (res, err)).

Definition setTargetSizeInitializedCondition (req : NamespacedName) : M (option go_error) :=
  UpdateCondition req (MkVerticaAutoscalerCondition TargetSizeInitialized ConditionTrue ZeroTime).

Definition target_size_initialized (vas : VerticaAutoscaler) : bool :=
  match vst_Conditions (vas_Status vas) !! TargetSizeInitializedIndex with
  | Some c => bool_decide (vcond_Status c = ConditionTrue)
  | None => false
  end.

Definition TargetSizeInitializerReconciler_Reconcile (vas : VerticaAutoscaler) (req : NamespacedName)
    : M (VerticaAutoscaler * (Result * option go_error)) :=
  if target_size_initialized vas then mret (vas, (no_requeue, None)) else
  i ← (if bool_decide (vas_TargetSize (vas_Spec vas) = 0%Z) then initTargetSize vas
       else mret (vas, (no_requeue, None)));
  let '(vas, (res, err)) := i in
  if IsReconcileAborted res err then mret (vas, (res, err)) else
  err ← setTargetSizeInitializedCondition req;
  mret (vas, (no_requeue, err)).

(** ** The other actors *)

Definition VDBVerifyReconciler_Reconcile (vas : VerticaAutoscaler) : M (Result * option go_error) :=
  f ← fetchVDB vas zero_vdb; mret (snd f).

Definition RefreshCurrentSizeReconciler_Reconcile (vas : VerticaAutoscaler) (req : NamespacedName)
    : M (Result * option go_error) :=
  f ← fetchVDB vas zero_vdb;
  let '(vdb, (res, err)) := f in
  if IsReconcileAborted res err then mret (res, err) else
  let '(_, totSize) := FindSubclusterForServiceName vdb (vas_ServiceName (vas_Spec vas)) in
  err ← vasstatus_RefreshCurrentSize req totSize;
  mret (no_requeue, err).

Definition RefreshSelectorReconciler_Reconcile (req : NamespacedName) : M (Result * option go_error) :=
  err ← SetSelector req; mret (no_requeue, err).

(** ** [verticaautoscaler_controller.go] *)

(** An actor works on the shared VerticaAutoscaler. *)
Definition actor : Type := VerticaAutoscaler → M (VerticaAutoscaler * option (Result * option go_error)).

(** An actor that only reads [Vas] *)
Definition reading (act : VerticaAutoscaler → M (Result * option go_error)) : actor := λ vas,
  r ← act vas; mret (vas, Some r).

Definition actors (req : NamespacedName) : list actor :=
  [reading VDBVerifyReconciler_Reconcile;
   (λ vas, r ← TargetSizeInitializerReconciler_Reconcile vas req;
           mret (fst r, Some (snd r)));
   reading (λ vas, RefreshCurrentSizeReconciler_Reconcile vas req);
   reading (λ _, RefreshSelectorReconciler_Reconcile req);
   reading (λ vas, SubclusterResizeReconciler_Reconcile vas req);
   (λ vas, r ← SubclusterScaleReconciler_Reconcile vas req; mret (vas, r))].

(** Iterate over the actors until one aborts; [None] if one does not return. *)
Fixpoint run_actors (acts : list actor) (vas : VerticaAutoscaler) (last : Result * option go_error)
    : M (option (Result * option go_error)) :=
  match acts with
  | [] => mret (Some last)
  | act :: acts =>
      r ← act vas;
      let '(vas, o) := r in
      match o with
      | None => mret None
      | Some (res, err) =>
          if IsReconcileAborted res err then mret (Some (res, err))
          else run_actors acts vas (res, err)
      end
  end.

Definition Reconcile (req : NamespacedName) : M (option (Result * option go_error)) :=
  r ← GetVas req;
  match r with
  | Err ErrNotFound => mret (Some (no_requeue, None))
  | Err e => mret (Some (no_requeue, Some e))
  | Ok vas => run_actors (actors req) vas (no_requeue, None)
  end.

End vas.
