(* ===== verification/AutoscalerSpec.v ===== *)
(** * Correctness of the VerticaAutoscaler controller

    What an update of the VerticaDB by the autoscaler may change ([resized] for
    pod granularity, [scaled] for subcluster granularity), that every update
    the controller sends is of that form, and how the loops end. *)

From stdpp Require Import base gmap strings pretty numbers list.
From S2P Require Import Prelude GoStrings K8s Types Webhook KObjects Effects Events Labels Autoscaler.

(** The pods that a service selects *)
Definition tot (svc : string) (scs : list Subcluster) : Z := sum_sizes (svc_members svc scs).

(** The sizes the CRD admits, with a total an [int32] can hold *)
Definition sizes_ok (svc : string) (scs : list Subcluster) : Prop :=
  Forall (λ sc, 0 ≤ sc_Size sc)%Z scs ∧ (tot svc scs < 2 ^ 31)%Z.

(** ** Contracts *)

Definition same_but_size (svc : string) (a b : Subcluster) : Prop :=
  b = set_sc_Size a (sc_Size b) ∧ (GetServiceName a ≠ svc → b = a).

(** Pod granularity: only sizes of the service's subclusters change, none
    becomes negative, and the service gets exactly the target. *)
Definition resized (svc : string) (target : Z) (before after : list Subcluster) : Prop :=
  Forall2 (same_but_size svc) before after ∧
  Forall (λ sc, 0 ≤ sc_Size sc)%Z after ∧
  tot svc after = target.

(** Subcluster granularity, shrinking: whole subclusters of the service are
    dropped, last ones first, as long as the total stays at or above the target. *)
Definition shrunk (svc : string) (target : Z) (before after : list Subcluster) : Prop :=
  after `sublist_of` before ∧
  filter (λ sc, GetServiceName sc ≠ svc) after = filter (λ sc, GetServiceName sc ≠ svc) before ∧
  svc_members svc after `prefix_of` svc_members svc before ∧
  (target ≤ tot svc after)%Z ∧
  (∀ sc, last (svc_members svc after) = Some sc →
     tot svc after = target ∨ (tot svc after - sc_Size sc < target)%Z).

(** Subcluster granularity, growing: copies of one subcluster of the service
    are appended under new names, as many as fit below the target. *)
Definition grown (svc : string) (target : Z) (before after : list Subcluster) : Prop :=
  ∃ proto names,
    after = before ++ (set_sc_Name proto <$> names) ∧
    (0 < sc_Size proto)%Z ∧
    sc_ServiceName proto = svc ∧
    NoDup names ∧ (∀ n, n ∈ names → n ∉ sc_Name <$> before) ∧
    (tot svc after ≤ target < tot svc after + sc_Size proto)%Z.

Definition scaled (svc : string) (target : Z) (before after : list Subcluster) : Prop :=
  if bool_decide (target < tot svc before)%Z then shrunk svc target before after
  else grown svc target before after.

(** ** Totals *)

Lemma tot_app svc a b : tot svc (a ++ b) = (tot svc a + tot svc b)%Z.
Proof. unfold tot, svc_members. by rewrite filter_app, sum_sizes_app. Qed.

Lemma tot_cons svc sc l :
  tot svc (sc :: l) = ((if bool_decide (GetServiceName sc = svc) then sc_Size sc else 0) + tot svc l)%Z.
Proof.
  unfold tot, svc_members. rewrite filter_cons.
  case_bool_decide; [rewrite decide_True by done|rewrite decide_False by done]; simpl; lia.
Qed.

Lemma svc_members_rev svc l : svc_members svc (rev l) = rev (svc_members svc l).
Proof.
  unfold svc_members. induction l as [|sc l IH]; [done|]. cbn [rev].
  rewrite filter_app, IH, !filter_cons, filter_nil.
  destruct (decide (GetServiceName sc = svc)); [done|]. by rewrite app_nil_r.
Qed.

Lemma tot_rev svc l : tot svc (rev l) = tot svc l.
Proof.
  induction l as [|sc l IH]; [done|]. cbn [rev]. rewrite tot_app, IH, !tot_cons.
  change (tot svc []) with 0%Z. lia.
Qed.

Lemma tot_nonneg svc l : Forall (λ sc, 0 ≤ sc_Size sc)%Z l → (0 ≤ tot svc l)%Z.
Proof.
  intros Hl. apply sum_sizes_nonneg. apply Forall_forall. intros sc Hsc.
  apply list_elem_of_filter in Hsc as [_ Hsc]. by apply (proj1 (Forall_forall _ _) Hl).
Qed.

Lemma FindSubclusterForServiceName_tot v svc :
  sizes_ok svc (spec_Subclusters (vdb_Spec v)) →
  FindSubclusterForServiceName v svc =
    (svc_members svc (spec_Subclusters (vdb_Spec v)), tot svc (spec_Subclusters (vdb_Spec v))).
Proof.
  intros [Hs Ht]. rewrite FindSubclusterForServiceName_spec. f_equal. apply wrap32_small.
  pose proof (tot_nonneg svc _ Hs). unfold tot in *. unfold int32_range. lia.
Qed.

(** ** Resizing *)

Lemma resize_loop_kept svc delta rl kept :
  resize_loop svc delta rl kept = resize_loop svc delta rl [] ++ kept.
Proof.
  revert delta kept. induction rl as [|sc rl IH]; intros delta kept; [done|].
  cbn [resize_loop].
  assert (∀ d x, resize_loop svc d rl (x :: kept) = resize_loop svc d rl [x] ++ kept) as Hx.
  { intros d x. rewrite (IH d (x :: kept)), (IH d [x]). by rewrite <- (assoc_L (++)). }
  case_bool_decide; [|by rewrite Hx].
  destruct (if bool_decide (0 < delta)%Z then _ else _) as [size d].
  case_bool_decide; [|by rewrite Hx]. by rewrite <- (assoc_L (++)).
Qed.

Lemma same_but_size_refl svc l : Forall2 (same_but_size svc) l l.
Proof. induction l as [|[] l IH]; constructor; [by split|done]. Qed.

Lemma same_but_size_set svc sc n :
  GetServiceName sc = svc → same_but_size svc sc (set_sc_Size sc n).
Proof. intros Hs. by split. Qed.

Lemma Forall2_snoc {A B} (P : A → B → Prop) l k x y :
  Forall2 P l k → P x y → Forall2 P (l ++ [x]) (k ++ [y]).
Proof. intros. apply Forall2_app; [done|]. by constructor. Qed.

Lemma resize_loop_spec svc delta rl :
  Forall (λ sc, 0 ≤ sc_Size sc)%Z rl →
  delta ≠ 0%Z → (0 ≤ tot svc rl + delta < 2 ^ 31)%Z → (tot svc rl < 2 ^ 31)%Z →
  svc_members svc rl ≠ [] →
  let l := resize_loop svc delta rl [] in
  Forall2 (same_but_size svc) (rev rl) l ∧ Forall (λ sc, 0 ≤ sc_Size sc)%Z l ∧
  tot svc l = (tot svc rl + delta)%Z.
Proof.
  revert delta. induction rl as [|sc rl IH]; intros delta Hs Hd Hr Ht Hm; [done|].
  apply Forall_cons in Hs as [Hsc Hs]. cbn [resize_loop rev].
  pose proof (tot_nonneg svc rl Hs) as Hnn. rewrite tot_cons in *.
  unfold svc_members in Hm. rewrite filter_cons in Hm.
  assert (∀ x, rev rl ++ [x] = rev rl ++ [x] ∧ tot svc (rev rl ++ [x]) =
    (tot svc rl + tot svc [x])%Z) as Hx.
  { intros x. by rewrite tot_app, tot_rev. }
  assert (Forall (λ sc, 0 ≤ sc_Size sc)%Z (rev rl)) as Hsr by by apply Forall_rev.
  case_bool_decide as Hsvc.
  - assert (∀ n, (0 ≤ n)%Z → n = (sc_Size sc + delta)%Z →
      Forall2 (same_but_size svc) (rev rl ++ [sc]) (rev rl ++ [set_sc_Size sc n]) ∧
      Forall (λ sc, 0 ≤ sc_Size sc)%Z (rev rl ++ [set_sc_Size sc n]) ∧
      tot svc (rev rl ++ [set_sc_Size sc n]) = (sc_Size sc + tot svc rl + delta)%Z) as Hfin.
    { intros n Hn ->. split_and!.
      - apply Forall2_snoc; [apply same_but_size_refl|by apply same_but_size_set].
      - apply Forall_app_2; [done|]. by constructor.
      - rewrite (proj2 (Hx _)), tot_cons. change (tot svc []) with 0%Z.
        rewrite bool_decide_eq_true_2 by done. simpl. lia. }
    case_bool_decide as Hpos.
    + rewrite bool_decide_eq_true_2 by done.
      apply Hfin; rewrite wrap32_small by (unfold int32_range; lia); lia.
    + rewrite (wrap32_small (-1 * delta)) by (unfold int32_range; lia).
      case_bool_decide as Hlt.
      * rewrite wrap32_small by (unfold int32_range; lia).
        rewrite bool_decide_eq_false_2 by lia. rewrite resize_loop_kept.
        destruct (IH (delta + sc_Size sc)%Z) as (H1 & H2 & H3); [done|lia|lia|lia| |].
        { intros Hnil. assert (tot svc rl = 0)%Z by (unfold tot; by rewrite Hnil). lia. }
        split_and!.
        -- apply Forall2_snoc; [done|by apply same_but_size_set].
        -- apply Forall_app_2; [done|]. constructor; [simpl; lia|constructor].
        -- rewrite tot_app, H3, tot_cons. change (tot svc []) with 0%Z.
           rewrite bool_decide_eq_true_2 by done. simpl. lia.
      * rewrite bool_decide_eq_true_2 by done.
        apply Hfin; rewrite wrap32_small by (unfold int32_range; lia); lia.
  - rewrite decide_False in Hm by done. rewrite resize_loop_kept.
    destruct (IH delta) as (H1 & H2 & H3); [done|done|lia|lia|done|].
    split_and!.
    + apply Forall2_snoc; [done|]. destruct sc. by split.
    + apply Forall_app_2; [done|]. by constructor.
    + rewrite tot_app, H3, tot_cons, bool_decide_eq_false_2 by done.
      change (tot svc []) with 0%Z. lia.
Qed.

Lemma resize_correct svc target scs :
  sizes_ok svc scs → (0 ≤ target < 2 ^ 31)%Z → target ≠ tot svc scs → svc_members svc scs ≠ [] →
  resized svc target scs (resize_loop svc (wrap32 (target - tot svc scs)) (rev scs) []).
Proof.
  intros [Hs Ht] Htg Hne Hm. pose proof (tot_nonneg svc scs Hs).
  rewrite wrap32_small by (unfold int32_range; lia).
  destruct (resize_loop_spec svc (target - tot svc scs) (rev scs)) as (H1 & H2 & H3);
    rewrite ?tot_rev in *; try lia.
  - by apply Forall_rev.
  - rewrite svc_members_rev. intros Hnil. apply Hm.
    rewrite <- (rev_involutive (svc_members svc scs)). by rewrite Hnil.
  - rewrite rev_involutive in H1. split_and!; [done|done|lia].
Qed.

(** ** Removing subclusters *)

Lemma remove_loop_kept svc n rl kept :
  remove_loop svc n rl kept = remove_loop svc n rl [] ++ kept.
Proof.
  revert n kept. induction rl as [|sc rl IH]; intros n kept; [done|]. cbn [remove_loop].
  case_bool_decide.
  - destruct (_ && _); [apply IH|]. by rewrite <- (assoc_L (++)).
  - rewrite (IH n (sc :: kept)), (IH n [sc]). by rewrite <- (assoc_L (++)).
Qed.

Lemma svc_members_snoc svc l sc :
  svc_members svc (l ++ [sc]) =
  if bool_decide (GetServiceName sc = svc) then svc_members svc l ++ [sc] else svc_members svc l.
Proof.
  unfold svc_members. rewrite filter_app, filter_cons, filter_nil.
  case_bool_decide; [by rewrite decide_True|]. by rewrite decide_False, app_nil_r.
Qed.

Lemma others_snoc svc l sc :
  filter (λ sc, GetServiceName sc ≠ svc) (l ++ [sc]) =
  filter (λ sc, GetServiceName sc ≠ svc) l ++
    (if bool_decide (GetServiceName sc = svc) then [] else [sc]).
Proof.
  rewrite filter_app, filter_cons, filter_nil.
  case_bool_decide; [by rewrite decide_False by naive_solver|]. by rewrite decide_True.
Qed.

(** [n] is what is left to remove: the total of [rl] less [n] is the target. *)
Lemma remove_loop_spec svc target n rl :
  Forall (λ sc, 0 ≤ sc_Size sc)%Z rl → (0 ≤ n < 2 ^ 31)%Z → (0 ≤ target)%Z →
  (tot svc rl - n = target)%Z → shrunk svc target (rev rl) (remove_loop svc n rl []).
Proof.
  revert n. induction rl as [|sc rl IH]; intros n Hs Hn Htg Ht.
  - split_and!; [done|done|done| |done]. change (tot svc []) with 0%Z in *. simpl.
    change (tot svc []) with 0%Z. lia.
  - apply Forall_cons in Hs as [Hsc Hs]. cbn [remove_loop rev]. rewrite tot_cons in Ht.
    pose proof (tot_nonneg svc rl Hs) as Hnn. unfold shrunk.
    case_bool_decide as Hsvc.
    + case_bool_decide as Hpos; [case_bool_decide as Hle|]; simpl.
      * rewrite wrap32_small by (unfold int32_range; lia).
        destruct (IH (n - sc_Size sc)%Z) as (H1 & H2 & H3 & H4 & H5); [done|lia|done|lia|].
        rewrite svc_members_snoc, others_snoc, bool_decide_eq_true_2, app_nil_r by done.
        split_and!; [|done| |done|done].
        -- etrans; [done|]. apply sublist_inserts_r. done.
        -- etrans; [done|]. by apply prefix_app_r.
      * rewrite svc_members_snoc, bool_decide_eq_true_2 by done.
        rewrite tot_app, tot_rev, tot_cons, bool_decide_eq_true_2 by done.
        change (tot svc []) with 0%Z. split_and!; [done|done|done|lia|].
        intros sc'. rewrite last_snoc. intros [= <-]. lia.
      * rewrite svc_members_snoc, bool_decide_eq_true_2 by done.
        rewrite tot_app, tot_rev, tot_cons, bool_decide_eq_true_2 by done.
        change (tot svc []) with 0%Z. split_and!; [done|done|done|lia|].
        intros sc' _. left. lia.
    + rewrite remove_loop_kept. destruct (IH n) as (H1 & H2 & H3 & H4 & H5); [done..|lia|].
      rewrite !svc_members_snoc, !others_snoc, bool_decide_eq_false_2 by done.
      rewrite tot_app, tot_cons, bool_decide_eq_false_2 by done. change (tot svc []) with 0%Z.
      split_and!; [|by rewrite H2|done|lia|].
      * apply sublist_app; [done|done].
      * intros sc' Hl. destruct (H5 sc' Hl); [left|right]; lia.
Qed.

Lemma remove_correct svc target scs :
  sizes_ok svc scs → (0 ≤ target < tot svc scs)%Z →
  shrunk svc target scs
    (remove_loop svc (wrap32 (wrap32 (target - tot svc scs) * -1)) (rev scs) []).
Proof.
  intros [Hs Ht] Htg. rewrite !wrap32_small by (unfold int32_range; rewrite ?wrap32_small;
    unfold int32_range; lia).
  rewrite <- (rev_involutive scs) at 1.
  apply remove_loop_spec; [by apply Forall_rev|lia|lia|]. rewrite tot_rev. lia.
Qed.

(** ** Adding subclusters *)

Definition next_name (vas : VerticaAutoscaler) (i : nat) : string :=
  let baseName := sc_Name (vas_Template (vas_Spec vas)) in
  (if bool_decide (baseName = "") then vas_Name vas else baseName) +:+ "-" +:+ Itoa (Z.of_nat i).

Lemma next_name_inj vas : Inj (=) (=) (next_name vas).
Proof.
  intros i j Hij. unfold next_name in Hij. apply str_app_inj_l in Hij.
  injection Hij as Hij. apply Itoa_inj in Hij. lia.
Qed.

Lemma genNextSubclusterName_fresh vas scMap :
  scMap !! genNextSubclusterName vas scMap = None ∧
  ∃ i, genNextSubclusterName vas scMap = next_name vas i ∧ i ≤ size scMap.
Proof.
  unfold genNextSubclusterName. fold (next_name vas).
  destruct (find_index_from _ _ _) as [i|] eqn:Hf.
  - apply find_index_from_Some in Hf as (Hi & Ht & _). apply bool_decide_eq_true in Ht.
    split; [done|]. exists i. split; [done|lia].
  - exfalso. pose proof (find_index_from_None _ _ _ Hf) as Hall.
    set (names := next_name vas <$> seq 0 (S (size scMap))).
    assert (list_to_set names ⊆ dom scMap) as Hsub.
    { intros n Hn. apply elem_of_list_to_set, list_elem_of_fmap in Hn as (i & -> & Hi).
      apply elem_of_seq in Hi. apply elem_of_dom. specialize (Hall i).
      rewrite bool_decide_eq_false in Hall. apply not_eq_None_Some. apply Hall. lia. }
    apply subseteq_size in Hsub. rewrite size_list_to_set, size_dom in Hsub.
    + unfold names in Hsub. rewrite length_fmap, length_seq in Hsub. lia.
    + apply NoDup_fmap_2; [apply next_name_inj|]. apply NoDup_seq.
Qed.

(** What new subclusters are copies of *)
Definition proto_of (vas : VerticaAutoscaler) (vdb : VerticaDB) : option Subcluster :=
  let svc := vas_ServiceName (vas_Spec vas) in
  if CanUseTemplate vas then Some (vas_Template (vas_Spec vas))
  else (λ sc, set_sc_ServiceName sc svc) <$>
         last (svc_members svc (spec_Subclusters (vdb_Spec vdb))).

(** Equal but for the name *)
Definition like (p q : Subcluster) : Prop := ∀ n, set_sc_Name p n = set_sc_Name q n.

Lemma like_size p q : like p q → sc_Size p = sc_Size q.
Proof. intros Hl. specialize (Hl ""). by apply (f_equal sc_Size) in Hl. Qed.

Section adding.
Context `{E : Env}.

Lemma calcNextSubcluster_eq vas vdb scMap t :
  calcNextSubcluster vas vdb scMap t =
  match proto_of vas vdb with
  | Some p => (Some (set_sc_Name p (genNextSubclusterName vas scMap)), t)
  | None => (None, AEvent NoSubclusterTemplate :: t)
  end.
Proof.
  unfold calcNextSubcluster, proto_of. destruct (CanUseTemplate vas); [done|].
  rewrite FindSubclusterForServiceName_spec. by destruct (last _).
Qed.

Lemma wp_calcNextSubcluster vas vdb scMap t (Q : option Subcluster → Trace → Prop) :
  match proto_of vas vdb with
  | Some p => Q (Some (set_sc_Name p (genNextSubclusterName vas scMap))) t
  | None => Q None (AEvent NoSubclusterTemplate :: t)
  end → wp (calcNextSubcluster vas vdb scMap) t Q.
Proof. unfold wp. rewrite calcNextSubcluster_eq. by destruct (proto_of vas vdb). Qed.

Lemma proto_of_append vas vdb p n :
  proto_of vas vdb = Some p →
  ∃ q, proto_of vas (set_Subclusters vdb (spec_Subclusters (vdb_Spec vdb) ++ [set_sc_Name p n]))
       = Some q ∧ like q p.
Proof.
  unfold proto_of. destruct (CanUseTemplate vas).
  - intros [= ->]. by exists p.
  - intros (base & Hb & ->)%fmap_Some. simpl. rewrite svc_members_snoc.
    case_bool_decide; [|rewrite Hb; eexists; by split].
    rewrite last_snoc. eexists. by split.
Qed.

Lemma set_Subclusters_id vdb : set_Subclusters vdb (spec_Subclusters (vdb_Spec vdb)) = vdb.
Proof. by destruct vdb as [????? [] ?]. Qed.

Lemma adding_loop_spec vas p fuel vdb scMap needed t :
  (∃ q, proto_of vas vdb = Some q ∧ like q p) → (0 < sc_Size p)%Z →
  (0 ≤ needed < 2 ^ 31)%Z → (Z.to_nat needed ≤ fuel) →
  ∃ names,
    adding_loop fuel vas vdb scMap (sc_Size p) needed t =
      (Some (set_Subclusters vdb (spec_Subclusters (vdb_Spec vdb) ++ (set_sc_Name p <$> names))), t) ∧
    NoDup names ∧ (∀ n, n ∈ names → scMap !! n = None) ∧
    (Z.of_nat (length names) * sc_Size p ≤ needed
       < (Z.of_nat (length names) + 1) * sc_Size p)%Z.
Proof.
  intros Hq Hk. revert vdb scMap needed t Hq.
  induction fuel as [|fuel IH]; intros vdb scMap needed t (q & Hq & Hl) Hn Hf; cbn [adding_loop].
  - rewrite bool_decide_eq_false_2 by lia. exists []. simpl. rewrite app_nil_r, set_Subclusters_id.
    split_and!; [done|constructor|by intros n ?%elem_of_nil|lia|lia].
  - case_bool_decide as Hle.
    2: { exists []. simpl. rewrite app_nil_r, set_Subclusters_id.
         split_and!; [done|constructor|by intros n ?%elem_of_nil|lia|lia]. }
    unfold mbind at 1, M_bind at 1. rewrite calcNextSubcluster_eq, Hq.
    destruct (genNextSubclusterName_fresh vas scMap) as [Hfresh _].
    set (n := genNextSubclusterName vas scMap) in *.
    replace (sc_Size (set_sc_Name q n)) with (sc_Size p) by (symmetry; by apply like_size).
    rewrite wrap32_small by (unfold int32_range; lia).
    destruct (IH (set_Subclusters vdb (spec_Subclusters (vdb_Spec vdb) ++ [set_sc_Name q n]))
      (<[sc_Name (set_sc_Name q n) := set_sc_Name q n]> scMap) (needed - sc_Size p)%Z t)
      as (names & Heq & Hnd & Hnew & Hb); [|lia|lia|].
    { destruct (proto_of_append vas vdb q n Hq) as (q' & Hq' & Hl'). exists q'.
      split; [done|]. intros m. by rewrite Hl'. }
    exists (n :: names). rewrite Heq. split_and!.
    + f_equal. f_equal. simpl. rewrite (Hl n), <- (assoc_L (++)). done.
    + constructor; [|done]. intros Hin. apply Hnew in Hin. simpl in Hin.
      by rewrite lookup_insert_eq in Hin.
    + intros m Hm. apply elem_of_cons in Hm as [->|Hm]; [done|]. apply Hnew in Hm.
      by apply lookup_insert_None in Hm as [Hm _].
    + simpl length. lia.
    + simpl length. lia.
Qed.

(** An empty new subcluster never fills the gap. *)
Lemma adding_loop_stuck vas p fuel vdb scMap needed t :
  (∃ q, proto_of vas vdb = Some q ∧ like q p) → sc_Size p = 0%Z →
  (0 ≤ needed < 2 ^ 31)%Z →
  adding_loop fuel vas vdb scMap 0 needed t = (None, t).
Proof.
  intros Hq Hk. revert vdb scMap t Hq.
  induction fuel as [|fuel IH]; intros vdb scMap t (q & Hq & Hl) Hn; cbn [adding_loop].
  - by rewrite bool_decide_eq_true_2 by lia.
  - rewrite bool_decide_eq_true_2 by lia. unfold mbind, M_bind.
    rewrite calcNextSubcluster_eq, Hq. set (n := genNextSubclusterName vas scMap).
    replace (sc_Size (set_sc_Name q n)) with 0%Z by (rewrite <- Hk; symmetry; by apply like_size).
    rewrite wrap32_small by (unfold int32_range; lia). rewrite Z.sub_0_r. apply IH; [|done].
    destruct (proto_of_append vas vdb q n Hq) as (q' & Hq' & Hl'). exists q'.
    split; [done|]. intros m. by rewrite Hl'.
Qed.

(** ** One scaling decision *)

(** The autoscaler as the webhook admits it, with a target in range *)
Definition vas_ok (vas : VerticaAutoscaler) : Prop :=
  (0 ≤ vas_TargetSize (vas_Spec vas) < 2 ^ 31)%Z ∧ vas_ServiceName (vas_Spec vas) ≠ "" ∧
  (CanUseTemplate vas = true → sc_ServiceName (vas_Template (vas_Spec vas)) = vas_ServiceName (vas_Spec vas)).

Lemma proto_of_service vas vdb p :
  vas_ok vas → proto_of vas vdb = Some p → sc_ServiceName p = vas_ServiceName (vas_Spec vas).
Proof.
  intros (_ & _ & Ht). unfold proto_of. destruct (CanUseTemplate vas).
  - intros [= <-]. auto.
  - by intros (b & _ & ->)%fmap_Some.
Qed.

Lemma tot_protos svc p names :
  svc ≠ "" → sc_ServiceName p = svc →
  tot svc (set_sc_Name p <$> names) = (Z.of_nat (length names) * sc_Size p)%Z.
Proof.
  intros Hne Hsvc. induction names as [|n names IH]; [done|]. rewrite fmap_cons, tot_cons, IH.
  unfold GetServiceName. simpl sc_ServiceName. rewrite Hsvc.
  rewrite (bool_decide_eq_false_2 (svc = "")) by done. rewrite bool_decide_eq_true_2 by done.
  simpl length. simpl sc_Size. lia.
Qed.

Lemma considerAdding_correct vas vdb t :
  vas_ok vas → let svc := vas_ServiceName (vas_Spec vas) in
  let target := vas_TargetSize (vas_Spec vas) in
  let scs := spec_Subclusters (vdb_Spec vdb) in
  sizes_ok svc scs → (tot svc scs < target)%Z →
  (∀ p, proto_of vas vdb = Some p → (0 < sc_Size p)%Z) →
  let delta := (target - tot svc scs)%Z in
  ∃ vdb' changed t',
    considerAddingSubclusters (Z.to_nat delta) vas vdb delta t = (Some (vdb', changed), t') ∧
    vdb' = set_Subclusters vdb (spec_Subclusters (vdb_Spec vdb')) ∧
    (t' = t ∨ t' = AEvent NoSubclusterTemplate :: t) ∧
    (changed = true → grown svc target scs (spec_Subclusters (vdb_Spec vdb'))).
Proof.
  intros Hok svc target scs [Hs Ht] Hlt Hpos delta. pose proof Hok as (Htg & Hsvc & _).
  pose proof (tot_nonneg svc scs Hs).
  unfold considerAddingSubclusters, calcNextSubclusterSize. unfold mbind, M_bind.
  rewrite calcNextSubcluster_eq. destruct (proto_of vas vdb) as [p|] eqn:Hp.
  2: { exists vdb, false, (AEvent NoSubclusterTemplate :: t). rewrite set_Subclusters_id.
       split_and!; [done|done|by right|done]. }
  destruct (adding_loop_spec vas p (Z.to_nat delta) vdb (GenSubclusterMap vdb) delta t)
    as (names & Heq & Hnd & Hnew & Hb);
    [by exists p|by apply Hpos|unfold delta, target; lia|lia|].
  simpl. rewrite Heq. eexists _, _, t. split; [done|]. split; [done|]. split; [by left|].
  intros _. exists p, names. simpl. pose proof (proto_of_service _ _ _ Hok Hp) as Hps.
  rewrite tot_app, tot_protos by done. fold scs. split_and!; [done|by apply Hpos|done|done| |lia|lia].
  intros n Hn Hin. apply Hnew in Hn. apply GenSubclusterMap_lookup in Hin.
  rewrite Hn in Hin. by destruct Hin.
Qed.

End adding.

(** ** Every update the actors send *)

Definition updates_satisfy (P : VerticaDB → Prop) (t : Trace) : Prop :=
  ∀ w, AUpdateVdb w ∈ t → P w.

Lemma updates_cons P a t :
  (∀ w, a = AUpdateVdb w → P w) → updates_satisfy P t → updates_satisfy P (a :: t).
Proof. intros Ha Ht w Hw. apply elem_of_cons in Hw as [Hw|Hw]; [by apply Ha|by apply Ht]. Qed.

(** From invariants to the updates a computation adds *)
Lemma new_updates {A} (m : M A) (Q : VerticaDB → Prop) t w :
  (∀ P : VerticaDB → Prop, (∀ w, Q w → P w) → keeps (updates_satisfy P) m) →
  AUpdateVdb w ∈ snd (m t) → AUpdateVdb w ∈ t ∨ Q w.
Proof.
  intros Hm Hw. refine (Hm (λ w, AUpdateVdb w ∈ t ∨ Q w) _ t _ w Hw); [by right|by left].
Qed.

(** No update is sent by the call. *)
Ltac no_update := intros; apply updates_cons; [done|done].

Section updates.
Context `{E : Env}.

(** An update that the autoscaler [vas] may send, by contract [C]: only the
    subclusters of a fetched object change, and they change as [C] says. *)
Definition allowed (vas : VerticaAutoscaler)
    (C : string → Z → list Subcluster → list Subcluster → Prop) (w : VerticaDB) : Prop :=
  ∃ t0 cur, env_get_vdb t0 (vdb_name_of vas) = Ok cur ∧
    w = set_Subclusters cur (spec_Subclusters (vdb_Spec w)) ∧
    (vas_ok vas → sizes_ok (vas_ServiceName (vas_Spec vas)) (spec_Subclusters (vdb_Spec cur)) →
     C (vas_ServiceName (vas_Spec vas)) (vas_TargetSize (vas_Spec vas))
       (spec_Subclusters (vdb_Spec cur)) (spec_Subclusters (vdb_Spec w))).

Lemma keeps_vasStatusUpdater P req f : keeps (updates_satisfy P) (vasStatusUpdater req f).
Proof.
  unfold vasStatusUpdater. wp_calls. keeps_step no_update; [|apply keeps_ret].
  apply keeps_retry. intros _. keeps_step no_update. destruct (env_get_vas _ _) as [v|[]];
    simpl; repeat keeps_step no_update.
Qed.

Lemma keeps_report_scaling P vas req s err :
  keeps (updates_satisfy P) (report_scaling vas req s err).
Proof.
  unfold report_scaling. destruct (IsReconcileAborted _ _); [apply keeps_ret|].
  destruct (ss_done s); [|apply keeps_ret]. destruct (FindSubclusterForServiceName _ _).
  keeps_step no_update; [apply keeps_vasStatusUpdater|apply keeps_ret].
Qed.

Lemma keeps_update_vdb_attempt (P : VerticaDB → Prop) s :
  P (ss_Vdb s) → keeps (updates_satisfy P) (update_vdb_attempt s).
Proof.
  intros Hs. unfold update_vdb_attempt. wp_calls. apply keeps_bind_call.
  - intros t Ht. apply updates_cons; [|done]. by intros w [= <-].
  - intros t. destruct (env_update_vdb _ _); apply keeps_ret.
Qed.

Lemma wp_fetchVDB P {B} vas vdb (f : VerticaDB * (Result * option go_error) → M B) t
    (Q : B → Trace → Prop) :
  updates_satisfy P t →
  (∀ res err t', updates_satisfy P t' → IsReconcileAborted res err = true →
     wp (f (vdb, (res, err))) t' Q) →
  (∀ t0 cur t', env_get_vdb t0 (vdb_name_of vas) = Ok cur → updates_satisfy P t' →
     wp (f (cur, (no_requeue, None))) t' Q) →
  wp (fetchVDB vas vdb ≫= f) t Q.
Proof.
  intros Ht Hab Hok. unfold fetchVDB. wp_calls. do 2 wp_step. wp_step.
  assert (updates_satisfy P (AGetVdb (vdb_name_of vas) :: t)) as Ht' by no_update.
  destruct (env_get_vdb t _) as [v|[]] eqn:Hg.
  - wp_step. by apply (Hok t).
  - wp_step. wp_step. wp_step. apply Hab; [no_update|done].
  - wp_step. by apply Hab.
  - wp_step. by apply Hab.
Qed.

(** After a fetch: either the attempt is over, or it goes on with the object
    fetched. *)
Lemma keeps_fetchVDB P {B} vas vdb (f : VerticaDB * (Result * option go_error) → M B) :
  (∀ res err, IsReconcileAborted res err = true → keeps (updates_satisfy P) (f (vdb, (res, err)))) →
  (∀ t0 cur, env_get_vdb t0 (vdb_name_of vas) = Ok cur →
     keeps (updates_satisfy P) (f (cur, (no_requeue, None)))) →
  keeps (updates_satisfy P) (fetchVDB vas vdb ≫= f).
Proof.
  intros Hab Hok t Ht. apply (wp_fetchVDB P); [done|..].
  - intros res err t' Ht' Ha. by apply Hab.
  - intros t0 cur t' Hg Ht'. by apply (Hok t0).
Qed.

Lemma keeps_resize_attempt (P : VerticaDB → Prop) vas s :
  (∀ w, allowed vas resized w → P w) → keeps (updates_satisfy P) (resize_attempt vas s).
Proof.
  intros HP. unfold resize_attempt. apply keeps_fetchVDB.
  { intros res err ->. apply keeps_ret. }
  intros t0 cur Hg. simpl. rewrite FindSubclusterForServiceName_spec.
  case_bool_decide as Hm.
  { wp_calls. repeat keeps_step no_update. }
  case_bool_decide as Hd; [apply keeps_ret|]. apply keeps_update_vdb_attempt. simpl.
  apply HP. exists t0, cur. split_and!; [done|done|]. intros Hok Hsz. pose proof Hok as (Htg & _).
  pose proof (FindSubclusterForServiceName_tot cur _ Hsz) as Htot.
  rewrite FindSubclusterForServiceName_spec in Htot. injection Htot as Htot.
  simpl. rewrite Htot in Hd |- *. apply resize_correct; [done|done| |].
  - intros Heq. apply Hd. rewrite Heq, Z.sub_diag. done.
  - intros Hnil. apply Hm. by rewrite Hnil.
Qed.

Lemma considerAdding_stuck vas vdb p fuel needed t :
  proto_of vas vdb = Some p → sc_Size p = 0%Z → (0 ≤ needed < 2 ^ 31)%Z →
  considerAddingSubclusters fuel vas vdb needed t = (None, t).
Proof.
  intros Hp Hz Hn. unfold considerAddingSubclusters, calcNextSubclusterSize.
  unfold mbind, M_bind. rewrite calcNextSubcluster_eq, Hp. simpl. rewrite Hz.
  rewrite (adding_loop_stuck vas p); [done|by exists p|done|done].
Qed.

Lemma proto_of_nonneg vas vdb p :
  Forall (λ sc, 0 ≤ sc_Size sc)%Z (spec_Subclusters (vdb_Spec vdb)) →
  proto_of vas vdb = Some p → (0 ≤ sc_Size p)%Z.
Proof.
  intros Hs. unfold proto_of. destruct (CanUseTemplate vas) eqn:Ht.
  - intros [= <-]. apply bool_decide_eq_true in Ht. lia.
  - intros (b & Hb & ->)%fmap_Some. simpl.
    assert (b ∈ svc_members (vas_ServiceName (vas_Spec vas)) (spec_Subclusters (vdb_Spec vdb))) as Hin.
    { rewrite last_lookup in Hb. by eapply list_elem_of_lookup_2. }
    apply list_elem_of_filter in Hin as [_ Hin]. by apply (proj1 (Forall_forall _ _) Hs).
Qed.

(** Whatever the sizes, only the subclusters change and nothing is written. *)
Lemma adding_loop_shape P fuel vas vdb scMap k needed t :
  updates_satisfy P t →
  wp (adding_loop fuel vas vdb scMap k needed) t (λ o t', updates_satisfy P t' ∧
    ∀ v, o = Some v → v = set_Subclusters vdb (spec_Subclusters (vdb_Spec v))).
Proof.
  intros Ht. revert vdb scMap needed.
  induction fuel as [|fuel IH]; intros vdb scMap needed; simpl;
    (destruct (bool_decide (k ≤ needed)%Z);
     [|wp_step; split; [done|]; intros v [= <-]; by rewrite set_Subclusters_id]); [by wp_step|].
  wp_step. apply wp_calcNextSubcluster. destruct (proto_of vas vdb) as [p|].
  - eapply wp_mono; [|apply IH]. intros o t' [Ht' Hv]. split; [done|]. intros v ->.
    by rewrite (Hv v) at 1.
  - wp_step. split; [no_update|done].
Qed.

Lemma considerAdding_shape P fuel vas vdb needed t :
  updates_satisfy P t →
  wp (considerAddingSubclusters fuel vas vdb needed) t (λ o t', updates_satisfy P t' ∧
    ∀ v changed, o = Some (v, changed) → v = set_Subclusters vdb (spec_Subclusters (vdb_Spec v))).
Proof.
  intros Ht. unfold considerAddingSubclusters, calcNextSubclusterSize.
  wp_step. wp_step. apply wp_calcNextSubcluster.
  destruct (proto_of vas vdb) as [p|]; wp_step; simpl.
  - wp_step. eapply wp_mono; [|by apply (adding_loop_shape P)].
    intros [v|] t' [Ht' Hv]; wp_step; (split; [done|]); [|done].
    intros v' changed [= <- _]. by apply Hv.
  - wp_step. split; [no_update|]. intros v c [= <- _]. by rewrite set_Subclusters_id.
Qed.

Lemma proto_zero_or_not vas vdb :
  (∃ p, proto_of vas vdb = Some p ∧ sc_Size p = 0%Z) ∨
  ¬ (∃ p, proto_of vas vdb = Some p ∧ sc_Size p = 0%Z).
Proof.
  destruct (proto_of vas vdb) as [p|]; [|right; naive_solver].
  destruct (decide (sc_Size p = 0%Z)); [left; eauto|right; naive_solver].
Qed.

Lemma scale_decision_shape P vas cur totSize t :
  updates_satisfy P t →
  wp (scale_decision vas cur totSize) t (λ o t', updates_satisfy P t' ∧
    ∀ v changed, o = Some (v, changed) → v = set_Subclusters cur (spec_Subclusters (vdb_Spec v))).
Proof.
  intros Ht. unfold scale_decision. case_bool_decide; [|case_bool_decide].
  - wp_step. split; [done|]. by intros v c [= <- _].
  - by apply considerAdding_shape.
  - wp_step. split; [done|]. intros v c [= <- _]. by rewrite set_Subclusters_id.
Qed.

Lemma scale_decision_correct vas cur t :
  let svc := vas_ServiceName (vas_Spec vas) in
  let scs := spec_Subclusters (vdb_Spec cur) in
  vas_ok vas → sizes_ok svc scs →
  wp (scale_decision vas cur (tot svc scs)) t (λ o t',
    (∀ v, o = Some (v, true) →
       scaled svc (vas_TargetSize (vas_Spec vas)) scs (spec_Subclusters (vdb_Spec v))) ∧
    ((∀ p, proto_of vas cur = Some p → sc_Size p ≠ 0%Z) → is_Some o)).
Proof.
  intros svc scs Hok Hsz. pose proof Hok as (Htg & _). pose proof Hsz as [Hs Ht].
  pose proof (tot_nonneg svc scs Hs). unfold scale_decision, scaled.
  rewrite (wrap32_small (_ - _)) by (unfold int32_range; lia).
  case_bool_decide as Hneg; [|case_bool_decide as Hpos].
  - rewrite bool_decide_eq_true_2 by lia. wp_step. split; [|eauto].
    intros v [= <- _]. simpl.
    pose proof (remove_correct svc (vas_TargetSize (vas_Spec vas)) scs Hsz) as Hr.
    rewrite (wrap32_small (_ - _)) in Hr by (unfold int32_range; lia).
    apply Hr. lia.
  - rewrite bool_decide_eq_false_2 by lia.
    destruct (proto_zero_or_not vas cur) as [(p & Hp & Hz)|Hnz].
    + unfold wp. rewrite (considerAdding_stuck vas cur p) by (done || lia). simpl.
      split; [done|]. intros Hn. by destruct (Hn p Hp).
    + assert (tot svc scs < vas_TargetSize (vas_Spec vas))%Z as Hlt by lia.
      destruct (considerAdding_correct vas cur t Hok Hsz Hlt) as (v & c & t' & Heq & _ & _ & Hg).
      { intros p Hp. pose proof (proto_of_nonneg _ _ _ Hs Hp).
        assert (sc_Size p ≠ 0%Z); [|lia]. intros Hz. apply Hnz. eauto. }
      fold svc scs in Heq. unfold wp. rewrite Heq. simpl. split; [|eauto].
      intros v' [= <- ->]. by apply Hg.
  - wp_step. split; [|eauto]. done.
Qed.

Lemma keeps_scale_attempt (P : VerticaDB → Prop) vas os :
  (∀ w, allowed vas scaled w → P w) → keeps (updates_satisfy P) (scale_attempt vas os).
Proof.
  intros HP. destruct os as [s|]; [|apply keeps_ret]. unfold scale_attempt.
  apply keeps_fetchVDB; [intros res err ->; apply keeps_ret|].
  intros t0 cur Hg. simpl. rewrite FindSubclusterForServiceName_spec.
  set (svc := vas_ServiceName (vas_Spec vas)). intros t Ht. apply wp_bind.
  eapply wp_mono; [|apply wp_and; [by apply (scale_decision_shape P)|]].
  2: { instantiate (1 := λ o _, vas_ok vas →
         sizes_ok svc (spec_Subclusters (vdb_Spec cur)) → ∀ v, o = Some (v, true) →
         scaled svc (vas_TargetSize (vas_Spec vas)) (spec_Subclusters (vdb_Spec cur))
           (spec_Subclusters (vdb_Spec v))).
       intros Hok Hsz. pose proof (FindSubclusterForServiceName_tot cur svc Hsz) as Htot.
       rewrite FindSubclusterForServiceName_spec in Htot. injection Htot as ->.
       by apply scale_decision_correct. }
  intros [[v changed]|] t' [[Ht' Hv] Hc]; [|by wp_step]. destruct changed; simpl; [|by wp_step].
  wp_step. eapply wp_mono; [|apply (keeps_update_vdb_attempt P); [|done]].
  - intros [s' err] t'' Ht''. by wp_step.
  - simpl. apply HP. exists t0, cur. split_and!; [done|by eapply Hv|]. intros Hok Hsz. by apply Hc.
Qed.

Lemma scale_attempt_some vas s t :
  vas_ok vas →
  (∀ t0 cur, env_get_vdb t0 (vdb_name_of vas) = Ok cur →
     sizes_ok (vas_ServiceName (vas_Spec vas)) (spec_Subclusters (vdb_Spec cur)) ∧
     ∀ p, proto_of vas cur = Some p → sc_Size p ≠ 0%Z) →
  wp (scale_attempt vas (Some s)) t (λ r _, is_Some (fst r)).
Proof.
  intros Hok Henv. unfold scale_attempt, fetchVDB. wp_calls. do 2 wp_step. wp_step.
  destruct (env_get_vdb t _) as [cur|[]] eqn:Hg; [|by repeat (apply wp_ret || apply wp_bind || apply wp_call); eexists..].
  destruct (Henv _ _ Hg) as [Hsz Hp]. wp_step. simpl.
  rewrite (FindSubclusterForServiceName_tot cur _ Hsz). wp_step.
  eapply wp_mono; [|by apply scale_decision_correct].
  intros o t' [_ Ho]. destruct (Ho Hp) as [[v changed] ->].
  destruct changed; simpl; [|by eexists]. wp_step. unfold update_vdb_attempt. wp_calls.
  do 2 wp_step. destruct (env_update_vdb _ _); do 2 wp_step; by eexists.
Qed.

Lemma keeps_resize (P : VerticaDB → Prop) vas req :
  (∀ w, allowed vas resized w → P w) →
  keeps (updates_satisfy P) (SubclusterResizeReconciler_Reconcile vas req).
Proof.
  intros HP. unfold SubclusterResizeReconciler_Reconcile, resizeSubcluster.
  destruct (negb _); [apply keeps_ret|].
  apply keeps_bind; [apply keeps_retry; intros; by apply keeps_resize_attempt|].
  intros [s err]. apply keeps_report_scaling.
Qed.

Lemma keeps_scale (P : VerticaDB → Prop) vas req :
  (∀ w, allowed vas scaled w → P w) →
  keeps (updates_satisfy P) (SubclusterScaleReconciler_Reconcile vas req).
Proof.
  intros HP. unfold SubclusterScaleReconciler_Reconcile, scaleSubcluster.
  destruct (negb _); [apply keeps_ret|].
  apply keeps_bind; [apply keeps_retry; intros; by apply keeps_scale_attempt|].
  intros [[s|] err]; [|apply keeps_ret].
  apply keeps_bind; [apply keeps_report_scaling|intros; apply keeps_ret].
Qed.

End updates.

(** ** A cluster with one VerticaDB and one VerticaAutoscaler

    The first write of either object conflicts if [busy] is set. *)
Definition demo_env (busy : bool) (v : VerticaDB) (a : VerticaAutoscaler) : Env := {|
  env_exec _ _ _ := MkExec "" "" None;
  env_vsql _ _ _ := MkExec "" "" None;
  env_admintools _ _ _ := MkExec "" "" None;
  env_get_vdb _ nm := if bool_decide (nm = ExtractNamespacedName v) then Ok v else Err ErrNotFound;
  env_update_vdb t w :=
    if busy && negb (existsb (λ a, match a with AUpdateVdb _ => true | _ => false end) t)
    then Err ErrConflict else Ok w;
  env_update_vdb_status _ w := Ok w;
  env_get_vas _ nm :=
    if bool_decide (nm = MkNamespacedName (vas_Namespace a) (vas_Name a)) then Ok a
    else Err ErrNotFound;
  env_update_vas t w :=
    if busy && negb (existsb (λ a, match a with AUpdateVas _ => true | _ => false end) t)
    then Err ErrConflict else Ok w;
  env_update_vas_status _ w := Ok w;
  env_get_sts _ _ := Err ErrNotFound;
  env_get_pod _ _ := Err ErrNotFound;
  env_list_sts _ _ _ := Ok [];
  env_list_pods _ _ _ := Ok [];
  env_list_services _ _ _ := Ok [];
  env_update_sts _ s := Ok s;
  env_delete_pod _ _ := None;
  env_copy _ _ _ _ := MkExec "" "" None;
  env_update_pod _ q := Ok q;
  env_patch_pod _ q := Ok q;
  env_server_version _ := Ok ("v1", "c", "d");
  env_get_secret _ _ := Err ErrNotFound;
  env_get_configmap _ _ := Some ErrNotFound;
  env_get_service _ _ := Err ErrNotFound;
  env_create_service _ _ := None;
  env_update_service _ s := Ok s;
  env_delete_service _ _ := None;
  env_create_sts _ _ := None;
  env_patch_sts _ s := Ok s;
  env_delete_sts _ _ := None;
  env_set_controller _ _ := None;
  env_now _ := 7%Z;
  env_retry_steps := 4 |}.

(** [MakeVDB] with the secondary subclusters [as1] and [as2] of one service *)
Definition demo_sc (name : string) (size : Z) : Subcluster :=
  set_sc_ServiceName (set_sc_Size (set_sc_Name zero_Subcluster name) size) "as".

Definition demo_vdb (s1 s2 : Z) : VerticaDB :=
  set_Subclusters MakeVDB (spec_Subclusters (vdb_Spec MakeVDB) ++ [demo_sc "as1" s1; demo_sc "as2" s2]).

Definition demo_vas (granularity : string) (target : Z) : VerticaAutoscaler :=
  MkVerticaAutoscaler "vas" "default" 0
    (MkVerticaAutoscalerSpec "vertica-sample" granularity "as" zero_Subcluster target)
    (MkVerticaAutoscalerStatus 0 0 "" []).

(** ** Properties *)

(** With pod granularity, every update of the VerticaDB that the resize
    actor sends, after any number of conflicts, is the object as fetched with
    only sizes of the service's subclusters changed, none negative, and their
    total exactly the target size. *)
Theorem resize_updates_correct `{E : Env} vas req t w :
  AUpdateVdb w ∈ snd (SubclusterResizeReconciler_Reconcile vas req t) →
  AUpdateVdb w ∈ t ∨ allowed vas resized w.
Proof. apply new_updates. intros P HP. by apply keeps_resize. Qed.

Lemma resize_updates_correct_witness :
  let E := demo_env true (demo_vdb 2 3) (demo_vas PodScalingGranularity 1) in
  let vas := demo_vas PodScalingGranularity 1 in
  allowed vas resized (demo_vdb 1 0) ∧
  length (snd (SubclusterResizeReconciler_Reconcile vas (MkNamespacedName "default" "vas") [])) = 6.
Proof.
  split; [|vm_compute; reflexivity].
  destruct (@resize_updates_correct
    (demo_env true (demo_vdb 2 3) (demo_vas PodScalingGranularity 1))
    (demo_vas PodScalingGranularity 1) (MkNamespacedName "default" "vas") [] (demo_vdb 1 0))
    as [Hin|Hal]; [|by apply elem_of_nil in Hin|exact Hal].
  apply (list_elem_of_lookup_2 _ 2). vm_compute. reflexivity.
Defined.

(** With subcluster granularity, every update the scale actor sends is the
    object as fetched with whole subclusters of the service removed from the
    end without going below the target, or with copies of one subcluster
    appended under fresh, distinct names without going above the target; in
    both cases as many as possible. *)
Theorem scale_updates_correct `{E : Env} vas req t w :
  AUpdateVdb w ∈ snd (SubclusterScaleReconciler_Reconcile vas req t) →
  AUpdateVdb w ∈ t ∨ allowed vas scaled w.
Proof. apply new_updates. intros P HP. by apply keeps_scale. Qed.

Lemma scale_updates_correct_witness :
  let vas := demo_vas SubclusterScalingGranularity 9 in
  let E := demo_env true (demo_vdb 2 3) vas in
  ∃ w, allowed vas scaled w ∧
       sc_Name <$> spec_Subclusters (vdb_Spec w) = ["defaultsubcluster"; "as1"; "as2"; "vas-0"].
Proof.
  exists (set_Subclusters (demo_vdb 2 3)
            (spec_Subclusters (vdb_Spec (demo_vdb 2 3)) ++ [demo_sc "vas-0" 3])).
  split; [|reflexivity].
  destruct (@scale_updates_correct
    (demo_env true (demo_vdb 2 3) (demo_vas SubclusterScalingGranularity 9))
    (demo_vas SubclusterScalingGranularity 9) (MkNamespacedName "default" "vas") []
    (set_Subclusters (demo_vdb 2 3)
            (spec_Subclusters (vdb_Spec (demo_vdb 2 3)) ++ [demo_sc "vas-0" 3])))
    as [Hin|Hal]; [|by apply elem_of_nil in Hin|exact Hal].
  apply (list_elem_of_lookup_2 _ 2). vm_compute. reflexivity.
Defined.

(** C32: the scale actor returns, whatever the API server answers, if the
    autoscaler is valid and the subcluster that new ones are copied from is
    never empty. *)
Theorem scale_returns `{E : Env} vas req t :
  vas_ok vas →
  (∀ t0 cur, env_get_vdb t0 (vdb_name_of vas) = Ok cur →
     sizes_ok (vas_ServiceName (vas_Spec vas)) (spec_Subclusters (vdb_Spec cur)) ∧
     ∀ p, proto_of vas cur = Some p → sc_Size p ≠ 0%Z) →
  is_Some (fst (SubclusterScaleReconciler_Reconcile vas req t)).
Proof.
  intros Hok Henv. unfold SubclusterScaleReconciler_Reconcile, scaleSubcluster, RetryOnConflict.
  destruct (negb _); [eauto|].
  assert (∀ n s t, wp (retry_on_conflict n (scale_attempt vas) (Some s)) t
    (λ r _, is_Some (fst r))) as Hretry.
  { intros n. destruct n as [|n]; [by intros; eexists|]. intros s t1.
    apply (wp_retry (S n) _ (λ os _, is_Some os)); [lia|eauto|].
    clear s t1. intros os t1 [s ->]. eapply wp_mono; [|by apply (scale_attempt_some vas s t1 Hok Henv)].
    simpl. auto. }
  specialize (Hretry env_retry_steps (MkScale zero_vdb no_requeue false) t).
  unfold wp in Hretry. unfold mbind at 1, M_bind at 1.
  destruct (retry_on_conflict _ _ _ t) as [[os err] t']. simpl in Hretry.
  destruct Hretry as [s ->]. unfold mbind, M_bind. destruct (report_scaling _ _ _ _ _). by eexists.
Qed.

Lemma scale_returns_witness :
  let vas := demo_vas SubclusterScalingGranularity 9 in
  let E := demo_env true (demo_vdb 2 3) vas in
  is_Some (fst (SubclusterScaleReconciler_Reconcile vas (MkNamespacedName "default" "vas") [])).
Proof.
  apply (@scale_returns (demo_env true (demo_vdb 2 3) (demo_vas SubclusterScalingGranularity 9))).
  - split_and!; [vm_compute; done|vm_compute; done|done|done].
  - intros t0 cur Hcur. vm_compute in Hcur. injection Hcur as <-. split.
    + split; [repeat constructor; vm_compute; done|vm_compute; done].
    + intros p Hp. vm_compute in Hp. injection Hp as <-. vm_compute. done.
Defined.

(** Without a template, when the last subcluster of the service is empty
    (a size the CRD admits for secondary subclusters) and pods are missing, the
    adding loop never ends: no number of iterations is enough. *)
Theorem empty_subcluster_never_returns `{E : Env} vas vdb sc fuel needed t :
  CanUseTemplate vas = false →
  last (svc_members (vas_ServiceName (vas_Spec vas)) (spec_Subclusters (vdb_Spec vdb))) = Some sc →
  sc_Size sc = 0%Z → (0 < needed < 2 ^ 31)%Z →
  considerAddingSubclusters fuel vas vdb needed t = (None, t).
Proof.
  intros Hc Hl Hz Hn.
  apply (considerAdding_stuck vas vdb (set_sc_ServiceName sc (vas_ServiceName (vas_Spec vas))));
    [|done|lia]. unfold proto_of. by rewrite Hc, Hl.
Qed.

Lemma empty_subcluster_never_returns_witness :
  let vas := demo_vas SubclusterScalingGranularity 5 in
  let E := demo_env false (demo_vdb 2 0) vas in
  considerAddingSubclusters 1000 vas (demo_vdb 2 0) 3 [] = (None, []) ∧
  fst (Reconcile (MkNamespacedName "default" "vas") []) = None.
Proof.
  split; [|vm_compute; reflexivity].
  by apply (@empty_subcluster_never_returns
    (demo_env false (demo_vdb 2 0) (demo_vas SubclusterScalingGranularity 5)) _ _ (demo_sc "as2" 0)).
Defined.

(** When the write of the initial target size conflicts, the retry takes
    the size already set in memory for the stored one: it reports success
    without writing, whatever the further answers would be. *)
Theorem target_size_conflict_lost `{E : Env} vas vdb t :
  let n := snd (FindSubclusterForServiceName vdb (vas_ServiceName (vas_Spec vas))) in
  (∀ t0, env_get_vdb t0 (vdb_name_of vas) = Ok vdb) →
  (∀ t0 v, env_update_vas t0 v = Err ErrConflict) →
  2 ≤ env_retry_steps → vas_TargetSize (vas_Spec vas) ≠ n →
  initTargetSize vas t =
    ((set_vas_TargetSize vas n, (no_requeue, None)),
     [AGetVdb (vdb_name_of vas); AUpdateVas (set_vas_TargetSize vas n); AGetVdb (vdb_name_of vas)] ++ t).
Proof.
  intros n Hget Hupd Hsteps Hn. unfold initTargetSize, RetryOnConflict.
  destruct env_retry_steps as [|[|steps]] eqn:Hst; [lia|lia|]. clear Hst.
  unfold retry_on_conflict. fold (@retry_on_conflict). unfold initTargetSize_attempt, fetchVDB.
  unfold mbind, M_bind, mret, M_ret, GetVdb, UpdateVas, call. rewrite Hget. simpl.
  destruct (FindSubclusterForServiceName vdb (vas_ServiceName (vas_Spec vas))) as [scs n'] eqn:Hf.
  simpl in n. rewrite (bool_decide_eq_false_2 _ Hn). simpl. rewrite Hupd.
  destruct steps; simpl; unfold vdb_name_of; simpl; fold (vdb_name_of vas);
    rewrite Hget; simpl; rewrite Hf, bool_decide_eq_true_2 by done; done.
Qed.

Lemma target_size_conflict_lost_witness :
  let vas := demo_vas PodScalingGranularity 0 in
  let E := demo_env true (demo_vdb 2 3) vas in
  fst (TargetSizeInitializerReconciler_Reconcile vas (MkNamespacedName "default" "vas") [])
    = (set_vas_TargetSize vas 5, (no_requeue, None)) ∧
  let busy := {| env_exec := env_exec; env_vsql := env_vsql; env_admintools := env_admintools;
    env_get_vdb _ _ := Ok (demo_vdb 2 3); env_update_vdb := env_update_vdb;
    env_update_vdb_status := env_update_vdb_status; env_get_vas := env_get_vas;
    env_update_vas _ _ := Err ErrConflict; env_update_vas_status := env_update_vas_status;
    env_get_sts := env_get_sts; env_get_pod := env_get_pod; env_list_sts := env_list_sts;
    env_list_pods := env_list_pods; env_list_services := env_list_services;
    env_update_sts := env_update_sts; env_delete_pod := env_delete_pod; env_copy := env_copy;
    env_update_pod := env_update_pod; env_patch_pod := env_patch_pod;
    env_server_version := env_server_version; env_get_secret := env_get_secret; env_get_configmap := env_get_configmap; env_get_service := env_get_service;
    env_create_service := env_create_service; env_update_service := env_update_service;
    env_delete_service := env_delete_service; env_create_sts := env_create_sts; env_patch_sts := env_patch_sts;
    env_delete_sts := env_delete_sts; env_set_controller := env_set_controller; env_now := env_now;
    env_retry_steps := 4 |} in
  snd (fst (@initTargetSize busy vas [])) = (no_requeue, None).
Proof.
  split; [vm_compute; reflexivity|]. intros busy.
  rewrite (@target_size_conflict_lost busy (demo_vas PodScalingGranularity 0) (demo_vdb 2 3) []);
    [reflexivity|done|done|simpl; lia|vm_compute; done].
Defined.

Section controller.
Context `{E : Env}.

(** An update returns the spec that was sent, under the same name. *)
Definition vas_update_keeps_spec : Prop :=
  ∀ t v v', env_update_vas t v = Ok v' →
    vas_Spec v' = vas_Spec v ∧ vas_Namespace v' = vas_Namespace v ∧ vas_Name v' = vas_Name v.

(** The shared object as fetched, but for the status, the resource version and
    the target size if that was zero *)
Definition same_vas (v v' : VerticaAutoscaler) : Prop :=
  vas_Namespace v' = vas_Namespace v ∧ vas_Name v' = vas_Name v ∧
  (vas_Spec v' = vas_Spec v ∨
   vas_TargetSize (vas_Spec v) = 0%Z ∧ ∃ n, vas_Spec v' = vas_Spec (set_vas_TargetSize v n)).

(** What the controller may send for an autoscaler: what the actor for its
    granularity may send. *)
Definition allowed_by (v : VerticaAutoscaler) (w : VerticaDB) : Prop :=
  ∃ v', same_vas v v' ∧
    (vas_ScalingGranularity (vas_Spec v) = PodScalingGranularity ∧ allowed v' resized w ∨
     vas_ScalingGranularity (vas_Spec v) = SubclusterScalingGranularity ∧ allowed v' scaled w).

Lemma same_vas_granularity v v' :
  same_vas v v' → vas_ScalingGranularity (vas_Spec v') = vas_ScalingGranularity (vas_Spec v).
Proof. by intros (_ & _ & [->|(_ & n & ->)]). Qed.

Lemma same_vas_refl v : same_vas v v.
Proof. split_and!; [done|done|by left]. Qed.

Lemma keeps_UpdateCondition P req c : keeps (updates_satisfy P) (UpdateCondition req c).
Proof.
  unfold UpdateCondition. apply keeps_bind; [by intros t Ht|]. intros now.
  apply keeps_vasStatusUpdater.
Qed.

Lemma same_vas_set_target v v1 n :
  same_vas v v1 → vas_TargetSize (vas_Spec v) = 0%Z → same_vas v (set_vas_TargetSize v1 n).
Proof.
  intros (Hns & Hnm & Hsp) Hz. split_and!; [done|done|]. right. split; [done|]. exists n.
  destruct v1 as [??? s1 ?], v as [??? s ?]. simpl in *.
  destruct Hsp as [->|(_ & m & ->)]; done.
Qed.

Lemma initTargetSize_attempt_spec P v v1 vdb res t :
  vas_update_keeps_spec → vas_TargetSize (vas_Spec v) = 0%Z →
  updates_satisfy P t → same_vas v v1 →
  wp (initTargetSize_attempt (v1, (vdb, res))) t (λ r t',
    updates_satisfy P t' ∧ same_vas v (fst (fst r))).
Proof.
  intros Hk Hz Ht Hs. unfold initTargetSize_attempt.
  apply (wp_fetchVDB P); [done| |].
  - intros r e t' Ht' ->. by wp_step.
  - intros t0 cur t' _ Ht'. simpl. destruct (FindSubclusterForServiceName _ _) as [scs n].
    case_bool_decide; simpl; [by wp_step|]. wp_calls. wp_step. wp_step.
    pose proof (same_vas_set_target v v1 n Hs Hz) as Hs'.
    destruct (env_update_vas _ _) as [v'|e] eqn:Hu; wp_step; simpl.
    + split; [no_update|]. apply Hk in Hu as (Hsp & Hns & Hnm).
      destruct Hs' as (H1 & H2 & H3). split_and!; [congruence|congruence|].
      rewrite Hsp. done.
    + split; [no_update|done].
Qed.

(** The initializer sends no update of the VerticaDB and changes at most a zero
    target size. *)
Lemma TargetSizeInitializer_spec P v req t :
  vas_update_keeps_spec → updates_satisfy P t →
  wp (TargetSizeInitializerReconciler_Reconcile v req) t (λ r t',
    updates_satisfy P t' ∧ same_vas v (fst r)).
Proof.
  intros Hk Ht. unfold TargetSizeInitializerReconciler_Reconcile.
  destruct (target_size_initialized v).
  { wp_step. split; [done|apply same_vas_refl]. }
  wp_step. eapply (wp_mono _ _ (λ r t', updates_satisfy P t' ∧ same_vas v (fst r))).
  { intros [v' [res err]] t' [Ht' Hs]. destruct (IsReconcileAborted res err); [by wp_step|].
    wp_step. eapply wp_mono; [|by apply (keeps_UpdateCondition P)]. intros e t'' Ht''. by wp_step. }
  case_bool_decide as Hz.
  2: { wp_step. split; [done|apply same_vas_refl]. }
  unfold initTargetSize, RetryOnConflict. wp_step.
  assert (∀ steps s t, updates_satisfy P t → same_vas v (fst s) →
    wp (retry_on_conflict steps initTargetSize_attempt s) t
      (λ r t', updates_satisfy P t' ∧ same_vas v (fst (fst r)))) as Hr.
  { intros steps. destruct steps as [|steps]; [by intros; split|]. intros s t1 Ht1 Hs1.
    apply (wp_retry (S steps) _ (λ s t, updates_satisfy P t ∧ same_vas v (fst s))); [lia|done|].
    clear s t1 Ht1 Hs1. intros [v1 [vdb res]] t1 [Ht1 Hs1].
    eapply wp_mono; [|by apply (initTargetSize_attempt_spec P v)]. intros r t2 Hr. by split. }
  eapply wp_mono; [|apply Hr; [done|apply same_vas_refl]].
  intros [[v' [vdb res]] err] t' [Ht' Hs]. by wp_step.
Qed.

Lemma keeps_reading P (act : VerticaAutoscaler → M (Result * option go_error)) v :
  keeps (updates_satisfy P) (act v) →
  ∀ t, updates_satisfy P t →
  wp (reading act v) t (λ r t', updates_satisfy P t' ∧ same_vas v (fst r)).
Proof.
  intros Ha t Ht. unfold reading. wp_step. eapply wp_mono; [|by apply Ha].
  intros r t' Ht'. wp_step. split; [done|apply same_vas_refl].
Qed.

Lemma same_vas_trans v1 v2 v3 : same_vas v1 v2 → same_vas v2 v3 → same_vas v1 v3.
Proof.
  intros (Ha & Hb & Hc) (Hd & He & Hf). split_and!; [congruence|congruence|].
  destruct v1 as [??? s1 ?], v2 as [??? s2 ?], v3 as [??? s3 ?]. simpl in *.
  destruct Hc as [->|(Hz & n & ->)], Hf as [->|(Hz' & m & ->)]; simpl in *; eauto.
Qed.

(** What every actor of the list respects *)
Definition actor_ok (P : VerticaDB → Prop) (v : VerticaAutoscaler) (act : actor) : Prop :=
  ∀ v1 t, same_vas v v1 → updates_satisfy P t →
    wp (act v1) t (λ r t', updates_satisfy P t' ∧ same_vas v1 (fst r)).

Lemma actors_ok (P : VerticaDB → Prop) v req :
  vas_update_keeps_spec → (∀ w, allowed_by v w → P w) → Forall (actor_ok P v) (actors req).
Proof.
  intros Hk HP. unfold actors. rewrite !Forall_cons. split_and!; [..|done].
  - intros v1 t _. apply keeps_reading. unfold VDBVerifyReconciler_Reconcile.
    apply keeps_fetchVDB; intros; apply keeps_ret.
  - intros v1 t _ Ht. wp_step. eapply wp_mono; [|by apply (TargetSizeInitializer_spec P)].
    intros r t' Hr. by wp_step.
  - intros v1 t _. apply keeps_reading. unfold RefreshCurrentSizeReconciler_Reconcile.
    apply keeps_fetchVDB; [intros res err ->; apply keeps_ret|]. intros t0 cur _. simpl.
    destruct (FindSubclusterForServiceName _ _).
    apply keeps_bind; [apply keeps_vasStatusUpdater|intros; apply keeps_ret].
  - intros v1 t _. apply (keeps_reading P (λ _, RefreshSelectorReconciler_Reconcile req)).
    apply keeps_bind; [apply keeps_vasStatusUpdater|intros; apply keeps_ret].
  - intros v1 t Hs. apply (keeps_reading P (λ v, SubclusterResizeReconciler_Reconcile v req)).
    destruct (decide (vas_ScalingGranularity (vas_Spec v1) = PodScalingGranularity)) as [Hg|Hg].
    + apply keeps_resize. intros w Hw. apply HP. exists v1. split; [done|]. left.
      by rewrite <- (same_vas_granularity _ _ Hs).
    + unfold SubclusterResizeReconciler_Reconcile. rewrite bool_decide_eq_false_2 by done.
      apply keeps_ret.
  - intros v1 t Hs Ht. wp_step.
    assert (keeps (updates_satisfy P) (SubclusterScaleReconciler_Reconcile v1 req)) as Hsc.
    { destruct (decide (vas_ScalingGranularity (vas_Spec v1) = SubclusterScalingGranularity)) as [Hg|Hg].
      + apply keeps_scale. intros w Hw. apply HP. exists v1. split; [done|]. right.
        by rewrite <- (same_vas_granularity _ _ Hs).
      + unfold SubclusterScaleReconciler_Reconcile. rewrite bool_decide_eq_false_2 by done.
        apply keeps_ret. }
    eapply wp_mono; [|by apply Hsc]. intros r t' Ht'. wp_step. split; [done|apply same_vas_refl].
Qed.

Lemma keeps_run_actors P v acts v1 res :
  Forall (actor_ok P v) acts → same_vas v v1 →
  keeps (updates_satisfy P) (run_actors acts v1 res).
Proof.
  intros Ha. revert v1 res. induction Ha as [|act acts Hact Hacts IH]; intros v1 res Hs;
    [apply keeps_ret|]. intros t Ht. simpl. wp_step. eapply wp_mono; [|by apply Hact].
  intros [v2 [[r e]|]] t' [Ht' Hs']; [|by wp_step].
  destruct (IsReconcileAborted r e); [by wp_step|]. apply IH; [|done].
  by eapply same_vas_trans.
Qed.

End controller.

(** C31: every update of a VerticaDB in a whole reconcile iteration is one
    that the granularity of the fetched autoscaler allows: with pod granularity
    no subcluster is ever added or removed, with subcluster granularity none is
    ever resized, and an autoscaler that cannot be fetched changes nothing. *)
Theorem Reconcile_updates_correct `{E : Env} req t w :
  vas_update_keeps_spec →
  AUpdateVdb w ∈ snd (Reconcile req t) →
  AUpdateVdb w ∈ t ∨ ∃ v, env_get_vas t req = Ok v ∧ allowed_by v w.
Proof.
  intros Hk. unfold Reconcile. unfold mbind, M_bind, GetVas, call.
  assert (AUpdateVdb w ∈ AGetVas req :: t → AUpdateVdb w ∈ t) as Hcons.
  { intros Hw. by apply elem_of_cons in Hw as [Hw|Hw]. }
  destruct (env_get_vas t req) as [v|[]] eqn:Hg; [|by left; apply Hcons..].
  intros Hw. apply (new_updates _ (allowed_by v)) in Hw as [Hw|Hw]; [left; by apply Hcons| |].
  - right. eauto.
  - intros P HP. apply (keeps_run_actors P v); [by apply actors_ok|apply same_vas_refl].
Qed.

Lemma Reconcile_updates_correct_witness :
  let vas := demo_vas PodScalingGranularity 1 in
  let E := demo_env false (demo_vdb 2 3) vas in
  ∃ v, env_get_vas [] (MkNamespacedName "default" "vas") = Ok v ∧ allowed_by v (demo_vdb 1 0).
Proof.
  destruct (@Reconcile_updates_correct
    (demo_env false (demo_vdb 2 3) (demo_vas PodScalingGranularity 1))
    (MkNamespacedName "default" "vas") [] (demo_vdb 1 0)) as [Hin|Hal]; [| |by apply elem_of_nil in Hin|done].
  - intros t v v'. simpl. by intros [= <-].
  - apply (list_elem_of_lookup_2 _ 2). vm_compute. reflexivity.
Defined.

(** A status update of the autoscaler is sent even when the update
    function changes nothing, because the guard compares a pointer to the whole
    object with a status. *)
Theorem status_write_unconditional `{E : Env} req f v v' t :
  0 < env_retry_steps →
  env_get_vas t req = Ok v → env_update_vas_status (AGetVas req :: t) (f v) = Ok v' →
  vasStatusUpdater req f t = (None, AUpdateVasStatus (f v) :: AGetVas req :: t).
Proof.
  intros Hst Hg Hu. unfold vasStatusUpdater, RetryOnConflict, GetVas, UpdateVasStatus.
  destruct env_retry_steps as [|[|n]]; [lia|..];
    unfold retry_on_conflict, mbind, M_bind, call, mret, M_ret; rewrite Hg; simpl;
    by rewrite Hu.
Qed.

Lemma status_write_unconditional_witness :
  let vas := demo_vas PodScalingGranularity 1 in
  let E := demo_env false (demo_vdb 2 3) vas in
  vasStatusUpdater (MkNamespacedName "default" "vas") (λ v, v) [] =
    (None, [AUpdateVasStatus vas; AGetVas (MkNamespacedName "default" "vas")]).
Proof.
  apply (@status_write_unconditional
    (demo_env false (demo_vdb 2 3) (demo_vas PodScalingGranularity 1)) _ (λ v, v)
    _ (demo_vas PodScalingGranularity 1)); [simpl; lia|reflexivity|reflexivity].
Defined.

(** The webhook admits an autoscaler exactly when its granularity is one
    of the two and its template, if used, belongs to the service and is not
    combined with pod granularity; so an admitted autoscaler with a service
    name and a target in range satisfies what the scaling actor relies on. *)
Theorem vas_webhook_correct v :
  (ValidateCreate v = None ↔
     (vas_ScalingGranularity (vas_Spec v) = PodScalingGranularity ∨
      vas_ScalingGranularity (vas_Spec v) = SubclusterScalingGranularity) ∧
     ((0 < sc_Size (vas_Template (vas_Spec v)))%Z →
      sc_ServiceName (vas_Template (vas_Spec v)) = vas_ServiceName (vas_Spec v) ∧
      vas_ScalingGranularity (vas_Spec v) ≠ PodScalingGranularity)) ∧
  (ValidateCreate v = None → vas_ServiceName (vas_Spec v) ≠ "" →
   (0 ≤ vas_TargetSize (vas_Spec v) < 2 ^ 31)%Z → vas_ok v).
Proof.
  unfold ValidateCreate, validateSpec, validateSubclusterTemplate, validateScalingGranularity,
    vas_ok, CanUseTemplate.
  do 6 (try case_bool_decide; simpl); split; try split; intros; destruct_and?; split_and?;
    first [done|tauto].
Qed.

(** ** Which calls the controller can make *)

Definition autoscaler_call (a : action) : Prop :=
  match a with
  | AGetVas _ | AUpdateVas _ | AUpdateVasStatus _ | AGetVdb _ | AUpdateVdb _ => True
  | AEvent reason => reason ∈ vas_reasons
  | _ => False
  end.

Ltac autoscaler_steps :=
  wp_calls; repeat only_step ltac:(idtac; first [exact I | apply (bool_decide_unpack _); vm_compute; exact I]).

Section calls.
Context `{E : Env}.

Lemma autoscaler_fetchVDB vas vdb : only autoscaler_call (fetchVDB vas vdb).
Proof. unfold fetchVDB. autoscaler_steps. Qed.

Lemma autoscaler_next vas vdb scMap : only autoscaler_call (calcNextSubcluster vas vdb scMap).
Proof. unfold calcNextSubcluster. autoscaler_steps. Qed.

Lemma autoscaler_adding fuel vas vdb scMap n needed : only autoscaler_call (adding_loop fuel vas vdb scMap n needed).
Proof.
  revert vdb scMap needed. induction fuel; intros vdb scMap needed; simpl; autoscaler_steps; auto using autoscaler_next.
Qed.

Lemma autoscaler_decision vas vdb tot : only autoscaler_call (scale_decision vas vdb tot).
Proof.
  unfold scale_decision, considerAddingSubclusters, calcNextSubclusterSize. autoscaler_steps;
    auto using autoscaler_next, autoscaler_adding.
Qed.

Lemma autoscaler_now : only autoscaler_call Now.
Proof. intros t. exists []. by split. Qed.

Lemma autoscaler_update s : only autoscaler_call (update_vdb_attempt s).
Proof. unfold update_vdb_attempt. autoscaler_steps. Qed.

(** The controller reads and updates only the autoscaler, its status and the
    VerticaDB, and its events have the reasons declared for it: pods, statefulsets
    and commands are left to the VerticaDB controller. *)
Theorem autoscaler_effects req : only autoscaler_call (Reconcile req).
Proof.
  assert (∀ f, only autoscaler_call (vasStatusUpdater req f)) as Hst by (intros f; unfold vasStatusUpdater; autoscaler_steps).
  assert (∀ acts v r, Forall (λ act : actor, ∀ v, only autoscaler_call (act v)) acts → only autoscaler_call (run_actors acts v r))
    as Hrun.
  { intros acts v r Hall. revert v r. induction Hall as [|act acts Hact _ IH]; intros v r; simpl; autoscaler_steps; auto. }
  unfold Reconcile. apply only_bind; [autoscaler_steps|]. intros [vas|[]]; try apply only_ret. apply Hrun. unfold actors.
  repeat (apply Forall_cons; split); [..|by apply Forall_nil]; intros v; unfold reading, VDBVerifyReconciler_Reconcile,
    TargetSizeInitializerReconciler_Reconcile, initTargetSize, initTargetSize_attempt, setTargetSizeInitializedCondition,
    UpdateCondition, RefreshCurrentSizeReconciler_Reconcile, vasstatus_RefreshCurrentSize, RefreshSelectorReconciler_Reconcile,
    SetSelector, SubclusterResizeReconciler_Reconcile, resizeSubcluster, resize_attempt, update_vdb_attempt, report_scaling,
    ReportScalingOperation, SubclusterScaleReconciler_Reconcile, scaleSubcluster, scale_attempt; autoscaler_steps;
    auto using autoscaler_fetchVDB, autoscaler_decision, autoscaler_now, autoscaler_update.
  unfold report_scaling, ReportScalingOperation. autoscaler_steps. auto.
Qed.

End calls.
