(* ===== verification/Converge.v ===== *)
(** * The autoscaler reaches its target

    With an API server that accepts every write with the current resource version
    and no other writers, and where there is something to scale ([scalable]), one
    iteration of the autoscaler brings the VerticaDB to a state that fits the target,
    and the next one leaves it alone.  The server checks resource versions, so this
    also shows that the controller never conflicts with itself. *)

From stdpp Require Import base gmap strings pretty numbers list.
From S2P Require Import Prelude GoStrings K8s Types Webhook KObjects Effects Events Labels Autoscaler AutoscalerSpec.

(** ** The server *)

(** [vdb_at] and [vas_at] are the stored objects.  A write with the current
    resource version is accepted; the status has an endpoint of its own. *)
Class Server `{E : Env} (req : NamespacedName) : Type := {
  vdb_at : Trace → VerticaDB;
  vas_at : Trace → VerticaAutoscaler;
  sv_attempts : 0 < env_retry_steps;
  sv_get_vas t : env_get_vas t req = Ok (vas_at t);
  sv_get_vdb t : env_get_vdb t (vdb_name_of (vas_at t)) = Ok (vdb_at t);
  sv_update_vdb t v : vdb_ResourceVersion v = vdb_ResourceVersion (vdb_at t) →
    ∃ v', env_update_vdb t v = Ok v' ∧ vdb_at (AUpdateVdb v :: t) = v' ∧ vdb_Spec v' = vdb_Spec v;
  sv_update_vas t v : vas_ResourceVersion v = vas_ResourceVersion (vas_at t) →
    ∃ v', env_update_vas t v = Ok v' ∧ vas_at (AUpdateVas v :: t) = v' ∧ vas_Spec v' = vas_Spec v ∧
      vas_Namespace v' = vas_Namespace v ∧ vas_Name v' = vas_Name v;
  sv_update_status t v : vas_ResourceVersion v = vas_ResourceVersion (vas_at t) →
    ∃ v', env_update_vas_status t v = Ok v' ∧ vas_at (AUpdateVasStatus v :: t) = v' ∧
      vas_Spec v' = vas_Spec (vas_at t) ∧ vas_Namespace v' = vas_Namespace (vas_at t) ∧
      vas_Name v' = vas_Name (vas_at t);
  sv_vdb_kept a t : match a with AUpdateVdb _ | AUpdateVdbStatus _ => False | _ => True end →
    vdb_at (a :: t) = vdb_at t;
  sv_vas_kept a t : match a with AUpdateVas _ | AUpdateVasStatus _ => False | _ => True end →
    vas_at (a :: t) = vas_at t }.

(** ** What fits the target *)

(** The total is the target, or no whole subcluster can be removed or added *)
Definition fits_subclusters (vas : VerticaAutoscaler) (vdb : VerticaDB) : Prop :=
  let svc := vas_ServiceName (vas_Spec vas) in
  let scs := spec_Subclusters (vdb_Spec vdb) in
  let target := vas_TargetSize (vas_Spec vas) in
  (tot svc scs = target) ∨
  (target < tot svc scs ∧ ∃ sc, last (svc_members svc scs) = Some sc ∧ tot svc scs - sc_Size sc < target)%Z ∨
  (tot svc scs < target ∧ ∀ p, proto_of vas vdb = Some p → target < tot svc scs + sc_Size p)%Z.

Definition fits (vas : VerticaAutoscaler) (vdb : VerticaDB) : Prop :=
  (vas_ScalingGranularity (vas_Spec vas) = PodScalingGranularity →
   tot (vas_ServiceName (vas_Spec vas)) (spec_Subclusters (vdb_Spec vdb)) = vas_TargetSize (vas_Spec vas)) ∧
  (vas_ScalingGranularity (vas_Spec vas) = SubclusterScalingGranularity → fits_subclusters vas vdb).

(** What an iteration relies on: sizes in range, something to resize and, where a
    subcluster may be added, one to copy that is not empty *)
Definition scalable (vas : VerticaAutoscaler) (vdb : VerticaDB) : Prop :=
  let svc := vas_ServiceName (vas_Spec vas) in
  let scs := spec_Subclusters (vdb_Spec vdb) in
  vas_ok vas ∧ sizes_ok svc scs ∧
  vas_ScalingGranularity (vas_Spec vas) ∈ [PodScalingGranularity; SubclusterScalingGranularity] ∧
  (vas_ScalingGranularity (vas_Spec vas) = PodScalingGranularity → svc_members svc scs ≠ []) ∧
  (vas_ScalingGranularity (vas_Spec vas) = SubclusterScalingGranularity →
   ∀ p, proto_of vas vdb = Some p → sc_Size p = 0%Z → fits_subclusters vas vdb).

(** ** One decision of the scale actor *)

Lemma tot_members svc l : tot svc l = sum_sizes (svc_members svc l).
Proof. done. Qed.

Lemma svc_members_nonneg svc l : Forall (λ sc, 0 ≤ sc_Size sc)%Z l → Forall (λ sc, 0 ≤ sc_Size sc)%Z (svc_members svc l).
Proof.
  rewrite !Forall_forall. intros Hl sc Hsc. apply list_elem_of_filter in Hsc as [_ Hsc]. by apply Hl.
Qed.

(** Shrinking keeps the sizes in range. *)
Lemma shrunk_sizes svc target l k : sizes_ok svc l → shrunk svc target l k → sizes_ok svc k.
Proof.
  intros [Hs Ht] (Hsub & _ & [m Hm] & _ & _). split.
  { apply Forall_forall. intros sc Hsc. apply (proj1 (Forall_forall _ _) Hs). by eapply elem_of_submseteq, sublist_submseteq. }
  rewrite tot_members in *. rewrite Hm, sum_sizes_app in Ht.
  assert (0 ≤ sum_sizes m)%Z; [|lia]. apply sum_sizes_nonneg.
  pose proof (svc_members_nonneg svc l Hs) as Hn. rewrite Hm in Hn. by apply Forall_app in Hn as [_ Hn].
Qed.

Lemma shrunk_fits vas vdb l :
  Forall (λ sc, 0 ≤ sc_Size sc)%Z (spec_Subclusters (vdb_Spec vdb)) → (0 ≤ vas_TargetSize (vas_Spec vas))%Z →
  shrunk (vas_ServiceName (vas_Spec vas)) (vas_TargetSize (vas_Spec vas)) l (spec_Subclusters (vdb_Spec vdb)) →
  fits_subclusters vas vdb.
Proof.
  intros Hs H0 (_ & _ & _ & Hle & Hlast). unfold fits_subclusters.
  set (scs := spec_Subclusters _) in *. set (svc := vas_ServiceName _) in *.
  destruct (decide (tot svc scs = vas_TargetSize (vas_Spec vas))) as [Heq|Hne]; [by left|right; left].
  split; [lia|]. destruct (last (svc_members svc scs)) as [sc|] eqn:Hl.
  - exists sc. split; [done|]. destruct (Hlast sc eq_refl); lia.
  - apply last_None in Hl. rewrite tot_members, Hl in *. simpl in *. lia.
Qed.

(** Nothing is removed when the last subcluster is too large. *)
Lemma remove_loop_id svc n rl :
  (∀ sc, last (svc_members svc (rev rl)) = Some sc → n < sc_Size sc)%Z → remove_loop svc n rl [] = rev rl.
Proof.
  induction rl as [|sc rl IH]; intros Hl; [done|]. cbn [remove_loop rev] in *. rewrite svc_members_snoc in Hl.
  case_bool_decide as Hsvc.
  - rewrite last_snoc in Hl. specialize (Hl sc eq_refl). by rewrite (bool_decide_eq_false_2 (sc_Size sc ≤ n)%Z), andb_false_r by lia.
  - rewrite remove_loop_kept. by rewrite IH.
Qed.

Lemma sublist_same_length {A} (l k : list A) : l `sublist_of` k → length l = length k → l = k.
Proof.
  induction 1 as [|x l k Hs IH|x l k Hs IH]; simpl; intros Hlen; [done|f_equal; apply IH; lia|].
  apply sublist_length in Hs. lia.
Qed.

Lemma proto_of_appends vas vdb p names :
  proto_of vas vdb = Some p →
  ∃ q, proto_of vas (set_Subclusters vdb (spec_Subclusters (vdb_Spec vdb) ++ (set_sc_Name p <$> names))) = Some q ∧ like q p.
Proof.
  revert vdb p. induction names as [|n names IH]; intros vdb p Hp.
  { simpl. rewrite app_nil_r, set_Subclusters_id. by exists p. }
  destruct (proto_of_append vas vdb p n Hp) as (q & Hq & Hl). destruct (IH _ _ Hq) as (q' & Hq' & Hl').
  exists q'. split; [|intros m; by rewrite Hl'].
  assert (set_sc_Name q <$> names = set_sc_Name p <$> names) as Hfm by (apply list_fmap_ext; intros i m _; apply Hl).
  rewrite Hfm in Hq'. rewrite <- Hq'. simpl. by rewrite <- (assoc_L (++)).
Qed.

Lemma sizes_ok_app svc l k :
  sizes_ok svc l → Forall (λ sc, 0 ≤ sc_Size sc)%Z k → (tot svc (l ++ k) < 2 ^ 31)%Z → sizes_ok svc (l ++ k).
Proof. intros [Hl _] Hk Ht. split; [by apply Forall_app_2|done]. Qed.

Section decision.
Context `{E : Env} (vas : VerticaAutoscaler) (cur : VerticaDB).

#[local] Abbreviation svc := (vas_ServiceName (vas_Spec vas)).
#[local] Abbreviation scs := (spec_Subclusters (vdb_Spec cur)).
#[local] Abbreviation target := (vas_TargetSize (vas_Spec vas)).

(** What a decision [(v, b)] about [cur] has to satisfy *)
Definition decided (v : VerticaDB) (b : bool) : Prop :=
  v = set_Subclusters cur (spec_Subclusters (vdb_Spec v)) ∧ (b = false → v = cur) ∧
  (fits_subclusters vas cur → b = false) ∧ fits_subclusters vas v ∧ sizes_ok svc (spec_Subclusters (vdb_Spec v)).

Hypothesis Hok : vas_ok vas.
Hypothesis Hsizes : sizes_ok svc scs.

Lemma decided_remove :
  (target < tot svc scs)%Z →
  let scs' := remove_loop svc (tot svc scs - target) (rev scs) [] in
  decided (set_Subclusters cur scs') (negb (bool_decide (length scs = length scs'))).
Proof.
  intros Hlt scs'. destruct Hok as [Ht _]. pose proof Hsizes as [Hs Hr].
  assert (shrunk svc target scs scs') as Hsh.
  { unfold scs'. rewrite <- (rev_involutive scs) at 1. apply remove_loop_spec; [by apply Forall_rev|lia|lia|]. rewrite tot_rev. lia. }
  pose proof (shrunk_sizes _ _ _ _ Hsizes Hsh) as Hs'. unfold decided. simpl. split_and!; [done|..|done].
  - intros Hb%negb_false_iff%bool_decide_eq_true. destruct Hsh as (Hsub & _).
    apply sublist_same_length in Hsub; [|done]. rewrite Hsub. apply set_Subclusters_id.
  - intros Hfit. apply negb_false_iff, bool_decide_eq_true_2. f_equal. unfold scs'. symmetry.
    rewrite <- (rev_involutive scs) at 3. apply remove_loop_id. rewrite rev_involutive. intros sc Hl.
    destruct Hfit as [|[(_ & sc' & Hl' & Hsz)|]]; [lia| |lia]. rewrite Hl in Hl'. injection Hl' as <-. lia.
  - apply (shrunk_fits _ _ scs); [apply Hs'|lia|done].
Qed.

Lemma decided_add p names :
  (tot svc scs < target)%Z → proto_of vas cur = Some p → (0 < sc_Size p)%Z →
  (Z.of_nat (length names) * sc_Size p ≤ target - tot svc scs < (Z.of_nat (length names) + 1) * sc_Size p)%Z →
  let scs' := scs ++ (set_sc_Name p <$> names) in
  decided (set_Subclusters cur scs') (negb (bool_decide (length scs = length scs'))).
Proof.
  intros Hlt Hp Hpos Hb scs'. destruct Hok as (Ht & Hsvc & _). pose proof Hsizes as [Hs Hr].
  assert (tot svc scs' = tot svc scs + Z.of_nat (length names) * sc_Size p)%Z as Htot.
  { unfold scs'. rewrite tot_app, tot_protos; [done|done|]. by apply (proto_of_service vas cur). }
  assert (bool_decide (length scs = length scs') = bool_decide (names = [])) as Hlen.
  { apply bool_decide_ext. unfold scs'. rewrite length_app, length_fmap. destruct names; simpl; split; (done || lia). }
  unfold decided. simpl. rewrite Hlen. split_and!; [done|..].
  - intros ->%negb_false_iff%bool_decide_eq_true. unfold scs'. simpl. by rewrite app_nil_r, set_Subclusters_id.
  - intros Hfit. apply negb_false_iff, bool_decide_eq_true_2. destruct names as [|n names]; [done|]. exfalso.
    destruct Hfit as [|[|(_ & Hf)]]; [lia|lia|]. specialize (Hf p Hp). simpl length in Hb. nia.
  - unfold fits_subclusters. simpl. rewrite Htot.
    destruct (decide (tot svc scs + Z.of_nat (length names) * sc_Size p = target)%Z) as [|Hne]; [by left|right; right].
    split; [lia|]. intros q Hq. destruct (proto_of_appends vas cur p names Hp) as (q' & Hq' & Hl).
    fold scs' in Hq'. rewrite Hq in Hq'. injection Hq' as <-. rewrite (like_size _ _ Hl). lia.
  - apply sizes_ok_app; [done| |fold scs'; lia]. apply Forall_fmap, Forall_forall. intros n _. simpl. lia.
Qed.

Lemma decision_fits t :
  (∀ p, proto_of vas cur = Some p → sc_Size p = 0%Z → fits_subclusters vas cur) →
  wp (scale_decision vas cur (tot svc scs)) t (λ o t',
    (t' = t ∨ t' = AEvent NoSubclusterTemplate :: t) ∧ ∃ v b, o = Some (v, b) ∧ decided v b).
Proof.
  intros Hproto. pose proof Hok as (Ht & _). pose proof Hsizes as [Hs Hr]. pose proof (tot_nonneg svc scs Hs).
  unfold scale_decision. rewrite (wrap32_small (_ - _)) by (unfold int32_range; lia).
  case_bool_decide as Hneg; [|case_bool_decide as Hpos].
  - wp_step. split; [by left|]. eexists _, _. split; [done|].
    replace (wrap32 ((target - tot svc scs) * -1)) with (tot svc scs - target)%Z
      by (rewrite wrap32_small by (unfold int32_range; lia); lia).
    apply decided_remove. lia.
  - unfold considerAddingSubclusters, calcNextSubclusterSize, wp, mbind, M_bind. rewrite calcNextSubcluster_eq.
    destruct (proto_of vas cur) as [p|] eqn:Hp; simpl.
    + assert (0 < sc_Size p)%Z as Hsz.
      { pose proof (proto_of_nonneg _ _ _ Hs Hp). destruct (decide (sc_Size p = 0)%Z) as [Hz|]; [|lia].
        destruct (Hproto p eq_refl Hz) as [|[|(_ & Hf)]]; [lia|lia|]. specialize (Hf p Hp). lia. }
      destruct (adding_loop_spec vas p (Z.to_nat (target - tot svc scs)) cur (GenSubclusterMap cur)
        (target - tot svc scs) t) as (names & Heq & _ & _ & Hb); [by exists p|done|lia|done|].
      rewrite Heq. simpl. split; [by left|]. eexists _, _. split; [done|]. apply decided_add; (done || lia).
    + split; [by right|]. exists cur, false. split; [done|]. unfold decided. rewrite set_Subclusters_id.
      split_and!; [done..| |done]. right; right. split; [lia|]. by rewrite Hp.
  - wp_step. split; [by left|]. exists cur, false. split; [done|]. unfold decided. rewrite set_Subclusters_id.
    split_and!; [done..| |done]. left. lia.
Qed.

End decision.

(** ** Iterations *)

Definition vdb_updates (t : Trace) : list VerticaDB :=
  omap (λ a, match a with AUpdateVdb v => Some v | _ => None end) t.

(** The same specification under the same name *)
Definition same_spec (v w : VerticaAutoscaler) : Prop :=
  vas_Spec w = vas_Spec v ∧ vas_Namespace w = vas_Namespace v ∧ vas_Name w = vas_Name v.

#[global] Instance same_spec_equiv : Equivalence same_spec.
Proof.
  unfold same_spec. split; [by intros v|intros v w (H1 & H2 & H3)|intros u v w (H1 & H2 & H3) (H4 & H5 & H6)];
    split_and!; congruence.
Qed.

Lemma same_spec_name v w : same_spec v w → vdb_name_of w = vdb_name_of v.
Proof. intros (H1 & H2 & _). unfold vdb_name_of. by rewrite H1, H2. Qed.

Lemma scalable_spec v w d : same_spec v w → scalable v d → scalable w d.
Proof. destruct v, w. intros (H1 & _). simpl in H1. subst. done. Qed.

Lemma fits_spec v w d : same_spec v w → fits v d → fits w d.
Proof. destruct v, w. intros (H1 & _). simpl in H1. subst. done. Qed.

Lemma scalable_target v d :
  scalable v d → scalable (set_vas_TargetSize v (tot (vas_ServiceName (vas_Spec v)) (spec_Subclusters (vdb_Spec d)))) d.
Proof.
  intros ((_ & Hsvc & Ht) & [Hs Hr] & Hg & Hm & _). pose proof (tot_nonneg (vas_ServiceName (vas_Spec v)) _ Hs).
  destruct v as [? ? ? [] ?]. simpl in *. unfold scalable. simpl.
  split; [by split_and!|]. split; [done|]. split; [done|]. split; [done|]. intros _ p _ _. by left.
Qed.

Lemma sum_sizes_last l sc : Forall (λ sc, 0 ≤ sc_Size sc)%Z l → last l = Some sc → (sc_Size sc ≤ sum_sizes l)%Z.
Proof.
  intros Hl (k & ->)%last_Some. apply Forall_app in Hl as [Hk _]. rewrite sum_sizes_app. simpl.
  pose proof (sum_sizes_nonneg k Hk). lia.
Qed.

Lemma fits_zero v d :
  scalable v d → vas_TargetSize (vas_Spec v) = 0%Z → fits v d →
  tot (vas_ServiceName (vas_Spec v)) (spec_Subclusters (vdb_Spec d)) = 0%Z.
Proof.
  intros (_ & [Hs _] & Hg & _ & _) Hz [Hpod Hsub]. pose proof (tot_nonneg (vas_ServiceName (vas_Spec v)) _ Hs) as H0.
  apply elem_of_cons in Hg as [Hg|Hg]; [by rewrite (Hpod Hg)|]. apply list_elem_of_singleton in Hg.
  destruct (Hsub Hg) as [Hf|[(_ & sc & Hl & Hf)|[Hf _]]]; [congruence| |lia].
  pose proof (sum_sizes_last _ _ (svc_members_nonneg _ _ Hs) Hl). unfold tot in *. lia.
Qed.

Lemma wp_retry_done `{E : Env} {S} (fn : S → M (S * option go_error)) s t (Q : S * option go_error → Trace → Prop) :
  0 < env_retry_steps → wp (fn s) t (λ r t', snd r = None ∧ Q r t') → wp (RetryOnConflict fn s) t Q.
Proof.
  unfold RetryOnConflict. destruct env_retry_steps as [|[|n]]; [lia| |]; intros _ Hfn.
  - eapply wp_mono; [|exact Hfn]. by intros r t' [_ HQ].
  - simpl. wp_step. eapply wp_mono; [|exact Hfn]. intros [s' err] t' [He HQ]. simpl in He. by subst err.
Qed.

Lemma resized_members svc l k : Forall2 (same_but_size svc) l k → length (svc_members svc k) = length (svc_members svc l).
Proof.
  unfold svc_members. induction 1 as [|a b l k [Hab _] _ IH]; [done|]. rewrite !filter_cons.
  assert (GetServiceName b = GetServiceName a) as -> by (rewrite Hab; by destruct a).
  case_decide; simpl; by rewrite ?IH.
Qed.

Section server.
Context `{E : Env} (req : NamespacedName) `{S : !Server req}.

(** From [t] to [t'] the VerticaDB was not written and the autoscaler at most in its
    status. *)
Definition still (t t' : Trace) : Prop :=
  vdb_at t' = vdb_at t ∧ same_spec (vas_at t) (vas_at t') ∧ vdb_updates t' = vdb_updates t.

#[local] Instance still_preorder : PreOrder still.
Proof using.
  split; [by intros t|]. intros t1 t2 t3 (H1 & H2 & H3) (H4 & H5 & H6).
  split_and!; [congruence|by etrans|congruence].
Qed.

Definition reads (a : action) : Prop := match a with AGetVdb _ | AGetVas _ | AEvent _ => True | _ => False end.

Lemma still_read a t : reads a → still t (a :: t).
Proof using.
  intros Ha. split_and!.
  - apply sv_vdb_kept. by destruct a.
  - by rewrite sv_vas_kept by by destruct a.
  - by destruct a.
Qed.

Lemma server_fetchVDB v d t :
  same_spec (vas_at t) v →
  wp (fetchVDB v d) t (λ r t', r = (vdb_at t, (no_requeue, None)) ∧ t' = AGetVdb (vdb_name_of v) :: t).
Proof using.
  intros Hv. unfold fetchVDB. wp_calls. wp_step. wp_step. rewrite (same_spec_name _ _ Hv), sv_get_vdb. by wp_step.
Qed.

(** Status updates go through and change nothing else. *)
Lemma server_status f t :
  (∀ v, vas_ResourceVersion (f v) = vas_ResourceVersion v) →
  wp (vasStatusUpdater req f) t (λ e t', e = None ∧ still t t').
Proof using.
  intros Hf. unfold vasStatusUpdater. wp_step. apply wp_retry_done; [apply sv_attempts|].
  wp_calls. wp_step. wp_step. rewrite sv_get_vas. simpl. wp_step. wp_step.
  pose proof (still_read (AGetVas req) t I) as (H1 & H2 & H3).
  assert (vas_at (AGetVas req :: t) = vas_at t) as Hat by by apply sv_vas_kept.
  destruct (sv_update_status (AGetVas req :: t) (f (vas_at t))) as (v' & -> & Hv' & Hs & Hn & Hm).
  { by rewrite Hf, Hat. }
  wp_step. split; [done|]. wp_step. split; [done|]. split_and!.
  - by rewrite sv_vdb_kept.
  - rewrite Hv'. split_and!; congruence.
  - done.
Qed.

Lemma server_report v d r b t :
  r = no_requeue → wp (report_scaling v req (MkScale d r b) None) t (λ r t', r = (no_requeue, None) ∧ still t t').
Proof using.
  intros ->. unfold report_scaling. cbn [ss_res ss_done ss_Vdb]. change (IsReconcileAborted no_requeue None) with false. cbv iota.
  destruct b; [|by wp_step]. destruct (FindSubclusterForServiceName _ _) as [l n].
  wp_step. eapply wp_mono; [|apply server_status; done]. intros e t' [-> Ht]. by wp_step.
Qed.

(** An accepted update of the VerticaDB that fetched object [d] came from *)
Lemma server_update d l r t t1 :
  d = vdb_at t → still t t1 →
  wp (update_vdb_attempt (MkScale (set_Subclusters d l) r false)) t1 (λ x t', snd x = None ∧
    ∃ d', fst x = MkScale d' r true ∧ vdb_at t' = d' ∧ vdb_Spec d' = vdb_Spec (set_Subclusters d l) ∧
      same_spec (vas_at t) (vas_at t')).
Proof using.
  intros -> (H1 & H2 & H3). unfold update_vdb_attempt. wp_calls. wp_step. wp_step. cbn [ss_Vdb].
  destruct (sv_update_vdb t1 (set_Subclusters (vdb_at t) l)) as (d' & -> & Hd & Hs); [by rewrite H1|].
  wp_step. split; [done|]. exists d'. cbn [ss_res]. split_and!; [done|done|done|]. by rewrite sv_vas_kept.
Qed.

(** Pod granularity *)
Lemma server_resize v t :
  same_spec (vas_at t) v → scalable v (vdb_at t) →
  wp (SubclusterResizeReconciler_Reconcile v req) t (λ r t', r = (no_requeue, None) ∧
    same_spec (vas_at t) (vas_at t') ∧ scalable v (vdb_at t') ∧
    (vas_ScalingGranularity (vas_Spec v) = PodScalingGranularity → fits v (vdb_at t')) ∧
    (vas_ScalingGranularity (vas_Spec v) ≠ PodScalingGranularity ∨ fits v (vdb_at t) → still t t')).
Proof using.
  intros Hv Hsc. unfold SubclusterResizeReconciler_Reconcile.
  destruct (decide (vas_ScalingGranularity (vas_Spec v) = PodScalingGranularity)) as [Hg|Hg].
  2: { rewrite bool_decide_eq_false_2 by done. apply wp_ret. split_and!; [done|reflexivity|done|by intros|intros; reflexivity]. }
  rewrite bool_decide_eq_true_2 by done. simpl negb. cbv iota.
  assert (vas_ScalingGranularity (vas_Spec v) ≠ SubclusterScalingGranularity) as Hg' by (rewrite Hg; discriminate).
  pose proof Hsc as (Hok & Hsz & Hgr & Hm & _). specialize (Hm Hg).
  unfold resizeSubcluster. wp_step. apply wp_retry_done; [apply sv_attempts|].
  unfold resize_attempt. wp_step. eapply wp_mono; [|by apply server_fetchVDB]. intros r t1 [-> Ht1].
  assert (still t t1) as Hst by (subst t1; by apply still_read). cbn [ss_Vdb ss_res ss_done].
  change (IsReconcileAborted no_requeue None) with false. cbv iota zeta beta.
  rewrite (FindSubclusterForServiceName_tot _ _ Hsz). set (svc := vas_ServiceName (vas_Spec v)) in *.
  set (scs := spec_Subclusters (vdb_Spec (vdb_at t))) in *.
  rewrite bool_decide_eq_false_2 by (by intros ?%nil_length_inv). pose proof Hok as (Htg & _). pose proof Hsz as [Hs Hr].
  pose proof (tot_nonneg svc scs Hs). rewrite (wrap32_small (_ - _)) by (unfold int32_range; lia).
  case_bool_decide as Hd.
  - wp_step. split; [done|]. eapply wp_mono; [|by apply server_report]. intros r t' [-> Ht'].
    assert (still t t') as Hst' by by etrans. destruct Hst' as (H1 & H2 & H3). rewrite H1.
    assert (tot svc scs = vas_TargetSize (vas_Spec v)) as Heq by lia.
    split_and!; [done|done|done| |done]. intros _. split; [done|]. by intros ?.
  - eapply wp_mono; [|by apply (server_update _ _ _ t)]. intros x t2 (Hx & d' & Hx' & Hd' & Hs' & Hk).
    split; [done|]. destruct x as [x err]. simpl in Hx, Hx'. subst x err.
    eapply wp_mono; [|by apply server_report]. intros r t' [-> (H1 & H2 & H3)].
    assert (resized svc (vas_TargetSize (vas_Spec v)) scs (spec_Subclusters (vdb_Spec d'))) as (R1 & R2 & R3).
    { rewrite Hs'. simpl. pose proof (resize_correct svc (vas_TargetSize (vas_Spec v)) scs) as Hrc.
      rewrite (wrap32_small (_ - _)) in Hrc by (unfold int32_range; lia). apply Hrc; [done|done|lia|done]. }
    rewrite H1, Hd'. split; [done|]. split; [by etrans|]. split; [|split].
    + unfold scalable. fold svc. split_and!; [done|by split; [|rewrite R3; lia]|done| |by intros ?].
      intros _ Hnil. apply resized_members in R1. rewrite Hnil in R1. by destruct (svc_members svc scs).
    + intros _. split; [done|by intros ?].
    + intros [?|[Hf _]]; [done|]. specialize (Hf Hg). fold svc scs in Hf. lia.
Qed.

(** Subcluster granularity *)
Lemma server_scale v t :
  same_spec (vas_at t) v → scalable v (vdb_at t) →
  wp (SubclusterScaleReconciler_Reconcile v req) t (λ r t', r = Some (no_requeue, None) ∧
    same_spec (vas_at t) (vas_at t') ∧ scalable v (vdb_at t') ∧
    (vas_ScalingGranularity (vas_Spec v) = SubclusterScalingGranularity → fits v (vdb_at t')) ∧
    (vas_ScalingGranularity (vas_Spec v) ≠ SubclusterScalingGranularity ∨ fits v (vdb_at t) → still t t')).
Proof using.
  intros Hv Hsc. unfold SubclusterScaleReconciler_Reconcile.
  destruct (decide (vas_ScalingGranularity (vas_Spec v) = SubclusterScalingGranularity)) as [Hg|Hg].
  2: { rewrite bool_decide_eq_false_2 by done. apply wp_ret. split_and!; [done|reflexivity|done|by intros|intros; reflexivity]. }
  rewrite bool_decide_eq_true_2 by done. simpl negb. cbv iota.
  assert (vas_ScalingGranularity (vas_Spec v) ≠ PodScalingGranularity) as Hg' by (rewrite Hg; discriminate).
  pose proof Hsc as (Hok & Hsz & Hgr & _ & Hp). specialize (Hp Hg).
  unfold scaleSubcluster. wp_step. apply wp_retry_done; [apply sv_attempts|].
  unfold scale_attempt. wp_step. eapply wp_mono; [|by apply server_fetchVDB]. intros r t1 [-> Ht1].
  assert (still t t1) as Hst by (subst t1; by apply still_read). cbn [ss_Vdb ss_res ss_done].
  change (IsReconcileAborted no_requeue None) with false. cbv iota zeta beta.
  rewrite (FindSubclusterForServiceName_tot _ _ Hsz). wp_step.
  eapply wp_mono; [|by apply decision_fits]. intros o t2 (Ht2 & d & b & -> & Hshape & Hsame & Hstop & Hfit & Hsz').
  assert (still t1 t2) as Hst2. { destruct Ht2 as [->| ->]; [reflexivity|by apply still_read]. }
  assert (∀ w, vdb_Spec w = vdb_Spec d → scalable v w ∧ fits v w) as Hdone.
  { intros w Hw. assert (fits_subclusters v w) as Hfw.
    { revert Hfit. unfold fits_subclusters, proto_of. by rewrite Hw. }
    unfold scalable, fits. rewrite Hw. split_and!; [done|done|done|by intros ?|by intros|by intros ?|done]. }
  destruct b; simpl negb; cbv iota.
  - wp_step. rewrite Hshape. eapply wp_mono; [|apply (server_update _ _ _ t); [done|by etrans]].
    intros x t3 (Hx & d' & Hx' & Hd' & Hs' & Hk). destruct x as [x err]. simpl in Hx, Hx'. subst x err.
    wp_step. split; [done|]. wp_step. eapply wp_mono; [|by apply server_report]. intros r t' [-> (H1 & H2 & H3)].
    wp_step. rewrite H1, Hd'. rewrite <- Hshape in Hs'. destruct (Hdone d' Hs'). split; [done|]. split; [by etrans|].
    split_and!; [done|done|]. intros [?|[_ Hf]]; [done|]. by specialize (Hstop (Hf Hg)).
  - apply wp_ret. split; [done|]. wp_step. eapply wp_mono; [|by apply server_report].
    intros r t' [-> Ht']. wp_step. assert (still t t') as Hall by (etrans; [exact Hst|]; by etrans).
    pose proof Hall as (H1 & H2 & H3). rewrite H1, <- (Hsame eq_refl). by destruct (Hdone d eq_refl).
Qed.

(** The initial target size is the current one. *)
Lemma server_target v t :
  v = vas_at t → scalable v (vdb_at t) →
  wp (TargetSizeInitializerReconciler_Reconcile v req) t (λ r t', snd r = (no_requeue, None) ∧
    same_spec (vas_at t') (fst r) ∧ vdb_at t' = vdb_at t ∧ vdb_updates t' = vdb_updates t ∧
    scalable (fst r) (vdb_at t) ∧ (fits v (vdb_at t) → same_spec v (fst r)) ∧
    (vas_TargetSize (vas_Spec v) ≠ 0%Z → same_spec v (fst r))).
Proof using.
  intros Hv Hsc. unfold TargetSizeInitializerReconciler_Reconcile.
  destruct (target_size_initialized v). { apply wp_ret. subst v. split_and!; try done; reflexivity. }
  wp_step. eapply (wp_mono _ _ (λ r t', snd r = (no_requeue, None) ∧
    same_spec (vas_at t') (fst r) ∧ vdb_at t' = vdb_at t ∧ vdb_updates t' = vdb_updates t ∧
    scalable (fst r) (vdb_at t) ∧ (fits v (vdb_at t) → same_spec v (fst r)) ∧
    (vas_TargetSize (vas_Spec v) ≠ 0%Z → same_spec v (fst r)))).
  { intros [v' [res err]] t1 (Hr & H1 & H2 & H3 & H4). simpl in Hr. injection Hr as -> ->.
    change (IsReconcileAborted no_requeue None) with false. cbv iota. unfold setTargetSizeInitializedCondition, UpdateCondition.
    wp_step. wp_step. unfold Now, wp at 1. simpl. eapply wp_mono; [|apply server_status]; [|done].
    intros e t2 [-> (H5 & H6 & H7)]. wp_step. simpl in *. split; [done|]. split; [by etrans; [symmetry|]|].
    split_and!; [congruence|congruence|apply H4|apply H4|apply H4]. }
  case_bool_decide as Hz. 2: { apply wp_ret. subst v. split_and!; try done; reflexivity. }
  unfold initTargetSize. wp_step. apply wp_retry_done; [apply sv_attempts|]. unfold initTargetSize_attempt.
  wp_step. eapply wp_mono; [|apply server_fetchVDB; by subst v]. intros r t1 [-> Ht1].
  assert (still t t1) as Hst by (subst t1; by apply still_read).
  change (IsReconcileAborted no_requeue None) with false. cbv iota zeta beta.
  pose proof Hsc as (Hok & Hsz & Hgr & Hm & Hp). rewrite (FindSubclusterForServiceName_tot _ _ Hsz).
  pose proof Hst as (H1 & H2 & H3). case_bool_decide as Heq; simpl negb; cbv iota.
  { apply wp_ret. split; [done|]. apply wp_ret. simpl. subst v. split_and!; try done; reflexivity. }
  wp_calls. wp_step. wp_step. assert (vas_at t1 = vas_at t) as Hat by (subst t1; by apply sv_vas_kept).
  destruct (sv_update_vas t1 (set_vas_TargetSize v (tot (vas_ServiceName (vas_Spec v)) (spec_Subclusters (vdb_Spec (vdb_at t))))))
    as (v' & -> & Hv' & Hs' & Hn' & Hm'); [by rewrite Hat, Hv|].
  wp_step. split; [done|]. wp_step. cbn [fst snd]. 
  split; [done|]. split; [by rewrite Hv'|]. split; [by rewrite sv_vdb_kept|]. split; [done|]. split_and!.
  - apply (scalable_spec (set_vas_TargetSize v (tot (vas_ServiceName (vas_Spec v)) (spec_Subclusters (vdb_Spec (vdb_at t))))));
      [done|]. by apply scalable_target.
  - intros Hf. exfalso. apply Heq. rewrite Hz. symmetry. by apply fits_zero.
  - done.
Qed.

Lemma server_refresh v t :
  same_spec (vas_at t) v →
  wp (RefreshCurrentSizeReconciler_Reconcile v req) t (λ r t', r = (no_requeue, None) ∧ still t t').
Proof using.
  intros Hv. unfold RefreshCurrentSizeReconciler_Reconcile. wp_step.
  eapply wp_mono; [|by apply server_fetchVDB]. intros r t1 [-> Ht1].
  assert (still t t1) as Hst by (subst t1; by apply still_read).
  change (IsReconcileAborted no_requeue None) with false. cbv iota zeta beta. destruct (FindSubclusterForServiceName _ _).
  wp_step. eapply wp_mono; [|by apply server_status]. intros e t' [-> Ht']. wp_step. split; [done|by etrans].
Qed.

(** An actor that succeeds hands over to the next one. *)
Lemma wp_run_cons act acts v last t (Q : option (Result * option go_error) → Trace → Prop) :
  wp (act v) t (λ r t', ∃ v', r = (v', Some (no_requeue, None)) ∧ wp (run_actors acts v' (no_requeue, None)) t' Q) →
  wp (run_actors (act :: acts) v last) t Q.
Proof using. intros Ha. cbn [run_actors]. wp_step. eapply wp_mono; [|exact Ha]. by intros r t' (v' & -> & Hr). Qed.

Lemma wp_reading (act : VerticaAutoscaler → M (Result * option go_error)) acts v last t
    (Q : option (Result * option go_error) → Trace → Prop) :
  wp (act v) t (λ r t', r = (no_requeue, None) ∧ wp (run_actors acts v (no_requeue, None)) t' Q) →
  wp (run_actors (reading act :: acts) v last) t Q.
Proof using.
  intros Ha. apply wp_run_cons. unfold reading. wp_step. eapply wp_mono; [|exact Ha].
  intros r t' [-> Hr]. wp_step. by exists v.
Qed.

(** One iteration *)
Lemma server_Reconcile t :
  scalable (vas_at t) (vdb_at t) →
  wp (Reconcile req) t (λ o t', o = Some (no_requeue, None) ∧
    scalable (vas_at t') (vdb_at t') ∧ fits (vas_at t') (vdb_at t') ∧
    (fits (vas_at t) (vdb_at t) → still t t') ∧
    (vas_TargetSize (vas_Spec (vas_at t)) ≠ 0%Z → same_spec (vas_at t) (vas_at t'))).
Proof using.
  intros Hsc. unfold Reconcile. wp_calls. wp_step. wp_step. rewrite sv_get_vas. set (v := vas_at t) in *.
  set (t0 := AGetVas req :: t). assert (vas_at t0 = v) as Hv0 by by apply sv_vas_kept.
  assert (vdb_at t0 = vdb_at t) as Hd0 by by apply sv_vdb_kept. unfold actors.
  apply wp_reading. unfold VDBVerifyReconciler_Reconcile. wp_step. eapply wp_mono; [|apply server_fetchVDB; by rewrite Hv0].
  intros r t1 [-> Ht1]. wp_step. split; [done|].
  assert (vas_at t1 = v) as Hv1 by (subst t1; rewrite <- Hv0; by apply sv_vas_kept).
  assert (vdb_at t1 = vdb_at t) as Hd1 by (subst t1; rewrite <- Hd0; by apply sv_vdb_kept).
  assert (vdb_updates t1 = vdb_updates t) as Hu1 by by subst t1. clear Ht1.
  apply wp_run_cons. wp_step. eapply wp_mono; [|apply server_target; [done|by rewrite Hd1]].
  intros [v' res] t2 (Hres & Hs2 & Hd2 & Hu2 & Hsc2 & Hfit2 & Htg2). simpl in Hres, Hs2, Hsc2, Hfit2, Htg2. subst res.
  rewrite Hd1 in *. wp_step. exists v'. split; [done|].
  apply wp_reading. eapply wp_mono; [|by apply server_refresh]. intros r t3 [-> (Hd3 & Hs3 & Hu3)]. split; [done|].
  apply (wp_reading (λ _, RefreshSelectorReconciler_Reconcile req)). unfold RefreshSelectorReconciler_Reconcile, SetSelector. wp_step.
  eapply wp_mono; [|by apply server_status]. intros e t4 [-> (Hd4 & Hs4 & Hu4)]. wp_step. split; [done|].
  assert (same_spec (vas_at t4) v') as Hv4 by (rewrite <- Hs4, <- Hs3; done).
  assert (vdb_at t4 = vdb_at t) as Hd by congruence.
  apply (wp_reading (λ v, SubclusterResizeReconciler_Reconcile v req)).
  eapply wp_mono; [|apply server_resize; [exact Hv4|by rewrite Hd]].
  intros r t5 (-> & Hs5 & Hsc5 & Hf5 & Hst5). split; [done|]. rewrite Hd in Hst5.
  assert (same_spec (vas_at t5) v') as Hv5 by (rewrite <- Hs5; done).
  apply wp_run_cons. wp_step. eapply wp_mono; [|apply server_scale; [exact Hv5|done]].
  intros r t6 (-> & Hs6 & Hsc6 & Hf6 & Hst6). wp_step. exists v'. split; [done|]. cbn [run_actors]. wp_step.
  assert (same_spec v' (vas_at t6)) as Hv6 by (symmetry; rewrite <- Hs6; done).
  assert (fits v' (vdb_at t6)) as Hfit.
  { destruct Hsc2 as (_ & _ & Hg & _). apply elem_of_cons in Hg as [Hg|Hg%list_elem_of_singleton]; [|by apply Hf6].
    assert (vas_ScalingGranularity (vas_Spec v') ≠ SubclusterScalingGranularity) as Hne by (rewrite Hg; discriminate).
    destruct (Hst6 (or_introl Hne)) as (-> & _ & _). by apply Hf5. }
  split; [done|]. split; [exact (scalable_spec _ _ _ Hv6 Hsc6)|]. split; [exact (fits_spec _ _ _ Hv6 Hfit)|]. split.
  - intros Hf. specialize (Hfit2 Hf). assert (fits v' (vdb_at t)) as Hf' by exact (fits_spec _ _ _ Hfit2 Hf).
    destruct (Hst5 (or_intror Hf')) as (H51 & H52 & H53). rewrite H51, Hd in Hst6.
    destruct (Hst6 (or_intror Hf')) as (H61 & H62 & H63). split_and!; [congruence| |congruence].
    by etrans.
  - intros Hne. etrans; [by apply Htg2|done].
Qed.

(** The trace after [n] iterations *)
Definition iterations (n : nat) (t : Trace) : Trace := Nat.iter n (λ t, snd (Reconcile req t)) t.

Lemma fits_forever n t :
  scalable (vas_at t) (vdb_at t) → fits (vas_at t) (vdb_at t) →
  still t (iterations n t) ∧ scalable (vas_at (iterations n t)) (vdb_at (iterations n t)) ∧
  fits (vas_at (iterations n t)) (vdb_at (iterations n t)).
Proof using.
  intros Hsc Hf. induction n as [|n (IH1 & IH2 & IH3)]; [by split_and!; [reflexivity|..]|]. cbn [iterations Nat.iter].
  fold (iterations n t). destruct (server_Reconcile (iterations n t) IH2) as (_ & H1 & H2 & H3 & _).
  split_and!; [|done|done]. etrans; [exact IH1|by apply H3].
Qed.

End server.

(** C12: the autoscaler converges, on a server that accepts every write with the
    current resource version and without other writers, from a [scalable] state:
    sizes and target are within 32 bits, the service has a name (which a usable
    template shares), with pod granularity the service has a subcluster, and with
    subcluster granularity the subcluster that would be copied is not empty (or the
    target is already met; with an empty one the loop that adds subclusters would
    not end, see [empty_subcluster_never_returns]).  Then one iteration succeeds and
    leaves a VerticaDB that fits the target (the exact number of pods, or as near as
    whole subclusters get), with the target of the user unless that was zero, and
    every later iteration succeeds too and does not write the VerticaDB again. *)
Theorem autoscaler_converges `{E : Env} req `{S : !Server req} t :
  scalable (vas_at t) (vdb_at t) →
  let t1 := snd (Reconcile req t) in
  fst (Reconcile req t) = Some (no_requeue, None) ∧ fits (vas_at t1) (vdb_at t1) ∧
  (vas_TargetSize (vas_Spec (vas_at t)) ≠ 0%Z →
   vas_TargetSize (vas_Spec (vas_at t1)) = vas_TargetSize (vas_Spec (vas_at t))) ∧
  ∀ n, still req t1 (iterations req n t1) ∧ fst (Reconcile req (iterations req n t1)) = Some (no_requeue, None).
Proof.
  intros Hsc t1. destruct (server_Reconcile req t Hsc) as (H1 & H2 & H3 & _ & H5). split_and!; [done|done| |].
  - intros Hne. destruct (H5 Hne) as (Hs & _). unfold t1. by rewrite Hs.
  - intros n. destruct (fits_forever req n t1 H2 H3) as (H6 & H7 & _). split; [done|].
    by destruct (server_Reconcile req (iterations req n t1) H7) as (-> & _).
Qed.

(** ** A server *)

Definition bump_vdb (v : VerticaDB) (ver : Z) : VerticaDB :=
  MkVerticaDB (vdb_Name v) (vdb_Namespace v) (vdb_UID v) (vdb_Annotations v) ver (vdb_Spec v) (vdb_Status v).

Definition bump_vas (v : VerticaAutoscaler) (ver : Z) (spec : VerticaAutoscalerSpec) (st : VerticaAutoscalerStatus)
    : VerticaAutoscaler := MkVerticaAutoscaler (vas_Name v) (vas_Namespace v) ver spec st.

(** The objects after the writes of a trace, [d0] and [a0] at first *)
Fixpoint stored_vdb (d0 : VerticaDB) (t : Trace) : VerticaDB :=
  match t with
  | [] => d0
  | AUpdateVdb v :: t =>
      let old := stored_vdb d0 t in
      if bool_decide (vdb_ResourceVersion v = vdb_ResourceVersion old) then bump_vdb v (vdb_ResourceVersion old + 1) else old
  | _ :: t => stored_vdb d0 t
  end.

Fixpoint stored_vas (a0 : VerticaAutoscaler) (t : Trace) : VerticaAutoscaler :=
  match t with
  | [] => a0
  | AUpdateVas v :: t =>
      let old := stored_vas a0 t in
      if bool_decide (vas_ResourceVersion v = vas_ResourceVersion old)
      then bump_vas v (vas_ResourceVersion old + 1) (vas_Spec v) (vas_Status old) else old
  | AUpdateVasStatus v :: t =>
      let old := stored_vas a0 t in
      if bool_decide (vas_ResourceVersion v = vas_ResourceVersion old)
      then bump_vas old (vas_ResourceVersion old + 1) (vas_Spec old) (vas_Status v) else old
  | _ :: t => stored_vas a0 t
  end.

(** [demo_env] with these objects *)
Definition store_env (d0 : VerticaDB) (a0 : VerticaAutoscaler) : Env :=
  let '(Build_Env e1 e2 e3 _ _ e6 _ _ _ e10 e11 e12 e13 e14 e15 e16 e17 e18 e19 e20 e21 e22 e23 e24 e25 e26 e27 e28 e29
    e30 e31 e32) := demo_env false d0 a0 in
  Build_Env e1 e2 e3
    (λ t nm, if bool_decide (nm = vdb_name_of (stored_vas a0 t)) then Ok (stored_vdb d0 t) else Err ErrNotFound)
    (λ t v, if bool_decide (vdb_ResourceVersion v = vdb_ResourceVersion (stored_vdb d0 t))
            then Ok (stored_vdb d0 (AUpdateVdb v :: t)) else Err ErrConflict)
    e6
    (λ t nm, if bool_decide (nm = MkNamespacedName "default" "vas") then Ok (stored_vas a0 t) else Err ErrNotFound)
    (λ t v, if bool_decide (vas_ResourceVersion v = vas_ResourceVersion (stored_vas a0 t))
            then Ok (stored_vas a0 (AUpdateVas v :: t)) else Err ErrConflict)
    (λ t v, if bool_decide (vas_ResourceVersion v = vas_ResourceVersion (stored_vas a0 t))
            then Ok (stored_vas a0 (AUpdateVasStatus v :: t)) else Err ErrConflict)
    e10 e11 e12 e13 e14 e15 e16 e17 e18 e19 e20 e21 e22 e23 e24 e25 e26 e27 e28 e29 e30 e31 e32.

Program Definition store_server (d0 : VerticaDB) (a0 : VerticaAutoscaler)
    : Server (E := store_env d0 a0) (MkNamespacedName "default" "vas") := {|
  vdb_at := stored_vdb d0;
  vas_at := stored_vas a0 |}.
Next Obligation. intros d0 a0. simpl. lia. Qed.
Next Obligation. done. Qed.
Next Obligation. intros d0 a0 t. simpl. by rewrite bool_decide_eq_true_2. Qed.
Next Obligation. intros d0 a0 t v Hv. simpl. rewrite bool_decide_eq_true_2 by done. by eexists. Qed.
Next Obligation. intros d0 a0 t v Hv. simpl. rewrite bool_decide_eq_true_2 by done. by eexists. Qed.
Next Obligation. intros d0 a0 t v Hv. simpl. rewrite bool_decide_eq_true_2 by done. by eexists. Qed.
Next Obligation. by intros d0 a0 [] t. Qed.
Next Obligation. by intros d0 a0 [] t. Qed.

(** Five pods become one, and the next iteration writes nothing. *)
Lemma autoscaler_converges_witness :
  let a0 := demo_vas PodScalingGranularity 1 in
  let E := store_env (demo_vdb 2 3) a0 in
  let req := MkNamespacedName "default" "vas" in
  let t1 := snd (Reconcile req []) in
  sc_Size <$> spec_Subclusters (vdb_Spec (stored_vdb (demo_vdb 2 3) t1)) = [3; 1; 0]%Z ∧
  stored_vdb (demo_vdb 2 3) (snd (Reconcile req t1)) = stored_vdb (demo_vdb 2 3) t1.
Proof.
  intros a0 E req t1. split; [vm_compute; reflexivity|].
  destruct (@autoscaler_converges E req (store_server (demo_vdb 2 3) a0) []) as (_ & _ & _ & Hn).
  - split_and!; try done.
    + repeat constructor; vm_compute; done.
    + apply list_elem_of_here.
  - destruct (Hn 1) as [(H1 & _ & _) _]. exact H1.
Defined.
