(* ===== verification/Atconf.v ===== *)
(** * The writer of admintools.conf

    [pkg/atconf/file_writer.go] and [pkg/net/ipv6.go].  The configuration
    parser ([go-configparser]), [dedent] and the temporary files are not part
    of the repository: they are the class [AtConfDeps], and [AtConfLaws] states
    what the parser does with sections and options for names and values that it
    does not normalise. *)

From Stdlib Require Import Ascii.
From stdpp Require Import base gmap strings pretty numbers list.
From S2P Require Import Prelude GoStrings K8s Types KObjects Effects.

Class AtConfDeps : Type := {
  cfg : Type;
  NewConfigParser : string → result cfg;
  Render : cfg → string;
  Get : cfg → string → string → result string;
  Set_ : cfg → string → string → string → result cfg;
  Items : cfg → string → result (gmap string string);
  RemoveOption : cfg → string → string → result cfg;
  Dedent : string → string;
  TempFile : result string;
  WriteString : string → option go_error;
  SaveError : option go_error }.

(** Visible characters, and option names without capitals *)
Definition plain_char (c : ascii) : bool :=
  bool_decide (33 ≤ Ascii.nat_of_ascii c) && bool_decide (Ascii.nat_of_ascii c ≤ 126).

Definition is_capital (c : ascii) : bool :=
  bool_decide (65 ≤ Ascii.nat_of_ascii c) && bool_decide (Ascii.nat_of_ascii c ≤ 90).

Definition plain_text (s : string) : Prop := Forall (λ c, plain_char c = true) (String.list_ascii_of_string s).

Definition plain_name (s : string) : Prop :=
  Forall (λ c, plain_char c = true ∧ is_capital c = false) (String.list_ascii_of_string s).

(** The options of a section as the parser lists them, if the section exists, and
    the options of the DEFAULT section.  The parser ignores the case of option
    names and the white space around names and values, falls back on the default
    options, and does not remove what is not there: the laws are for a configuration
    without default options, for sections and options whose names are [plain_name]s,
    and for values without white space.  A write keeps the other sections. *)
Class AtConfLaws `{D : AtConfDeps} : Type := {
  opts : cfg → string → option (gmap string string);
  defaults : cfg → gmap string string;
  law_get : ∀ c s m o v, defaults c = ∅ → opts c s = Some m → map_Forall (λ k _, plain_name k) m → plain_name o →
    Get c s o = Ok v ↔ m !! o = Some v;
  law_items : ∀ c s m, defaults c = ∅ → opts c s = Some m → map_Forall (λ k _, plain_name k) m → Items c s = Ok m;
  law_set : ∀ c s m o v, defaults c = ∅ → opts c s = Some m → map_Forall (λ k _, plain_name k) m → plain_name o → plain_text v →
    ∃ c', Set_ c s o v = Ok c' ∧ opts c' s = Some (<[o := v]> m) ∧ defaults c' = ∅ ∧
          ∀ s', s' ≠ s → opts c' s' = opts c s';
  law_remove : ∀ c s m o, defaults c = ∅ → opts c s = Some m → map_Forall (λ k _, plain_name k) m → is_Some (m !! o) →
    ∃ c', RemoveOption c s o = Ok c' ∧ opts c' s = Some (delete o m) ∧ defaults c' = ∅ ∧
          ∀ s', s' ≠ s → opts c' s' = opts c s' }.

(** ** [pkg/net/ipv6.go] *)

Definition IsIPv6 (address : string) : bool := bool_decide (2 ≤ CountByte address ":"%char).

(** ** [pkg/atconf/file_writer.go] *)

Definition ClusterSection : string := "Cluster".
Definition NodesSection : string := "Nodes".
Definition ConfigurationSection : string := "Configuration".
Definition ClusterHostOption : string := "hosts".
Definition ConfigurationIPv6Option : string := "ipv6".

Definition newline : string := String (ascii_of_nat 10) EmptyString.

(** The text before [dedent]; the source indents every line. *)
Definition DefaultAdmintoolsConf : string :=
  Join [""; "[Configuration]"; "format = 3"; "install_opts = "; "default_base = /home/dbadmin";
        "controlmode = pt2pt"; "controlsubnet = default"; "spreadlog = False"; "last_port = 5433";
        "tmp_dir = /tmp"; "atdebug = False"; "atgui_default_license = False";
        "unreachable_host_caching = True"; "aws_metadata_conn_timeout = 2";
        "rebalance_shards_timeout = 36000"; "database_state_change_poll_timeout = 21600";
        "wait_for_shutdown_timeout = 3600"; "pexpect_verbose_logging = False";
        "sync_catalog_retries = 2000"; "client_connect_timeout_sec = 5.0";
        "admintools_config_version = 110"; ""; "[Cluster]"; ""; "[Nodes]"; ""; "[SSHConfig]";
        "ssh_user = "; "ssh_ident = ";
        "ssh_options = -oConnectTimeout=30 -o TCPKeepAlive=no -o ServerAliveInterval=15 -o ServerAliveCountMax=2 -o StrictHostKeyChecking=no -o BatchMode=yes";
        ""; "[BootstrapParameters]"; "awsendpoint = null"; "awsregion = null"] newline.

Section file_writer.
Context `{D : AtConfDeps} `{E : Env}.

(** The name and the contents of the temporary file.  A failure to read from
    the pod or to write what was read is not reported. *)
Definition createAdmintoolsConfBase (sourcePod : NamespacedName) : M (result (string * string)) :=
  match TempFile with
  | Err e => mret (Err e)
  | Ok tmp =>
      if bool_decide (sourcePod = MkNamespacedName "" "") then
        match WriteString (Dedent DefaultAdmintoolsConf) with
        | Some e => mret (Err e)
        | None => mret (Ok (tmp, Dedent DefaultAdmintoolsConf))
        end
      else
        r ← ExecInPod sourcePod ["cat"; AdminToolsConf];
        match exec_err r with
        | Some _ => mret (Ok (tmp, ""))
        | None =>
            match WriteString (stdout r) with
            | Some _ => mret (Ok (tmp, ""))
            | None => mret (Ok (tmp, stdout r))
            end
        end
  end.

Definition setIPv6Flag (c : cfg) (installIPs : list string) : result cfg :=
  match installIPs with
  | [] => Ok c
  | ip :: _ =>
      let flagVal := if IsIPv6 ip then "True" else "False" in
      Set_ c ConfigurationSection ConfigurationIPv6Option flagVal
  end.

(** The keys of the map: the hosts that exist *)
Definition getHosts (c : cfg) : list string :=
  match Get c ClusterSection ClusterHostOption with
  | Err _ => []
  | Ok existingHosts => SplitByte existingHosts ","%char
  end.

(** The builder after the loop over [installIPs] *)
Fixpoint append_hosts (oldHosts : list string) (ips : string) (installIPs : list string) : string :=
  match installIPs with
  | [] => ips
  | ip :: installIPs =>
      if bool_decide (ip ∈ oldHosts) then append_hosts oldHosts ips installIPs
      else
        let ips := if negb (bool_decide (String.length ips = 0)) then ips +:+ "," else ips in
        append_hosts oldHosts (ips +:+ ip) installIPs
  end.

Definition addToClusterHosts (c : cfg) (oldHosts installIPs : list string) : result cfg :=
  let ips := match Get c ClusterSection ClusterHostOption with Ok l => l | Err _ => "" end in
  Set_ c ClusterSection ClusterHostOption (append_hosts oldHosts ips installIPs).

(** Remove the last occurrence of [removeIP], if any. *)
Fixpoint remove_last (removeIP : string) (hosts : list string) : list string :=
  match hosts with
  | [] => []
  | h :: hosts =>
      if bool_decide (removeIP ∈ hosts) then h :: remove_last removeIP hosts
      else if bool_decide (h = removeIP) then hosts else h :: hosts
  end.

Definition removeFromClusterHosts (c : cfg) (ips : list string) : result cfg :=
  match Get c ClusterSection ClusterHostOption with
  | Err e => Err e
  | Ok oldHostLine =>
      let hosts := SplitByte oldHostLine ","%char in
      let hosts := foldl (λ hosts removeIP, remove_last removeIP hosts) hosts ips in
      Set_ c ClusterSection ClusterHostOption (Join hosts ",")
  end.

Definition NodePrefix : string := "node".

(** The body of the loop over the items *)
Definition next_number (n : Z) (k : string) : Z :=
  if HasPrefix k NodePrefix then
    match Atoi (drop_str (String.length NodePrefix) k) with
    | None => n
    | Some i => if bool_decide (n ≤ i)%Z then wrap64 (i + 1) else n
    end
  else n.

(** The items are visited in an order that Go does not specify; the result does
    not depend on it ([next_number_perm]). *)
Definition getNextNodeNumber (c : cfg) : Z :=
  match Items c NodesSection with
  | Err _ => 1
  | Ok items => foldl next_number 1%Z (map_to_list items).*1
  end.

Definition node_name (n : Z) : string := NodePrefix +:+ Pad4 n.

Definition node_info (vdb : VerticaDB) (ip : string) : string :=
  let dataPath := loc_DataPath (spec_Local (vdb_Spec vdb)) in
  ip +:+ "," +:+ dataPath +:+ "," +:+ dataPath.

Fixpoint add_nodes (vdb : VerticaDB) (oldHosts : list string) (nextNodeNumber : Z) (c : cfg)
    (installIPs : list string) : result cfg :=
  match installIPs with
  | [] => Ok c
  | ip :: installIPs =>
      if bool_decide (ip ∈ oldHosts) then add_nodes vdb oldHosts nextNodeNumber c installIPs
      else
        match Set_ c NodesSection (node_name nextNodeNumber) (node_info vdb ip) with
        | Err e => Err e
        | Ok c => add_nodes vdb oldHosts (wrap64 (nextNodeNumber + 1)) c installIPs
        end
  end.

Definition addNodes (vdb : VerticaDB) (c : cfg) (oldHosts installIPs : list string) : result cfg :=
  add_nodes vdb oldHosts (getNextNodeNumber c) c installIPs.

Definition addNewHosts (vdb : VerticaDB) (c : cfg) (installIPs : list string) : result cfg :=
  let oldHosts := getHosts c in
  match addToClusterHosts c oldHosts installIPs with
  | Err e => Err e
  | Ok c => addNodes vdb c oldHosts installIPs
  end.

(** The loop over the items of the section, in any order *)
Fixpoint remove_matching (ip : string) (nodes : list (string * string)) (c : cfg) : result cfg :=
  match nodes with
  | [] => Ok c
  | (option, details) :: nodes =>
      if Contains details (ip +:+ ",") then
        match RemoveOption c NodesSection option with
        | Err e => Err e
        | Ok c => remove_matching ip nodes c
        end
      else remove_matching ip nodes c
  end.

Fixpoint removeNodes (c : cfg) (ips : list string) : result cfg :=
  match ips with
  | [] => Ok c
  | ip :: ips =>
      match Items c NodesSection with
      | Err e => Err e
      | Ok nodes =>
          match remove_matching ip (map_to_list nodes) c with
          | Err e => Err e
          | Ok c => removeNodes c ips
          end
      end
  end.

Definition removeOldHosts (c : cfg) (ips : list string) : result cfg :=
  match removeFromClusterHosts c ips with
  | Err e => Err e
  | Ok c => removeNodes c ips
  end.

(** The name of the file, and what it holds *)
Definition saveATConf (tmp : string) (c : cfg) : result (string * string) :=
  match SaveError with
  | Some e => Err e
  | None => Ok (tmp, Render c)
  end.

Definition AddHosts (vdb : VerticaDB) (sourcePod : NamespacedName) (ips : list string)
    : M (result (string * string)) :=
  b ← createAdmintoolsConfBase sourcePod;
  match b with
  | Err e => mret (Err e)
  | Ok (tmp, contents) =>
      match NewConfigParser contents with
      | Err e => mret (Err e)
      | Ok c =>
          match setIPv6Flag c ips with
          | Err e => mret (Err e)
          | Ok c =>
              match addNewHosts vdb c ips with
              | Err e => mret (Err e)
              | Ok c => mret (saveATConf tmp c)
              end
          end
      end
  end.

Definition RemoveHosts (sourcePod : NamespacedName) (ips : list string)
    : M (result (string * string)) :=
  b ← createAdmintoolsConfBase sourcePod;
  match b with
  | Err e => mret (Err e)
  | Ok (tmp, contents) =>
      match NewConfigParser contents with
      | Err e => mret (Err e)
      | Ok c =>
          match removeOldHosts c ips with
          | Err e => mret (Err e)
          | Ok c => mret (saveATConf tmp c)
          end
      end
  end.

End file_writer.

(** ** Node numbers *)

Definition node_num (k : string) : option Z :=
  if HasPrefix k NodePrefix then Atoi (drop_str (String.length NodePrefix) k) else None.

Lemma next_number_eq n k :
  next_number n k =
  match node_num k with
  | Some i => if bool_decide (n ≤ i)%Z then wrap64 (i + 1) else n
  | None => n
  end.
Proof. unfold next_number, node_num. by destruct (HasPrefix k NodePrefix). Qed.

Lemma node_num_name n : (0 ≤ n < 2 ^ 63)%Z → node_num (node_name n) = Some n.
Proof.
  intros Hn. unfold node_num, node_name.
  assert (HasPrefix (NodePrefix +:+ Pad4 n) NodePrefix = true) as ->.
  { apply HasPrefix_spec. eauto. }
  apply Atoi_Pad4; unfold int64_range; lia.
Qed.

(** Node numbers below [B] *)
Definition nums_below (B : Z) (ks : list string) : Prop :=
  ∀ k i, k ∈ ks → node_num k = Some i → (i < B)%Z.

Lemma next_number_max n k B :
  (1 ≤ n ≤ B)%Z → (B < 2 ^ 63)%Z → (∀ i, node_num k = Some i → (i < B)%Z) →
  next_number n k = Z.max n (from_option (Z.add 1) 1 (node_num k))%Z.
Proof.
  intros Hn HB Hk. rewrite next_number_eq. destruct (node_num k) as [i|]; simpl; [|lia].
  specialize (Hk i eq_refl). case_bool_decide; [|lia].
  rewrite wrap64_small by (unfold int64_range; lia). lia.
Qed.

Lemma foldl_next_number ks n B :
  (1 ≤ n ≤ B)%Z → (B < 2 ^ 63)%Z → nums_below B ks →
  let r := foldl next_number n ks in (n ≤ r ≤ B)%Z ∧ nums_below r ks.
Proof.
  revert n. induction ks as [|k ks IH]; intros n Hn HB Hks; simpl.
  - split; [lia|]. by intros k i ?%elem_of_nil.
  - assert (∀ i, node_num k = Some i → (i < B)%Z) as Hk.
    { intros i. apply Hks. apply elem_of_cons. by left. }
    rewrite (next_number_max n k B) by done.
    assert (from_option (Z.add 1) 1 (node_num k) ≤ B)%Z as Hle.
    { destruct (node_num k) as [i|]; simpl; [|lia]. specialize (Hk i eq_refl). lia. }
    set (n' := Z.max _ _). destruct (IH n') as [Hr Hb]; [unfold n'; lia|done| |].
    { intros k' i Hin. apply Hks. apply elem_of_cons. by right. }
    split; [unfold n' in *; lia|]. intros k' i Hin Hi.
    apply elem_of_cons in Hin as [->|Hin]; [|by apply (Hb k')].
    assert (1 + i ≤ n')%Z by (unfold n'; rewrite Hi; simpl; lia). lia.
Qed.

(** The iteration order of the items does not matter. *)
Lemma next_number_perm ks ks' n B :
  ks ≡ₚ ks' → (1 ≤ n ≤ B)%Z → (B < 2 ^ 63)%Z → nums_below B ks →
  foldl next_number n ks = foldl next_number n ks'.
Proof.
  intros Hp Hn HB Hks.
  assert (∀ l n, (1 ≤ n ≤ B)%Z → nums_below B l → foldl next_number n l =
    foldr (λ k n, Z.max n (from_option (Z.add 1) 1 (node_num k)))%Z n l) as Hf.
  { induction l as [|k l IH]; intros m Hm Hl; [done|]. simpl.
    assert (∀ i, node_num k = Some i → (i < B)%Z) as Hk.
    { intros i. apply Hl. apply elem_of_cons. by left. }
    assert (nums_below B l) as Hl'.
    { intros k' i Hin. apply Hl. apply elem_of_cons. by right. }
    rewrite (next_number_max m k B) by done.
    assert (from_option (Z.add 1) 1 (node_num k) ≤ B)%Z as Hle.
    { destruct (node_num k) as [i|]; simpl; [|lia]. specialize (Hk i eq_refl). lia. }
    rewrite IH by (done || lia). clear. set (x := from_option _ _ _).
    revert m. induction l as [|k' l IH]; intros m; simpl; [done|]. rewrite IH. lia. }
  rewrite !Hf by (done || (intros k i Hin; apply Hks; by rewrite Hp)).
  clear -Hp. induction Hp; simpl; [done|by f_equal|lia|congruence].
Qed.

(** ** Adding nodes *)

Fixpoint new_nodes (vdb : VerticaDB) (n : Z) (ips : list string) : gmap string string :=
  match ips with
  | [] => ∅
  | ip :: ips => <[node_name n := node_info vdb ip]> (new_nodes vdb (n + 1) ips)
  end.

Lemma node_name_inj m n :
  (0 ≤ m < 2 ^ 63)%Z → (0 ≤ n < 2 ^ 63)%Z → node_name m = node_name n → m = n.
Proof.
  intros Hm Hn Heq. apply (f_equal node_num) in Heq. rewrite !node_num_name in Heq by done.
  by injection Heq.
Qed.

Lemma new_nodes_Some vdb n ips k d :
  (0 ≤ n)%Z → (n + Z.of_nat (length ips) < 2 ^ 63)%Z → new_nodes vdb n ips !! k = Some d →
  ∃ i ip, (n ≤ i < n + Z.of_nat (length ips))%Z ∧ k = node_name i ∧
          ip ∈ ips ∧ d = node_info vdb ip.
Proof.
  revert n. induction ips as [|ip ips IH]; intros n Hn Hlen; simpl.
  - by rewrite lookup_empty.
  - simpl in Hlen. destruct (decide (k = node_name n)) as [->|Hne].
    + rewrite lookup_insert_eq. intros [= <-]. exists n, ip. split_and!; [lia|lia|done| |done].
      apply elem_of_cons. by left.
    + rewrite lookup_insert_ne by done. intros Hk.
      apply IH in Hk as (i & ip' & Hi & -> & Hin & ->); [|lia|lia].
      exists i, ip'. split_and!; [lia|lia|done| |done]. apply elem_of_cons. by right.
Qed.

(** ** Plain strings *)

Lemma plain_app a b : plain_text (a +:+ b) ↔ plain_text a ∧ plain_text b.
Proof. unfold plain_text. by rewrite list_ascii_app, Forall_app. Qed.

Lemma plain_Join l : plain_text (Join l ",") ↔ Forall plain_text l.
Proof.
  induction l as [|w l IH]; [split; constructor|]. rewrite Forall_cons, <- IH. destruct l as [|w' l].
  - simpl. split; [|by intros []]. intros Hw. split; [done|constructor].
  - rewrite Join_cons, !plain_app by done. split; [by intros (? & _ & ?)|].
    intros []. split_and!; [done| |done]. by repeat constructor.
Qed.

Lemma node_name_plain n : (0 ≤ n)%Z → plain_name (node_name n).
Proof.
  intros Hn. unfold plain_name, node_name. rewrite list_ascii_app. apply Forall_app. split; [by repeat constructor|].
  eapply Forall_impl; [by apply Pad4_digits|]. intros c Hc. unfold is_digit, plain_char, is_capital in *.
  apply andb_true_iff in Hc as [H1%Nat.leb_le H2%Nat.leb_le].
  split; [apply andb_true_iff; split; apply bool_decide_eq_true; lia|].
  apply andb_false_iff. left. apply bool_decide_eq_false. lia.
Qed.

Lemma hosts_plain : plain_name ClusterHostOption.
Proof. by repeat constructor. Qed.

Lemma node_info_plain vdb ip :
  plain_text (loc_DataPath (spec_Local (vdb_Spec vdb))) → plain_text ip → plain_text (node_info vdb ip).
Proof. intros Hd Hip. unfold node_info. rewrite !plain_app. split_and!; [done|by repeat constructor|done|by repeat constructor|done]. Qed.

Section correct.
Context `{D : AtConfDeps} `{!AtConfLaws}.

(** ** Sections

    A section that the laws speak of *)
Record holds (c : cfg) (s : string) (m : gmap string string) : Prop := {
  hold_defaults : defaults c = ∅;
  hold_opts : opts c s = Some m;
  hold_plain : map_Forall (λ k _, plain_name k) m }.

Lemma holds_get c s m o v : holds c s m → plain_name o → Get c s o = Ok v ↔ m !! o = Some v.
Proof. intros [] ?. by eapply law_get. Qed.

Lemma holds_items c s m : holds c s m → Items c s = Ok m.
Proof. intros []. by apply law_items. Qed.

Lemma holds_set c s m o v :
  holds c s m → plain_name o → plain_text v →
  ∃ c', Set_ c s o v = Ok c' ∧ holds c' s (<[o := v]> m) ∧ ∀ s' m', s' ≠ s → holds c s' m' → holds c' s' m'.
Proof.
  intros [Hd Hm Hp] Ho Hv. destruct (law_set c s m o v Hd Hm Hp Ho Hv) as (c' & Heq & Hm' & Hd' & Hs').
  exists c'. split_and!; [done| |].
  - split; [done|done|]. by apply map_Forall_insert_2.
  - intros s' m' Hne []. split; [done|by rewrite Hs'|done].
Qed.

Lemma holds_remove c s m o :
  holds c s m → is_Some (m !! o) →
  ∃ c', RemoveOption c s o = Ok c' ∧ holds c' s (delete o m) ∧ ∀ s' m', s' ≠ s → holds c s' m' → holds c' s' m'.
Proof.
  intros [Hd Hm Hp] Ho. destruct (law_remove c s m o Hd Hm Hp Ho) as (c' & Heq & Hm' & Hd' & Hs').
  exists c'. split_and!; [done| |].
  - split; [done|done|]. by apply map_Forall_delete.
  - intros s' m' Hne []. split; [done|by rewrite Hs'|done].
Qed.

Lemma add_nodes_spec vdb oldHosts n c ips m :
  holds c NodesSection m → plain_text (loc_DataPath (spec_Local (vdb_Spec vdb))) → Forall plain_text ips →
  (1 ≤ n)%Z → (n + Z.of_nat (length ips) < 2 ^ 63)%Z → nums_below n (map_to_list m).*1 →
  let new := filter (λ ip, ip ∉ oldHosts) ips in
  ∃ c', add_nodes vdb oldHosts n c ips = Ok c' ∧
    holds c' NodesSection (new_nodes vdb n new ∪ m) ∧ new_nodes vdb n new ##ₘ m ∧
    ∀ s m', s ≠ NodesSection → holds c s m' → holds c' s m'.
Proof.
  intros Hm Hpath Hips. revert n c m Hm. induction Hips as [|ip ips Hip Hips IH]; intros n c m Hm Hn Hlen Hb; cbn [add_nodes].
  - exists c. rewrite filter_nil. simpl. rewrite (left_id_L ∅ (∪)).
    split_and!; [done|done|apply map_disjoint_empty_l|done].
  - rewrite filter_cons. simpl in Hlen. case_bool_decide as Hold.
    { rewrite decide_False by naive_solver. apply IH; [done|done|lia|done]. }
    rewrite decide_True by done. cbn [new_nodes].
    destruct (holds_set c NodesSection m (node_name n) (node_info vdb ip) Hm) as (c1 & -> & Hm1 & Ho1);
      [apply node_name_plain; lia|by apply node_info_plain|].
    rewrite wrap64_small by (unfold int64_range; lia).
    assert (m !! node_name n = None) as Hfresh.
    { destruct (m !! node_name n) as [d|] eqn:Hd; [|done].
      assert (n < n)%Z; [|lia]. apply (Hb (node_name n)); [|apply node_num_name; lia].
      apply list_elem_of_fmap. exists (node_name n, d). split; [done|]. by apply elem_of_map_to_list. }
    destruct (IH (n + 1)%Z c1 (<[node_name n := node_info vdb ip]> m)) as (c' & Heq & Hm' & Hdis & Ho');
      [done|lia|lia| |].
    { intros k i Hin Hi. apply list_elem_of_fmap in Hin as ([k' d] & -> & Hin).
      apply elem_of_map_to_list in Hin. simpl in Hi.
      destruct (decide (k' = node_name n)) as [->|Hne].
      - rewrite node_num_name in Hi by lia. injection Hi as <-. lia.
      - rewrite lookup_insert_ne in Hin by done. assert (i < n)%Z; [|lia].
        apply (Hb k'); [|done]. apply list_elem_of_fmap. exists (k', d). split; [done|].
        by apply elem_of_map_to_list. }
    exists c'. apply map_disjoint_insert_r in Hdis as [Hnone Hdis]. split_and!.
    + done.
    + rewrite <- insert_union_r in Hm' by done. by rewrite <- insert_union_l.
    + by apply map_disjoint_insert_l_2.
    + intros s m' Hs Hm0. apply Ho'; [done|]. by apply Ho1.
Qed.

(** ** Hosts *)

(** The hosts that the Cluster section lists *)
Definition line_hosts (l : string) : list string :=
  if bool_decide (l = "") then [] else SplitByte l ","%char.

Definition hosts_of (c : cfg) : list string :=
  match Get c ClusterSection ClusterHostOption with
  | Ok l => line_hosts l
  | Err _ => []
  end.

Definition host_ok (ip : string) : Prop := ip ≠ "" ∧ no_byte ","%char ip ∧ plain_text ip.

#[global] Instance host_ok_dec ip : Decision (host_ok ip).
Proof. unfold host_ok, no_byte, plain_text. apply _. Defined.

Lemma append_hosts_spec oldHosts l ips :
  Forall host_ok ips →
  append_hosts oldHosts l ips =
  let new := filter (λ ip, ip ∉ oldHosts) ips in
  if bool_decide (l = "") then Join new "," else Join (l :: new) ",".
Proof.
  intros Hips. revert l. induction Hips as [|ip ips [Hne _] Hips IH]; intros l; cbn [append_hosts].
  - rewrite filter_nil. case_bool_decide as Hl; [by rewrite Hl|done].
  - rewrite filter_cons. case_bool_decide as Hold.
    { rewrite decide_False by naive_solver. apply IH. }
    rewrite decide_True by done. rewrite IH. clear IH. cbn zeta.
    destruct (decide (l = "")) as [->|Hl].
    + simpl. rewrite bool_decide_eq_false_2 by done. done.
    + rewrite (bool_decide_eq_false_2 (String.length l = 0)) by (by destruct l). simpl negb. cbn iota.
      rewrite !bool_decide_eq_false_2 by (by destruct l). rewrite str_app_assoc.
      rewrite (Join_cons l) by done. destruct (filter _ ips) as [|w ws]; [done|].
      rewrite !Join_cons by done. by rewrite !str_app_assoc.
Qed.

Lemma Join_not_nil l : l ≠ [] → Forall host_ok l → Join l "," ≠ "".
Proof.
  intros Hne Hl. destruct Hl as [|w ws [Hw _] Hws]; [done|]. simpl.
  destruct ws; [done|]. by destruct w.
Qed.

Lemma line_hosts_Join l : Forall (no_byte ","%char) l → Join l "," ≠ "" → line_hosts (Join l ",") = l.
Proof.
  intros Hl Hne. unfold line_hosts. rewrite bool_decide_eq_false_2 by done.
  apply SplitByte_Join; [|done]. by intros ->.
Qed.

Lemma line_hosts_no_comma l : Forall (no_byte ","%char) (line_hosts l).
Proof. unfold line_hosts. case_bool_decide; [constructor|apply SplitByte_parts]. Qed.

Lemma line_hosts_inv l : Join (line_hosts l) "," = l.
Proof. unfold line_hosts. case_bool_decide as Hl; [by rewrite Hl|apply Join_SplitByte]. Qed.

Lemma line_hosts_append oldHosts l ips :
  Forall host_ok ips →
  line_hosts (append_hosts oldHosts l ips) = line_hosts l ++ filter (λ ip, ip ∉ oldHosts) ips.
Proof.
  intros Hips. rewrite append_hosts_spec by done. cbn zeta. set (new := filter _ ips).
  assert (Forall host_ok new) as Hnew.
  { apply Forall_forall. intros x Hx. apply list_elem_of_filter in Hx as [_ Hx].
    by apply (proj1 (Forall_forall _ _) Hips). }
  assert (Forall (no_byte ","%char) new) as Hnb by (eapply Forall_impl; [done|]; by intros ? (? & ? & ?)).
  case_bool_decide as Hl.
  - subst l. simpl. destruct new as [|w ws] eqn:Hn; [done|]. rewrite <- Hn in *.
    apply line_hosts_Join; [done|]. apply Join_not_nil; [by rewrite Hn|done].
  - assert (Join (l :: new) "," = Join (line_hosts l ++ new) ",") as ->.
    { rewrite <- (line_hosts_inv l) at 1. clear Hnew Hnb. pose proof (line_hosts_inv l) as Hi.
      destruct (line_hosts l) as [|w ws]; [by rewrite <- Hi in Hl|]. clear.
      revert w. induction ws as [|w' ws IH]; intros w; [done|]. simpl app.
      rewrite (Join_cons w (w' :: ws ++ new)) by done.
      change (w' :: ws ++ new) with ((w' :: ws) ++ new). rewrite <- IH.
      destruct new as [|x xs]; [done|]. rewrite !Join_cons by done. by rewrite !str_app_assoc. }
    apply line_hosts_Join; [apply Forall_app_2; [apply line_hosts_no_comma|done]|].
    intros Hj. apply Hl. clear -Hj. rewrite <- (line_hosts_inv l).
    destruct (line_hosts l) as [|w ws]; [done|]. destruct ws as [|w' ws], new as [|x xs]; simpl in *;
      try done; destruct w; done.
Qed.

Lemma append_hosts_plain oldHosts l ips : plain_text l → Forall host_ok ips → plain_text (append_hosts oldHosts l ips).
Proof.
  intros Hl Hips. rewrite append_hosts_spec by done. cbn zeta.
  assert (Forall plain_text (filter (λ ip, ip ∉ oldHosts) ips)) as Hnew.
  { apply Forall_forall. intros x [_ Hx]%list_elem_of_filter. by apply (proj1 (Forall_forall _ _) Hips). }
  case_bool_decide; apply plain_Join; [done|by constructor].
Qed.

Lemma remove_last_new hs ip rest :
  ip ∉ rest → remove_last ip (hs ++ ip :: rest) = hs ++ rest.
Proof.
  intros Hr. induction hs as [|h hs IH]; simpl.
  - rewrite bool_decide_eq_false_2 by done. by rewrite bool_decide_eq_true_2.
  - rewrite bool_decide_eq_true_2 by (apply elem_of_app; right; apply elem_of_cons; by left).
    by rewrite IH.
Qed.

Lemma remove_last_keeps h ip hosts : h ∈ hosts → h ≠ ip → h ∈ remove_last ip hosts.
Proof.
  intros Hin Hne. induction hosts as [|x hosts IH]; [done|]. simpl.
  apply elem_of_cons in Hin. case_bool_decide; [|case_bool_decide]; rewrite ?elem_of_cons;
    destruct Hin as [->|Hin]; auto; congruence.
Qed.

Lemma remove_last_Forall (P : string → Prop) ip hosts :
  Forall P hosts → Forall P (remove_last ip hosts).
Proof.
  induction 1; simpl; [constructor|]. case_bool_decide; [by constructor|].
  case_bool_decide; [done|by constructor].
Qed.

(** ** Removing nodes *)

Definition dropped (ip : string) (l : list (string * string)) (k : string) : bool :=
  existsb (λ p, bool_decide (p.1 = k) && Contains p.2 (ip +:+ ",")) l.

(** For every order in which the items are visited *)
Lemma remove_matching_spec ip l c m :
  holds c NodesSection m → NoDup l.*1 → Forall (λ kv, is_Some (m !! kv.1)) l →
  ∃ c' m', remove_matching ip l c = Ok c' ∧ holds c' NodesSection m' ∧
    (∀ k, m' !! k = if dropped ip l k then None else m !! k) ∧
    ∀ s mo, s ≠ NodesSection → holds c s mo → holds c' s mo.
Proof.
  revert c m. induction l as [|[o d] l IH]; intros c m Hm Hnd Hall; cbn [remove_matching].
  - exists c, m. by split_and!.
  - apply NoDup_cons in Hnd as [Hnot Hnd]. apply Forall_cons in Hall as [Ho Hall].
    destruct (Contains d (ip +:+ ",")) eqn:Hc.
    + destruct (holds_remove c NodesSection m o Hm Ho) as (c1 & -> & Hm1 & Ho1).
      destruct (IH c1 _ Hm1 Hnd) as (c' & m' & Heq & Hm' & Hk & Ho').
      { apply Forall_forall. intros kv Hkv. rewrite lookup_delete_ne; [by apply (proj1 (Forall_forall _ _) Hall)|].
        intros ->. apply Hnot. apply list_elem_of_fmap. by exists kv. }
      exists c', m'. split_and!; [done|done| |].
      * intros k. rewrite Hk. simpl. rewrite Hc, andb_true_r. case_bool_decide as Hok; simpl.
        -- subst. rewrite lookup_delete_eq. by destruct (dropped _ _ _).
        -- by rewrite lookup_delete_ne.
      * intros s mo Hs Hmo. apply Ho'; [done|]. by apply Ho1.
    + destruct (IH c m Hm Hnd Hall) as (c' & m' & Heq & Hm' & Hk & Ho'). exists c', m'.
      split_and!; [done|done| |done]. intros k. rewrite Hk. simpl. by rewrite Hc, andb_false_r.
Qed.

Lemma dropped_items ip (m : gmap string string) k :
  dropped ip (map_to_list m) k = match m !! k with Some d => Contains d (ip +:+ ",") | None => false end.
Proof.
  apply eq_bool_prop_intro. unfold dropped.
  destruct (existsb _ _) eqn:Hex.
  - apply existsb_exists in Hex as ([k' d] & Hin & Hb). simpl in Hb.
    apply andb_true_iff in Hb as [Hk Hc]. apply bool_decide_eq_true in Hk. subst k'.
    apply list_elem_of_In, elem_of_map_to_list in Hin. rewrite Hin, Hc. done.
  - destruct (m !! k) as [d|] eqn:Hd; [|done]. destruct (Contains d (ip +:+ ",")) eqn:Hc; [|done].
    exfalso. apply (not_true_iff_false (existsb _ _)) in Hex. apply Hex. apply existsb_exists.
    exists (k, d). split; [by apply list_elem_of_In, elem_of_map_to_list|]. simpl.
    by rewrite bool_decide_eq_true_2, Hc.
Qed.

Definition kept_nodes (ips : list string) (m : gmap string string) : gmap string string :=
  filter (λ kv, Forall (λ ip, Contains kv.2 (ip +:+ ",") = false) ips) m.

Lemma removeNodes_spec ips c m :
  holds c NodesSection m →
  ∃ c', removeNodes c ips = Ok c' ∧ holds c' NodesSection (kept_nodes ips m) ∧
        ∀ s mo, s ≠ NodesSection → holds c s mo → holds c' s mo.
Proof.
  revert c m. induction ips as [|ip ips IH]; intros c m Hm; cbn [removeNodes].
  - exists c. split_and!; [done| |done]. unfold kept_nodes. rewrite map_filter_id; [done|]. by intros.
  - rewrite (holds_items _ _ _ Hm).
    destruct (remove_matching_spec ip (map_to_list m) c m Hm) as (c1 & m1 & -> & Hm1 & Hk & Ho1);
      [apply NoDup_fst_map_to_list| |].
    { apply Forall_forall. intros [k d] Hkd%elem_of_map_to_list. by exists d. }
    destruct (IH c1 m1 Hm1) as (c' & Heq & Hm' & Ho). exists c'. split_and!; [done| |].
    + enough (kept_nodes (ip :: ips) m = kept_nodes ips m1) as -> by done.
      apply map_eq. intros k. unfold kept_nodes.
      rewrite !map_lookup_filter, Hk, dropped_items. destruct (m !! k) as [d|]; [|done].
      destruct (Contains d (ip +:+ ",")) eqn:Hc; simpl.
      * rewrite option_guard_False; [done|]. rewrite Forall_cons. simpl. by intros [? _]; congruence.
      * apply option_guard_iff. rewrite Forall_cons. simpl. naive_solver.
    + intros s mo Hs Hmo. apply Ho; [done|]. by apply Ho1.
Qed.

(** ** Composition *)

(** A configuration as the writer expects it: the sections exist, the hosts line has
    no white space, and there is room above the largest node number. *)
Record conf_ok (c : cfg) (room : nat) (m : gmap string string) : Prop := {
  ok_nodes : holds c NodesSection m;
  ok_cluster : ∃ mc, holds c ClusterSection mc ∧ (∀ l, mc !! ClusterHostOption = Some l → plain_text l);
  ok_room : nums_below (2 ^ 63 - 1 - Z.of_nat room) (map_to_list m).*1 }.

Lemma hosts_line c mc :
  holds c ClusterSection mc →
  hosts_of c = from_option line_hosts [] (mc !! ClusterHostOption).
Proof.
  intros Hc. pose proof (λ l, holds_get c _ mc _ l Hc hosts_plain) as Hg. unfold hosts_of.
  destruct (Get c _ _) as [l|e] eqn:Hl; [by rewrite (proj1 (Hg l) eq_refl)|].
  destruct (mc !! _) as [l|]; [|done]. by specialize (proj2 (Hg l) eq_refl).
Qed.

Lemma hosts_of_set c' l mc :
  holds c' ClusterSection (<[ClusterHostOption := l]> mc) → hosts_of c' = line_hosts l.
Proof. intros Hc. by rewrite (hosts_line _ _ Hc), lookup_insert_eq. Qed.

Lemma getNextNodeNumber_spec c room m :
  conf_ok c room m → let n := getNextNodeNumber c in
  (1 ≤ n ≤ 2 ^ 63 - 1 - Z.of_nat room)%Z ∧ nums_below n (map_to_list m).*1 ∨
  (2 ^ 63 - 1 - Z.of_nat room < 1)%Z.
Proof.
  intros [Hn _ Hr]. unfold getNextNodeNumber. rewrite (holds_items _ _ _ Hn).
  destruct (decide (1 ≤ 2 ^ 63 - 1 - Z.of_nat room)%Z) as [Hle|]; [left|right; lia].
  destruct (foldl_next_number (map_to_list m).*1 1 (2 ^ 63 - 1 - Z.of_nat room)) as [H1 H2];
    [lia|lia|done|]. simpl in *. split; [lia|done].
Qed.

Lemma addNewHosts_spec vdb c ips m :
  conf_ok c (length ips) m → (Z.of_nat (length ips) < 2 ^ 62)%Z → Forall host_ok ips →
  plain_text (loc_DataPath (spec_Local (vdb_Spec vdb))) →
  let new := filter (λ ip, ip ∉ getHosts c) ips in
  let n := getNextNodeNumber c in
  ∃ c' mc, addNewHosts vdb c ips = Ok c' ∧
    hosts_of c' = hosts_of c ++ new ∧
    holds c' NodesSection (new_nodes vdb n new ∪ m) ∧
    new_nodes vdb n new ##ₘ m ∧
    (1 ≤ n)%Z ∧ (n + Z.of_nat (length ips) < 2 ^ 63)%Z ∧
    holds c' ClusterSection mc ∧ (∀ l, mc !! ClusterHostOption = Some l → plain_text l).
Proof.
  intros Hok Hlen Hips Hpath new n. pose proof Hok as [Hn (mc & Hc & Hline) Hr].
  destruct (getNextNodeNumber_spec c _ m Hok) as [[Hn1 Hb]|]; [|lia]. fold n in Hn1, Hb.
  unfold addNewHosts, addToClusterHosts.
  set (l := match Get c ClusterSection ClusterHostOption with Ok l => l | Err _ => "" end).
  assert (plain_text (append_hosts (getHosts c) l ips)) as Hpl.
  { apply append_hosts_plain; [|done]. unfold l. destruct (Get c _ _) as [l'|] eqn:Hl; [|constructor].
    apply Hline. by apply (holds_get _ _ _ _ _ Hc hosts_plain). }
  destruct (holds_set c ClusterSection mc ClusterHostOption _ Hc hosts_plain Hpl) as (c1 & -> & Hc1 & Ho1).
  assert (holds c1 NodesSection m) as Hn1' by by apply Ho1.
  assert (getNextNodeNumber c1 = n) as Hnn.
  { unfold n, getNextNodeNumber. by rewrite (holds_items _ _ _ Hn), (holds_items _ _ _ Hn1'). }
  unfold addNodes. rewrite Hnn.
  destruct (add_nodes_spec vdb (getHosts c) n c1 ips m) as (c' & Heq & Hm' & Hdis & Ho);
    [done|done|eapply Forall_impl; [exact Hips|]; by intros ? (_ & _ & ?)|lia|lia|done|].
  pose proof (Ho ClusterSection _ ltac:(done) Hc1) as Hc'.
  exists c', (<[ClusterHostOption := append_hosts (getHosts c) l ips]> mc).
  split_and!; [done| |done|done|lia|lia|done|].
  - rewrite (hosts_of_set c' _ mc Hc'), line_hosts_append by done. f_equal.
    unfold hosts_of, l. by destruct (Get c _ _).
  - intros l'. rewrite lookup_insert_eq. by intros [= <-].
Qed.

Lemma getHosts_hosts_of c ip : ip ≠ "" → ip ∈ getHosts c ↔ ip ∈ hosts_of c.
Proof.
  intros Hne. unfold getHosts, hosts_of. destruct (Get c _ _) as [l|]; [|done].
  unfold line_hosts. case_bool_decide as Hl; [|done]. subst l. simpl. set_solver.
Qed.

Lemma filter_hosts c ips :
  Forall host_ok ips →
  filter (λ ip, ip ∉ getHosts c) ips = filter (λ ip, ip ∉ hosts_of c) ips.
Proof.
  induction 1 as [|ip ips (Hne & _ & _) Hips IH]; [done|]. rewrite !filter_cons, IH.
  pose proof (getHosts_hosts_of c ip Hne) as Hiff.
  destruct (decide (ip ∉ getHosts c)), (decide (ip ∉ hosts_of c)); naive_solver.
Qed.

Lemma remove_all_plain hs ips : Forall plain_text hs → Forall plain_text (foldl (λ hs ip, remove_last ip hs) hs ips).
Proof. revert hs. induction ips as [|ip ips IH]; intros hs Hhs; simpl; [done|]. by apply IH, remove_last_Forall. Qed.

Lemma removeOldHosts_spec c ips m l mc :
  holds c NodesSection m → holds c ClusterSection mc → mc !! ClusterHostOption = Some l →
  l ≠ "" → plain_text l →
  ∃ c', removeOldHosts c ips = Ok c' ∧
    holds c' NodesSection (kept_nodes ips m) ∧
    hosts_of c' = line_hosts (Join (foldl (λ hs ip, remove_last ip hs) (hosts_of c) ips) ",").
Proof.
  intros Hn Hc Hl Hne Hpl. unfold removeOldHosts, removeFromClusterHosts.
  assert (Get c ClusterSection ClusterHostOption = Ok l) as Hg by by apply (holds_get _ _ _ _ _ Hc hosts_plain).
  rewrite Hg. set (hs := foldl _ _ _).
  assert (plain_text (Join hs ",")) as Hps.
  { apply plain_Join, remove_all_plain, plain_Join. by rewrite Join_SplitByte. }
  destruct (holds_set c ClusterSection mc ClusterHostOption _ Hc hosts_plain Hps) as (c1 & -> & Hc1 & Ho1).
  destruct (removeNodes_spec ips c1 m) as (c' & Heq & Hm' & Ho); [by apply Ho1|].
  exists c'. split_and!; [done|done|].
  rewrite (hosts_of_set c' _ mc) by by apply Ho. unfold hs, hosts_of. rewrite Hg.
  assert (line_hosts l = SplitByte l ","%char) as ->; [|done].
  unfold line_hosts. by rewrite bool_decide_eq_false_2.
Qed.

Lemma filter_all {A} (P : A → Prop) `{∀ x, Decision (P x)} (l : list A) :
  (∀ x, x ∈ l → P x) → filter P l = l.
Proof.
  intros Hl. induction l as [|x l IH]; [done|]. rewrite filter_cons, decide_True.
  - f_equal. apply IH. intros y Hy. apply Hl. apply elem_of_cons. by right.
  - apply Hl. apply elem_of_cons. by left.
Qed.

Lemma filter_nil_2 {A} (P : A → Prop) `{∀ x, Decision (P x)} (l : list A) :
  (∀ x, x ∈ l → ¬ P x) → filter P l = [].
Proof.
  intros Hl. induction l as [|x l IH]; [done|]. rewrite filter_cons, decide_False.
  - apply IH. intros y Hy. apply Hl. apply elem_of_cons. by right.
  - apply Hl. apply elem_of_cons. by left.
Qed.

Lemma foldl_remove_last hs ips :
  NoDup ips → foldl (λ hs ip, remove_last ip hs) (hs ++ ips) ips = hs.
Proof.
  induction 1 as [|ip ips Hin Hnd IH]; simpl; [by rewrite app_nil_r|].
  by rewrite remove_last_new.
Qed.

Lemma line_hosts_of c : line_hosts (Join (hosts_of c) ",") = hosts_of c.
Proof.
  unfold hosts_of. destruct (Get c _ _) as [l|]; [|done]. by rewrite line_hosts_inv.
Qed.

Lemma hosts_of_nonempty c mc :
  holds c ClusterSection mc → hosts_of c ≠ [] →
  ∃ l, mc !! ClusterHostOption = Some l ∧ l ≠ "".
Proof.
  intros Hc. rewrite (hosts_line _ _ Hc). destruct (mc !! _) as [l|]; [|done]. simpl.
  unfold line_hosts. case_bool_decide; [done|]. eauto.
Qed.

Lemma kept_nodes_union ips (new m : gmap string string) :
  (∀ k d, new !! k = Some d → ∃ ip, ip ∈ ips ∧ Contains d (ip +:+ ",") = true) →
  (∀ k d ip, m !! k = Some d → ip ∈ ips → Contains d (ip +:+ ",") = false) →
  new ##ₘ m → kept_nodes ips (new ∪ m) = m.
Proof.
  intros Hnew Hm Hdis. apply map_eq. intros k. unfold kept_nodes.
  rewrite map_lookup_filter. destruct (new !! k) as [d|] eqn:Hd.
  - rewrite (lookup_union_Some_l _ _ _ _ Hd). simpl. destruct (Hnew k d Hd) as (ip & Hin & Hc).
    rewrite option_guard_False.
    + symmetry. by eapply map_disjoint_Some_l.
    + rewrite Forall_forall. intros Hall. by rewrite (Hall ip Hin) in Hc.
  - rewrite lookup_union_r by done. destruct (m !! k) as [d|] eqn:Hmk; [|done]. simpl.
    rewrite option_guard_True; [done|]. apply Forall_forall. intros ip Hin. by apply (Hm k).
Qed.

End correct.

(** A pod that cannot be read gives an empty file and no error. *)
Lemma read_error_swallowed `{D : AtConfDeps} `{E : Env} sourcePod tmp e t :
  TempFile = Ok tmp → sourcePod ≠ MkNamespacedName "" "" →
  exec_err (env_exec t sourcePod ["cat"; AdminToolsConf]) = Some e →
  fst (createAdmintoolsConfBase sourcePod t) = Ok (tmp, "").
Proof.
  intros Ht Hs He. unfold createAdmintoolsConfBase. rewrite Ht, bool_decide_eq_false_2 by done.
  unfold mbind, M_bind, ExecInPod, call. by rewrite He.
Qed.

(** ** A configuration in memory

    An instance of the laws: sections are finite maps.  Files are not kept:
    reading gives the sections [start]. *)
Definition mem_sections : gmap string (gmap string string) :=
  {[ConfigurationSection := ∅; ClusterSection := ∅; NodesSection := ∅]}.

Definition mem_deps_with (start : gmap string (gmap string string)) : AtConfDeps := {|
  cfg := gmap string (gmap string string);
  NewConfigParser _ := Ok start;
  Render _ := "";
  Get c s o :=
    match c !! s with
    | Some m => match m !! o with Some v => Ok v | None => Err (ErrMsg "no option") end
    | None => Err (ErrMsg "no section")
    end;
  Set_ c s o v :=
    match c !! s with
    | Some m => Ok (<[s := <[o := v]> m]> c)
    | None => Err (ErrMsg "no section")
    end;
  Items c s := match c !! s with Some m => Ok m | None => Err (ErrMsg "no section") end;
  RemoveOption c s o :=
    match c !! s with
    | Some m => match m !! o with Some _ => Ok (<[s := delete o m]> c) | None => Err (ErrMsg "no option") end
    | None => Err (ErrMsg "no section")
    end;
  Dedent t := t;
  TempFile := Ok "/tmp/admintools.conf.1";
  WriteString _ := None;
  SaveError := None |}.

Definition mem_deps : AtConfDeps := mem_deps_with mem_sections.

#[global] Instance mem_laws : @AtConfLaws mem_deps.
Proof.
  refine (@Build_AtConfLaws mem_deps (λ c s, c !! s) (λ _, ∅) _ _ _ _); simpl.
  - intros c s m o v _ -> _ _. destruct (m !! o); naive_solver.
  - by intros c s m _ -> _.
  - intros c s m o v _ -> _ _ _. eexists. split; [done|]. split; [apply lookup_insert_eq|]. split; [done|].
    intros s' Hs. by rewrite lookup_insert_ne.
  - intros c s m o _ -> _ [v ->]. eexists. split; [done|]. split; [apply lookup_insert_eq|]. split; [done|].
    intros s' Hs. by rewrite lookup_insert_ne.
Defined.

(** Two hosts and their nodes *)
Definition demo_nodes : gmap string string :=
  {["node0001" := "10.1.1.1,/data,/data"; "node0002" := "110.1.1.1,/data,/data"]}.

Definition demo_conf : gmap string (gmap string string) :=
  {[ConfigurationSection := ∅; ClusterSection := {[ClusterHostOption := "10.1.1.1,110.1.1.1"]};
    NodesSection := demo_nodes]}.

Lemma demo_nodes_Some k d :
  demo_nodes !! k = Some d →
  k = "node0001" ∧ d = "10.1.1.1,/data,/data" ∨ k = "node0002" ∧ d = "110.1.1.1,/data,/data".
Proof.
  unfold demo_nodes. intros [[<- <-]|[_ Hk]]%lookup_insert_Some; [by left|].
  apply lookup_singleton_Some in Hk as [<- <-]. by right.
Qed.

Lemma demo_holds_nodes : @holds mem_deps mem_laws demo_conf NodesSection demo_nodes.
Proof. split; [reflexivity|reflexivity|]. intros k d [[-> ->]|[-> ->]]%demo_nodes_Some; by repeat constructor. Qed.

Lemma demo_holds_cluster :
  @holds mem_deps mem_laws demo_conf ClusterSection {[ClusterHostOption := "10.1.1.1,110.1.1.1"]}.
Proof. split; [reflexivity|reflexivity|]. intros k d [<- <-]%lookup_singleton_Some. apply hosts_plain. Qed.

Lemma demo_conf_ok room :
  (Z.of_nat room < 2 ^ 62)%Z → @conf_ok mem_deps mem_laws demo_conf room demo_nodes.
Proof.
  intros Hroom. split; [apply demo_holds_nodes| |].
  - eexists. split; [apply demo_holds_cluster|]. intros l [_ <-]%lookup_singleton_Some. by repeat constructor.
  - intros k i Hk Hi. apply list_elem_of_fmap in Hk as ([k' d] & -> & Hk).
    apply elem_of_map_to_list, demo_nodes_Some in Hk as [[-> ->]|[-> ->]];
      vm_compute in Hi; injection Hi as <-; lia.
Qed.

Lemma demo_path : plain_text (loc_DataPath (spec_Local (vdb_Spec MakeVDB))).
Proof. by repeat constructor. Qed.

Lemma demo_add : @addNewHosts mem_deps MakeVDB demo_conf ["10.1.1.1"] = Ok demo_conf.
Proof. vm_cast_no_check (eq_refl (@Ok (@cfg mem_deps) demo_conf)). Qed.

(** Closed decidable facts *)
Ltac decide_now := refine (bool_decide_unpack _ _); vm_compute; exact I.

(** ** Properties *)

(** Adding hosts.  The hosts line is extended by exactly the addresses that
    were not listed, in order; every one of them gets a node with a number above
    all existing ones, so no existing node entry is changed or overwritten. *)
Theorem addNewHosts_correct `{AtConfLaws} vdb c ips m :
  conf_ok c (length ips) m → (Z.of_nat (length ips) < 2 ^ 62)%Z → Forall host_ok ips →
  plain_text (loc_DataPath (spec_Local (vdb_Spec vdb))) →
  let new := filter (λ ip, ip ∉ hosts_of c) ips in
  ∃ c', addNewHosts vdb c ips = Ok c' ∧
    hosts_of c' = hosts_of c ++ new ∧
    opts c' NodesSection = Some (new_nodes vdb (getNextNodeNumber c) new ∪ m) ∧
    new_nodes vdb (getNextNodeNumber c) new ##ₘ m.
Proof.
  intros Hok Hlen Hips Hpath. destruct (addNewHosts_spec vdb c ips m Hok Hlen Hips Hpath)
    as (c' & mc & Heq & Hh & Hm & Hdis & _).
  rewrite (filter_hosts c ips Hips) in *. exists c'. split_and!; [done|done|apply Hm|done].
Qed.

Lemma addNewHosts_correct_witness :
  ∃ c', @addNewHosts mem_deps MakeVDB demo_conf ["10.1.1.1"; "10.1.1.2"] = Ok c' ∧
    @hosts_of mem_deps c' = ["10.1.1.1"; "110.1.1.1"; "10.1.1.2"].
Proof.
  destruct (@addNewHosts_correct mem_deps mem_laws MakeVDB demo_conf ["10.1.1.1"; "10.1.1.2"]
    demo_nodes) as (c' & Hc' & Hh & _).
  - by apply demo_conf_ok.
  - done.
  - decide_now.
  - apply demo_path.
  - exists c'. split; [done|]. rewrite Hh. vm_compute. reflexivity.
Defined.

(** Adding the same hosts again changes neither the hosts nor the nodes. *)
Theorem addNewHosts_idempotent `{AtConfLaws} vdb c ips m c' m' c'' :
  conf_ok c (length ips) m → (Z.of_nat (length ips) < 2 ^ 62)%Z → Forall host_ok ips →
  plain_text (loc_DataPath (spec_Local (vdb_Spec vdb))) →
  addNewHosts vdb c ips = Ok c' →
  conf_ok c' (length ips) m' → addNewHosts vdb c' ips = Ok c'' →
  hosts_of c'' = hosts_of c' ∧ opts c'' NodesSection = opts c' NodesSection.
Proof.
  intros Hok Hlen Hips Hpath Hadd Hok' Hadd'.
  destruct (addNewHosts_spec vdb c ips m Hok Hlen Hips Hpath) as (c1 & mc1 & Heq & Hh & _).
  rewrite Hadd in Heq. injection Heq as <-.
  destruct (addNewHosts_spec vdb c' ips m' Hok' Hlen Hips Hpath) as (c2 & mc2 & Heq' & Hh' & Hm' & _).
  rewrite Hadd' in Heq'. injection Heq' as <-. rewrite !filter_hosts in * by done.
  assert (filter (λ ip, ip ∉ hosts_of c') ips = []) as Hnil.
  { apply filter_nil_2. intros ip Hin Hnot. apply Hnot. rewrite Hh, elem_of_app.
    destruct (decide (ip ∈ hosts_of c)); [by left|right]. by apply list_elem_of_filter. }
  rewrite Hnil in *. split; [by rewrite Hh', app_nil_r|].
  rewrite (hold_opts _ _ _ Hm'), (hold_opts _ _ _ (ok_nodes _ _ _ Hok')).
  simpl. by rewrite (left_id_L ∅ (∪)).
Qed.

Lemma addNewHosts_idempotent_witness :
  ∃ c' c'', @addNewHosts mem_deps MakeVDB demo_conf ["10.1.1.1"] = Ok c' ∧
    @addNewHosts mem_deps MakeVDB c' ["10.1.1.1"] = Ok c'' ∧
    @hosts_of mem_deps c'' = @hosts_of mem_deps c'.
Proof.
  exists demo_conf, demo_conf. split; [apply demo_add|]. split; [apply demo_add|].
  apply (@addNewHosts_idempotent mem_deps mem_laws MakeVDB demo_conf ["10.1.1.1"] demo_nodes
    demo_conf demo_nodes demo_conf);
    [by apply demo_conf_ok|done|decide_now|apply demo_path|apply demo_add|by apply demo_conf_ok|apply demo_add].
Defined.

(** C34: adding new hosts and then removing them restores the hosts and the nodes,
    on the condition that no node entry that was there before contains one of the
    added addresses followed by a comma.  (Removal looks for that text anywhere in an
    entry, see [removal_by_substring]: without the condition it also takes the node
    of a host whose address ends with an added one.)  The configuration has both
    sections, no default options, option names in lower case and no white space in
    the hosts line; the added addresses are distinct, not listed before, not empty,
    and neither they nor the data path hold white space. *)
Theorem add_remove_roundtrip `{AtConfLaws} vdb c ips m :
  conf_ok c (length ips) m → (Z.of_nat (length ips) < 2 ^ 62)%Z → Forall host_ok ips →
  plain_text (loc_DataPath (spec_Local (vdb_Spec vdb))) →
  ips ≠ [] → NoDup ips → (∀ ip, ip ∈ ips → ip ∉ hosts_of c) →
  (∀ k d ip, m !! k = Some d → ip ∈ ips → Contains d (ip +:+ ",") = false) →
  ∃ c' c'', addNewHosts vdb c ips = Ok c' ∧ removeOldHosts c' ips = Ok c'' ∧
    hosts_of c'' = hosts_of c ∧ opts c'' NodesSection = opts c NodesSection.
Proof.
  intros Hok Hlen Hips Hpath Hne Hnd Hnew Hdet.
  destruct (addNewHosts_spec vdb c ips m Hok Hlen Hips Hpath)
    as (c' & mc & Heq & Hh & Hm & Hdis & Hn1 & Hn2 & Hc & Hline).
  rewrite filter_hosts in * by done.
  assert (filter (λ ip, ip ∉ hosts_of c) ips = ips) as Hall by (by apply filter_all).
  rewrite Hall in *. set (n := getNextNodeNumber c) in *.
  destruct (hosts_of_nonempty c' mc) as (l & Hl & Hlne); [done|rewrite Hh; by destruct (hosts_of c), ips|].
  destruct (removeOldHosts_spec c' ips _ l mc Hm Hc Hl Hlne (Hline l Hl)) as (c'' & Heq' & Hm'' & Hh'').
  exists c', c''. split_and!; [done|done| |].
  - rewrite Hh'', Hh, foldl_remove_last by done. apply line_hosts_of.
  - rewrite (hold_opts _ _ _ Hm''), (hold_opts _ _ _ (ok_nodes _ _ _ Hok)). f_equal.
    apply kept_nodes_union; [|done|done]. intros k d Hd.
    destruct (new_nodes_Some vdb n ips k d) as (i & ip & _ & -> & Hin & ->); [lia|lia|done|].
    exists ip. split; [done|]. apply Contains_spec. exists "".
    eexists. unfold node_info. simpl. by rewrite !str_app_assoc.
Qed.

Lemma add_remove_roundtrip_witness :
  ∃ c' c'', @addNewHosts mem_deps MakeVDB demo_conf ["10.1.1.2"; "10.1.1.3"] = Ok c' ∧
    @removeOldHosts mem_deps c' ["10.1.1.2"; "10.1.1.3"] = Ok c'' ∧
    @hosts_of mem_deps c'' = ["10.1.1.1"; "110.1.1.1"].
Proof.
  destruct (@add_remove_roundtrip mem_deps mem_laws MakeVDB demo_conf ["10.1.1.2"; "10.1.1.3"]
    demo_nodes) as (c' & c'' & Hc' & Hc'' & Hh & _).
  - by apply demo_conf_ok.
  - done.
  - decide_now.
  - apply demo_path.
  - done.
  - decide_now.
  - intros ip Hin. rewrite !elem_of_cons, elem_of_nil in Hin.
    destruct Hin as [->|[->|[]]]; decide_now.
  - intros k d ip Hk%demo_nodes_Some Hin. rewrite !elem_of_cons, elem_of_nil in Hin.
    destruct Hk as [[-> ->]|[-> ->]], Hin as [->|[->|[]]]; vm_compute; reflexivity.
  - exists c', c''. split; [done|]. split; [done|]. rewrite Hh. vm_compute. reflexivity.
Defined.

(** Removing an address also removes the node of every other host whose
    address ends with it: the host stays in the hosts line without a node. *)
Theorem removal_by_substring `{AtConfLaws} vdb c ip h k m mc l :
  holds c NodesSection m → holds c ClusterSection mc →
  mc !! ClusterHostOption = Some l → l ≠ "" → plain_text l →
  HasSuffix h ip = true → h ≠ ip → h ∈ hosts_of c → host_ok h →
  m !! k = Some (node_info vdb h) →
  ∃ c' m', removeOldHosts c [ip] = Ok c' ∧ h ∈ hosts_of c' ∧
    opts c' NodesSection = Some m' ∧ m' !! k = None.
Proof.
  intros Hm Hc Hl Hne Hpl Hsuf Hh Hin (Hh1 & Hh2 & _) Hk.
  destruct (removeOldHosts_spec c [ip] m l mc Hm Hc Hl Hne Hpl) as (c' & Heq & Hm' & Hh').
  exists c', (kept_nodes [ip] m). split_and!; [done| |apply Hm'|].
  - rewrite Hh'. simpl. pose proof (remove_last_keeps h ip _ Hin Hh) as Hk'.
    rewrite line_hosts_Join; [done| |].
    + apply remove_last_Forall. unfold hosts_of. destruct (Get c _ _); [|constructor].
      apply line_hosts_no_comma.
    + intros Hj. destruct (remove_last ip (hosts_of c)) as [|w ws]; [by apply elem_of_nil in Hk'|].
      destruct ws as [|w' ws]; [|by destruct w]. simpl in Hj. subst w.
      apply list_elem_of_singleton in Hk'. done.
  - unfold kept_nodes. rewrite map_lookup_filter, Hk. simpl. rewrite option_guard_False; [done|].
    rewrite Forall_cons. intros [Hc' _]. simpl in Hc'.
    apply HasSuffix_spec in Hsuf as [p ->].
    assert (Contains (node_info vdb (p +:+ ip)) (ip +:+ ",") = true); [|congruence].
    apply Contains_spec. exists p. eexists. unfold node_info. simpl. by rewrite !str_app_assoc.
Qed.

Lemma removal_by_substring_witness :
  ∃ c' m', @removeOldHosts mem_deps demo_conf ["10.1.1.1"] = Ok c' ∧
    "110.1.1.1" ∈ @hosts_of mem_deps c' ∧ @opts _ mem_laws c' NodesSection = Some m' ∧
    m' !! "node0002" = None.
Proof.
  apply (@removal_by_substring mem_deps mem_laws MakeVDB demo_conf "10.1.1.1" "110.1.1.1"
    "node0002" demo_nodes {[ClusterHostOption := "10.1.1.1,110.1.1.1"]} "10.1.1.1,110.1.1.1");
    [apply demo_holds_nodes|apply demo_holds_cluster|try reflexivity; try done; decide_now..].
Defined.
