(* ===== verification/ScFinder.v ===== *)
(** * Finding the objects of a VerticaDB

    [pkg/iter/sc_finder.go].  The flags are a bit set in a [uint8].  The
    objects come from a list call with the operator's labels as selector; what
    the finder does with the list is the same for statefulsets, services and
    pods. *)

From stdpp Require Import base gmap strings pretty sorting numbers list.
From S2P Require Import Prelude GoStrings K8s Types KObjects Effects Labels.

Definition FindInVdb : Z := 1.
Definition FindNotInVdb : Z := 2.
Definition FindExisting : Z := 4.
Definition FindSorted : Z := 8.
Definition FindAll : Z := Z.lor FindInVdb FindNotInVdb.

(** [flags&f != 0] *)
Definition has_flag (flags f : Z) : bool := negb (bool_decide (Z.land flags f = 0%Z)).

(** [sort.Slice(l, func(i, j int) bool { return name(l[i]) < name(l[j]) })].  The
    names of the objects of a namespace are distinct, so that the sorted list
    is determined. *)
Definition name_le {A} (name : A → string) (x y : A) : Prop :=
  String.le (name x) (name y).

#[global] Instance name_le_dec {A} (name : A → string) : RelDecision (name_le name).
Proof. intros x y. unfold name_le. apply _. Defined.

Definition sort_by {A} (name : A → string) (l : list A) : list A := merge_sort (name_le name) l.

Definition hasSubclusterNameLabel (l : gmap string string) : bool :=
  bool_decide (is_Some (l !! SubclusterNameLabel)) ||
  bool_decide (is_Some (l !! SubclusterLegacyNameLabel)).

(** A missing label reads as the empty string. *)
Definition hasSubclusterLabelFromVdb (vdb : VerticaDB) (objLabels : gmap string string) : bool :=
  let scName := default "" (objLabels !! SubclusterNameLabel) in
  bool_decide (is_Some (GenSubclusterMap vdb !! scName)).

(** Whether [buildObjList] keeps an object with these labels *)
Definition keep_object (vdb : VerticaDB) (flags : Z) (l : gmap string string) : bool :=
  if negb (hasSubclusterNameLabel l) then false
  else if has_flag flags FindExisting then true
  else
    let isScFromVdb := hasSubclusterLabelFromVdb vdb l in
    if has_flag flags FindInVdb && isScFromVdb then true
    else if has_flag flags FindNotInVdb && negb isScFromVdb then true
    else false.

(** [buildObjList] on the objects listed *)
Definition build_objs {A} (labels : A → gmap string string) (vdb : VerticaDB) (flags : Z)
    (objs : list A) : list A :=
  if bool_decide (Z.land flags FindAll = FindAll) then objs
  else filter (λ o, keep_object vdb flags (labels o) = true) objs.

(** The sorting at the end of every finder *)
Definition sort_if {A} (flags : Z) (name : A → string) (l : list A) : list A :=
  if has_flag flags FindSorted then sort_by name l else l.

Section finder.
Context `{Env}.

Definition sts_labels (s : StatefulSet) : gmap string string := om_Labels (sts_Meta s).
Definition sts_name (s : StatefulSet) : string := om_Name (sts_Meta s).

Definition FindStatefulSets (vdb : VerticaDB) (flags : Z) : M (result (list StatefulSet)) :=
  r ← ListSts (vdb_Namespace vdb) (MakeOperatorLabels vdb);
  match r with
  | Err e => mret (Err e)
  | Ok objs => mret (Ok (sort_if flags sts_name (build_objs sts_labels vdb flags objs)))
  end.

Definition FindServices (vdb : VerticaDB) (flags : Z) : M (result (list Service)) :=
  r ← ListServices (vdb_Namespace vdb) (MakeOperatorLabels vdb);
  match r with
  | Err e => mret (Err e)
  | Ok objs => mret (Ok (sort_if flags (λ s, svc_Name s)
                           (build_objs (λ s, svc_Labels ( s)) vdb flags objs)))
  end.

Definition FindPods (vdb : VerticaDB) (flags : Z) : M (result (list Pod)) :=
  r ← ListPods (vdb_Namespace vdb) (MakeOperatorLabels vdb);
  match r with
  | Err e => mret (Err e)
  | Ok objs => mret (Ok (sort_if flags (λ p, om_Name (pod_Meta p))
                           (build_objs (λ p, om_Labels (pod_Meta p)) vdb flags objs)))
  end.

(** A subcluster of which only the statefulset is left *)
Definition sc_stub (s : StatefulSet) : Subcluster :=
  set_sc_Name zero_Subcluster (default "" (sts_labels s !! SubclusterNameLabel)).

Definition FindSubclusters (vdb : VerticaDB) (flags : Z) : M (result (list Subcluster)) :=
  let subclusters := if has_flag flags FindInVdb then spec_Subclusters (vdb_Spec vdb) else [] in
  if has_flag flags FindNotInVdb || has_flag flags FindExisting then
    r ← FindStatefulSets vdb (Z.land flags (Z.land (Z.lnot FindInVdb) 255));
    match r with
    | Err e => mret (Err e)
    | Ok missingSts =>
        mret (Ok (sort_if flags sc_Name (subclusters ++ (sc_stub <$> missingSts))))
    end
  else mret (Ok (sort_if flags sc_Name subclusters)).

End finder.

(** ** Sorting *)

Lemma sort_if_perm {A} flags (name : A → string) l : sort_if flags name l ≡ₚ l.
Proof. unfold sort_if, sort_by. destruct (has_flag _ _); [apply merge_sort_Permutation|done]. Qed.

#[global] Instance name_le_total {A} (name : A → string) : Total (name_le name).
Proof. intros x y. apply (total String.le). Qed.

#[global] Instance name_le_trans {A} (name : A → string) : Transitive (name_le name).
Proof. intros x y z. unfold name_le. by intros ->. Qed.

Lemma sort_if_sorted {A} flags (name : A → string) l :
  has_flag flags FindSorted = true → Sorted (name_le name) (sort_if flags name l).
Proof. intros Hf. unfold sort_if. rewrite Hf. apply (Sorted_merge_sort _). Qed.

(** With distinct names the sorted list is determined. *)
Lemma sort_by_unique {A} (name : A → string) l k :
  NoDup (name <$> l) → l ≡ₚ k → sort_by name l = sort_by name k.
Proof.
  intros Hnd Hp.
  assert (sort_by name l ≡ₚ sort_by name k) as Hs.
  { unfold sort_by. rewrite !merge_sort_Permutation. done. }
  assert (NoDup (name <$> sort_by name l)) as Hnd'.
  { unfold sort_by. by rewrite merge_sort_Permutation. }
  apply (StronglySorted_unique_strong (name_le name));
    [|apply (StronglySorted_merge_sort _)|apply (StronglySorted_merge_sort _)|done].
  intros x y Hx Hy Hle1 Hle2. unfold name_le in *.
  assert (name x = name y) as Hn by (by apply (anti_symm String.le)).
  apply list_elem_of_lookup in Hx as [i Hi].
  rewrite <- Hs in Hy. apply list_elem_of_lookup in Hy as [j Hj].
  assert (i = j) as ->; [|congruence].
  apply (NoDup_lookup (name <$> sort_by name l) i j (name x)); [done|..];
    rewrite list_lookup_fmap; [by rewrite Hi|]. rewrite Hj. simpl. by rewrite Hn.
Qed.

Lemma filter_bool_complement {A} (f g h : A → bool) (l : list A) :
  (∀ x, x ∈ l → h x = f x || g x ∧ f x && g x = false) →
  filter (λ x, f x = true) l ++ filter (λ x, g x = true) l ≡ₚ filter (λ x, h x = true) l.
Proof.
  induction l as [|x l IH]; intros Hl; [done|].
  destruct (Hl x) as [Hx Hd]; [apply elem_of_cons; by left|].
  assert (∀ y, y ∈ l → h y = f y || g y ∧ f y && g y = false) as Hl'.
  { intros y Hy. apply Hl. apply elem_of_cons. by right. }
  rewrite !filter_cons. specialize (IH Hl').
  destruct (f x) eqn:Hf, (g x) eqn:Hg; simpl in *; rewrite Hx; simpl in *; try done.
  - by rewrite IH.
  - rewrite <- Permutation_middle. by rewrite IH.
Qed.

(** ** Properties *)

(** The finder partitions the subcluster objects of the operator: an
    object is returned for "in the vdb" or for "not in the vdb" but never for
    both, the two together are what "existing" returns, "existing" is exactly
    the objects with a subcluster label (under the current or the legacy name),
    and sorting only reorders. *)
Theorem find_partition {A} (labels : A → gmap string string) (name : A → string) vdb objs sorted :
  let fl f := Z.lor f (if sorted : bool then FindSorted else 0%Z) in
  let find f := sort_if (fl f) name (build_objs labels vdb (fl f) objs) in
  find FindInVdb ++ find FindNotInVdb ≡ₚ find FindExisting ∧
  find FindExisting ≡ₚ filter (λ o, hasSubclusterNameLabel (labels o) = true) objs ∧
  (∀ o, o ∈ find FindInVdb → o ∈ find FindNotInVdb → False) ∧
  (sorted = true → ∀ f, Sorted (name_le name) (find f)).
Proof.
  intros fl find.
  assert (∀ f, f ∈ [FindInVdb; FindNotInVdb; FindExisting] →
    find f ≡ₚ filter (λ o, keep_object vdb (fl f) (labels o) = true) objs) as Hfind.
  { intros f Hf. unfold find. rewrite sort_if_perm. unfold build_objs.
    rewrite bool_decide_eq_false_2; [done|]. rewrite !elem_of_cons, elem_of_nil in Hf.
    destruct sorted, Hf as [->|[->|[->|[]]]]; by vm_compute. }
  rewrite !Hfind by set_solver.
  assert (∀ f, keep_object vdb (fl FindExisting) f = hasSubclusterNameLabel f) as He.
  { intros f. unfold keep_object. by destruct (hasSubclusterNameLabel f), sorted. }
  assert (∀ f, keep_object vdb (fl FindInVdb) f =
    hasSubclusterNameLabel f && hasSubclusterLabelFromVdb vdb f) as Hi.
  { intros f. unfold keep_object.
    by destruct (hasSubclusterNameLabel f), sorted, (hasSubclusterLabelFromVdb vdb f). }
  assert (∀ f, keep_object vdb (fl FindNotInVdb) f =
    hasSubclusterNameLabel f && negb (hasSubclusterLabelFromVdb vdb f)) as Hn.
  { intros f. unfold keep_object.
    by destruct (hasSubclusterNameLabel f), sorted, (hasSubclusterLabelFromVdb vdb f). }
  split_and!.
  - apply filter_bool_complement. intros o _. rewrite He, Hi, Hn.
    by destruct (hasSubclusterNameLabel _), (hasSubclusterLabelFromVdb _ _).
  - apply reflexive_eq, list_filter_iff. intros o. by rewrite He.
  - intros o Ho1 Ho2. rewrite Hfind in Ho1, Ho2 by set_solver.
    apply list_elem_of_filter in Ho1 as [Ho1 _]. apply list_elem_of_filter in Ho2 as [Ho2 _].
    rewrite Hi in Ho1. rewrite Hn in Ho2.
    by destruct (hasSubclusterNameLabel _), (hasSubclusterLabelFromVdb _ _).
  - intros -> f. apply sort_if_sorted. unfold fl, has_flag.
    apply negb_true_iff, bool_decide_eq_false_2. intros Hz.
    apply (f_equal (λ z, Z.testbit z 3)) in Hz.
    rewrite Z.land_spec, Z.lor_spec in Hz. simpl in Hz. by rewrite orb_true_r in Hz.
Qed.
