(* ===== verification/PodFacts.v ===== *)
(** * Facts about the pods

    [pkg/controllers/vdb/podfacts.go]: what the operator learns about each pod
    by asking the API server and by running commands in it, and the queries the
    reconcilers make on the facts.

    A loop over the map of facts visits the pods in an order that Go does not
    specify.  The queries therefore work on a list of facts; the theorems hold
    for every order. *)

From Stdlib Require Import Ascii.
From stdpp Require Import base gmap strings pretty sorting numbers list.
From S2P Require Import Prelude GoStrings GoRegexp K8s Types Version KObjects Effects Labels ScFinder.

(** [tristate.TriState] *)
Inductive TriState : Type := TriNone | TriFalse | TriTrue.

#[global] Instance TriState_eq_dec : EqDecision TriState.
Proof. solve_decision. Defined.

Record PodFact : Type := MkPodFact {
  pf_name : NamespacedName;
  podIndex : Z;
  dnsName : string;
  podIP : string;
  subcluster : string;
  isPrimary : bool;
  image : string;
  exists_ : bool;
  isPodRunning : bool;
  managedByParent : bool;
  pendingDelete : bool;
  isInstalled : bool;
  hasStaleAdmintoolsConf : bool;
  dbExists : bool;
  upNode : bool;
  readOnly : bool;
  vnodeName : string;
  compat21NodeName : string;
  eulaAccepted : TriState;
  configLogrotateExists : bool;
  configLogrotateWritable : bool;
  configShareExists : bool;
  isTransient : bool;
  shardSubscriptions : Z;
  hasDCTableAnnotations : bool }.

#[global] Instance PodFact_eq_dec : EqDecision PodFact.
Proof. solve_decision. Defined.

Definition zero_PodFact : PodFact :=
  MkPodFact (MkNamespacedName "" "") 0 "" "" "" false "" false false false false false false false
    false false "" "" TriNone false false false false 0 false.

(** Assignments to the fields that the checks set *)
Definition set_install (pf : PodFact) (installed stale : bool) (compat21 : string) : PodFact :=
  MkPodFact (pf_name pf) (podIndex pf) (dnsName pf) (podIP pf) (subcluster pf) (isPrimary pf)
    (image pf) (exists_ pf) (isPodRunning pf) (managedByParent pf) (pendingDelete pf)
    installed stale (dbExists pf) (upNode pf) (readOnly pf) (vnodeName pf) compat21
    (eulaAccepted pf) (configLogrotateExists pf) (configLogrotateWritable pf)
    (configShareExists pf) (isTransient pf) (shardSubscriptions pf) (hasDCTableAnnotations pf).

Definition set_db (pf : PodFact) (dbexists : bool) (vnode : string) : PodFact :=
  MkPodFact (pf_name pf) (podIndex pf) (dnsName pf) (podIP pf) (subcluster pf) (isPrimary pf)
    (image pf) (exists_ pf) (isPodRunning pf) (managedByParent pf) (pendingDelete pf)
    (isInstalled pf) (hasStaleAdmintoolsConf pf) dbexists (upNode pf) (readOnly pf) vnode
    (compat21NodeName pf) (eulaAccepted pf) (configLogrotateExists pf)
    (configLogrotateWritable pf) (configShareExists pf) (isTransient pf)
    (shardSubscriptions pf) (hasDCTableAnnotations pf).

Definition set_up (pf : PodFact) (up ro : bool) : PodFact :=
  MkPodFact (pf_name pf) (podIndex pf) (dnsName pf) (podIP pf) (subcluster pf) (isPrimary pf)
    (image pf) (exists_ pf) (isPodRunning pf) (managedByParent pf) (pendingDelete pf)
    (isInstalled pf) (hasStaleAdmintoolsConf pf) (dbExists pf) up ro (vnodeName pf)
    (compat21NodeName pf) (eulaAccepted pf) (configLogrotateExists pf)
    (configLogrotateWritable pf) (configShareExists pf) (isTransient pf)
    (shardSubscriptions pf) (hasDCTableAnnotations pf).

Definition set_dirs (pf : PodFact) (eula : TriState) (lrExists lrWritable share : bool) : PodFact :=
  MkPodFact (pf_name pf) (podIndex pf) (dnsName pf) (podIP pf) (subcluster pf) (isPrimary pf)
    (image pf) (exists_ pf) (isPodRunning pf) (managedByParent pf) (pendingDelete pf)
    (isInstalled pf) (hasStaleAdmintoolsConf pf) (dbExists pf) (upNode pf) (readOnly pf)
    (vnodeName pf) (compat21NodeName pf) eula lrExists lrWritable share (isTransient pf)
    (shardSubscriptions pf) (hasDCTableAnnotations pf).

Definition set_shards (pf : PodFact) (n : Z) : PodFact :=
  MkPodFact (pf_name pf) (podIndex pf) (dnsName pf) (podIP pf) (subcluster pf) (isPrimary pf)
    (image pf) (exists_ pf) (isPodRunning pf) (managedByParent pf) (pendingDelete pf)
    (isInstalled pf) (hasStaleAdmintoolsConf pf) (dbExists pf) (upNode pf) (readOnly pf)
    (vnodeName pf) (compat21NodeName pf) (eulaAccepted pf) (configLogrotateExists pf)
    (configLogrotateWritable pf) (configShareExists pf) (isTransient pf) n
    (hasDCTableAnnotations pf).

Record PodFacts : Type := MkPodFacts {
  Detail : gmap NamespacedName PodFact;
  NeedCollection : bool }.

Definition MakePodFacts : PodFacts := MkPodFacts ∅ true.

Definition Invalidate (p : PodFacts) : PodFacts := MkPodFacts (Detail p) true.

(** ** Parsing of command output *)

Definition newline_char : ascii := ascii_of_nat 10.

Definition newline : string := String newline_char EmptyString.

(** [strings.Split(s, "\n")[0]] *)
Definition first_line (s : string) : string := default "" (head (SplitByte s newline_char)).

Definition parseNodeStateAndReadOnly (stdout : string) : result (bool * bool) :=
  if bool_decide (stdout = "") then Ok (false, false) else
  match SplitByte (first_line stdout) "|"%char with
  | [state; ro] => Ok (bool_decide (state = "UP"), bool_decide (ro = "t"))
  | cols => Err (ErrMsg ("expected 2 columns from node query but only got "
                         +:+ Itoa (Z.of_nat (length cols))))
  end.

(** [(v_.+_node\d+)_data]; [.] does not match a newline. *)
Definition not_newline (c : ascii) : bool := negb (bool_decide (c = newline_char)).

Definition node_name_re : re :=
  RSeq (RGroup 1 (RSeq (RLit "v_")
    (RSeq (RPlus (RSet not_newline)) (RSeq (RLit "_node") (RPlus (RSet is_digit))))))
    (RLit "_data").

Definition parseVerticaNodeName (stdout : string) : string :=
  match find_submatch node_name_re stdout with
  | Some caps => group 1 caps
  | None => ""
  end.

Definition setShardSubscription (op : string) (pf : PodFact) : result PodFact :=
  if bool_decide (op = "") then Ok pf else
  match Atoi (first_line op) with
  | None => Err (ErrMsg ("strconv.Atoi: parsing " +:+ first_line op))
  | Some subs => Ok (set_shards pf subs)
  end.

Definition KubernetesVersionAnnotation : string := "kubernetes.io/version".

Definition PodRunning : string := "Running".

Definition checkDCTableAnnotations (pod : Pod) : bool :=
  bool_decide (is_Some (om_Annotations (pod_Meta pod) !! KubernetesVersionAnnotation)).

(** ** Collection *)

Section collect.
Context `{Env}.

(** [if _, _, err := p.PRunner.ExecInPod(...); err == nil] *)
Definition exec_ok (r : exec_result) : bool :=
  match exec_err r with None => true | Some _ => false end.

Definition checkIsInstalled (vdb : VerticaDB) (pf : PodFact) : M (result PodFact) :=
  let '(scs, ok) := FindSubclusterStatus vdb (subcluster pf) in
  let inst := if ok : bool then bool_decide (podIndex pf < scs_InstallCount scs)%Z else false in
  let pf := set_install pf inst (hasStaleAdmintoolsConf pf) (compat21NodeName pf) in
  if negb (isPodRunning pf) then mret (Ok pf) else
  if bool_decide (spec_InitPolicy (vdb_Spec vdb) = CommunalInitPolicyScheduleOnly) then
    if negb (isInstalled pf) then
      r ← ExecInPod (pf_name pf) ["test"; "-f"; AdminToolsConf];
      mret (Ok (set_install pf (exec_ok r) (hasStaleAdmintoolsConf pf) ""))
    else mret (Ok (set_install pf (isInstalled pf) (hasStaleAdmintoolsConf pf) ""))
  else
    let fn := GenInstallerIndicatorFileName vdb in
    r ← ExecInPod (pf_name pf) ["cat"; fn];
    match exec_err r with
    | Some err =>
        if negb (Contains (stderr r) ("cat: " +:+ fn +:+ ": No such file or directory"))
        then mret (Err err)
        else
          let pf := set_install pf false (hasStaleAdmintoolsConf pf) (compat21NodeName pf) in
          r ← ExecInPod (pf_name pf) ["ls"; AdminToolsConf];
          match exec_err r with
          | Some err =>
              if negb (Contains (stderr r) "No such file or directory") then mret (Err err)
              else mret (Ok (set_install pf false false (compat21NodeName pf)))
          | None => mret (Ok (set_install pf false true (compat21NodeName pf)))
          end
    | None =>
        mret (Ok (set_install pf true (hasStaleAdmintoolsConf pf) (TrimSuffix (stdout r) newline)))
    end.

Definition checkEulaAcceptance (vdb : VerticaDB) (pf : PodFact) : M (result PodFact) :=
  if isPodRunning pf then
    r ← ExecInPod (pf_name pf) ["cat"; EulaAcceptanceFile];
    let set b := set_dirs pf b (configLogrotateExists pf) (configLogrotateWritable pf)
                   (configShareExists pf) in
    match exec_err r with
    | Some err =>
        if negb (Contains (stderr r)
                   ("cat: " +:+ EulaAcceptanceFile +:+ ": No such file or directory"))
        then mret (Err err) else mret (Ok (set TriFalse))
    | None => mret (Ok (set TriTrue))
    end
  else mret (Ok pf).

Definition checkLogrotateExists (vdb : VerticaDB) (pf : PodFact) : M (result PodFact) :=
  if isPodRunning pf then
    r ← ExecInPod (pf_name pf) ["test"; "-d"; ConfigLogrotatePath];
    mret (Ok (if exec_ok r then set_dirs pf (eulaAccepted pf) true (configLogrotateWritable pf)
                                  (configShareExists pf) else pf))
  else mret (Ok pf).

Definition checkIsLogrotateWritable (vdb : VerticaDB) (pf : PodFact) : M (result PodFact) :=
  if isPodRunning pf then
    r ← ExecInPod (pf_name pf) ["test"; "-w"; ConfigLogrotatePath];
    mret (Ok (if exec_ok r then set_dirs pf (eulaAccepted pf) (configLogrotateExists pf) true
                                  (configShareExists pf) else pf))
  else mret (Ok pf).

Definition checkThatConfigShareExists (vdb : VerticaDB) (pf : PodFact) : M (result PodFact) :=
  if isPodRunning pf then
    r ← ExecInPod (pf_name pf) ["test"; "-d"; ConfigSharePath];
    mret (Ok (if exec_ok r then set_dirs pf (eulaAccepted pf) (configLogrotateExists pf)
                                  (configLogrotateWritable pf) true else pf))
  else mret (Ok pf).

Definition checkShardSubscriptions (vdb : VerticaDB) (pf : PodFact) : M (result PodFact) :=
  if negb (isPodRunning pf) || negb (dbExists pf) then mret (Ok pf) else
  r ← ExecVSQL (pf_name pf) ["-tAc";
    "select count(*) from v_catalog.node_subscriptions where node_name = '" +:+ vnodeName pf
      +:+ "' and shard_name != 'replica'"];
  match exec_err r with
  | Some _ => mret (Ok pf)
  | None => mret (setShardSubscription (stdout r) pf)
  end.

Definition checkIsDBCreated (vdb : VerticaDB) (pf : PodFact) : M (result PodFact) :=
  let '(scs, ok) := FindSubclusterStatus vdb (subcluster pf) in
  let pf :=
    if ok : bool then
      set_db pf (bool_decide (podIndex pf < scs_AddedToDBCount scs)%Z)
        (match scs_Detail scs !! Z.to_nat (podIndex pf) with
         | Some d => vps_VNodeName d
         | None => vnodeName pf
         end)
    else set_db pf false (vnodeName pf) in
  if negb (isPodRunning pf) then mret (Ok pf) else
  r ← ExecInPod (pf_name pf) ["bash"; "-c";
    "ls -d " +:+ GetDBDataPath vdb +:+ "/v_" +:+ ToLower (spec_DBName (vdb_Spec vdb))
      +:+ "_node????_data"];
  match exec_err r with
  | Some err =>
      if negb (Contains (stderr r) "No such file or directory") then mret (Err err)
      else mret (Ok (set_db pf false (vnodeName pf)))
  | None => mret (Ok (set_db pf true (parseVerticaNodeName (stdout r))))
  end.

Definition checkIfNodeIsUp (pf : PodFact) : M (result PodFact) :=
  r ← ExecVSQL (pf_name pf) ["-c"; "select 1"];
  match exec_err r with
  | Some err =>
      if negb (Contains (stderr r) "vsql: could not connect to server:") then mret (Err err)
      else mret (Ok (set_up pf false false))
  | None => mret (Ok (set_up pf true false))
  end.

Definition queryNodeStatus (pf : PodFact) : M (result PodFact) :=
  r ← ExecVSQL (pf_name pf) ["-tAc";
    "select node_state, is_readonly from nodes where node_name in (select node_name from current_session)"];
  match exec_err r with
  | Some _ => mret (Ok (set_up pf false false))
  | None =>
      match parseNodeStateAndReadOnly (stdout r) with
      | Err e => mret (Err e)
      | Ok (up, ro) => mret (Ok (set_up pf up ro))
      end
  end.

(** The version constant parses, so that the comparison does not panic
    ([readonly_version_no_panic]). *)
Definition version_has_readonly (vdb : VerticaDB) : bool :=
  match MakeInfoFromVdb vdb with
  | Some vinf =>
      match IsEqualOrNewer vinf NodesHaveReadOnlyStateVersion with
      | Ret b => b
      | Panic _ => false
      end
  | None => false
  end.

Definition checkIfNodeIsUpAndReadOnly (vdb : VerticaDB) (pf : PodFact) : M (result PodFact) :=
  if negb (dbExists pf) || negb (isPodRunning pf) then mret (Ok (set_up pf false false))
  else if version_has_readonly vdb then queryNodeStatus pf else checkIfNodeIsUp pf.

(** The functions run one after the other until one fails. *)
Definition checks (vdb : VerticaDB) : list (PodFact → M (result PodFact)) :=
  [checkIsInstalled vdb; checkIsDBCreated vdb; checkIfNodeIsUpAndReadOnly vdb;
   checkEulaAcceptance vdb; checkLogrotateExists vdb; checkIsLogrotateWritable vdb;
   checkThatConfigShareExists vdb; checkShardSubscriptions vdb].

Fixpoint run_checks (fns : list (PodFact → M (result PodFact))) (pf : PodFact) : M (result PodFact) :=
  match fns with
  | [] => mret (Ok pf)
  | fn :: fns =>
      r ← fn pf;
      match r with
      | Err e => mret (Err e)
      | Ok pf => run_checks fns pf
      end
  end.

(** What is known before the checks: of the pod if it exists, of its parent *)
Definition initial_fact (vdb : VerticaDB) (sc : Subcluster) (replicas : option Z) (i : Z)
    (pod : option Pod) : PodFact :=
  let managed := match replicas with Some r => bool_decide (i < r)%Z | None => false end in
  match pod with
  | None =>
      MkPodFact (GenPodName vdb sc i) i "" "" (sc_Name sc) (sc_IsPrimary sc) "" false false managed
        false false false false false false "" "" TriNone false false false false 0 false
  | Some pod =>
      MkPodFact (GenPodName vdb sc i) i (pod_Hostname pod +:+ "." +:+ pod_Subdomain pod)
        (pod_PodIP pod) (sc_Name sc) (sc_IsPrimary sc) (pod_Image pod) true
        (bool_decide (pod_Phase pod = PodRunning)) managed
        (bool_decide (sc_Size sc ≤ i)%Z) false false false false false "" "" TriNone false false
        false
        (default false (ParseBool (default "" (om_Labels (pod_Meta pod) !! SubclusterTransientLabel))))
        0 (checkDCTableAnnotations pod)
  end.

Definition collectPodByStsIndex (vdb : VerticaDB) (sc : Subcluster) (replicas : option Z) (i : Z)
    (p : PodFacts) : M (PodFacts * option go_error) :=
  r ← GetPod (GenPodName vdb sc i);
  match r with
  | Err (ErrConflict | ErrMsg _) as e => mret (p, match e with Err e => Some e | Ok _ => None end)
  | _ =>
      let pod := match r with Ok pod => Some pod | Err _ => None end in
      r ← run_checks (checks vdb) (initial_fact vdb sc replicas i pod);
      match r with
      | Err e => mret (p, Some e)
      | Ok pf => mret (MkPodFacts (<[pf_name pf := pf]> (Detail p)) (NeedCollection p), None)
      end
  end.

(** [for i := 0; i < n; i++] with an early return on an error *)
Fixpoint collect_pods (vdb : VerticaDB) (sc : Subcluster) (replicas : option Z) (i : Z) (n : nat)
    (p : PodFacts) : M (PodFacts * option go_error) :=
  match n with
  | 0 => mret (p, None)
  | S n =>
      r ← collectPodByStsIndex vdb sc replicas i p;
      let '(p, err) := r in
      match err with
      | Some e => mret (p, Some e)
      | None => collect_pods vdb sc replicas (i + 1) n p
      end
  end.

Definition maxStsSize (sc : Subcluster) (replicas : option Z) : Z :=
  match replicas with
  | Some r => if bool_decide (sc_Size sc < r)%Z then r else sc_Size sc
  | None => sc_Size sc
  end.

Definition collectSubcluster (vdb : VerticaDB) (sc : Subcluster) (p : PodFacts)
    : M (PodFacts * option go_error) :=
  r ← GetSts (GenStsName vdb sc);
  match r with
  | Err (ErrConflict | ErrMsg _) =>
      mret (p, Some (ErrMsg ("could not fetch statefulset for pod fact collection " +:+ sc_Name sc)))
  | _ =>
      let replicas := match r with Ok sts => sts_Replicas sts | Err _ => None end in
      collect_pods vdb sc replicas 0 (Z.to_nat (maxStsSize sc replicas)) p
  end.

Fixpoint collect_subclusters (vdb : VerticaDB) (scs : list Subcluster) (p : PodFacts)
    : M (PodFacts * option go_error) :=
  match scs with
  | [] => mret (MkPodFacts (Detail p) false, None)
  | sc :: scs =>
      r ← collectSubcluster vdb sc p;
      let '(p, err) := r in
      match err with
      | Some e => mret (p, Some e)
      | None => collect_subclusters vdb scs p
      end
  end.

Definition Collect (vdb : VerticaDB) (p : PodFacts) : M (PodFacts * option go_error) :=
  if negb (NeedCollection p) then mret (p, None) else
  let p := MkPodFacts ∅ (NeedCollection p) in
  r ← FindSubclusters vdb FindAll;
  match r with
  | Err _ => mret (p, None)
  | Ok subclusters => collect_subclusters vdb subclusters p
  end.

End collect.

(** ** Queries *)

Definition filterPods (filterFunc : PodFact → bool) (pods : list PodFact) : list PodFact :=
  filter (λ v, filterFunc v = true) pods.

(** The first pod that satisfies the test, or the zero value *)
Definition find_pod (test : PodFact → bool) (pods : list PodFact) : PodFact * bool :=
  match list_find (λ v, test v = true) pods with
  | Some (_, v) => (v, true)
  | None => (zero_PodFact, false)
  end.

Definition doesDBExist (pods : list PodFact) : bool := existsb dbExists pods.

Definition findPodsWithMissingDB (scName : string) (pods : list PodFact) : list PodFact * bool :=
  let missing v := bool_decide (subcluster v = scName) && negb (dbExists v) in
  (sort_by dnsName (filterPods missing pods),
   existsb (λ v, missing v && negb (isPodRunning v)) pods).

Definition findPodToRunVsql (allowReadOnly : bool) (scName : string) (pods : list PodFact)
    : PodFact * bool :=
  find_pod (λ v, negb (negb (bool_decide (scName = "")) && negb (bool_decide (subcluster v = scName)))
                 && (upNode v && (allowReadOnly || negb (readOnly v)))) pods.

(** The three loops may each see another order. *)
Definition findPodToRunAdmintoolsAny (pods1 pods2 pods3 : list PodFact) : PodFact * bool :=
  let r1 := find_pod (λ v, upNode v && negb (readOnly v)) pods1 in
  if snd r1 then r1 else
  let r2 := find_pod upNode pods2 in
  if snd r2 then r2 else
  find_pod (λ v, isInstalled v && isPodRunning v) pods3.

Definition findPodToRunAdmintoolsOffline (pods : list PodFact) : PodFact * bool :=
  find_pod (λ v, isInstalled v && isPodRunning v && negb (upNode v)) pods.

Definition findRunningPod (pods : list PodFact) : PodFact * bool := find_pod isPodRunning pods.

Definition restartable (restartReadOnly restartTransient : bool) (v : PodFact) : bool :=
  if negb restartTransient && isTransient v then false
  else (negb (upNode v) || (restartReadOnly && readOnly v)) && dbExists v && isPodRunning v
       && hasDCTableAnnotations v.

Definition findRestartablePods (restartReadOnly restartTransient : bool) (pods : list PodFact)
    : list PodFact :=
  filterPods (restartable restartReadOnly restartTransient) pods.

Definition findInstalledPods (pods : list PodFact) : list PodFact :=
  filterPods (λ v, isInstalled v && isPodRunning v) pods.

Definition findReIPPods (onlyPodsWithoutDBs : bool) (pods : list PodFact) : list PodFact :=
  filterPods (λ pod,
    if negb (exists_ pod) || negb (isPodRunning pod) || negb (isInstalled pod) then false
    else if onlyPodsWithoutDBs && dbExists pod then false
    else true) pods.

Definition areAllPodsRunningAndZeroInstalled (pods : list PodFact) : bool :=
  negb (existsb (λ v, ((negb (exists_ v) || negb (isPodRunning v)) && managedByParent v)
                      || isInstalled v) pods).

Definition countPods (countFunc : PodFact → Z) (pods : list PodFact) : Z :=
  foldl (λ count v, wrap64 (count + countFunc v)) 0%Z pods.

Definition count_if (test : PodFact → bool) (pods : list PodFact) : Z :=
  countPods (λ v, if test v then 1 else 0)%Z pods.

Definition countRunningAndInstalled : list PodFact → Z :=
  count_if (λ v, isPodRunning v && isInstalled v).

Definition countInstalledAndNotRestartable : list PodFact → Z :=
  count_if (λ v, isInstalled v && managedByParent v
                 && (negb (isPodRunning v) || negb (hasDCTableAnnotations v))).

Definition countUpPrimaryNodes : list PodFact → Z := count_if (λ v, upNode v && isPrimary v).

Definition countNotReadOnlyWithOldImage (newImage : string) : list PodFact → Z :=
  count_if (λ v, isPodRunning v && upNode v && negb (readOnly v)
                 && negb (bool_decide (image v = newImage))).

Definition getUpNodeCount : list PodFact → Z := count_if upNode.

Definition getUpNodeAndNotReadOnlyCount : list PodFact → Z :=
  count_if (λ v, upNode v && negb (readOnly v)).

Definition genPodNames (pods : list PodFact) : string :=
  Join ((λ pod, nn_Name (pf_name pod)) <$> pods) ", ".

Definition anyInstalledPodsNotRunning (pods : list PodFact) : bool * NamespacedName :=
  let r := find_pod (λ v, negb (isPodRunning v) && isInstalled v) pods in
  (snd r, pf_name (fst r)).

Definition anyUninstalledTransientPodsNotRunning (pods : list PodFact) : bool * NamespacedName :=
  let r := find_pod (λ v, isTransient v && negb (isPodRunning v) && negb (isInstalled v)) pods in
  (snd r, pf_name (fst r)).
