(* ===== verification/PodFactsSpec.v ===== *)
(** * Correctness of the pod facts

    What every collected fact satisfies, which pods are covered, what the
    parsers accept, and what the queries return for every iteration order. *)

From Stdlib Require Import Ascii.
From stdpp Require Import base gmap strings pretty sorting numbers list.
From S2P Require Import Prelude GoStrings GoRegexp K8s Types Version KObjects Effects Labels ScFinder PodFacts.

(** ** Consistent facts *)

(** A node is only seen up, with shards, with directories or with an accepted
    license where the pod runs, the database is only up where it exists, and a
    stale admintools.conf excludes an installation. *)
Record fact_ok (vdb : VerticaDB) (pf : PodFact) : Prop := {
  running_exists : isPodRunning pf = true → exists_ pf = true;
  up_running : upNode pf = true → dbExists pf = true ∧ isPodRunning pf = true;
  readonly_running : readOnly pf = true → dbExists pf = true ∧ isPodRunning pf = true;
  shards_running : shardSubscriptions pf ≠ 0%Z → dbExists pf = true ∧ isPodRunning pf = true;
  stale_not_installed : hasStaleAdmintoolsConf pf = true → isPodRunning pf = true ∧ isInstalled pf = false;
  compat21_installed : compat21NodeName pf ≠ "" →
    isPodRunning pf = true ∧ isInstalled pf = true ∧
    spec_InitPolicy (vdb_Spec vdb) ≠ CommunalInitPolicyScheduleOnly;
  eula_running : eulaAccepted pf ≠ TriNone → isPodRunning pf = true;
  dirs_running : configLogrotateExists pf || configLogrotateWritable pf || configShareExists pf = true →
    isPodRunning pf = true }.

(** The same pod: what the checks never change *)
Definition same_pod (pf pf' : PodFact) : Prop :=
  pf_name pf' = pf_name pf ∧ podIndex pf' = podIndex pf ∧ subcluster pf' = subcluster pf ∧
  isPodRunning pf' = isPodRunning pf.

(** What a successful check establishes *)
Definition ok_post (Q : PodFact → Prop) (r : result PodFact) (_ : Trace) : Prop :=
  match r with Ok pf => Q pf | Err _ => True end.

(** Facts before any check that reads the database or the installation *)
Definition no_db_yet (pf : PodFact) : Prop :=
  upNode pf = false ∧ readOnly pf = false ∧ shardSubscriptions pf = 0%Z.

Definition no_install_yet (pf : PodFact) : Prop :=
  hasStaleAdmintoolsConf pf = false ∧ compat21NodeName pf = "".

Lemma initial_fact_ok vdb sc replicas i pod :
  let pf := initial_fact vdb sc replicas i pod in
  fact_ok vdb pf ∧ no_db_yet pf ∧ no_install_yet pf ∧
  pf_name pf = GenPodName vdb sc i ∧ podIndex pf = i ∧ subcluster pf = sc_Name sc.
Proof. destruct pod; by repeat split. Qed.

(** Close the goals on a fact with some fields assigned. *)
Ltac fact_solve :=
  repeat match goal with
  | H : fact_ok _ _ |- _ => destruct H
  | H : no_db_yet _ |- _ => destruct H as (? & ? & ?)
  | H : no_install_yet _ |- _ => destruct H as (? & ?)
  end;
  repeat split; simpl in *; intros; try congruence; try done; auto; try tauto.

Section checks.
Context `{E : Env} (vdb : VerticaDB).

Lemma checkIsInstalled_ok pf t :
  fact_ok vdb pf → no_db_yet pf → no_install_yet pf →
  wp (checkIsInstalled vdb pf) t (ok_post (λ pf',
    fact_ok vdb pf' ∧ no_db_yet pf' ∧ same_pod pf pf')).
Proof.
  intros Hok Hdb Hin. unfold checkIsInstalled. wp_calls.
  destruct (FindSubclusterStatus _ _) as [scs ok]. simpl.
  destruct (isPodRunning pf) eqn:Hrun; simpl.
  2: { wp_step. simpl. fact_solve. }
  case_bool_decide as Hpol.
  - destruct (negb _); [do 2 wp_step|]; wp_step; simpl; fact_solve.
  - do 2 wp_step. destruct (exec_err _) as [err|].
    + destruct (negb _); [by wp_step|]. do 2 wp_step.
      destruct (exec_err _) as [err'|]; [destruct (negb _)|]; wp_step; simpl; fact_solve.
    + wp_step. simpl. fact_solve.
Qed.

Lemma checkIsDBCreated_ok pf t :
  fact_ok vdb pf → no_db_yet pf →
  wp (checkIsDBCreated vdb pf) t (ok_post (λ pf', fact_ok vdb pf' ∧ same_pod pf pf')).
Proof.
  intros Hok Hdb. unfold checkIsDBCreated. wp_calls.
  destruct (FindSubclusterStatus _ _) as [scs ok].
  set (pf1 := if ok then _ else _).
  assert (fact_ok vdb pf1 ∧ no_db_yet pf1 ∧ same_pod pf pf1) as (Hok1 & Hdb1 & Hsame).
  { unfold pf1. destruct ok; fact_solve. }
  destruct (negb _); [by wp_step|]. do 2 wp_step.
  destruct Hsame as (Hs1 & Hs2 & Hs3 & Hs4).
  destruct (exec_err _) as [err|]; [destruct (negb _); [by wp_step|]|]; wp_step; simpl; fact_solve.
Qed.

Lemma checkIfNodeIsUpAndReadOnly_ok pf t :
  fact_ok vdb pf →
  wp (checkIfNodeIsUpAndReadOnly vdb pf) t (ok_post (λ pf', fact_ok vdb pf' ∧ same_pod pf pf')).
Proof.
  intros Hok. unfold checkIfNodeIsUpAndReadOnly, queryNodeStatus, checkIfNodeIsUp. wp_calls.
  destruct (dbExists pf) eqn:Hdb, (isPodRunning pf) eqn:Hrun; simpl;
    try (wp_step; simpl; fact_solve; fail).
  destruct (version_has_readonly vdb); do 2 wp_step; destruct (exec_err _) as [err|].
  - wp_step. simpl. fact_solve.
  - destruct (parseNodeStateAndReadOnly _) as [[up ro]|]; wp_step; simpl; fact_solve.
  - destruct (negb _); wp_step; simpl; fact_solve.
  - wp_step. simpl. fact_solve.
Qed.

(** The checks of files and directories only run where the pod runs. *)
Lemma set_dirs_ok pf eula a b c :
  fact_ok vdb pf → isPodRunning pf = true → fact_ok vdb (set_dirs pf eula a b c).
Proof. intros Hok Hrun. fact_solve. Qed.

Lemma dir_checks_ok pf t :
  fact_ok vdb pf →
  let Q := ok_post (λ pf', fact_ok vdb pf' ∧ same_pod pf pf') in
  wp (checkEulaAcceptance vdb pf) t Q ∧ wp (checkLogrotateExists vdb pf) t Q ∧
  wp (checkIsLogrotateWritable vdb pf) t Q ∧ wp (checkThatConfigShareExists vdb pf) t Q.
Proof.
  intros Hok Q.
  assert (∀ eula a b c, isPodRunning pf = true → Q (Ok (set_dirs pf eula a b c)) t) as Hset.
  { intros eula a b c Hrun. split; [by apply set_dirs_ok|done]. }
  assert (Q (Ok pf) t) as Hsame by done.
  unfold checkEulaAcceptance, checkLogrotateExists, checkIsLogrotateWritable,
    checkThatConfigShareExists. wp_calls.
  destruct (isPodRunning pf) eqn:Hrun; [|done]. split_and!; do 2 wp_step.
  - destruct (exec_err _); [destruct (negb _); [by wp_step|]|]; wp_step; by apply Hset.
  - wp_step. destruct (exec_ok _); [by apply Hset|done].
  - wp_step. destruct (exec_ok _); [by apply Hset|done].
  - wp_step. destruct (exec_ok _); [by apply Hset|done].
Qed.

Lemma checkShardSubscriptions_ok pf t :
  fact_ok vdb pf →
  wp (checkShardSubscriptions vdb pf) t (ok_post (λ pf', fact_ok vdb pf' ∧ same_pod pf pf')).
Proof.
  intros Hok. unfold checkShardSubscriptions, setShardSubscription. wp_calls.
  destruct (isPodRunning pf) eqn:Hrun, (dbExists pf) eqn:Hdb; simpl;
    try (wp_step; simpl; fact_solve; fail).
  do 2 wp_step. destruct (exec_err _); wp_step; simpl; [fact_solve|].
  case_bool_decide; simpl; [fact_solve|]. destruct (Atoi _); simpl; fact_solve.
Qed.

Lemma same_pod_trans a b c : same_pod a b → same_pod b c → same_pod a c.
Proof. unfold same_pod. intuition congruence. Qed.

(** One check after another *)
Lemma run_checks_cons (Q : PodFact → Prop) fn fns pf t (R : PodFact → Prop) :
  wp (fn pf) t (ok_post R) → (∀ pf' t', R pf' → wp (run_checks fns pf') t' (ok_post Q)) →
  wp (run_checks (fn :: fns) pf) t (ok_post Q).
Proof.
  intros Hfn Hrest. simpl. wp_step. eapply wp_mono; [|exact Hfn].
  intros [pf'|e] t' HR; [by apply Hrest|by wp_step].
Qed.

Lemma run_checks_ok pf t :
  fact_ok vdb pf → no_db_yet pf → no_install_yet pf →
  wp (run_checks (checks vdb) pf) t (ok_post (λ pf', fact_ok vdb pf' ∧ same_pod pf pf')).
Proof.
  intros Hok Hdb Hin. unfold checks.
  eapply run_checks_cons; [by apply checkIsInstalled_ok|]. intros p1 t1 (H1 & Hd1 & S1).
  eapply run_checks_cons; [by apply checkIsDBCreated_ok|]. intros p2 t2 (H2 & S2).
  eapply run_checks_cons; [by apply checkIfNodeIsUpAndReadOnly_ok|]. intros p3 t3 (H3 & S3).
  eapply run_checks_cons; [by apply dir_checks_ok|]. intros p4 t4 (H4 & S4).
  eapply run_checks_cons; [by apply dir_checks_ok|]. intros p5 t5 (H5 & S5).
  eapply run_checks_cons; [by apply dir_checks_ok|]. intros p6 t6 (H6 & S6).
  eapply run_checks_cons; [by apply dir_checks_ok|]. intros p7 t7 (H7 & S7).
  eapply run_checks_cons; [by apply checkShardSubscriptions_ok|]. intros p8 t8 (H8 & S8).
  simpl. wp_step. split; [done|].
  do 7 (eapply same_pod_trans; [eassumption|]). done.
Qed.

(** ** The map of facts *)

(** Every fact is consistent and stored under the name of its pod. *)
Definition facts_ok (p : PodFacts) : Prop :=
  ∀ nm pf, Detail p !! nm = Some pf → pf_name pf = nm ∧ fact_ok vdb pf.

(** [n] pods of the subcluster from index [i] on *)
Definition covers (p : PodFacts) (sc : Subcluster) (i : Z) (n : nat) : Prop :=
  ∀ j, (i ≤ j < i + Z.of_nat n)%Z → is_Some (Detail p !! GenPodName vdb sc j).

Definition only_grows (p p' : PodFacts) : Prop := dom (Detail p) ⊆ dom (Detail p').

#[local] Instance only_grows_preorder : PreOrder only_grows.
Proof. split; unfold only_grows; [intros p|intros p1 p2 p3]; set_solver. Qed.

Lemma collectPodByStsIndex_ok sc replicas i p t :
  facts_ok p →
  wp (collectPodByStsIndex vdb sc replicas i p) t (λ r _,
    facts_ok (fst r) ∧ only_grows p (fst r) ∧
    (snd r = None → is_Some (Detail (fst r) !! GenPodName vdb sc i))).
Proof.
  intros Hp. unfold collectPodByStsIndex. wp_calls. do 2 wp_step.
  assert (∀ pod t, wp (r ← run_checks (checks vdb) (initial_fact vdb sc replicas i pod);
      match r with
      | Err e => mret (p, Some e)
      | Ok pf => mret (MkPodFacts (<[pf_name pf := pf]> (Detail p)) (NeedCollection p), None)
      end) t (λ r _, facts_ok (fst r) ∧ only_grows p (fst r) ∧
        (snd r = None → is_Some (Detail (fst r) !! GenPodName vdb sc i)))) as Hrun.
  { intros pod t'. destruct (initial_fact_ok vdb sc replicas i pod) as (H1 & H2 & H3 & Hn & _).
    wp_step. eapply wp_mono; [|by apply run_checks_ok].
    intros [pf|e] t'' Hpf; wp_step; simpl; [|by split_and!]. destruct Hpf as (Hok & Hnm & _).
    rewrite Hn in Hnm. split_and!.
    - intros nm pf' Hl. simpl in Hl. apply lookup_insert_Some in Hl as [[<- <-]|[_ Hl]]; [done|].
      by apply Hp.
    - unfold only_grows. simpl. rewrite dom_insert. set_solver.
    - intros _. rewrite Hnm, lookup_insert_eq. eauto. }
  destruct (env_get_pod t _) as [pod|[]]; first [apply Hrun|wp_step; simpl; by split_and!].
Qed.

Lemma only_grows_covers p p' sc i n : only_grows p p' → covers p sc i n → covers p' sc i n.
Proof.
  intros Hg Hc j Hj. apply elem_of_dom, Hg, elem_of_dom. by apply Hc.
Qed.

Lemma collect_pods_ok sc replicas i n p t :
  facts_ok p →
  wp (collect_pods vdb sc replicas i n p) t (λ r _,
    facts_ok (fst r) ∧ only_grows p (fst r) ∧ (snd r = None → covers (fst r) sc i n)).
Proof.
  revert i p t. induction n as [|n IH]; intros i p t Hp; simpl.
  { wp_step. split_and!; [done|done|]. intros _ j Hj. lia. }
  wp_step. eapply wp_mono; [|by apply collectPodByStsIndex_ok].
  intros [p1 err] t1 (Hp1 & Hg1 & Hi). simpl in *. destruct err as [e|]; [by wp_step|].
  eapply wp_mono; [|by apply IH]. intros [p2 err] t2 (Hp2 & Hg2 & Hc). simpl in *.
  split_and!; [done|by etrans|]. intros He j Hj. destruct (decide (j = i)) as [->|Hne].
  - apply elem_of_dom, Hg2, elem_of_dom. by apply Hi.
  - apply Hc; [done|lia].
Qed.

Lemma collectSubcluster_ok sc p t :
  facts_ok p →
  wp (collectSubcluster vdb sc p) t (λ r _,
    facts_ok (fst r) ∧ only_grows p (fst r) ∧
    (snd r = None → covers (fst r) sc 0 (Z.to_nat (sc_Size sc)))).
Proof.
  intros Hp. unfold collectSubcluster. wp_calls. do 2 wp_step.
  assert (∀ replicas t, wp (collect_pods vdb sc replicas 0 (Z.to_nat (maxStsSize sc replicas)) p) t
    (λ r _, facts_ok (fst r) ∧ only_grows p (fst r) ∧
       (snd r = None → covers (fst r) sc 0 (Z.to_nat (sc_Size sc))))) as Hc.
  { intros replicas t'. eapply wp_mono; [|by apply collect_pods_ok].
    intros [p' err] t'' (H1 & H2 & H3). split_and!; [done|done|]. intros He j Hj.
    apply H3; [done|]. unfold maxStsSize. destruct replicas; [case_bool_decide|]; lia. }
  destruct (env_get_sts t _) as [sts|[]]; first [apply Hc|wp_step; simpl; by split_and!].
Qed.

Lemma collect_subclusters_ok scs p t :
  facts_ok p →
  wp (collect_subclusters vdb scs p) t (λ r _,
    facts_ok (fst r) ∧ only_grows p (fst r) ∧
    (snd r = None → NeedCollection (fst r) = false ∧
       ∀ sc, sc ∈ scs → covers (fst r) sc 0 (Z.to_nat (sc_Size sc)))).
Proof.
  revert p t. induction scs as [|sc scs IH]; intros p t Hp; simpl.
  { wp_step. split_and!; [done|unfold only_grows; simpl; set_solver|]. intros _.
    split; [done|]. by intros sc ?%elem_of_nil. }
  wp_step. eapply wp_mono; [|by apply collectSubcluster_ok].
  intros [p1 err] t1 (Hp1 & Hg1 & Hc1). simpl in *. destruct err as [e|]; [by wp_step|].
  eapply wp_mono; [|by apply IH]. intros [p2 err] t2 (Hp2 & Hg2 & Hc2). simpl in *.
  split_and!; [done|by etrans|]. intros He. destruct (Hc2 He) as [Hn Hc].
  split; [done|]. intros sc' Hin. apply elem_of_cons in Hin as [->|Hin]; [|by apply Hc].
  eapply only_grows_covers; [done|]. by apply Hc1.
Qed.

Lemma Collect_ok p t :
  NeedCollection p = true →
  wp (Collect vdb p) t (λ r _, facts_ok (fst r) ∧
    (snd r = None → NeedCollection (fst r) = false →
     ∀ sc, sc ∈ spec_Subclusters (vdb_Spec vdb) → covers (fst r) sc 0 (Z.to_nat (sc_Size sc)))).
Proof.
  intros Hn. unfold Collect, FindSubclusters, FindStatefulSets. rewrite Hn. simpl. wp_calls.
  assert (facts_ok (MkPodFacts ∅ true)) as Hempty.
  { intros nm pf. simpl. by rewrite lookup_empty. }
  unfold has_flag. simpl. do 4 wp_step. destruct (env_list_sts t _ _) as [objs|e].
  - wp_step. wp_step. simpl.
    eapply wp_mono; [|by apply collect_subclusters_ok].
    intros [p' err] t' (H1 & _ & H3). split; [done|]. simpl in *. intros He _ sc Hsc.
    apply H3; [done|]. apply elem_of_app. by left.
  - wp_step. wp_step. simpl. wp_step. by split.
Qed.

End checks.

(** ** Queries *)

Lemma find_pod_true test pods v :
  find_pod test pods = (v, true) → v ∈ pods ∧ test v = true.
Proof.
  unfold find_pod. destruct (list_find _ pods) as [[i w]|] eqn:Hf; [|done].
  intros [= <-]. apply list_find_Some in Hf as (Hl & Ht & _). split; [|done].
  by eapply list_elem_of_lookup_2.
Qed.

Lemma find_pod_false test pods v w :
  find_pod test pods = (v, false) → w ∈ pods → test w = false.
Proof.
  unfold find_pod. destruct (list_find _ pods) as [[i x]|] eqn:Hf; [done|].
  intros _ Hw. apply list_find_None in Hf. apply not_true_iff_false.
  by apply (proj1 (Forall_forall _ _) Hf).
Qed.

Lemma count_if_length test pods :
  (Z.of_nat (length pods) < 2 ^ 63)%Z →
  count_if test pods = Z.of_nat (length (filterPods test pods)).
Proof.
  intros Hlen. unfold count_if, countPods, filterPods.
  assert (∀ acc, (0 ≤ acc)%Z → (acc + Z.of_nat (length pods) < 2 ^ 63)%Z →
    foldl (λ count v, wrap64 (count + (if test v then 1 else 0))) acc pods =
    (acc + Z.of_nat (length (filter (λ v, test v = true) pods)))%Z) as Hgen.
  { clear Hlen. induction pods as [|v pods IH]; intros acc Hacc Hl; simpl in *; [lia|].
    rewrite filter_cons. destruct (test v).
    - rewrite decide_True by done. rewrite wrap64_small by (unfold int64_range; lia).
      rewrite IH by lia. simpl. lia.
    - rewrite decide_False by done. rewrite wrap64_small by (unfold int64_range; lia).
      rewrite IH by lia. lia. }
  rewrite Hgen by lia. lia.
Qed.

Lemma count_if_zero test pods :
  (Z.of_nat (length pods) < 2 ^ 63)%Z →
  count_if test pods = 0%Z ↔ ∀ v, v ∈ pods → test v = false.
Proof.
  intros Hlen. rewrite count_if_length by done. split.
  - intros Hz v Hv. apply not_true_iff_false. intros Ht.
    assert (v ∈ filterPods test pods) as Hin by (by apply list_elem_of_filter).
    destruct (filterPods test pods); [by apply elem_of_nil in Hin|simpl in Hz; lia].
  - intros Hall. enough (filterPods test pods = []) as -> by done.
    apply elem_of_nil_inv. intros v Hv. apply list_elem_of_filter in Hv as [Ht Hv].
    by rewrite Hall in Ht.
Qed.

Lemma filterPods_perm test pods pods' : pods ≡ₚ pods' → filterPods test pods ≡ₚ filterPods test pods'.
Proof. intros Hp. unfold filterPods. by rewrite Hp. Qed.

Lemma count_if_perm test pods pods' :
  (Z.of_nat (length pods) < 2 ^ 63)%Z → pods ≡ₚ pods' → count_if test pods = count_if test pods'.
Proof.
  intros Hlen Hp. rewrite !count_if_length by (by rewrite <- ?Hp).
  by rewrite (filterPods_perm _ _ _ Hp).
Qed.

Lemma existsb_perm {A} (f : A → bool) l k : l ≡ₚ k → existsb f l = existsb f k.
Proof.
  induction 1; simpl; [done|by f_equal|by destruct (f x), (f y)|congruence].
Qed.

Lemma NoDup_fmap_filter {A B} (f : A → B) (P : A → Prop) `{∀ x, Decision (P x)} l :
  NoDup (f <$> l) → NoDup (f <$> filter P l).
Proof.
  induction l as [|x l IH]; [done|]. rewrite fmap_cons, NoDup_cons. intros [Hx Hl].
  rewrite filter_cons. destruct (decide (P x)); [|by apply IH].
  rewrite fmap_cons, NoDup_cons. split; [|by apply IH]. intros Hin. apply Hx.
  apply list_elem_of_fmap in Hin as (y & Hy & Hin). apply list_elem_of_filter in Hin as [_ Hin].
  apply list_elem_of_fmap. eauto.
Qed.

Lemma readonly_version_no_panic vdb vinf :
  MakeInfoFromVdb vdb = Some vinf →
  IsEqualOrNewer vinf NodesHaveReadOnlyStateVersion =
    Ret (IsEqualOrNewer_components (info_Components vinf) (MkComponents 11 0 2)).
Proof. done. Qed.

(** ** The calls of a collection *)

(** It reads objects, queries the database and runs commands that read. *)
Definition collect_call (a : action) : Prop :=
  match a with
  | AExecInPod _ cmd => head cmd ∈ [Some "test"; Some "cat"; Some "ls"; Some "bash"]
  | AExecVSQL _ _ | AGetSts _ | AGetPod _ | AListSts _ _ => True
  | _ => False
  end.

Ltac call_tac := first [exact I | by apply (bool_decide_unpack _)].

Ltac call_steps := repeat only_step call_tac.

Section calls.
Context `{E : Env}.

Lemma calls_checks vdb : Forall (λ fn, ∀ pf, only collect_call (fn pf)) (checks vdb).
Proof.
  unfold checks. rewrite !Forall_cons. split_and!; [..|done]; intros v;
    unfold checkIsInstalled, checkIsDBCreated, checkIfNodeIsUpAndReadOnly, queryNodeStatus,
      checkIfNodeIsUp, checkEulaAcceptance, checkLogrotateExists, checkIsLogrotateWritable,
      checkThatConfigShareExists, checkShardSubscriptions; wp_calls; call_steps.
Qed.

Lemma calls_run_checks fns pf :
  Forall (λ fn, ∀ pf, only collect_call (fn pf)) fns → only collect_call (run_checks fns pf).
Proof.
  intros Hf. revert pf. induction Hf as [|fn fns Hfn Hfns IH]; intros pf; simpl; [apply only_ret|].
  apply only_bind; [apply Hfn|]. intros [pf'|e]; [apply IH|apply only_ret].
Qed.

Lemma calls_collectPod vdb sc replicas i p : only collect_call (collectPodByStsIndex vdb sc replicas i p).
Proof.
  unfold collectPodByStsIndex. wp_calls. apply only_bind; [apply only_call; call_tac|].
  intros r. assert (∀ pod, only collect_call
    (r ← run_checks (checks vdb) (initial_fact vdb sc replicas i pod);
      match r with
      | Err e => mret (p, Some e)
      | Ok pf => mret (MkPodFacts (<[pf_name pf := pf]> (Detail p)) (NeedCollection p), None)
      end)) as Hrun.
  { intros pod. apply only_bind; [|intros []; apply only_ret]. apply calls_run_checks.
    apply calls_checks. }
  destruct r as [pod|[]]; first [apply Hrun|apply only_ret].
Qed.

Lemma calls_collect_pods vdb sc replicas i n p : only collect_call (collect_pods vdb sc replicas i n p).
Proof.
  revert i p. induction n as [|n IH]; intros i p; simpl; [apply only_ret|].
  apply only_bind; [apply calls_collectPod|]. intros [p' [e|]]; [apply only_ret|apply IH].
Qed.

Lemma Collect_calls vdb p : only collect_call (Collect vdb p).
Proof.
  unfold Collect. destruct (negb _); [apply only_ret|].
  apply only_bind.
  { unfold FindSubclusters, FindStatefulSets. wp_calls. call_steps. }
  intros [scs|e]; [|apply only_ret].
  assert (∀ q, only collect_call (collect_subclusters vdb scs q)) as Hc; [|apply Hc].
  induction scs as [|sc scs IH]; intros q; simpl; [apply only_ret|].
  apply only_bind; [|intros [q' [e|]]; [apply only_ret|apply IH]].
  unfold collectSubcluster. wp_calls. apply only_bind; [apply only_call; call_tac|].
  intros [sts|[]]; first [apply calls_collect_pods|apply only_ret].
Qed.

End calls.

(** ** Properties *)


Definition demo_default : Subcluster :=
  default zero_Subcluster (head (spec_Subclusters (vdb_Spec MakeVDB))).

(** A cluster in which the pods run and the database is up *)
Definition up_env (listing : result (list StatefulSet)) : Env := {|
  env_exec _ _ cmd := if bool_decide (head cmd = Some "bash")
                      then MkExec "/data/db/v_db_node0001_data" "" None else MkExec "" "" None;
  env_vsql _ _ cmd := if bool_decide (head cmd = Some "-c") then MkExec "1" "" None
                      else MkExec ("12" +:+ newline) "" None;
  env_admintools _ _ _ := MkExec "" "" None;
  env_get_vdb _ _ := Err ErrNotFound;
  env_update_vdb _ w := Ok w;
  env_update_vdb_status _ w := Ok w;
  env_get_vas _ _ := Err ErrNotFound;
  env_update_vas _ w := Ok w;
  env_update_vas_status _ w := Ok w;
  env_get_sts _ _ := Err ErrNotFound;
  env_get_pod _ nm := Ok (MkPod (MkObjectMeta (nn_Name nm) (nn_Namespace nm) ∅
    {[KubernetesVersionAnnotation := "v1"]}) "Running" "10.1.1.1" (nn_Name nm) "hl" "img");
  env_list_sts _ _ _ := listing;
  env_list_pods _ _ _ := Ok [];
  env_list_services _ _ _ := Ok [];
  env_update_sts _ s := Ok s;
  env_delete_pod _ _ := None;
  env_copy _ _ _ _ := MkExec "" "" None;
  env_update_pod _ q := Ok q;
  env_patch_pod _ q := Ok q;
  env_server_version _ := Ok ("v1", "c", "d");
  env_get_secret _ _ := Err ErrNotFound;
  env_get_configmap _ _ := Some ErrNotFound;
  env_get_service _ _ := Err ErrNotFound;
  env_create_service _ _ := None;
  env_update_service _ s := Ok s;
  env_delete_service _ _ := None;
  env_create_sts _ _ := None;
  env_patch_sts _ s := Ok s;
  env_delete_sts _ _ := None;
  env_set_controller _ _ := None;
  env_now _ := 7%Z;
  env_retry_steps := 4 |}.


(** When the statefulsets cannot be listed, the collection reports success
    with no facts at all, and the facts then say that no database exists. *)
Theorem Collect_list_error `{E : Env} vdb p t e :
  NeedCollection p = true →
  env_list_sts t (vdb_Namespace vdb) (MakeOperatorLabels vdb) = Err e →
  fst (Collect vdb p t) = (MkPodFacts ∅ true, None) ∧
  doesDBExist (map_to_list (Detail (fst (fst (Collect vdb p t))))).*2 = false.
Proof.
  intros Hn He. unfold Collect, FindSubclusters, FindStatefulSets. rewrite Hn. simpl.
  unfold has_flag. simpl. unfold mbind, M_bind, ListSts, call. by rewrite He.
Qed.

Lemma Collect_list_error_witness :
  fst (@Collect (up_env (Err (ErrMsg "timeout"))) MakeVDB MakePodFacts [])
    = (MkPodFacts ∅ true, None).
Proof.
  by apply (@Collect_list_error (up_env (Err (ErrMsg "timeout"))) MakeVDB MakePodFacts []
    (ErrMsg "timeout")).
Defined.

(** The pod for admintools commands.  For every order in which the three
    loops see the pods: one is found exactly when some node is up or some
    running pod has an installation, and it is one of the best kind there is: a
    writable node, else a read-only node, else a running installation. *)
Theorem findPodToRunAdmintoolsAny_correct pods p1 p2 p3 :
  p1 ≡ₚ pods → p2 ≡ₚ pods → p3 ≡ₚ pods →
  let r := findPodToRunAdmintoolsAny p1 p2 p3 in
  let best (better this : PodFact → bool) :=
    fst r ∈ pods ∧ this (fst r) = true ∧ ∀ v, v ∈ pods → better v = false in
  if snd r
  then best (λ _, false) (λ v, upNode v && negb (readOnly v)) ∨
       best (λ v, upNode v && negb (readOnly v)) upNode ∨
       best upNode (λ v, isInstalled v && isPodRunning v)
  else ∀ v, v ∈ pods → upNode v = false ∧ isInstalled v && isPodRunning v = false.
Proof.
  intros H1 H2 H3 r best. unfold best, r, findPodToRunAdmintoolsAny. clear r best.
  destruct (find_pod _ p1) as [v1 b1] eqn:Hf1, (find_pod _ p2) as [v2 b2] eqn:Hf2,
    (find_pod _ p3) as [v3 b3] eqn:Hf3.
  destruct b1; simpl.
  { left. apply find_pod_true in Hf1 as [Hin Ht]. split_and!; [by rewrite <- H1|done|done]. }
  destruct b2; simpl.
  { right; left. apply find_pod_true in Hf2 as [Hin Ht]. split_and!; [by rewrite <- H2|done|].
    intros v Hv. apply (find_pod_false _ _ _ v Hf1). by rewrite H1. }
  assert (∀ v, v ∈ pods → upNode v = false) as Hup.
  { intros v Hv. apply (find_pod_false _ _ _ v Hf2). by rewrite H2. }
  destruct b3; simpl.
  - right; right. apply find_pod_true in Hf3 as [Hin Ht]. split_and!; [by rewrite <- H3|done|done].
  - intros v Hv. split; [by apply Hup|].
    apply (find_pod_false _ _ _ _ Hf3). by rewrite H3.
Qed.

Lemma findPodToRunAdmintoolsAny_correct_witness :
  let v := set_up (set_db zero_PodFact true "") true true in
  snd (findPodToRunAdmintoolsAny [zero_PodFact; v] [v; zero_PodFact] [v; zero_PodFact]) = true ∧
  fst (findPodToRunAdmintoolsAny [zero_PodFact; v] [v; zero_PodFact] [v; zero_PodFact]) ∈
    [v; zero_PodFact].
Proof.
  split; [reflexivity|].
  destruct (findPodToRunAdmintoolsAny_correct
    [set_up (set_db zero_PodFact true "") true true; zero_PodFact]
    [zero_PodFact; set_up (set_db zero_PodFact true "") true true]
    [set_up (set_db zero_PodFact true "") true true; zero_PodFact]
    [set_up (set_db zero_PodFact true "") true true; zero_PodFact])
    as [(Hin & _)|[(Hin & _)|(Hin & _)]]; [constructor|done|done|exact Hin..].
Defined.

(** No answer that a reconciler acts on depends on the order in which Go
    iterates over the map of facts. *)
Theorem queries_order_independent pods pods' ro tr scName img :
  (Z.of_nat (length pods) < 2 ^ 63)%Z → NoDup (dnsName <$> pods) → pods ≡ₚ pods' →
  findRestartablePods ro tr pods ≡ₚ findRestartablePods ro tr pods' ∧
  findReIPPods ro pods ≡ₚ findReIPPods ro pods' ∧
  findPodsWithMissingDB scName pods = findPodsWithMissingDB scName pods' ∧
  doesDBExist pods = doesDBExist pods' ∧
  areAllPodsRunningAndZeroInstalled pods = areAllPodsRunningAndZeroInstalled pods' ∧
  getUpNodeAndNotReadOnlyCount pods = getUpNodeAndNotReadOnlyCount pods' ∧
  countInstalledAndNotRestartable pods = countInstalledAndNotRestartable pods' ∧
  countNotReadOnlyWithOldImage img pods = countNotReadOnlyWithOldImage img pods' ∧
  countUpPrimaryNodes pods = countUpPrimaryNodes pods'.
Proof.
  intros Hlen Hnd Hp. split_and!; try (by apply filterPods_perm); try (by apply count_if_perm).
  - unfold findPodsWithMissingDB. f_equal; [|by apply existsb_perm].
    apply sort_by_unique; [|by apply filterPods_perm].
    by apply NoDup_fmap_filter.
  - by apply existsb_perm.
  - unfold areAllPodsRunningAndZeroInstalled. f_equal. by apply existsb_perm.
Qed.

Lemma queries_order_independent_witness :
  let v := set_up (set_db zero_PodFact true "") true true in
  doesDBExist [v] = doesDBExist [v].
Proof.
  apply (queries_order_independent [set_up (set_db zero_PodFact true "") true true]
    [set_up (set_db zero_PodFact true "") true true] false false "" "");
    [done|apply NoDup_singleton|done].
Defined.

(** The pods with a missing database are exactly the pods of the
    subcluster without one, running or not, in the order of their DNS names; the
    flag tells whether one of them is not running. *)
Theorem findPodsWithMissingDB_correct scName pods :
  let r := findPodsWithMissingDB scName pods in
  (∀ v, v ∈ fst r ↔ v ∈ pods ∧ subcluster v = scName ∧ dbExists v = false) ∧
  Sorted (name_le dnsName) (fst r) ∧
  (snd r = true ↔ ∃ v, v ∈ fst r ∧ isPodRunning v = false).
Proof.
  simpl.
  assert (∀ v, v ∈ sort_by dnsName (filterPods (λ v, bool_decide (subcluster v = scName)
    && negb (dbExists v)) pods) ↔ v ∈ pods ∧ subcluster v = scName ∧ dbExists v = false) as Hin.
  { intros v. unfold sort_by. rewrite merge_sort_Permutation. unfold filterPods.
    rewrite list_elem_of_filter, andb_true_iff, bool_decide_eq_true, negb_true_iff. tauto. }
  split_and!; [done|apply (Sorted_merge_sort _)|].
  rewrite existsb_exists. split.
  - intros (v & Hv & Ht). apply list_elem_of_In in Hv.
    rewrite !andb_true_iff, bool_decide_eq_true, !negb_true_iff in Ht.
    exists v. rewrite Hin. tauto.
  - intros (v & Hv & Hr). apply Hin in Hv as (Hv & Hs & Hd). exists v.
    split; [by apply list_elem_of_In|]. rewrite Hd, Hr, bool_decide_eq_true_2 by done. done.
Qed.

(** The answer of the node query is read back: a state and a flag printed
    as [state|flag], with anything on the following lines, give whether the
    state is UP and whether the flag is [t]; other column counts are errors. *)
Theorem parseNodeStateAndReadOnly_roundtrip cols rest :
  Forall (λ c, no_byte "|"%char c ∧ no_byte newline_char c) cols → cols ≠ [] →
  parseNodeStateAndReadOnly (Join cols "|" +:+ newline +:+ rest) =
  match cols with
  | [state; ro] => Ok (bool_decide (state = "UP"), bool_decide (ro = "t"))
  | _ => Err (ErrMsg ("expected 2 columns from node query but only got "
                      +:+ Itoa (Z.of_nat (length cols))))
  end.
Proof.
  intros Hcols Hne. unfold parseNodeStateAndReadOnly.
  rewrite bool_decide_eq_false_2 by (by destruct (Join cols "|")).
  assert (first_line (Join cols "|" +:+ newline +:+ rest) = Join cols "|") as ->.
  { unfold first_line, newline. simpl. rewrite SplitByte_app_sep; [done|].
    apply no_byte_Join; [done|]. eapply Forall_impl; [done|]. by intros c []. }
  rewrite SplitByte_Join; [|done|eapply Forall_impl; [done|]; by intros c []].
  by destruct cols as [|a [|b [|c cols]]].
Qed.

Lemma parseNodeStateAndReadOnly_roundtrip_witness :
  parseNodeStateAndReadOnly ("UP|t" +:+ newline) = Ok (true, true).
Proof.
  apply (parseNodeStateAndReadOnly_roundtrip ["UP"; "t"] ""); [|done].
  repeat constructor; refine (bool_decide_unpack _ _); vm_compute; exact I.
Defined.

(** The node name is searched in the whole path: a data path that contains
    [v_] is taken for the start of the name. *)
Theorem parseVerticaNodeName_path :
  parseVerticaNodeName "/data/db/v_db_node0001_data" = "v_db_node0001" ∧
  parseVerticaNodeName "/srv_data/db/v_db_node0001_data" = "v_data/db/v_db_node0001".
Proof. split; vm_compute; reflexivity. Qed.
