(* ===== verification/Builder.v ===== *)
(** * The object builder

    [pkg/builder/builder.go], [pkg/builder/deployment_names.go] and
    [pkg/builder/su-passwd.go]: the services and statefulsets that a VerticaDB
    asks for.

    [makeServerSecurityContext] appends to the security context of the VerticaDB
    itself, which the built container then shares; the functions that call it
    return the VerticaDB as they leave it.  [append] to the mounts and variables
    of a sidecar can write behind the end of a slice of the VerticaDB, where
    nobody reads. *)

From Stdlib Require Import Ascii.
From stdpp Require Import base gmap strings pretty sorting numbers list.
From S2P Require Import Prelude GoStrings GoRegexp K8s Types KObjects Webhook Version Labels Effects ScFinder PodFacts.

Definition SuperuserPasswordPath : string := "superuser-passwd".
Definition SuperuserPasswordKey : string := "password".

Record DeploymentNames : Type := MkDeploymentNames {
  dn_ServiceAccountName : string;
  dn_PrefixName : string }.

Definition getConfigMapName (d : DeploymentNames) : string := dn_PrefixName d +:+ "-manager-config".

Definition DefaultDeploymentNames : DeploymentNames :=
  MkDeploymentNames "verticadb-operator-controller-manager" "verticadb-operator".

(** ** Services *)

Definition BuildExtSvc (nm : NamespacedName) (vdb : VerticaDB) (sc : Subcluster)
    (selectorLabelCreator : VerticaDB → Subcluster → gmap string string) : Service :=
  {| svc_Name := nn_Name nm;
     svc_Namespace := nn_Namespace nm;
     svc_Labels := MakeLabelsForSvcObject vdb (Some sc) "external";
     svc_Annotations := Some (MakeAnnotationsForSubclusterService vdb sc);
     svc_Selector := selectorLabelCreator vdb sc;
     svc_Type := sc_ServiceType sc;
     svc_Ports := [MkServicePort 5433 "vertica" (sc_NodePort sc); MkServicePort 5444 "agent" 0];
     svc_ExternalIPs := sc_ExternalIPs sc;
     svc_LoadBalancerIP := sc_LoadBalancerIP sc;
     svc_ClusterIP := "";
     svc_PublishNotReadyAddresses := false;
     svc_Rest := zero_opaque |}.

Definition BuildHlSvc (nm : NamespacedName) (vdb : VerticaDB) : Service :=
  {| svc_Name := nn_Name nm;
     svc_Namespace := nn_Namespace nm;
     svc_Labels := MakeLabelsForSvcObject vdb None "headless";
     svc_Annotations := Some (MakeAnnotationsForObject vdb);
     svc_Selector := MakeBaseSvcSelectorLabels vdb;
     svc_Type := "ClusterIP";
     svc_Ports := [MkServicePort 22 "ssh" 0];
     svc_ExternalIPs := None;
     svc_LoadBalancerIP := "";
     svc_ClusterIP := "None";
     svc_PublishNotReadyAddresses := true;
     svc_Rest := zero_opaque |}.

(** ** Volume mounts *)

(** [filepath.Base] and [filepath.Dir] on a clean absolute path of a file *)
Definition path_parts (p : string) : list string := SplitByte p "/".

Definition Base (p : string) : string := default "" (last (path_parts p)).

Definition Dir (p : string) : string :=
  Join (take (length (path_parts p) - 1) (path_parts p)) "/".

Definition mount (name path subPath : string) : VolumeMount := MkVolumeMount name path subPath zero_opaque.

Definition SSHKeyPaths : list string := ["id_rsa"; "id_rsa.pub"; "authorized_keys"].

Definition buildKerberosVolumeMounts : list VolumeMount :=
  [mount Krb5SecretMountName Krb5Conf (Base Krb5Conf);
   mount Krb5SecretMountName (Dir Krb5Keytab) ""].

Definition buildSSHVolumeMounts : list VolumeMount :=
  (λ p, mount SSHMountName (SSHPath +:+ "/" +:+ p) p) <$> SSHKeyPaths.

Definition buildCertSecretVolumeMounts (vdb : VerticaDB) : list VolumeMount :=
  (λ s, mount s (CertsRoot +:+ "/" +:+ s) "") <$> spec_CertSecrets (vdb_Spec vdb).

(** [if s != "" { l = append(l, x...) }] *)
Definition if_set {A} (s : string) (x : list A) : list A := if bool_decide (s = "") then [] else x.

Definition buildVolumeMounts (vdb : VerticaDB) : list VolumeMount :=
  let s := vdb_Spec vdb in
  [mount LocalDataPVC LocalDataPath "";
   mount LocalDataPVC ConfigPath (GetPVSubPath vdb "config");
   mount LocalDataPVC LogPath (GetPVSubPath vdb "log");
   mount LocalDataPVC (loc_DataPath (spec_Local s)) (GetPVSubPath vdb "data");
   mount LocalDataPVC (loc_DepotPath (spec_Local s)) (GetPVSubPath vdb "depot");
   mount PodInfoMountName PodInfoPath ""]
  ++ if_set (spec_LicenseSecret s) [mount LicensingMountName MountedLicensePath ""]
  ++ if_set (com_HadoopConfig (spec_Communal s)) [mount HadoopConfigMountName HadoopConfPath ""]
  ++ if_set (spec_KerberosSecret s) buildKerberosVolumeMounts
  ++ if_set (spec_SSHSecret s) buildSSHVolumeMounts
  ++ buildCertSecretVolumeMounts vdb
  ++ spec_VolumeMounts s.

(** ** Volumes *)

Definition buildLicenseVolume (vdb : VerticaDB) : Volume :=
  MkVolume LicensingMountName (SecretVolume (spec_LicenseSecret (vdb_Spec vdb))).

Definition resource_file (path resource : string) : DownwardAPIVolumeFile :=
  MkDownwardAPIVolumeFile path None (Some (ServerContainer, resource)).

Definition field_file (path field : string) : DownwardAPIVolumeFile :=
  MkDownwardAPIVolumeFile path (Some field) None.

Definition KubernetesGitCommitAnnotation : string := "kubernetes.io/gitcommit".
Definition KubernetesBuildDateAnnotation : string := "kubernetes.io/buildDate".

Definition annotation_field (annotation : string) : string :=
  "metadata.annotations['" +:+ annotation +:+ "']".

Definition buildDownwardAPIProjection : list DownwardAPIVolumeFile :=
  [resource_file "memory-limit" "limits.memory";
   resource_file "memory-request" "requests.memory";
   resource_file "cpu-limit" "limits.cpu";
   resource_file "cpu-request" "requests.cpu";
   field_file "labels" "metadata.labels";
   field_file "annotations" "metadata.annotations";
   field_file "name" "metadata.name";
   field_file "namespace" "metadata.namespace";
   field_file "k8s-version" (annotation_field KubernetesVersionAnnotation);
   field_file "k8s-git-commit" (annotation_field KubernetesGitCommitAnnotation);
   field_file "k8s-build-date" (annotation_field KubernetesBuildDateAnnotation)].

Definition buildOperatorConfigMapProjection (deployNames : DeploymentNames) : KeyProjection :=
  MkKeyProjection (getConfigMapName deployNames)
    [("DEPLOY_WITH", "operator-deployment-method"); ("VERSION", "operator-version")].

Definition buildSuperuserPasswordProjection (vdb : VerticaDB) : option KeyProjection :=
  if bool_decide (spec_SuperuserPasswordSecret (vdb_Spec vdb) = "") then None
  else Some (MkKeyProjection (spec_SuperuserPasswordSecret (vdb_Spec vdb))
               [(SuperuserPasswordKey, SuperuserPasswordPath)]).

Definition buildPodInfoVolume (vdb : VerticaDB) (deployNames : DeploymentNames) : Volume :=
  MkVolume PodInfoMountName (ProjectedVolume
    [MkVolumeProjection (Some buildDownwardAPIProjection) None None;
     MkVolumeProjection None (Some (buildOperatorConfigMapProjection deployNames)) None;
     MkVolumeProjection None None (buildSuperuserPasswordProjection vdb)]).

Definition buildCertSecretVolumes (vdb : VerticaDB) : list Volume :=
  (λ s, MkVolume s (SecretVolume s)) <$> spec_CertSecrets (vdb_Spec vdb).

Definition buildHadoopConfigVolume (vdb : VerticaDB) : Volume :=
  MkVolume HadoopConfigMountName (ConfigMapVolume (com_HadoopConfig (spec_Communal (vdb_Spec vdb)))).

Definition buildKerberosVolume (vdb : VerticaDB) : Volume :=
  MkVolume Krb5SecretMountName (SecretVolume (spec_KerberosSecret (vdb_Spec vdb))).

Definition buildSSHVolume (vdb : VerticaDB) : Volume :=
  MkVolume SSHMountName (SecretVolume (spec_SSHSecret (vdb_Spec vdb))).

Definition buildVolumes (vdb : VerticaDB) (deployNames : DeploymentNames) : list Volume :=
  let s := vdb_Spec vdb in
  [buildPodInfoVolume vdb deployNames]
  ++ if_set (spec_LicenseSecret s) [buildLicenseVolume vdb]
  ++ if_set (com_HadoopConfig (spec_Communal s)) [buildHadoopConfigVolume vdb]
  ++ if_set (spec_KerberosSecret s) [buildKerberosVolume vdb]
  ++ if_set (spec_SSHSecret s) [buildSSHVolume vdb]
  ++ buildCertSecretVolumes vdb
  ++ spec_Volumes s.

(** ** Containers *)

(** The capability is added unless it is there already.  One that is dropped
    counts as missing. *)
Definition add_capability (c : Capabilities) (needed : string) : Capabilities :=
  let foundCap := bool_decide (needed ∈ cap_Add c) in
  let foundCap := if bool_decide (needed ∈ cap_Drop c) then false else foundCap in
  if foundCap then c else MkCapabilities (cap_Add c ++ [needed]) (cap_Drop c).

Definition capabilitiesNeeded : list string := ["SYS_CHROOT"; "AUDIT_WRITE"; "SYS_PTRACE"].

(** The context that the container gets; if the VerticaDB has one, it is the
    same object, changed in place. *)
Definition makeServerSecurityContext (vdb : VerticaDB) : SecurityContext :=
  let sc := default (MkSecurityContext None zero_opaque) (spec_SecurityContext (vdb_Spec vdb)) in
  let caps := default (MkCapabilities [] []) (sctx_Capabilities sc) in
  MkSecurityContext (Some (foldl add_capability caps capabilitiesNeeded)) (sctx_Rest sc).

Definition set_SecurityContext (v : VerticaDB) (sc : option SecurityContext) : VerticaDB :=
  let s := vdb_Spec v in
  set_spec v
  {| spec_ImagePullPolicy := spec_ImagePullPolicy s;
     spec_ImagePullSecrets := spec_ImagePullSecrets s;
     spec_Image := spec_Image s;
     spec_Labels := spec_Labels s;
     spec_Annotations := spec_Annotations s;
     spec_AutoRestartVertica := spec_AutoRestartVertica s;
     spec_DBName := spec_DBName s;
     spec_ShardCount := spec_ShardCount s;
     spec_SuperuserPasswordSecret := spec_SuperuserPasswordSecret s;
     spec_LicenseSecret := spec_LicenseSecret s;
     spec_IgnoreClusterLease := spec_IgnoreClusterLease s;
     spec_InitPolicy := spec_InitPolicy s;
     spec_UpgradePolicy := spec_UpgradePolicy s;
     spec_IgnoreUpgradePath := spec_IgnoreUpgradePath s;
     spec_ReviveOrder := spec_ReviveOrder s;
     spec_RestartTimeout := spec_RestartTimeout s;
     spec_Communal := spec_Communal s;
     spec_Local := spec_Local s;
     spec_Subclusters := spec_Subclusters s;
     spec_TemporarySubclusterRouting := spec_TemporarySubclusterRouting s;
     spec_KSafety := spec_KSafety s;
     spec_RequeueTime := spec_RequeueTime s;
     spec_UpgradeRequeueTime := spec_UpgradeRequeueTime s;
     spec_Sidecars := spec_Sidecars s;
     spec_Volumes := spec_Volumes s;
     spec_VolumeMounts := spec_VolumeMounts s;
     spec_CertSecrets := spec_CertSecrets s;
     spec_KerberosSecret := spec_KerberosSecret s;
     spec_SSHSecret := spec_SSHSecret s;
     spec_EncryptSpreadComm := spec_EncryptSpreadComm s;
     spec_SecurityContext := sc |}.

(** The VerticaDB after a security context was made from it *)
Definition after_security_context (vdb : VerticaDB) : VerticaDB :=
  match spec_SecurityContext (vdb_Spec vdb) with
  | None => vdb
  | Some _ => set_SecurityContext vdb (Some (makeServerSecurityContext vdb))
  end.

(** [^[a-zA-Z].*] *)
Definition starts_with_letter (k : string) : bool :=
  match k with
  | EmptyString => false
  | String c _ => is_lower c || is_upper c
  end.

Definition is_alnum (c : ascii) : bool := is_lower c || is_upper c || is_digit c.

Definition upper_byte (c : ascii) : ascii :=
  if is_lower c then ascii_of_nat (nat_of_ascii c - 32) else c.

(** A byte [10xxxxxx] of UTF-8 that continues a character *)
Definition is_continuation (c : ascii) : bool :=
  bool_decide (128 ≤ nat_of_ascii c < 192).

(** [strings.ToUpper] of the key with every character but letters and digits
    replaced by [_]; the key is valid UTF-8, as every string of a JSON object. *)
Fixpoint env_var_name (k : string) : string :=
  match k with
  | EmptyString => EmptyString
  | String c k =>
      if is_alnum c then String (upper_byte c) (env_var_name k)
      else if is_continuation c then env_var_name k
      else String "_" (env_var_name k)
  end.

(** The order in which a [range] visits the annotations *)
Class AnnotationOrder : Type := {
  ann_order : gmap string string → list (string * string);
  ann_order_perm m : ann_order m ≡ₚ map_to_list m }.

Section builder.
Context `{AnnotationOrder}.

Definition translateAnnotationsToEnvVars (vdb : VerticaDB) : list EnvVar :=
  sort_by ev_Name
    ((λ kv, MkEnvVar (env_var_name kv.1) kv.2 None) <$>
       filter (λ kv, starts_with_letter kv.1 = true) (ann_order (spec_Annotations (vdb_Spec vdb)))).

Definition pickImage (vdb : VerticaDB) (sc : Subcluster) : string :=
  if bool_decide (sc_ImageOverride sc = "") then spec_Image (vdb_Spec vdb) else sc_ImageOverride sc.

Definition buildReadinessProbeSQL (vdb : VerticaDB) : string :=
  let passwd := if bool_decide (spec_SuperuserPasswordSecret (vdb_Spec vdb) = "") then ""
                else "-w $(cat " +:+ PodInfoPath +:+ "/" +:+ SuperuserPasswordPath +:+ ")" in
  "vsql " +:+ passwd +:+ " -c 'select 1'".

Definition makeServerContainer (vdb : VerticaDB) (sc : Subcluster) : Container :=
  let s := vdb_Spec vdb in
  {| c_Name := ServerContainer;
     c_Image := pickImage vdb sc;
     c_ImagePullPolicy := spec_ImagePullPolicy s;
     c_Resources := sc_Resources sc;
     c_Ports := [(5433%Z, "vertica"); (5434%Z, "vertica-int"); (22%Z, "ssh")];
     c_ReadinessProbe := Some (ExecProbe ["bash"; "-c"; buildReadinessProbeSQL vdb]);
     c_SecurityContext := Some (makeServerSecurityContext vdb);
     c_Env := translateAnnotationsToEnvVars vdb ++
       [MkEnvVar "POD_IP" "" (Some (FieldEnv "status.podIP"));
        MkEnvVar "HOST_IP" "" (Some (FieldEnv "status.hostIP"));
        MkEnvVar "HOST_NODENAME" "" (Some (FieldEnv "spec.nodeName"));
        MkEnvVar "DATA_PATH" (loc_DataPath (spec_Local s)) None;
        MkEnvVar "DEPOT_PATH" (loc_DepotPath (spec_Local s)) None];
     c_VolumeMounts := buildVolumeMounts vdb;
     c_Rest := zero_opaque |}.

Definition make_sidecar (vdb : VerticaDB) (c : Container) : Container :=
  MkContainer (c_Name c) (c_Image c) (c_ImagePullPolicy c) (c_Resources c) (c_Ports c)
    (c_ReadinessProbe c) (c_SecurityContext c)
    (c_Env c ++ translateAnnotationsToEnvVars vdb ++ [MkEnvVar "DBPATH" (GetDBDataPath vdb) None])
    (c_VolumeMounts c ++ buildVolumeMounts vdb) (c_Rest c).

(** The server container and the sidecars *)
Definition makeContainers (vdb : VerticaDB) (sc : Subcluster) : Container * list Container :=
  (makeServerContainer vdb sc, make_sidecar vdb <$> spec_Sidecars (vdb_Spec vdb)).

Definition GetK8sLocalObjectReferenceArray (lors : list string) : list string := lors.

Definition GetK8sAffinity (a : Affinity) : Affinity :=
  MkAffinity (aff_NodeAffinity a) (aff_PodAffinity a) (aff_PodAntiAffinity a).

Definition buildPodSpec (vdb : VerticaDB) (sc : Subcluster) (deployNames : DeploymentNames) : PodSpec :=
  let '(server, sidecars) := makeContainers vdb sc in
  {| ps_NodeSelector := sc_NodeSelector sc;
     ps_Affinity := GetK8sAffinity (sc_Affinity sc);
     ps_Tolerations := sc_Tolerations sc;
     ps_ImagePullSecrets := GetK8sLocalObjectReferenceArray (spec_ImagePullSecrets (vdb_Spec vdb));
     ps_Server := server;
     ps_Sidecars := sidecars;
     ps_Volumes := buildVolumes vdb deployNames;
     ps_TerminationGracePeriodSeconds := Some 0%Z;
     ps_ServiceAccountName := dn_ServiceAccountName deployNames;
     ps_Rest := zero_opaque |}.

Definition getStorageClassName (vdb : VerticaDB) : option string :=
  let c := loc_StorageClass (spec_Local (vdb_Spec vdb)) in
  if bool_decide (c = "") then None else Some c.

Definition makeUpdateStrategy (vdb : VerticaDB) : string :=
  if bool_decide (spec_KSafety (vdb_Spec vdb) = KSafety0) then "OnDelete" else "RollingUpdate".

(** The statefulset, and the VerticaDB afterwards *)
Definition BuildStsSpec (nm : NamespacedName) (vdb : VerticaDB) (sc : Subcluster)
    (deployNames : DeploymentNames) : StatefulSet * VerticaDB :=
  (MkStatefulSet
     (MkObjectMeta (nn_Name nm) (nn_Namespace nm) (makeLabelsForObject vdb (Some sc) false)
        (MakeAnnotationsForObject vdb))
     {| ss_Selector := MakeStsSelectorLabels vdb sc;
        ss_ServiceName := nn_Name (GenHlSvcName vdb);
        ss_Replicas := Some (sc_Size sc);
        ss_TemplateLabels := MakeLabelsForPodObject vdb (Some sc);
        ss_TemplateAnnotations := MakeAnnotationsForObject vdb;
        ss_Pod := buildPodSpec vdb sc deployNames;
        ss_UpdateStrategy := makeUpdateStrategy vdb;
        ss_PodManagementPolicy := "Parallel";
        ss_VolumeClaimTemplates :=
          [MkPersistentVolumeClaim LocalDataPVC ["ReadWriteOnce"] (getStorageClassName vdb)
             (loc_RequestSize (spec_Local (vdb_Spec vdb)))];
        ss_Rest := zero_opaque |}
     0,
   after_security_context vdb).

End builder.
