(* ===== verification/BuilderSpec.v ===== *)
(** * Correctness of the object builder

    Exactly when a statefulset that is built selects its own pods and passes the
    checks of Kubernetes on volumes and mounts; the environment variables do not depend on the order in which
    annotations are visited; and when building leaves the VerticaDB alone. *)

From Stdlib Require Import Ascii.
From stdpp Require Import base gmap strings pretty sorting numbers list.
From S2P Require Import Prelude GoStrings GoRegexp K8s Types KObjects Webhook WebhookSpec Version Labels Effects ScFinder PodFacts Builder.

(** ** Environment variables *)

Definition ann_vars (kvs : list (string * string)) : list EnvVar :=
  (λ kv, MkEnvVar (env_var_name kv.1) kv.2 None) <$> filter (λ kv, starts_with_letter kv.1 = true) kvs.

(** No two annotations become the same variable. *)
Definition env_names_distinct (anns : gmap string string) : Prop :=
  NoDup (ev_Name <$> ann_vars (map_to_list anns)).

Lemma ann_vars_perm kvs kvs' : kvs ≡ₚ kvs' → ann_vars kvs ≡ₚ ann_vars kvs'.
Proof. intros Hp. unfold ann_vars. by rewrite Hp. Qed.

Lemma translate_vars `{O : AnnotationOrder} vdb :
  translateAnnotationsToEnvVars vdb = sort_by ev_Name (ann_vars (ann_order (spec_Annotations (vdb_Spec vdb)))).
Proof. done. Qed.

(** ** The security context *)

Definition dropped (c : Capabilities) (x : string) : Prop := x ∈ cap_Drop c.

#[global] Instance dropped_dec c x : Decision (dropped c x).
Proof. unfold dropped. apply _. Defined.

Lemma add_capability_eq c x :
  add_capability c x =
    if decide (x ∈ cap_Add c ∧ ¬ dropped c x) then c
    else MkCapabilities (cap_Add c ++ [x]) (cap_Drop c).
Proof.
  unfold add_capability, dropped. repeat case_bool_decide; case_decide; naive_solver.
Qed.

Lemma add_capability_drop c x : cap_Drop (add_capability c x) = cap_Drop c.
Proof. rewrite add_capability_eq. by case_decide. Qed.

Lemma add_capability_incl c x y : y ∈ cap_Add c → y ∈ cap_Add (add_capability c x).
Proof. rewrite add_capability_eq. case_decide; [done|]. intros Hy. apply elem_of_app. by left. Qed.

Lemma add_capability_has c x : x ∈ cap_Add (add_capability c x).
Proof.
  rewrite add_capability_eq. case_decide as Hc; [by destruct Hc|]. apply elem_of_app. right. by left.
Qed.

Lemma add_capability_fix c x : x ∈ cap_Add c → ¬ dropped c x → add_capability c x = c.
Proof. intros Ha Hd. rewrite add_capability_eq. by rewrite decide_True. Qed.

Lemma add_capability_length c x : length (cap_Add c) ≤ length (cap_Add (add_capability c x)).
Proof. rewrite add_capability_eq. case_decide; [done|]. simpl. rewrite length_app. lia. Qed.

Lemma add_capability_grows c x : dropped c x → length (cap_Add c) < length (cap_Add (add_capability c x)).
Proof.
  intros Hd. rewrite add_capability_eq, decide_False by naive_solver. simpl. rewrite length_app. simpl. lia.
Qed.

Section fold.
Context (l : list string).

Lemma fold_drop c : cap_Drop (foldl add_capability c l) = cap_Drop c.
Proof.
  revert c. induction l as [|x l' IH]; intros c; [done|]. simpl. by rewrite IH, add_capability_drop.
Qed.

Lemma fold_has c x : x ∈ l ∨ x ∈ cap_Add c → x ∈ cap_Add (foldl add_capability c l).
Proof.
  revert c. induction l as [|y l' IH]; intros c; simpl; [by intros [?%elem_of_nil|]|].
  intros [[->|Hx]%elem_of_cons|Hx]; apply IH; [|by left|]; right;
    [apply add_capability_has|by apply add_capability_incl].
Qed.

Lemma fold_fix c :
  Forall (λ x, x ∈ cap_Add c ∧ ¬ dropped c x) l → foldl add_capability c l = c.
Proof.
  induction l as [|x l' IH]; simpl; [done|]. intros [[Ha Hd] Hl]%Forall_cons.
  rewrite add_capability_fix by done. by apply IH.
Qed.

Lemma fold_length c : length (cap_Add c) ≤ length (cap_Add (foldl add_capability c l)).
Proof.
  revert c. induction l as [|x l' IH]; intros c; simpl; [done|].
  etrans; [apply add_capability_length|apply IH].
Qed.

Lemma fold_grows c x :
  x ∈ l → dropped c x → length (cap_Add c) < length (cap_Add (foldl add_capability c l)).
Proof.
  revert c. induction l as [|y l' IH]; intros c; simpl; [by intros ?%elem_of_nil|].
  intros [->|Hx]%elem_of_cons Hd.
  - pose proof (add_capability_grows c y Hd). clear IH.
    assert (∀ c, length (cap_Add c) ≤ length (cap_Add (foldl add_capability c l'))) as Hle.
    { clear. induction l' as [|z l' IH]; intros c; simpl; [done|].
      etrans; [apply add_capability_length|apply IH]. }
    pose proof (Hle (add_capability c y)). lia.
  - pose proof (add_capability_length c y).
    assert (dropped (add_capability c y) x) as Hd'.
    { unfold dropped. by rewrite add_capability_drop. }
    pose proof (IH _ Hx Hd'). lia.
Qed.

End fold.

(** ** Volumes and mounts *)

(** What the API server checks of the pods of a statefulset *)
Record pods_ok (s : StatefulSetSpec) : Prop := {
  ok_selected : ss_Selector s ⊆ ss_TemplateLabels s;
  ok_volumes : NoDup ((vol_Name <$> ps_Volumes (ss_Pod s)) ++ (pvc_Name <$> ss_VolumeClaimTemplates s));
  ok_mounts : ∀ m, m ∈ c_VolumeMounts (ps_Server (ss_Pod s)) →
    vm_Name m ∈ (vol_Name <$> ps_Volumes (ss_Pod s)) ++ (pvc_Name <$> ss_VolumeClaimTemplates s);
  ok_paths : NoDup (vm_MountPath <$> c_VolumeMounts (ps_Server (ss_Pod s))) }.

(** The names of the generated volumes and of the claim *)
Definition generated_volumes (v : VerticaDB) : list string :=
  let s := vdb_Spec v in
  ["local-data"; "podinfo"]
  ++ if_set (spec_LicenseSecret s) ["licensing"]
  ++ if_set (com_HadoopConfig (spec_Communal s)) ["hadoop-conf"]
  ++ if_set (spec_KerberosSecret s) ["krb5"]
  ++ if_set (spec_SSHSecret s) ["ssh"].

(** Generated paths that are not under [/certs] and not in the spec *)
Definition generated_paths (v : VerticaDB) : list string :=
  let s := vdb_Spec v in
  ["/home/dbadmin/local-data"; "/opt/vertica/config"; "/opt/vertica/log"; "/etc/podinfo"]
  ++ if_set (spec_LicenseSecret s) ["/home/dbadmin/licensing/mnt"]
  ++ if_set (com_HadoopConfig (spec_Communal s)) ["/etc/hadoop"]
  ++ if_set (spec_KerberosSecret s) ["/etc/krb5.conf"; "/etc/krb5"]
  ++ if_set (spec_SSHSecret s)
       ["/home/dbadmin/.ssh/id_rsa"; "/home/dbadmin/.ssh/id_rsa.pub"; "/home/dbadmin/.ssh/authorized_keys"].

(** The volumes and the paths that a user chooses *)
Definition user_volumes (v : VerticaDB) : list string :=
  spec_CertSecrets (vdb_Spec v) ++ (vol_Name <$> spec_Volumes (vdb_Spec v)).

Definition spec_paths (v : VerticaDB) : list string :=
  [loc_DataPath (spec_Local (vdb_Spec v)); loc_DepotPath (spec_Local (vdb_Spec v))].

Definition user_paths (v : VerticaDB) : list string :=
  spec_paths v ++ (vm_MountPath <$> spec_VolumeMounts (vdb_Spec v)).

(** What the choices of the user have to satisfy, of which the webhook checks only a
    part: labels that leave those of the selector alone; certificate secrets and
    volumes with names of their own; mounts of volumes that exist; and paths of
    their own. *)
Record user_fits (v : VerticaDB) (sc : Subcluster) : Prop := {
  uf_instance : ∀ l, spec_Labels (vdb_Spec v) !! VDBInstanceLabel = Some l → l = vdb_Name v;
  uf_subcluster : ∀ l, spec_Labels (vdb_Spec v) !! SubclusterNameLabel = Some l → l = sc_Name sc;
  uf_distinct : NoDup (user_volumes v);
  uf_certs : ∀ s, s ∈ spec_CertSecrets (vdb_Spec v) → s ∉ generated_volumes v;
  uf_krb5 : spec_KerberosSecret (vdb_Spec v) ≠ "" → "krb5" ∉ vol_Name <$> spec_Volumes (vdb_Spec v);
  uf_ssh : spec_SSHSecret (vdb_Spec v) ≠ "" → "ssh" ∉ vol_Name <$> spec_Volumes (vdb_Spec v);
  uf_mounts : ∀ m, m ∈ spec_VolumeMounts (vdb_Spec v) → vm_Name m ∈ generated_volumes v ++ user_volumes v;
  uf_paths : NoDup (user_paths v);
  uf_generated : ∀ p, p ∈ user_paths v → p ∉ generated_paths v;
  uf_cert_paths : ∀ s, s ∈ spec_CertSecrets (vdb_Spec v) → "/certs/" +:+ s ∉ spec_paths v }.

Lemma if_set_sublist {A} s (x : list A) : if_set s x `sublist_of` x.
Proof. unfold if_set. case_bool_decide; [apply sublist_nil_l|done]. Qed.

Lemma elem_of_if_set {A} s (l : list A) x : x ∈ if_set s l ↔ s ≠ "" ∧ x ∈ l.
Proof.
  unfold if_set. case_bool_decide as Hs; [|naive_solver].
  split; [by intros ?%elem_of_nil|]. by intros [].
Qed.

Lemma fmap_if_set {A B} (f : A → B) s l : f <$> if_set s l = if_set s (f <$> l).
Proof. unfold if_set. by case_bool_decide. Qed.

(** Which parts are there *)
Ltac sublists := repeat first [done | apply if_set_sublist | apply sublist_app | apply sublist_skip].

Lemma fmap_same {A B} (f : A → B) (g : B → A) (l : list B) : (∀ x, f (g x) = x) → f <$> (g <$> l) = l.
Proof. intros Hfg. induction l as [|x l IH]; [done|]. by rewrite !fmap_cons, IH, Hfg. Qed.

(** Lists whose names are fixed are decided case by case. *)
Ltac decide_parts :=
  unfold if_set; repeat case_bool_decide; apply (bool_decide_unpack _); vm_compute; exact I.

Section volumes.
Context (v : VerticaDB) (d : DeploymentNames).
Context (Hvol : ∀ vol, vol ∈ spec_Volumes (vdb_Spec v) → vol_Name vol ∉ reserved_volume_names).
Context (Hmnt : ∀ m, m ∈ spec_VolumeMounts (vdb_Spec v) → mount_ok v m).

Lemma generated_volumes_distinct : NoDup (generated_volumes v).
Proof. unfold generated_volumes. decide_parts. Qed.

Lemma generated_paths_distinct : NoDup (generated_paths v).
Proof. unfold generated_paths. decide_parts. Qed.

(** All names: the generated ones and those of the user *)
Lemma volume_names_perm :
  (vol_Name <$> buildVolumes v d) ++ ["local-data"] ≡ₚ generated_volumes v ++ user_volumes v.
Proof.
  unfold buildVolumes, generated_volumes, user_volumes. rewrite !fmap_app, !fmap_if_set. unfold buildCertSecretVolumes.
  rewrite fmap_same by done. rewrite (Permutation_app_comm _ ["local-data"]). simpl. by rewrite <- !(assoc_L (++)).
Qed.

Lemma generated_cases x :
  x ∈ generated_volumes v ↔
  x ∈ reserved_volume_names ∧ x ∈ generated_volumes v ∨
  x = "krb5" ∧ spec_KerberosSecret (vdb_Spec v) ≠ "" ∨ x = "ssh" ∧ spec_SSHSecret (vdb_Spec v) ≠ "".
Proof.
  unfold generated_volumes, reserved_volume_names. rewrite !elem_of_app, !elem_of_if_set, !elem_of_cons, !elem_of_nil.
  naive_solver.
Qed.

(** The volumes have distinct names exactly when the user's choices do. *)
Lemma volumes_distinct :
  NoDup ((vol_Name <$> buildVolumes v d) ++ ["local-data"]) ↔
  NoDup (user_volumes v) ∧ (∀ s, s ∈ spec_CertSecrets (vdb_Spec v) → s ∉ generated_volumes v) ∧
  (spec_KerberosSecret (vdb_Spec v) ≠ "" → "krb5" ∉ vol_Name <$> spec_Volumes (vdb_Spec v)) ∧
  (spec_SSHSecret (vdb_Spec v) ≠ "" → "ssh" ∉ vol_Name <$> spec_Volumes (vdb_Spec v)).
Proof using Hvol.
  rewrite volume_names_perm, NoDup_app. unfold user_volumes. split.
  - intros (_ & Hd & Hu). split_and!; [done| | |].
    + intros s Hs Hg. apply (Hd s Hg). apply elem_of_app. by left.
    + intros Hk Hin. apply (Hd "krb5"); [apply generated_cases; tauto|]. apply elem_of_app. by right.
    + intros Hk Hin. apply (Hd "ssh"); [apply generated_cases; tauto|]. apply elem_of_app. by right.
  - intros (Hu & Hc & Hk & Hs). split_and!; [apply generated_volumes_distinct| |done].
    intros x Hg [Hx|Hx]%elem_of_app; [by apply (Hc x)|].
    apply generated_cases in Hg as [[Hr _]|[[-> Hne]|[-> Hne]]]; [|by apply Hk|by apply Hs].
    apply list_elem_of_fmap in Hx as (vol & -> & Hin). by apply (Hvol vol).
Qed.

(** The generated mounts and those of certificates name volumes that are there. *)
Lemma mounted_volumes :
  (∀ m, m ∈ buildVolumeMounts v → vm_Name m ∈ (vol_Name <$> buildVolumes v d) ++ ["local-data"]) ↔
  (∀ m, m ∈ spec_VolumeMounts (vdb_Spec v) → vm_Name m ∈ generated_volumes v ++ user_volumes v).
Proof.
  setoid_rewrite volume_names_perm. unfold buildVolumeMounts. split; intros Hall m Hm.
  { apply Hall. rewrite !elem_of_app. tauto. }
  unfold generated_volumes, user_volumes in *. rewrite !elem_of_app, !elem_of_if_set in *.
  destruct Hm as [Hm|[[Hs Hm]|[[Hs Hm]|[[Hs Hm]|[[Hs Hm]|[Hm|Hm]]]]]]; [..|by apply Hall in Hm; rewrite !elem_of_app, !elem_of_if_set in Hm].
  - left; left. repeat (apply elem_of_cons in Hm as [->|Hm]); [by repeat constructor..|by apply elem_of_nil in Hm].
  - apply list_elem_of_singleton in Hm as ->. left. right; left. split; [done|by left].
  - apply list_elem_of_singleton in Hm as ->. left. do 2 right; left. split; [done|by left].
  - left. do 3 right; left. split; [done|].
    repeat (apply elem_of_cons in Hm as [->|Hm]); [by left..|by apply elem_of_nil in Hm].
  - left. do 4 right. split; [done|]. apply list_elem_of_fmap in Hm as (k & -> & _). by left.
  - right; left. by apply list_elem_of_fmap in Hm as (k & -> & Hk).
Qed.

(** All mount paths: those of the user, the generated ones and those of certificates *)
Lemma mount_paths_perm :
  vm_MountPath <$> buildVolumeMounts v ≡ₚ
  user_paths v ++ generated_paths v ++ ((λ s, "/certs/" +:+ s) <$> spec_CertSecrets (vdb_Spec v)).
Proof.
  unfold buildVolumeMounts, user_paths, generated_paths. rewrite !fmap_app, !fmap_if_set.
  unfold buildCertSecretVolumeMounts. rewrite <- (list_fmap_compose _ vm_MountPath). simpl.
  solve_Permutation.
Qed.

(** No path is mounted twice exactly when the user's choices are of their own. *)
Lemma paths_distinct :
  NoDup (spec_CertSecrets (vdb_Spec v)) →
  NoDup (vm_MountPath <$> buildVolumeMounts v) ↔
  NoDup (user_paths v) ∧ (∀ p, p ∈ user_paths v → p ∉ generated_paths v) ∧
  (∀ s, s ∈ spec_CertSecrets (vdb_Spec v) → "/certs/" +:+ s ∉ spec_paths v).
Proof using Hmnt.
  intros Hcs. rewrite mount_paths_perm, !NoDup_app. split.
  - intros (Hu & Hd & _). split_and!; [done| |].
    + intros p Hp Hg. apply (Hd p Hp). apply elem_of_app. by left.
    + intros s Hs Hp. apply (Hd ("/certs/" +:+ s)); [apply elem_of_app; by left|].
      apply elem_of_app. right. by apply (list_elem_of_fmap_2 (λ s, "/certs/" +:+ s)).
  - intros (Hu & Hg & Hc). split_and!; [done| |apply generated_paths_distinct| |].
    + intros p Hp [Hp'|Hp']%elem_of_app; [by apply (Hg p)|].
      apply list_elem_of_fmap in Hp' as (s & -> & Hs). apply elem_of_app in Hp as [Hp|Hp]; [by apply (Hc s)|].
      apply list_elem_of_fmap in Hp as (m & Hm & Hin). apply (Hmnt m Hin). rewrite <- Hm. by exists ("/" +:+ s).
    + intros p Hp Hp'. apply list_elem_of_fmap in Hp' as (s & -> & _). revert Hp. clear. unfold generated_paths.
      rewrite !elem_of_app, !elem_of_if_set, !elem_of_cons, !elem_of_nil. intros Hg. naive_solver.
    + apply NoDup_fmap_2; [by intros a b [= ->]|done].
Qed.

(** The selector finds the pods exactly when its labels are not overridden. *)
Lemma selector_found sc :
  MakeStsSelectorLabels v sc ⊆ MakeLabelsForPodObject v (Some sc) ↔
  (∀ l, spec_Labels (vdb_Spec v) !! VDBInstanceLabel = Some l → l = vdb_Name v) ∧
  (∀ l, spec_Labels (vdb_Spec v) !! SubclusterNameLabel = Some l → l = sc_Name sc).
Proof.
  change (_ ⊆ _) with (selects (MakeStsSelectorLabels v sc) (MakeLabelsForPodObject v (Some sc))).
  unfold MakeStsSelectorLabels, MakeBaseSvcSelectorLabels. rewrite selects_insert, selects_singleton by done.
  assert (MakeCommonLabels v (Some sc) true !! VDBInstanceLabel = Some (vdb_Name v) ∧
          MakeCommonLabels v (Some sc) true !! SubclusterNameLabel = Some (sc_Name sc)) as [Hi Hs].
  { unfold MakeCommonLabels, assign_all, MakeSubclusterLabels. rewrite !lookup_union. by destruct (sc_IsTransient sc). }
  unfold MakeLabelsForPodObject, makeLabelsForObject, assign_all. rewrite !lookup_union, Hi, Hs. clear Hi Hs.
  assert (∀ (z : option string) w, z ∪ Some w = Some (default w z)) as Hz by by intros [].
  rewrite !Hz. clear Hz.
  set (x := spec_Labels (vdb_Spec v) !! VDBInstanceLabel). set (y := spec_Labels (vdb_Spec v) !! SubclusterNameLabel).
  clearbody x y. clear. split.
  - intros [[= Hy] [= Hx]]. split; intros l ->; simpl in *; congruence.
  - intros [Hx Hy]. split; f_equal; [destruct y|destruct x]; simpl; auto.
Qed.

End volumes.

(** ** Examples *)

#[global] Instance map_ann_order : AnnotationOrder.
Proof. by exists map_to_list. Defined.

#[global] Instance map_ann_order_rev : AnnotationOrder.
Proof. exists (λ m, rev (map_to_list m)). intros m. symmetry. apply Permutation_rev. Defined.

(** A VerticaDB with the given Kerberos secret, volumes and mounts *)
Definition demo_kerberos (vols : list Volume) (mounts : list VolumeMount) (anns : gmap string string)
    (sc : option SecurityContext) : VerticaDB :=
  let s := vdb_Spec MakeVDB in
  set_spec MakeVDB
  {| spec_ImagePullPolicy := spec_ImagePullPolicy s;
     spec_ImagePullSecrets := spec_ImagePullSecrets s;
     spec_Image := spec_Image s;
     spec_Labels := spec_Labels s;
     spec_Annotations := anns;
     spec_AutoRestartVertica := spec_AutoRestartVertica s;
     spec_DBName := spec_DBName s;
     spec_ShardCount := spec_ShardCount s;
     spec_SuperuserPasswordSecret := spec_SuperuserPasswordSecret s;
     spec_LicenseSecret := spec_LicenseSecret s;
     spec_IgnoreClusterLease := spec_IgnoreClusterLease s;
     spec_InitPolicy := spec_InitPolicy s;
     spec_UpgradePolicy := spec_UpgradePolicy s;
     spec_IgnoreUpgradePath := spec_IgnoreUpgradePath s;
     spec_ReviveOrder := spec_ReviveOrder s;
     spec_RestartTimeout := spec_RestartTimeout s;
     spec_Communal := MkCommunalStorage (com_Path (spec_Communal s)) (com_IncludeUIDInPath (spec_Communal s))
       (com_Endpoint (spec_Communal s)) (com_CredentialSecret (spec_Communal s))
       (com_CaFile (spec_Communal s)) (com_Region (spec_Communal s)) "" "vertica" "REALM";
     spec_Local := spec_Local s;
     spec_Subclusters := spec_Subclusters s;
     spec_TemporarySubclusterRouting := spec_TemporarySubclusterRouting s;
     spec_KSafety := spec_KSafety s;
     spec_RequeueTime := spec_RequeueTime s;
     spec_UpgradeRequeueTime := spec_UpgradeRequeueTime s;
     spec_Sidecars := spec_Sidecars s;
     spec_Volumes := vols;
     spec_VolumeMounts := mounts;
     spec_CertSecrets := ["ca"];
     spec_KerberosSecret := "krb";
     spec_SSHSecret := spec_SSHSecret s;
     spec_EncryptSpreadComm := spec_EncryptSpreadComm s;
     spec_SecurityContext := sc |}.

Definition demo_sc : Subcluster := MkSubcluster "defaultsubcluster" 3 true false "" None zero_Affinity "" None
  zero_opaque "ClusterIP" "" 0 None "" None.

(** ** Properties *)

(** C39: which statefulsets of an admitted VerticaDB pass the checks of the API
    server on selector, volumes and mounts of the server container: the selector
    finds the pods, volumes and claims have distinct names, every mount names one of
    them, and no path is mounted twice.  They do exactly when the choices of the user
    fit, which the webhook checks only in part ([user_fits]: no label of spec.labels gives
    another value to one of the two labels of the selector; certificate secrets and
    user volumes have distinct names that are not those of volumes generated for
    this VerticaDB; user mounts name volumes that exist; the data, depot and user
    mount paths are distinct and are not generated ones).  In particular the
    generated parts never clash with each other. *)
Theorem BuildStsSpec_accepted `{O : AnnotationOrder} nm vdb sc deployNames :
  ValidateCreate vdb = Allowed →
  pods_ok (sts_Spec (fst (BuildStsSpec nm vdb sc deployNames))) ↔ user_fits vdb sc.
Proof.
  intros Hadm. unfold ValidateCreate in Hadm.
  apply admission_of_Allowed, validateVerticaDBSpec_iff in Hadm.
  pose proof (selector_found vdb sc) as H1.
  pose proof (volumes_distinct vdb deployNames (valid_volumes _ Hadm)) as H2.
  pose proof (mounted_volumes vdb deployNames) as H3. pose proof (paths_distinct vdb (valid_mounts _ Hadm)) as H4.
  assert (∀ s, NoDup (spec_CertSecrets s ++ (vol_Name <$> spec_Volumes s)) → NoDup (spec_CertSecrets s)) as Hcerts.
  { intros s. by rewrite NoDup_app; intros (? & _). }
  split.
  - intros [Hs Hv Hm Hp]. simpl in *. apply H1 in Hs as []. apply H2 in Hv as (Hd & ? & ? & ?).
    apply H4 in Hp as (? & ? & ?); [|by apply Hcerts]. by split; [..|apply H3|done|done|done].
  - intros []. split; simpl; [by apply H1|by apply H2|by apply H3|]. by apply H4; [apply Hcerts|].
Qed.

Lemma BuildStsSpec_accepted_witness :
  let v := demo_kerberos [MkVolume "scratch" (OtherVolume zero_opaque)]
             [mount "scratch" "/scratch" ""; mount "ca" "/tls" ""] ∅ None in
  pods_ok (sts_Spec (fst (BuildStsSpec (GenStsName v demo_sc) v demo_sc DefaultDeploymentNames))).
Proof.
  intros v. apply (BuildStsSpec_accepted (GenStsName v demo_sc) v demo_sc DefaultDeploymentNames);
    [vm_compute; reflexivity|].
  split.
  1, 2: intros l Hl; vm_compute in Hl; discriminate Hl.
  1, 6: apply (bool_decide_unpack _); vm_compute; exact I.
  2, 3: intros _; apply (bool_decide_unpack _); vm_compute; exact I.
  all: apply Forall_forall; apply (bool_decide_unpack _); vm_compute; exact I.
Defined.

(** The webhook admits a VerticaDB whose statefulset Kubernetes rejects: a
    user volume named [krb5] next to the generated one, and a user mount on the
    path of the generated keytab mount. *)
Theorem admitted_pods_rejected `{O : AnnotationOrder} nm sc deployNames :
  let v := demo_kerberos [MkVolume "krb5" (OtherVolume zero_opaque)] [mount "krb5" "/etc/krb5" ""] ∅ None in
  ValidateCreate v = Allowed ∧
  let s := sts_Spec (fst (BuildStsSpec nm v sc deployNames)) in
  ¬ NoDup (vol_Name <$> ps_Volumes (ss_Pod s)) ∧
  ¬ NoDup (vm_MountPath <$> c_VolumeMounts (ps_Server (ss_Pod s))).
Proof.
  intros v. split; [vm_compute; reflexivity|]. intros s. split.
  - apply (bool_decide_unpack _). vm_compute. exact I.
  - apply (bool_decide_unpack _). vm_compute. exact I.
Qed.

(** The webhook admits a VerticaDB that mounts a volume that does not exist. *)
Theorem admitted_mount_missing `{O : AnnotationOrder} nm sc deployNames :
  let v := demo_kerberos [] [mount "scratch" "/scratch" ""] ∅ None in
  ValidateCreate v = Allowed ∧ ¬ pods_ok (sts_Spec (fst (BuildStsSpec nm v sc deployNames))).
Proof.
  intros v. split; [vm_compute; reflexivity|]. intros [_ _ Hm _]. revert Hm.
  change (¬ ∀ m, m ∈ buildVolumeMounts v → vm_Name m ∈ (vol_Name <$> buildVolumes v deployNames) ++ ["local-data"]).
  rewrite mounted_volumes. intros Hall. specialize (Hall (mount "scratch" "/scratch" "") ltac:(by left)). revert Hall.
  apply (bool_decide_unpack _). vm_compute. exact I.
Qed.

(** C40: if no two annotations become the same variable, the environment of the
    containers is the same for every order in which the annotations are visited,
    so that rebuilding a statefulset does not change it. *)
Theorem env_vars_order_independent (O O' : AnnotationOrder) vdb :
  env_names_distinct (spec_Annotations (vdb_Spec vdb)) →
  @translateAnnotationsToEnvVars O vdb = @translateAnnotationsToEnvVars O' vdb.
Proof.
  intros Hd. rewrite !translate_vars. apply sort_by_unique.
  - rewrite (ann_vars_perm _ _ (ann_order_perm _)). exact Hd.
  - apply ann_vars_perm. by rewrite !ann_order_perm.
Qed.

Lemma env_vars_order_independent_witness :
  let v := demo_kerberos [] [] {["a.b" := "1"; "b" := "2"; "9" := "3"]} None in
  @translateAnnotationsToEnvVars map_ann_order v = @translateAnnotationsToEnvVars map_ann_order_rev v.
Proof.
  intros v. apply env_vars_order_independent. apply (bool_decide_unpack _). vm_compute. exact I.
Defined.

(** Building a statefulset twice gives the same security context exactly
    when none of the capabilities that the server needs is dropped by the
    VerticaDB; otherwise the list of added capabilities, which belongs to the
    VerticaDB, grows with every call. *)
Theorem security_context_stable vdb sc :
  spec_SecurityContext (vdb_Spec vdb) = Some sc →
  let caps := default (MkCapabilities [] []) (sctx_Capabilities sc) in
  (Forall (λ x, x ∉ cap_Drop caps) capabilitiesNeeded ↔
     makeServerSecurityContext (after_security_context vdb) = makeServerSecurityContext vdb).
Proof.
  intros Hs caps. unfold after_security_context. rewrite Hs.
  unfold makeServerSecurityContext at 1. simpl.
  unfold makeServerSecurityContext. rewrite Hs. simpl. fold caps.
  set (c1 := foldl add_capability caps capabilitiesNeeded).
  change (add_capability (add_capability (add_capability ?c _) _) _)
    with (foldl add_capability c capabilitiesNeeded).
  split.
  - intros Hd. f_equal. f_equal. apply fold_fix. apply Forall_forall. intros x Hx.
    split; [apply fold_has; by left|]. unfold dropped, c1. rewrite fold_drop.
    by apply (proj1 (Forall_forall _ _) Hd).
  - intros [= Heq]. apply Forall_forall. intros x Hx Hd.
    assert (dropped c1 x) as Hd1 by (unfold dropped, c1; by rewrite fold_drop).
    pose proof (fold_grows capabilitiesNeeded c1 x Hx Hd1) as Hlt.
    assert (foldl add_capability c1 capabilitiesNeeded = c1) as Heq' by exact Heq.
    rewrite Heq' in Hlt. lia.
Qed.

Lemma security_context_stable_witness :
  let v := demo_kerberos [] [] ∅ (Some (MkSecurityContext (Some (MkCapabilities [] ["SYS_PTRACE"])) zero_opaque)) in
  ¬ (makeServerSecurityContext (after_security_context v) = makeServerSecurityContext v) ∧
  cap_Add <$> sctx_Capabilities (makeServerSecurityContext (after_security_context v))
    = Some ["SYS_CHROOT"; "AUDIT_WRITE"; "SYS_PTRACE"; "SYS_PTRACE"].
Proof.
  intros v. split.
  - intros Heq. apply (security_context_stable v _ eq_refl) in Heq.
    do 2 apply Forall_cons in Heq as [_ Heq]. apply Forall_cons in Heq as [Hx _].
    apply Hx. by left.
  - vm_compute. reflexivity.
Defined.
