(* ===== verification/Cmds.v ===== *)
(** * Commands sent to the pods

    [pkg/cmds/exec.go]: how a vsql or admintools command is completed with the
    password of the superuser before it is sent, and what the log shows of it.
    The request to the API server is in [Exec]. *)

From stdpp Require Import base gmap strings list.
From S2P Require Import Prelude GoStrings.

Definition UpdateVsqlCmd (passwd : string) (cmd : list string) : list string :=
  let prefix := if bool_decide (passwd = "") then ["vsql"] else ["vsql"; "--password"; passwd] in
  prefix ++ cmd.

(** The index of the option, or -1 *)
Definition Find (slice : list string) (option : string) : Z * bool :=
  match list_find (λ item, item = option) slice with
  | Some (i, _) => (Z.of_nat i, true)
  | None => ((-1)%Z, false)
  end.

Definition getSupportingPasswdSlice : list string :=
  ["db_add_node"; "db_add_subcluster"; "db_remove_node"; "db_remove_subcluster"; "create_db";
   "restart_node"; "start_db"; "stop_db"].

Definition UpdateAdmintoolsCmd (passwd : string) (cmd : list string) : list string :=
  let cmd := ["sudo"; "su"; "dbadmin"; "--"; "/opt/vertica/bin/admintools"] ++ cmd in
  if bool_decide (passwd = "") then cmd
  else if existsb (λ e, snd (Find cmd e)) getSupportingPasswdSlice
       then cmd ++ ["--password"; passwd] else cmd.

(** The command as [logInfoCmd] writes it: the word after [--password] is hidden. *)
Fixpoint logInfoCmd (command : list string) : string :=
  match command with
  | [] => ""
  | w :: rest =>
      if bool_decide (w = "--password")
      then w +:+ " " +:+ "*******" +:+ " " +:+
           match rest with [] => "" | _ :: rest => logInfoCmd rest end
      else w +:+ " " +:+ logInfoCmd rest
  end.

(** [Find] is membership. *)
Lemma Find_spec slice option : snd (Find slice option) = true ↔ option ∈ slice.
Proof.
  unfold Find. destruct (list_find _ slice) as [[i x]|] eqn:Hf; cbn.
  - apply list_find_Some in Hf as (Hi & -> & _). split; [|done]. intros _.
    by apply list_elem_of_lookup_2 in Hi.
  - apply list_find_None in Hf. split; [done|]. intros Hin.
    rewrite Forall_forall in Hf. by destruct (Hf option Hin).
Qed.

(** The tools that take a password *)
Definition takes_password (cmd : list string) : Prop :=
  ∃ tool, tool ∈ getSupportingPasswdSlice ∧ tool ∈ cmd.

Lemma supporting_spec cmd :
  existsb (λ e, snd (Find ("sudo" :: "su" :: "dbadmin" :: "--" :: "/opt/vertica/bin/admintools" :: cmd) e))
    getSupportingPasswdSlice = true ↔ takes_password cmd.
Proof.
  rewrite existsb_exists. unfold takes_password. split.
  - intros (tool & Hin%list_elem_of_In & Hf%Find_spec). exists tool. split; [done|].
    revert Hf. rewrite !elem_of_cons. intros [-> | [-> | [-> | [-> | [-> | Hf]]]]]; [..|done];
      exfalso; revert Hin; by apply (bool_decide_eq_false_1 (_ ∈ _)).
  - intros (tool & Hin & Hc). exists tool. split; [by apply list_elem_of_In|].
    apply Find_spec. by do 5 right.
Qed.

Lemma logInfoCmd_app cmd rest :
  "--password" ∉ cmd → logInfoCmd (cmd ++ rest) = logInfoCmd cmd +:+ logInfoCmd rest.
Proof.
  induction cmd as [|w cmd IH]; cbn; [done|]. intros Hn.
  rewrite bool_decide_false by set_solver. rewrite IH by set_solver.
  by rewrite !str_app_assoc.
Qed.

(** Every admintools command carries the password exactly when there is one
    and the tool takes it, every vsql command whenever there is one; and the log
    line of a command without a password option of its own is the same whatever
    the password is, so the password is never logged. *)
Theorem password_sent_not_logged passwd passwd' cmd :
  passwd ≠ "" → passwd' ≠ "" → "--password" ∉ cmd →
  UpdateVsqlCmd passwd cmd = "vsql" :: "--password" :: passwd :: cmd ∧
  (takes_password cmd →
     UpdateAdmintoolsCmd passwd cmd = UpdateAdmintoolsCmd "" cmd ++ ["--password"; passwd]) ∧
  (¬ takes_password cmd → UpdateAdmintoolsCmd passwd cmd = UpdateAdmintoolsCmd "" cmd) ∧
  logInfoCmd (UpdateVsqlCmd passwd cmd) = logInfoCmd (UpdateVsqlCmd passwd' cmd) ∧
  logInfoCmd (UpdateAdmintoolsCmd passwd cmd) = logInfoCmd (UpdateAdmintoolsCmd passwd' cmd).
Proof.
  intros Hp Hp' Hn. unfold UpdateVsqlCmd, UpdateAdmintoolsCmd. cbn [app].
  rewrite (bool_decide_false (passwd = "")), (bool_decide_false (passwd' = "")),
    (bool_decide_true ("" = "")) by done.
  pose proof (supporting_spec cmd) as Hs.
  set (full := "sudo" :: _) in *. set (b := existsb _ _) in *.
  assert (Hf : "--password" ∉ full) by (subst full; rewrite !not_elem_of_cons; by repeat split).
  split; [done|]. split; [intros Ht; by rewrite (proj2 Hs Ht)|].
  split; [intros Ht; destruct b; [by destruct Ht; apply Hs|done]|].
  split; [done|]. destruct b; [|done].
  pose proof (λ p, logInfoCmd_app full ["--password"; p] Hf) as Hlog.
  etrans; [exact (Hlog passwd)|]. symmetry. exact (Hlog passwd').
Qed.

Lemma password_sent_not_logged_witness :
  logInfoCmd (UpdateAdmintoolsCmd "s3cret" ["-t"; "stop_db"]) =
  logInfoCmd (UpdateAdmintoolsCmd "x" ["-t"; "stop_db"]) ∧
  logInfoCmd (UpdateAdmintoolsCmd "s3cret" ["-t"; "stop_db"]) =
  "sudo su dbadmin -- /opt/vertica/bin/admintools -t stop_db --password ******* ".
Proof.
  split; [|reflexivity].
  apply (password_sent_not_logged "s3cret" "x" ["-t"; "stop_db"]);
    [discriminate|discriminate|set_solver].
Defined.
