(* ===== verification/Restart.v ===== *)
(** * Restarting Vertica

    [pkg/controllers/vdb/restart_reconcile.go] and the part of
    [pkg/controllers/vdb/paths.go] it uses.  Log lines and metrics are left out;
    events keep their reason. *)

From Stdlib Require Import Ascii.
From stdpp Require Import base gmap strings pretty sorting numbers list.
From S2P Require Import Prelude GoStrings GoRegexp K8s Types Version KObjects Effects Status Labels ScFinder PodFacts.

(** ** Iteration over the map of facts

    [pod_order t site m] is the order in which the loop at [site] visits the
    facts [m] when the operator has done [t]: some order of all of them;
    [sc_order] is the same for maps of subclusters. *)
Class PodOrder : Type := {
  pod_order : Trace → nat → gmap NamespacedName PodFact → list PodFact;
  pod_order_perm : ∀ t site m, pod_order t site m ≡ₚ (map_to_list m).*2;
  sc_order : Trace → nat → gmap string Subcluster → list Subcluster;
  sc_order_perm : ∀ t site m, sc_order t site m ≡ₚ (map_to_list m).*2 }.

Definition range_pods `{PodOrder} (site : nat) (p : PodFacts) : M (list PodFact) :=
  λ t, (pod_order t site (Detail p), t).

Definition range_scs `{PodOrder} (site : nat) (m : gmap string Subcluster) : M (list Subcluster) :=
  λ t, (sc_order t site m, t).

(** ** Commands *)

Definition RequeueWaitTimeInSeconds : Z := 10.
Definition AdminToolsMapFile : string := "/opt/vertica/config/ipMap.txt".
Definition StateUp : string := "UP".
Definition KillMarker : string := "Killing process".

Definition dquote : string := String (ascii_of_nat 34) EmptyString.

Definition kill_cmd : list string :=
  ["bash"; "-c"; "for pid in $(pgrep ^vertica$); do echo " +:+ dquote +:+ KillMarker +:+ " $pid"
     +:+ dquote +:+ "; kill -n SIGKILL $pid; done"].

Definition genRestartVNodeList (downPods : list PodFact) : list string := vnodeName <$> downPods.

Definition genRestartIPList (downPods : list PodFact) : list string := podIP <$> downPods.

Definition genRestartNodeCmd (vdb : VerticaDB) (vnodeList ipList : list string) : list string :=
  let cmd := ["-t"; "restart_node"; "--database=" +:+ spec_DBName (vdb_Spec vdb);
              "--hosts=" +:+ Join vnodeList ","; "--new-host-ips=" +:+ Join ipList ",";
              "--noprompt"] in
  if negb (bool_decide (spec_RestartTimeout (vdb_Spec vdb) = 0%Z))
  then cmd ++ ["--timeout=" +:+ Itoa (spec_RestartTimeout (vdb_Spec vdb))] else cmd.

(** [ok && vinf.IsEqualOrNewer(v)] for a version constant [v], which parses *)
Definition vdb_version_from (vdb : VerticaDB) (v : string) : bool :=
  match MakeInfoFromVdb vdb with
  | Some vinf => match IsEqualOrNewer vinf v with Ret b => b | Panic _ => false end
  | None => false
  end.

Definition genReIPCommand (vdb : VerticaDB) : list string :=
  let cmd := ["-t"; "re_ip"; "--file=" +:+ AdminToolsMapFile; "--noprompt"] in
  if vdb_version_from vdb ReIPAllowedWithUpNodesVersion then cmd ++ ["--force"] else cmd.

Definition genStartDBCommand (vdb : VerticaDB) (downPods : list PodFact) : list string :=
  let cmd := ["-t"; "start_db"; "--database=" +:+ spec_DBName (vdb_Spec vdb); "--noprompt"] in
  let cmd := if spec_IgnoreClusterLease (vdb_Spec vdb) then cmd ++ ["--ignore-cluster-lease"]
             else cmd in
  let cmd := if negb (bool_decide (spec_RestartTimeout (vdb_Spec vdb) = 0%Z))
             then cmd ++ ["--timeout=" +:+ Itoa (spec_RestartTimeout (vdb_Spec vdb))] else cmd in
  if vdb_version_from vdb StartDBAcceptsHostListVersion
  then cmd ++ ["--hosts"; Join (podIP <$> downPods) ","] else cmd.

Definition genGrepNodeCmd : list string :=
  ["bash"; "-c"; "grep --regexp='^node[0-9]' " +:+ AdminToolsConf].

Definition genMapFileUploadCmd (mapFileContents : list string) : list string :=
  ["bash"; "-c"; "cat > " +:+ AdminToolsMapFile +:+ "<<< '" +:+ Join mapFileContents newline +:+ "'"].

(** ** Parsing *)

(** The states that [list_allnodes] prints, later lines winning *)
Definition parse_node_line (stateMap : gmap string string) (line : string) : gmap string string :=
  match SplitByte line "|"%char with
  | c0 :: _ :: c2 :: _ :: _ => <[TrimByte c0 " "%char := TrimByte c2 " "%char]> stateMap
  | _ => stateMap
  end.

Definition parseClusterNodeStatus (stdout : string) : gmap string string :=
  let lines := SplitByte stdout newline_char in
  if bool_decide (length lines ≤ 2) then ∅ else foldl parse_node_line ∅ (drop 2 lines).

(** [^(node\d{4}) = ([\d.:a-fA-F]+),] *)
Definition is_ip_char (c : ascii) : bool :=
  is_digit c || bool_decide (c = "."%char) || bool_decide (c = ":"%char)
  || in_range "a"%char "f"%char c || in_range "A"%char "F"%char c.

Definition node_line_re : re :=
  RSeq (RGroup 1 (RSeq (RLit "node") (RRep 4 (RSet is_digit))))
    (RSeq (RLit " = ") (RSeq (RGroup 2 (RPlus (RSet is_ip_char))) (RLit ","))).

Definition parseNodesFromAdmintoolConf (nodeText : string) : gmap string string :=
  foldl (λ ips line,
    match match_prefix node_line_re line with
    | Some caps => <[group 1 caps := group 2 caps]> ips
    | None => ips
    end) ∅ (SplitByte nodeText newline_char).

(** ** The map file of re_ip *)

(** The loop: the lines so far and whether an address changes, and [false] at
    the end if a pod is not running *)
Fixpoint gen_map (oldIPs : gmap string string) (pods : list PodFact) (mapContents : list string)
    (ipChanging : bool) : list string * bool * bool :=
  match pods with
  | [] => (mapContents, ipChanging, true)
  | pod :: pods =>
      if negb (isPodRunning pod) then (mapContents, ipChanging, false)
      else
        match oldIPs !! compat21NodeName pod with
        | None => gen_map oldIPs pods mapContents ipChanging
        | Some oldIP =>
            gen_map oldIPs pods (mapContents ++ [oldIP +:+ " " +:+ podIP pod])
              (if negb (bool_decide (oldIP = podIP pod)) then true else ipChanging)
        end
  end.

Definition genMapFile (oldIPs : gmap string string) (pods : list PodFact) : list string * bool * bool :=
  if bool_decide (length pods = 0) then ([], false, false) else gen_map oldIPs pods [] false.

(** ** The reconciler *)

Section restart.
Context `{Env} `{PodOrder} (restartReadOnly : bool).

(** The output only goes to the log. *)
Definition debugDumpAdmintoolsConf (atPod : NamespacedName) : M unit :=
  _ ← ExecInPod atPod ["bash"; "-c"; "ls -l " +:+ AdminToolsConf
        +:+ " && grep '^node\|^v_\|^host' " +:+ AdminToolsConf];
  mret tt.

Fixpoint kill_loop (pods : list PodFact) (killedAtLeastOnePid : bool) : M (result bool) :=
  match pods with
  | [] => mret (Ok killedAtLeastOnePid)
  | pod :: pods =>
      r ← ExecInPod (pf_name pod) kill_cmd;
      match exec_err r with
      | Some e => mret (Err e)
      | None => kill_loop pods (if Contains (stdout r) KillMarker then true else killedAtLeastOnePid)
      end
  end.

Definition killOldProcesses (pods : list PodFact) : M (Result * option go_error) :=
  r ← kill_loop pods false;
  match r with
  | Err e => mret (no_requeue, Some e)
  | Ok killed => mret ((if killed : bool then requeue else no_requeue), None)
  end.

Definition fetchClusterNodeStatus (atPod : NamespacedName) : M (result (gmap string string)) :=
  r ← ExecAdmintools atPod ["-t"; "list_allnodes"];
  match exec_err r with
  | Some e => mret (Err e)
  | None => mret (Ok (parseClusterNodeStatus (stdout r)))
  end.

Definition down_in_cluster (clusterState : gmap string string) (pod : PodFact) : Prop :=
  clusterState !! vnodeName pod ≠ Some StateUp.

#[global] Instance down_in_cluster_dec clusterState pod : Decision (down_in_cluster clusterState pod).
Proof. unfold down_in_cluster. apply _. Defined.

Definition removePodsWithClusterUpState (atPod : NamespacedName) (pods : list PodFact)
    : M (result (list PodFact)) :=
  r ← fetchClusterNodeStatus atPod;
  match r with
  | Err e => mret (Err e)
  | Ok clusterState => mret (Ok (filter (down_in_cluster clusterState) pods))
  end.

Definition execRestartPods (atPod : NamespacedName) (cmd : list string) : M (string * option go_error) :=
  _ ← Event "NodeRestartStarted";
  r ← ExecAdmintools atPod cmd;
  match exec_err r with
  | Some e => _ ← Event "NodeRestartFailed"; mret (stdout r, Some e)
  | None => _ ← Event "NodeRestartSucceeded"; mret (stdout r, None)
  end.

Definition restartPods (vdb : VerticaDB) (p : PodFacts) (atPod : NamespacedName) (pods : list PodFact)
    : M (PodFacts * (Result * option go_error)) :=
  d ← removePodsWithClusterUpState atPod pods;
  match d with
  | Err e => mret (p, (no_requeue, Some e))
  | Ok downPods =>
      if bool_decide (length downPods = 0) then mret (p, (requeue, None)) else
      let vnodeList := genRestartVNodeList downPods in
      let ipList := genRestartIPList downPods in
      k ← killOldProcesses downPods;
      let '(res, err) := k in
      if IsReconcileAborted res err then mret (p, (res, err)) else
      _ ← debugDumpAdmintoolsConf atPod;
      x ← execRestartPods atPod (genRestartNodeCmd vdb vnodeList ipList);
      let '(out, err) := x in
      match err with
      | Some e =>
          if Contains out "All nodes in the input are not down, can't restart"
          then mret (p, (MkResult false (wrap64 (Second * RequeueWaitTimeInSeconds)), None))
          else mret (p, (no_requeue, Some (ErrMsg "failed to restart pod(s)")))
      | None =>
          _ ← debugDumpAdmintoolsConf atPod;
          mret (Invalidate p,
                (MkResult (bool_decide (length downPods < length pods)) 0, None))
      end
  end.

Definition fetchOldIPsFromNode (atPod : NamespacedName) : M (result (gmap string string)) :=
  r ← ExecInPod atPod genGrepNodeCmd;
  match exec_err r with
  | Some e => mret (Err e)
  | None => mret (Ok (parseNodesFromAdmintoolConf (stdout r)))
  end.

Definition reipNodes (vdb : VerticaDB) (atPod : NamespacedName) (pods : list PodFact)
    : M (Result * option go_error) :=
  o ← fetchOldIPsFromNode atPod;
  match o with
  | Err e => mret (no_requeue, Some e)
  | Ok oldIPs =>
      let '(mapFileContents, ipChanging, ok) := genMapFile oldIPs pods in
      if negb ok then mret (requeue, None)
      else if negb ipChanging then mret (no_requeue, None)
      else
        r ← ExecInPod atPod (genMapFileUploadCmd mapFileContents);
        match exec_err r with
        | Some e => mret (no_requeue, Some e)
        | None =>
            _ ← debugDumpAdmintoolsConf atPod;
            r ← ExecAdmintools atPod (genReIPCommand vdb);
            match exec_err r with
            | Some e => _ ← Event "ReipFailed"; mret (no_requeue, Some e)
            | None => _ ← debugDumpAdmintoolsConf atPod; mret (no_requeue, None)
            end
        end
  end.

Definition restartCluster (vdb : VerticaDB) (atPod : NamespacedName) (downPods : list PodFact)
    : M (Result * option go_error) :=
  let cmd := genStartDBCommand vdb downPods in
  _ ← Event "ClusterRestartStarted";
  r ← ExecAdmintools atPod cmd;
  match exec_err r with
  | Some e => _ ← Event "ClusterRestartFailed"; mret (no_requeue, Some e)
  | None => _ ← Event "ClusterRestartSucceeded"; mret (no_requeue, None)
  end.

(** [setATPod]: keep the pod that is set, otherwise take the one found *)
Definition setATPod (atPod : NamespacedName) (found : PodFact * bool) : option NamespacedName :=
  if bool_decide (atPod = MkNamespacedName "" "")
  then if snd found then Some (pf_name (fst found)) else None
  else Some atPod.

Definition reconcileCluster (vdb : VerticaDB) (p : PodFacts) (atPod : NamespacedName)
    : M (PodFacts * (Result * option go_error)) :=
  pods ← range_pods 1 p;
  if areAllPodsRunningAndZeroInstalled pods then mret (p, (no_requeue, None)) else
  pods ← range_pods 2 p;
  if bool_decide (countRunningAndInstalled pods = 0%Z) then mret (p, (requeue, None)) else
  pods ← range_pods 3 p;
  if bool_decide (spec_KSafety (vdb_Spec vdb) = KSafety0)
     && bool_decide (0 < countInstalledAndNotRestartable pods)%Z
  then mret (p, (requeue, None)) else
  pods ← range_pods 4 p;
  match setATPod atPod (findPodToRunAdmintoolsOffline pods) with
  | None => mret (p, (requeue, None))
  | Some atPod =>
      pods ← range_pods 5 p;
      let downPods := findRestartablePods restartReadOnly true pods in
      k ← killOldProcesses downPods;
      let '(res, err) := k in
      if IsReconcileAborted res err then mret (p, (res, err)) else
      pods ← range_pods 6 p;
      k ← reipNodes vdb atPod (findReIPPods false pods);
      let '(res, err) := k in
      if IsReconcileAborted res err then mret (p, (res, err)) else
      pods ← range_pods 7 p;
      if negb (doesDBExist pods) then mret (p, (no_requeue, None)) else
      k ← restartCluster vdb atPod downPods;
      let '(res, err) := k in
      if IsReconcileAborted res err then mret (p, (res, err))
      else mret (Invalidate p, (no_requeue, None))
  end.

Definition shouldRequeueIfPodsNotRunning (p : PodFacts) : M bool :=
  pods ← range_pods 8 p;
  mret (bool_decide (0 < countInstalledAndNotRestartable pods)%Z).

(** [findPodToRunAdmintoolsAny] with its three loops *)
Definition range_admintools_any (p : PodFacts) : M (PodFact * bool) :=
  p1 ← range_pods 10 p; p2 ← range_pods 11 p; p3 ← range_pods 12 p;
  mret (findPodToRunAdmintoolsAny p1 p2 p3).

Definition reconcileNodes_end (p : PodFacts) : M (PodFacts * (Result * option go_error)) :=
  rq ← shouldRequeueIfPodsNotRunning p;
  mret (p, (MkResult rq 0, None)).

(** The second half: re-ip of the installed pods without a database *)
Definition reconcileNodes_reip (vdb : VerticaDB) (p : PodFacts) (atPod : NamespacedName)
    : M (PodFacts * (Result * option go_error)) :=
  if bool_decide (spec_InitPolicy (vdb_Spec vdb) = CommunalInitPolicyScheduleOnly)
  then reconcileNodes_end p
  else
    pods ← range_pods 9 p;
    let reIPPods := findReIPPods true pods in
    if bool_decide (0 < length reIPPods) then
      f ← range_admintools_any p;
      match setATPod atPod f with
      | None => mret (p, (requeue, None))
      | Some atPod =>
          k ← reipNodes vdb atPod reIPPods;
          let '(res, err) := k in
          if IsReconcileAborted res err then mret (p, (res, err)) else reconcileNodes_end p
      end
    else reconcileNodes_end p.

Definition reconcileNodes (vdb : VerticaDB) (p : PodFacts) (atPod : NamespacedName)
    : M (PodFacts * (Result * option go_error)) :=
  pods ← range_pods 0 p;
  let downPods := findRestartablePods restartReadOnly false pods in
  if bool_decide (0 < length downPods) then
    f ← range_admintools_any p;
    match setATPod atPod f with
    | None => mret (p, (requeue, None))
    | Some atPod =>
        k ← restartPods vdb p atPod downPods;
        let '(p, (res, err)) := k in
        if IsReconcileAborted res err then mret (p, (res, err))
        else reconcileNodes_reip vdb p atPod
    end
  else reconcileNodes_reip vdb p atPod.

(** The state of the reconciler is the VerticaDB and the facts it shares with
    the other reconcilers. *)
Definition Reconcile (vdb : VerticaDB) (p : PodFacts) (atPod : NamespacedName)
    : M (VerticaDB * PodFacts * (Result * option go_error)) :=
  if negb (spec_AutoRestartVertica (vdb_Spec vdb)) then
    u ← UpdateCondition vdb (MkVerticaDBCondition AutoRestartVertica ConditionFalse ZeroTime);
    mret (fst u, p, (no_requeue, snd u))
  else
    u ← UpdateCondition vdb (MkVerticaDBCondition AutoRestartVertica ConditionTrue ZeroTime);
    let '(vdb, err) := u in
    match err with
    | Some e => mret (vdb, p, (no_requeue, Some e))
    | None =>
        c ← Collect vdb p;
        let '(p, err) := c in
        match err with
        | Some e => mret (vdb, p, (no_requeue, Some e))
        | None =>
            pods ← range_pods 13 p;
            r ← (if bool_decide (getUpNodeAndNotReadOnlyCount pods = 0%Z)
                    && negb (bool_decide (spec_InitPolicy (vdb_Spec vdb)
                                          = CommunalInitPolicyScheduleOnly))
                 then reconcileCluster vdb p atPod
                 else reconcileNodes vdb p atPod);
            let '(p, res) := r in mret (vdb, p, res)
        end
    end.

End restart.
