(* ===== verification/RestartSpec.v ===== *)
(** * Safety of the restart reconciler

    What must hold, and what must have been done, when a command that starts or
    re-addresses nodes is sent; for all answers of the cluster and all
    iteration orders. *)

From Stdlib Require Import Ascii.
From stdpp Require Import base gmap strings pretty sorting numbers list.
From S2P Require Import Prelude GoStrings GoRegexp K8s Types Version KObjects Effects Status Labels ScFinder PodFacts PodFactsSpec Restart.

(** The calls without a rule: everything but admintools, and its query *)
Definition quiet (a : action) : Prop :=
  match a with
  | AExecAdmintools _ cmd => cmd = ["-t"; "list_allnodes"]
  | _ => True
  end.

(** Nothing of admintools *)
Definition no_admintools (a : action) : Prop :=
  match a with AExecAdmintools _ _ => False | _ => True end.

Ltac quiet_tac := first [exact I | reflexivity].

Ltac quiet_steps := repeat only_step quiet_tac.

Section quiet.
Context `{E : Env} `{O : PodOrder}.

Lemma quiet_range site p : only quiet (range_pods site p).
Proof. intros t. exists []. by split. Qed.

Lemma silent_Update vdb f : only no_admintools (Update vdb f).
Proof.
  unfold Update. apply only_retry. intros v. unfold Update_attempt. wp_calls. quiet_steps.
Qed.

Lemma silent_UpdateCondition vdb c : only no_admintools (UpdateCondition vdb c).
Proof.
  unfold UpdateCondition. apply only_bind; [intros t; exists []; by split|].
  intros now. apply silent_Update.
Qed.

Lemma silent_Collect vdb p : only no_admintools (Collect vdb p).
Proof. eapply only_mono; [|apply Collect_calls]. by intros []. Qed.

Lemma quiet_kill pods : only quiet (killOldProcesses pods).
Proof.
  unfold killOldProcesses. apply only_bind; [|intros []; apply only_ret]. generalize false.
  induction pods as [|pod pods IH]; intros b; simpl; [apply only_ret|]. wp_calls.
  apply only_bind; [apply only_call; exact I|]. intros r.
  destruct (exec_err r); [apply only_ret|apply IH].
Qed.

Lemma quiet_dump at_ : only quiet (debugDumpAdmintoolsConf at_).
Proof. unfold debugDumpAdmintoolsConf. wp_calls. quiet_steps. Qed.

Lemma quiet_removePods at_ pods : only quiet (removePodsWithClusterUpState at_ pods).
Proof. unfold removePodsWithClusterUpState, fetchClusterNodeStatus. wp_calls. quiet_steps. Qed.

Lemma quiet_oldIPs at_ : only quiet (fetchOldIPsFromNode at_).
Proof. unfold fetchOldIPsFromNode. wp_calls. quiet_steps. Qed.

Lemma quiet_admintools_any p : only quiet (range_admintools_any p).
Proof.
  unfold range_admintools_any. do 3 (apply only_bind; [apply quiet_range|intros ?]). apply only_ret.
Qed.

Lemma quiet_end p : only quiet (reconcileNodes_end p).
Proof.
  unfold reconcileNodes_end, shouldRequeueIfPodsNotRunning.
  apply only_bind; [|intros; apply only_ret].
  apply only_bind; [apply quiet_range|intros; apply only_ret].
Qed.

End quiet.

(** ** Rules *)

Section rules.
Context `{E : Env} `{O : PodOrder} (restartReadOnly : bool).

(** The facts as a list, in some order *)
Definition facts_list (p : PodFacts) : list PodFact := (map_to_list (Detail p)).*2.

(** Since the facts were collected ([since]), the kill command ran in the pod and
    found no process. *)
Definition clean_kill (since past : Trace) (v : PodFact) : Prop :=
  ∃ before, extends since before ∧ extends (AExecInPod (pf_name v) kill_cmd :: before) past ∧
    exec_err (env_exec before (pf_name v) kill_cmd) = None ∧
    Contains (stdout (env_exec before (pf_name v) kill_cmd)) KillMarker = false.

(** Since then, the cluster was asked and does not report the node as up. *)
Definition not_up_in_cluster (atPod : NamespacedName) (since past : Trace) (v : PodFact) : Prop :=
  ∃ before, extends since before ∧
    extends (AExecAdmintools atPod ["-t"; "list_allnodes"] :: before) past ∧
    parseClusterNodeStatus (stdout (env_admintools before atPod ["-t"; "list_allnodes"]))
      !! vnodeName v ≠ Some StateUp.

(** When [start_db] may be sent from the pod [atPod], given the facts [p] *)
Record start_db_ok (vdb : VerticaDB) (p : PodFacts) (atPod : NamespacedName) (cmd : list string)
    (since past : Trace) (down : list PodFact) : Prop := {
  start_cmd : cmd = genStartDBCommand vdb down;
  start_down : down ≡ₚ findRestartablePods restartReadOnly true (facts_list p);
  start_none_up : ∃ l, l ≡ₚ facts_list p ∧ getUpNodeAndNotReadOnlyCount l = 0%Z;
  start_policy : spec_InitPolicy (vdb_Spec vdb) ≠ CommunalInitPolicyScheduleOnly;
  start_db_exists : ∃ v, v ∈ facts_list p ∧ dbExists v = true;
  start_at : ∃ v, v ∈ facts_list p ∧ pf_name v = atPod ∧
    isInstalled v = true ∧ isPodRunning v = true ∧ upNode v = false;
  start_killed : ∀ v, v ∈ down → clean_kill since past v;
  start_since : extends since past }.

(** When [restart_node] may be sent *)
Record restart_node_ok (vdb : VerticaDB) (p : PodFacts) (atPod : NamespacedName)
    (cmd : list string) (since past : Trace) (down : list PodFact) : Prop := {
  restart_cmd : cmd = genRestartNodeCmd vdb (vnodeName <$> down) (podIP <$> down);
  restart_some : down ≠ [];
  restart_pods : ∀ v, v ∈ down → v ∈ facts_list p ∧ isTransient v = false ∧
    restartable restartReadOnly false v = true;
  restart_state : ∀ v, v ∈ down → not_up_in_cluster atPod since past v;
  restart_killed : ∀ v, v ∈ down → clean_kill since past v;
  restart_since : extends since past }.

(** When [re_ip] may be sent: the map file was uploaded, and an address in it
    changes *)
Definition re_ip_ok (atPod : NamespacedName) (past : Trace) : Prop :=
  ∃ oldIPs pods contents, genMapFile oldIPs pods = (contents, true, true) ∧
    AExecInPod atPod (genMapFileUploadCmd contents) ∈ past.

(** The rules for the facts [p] collected at [since] *)
Definition rules (vdb : VerticaDB) (p : PodFacts) (since : Trace) (a : action) (past : Trace) : Prop :=
  match a with
  | AExecAdmintools atPod cmd =>
      (cmd !! 1 = Some "start_db" → ∃ down, start_db_ok vdb p atPod cmd since past down) ∧
      (cmd !! 1 = Some "restart_node" → ∃ down, restart_node_ok vdb p atPod cmd since past down) ∧
      (cmd !! 1 = Some "re_ip" → re_ip_ok atPod past)
  | _ => True
  end.

Lemma quiet_rules vdb p since a t : quiet a → rules vdb p since a t.
Proof. destruct a; try done. simpl. intros ->. by split_and!. Qed.

Lemma clean_kill_extends s t t' v : extends t t' → clean_kill s t v → clean_kill s t' v.
Proof. intros He (b & Hs & Hb & H1 & H2). exists b. split; [done|]. split; [by etrans|done]. Qed.

Lemma not_up_extends a s t t' v :
  extends t t' → not_up_in_cluster a s t v → not_up_in_cluster a s t' v.
Proof. intros He (b & Hs & Hb & H1). exists b. split; [done|]. split; [by etrans|done]. Qed.

Lemma extends_elem (a : action) t t' : extends t t' → a ∈ t → a ∈ t'.
Proof. intros [n ->] Ha. apply elem_of_app. by right. Qed.

Lemma wp_range site p t (Q : list PodFact → Trace → Prop) :
  (∀ l, l ≡ₚ facts_list p → Q l t) → wp (range_pods site p) t Q.
Proof. intros HQ. apply HQ, pod_order_perm. Qed.

(** ** The parts

    [R] is any condition on calls that the rules imply. *)
Section parts.
Context (vdb : VerticaDB) (p : PodFacts) (since : Trace) (R : action → Trace → Prop).
Context (HR : ∀ a past, rules vdb p since a past → R a past).

Lemma quiet_R a t : quiet a → R a t.
Proof using HR. intros Ha. by apply HR, quiet_rules. Qed.

(** Step over a computation without a rule; [H] says that it has none. *)
Ltac quiet_wp H :=
  eapply (wp_only quiet _ R _ (λ _ _, True)); [apply H|apply quiet_R|done|done|].

Lemma kill_loop_spec pods b t :
  extends since t →
  wp (kill_loop pods b) t (λ r t', extends t t' ∧
    (r = Ok false → b = false ∧ ∀ v, v ∈ pods → clean_kill since t' v)).
Proof.
  revert b t. induction pods as [|pod pods IH]; intros b t Hs; simpl.
  { wp_step. split; [done|]. intros [= ->]. split; [done|]. by intros v ?%elem_of_nil. }
  wp_calls. do 2 wp_step. destruct (exec_err _) as [e|] eqn:He.
  { wp_step. split; [apply extends_cons|done]. }
  eapply wp_mono; [|apply IH; etrans; [done|apply extends_cons]].
  intros r t' [Hex Hr]. split; [by eapply extends_trans_cons|].
  intros Hok. destruct (Hr Hok) as [Hb Hk]. destruct (Contains _ _) eqn:Hc; [done|].
  split; [done|]. intros v Hv. apply elem_of_cons in Hv as [->|Hv]; [|by apply Hk].
  exists t. by split_and!.
Qed.

Lemma kill_spec pods t :
  extends since t →
  wp (killOldProcesses pods) t (λ r t',
    IsReconcileAborted (fst r) (snd r) = false → ∀ v, v ∈ pods → clean_kill since t' v).
Proof.
  intros Hs. unfold killOldProcesses. wp_step. eapply wp_mono; [|by apply kill_loop_spec].
  intros [killed|e] t' [_ Hk]; wp_step; [|done]. destruct killed; [done|]. intros _. by apply Hk.
Qed.

Lemma reip_spec atPod pods t :
  safe R t →
  wp (reipNodes vdb atPod pods) t (λ _ t', safe R t' ∧ extends t t').
Proof.
  intros Ht. unfold reipNodes. wp_step. quiet_wp quiet_oldIPs. intros o t1 _ H1 X1.
  destruct o as [oldIPs|e]; [|by wp_step].
  destruct (genMapFile oldIPs pods) as [[contents ipChanging] ok] eqn:Hg.
  destruct ok; simpl; [|by wp_step]. destruct ipChanging; simpl; [|by wp_step].
  wp_calls. do 2 wp_step. set (t2 := _ :: t1).
  assert (safe R t2) as H2 by (split; [by apply quiet_R|done]). assert (extends t t2) as X2.
  { etrans; [done|apply extends_cons]. }
  destruct (exec_err _); [by wp_step|]. wp_step. quiet_wp quiet_dump. intros _ t3 _ H3 X3.
  do 2 wp_step. set (a := AExecAdmintools _ _).
  assert (R a t3) as Ha.
  { apply HR. simpl. unfold genReIPCommand. destruct (vdb_version_from _ _); simpl; (split_and!; [done|done|]);
      intros _; exists oldIPs, pods, contents; (split; [done|]);
      (eapply extends_elem; [done|]); apply elem_of_cons; by left. }
  assert (safe R (a :: t3)) as H4 by by split.
  assert (extends t (a :: t3)) as X4 by (etrans; [done|]; etrans; [done|apply extends_cons]).
  destruct (exec_err _).
  - do 2 wp_step. wp_step. split; [split; [by apply quiet_R|done]|].
    etrans; [done|apply extends_cons].
  - wp_step. quiet_wp quiet_dump. intros _ t5 _ H5 X5. wp_step. split; [done|]. by etrans.
Qed.

Lemma genStartDBCommand_1 v down : genStartDBCommand v down !! 1 = Some "start_db".
Proof.
  unfold genStartDBCommand.
  destruct (spec_IgnoreClusterLease _), (negb _), (vdb_version_from _ _); done.
Qed.

Lemma genRestartNodeCmd_1 v vs ips : genRestartNodeCmd v vs ips !! 1 = Some "restart_node".
Proof. unfold genRestartNodeCmd. by destruct (negb _). Qed.

Lemma restartCluster_spec atPod down t :
  safe R t →
  (∀ past, extends t past →
     start_db_ok vdb p atPod (genStartDBCommand vdb down) since past down) →
  wp (restartCluster vdb atPod down) t (λ _ t', safe R t').
Proof.
  intros Ht Hok. unfold restartCluster. wp_calls. do 4 wp_step. set (t1 := _ :: t).
  assert (safe R (AExecAdmintools atPod (genStartDBCommand vdb down) :: t1)) as H2.
  { split; [|split; [by apply quiet_R|done]]. apply HR. simpl. rewrite genStartDBCommand_1. split_and!; [|done|done].
    intros _. exists down. apply Hok, extends_cons. }
  destruct (exec_err _); do 3 wp_step; (split; [by apply quiet_R|done]).
Qed.

Lemma restartable_not_transient v : restartable restartReadOnly false v = true → isTransient v = false.
Proof. unfold restartable. by destruct (isTransient v). Qed.

Lemma removePods_spec atPod pods t :
  extends since t →
  wp (removePodsWithClusterUpState atPod pods) t (λ r t',
    ∀ down, r = Ok down → ∀ v, v ∈ down → v ∈ pods ∧ not_up_in_cluster atPod since t' v).
Proof.
  intros Hs. unfold removePodsWithClusterUpState, fetchClusterNodeStatus. wp_calls. do 3 wp_step.
  destruct (exec_err _); do 2 wp_step; [done|]. intros down [= <-] v Hv.
  apply list_elem_of_filter in Hv as [Hd Hv]. split; [done|]. exists t. by split.
Qed.

Lemma restartPods_spec atPod pods t :
  safe R t → extends since t →
  (∀ v, v ∈ pods → v ∈ facts_list p ∧ restartable restartReadOnly false v = true) →
  wp (restartPods vdb p atPod pods) t (λ r t', safe R t' ∧ Detail (fst r) = Detail p).
Proof.
  intros Ht Hs Hp. unfold restartPods. wp_step.
  eapply (wp_only quiet _ R); [apply quiet_removePods|apply quiet_R|done|
    by apply removePods_spec|]. intros [down|e] t1 Hd H1 X1; [|by wp_step].
  assert (extends since t1) as Hs1 by by etrans.
  specialize (Hd down eq_refl). case_bool_decide as Hlen; [by wp_step|]. wp_step.
  eapply (wp_only quiet _ R); [apply quiet_kill|apply quiet_R|done|
    by apply kill_spec|]. intros [res err] t2 Hk H2 X2. simpl in Hk.
  destruct (IsReconcileAborted res err); [by wp_step|]. specialize (Hk eq_refl). wp_step.
  quiet_wp quiet_dump. intros _ t3 _ H3 X3. wp_step. unfold execRestartPods. wp_calls.
  do 4 wp_step. set (t4 := _ :: t3).
  assert (safe R (AExecAdmintools atPod (genRestartNodeCmd vdb
    (genRestartVNodeList down) (genRestartIPList down)) :: t4)) as H4.
  { split; [|split; [by apply quiet_R|done]]. apply HR. simpl. rewrite genRestartNodeCmd_1. split_and!; [done| |done].
    intros _. exists down. assert (extends t2 t4) as X4 by (etrans; [done|apply extends_cons]).
    assert (extends t1 t4) as X4' by by etrans.
    split; [done|by intros ->| | | |by etrans].
    - intros v Hv. destruct (Hp v) as [Hin Hr]; [by apply Hd|].
      split_and!; [done|by apply restartable_not_transient|done].
    - intros v Hv. eapply not_up_extends; [exact X4'|]. by apply Hd.
    - intros v Hv. eapply clean_kill_extends; [exact X4|]. by apply Hk. }
  assert (∀ s, R (AEvent s) (AExecAdmintools atPod (genRestartNodeCmd vdb
    (genRestartVNodeList down) (genRestartIPList down)) :: t4)) as HE by (intros; by apply quiet_R).
  destruct (exec_err _); do 3 wp_step.
  - destruct (Contains _ _); wp_step; by split.
  - simpl. wp_step. eapply (wp_only quiet _ R _ (λ _ _, True));
      [apply quiet_dump|apply quiet_R|by split|done|]. intros _ t5 _ H5 X5. by wp_step.
Qed.

(** ** The two paths *)

Lemma existsb_dbExists pods :
  doesDBExist pods = true → ∃ v, v ∈ pods ∧ dbExists v = true.
Proof.
  unfold doesDBExist. rewrite existsb_exists. intros (v & Hv & Hd). exists v.
  by rewrite list_elem_of_In.
Qed.

Lemma reconcileCluster_spec t :
  safe R t → extends since t →
  (∃ l, l ≡ₚ facts_list p ∧ getUpNodeAndNotReadOnlyCount l = 0%Z) →
  spec_InitPolicy (vdb_Spec vdb) ≠ CommunalInitPolicyScheduleOnly →
  wp (reconcileCluster restartReadOnly vdb p (MkNamespacedName "" "")) t
    (λ _ t', safe R t').
Proof.
  intros Ht Hs Hup Hpol. unfold reconcileCluster.
  wp_step. apply wp_range. intros l1 _. destruct (areAllPodsRunningAndZeroInstalled l1); [by wp_step|].
  wp_step. apply wp_range. intros l2 _. case_bool_decide; [by wp_step|].
  wp_step. apply wp_range. intros l3 _. destruct (_ && _); [by wp_step|].
  wp_step. apply wp_range. intros l4 Hl4. unfold setATPod. rewrite bool_decide_eq_true_2 by done.
  destruct (findPodToRunAdmintoolsOffline l4) as [at_ [|]] eqn:Hat; simpl; [|by wp_step].
  wp_step. apply wp_range. intros l5 Hl5. set (down := findRestartablePods _ _ l5). wp_step.
  eapply (wp_only quiet _ R); [apply quiet_kill|apply quiet_R|done|
    by apply kill_spec|]. intros [res err] t1 Hk H1 X1. simpl in Hk.
  destruct (IsReconcileAborted res err); [by wp_step|]. specialize (Hk eq_refl).
  wp_step. apply wp_range. intros l6 _. wp_step. eapply wp_mono; [|by apply reip_spec].
  intros [res' err'] t2 [H2 X2]. destruct (IsReconcileAborted res' err'); [by wp_step|].
  wp_step. apply wp_range. intros l7 Hl7. destruct (doesDBExist l7) eqn:Hdb; simpl; [|by wp_step].
  wp_step. eapply wp_mono; [|apply restartCluster_spec; [exact H2|]].
  { intros [r e] t3 H3. destruct (IsReconcileAborted r e); by wp_step. }
  intros past Hpast. apply find_pod_true in Hat as [Hin Hat].
  rewrite !andb_true_iff, negb_true_iff in Hat. split.
  - done.
  - unfold down, findRestartablePods. by apply filterPods_perm.
  - done.
  - done.
  - apply existsb_dbExists in Hdb as (v & Hv & Hd). exists v. split; [by rewrite <- Hl7|done].
  - exists at_. split; [by rewrite <- Hl4|]. naive_solver.
  - intros v Hv. eapply clean_kill_extends; [|by apply Hk]. by etrans.
  - etrans; [exact Hs|]. etrans; [exact X1|]. by etrans.
Qed.

Lemma reconcileNodes_reip_spec p' atPod t :
  safe R t →
  wp (reconcileNodes_reip vdb p' atPod) t (λ _ t', safe R t').
Proof.
  intros Ht. unfold reconcileNodes_reip.
  assert (∀ t, safe R t →
    wp (reconcileNodes_end p') t (λ _ t', safe R t')) as Hend.
  { intros t1 H1. eapply (wp_only quiet _ R _ (λ _ _, True));
      [apply quiet_end|apply quiet_R|done|done|]. by intros. }
  case_bool_decide; [by apply Hend|]. wp_step. apply wp_range. intros l _.
  case_bool_decide; [|by apply Hend]. wp_step. quiet_wp quiet_admintools_any.
  intros f t1 _ H1 X1. destruct (setATPod atPod f) as [at_|]; [|by wp_step]. wp_step.
  eapply wp_mono; [|by apply reip_spec]. intros [res err] t2 [H2 X2].
  destruct (IsReconcileAborted res err); [by wp_step|by apply Hend].
Qed.

Lemma reconcileNodes_spec atPod t :
  safe R t → extends since t →
  wp (reconcileNodes restartReadOnly vdb p atPod) t (λ _ t', safe R t').
Proof.
  intros Ht Hs. unfold reconcileNodes. wp_step. apply wp_range. intros l Hl.
  case_bool_decide; [|by apply reconcileNodes_reip_spec]. wp_step. quiet_wp quiet_admintools_any.
  intros f t1 _ H1 X1. destruct (setATPod atPod f) as [at_|]; [|by wp_step]. wp_step.
  eapply wp_mono; [|apply restartPods_spec; [exact H1|by etrans|]].
  - intros [p' [res err]] t2 [H2 _]. destruct (IsReconcileAborted res err); [by wp_step|].
    by apply reconcileNodes_reip_spec.
  - intros v Hv. apply list_elem_of_filter in Hv as [Hr Hv]. by rewrite <- Hl.
Qed.

End parts.

End rules.

(** A count of zero means that no node is up and writable. *)
Lemma none_up l :
  (Z.of_nat (length l) < 2 ^ 63)%Z →
  getUpNodeAndNotReadOnlyCount l = 0%Z → ∀ v, v ∈ l → upNode v && negb (readOnly v) = false.
Proof. intros Hlen. by apply count_if_zero. Qed.

(** ** One iteration *)

Section iteration.
Context `{E : Env} `{O : PodOrder} (restartReadOnly : bool).

(** The reconciler starts without a pod for admintools. *)
Definition no_pod : NamespacedName := MkNamespacedName "" "".

(** The iteration first records that automatic restart is on; it goes on with the
    VerticaDB that this leaves, at [t1]. *)
Definition restart_on (vdb0 : VerticaDB) (t0 : Trace) (vdb : VerticaDB) (t1 : Trace) : Prop :=
  UpdateCondition vdb0 (MkVerticaDBCondition AutoRestartVertica ConditionTrue ZeroTime) t0 = ((vdb, None), t1).

(** An admintools call of the iteration that started at [t0] with the VerticaDB
    [vdb0] and the facts [p0]: the facts it is based on come from a collection in
    this iteration, and the rules hold for them. *)
Definition by_the_rules (vdb0 : VerticaDB) (p0 : PodFacts) (t0 : Trace) (a : action) (past : Trace) : Prop :=
  match a with
  | AExecAdmintools _ _ =>
      ∃ vdb p t1, restart_on vdb0 t0 vdb t1 ∧ extends t0 t1 ∧ fst (Collect vdb p0 t1) = (p, None) ∧
        rules restartReadOnly vdb p (snd (Collect vdb p0 t1)) a past
  | _ => True
  end.

Lemma Reconcile_rules vdb p0 t0 :
  wp (Reconcile restartReadOnly vdb p0 no_pod) t0 (λ _ t',
    safe (λ a past, length past < length t0 ∨ by_the_rules vdb p0 t0 a past) t').
Proof.
  set (R := λ a past, length past < length t0 ∨ by_the_rules vdb p0 t0 a past).
  assert (safe R t0) as H0 by apply safe_base.
  assert (∀ a past, no_admintools a → R a past) as Hsil.
  { intros a past Ha. right. by destruct a. }
  unfold Reconcile. destruct (negb _).
  { wp_step. eapply (wp_only no_admintools _ R _ (λ _ _, True));
      [apply silent_UpdateCondition|apply Hsil|done|done|]. intros u t1 _ H1 _. by wp_step. }
  wp_step. eapply (wp_only no_admintools _ R); [apply silent_UpdateCondition|apply Hsil|done|apply wp_run|].
  intros [v [e|]] t1 Hon H1 X1; [by wp_step|]. wp_step.
  eapply (wp_only no_admintools _ R _ (λ c t2, c = fst (Collect v p0 t1) ∧ t2 = snd (Collect v p0 t1)));
    [apply silent_Collect|apply Hsil|done|done|].
  intros [p err] t2 [Hc Ht2] H2 X2. destruct err as [e|]; [by wp_step|].
  wp_step. apply wp_range. intros l Hl.
  assert (∀ a past, rules restartReadOnly v p t2 a past → R a past) as HR.
  { intros a past Ha. right. destruct a; try done. exists v, p, t1. subst t2.
    split; [done|]. split; [done|]. by split. }
  wp_step.
  destruct (bool_decide (getUpNodeAndNotReadOnlyCount l = 0%Z)) eqn:Hup; simpl.
  - apply bool_decide_eq_true in Hup. case_bool_decide as Hpol; simpl.
    + eapply wp_mono; [|by apply (reconcileNodes_spec restartReadOnly v p t2 R HR)].
      intros [p' r] t3 H3. by wp_step.
    + eapply wp_mono; [|apply (reconcileCluster_spec restartReadOnly v p t2 R HR); [done|done| |done]].
      * intros [p' r] t3 H3. by wp_step.
      * by exists l.
  - eapply wp_mono; [|by apply (reconcileNodes_spec restartReadOnly v p t2 R HR)].
    intros [p' r] t3 H3. by wp_step.
Qed.

End iteration.

(** ** A cluster to restart

    [up nm] says in which pods the database is up. *)
#[global] Instance map_order : PodOrder.
Proof. by exists (λ _ _ m, (map_to_list m).*2) (λ _ _ m, (map_to_list m).*2). Defined.

Definition down_env (up : NamespacedName → bool) : Env := {|
  env_exec _ _ cmd := if bool_decide (cmd !! 2 = Some "ls -d /data/db/v_db_node????_data")
                      then MkExec "/data/db/v_db_node0001_data" "" None else MkExec "" "" None;
  env_vsql _ nm cmd := if up nm then MkExec "1" "" None
    else MkExec "" "vsql: could not connect to server: refused" (Some (ErrMsg "exit 1"));
  env_admintools _ _ _ := MkExec "" "" None;
  env_get_vdb _ _ := Ok MakeVDB;
  env_update_vdb _ w := Ok w;
  env_update_vdb_status _ w := Ok w;
  env_get_vas _ _ := Err ErrNotFound;
  env_update_vas _ w := Ok w;
  env_update_vas_status _ w := Ok w;
  env_get_sts _ _ := Err ErrNotFound;
  env_get_pod _ nm := Ok (MkPod (MkObjectMeta (nn_Name nm) (nn_Namespace nm) ∅
    {[KubernetesVersionAnnotation := "v1"]}) "Running" "10.1.1.1" (nn_Name nm) "hl" "img");
  env_list_sts _ _ _ := Ok [];
  env_list_pods _ _ _ := Ok [];
  env_list_services _ _ _ := Ok [];
  env_update_sts _ s := Ok s;
  env_delete_pod _ _ := None;
  env_copy _ _ _ _ := MkExec "" "" None;
  env_update_pod _ q := Ok q;
  env_patch_pod _ q := Ok q;
  env_server_version _ := Ok ("v1", "c", "d");
  env_get_secret _ _ := Err ErrNotFound;
  env_get_configmap _ _ := Some ErrNotFound;
  env_get_service _ _ := Err ErrNotFound;
  env_create_service _ _ := None;
  env_update_service _ s := Ok s;
  env_delete_service _ _ := None;
  env_create_sts _ _ := None;
  env_patch_sts _ s := Ok s;
  env_delete_sts _ _ := None;
  env_set_controller _ _ := None;
  env_now _ := 7%Z;
  env_retry_steps := 4 |}.

Definition demo_pod1 : NamespacedName := MkNamespacedName "default" "vertica-sample-defaultsubcluster-1".

Definition demo_pod0 : NamespacedName := MkNamespacedName "default" "vertica-sample-defaultsubcluster-0".

(** ** Properties *)

(** C3: when an iteration of the restart reconciler sends [start_db], the facts
    it collected in this iteration show no node that is up and writable, a
    database, and the pod it uses as installed, running and down; and since the
    collection the kill command ran in every restartable pod and found no
    process left. *)
Theorem start_db_safe `{E : Env} `{O : PodOrder} restartReadOnly vdb0 p0 t0 n1 atPod cmd n2 :
  snd (Reconcile restartReadOnly vdb0 p0 no_pod t0) = n1 ++ AExecAdmintools atPod cmd :: n2 →
  extends t0 n2 → cmd !! 1 = Some "start_db" →
  ∃ vdb p t1 down, restart_on vdb0 t0 vdb t1 ∧ extends t0 t1 ∧ fst (Collect vdb p0 t1) = (p, None) ∧
    spec_InitPolicy (vdb_Spec vdb) ≠ CommunalInitPolicyScheduleOnly ∧
    cmd = genStartDBCommand vdb down ∧
    down ≡ₚ findRestartablePods restartReadOnly true (facts_list p) ∧
    ((Z.of_nat (length (facts_list p)) < 2 ^ 63)%Z →
       ∀ v, v ∈ facts_list p → upNode v && negb (readOnly v) = false) ∧
    (∃ v, v ∈ facts_list p ∧ dbExists v = true) ∧
    (∃ v, v ∈ facts_list p ∧ pf_name v = atPod ∧
       isInstalled v = true ∧ isPodRunning v = true ∧ upNode v = false) ∧
    (∀ v, v ∈ down → clean_kill (snd (Collect vdb p0 t1)) n2 v).
Proof.
  intros Ht Hex Hcmd. pose proof (Reconcile_rules restartReadOnly vdb0 p0 t0) as Hr.
  unfold wp in Hr. rewrite Ht in Hr. apply safe_at in Hr as [Hlen|Hr].
  { apply extends_length in Hex. lia. }
  destruct Hr as (vdb & p & t1 & Hon & Ht1 & Hc & Hrule & _ & _).
  destruct (Hrule Hcmd) as (down & [H1 H2 (l & Hl & H3) H4 H5 H6 H7]).
  exists vdb, p, t1, down. split_and!; try done.
  intros Hb v Hv. apply (none_up l); [by rewrite Hl|done|by rewrite Hl].
Qed.

Lemma start_db_safe_witness :
  let E := down_env (λ _, false) in
  ∃ vdb p t1 (down : list PodFact), extends [] t1 ∧
    fst (Collect vdb MakePodFacts t1) = (p, None) ∧ (∃ v, v ∈ facts_list p ∧ dbExists v = true).
Proof.
  set (t := snd (@Reconcile (down_env (λ _, false)) map_order true MakeVDB MakePodFacts no_pod [])).
  assert (t !! 1 = Some (AExecAdmintools demo_pod1 (genStartDBCommand MakeVDB []))) as Hi
    by (vm_compute; reflexivity).
  destruct (@start_db_safe (down_env (λ _, false)) map_order true MakeVDB MakePodFacts []
    (take 1 t) demo_pod1 (genStartDBCommand MakeVDB []) (drop 2 t))
    as (vdb & p & t1 & down & _ & H1 & H2 & _ & _ & _ & _ & H7 & _).
  - symmetry. apply take_drop_middle. exact Hi.
  - exists (drop 2 t). by rewrite app_nil_r.
  - reflexivity.
  - exists vdb, p, t1, down. exact (conj H1 (conj H2 H7)).
Defined.

(** C8: when an iteration sends [restart_node], it names exactly the nodes of a
    non-empty set of pods that the facts collected in this iteration show as
    restartable and not transient, that the cluster, asked since, does not
    report as up, and in which the kill command ran and found no process left. *)
Theorem restart_node_safe `{E : Env} `{O : PodOrder} restartReadOnly vdb0 p0 t0 n1 atPod cmd n2 :
  snd (Reconcile restartReadOnly vdb0 p0 no_pod t0) = n1 ++ AExecAdmintools atPod cmd :: n2 →
  extends t0 n2 → cmd !! 1 = Some "restart_node" →
  ∃ vdb p t1 down, restart_on vdb0 t0 vdb t1 ∧ extends t0 t1 ∧ fst (Collect vdb p0 t1) = (p, None) ∧
    restart_node_ok restartReadOnly vdb p atPod cmd (snd (Collect vdb p0 t1)) n2 down.
Proof.
  intros Ht Hex Hcmd. pose proof (Reconcile_rules restartReadOnly vdb0 p0 t0) as Hr.
  unfold wp in Hr. rewrite Ht in Hr. apply safe_at in Hr as [Hlen|Hr].
  { apply extends_length in Hex. lia. }
  destruct Hr as (vdb & p & t1 & Hon & Ht1 & Hc & _ & Hrule & _).
  destruct (Hrule Hcmd) as (down & Hok). by exists vdb, p, t1, down.
Qed.

Lemma restart_node_safe_witness :
  let E := down_env (λ nm, bool_decide (nm = demo_pod0)) in
  ∃ vdb p t1 cmd n2 down, fst (Collect vdb MakePodFacts t1) = (p, None) ∧
    restart_node_ok true vdb p demo_pod0 cmd (snd (Collect vdb MakePodFacts t1)) n2 down.
Proof.
  set (E := down_env (λ nm, bool_decide (nm = demo_pod0))).
  set (t := snd (@Reconcile E map_order true MakeVDB MakePodFacts no_pod [])).
  set (cmd := ["-t"; "restart_node"; "--database=db"; "--hosts=v_db_node0001,v_db_node0001";
               "--new-host-ips=10.1.1.1,10.1.1.1"; "--noprompt"]).
  assert (t !! 2 = Some (AExecAdmintools demo_pod0 cmd)) as Hi by (vm_compute; reflexivity).
  destruct (@restart_node_safe E map_order true MakeVDB MakePodFacts []
    (take 2 t) demo_pod0 cmd (drop 3 t)) as (vdb & p & t1 & down & _ & H1 & H2 & H3).
  - symmetry. apply take_drop_middle. exact Hi.
  - exists (drop 3 t). by rewrite app_nil_r.
  - reflexivity.
  - exists vdb, p, t1, cmd, (drop 3 t), down. exact (conj H2 H3).
Defined.

(** With automatic restart turned off the reconciler runs no command in any
    pod; it only records the condition. *)
Theorem no_restart_when_disabled `{E : Env} `{O : PodOrder} restartReadOnly vdb p atPod t :
  spec_AutoRestartVertica (vdb_Spec vdb) = false →
  ∃ new, snd (Reconcile restartReadOnly vdb p atPod t) = new ++ t ∧
    Forall (λ a, match a with AGetVdb _ | AUpdateVdbStatus _ => True | _ => False end) new.
Proof.
  intros Hoff. unfold Reconcile. rewrite Hoff. simpl.
  assert (only (λ a, match a with AGetVdb _ | AUpdateVdbStatus _ => True | _ => False end)
    (u ← UpdateCondition vdb (MkVerticaDBCondition AutoRestartVertica ConditionFalse ZeroTime);
     mret (fst u, p, (no_requeue, snd u)))) as Ho; [|apply Ho].
  apply only_bind; [|intros; apply only_ret]. unfold UpdateCondition.
  apply only_bind; [intros t'; exists []; by split|]. intros now. unfold Update.
  apply only_retry. intros v. unfold Update_attempt. wp_calls. repeat only_step ltac:(exact I).
Qed.

Lemma no_restart_when_disabled_witness :
  let vdb := zero_vdb in
  ∃ new, snd (@Reconcile (down_env (λ _, false)) map_order true vdb MakePodFacts no_pod []) = new ++ [] ∧
    length new = 2.
Proof.
  destruct (@no_restart_when_disabled (down_env (λ _, false)) map_order true zero_vdb MakePodFacts
    no_pod [] eq_refl) as (new & Hnew & _).
  exists new. split; [done|]. rewrite app_nil_r in Hnew. rewrite <- Hnew. vm_compute. reflexivity.
Defined.
