(* ===== verification/Install.v ===== *)
(** * Installation and scale down of the installation

    [pkg/controllers/vdb/at.go], [install_reconcile.go], [uninstall_reconcile.go],
    [actor.go] and [paths.go] of the same directory.  Reading a field of a pod
    fact that is missing from the map is a nil dereference: these functions
    return an [outcome]. *)

From Stdlib Require Import Ascii.
From stdpp Require Import base gmap strings pretty sorting numbers list.
From S2P Require Import Prelude GoStrings GoRegexp K8s Types Version KObjects Effects Status Labels ScFinder Atconf PodFacts Restart.

Definition nil_dereference : string := "invalid memory address or nil pointer dereference".

(** ** [paths.go] *)

Section paths.
Context `{Env}.

Fixpoint remove_paths (podName : NamespacedName) (locPaths : list string) : M (option go_error) :=
  match locPaths with
  | [] => mret None
  | path :: locPaths =>
      r ← ExecInPod podName ["rm"; "-r"; path];
      match exec_err r with
      | Some err =>
          if negb (Contains (stderr r) "No such file or directory") then mret (Some err)
          else remove_paths podName locPaths
      | None => remove_paths podName locPaths
      end
  end.

Definition cleanupLocalFiles (vdb : VerticaDB) (podName : NamespacedName) : M (option go_error) :=
  remove_paths podName [GetDBDataPath vdb; GetDepotPath vdb].

Fixpoint debugDumpAdmintoolsConfForPods (pods : list PodFact) : M unit :=
  match pods with
  | [] => mret tt
  | pod :: pods => _ ← debugDumpAdmintoolsConf (pf_name pod); debugDumpAdmintoolsConfForPods pods
  end.

(** The same command in every pod until one fails *)
Fixpoint exec_in_pods (cmd : list string) (podList : list PodFact) : M (option go_error) :=
  match podList with
  | [] => mret None
  | pod :: podList =>
      r ← ExecInPod (pf_name pod) cmd;
      match exec_err r with
      | Some e => mret (Some e)
      | None => exec_in_pods cmd podList
      end
  end.

Definition changeDepotPermissions (vdb : VerticaDB) (podList : list PodFact) : M (option go_error) :=
  exec_in_pods ["sudo"; "chown"; "dbadmin:verticadba"; "-R";
                LocalDataPath +:+ "/" +:+ GetPVSubPath vdb "depot"] podList.

End paths.

(** ** [at.go] *)

(** The first pod 0, in the order of the spec, that satisfies the test *)
Fixpoint first_pod0 (test : PodFact → bool) (vdb : VerticaDB) (p : PodFacts) (scs : list Subcluster)
    : outcome (option NamespacedName) :=
  match scs with
  | [] => Ret None
  | sc :: scs =>
      let pn := GenPodName vdb sc 0 in
      match Detail p !! pn with
      | None => Panic nil_dereference
      | Some v => if test v then Ret (Some pn) else first_pod0 test vdb p scs
      end
  end.

Definition no_suitable_pod : go_error := ErrMsg "couldn't find a suitable pod to install from".

Definition findATBasePod (vdb : VerticaDB) (p : PodFacts) : outcome (result NamespacedName) :=
  match first_pod0 isInstalled vdb p (spec_Subclusters (vdb_Spec vdb)) with
  | Panic m => Panic m
  | Ret (Some pn) => Ret (Ok pn)
  | Ret None => Ret (Err no_suitable_pod)
  end.

Definition findPodForFirstCopy (vdb : VerticaDB) (p : PodFacts) : outcome (result NamespacedName) :=
  match findATBasePod vdb p with
  | Panic m => Panic m
  | Ret base =>
      let basePod := match base with Ok pn => pn | Err _ => MkNamespacedName "" "" end in
      if negb (bool_decide (basePod = MkNamespacedName "" "")) then Ret (Ok basePod)
      else
        match first_pod0 isPodRunning vdb p (spec_Subclusters (vdb_Spec vdb)) with
        | Panic m => Panic m
        | Ret (Some pn) => Ret (Ok pn)
        | Ret None => Ret (Err no_suitable_pod)
        end
  end.

Section at_.
Context `{Env} `{PodOrder}.

(** The errors of the copies to the other running pods *)
Fixpoint copy_to_rest (basePod : NamespacedName) (contents : string) (pods : list PodFact)
    (errs : list go_error) : M (list go_error) :=
  match pods with
  | [] => mret errs
  | pod :: pods =>
      if negb (isPodRunning pod) then copy_to_rest basePod contents pods errs
      else if bool_decide (pf_name pod = basePod) then copy_to_rest basePod contents pods errs
      else
        r ← CopyToPod (pf_name pod) contents AdminToolsConf;
        copy_to_rest basePod contents pods
          (match exec_err r with Some e => errs ++ [e] | None => errs end)
  end.

Definition distributeAdmintoolsConf (vdb : VerticaDB) (p : PodFacts) (contents : string)
    : M (outcome (option go_error)) :=
  match findPodForFirstCopy vdb p with
  | Panic m => mret (Panic m)
  | Ret (Err e) => oret (Some e)
  | Ret (Ok basePod) =>
      r ← CopyToPod basePod contents AdminToolsConf;
      match exec_err r with
      | Some e => oret (Some e)
      | None =>
          pods ← range_pods 20 p;
          errs ← copy_to_rest basePod contents pods [];
          match errs with
          | e :: _ => _ ← Event "ATConfPartiallyCopied"; oret (Some e)
          | [] => oret None
          end
      end
  end.

End at_.

(** ** [install_reconcile.go] *)

Definition genCmdCreateInstallIndicator (vdb : VerticaDB) (compat21Node : string) : list string :=
  ["bash"; "-c"; "echo " +:+ compat21Node +:+ " > " +:+ GenInstallerIndicatorFileName vdb].

Definition genCmdRemoveOldConfig (vdb : VerticaDB) : list string :=
  ["mv"; AdminToolsConf; AdminToolsConf +:+ ".uid." +:+ vdb_UID vdb].

Definition tab : string := String (ascii_of_nat 9) EmptyString.

Definition acceptEulaPython : string :=
  Join [""; tab +:+ tab +:+ "import vertica.shared.logging";
        tab +:+ tab +:+ "import vertica.tools.eula_checker";
        tab +:+ tab +:+ "vertica.shared.logging.setup_admintool_logging()";
        tab +:+ tab +:+ "vertica.tools.eula_checker.EulaChecker().write_acceptance()"; tab] newline.

(** [^(node\d{4}) = .*] *)
Definition compat21_re : re :=
  RSeq (RGroup 1 (RSeq (RLit "node") (RRep 4 (RSet is_digit))))
    (RSeq (RLit " = ") (RStar (RSet not_newline))).

Section install.
Context `{AtConfDeps} `{Env} `{PodOrder}.

Definition acceptEulaInPod (pf : PodFact) : M (option go_error) :=
  match TempFile with
  | Err e => mret (Some e)
  | Ok _ =>
      match WriteString (Dedent acceptEulaPython) with
      | Some e => mret (Some e)
      | None =>
          r ← CopyToPod (pf_name pf) (Dedent acceptEulaPython) EulaAcceptanceScript;
          match exec_err r with
          | Some e => mret (Some e)
          | None =>
              r ← ExecInPod (pf_name pf) ["/opt/vertica/oss/python3/bin/python3"; EulaAcceptanceScript];
              mret (exec_err r)
          end
      end
  end.

Fixpoint accept_eula (pods : list PodFact) : M (option go_error) :=
  match pods with
  | [] => mret None
  | p :: pods =>
      if negb (bool_decide (eulaAccepted p = TriFalse)) || negb (isPodRunning p)
      then accept_eula pods
      else
        err ← acceptEulaInPod p;
        match err with Some e => mret (Some e) | None => accept_eula pods end
  end.

Definition acceptEulaIfMissing (p : PodFacts) : M (option go_error) :=
  pods ← range_pods 21 p; accept_eula pods.

(** The body of the loop of [checkConfigDir] *)
Definition check_config_dir (p : PodFact) : M (option go_error) :=
  err ← (if configLogrotateExists p && negb (configLogrotateWritable p) then
           r ← ExecInPod (pf_name p) ["sudo"; "chown"; "-R"; "dbadmin:verticadba"; ConfigLogrotatePath];
           mret (exec_err r)
         else mret None);
  match err with
  | Some e => mret (Some e)
  | None =>
      if negb (configShareExists p) then
        r ← ExecInPod (pf_name p) ["mkdir"; ConfigSharePath]; mret (exec_err r)
      else mret None
  end.

Fixpoint check_config_dirs (pods : list PodFact) : M (option go_error) :=
  match pods with
  | [] => mret None
  | p :: pods =>
      if negb (isPodRunning p) then check_config_dirs pods
      else
        err ← check_config_dir p;
        match err with Some e => mret (Some e) | None => check_config_dirs pods end
  end.

Definition checkConfigDir (p : PodFacts) : M (option go_error) :=
  pods ← range_pods 22 p; check_config_dirs pods.

(** [for i := startPodIndex; i < sc.Size; i++], [n] iterations left *)
Fixpoint targets_in_subcluster (vdb : VerticaDB) (p : PodFacts) (sc : Subcluster) (i : Z) (n : nat)
    (podList : list PodFact) : M (list PodFact * option go_error) :=
  match n with
  | 0 => mret (podList, None)
  | S n =>
      match Detail p !! GenPodName vdb sc i with
      | None => mret (podList, None)
      | Some v =>
          if isInstalled v || dbExists v then targets_in_subcluster vdb p sc (i + 1) n podList
          else if negb (isPodRunning v) then mret (podList, None)
          else
            let podList := podList ++ [v] in
            if hasStaleAdmintoolsConf v then
              r ← ExecInPod (pf_name v) (genCmdRemoveOldConfig vdb);
              match exec_err r with
              | Some _ => mret (podList, Some (ErrMsg "failed to remove old admintools.conf"))
              | None => targets_in_subcluster vdb p sc (i + 1) n podList
              end
            else targets_in_subcluster vdb p sc (i + 1) n podList
      end
  end.

Definition startPodIndex (vdb : VerticaDB) (sc : Subcluster) : Z :=
  let '(scStatus, ok) := FindSubclusterStatus vdb (sc_Name sc) in
  if ok : bool then wrap32 (0 + scs_InstallCount scStatus) else 0%Z.

Fixpoint install_targets (vdb : VerticaDB) (p : PodFacts) (scs : list Subcluster)
    (podList : list PodFact) : M (list PodFact * option go_error) :=
  match scs with
  | [] => mret (podList, None)
  | sc :: scs =>
      let start := startPodIndex vdb sc in
      r ← targets_in_subcluster vdb p sc start (Z.to_nat (sc_Size sc - start)) podList;
      let '(podList, err) := r in
      match err with
      | Some e => mret (podList, Some e)
      | None => install_targets vdb p scs podList
      end
  end.

Definition getInstallTargets (vdb : VerticaDB) (p : PodFacts) : M (list PodFact * option go_error) :=
  scs ← range_scs 23 (GenSubclusterMap vdb);
  install_targets vdb p scs [].

Definition fetchCompat21NodeNum (pf : PodFact) : M (result string) :=
  r ← ExecInPod (pf_name pf) ["bash"; "-c";
        "grep -E '^node[0-9]{4} = " +:+ podIP pf +:+ ",' " +:+ AdminToolsConf];
  match exec_err r with
  | Some _ => mret (Err (ErrMsg ("failed to find compat21 node for IP " +:+ podIP pf)))
  | None =>
      match match_prefix compat21_re (stdout r) with
      | Some caps => mret (Ok (group 1 caps))
      | None => mret (Err (ErrMsg "could not find compat21 node in output"))
      end
  end.

Fixpoint createInstallIndicators (vdb : VerticaDB) (pods : list PodFact) : M (option go_error) :=
  match pods with
  | [] => mret None
  | v :: pods =>
      c ← fetchCompat21NodeNum v;
      match c with
      | Err _ => mret (Some (ErrMsg "failed to extract compat21 node name"))
      | Ok compat21Node =>
          r ← ExecInPod (pf_name v) (genCmdCreateInstallIndicator vdb compat21Node);
          match exec_err r with
          | Some _ => mret (Some (ErrMsg "failed to create installer indicator"))
          | None => createInstallIndicators vdb pods
          end
      end
  end.

Definition addHostsToATConf (vdb : VerticaDB) (p : PodFacts)
    : M (outcome (PodFacts * option go_error)) :=
  tg ← getInstallTargets vdb p;
  let '(pods, err) := tg in
  match err with
  | Some e => oret (p, Some e)
  | None =>
      if bool_decide (length pods = 0) then oret (p, None) else
      l ← range_pods 24 p;
      let installedPods := findInstalledPods l in
      let ipsToInstall := podIP <$> pods in
      let base := if negb (bool_decide (length installedPods = 0)) then findATBasePod vdb p
                  else Ret (Ok (MkNamespacedName "" "")) in
      match base with
      | Panic m => mret (Panic m)
      | Ret (Err e) => oret (p, Some e)
      | Ret (Ok installPod) =>
          f ← AddHosts vdb installPod ipsToInstall;
          match f with
          | Err e => oret (p, Some e)
          | Ok (_, contents) =>
              _ ← debugDumpAdmintoolsConfForPods installedPods;
              err ←! distributeAdmintoolsConf vdb p contents;
              match err with
              | Some e => oret (p, Some e)
              | None =>
                  _ ← debugDumpAdmintoolsConfForPods (installedPods ++ pods);
                  err ← createInstallIndicators vdb pods;
                  oret (Invalidate p, err)
              end
          end
      end
  end.

Definition analyzeFacts (vdb : VerticaDB) (p : PodFacts)
    : M (outcome (PodFacts * (Result * option go_error))) :=
  l ← range_pods 25 p;
  if fst (anyInstalledPodsNotRunning l) then oret (p, (requeue, None)) else
  l ← range_pods 26 p;
  if fst (anyUninstalledTransientPodsNotRunning l) then oret (p, (requeue, None)) else
  err ← acceptEulaIfMissing p;
  match err with
  | Some e => oret (p, (no_requeue, Some e))
  | None =>
      err ← checkConfigDir p;
      match err with
      | Some e => oret (p, (no_requeue, Some e))
      | None =>
          r ←! addHostsToATConf vdb p;
          let '(p, err) := r in oret (p, (no_requeue, err))
      end
  end.

Definition InstallReconciler_Reconcile (vdb : VerticaDB) (p : PodFacts)
    : M (outcome (PodFacts * (Result * option go_error))) :=
  if bool_decide (spec_InitPolicy (vdb_Spec vdb) = CommunalInitPolicyScheduleOnly)
  then oret (p, (no_requeue, None))
  else
    c ← Collect vdb p;
    let '(p, err) := c in
    match err with
    | Some e => oret (p, (no_requeue, Some e))
    | None => analyzeFacts vdb p
    end.

End install.

(** ** [actor.go] *)

Section scaledown.
Context `{Env}.

(** A step of scale down for the pods of a subcluster from one index to another *)
Definition scale_down_func : Type :=
  PodFacts → Subcluster → Z → Z → M (outcome (PodFacts * (Result * option go_error))).

(** The finder returns no nil subclusters. *)
Definition scaledownSubcluster (vdb : VerticaDB) (scaleDownFunc : scale_down_func) (p : PodFacts)
    (sc : Subcluster) : M (outcome (PodFacts * (Result * option go_error))) :=
  r ← GetSts (GenStsName vdb sc);
  match r with
  | Err ErrNotFound => oret (p, (no_requeue, None))
  | Err e => oret (p, (no_requeue, Some e))
  | Ok sts =>
      if bool_decide (sc_Size sc < sts_StatusReplicas sts)%Z then
        c ← Collect vdb p;
        let '(p, err) := c in
        match err with
        | Some e => oret (p, (no_requeue, Some e))
        | None =>
            f ←! scaleDownFunc p sc (sc_Size sc) (wrap32 (sts_StatusReplicas sts - 1));
            let '(p, (res, err)) := f in
            match err with
            | Some _ => oret (p, (res, Some (ErrMsg ("failed to scale down nodes in subcluster "
                                                     +:+ sc_Name sc))))
            | None =>
                if IsReconcileAborted res err then oret (p, (res, None))
                else oret (p, (no_requeue, None))
            end
        end
      else oret (p, (no_requeue, None))
  end.

(** The loop over the subclusters, until one aborts *)
Fixpoint scaledown_all (vdb : VerticaDB) (scaleDownFunc : scale_down_func) (p : PodFacts)
    (scs : list Subcluster) : M (outcome (PodFacts * (Result * option go_error))) :=
  match scs with
  | [] => oret (p, (no_requeue, None))
  | sc :: scs =>
      r ←! scaledownSubcluster vdb scaleDownFunc p sc;
      let '(p, (res, err)) := r in
      if IsReconcileAborted res err then oret (p, (res, err))
      else scaledown_all vdb scaleDownFunc p scs
  end.

End scaledown.

(** ** [uninstall_reconcile.go] *)

Definition genCmdRemoveInstallIndicator (vdb : VerticaDB) : list string :=
  ["rm"; GenInstallerIndicatorFileName vdb].

(** [for podIndex := startPodIndex; podIndex <= endPodIndex; podIndex++] *)
Definition indices (lo hi : Z) : list Z :=
  (λ k, lo + Z.of_nat k)%Z <$> seq 0 (Z.to_nat (hi - lo + 1)).

Definition uninstall_step (vdb : VerticaDB) (p : PodFacts) (sc : Subcluster)
    (acc : list PodFact * bool) (podIndex : Z) : list PodFact * bool :=
  let '(pods, requeueNeeded) := acc in
  match Detail p !! GenPodName vdb sc podIndex with
  | None => (pods, true)
  | Some podFact =>
      if negb (isInstalled podFact) then (pods, requeueNeeded)
      else if negb (isPodRunning podFact) then (pods, true)
      else if dbExists podFact then (pods, true)
      else (pods ++ [podFact], requeueNeeded)
  end.

Definition findPodsSuitableForUninstall (vdb : VerticaDB) (p : PodFacts) (sc : Subcluster)
    (startPodIndex endPodIndex : Z) : list PodFact * bool :=
  foldl (uninstall_step vdb p sc) ([], false) (indices startPodIndex endPodIndex).

Section uninstall.
Context `{AtConfDeps} `{Env} `{PodOrder}.

Definition uninstallPodsInSubcluster (vdb : VerticaDB) : scale_down_func :=
  λ p sc startPodIndex endPodIndex,
    let '(podsToUninstall, requeueNeeded) :=
      findPodsSuitableForUninstall vdb p sc startPodIndex endPodIndex in
    if bool_decide (0 < length podsToUninstall) then
      match findATBasePod vdb p with
      | Panic m => mret (Panic m)
      | Ret (Err e) => oret (p, (no_requeue, Some e))
      | Ret (Ok basePod) =>
          f ← RemoveHosts basePod (podIP <$> podsToUninstall);
          match f with
          | Err e => oret (p, (no_requeue, Some e))
          | Ok (_, contents) =>
              err ←! distributeAdmintoolsConf vdb p contents;
              match err with
              | Some e => oret (p, (no_requeue, Some e))
              | None =>
                  err ← exec_in_pods (genCmdRemoveInstallIndicator vdb) podsToUninstall;
                  match err with
                  | Some _ =>
                      oret (p, (no_requeue, Some (ErrMsg "failed to call remove installer indicator file")))
                  | None => oret (Invalidate p, (MkResult requeueNeeded 0, None))
                  end
              end
          end
      end
    else oret (p, (MkResult requeueNeeded 0, None)).

Definition UninstallReconciler_Reconcile (vdb : VerticaDB) (p : PodFacts)
    : M (outcome (PodFacts * (Result * option go_error))) :=
  if bool_decide (spec_InitPolicy (vdb_Spec vdb) = CommunalInitPolicyScheduleOnly)
  then oret (p, (no_requeue, None))
  else
    c ← Collect vdb p;
    let '(p, err) := c in
    match err with
    | Some e => oret (p, (no_requeue, Some e))
    | None =>
        l ← range_pods 27 p;
        if fst (anyInstalledPodsNotRunning l) then oret (p, (requeue, None)) else
        r ← FindSubclusters vdb FindAll;
        match r with
        | Err e => oret (p, (no_requeue, Some e))
        | Ok subclusters => scaledown_all vdb (uninstallPodsInSubcluster vdb) p subclusters
        end
    end.

End uninstall.
