(* ===== verification/Scaling.v ===== *)
(** * Scaling, routing and stopping

    The reconcilers of [pkg/controllers/vdb] that change which nodes and
    subclusters the database has ([dbaddnode], [dbremovenode], [dbaddsubcluster],
    [dbremovesubcluster], [rebalanceshards]), that route clients to them
    ([clientroutinglabel], [drainnode]) and that stop the database ([stopdb]);
    [checkShardToNodeRatio] of [verticadb_controller.go].  Where two reconcilers
    have a method of the same name, the method has the reconciler's name in
    front. *)

From Stdlib Require Import Ascii.
From stdpp Require Import base gmap strings pretty sorting numbers list.
From S2P Require Import Prelude GoStrings GoRegexp K8s Types Version KObjects Effects Status Labels ScFinder Atconf PodFacts Restart Install.

(** ** [verticadb_controller.go] *)

(** [float32(shardCount) / float32(size) > 3.0].  The division is exact enough for
    sizes below [2^21]; a size of 0 gives infinity, or NaN without shards. *)
Definition suboptimal_ratio (shardCount size : Z) : bool := bool_decide (3 * size < shardCount)%Z.

Definition checkShardToNodeRatio `{Env} (vdb : VerticaDB) (sc : Subcluster) : M unit :=
  if bool_decide (spec_KSafety (vdb_Spec vdb) = KSafety0) then mret tt
  else if suboptimal_ratio (spec_ShardCount (vdb_Spec vdb)) (sc_Size sc)
  then Event "SuboptimalNodeCount" else mret tt.

(** ** [dbremovenode_reconcile.go] *)

Definition remove_node_step (vdb : VerticaDB) (p : PodFacts) (sc : Subcluster)
    (acc : list PodFact * bool) (podIndex : Z) : list PodFact * bool :=
  let '(pods, requeueNeeded) := acc in
  match Detail p !! GenPodName vdb sc podIndex with
  | None => (pods, true)
  | Some podFact =>
      if dbExists podFact && negb (isPodRunning podFact) then (pods, true)
      else if negb (dbExists podFact) then (pods, requeueNeeded)
      else (pods ++ [podFact], requeueNeeded)
  end.

Definition findPodsSuitableForRemoval (vdb : VerticaDB) (p : PodFacts) (sc : Subcluster)
    (startPodIndex endPodIndex : Z) : list PodFact * bool :=
  foldl (remove_node_step vdb p sc) ([], false) (indices startPodIndex endPodIndex).

Definition genCmdRemoveNode (vdb : VerticaDB) (pods : list PodFact) : list string :=
  ["-t"; "db_remove_node"; "--database"; spec_DBName (vdb_Spec vdb);
   "--hosts=" +:+ Join (dnsName <$> pods) ","; "--noprompts"].

(** An admintools command between a start event and an event for its outcome *)
Definition exec_at_with_events `{Env} (atPod : NamespacedName) (cmd : list string)
    (started failed succeeded : string) : M (option go_error) :=
  _ ← Event started;
  r ← ExecAdmintools atPod cmd;
  match exec_err r with
  | Some e => _ ← Event failed; mret (Some e)
  | None => _ ← Event succeeded; mret None
  end.

Section dbremovenode.
Context `{Env} `{PodOrder}.

Definition removenode_execATCmd (atPod : NamespacedName) (cmd : list string) : M (option go_error) :=
  exec_at_with_events atPod cmd "RemoveNodesStart" "RemoveNodesFailed" "RemoveNodesSucceeded".

Definition removeNodesInSubcluster (vdb : VerticaDB) : scale_down_func :=
  λ p sc startPodIndex endPodIndex,
    let '(podsToRemove, requeueNeeded) :=
      findPodsSuitableForRemoval vdb p sc startPodIndex endPodIndex in
    if bool_decide (0 < length podsToRemove) then
      let cmd := genCmdRemoveNode vdb podsToRemove in
      f ← range_admintools_any p;
      let '(atPod, ok) := f in
      if negb ok then oret (p, (requeue, None)) else
      err ← removenode_execATCmd (pf_name atPod) cmd;
      match err with
      | Some _ => oret (p, (no_requeue, Some (ErrMsg "failed to call admintools -t db_remove_node")))
      | None =>
          _ ← checkShardToNodeRatio vdb sc;
          oret (Invalidate p, (MkResult requeueNeeded 0, None))
      end
    else oret (p, (MkResult requeueNeeded 0, None)).

Definition DBRemoveNodeReconciler_Reconcile (vdb : VerticaDB) (p : PodFacts)
    : M (outcome (PodFacts * (Result * option go_error))) :=
  if bool_decide (spec_InitPolicy (vdb_Spec vdb) = CommunalInitPolicyScheduleOnly)
  then oret (p, (no_requeue, None))
  else
    r ← FindSubclusters vdb FindInVdb;
    match r with
    | Err e => oret (p, (no_requeue, Some e))
    | Ok subclusters => scaledown_all vdb (removeNodesInSubcluster vdb) p subclusters
    end.

End dbremovenode.

(** ** [dbremovesubcluster_reconcile.go] *)

Section dbremovesubcluster.
Context `{Env} `{PodOrder}.

Definition changeDefaultSubcluster (atPod : PodFact) (scName : string) : M (option go_error) :=
  r ← ExecVSQL (pf_name atPod) ["-c"; "alter subcluster " +:+ dquote +:+ scName +:+ dquote +:+ " set default"];
  mret (exec_err r).

(** [strings.Split] of a non-empty separator returns at least one line. *)
Definition getDefaultSubcluster (atPod : PodFact) : M (result string) :=
  r ← ExecVSQL (pf_name atPod) ["-tAc"; "select subcluster_name from subclusters where is_default is true"];
  match exec_err r with
  | Some e => mret (Err e)
  | None => mret (Ok (first_line (stdout r)))
  end.

Definition resetDefaultSubcluster (vdb : VerticaDB) (atPod : PodFact) : M (option go_error) :=
  d ← getDefaultSubcluster atPod;
  match d with
  | Err e => mret (Some e)
  | Ok defSc =>
      match GenSubclusterMap vdb !! defSc with
      | Some _ => mret None
      | None =>
          s ← FindServices vdb FindInVdb;
          match s with
          | Err e => mret (Some e)
          | Ok [] => mret None
          | Ok (svc :: _) =>
              changeDefaultSubcluster atPod (default "" (svc_Labels svc !! SubclusterNameLabel))
          end
      end
  end.

Definition removeSubcluster (vdb : VerticaDB) (atPod : PodFact) (scName : string) : M (option go_error) :=
  r ← ExecAdmintools (pf_name atPod) ["-t"; "db_remove_subcluster"; "--database";
        spec_DBName (vdb_Spec vdb); "--subcluster"; scName; "--noprompts"];
  match exec_err r with
  | Some e => if Contains (stdout r) "No subcluster found" then mret None else mret (Some e)
  | None => _ ← Event "SubclusterRemoved"; mret None
  end.

Fixpoint remove_subclusters (vdb : VerticaDB) (atPod : PodFact) (scs : list Subcluster)
    : M (option go_error) :=
  match scs with
  | [] => mret None
  | sc :: scs =>
      err ← removeSubcluster vdb atPod (sc_Name sc);
      match err with Some e => mret (Some e) | None => remove_subclusters vdb atPod scs end
  end.

Definition removeExtraSubclusters (vdb : VerticaDB) (p : PodFacts) : M (Result * option go_error) :=
  r ← FindSubclusters vdb FindNotInVdb;
  match r with
  | Err e => mret (no_requeue, Some e)
  | Ok [] => mret (no_requeue, None)
  | Ok subclusters =>
      f ← range_admintools_any p;
      let '(atPod, ok) := f in
      if negb ok || negb (upNode atPod) then mret (requeue, None) else
      err ← resetDefaultSubcluster vdb atPod;
      match err with
      | Some e => mret (no_requeue, Some e)
      | None => err ← remove_subclusters vdb atPod subclusters; mret (no_requeue, err)
      end
  end.

Definition DBRemoveSubclusterReconciler_Reconcile (vdb : VerticaDB) (p : PodFacts)
    : M (PodFacts * (Result * option go_error)) :=
  if bool_decide (spec_InitPolicy (vdb_Spec vdb) = CommunalInitPolicyScheduleOnly)
  then mret (p, (no_requeue, None))
  else
    c ← Collect vdb p;
    let '(p, err) := c in
    match err with
    | Some e => mret (p, (no_requeue, Some e))
    | None => r ← removeExtraSubclusters vdb p; mret (p, r)
    end.

End dbremovesubcluster.

(** ** [drainnode_reconcile.go] *)

(** From [onlineupgrade_reconciler.go] *)
Definition anyActiveConnections (stdout : string) : bool :=
  let res := TrimByte (first_line stdout) " "%char in
  negb (bool_decide (res = "")) && negb (bool_decide (res = "0")).

Section drainnode.
Context `{Env} `{PodOrder}.

Definition drain_reconcilePod (pf : PodFact) : M (Result * option go_error) :=
  r ← ExecVSQL (pf_name pf) ["-tAc"; "select count(*) from sessions where node_name = '"
        +:+ vnodeName pf +:+ "' and session_id not in ( select session_id from current_session )"];
  match exec_err r with
  | Some e => mret (no_requeue, Some e)
  | None =>
      let activeConnections := anyActiveConnections (stdout r) in
      _ ← (if activeConnections then Event "DrainNodeRetry" else mret tt);
      mret (MkResult activeConnections 0, None)
  end.

Fixpoint drain_pods (pods : list PodFact) : M (Result * option go_error) :=
  match pods with
  | [] => mret (no_requeue, None)
  | pf :: pods =>
      if pendingDelete pf && upNode pf then
        r ← drain_reconcilePod pf;
        let '(res, err) := r in
        if IsReconcileAborted res err then mret (res, err) else drain_pods pods
      else drain_pods pods
  end.

Definition DrainNodeReconciler_Reconcile (vdb : VerticaDB) (p : PodFacts)
    : M (PodFacts * (Result * option go_error)) :=
  c ← Collect vdb p;
  let '(p, err) := c in
  match err with
  | Some e => mret (p, (no_requeue, Some e))
  | None => pods ← range_pods 30 p; r ← drain_pods pods; mret (p, r)
  end.

End drainnode.

(** ** [dbaddnode_reconcile.go] *)

Definition isLicenseLimitError (stdout : string) : bool :=
  Contains stdout "Cannot create another node. The current license permits".

(** [pods[0]] is there: the command is only built for a non-empty list. *)
Definition genAddNodeCommand (vdb : VerticaDB) (pods : list PodFact) : list string :=
  ["-t"; "db_add_node"; "--hosts"; Join (dnsName <$> pods) ","; "--database";
   spec_DBName (vdb_Spec vdb); "--subcluster";
   match pods with pod :: _ => subcluster pod | [] => "" end; "--noprompt"].

Section dbaddnode.
Context `{Env} `{PodOrder}.

Definition runAddNodeForPod (vdb : VerticaDB) (pods : list PodFact) (atPod : PodFact)
    : M (string * option go_error) :=
  _ ← Event "AddNodeStart";
  r ← ExecAdmintools (pf_name atPod) (genAddNodeCommand vdb pods);
  match exec_err r with
  | Some e =>
      _ ← Event (if isLicenseLimitError (stdout r) then "AddNodeLicenseFail" else "AddNodeFailed");
      mret (stdout r, Some e)
  | None => _ ← Event "AddNodeSucceeded"; mret (stdout r, None)
  end.

Fixpoint cleanup_pods (vdb : VerticaDB) (pods : list PodFact) : M (option go_error) :=
  match pods with
  | [] => mret None
  | pod :: pods =>
      err ← cleanupLocalFiles vdb (pf_name pod);
      match err with Some e => mret (Some e) | None => cleanup_pods vdb pods end
  end.

Definition runAddNode (vdb : VerticaDB) (p : PodFacts) (pods : list PodFact)
    : M (PodFacts * (Result * option go_error)) :=
  l ← range_pods 31 p;
  let '(atPod, ok) := findPodToRunVsql false "" l in
  if negb ok then mret (p, (requeue, None)) else
  err ← changeDepotPermissions vdb pods;
  match err with
  | Some e => mret (p, (no_requeue, Some e))
  | None =>
      err ← cleanup_pods vdb pods;
      match err with
      | Some e => mret (p, (no_requeue, Some e))
      | None =>
          _ ← debugDumpAdmintoolsConf (pf_name atPod);
          x ← runAddNodeForPod vdb pods atPod;
          let '(out, err) := x in
          match err with
          | Some e =>
              if isLicenseLimitError out then mret (p, (no_requeue, None))
              else mret (p, (no_requeue, Some e))
          | None =>
              _ ← debugDumpAdmintoolsConf (pf_name atPod);
              mret (Invalidate p, (no_requeue, None))
          end
      end
  end.

Definition addnode_reconcileSubcluster (vdb : VerticaDB) (p : PodFacts) (sc : Subcluster)
    : M (PodFacts * (Result * option go_error)) :=
  l ← range_pods 32 p;
  let '(addNodePods, somePodsNotRunning) := findPodsWithMissingDB (sc_Name sc) l in
  if somePodsNotRunning : bool then mret (p, (requeue, None))
  else if bool_decide (0 < length addNodePods) then runAddNode vdb p addNodePods
  else mret (p, (no_requeue, None)).

Fixpoint addnode_subclusters (vdb : VerticaDB) (p : PodFacts) (scs : list Subcluster)
    : M (PodFacts * (Result * option go_error)) :=
  match scs with
  | [] => mret (p, (no_requeue, None))
  | sc :: scs =>
      r ← addnode_reconcileSubcluster vdb p sc;
      let '(p, (res, err)) := r in
      if IsReconcileAborted res err then mret (p, (res, err)) else addnode_subclusters vdb p scs
  end.

Definition DBAddNodeReconciler_Reconcile (vdb : VerticaDB) (p : PodFacts)
    : M (PodFacts * (Result * option go_error)) :=
  if bool_decide (spec_InitPolicy (vdb_Spec vdb) = CommunalInitPolicyScheduleOnly)
  then mret (p, (no_requeue, None))
  else
    c ← Collect vdb p;
    let '(p, err) := c in
    match err with
    | Some e => mret (p, (no_requeue, Some e))
    | None =>
        l ← range_pods 33 p;
        if negb (doesDBExist l) then mret (p, (requeue, None))
        else addnode_subclusters vdb p (spec_Subclusters (vdb_Spec vdb))
    end.

End dbaddnode.

(** ** [dbaddsubcluster_reconcile.go] *)

Definition parseFetchSubclusterVsql (stdout : string) : gset string :=
  foldl (λ subclusters line,
    let sc := TrimByte line " "%char in
    if bool_decide (sc = "") then subclusters else {[sc]} ∪ subclusters) ∅
    (SplitByte stdout newline_char).

Definition DefaultSecondarySubclusterCreationVersion : string := "v11.0.0".

Definition genCreateSubclusterCmd (vdb : VerticaDB) (sc : Subcluster) : list string :=
  let cmd := ["-t"; "db_add_subcluster"; "--database"; spec_DBName (vdb_Spec vdb);
              "--subcluster"; sc_Name sc] in
  if vdb_version_from vdb DefaultSecondarySubclusterCreationVersion
  then if sc_IsPrimary sc then cmd ++ ["--is-primary"] else cmd
  else if negb (sc_IsPrimary sc) then cmd ++ ["--is-secondary"] else cmd.

Section dbaddsubcluster.
Context `{Env} `{PodOrder}.

(** The event is recorded whether or not the command succeeded. *)
Definition createSubcluster (vdb : VerticaDB) (atPod : PodFact) (sc : Subcluster) : M (option go_error) :=
  r ← ExecAdmintools (pf_name atPod) (genCreateSubclusterCmd vdb sc);
  _ ← Event "SubclusterAdded";
  mret (exec_err r).

Definition fetchSubclusters (atPod : PodFact) : M (result (gset string)) :=
  r ← ExecVSQL (pf_name atPod) ["-tAc"; "select distinct(subcluster_name) from subclusters"];
  match exec_err r with
  | Some e => mret (Err e)
  | None => mret (Ok (parseFetchSubclusterVsql (stdout r)))
  end.

Fixpoint add_missing (vdb : VerticaDB) (atPod : PodFact) (subclusters : gset string)
    (scs : list Subcluster) : M (option go_error) :=
  match scs with
  | [] => mret None
  | sc :: scs =>
      if bool_decide (sc_Name sc ∈ subclusters) then add_missing vdb atPod subclusters scs
      else
        err ← createSubcluster vdb atPod sc;
        match err with
        | Some e => mret (Some e)
        | None => _ ← checkShardToNodeRatio vdb sc; add_missing vdb atPod subclusters scs
        end
  end.

Definition addMissingSubclusters (vdb : VerticaDB) (p : PodFacts) (scs : list Subcluster)
    : M (Result * option go_error) :=
  f ← range_admintools_any p;
  let '(atPod, ok) := f in
  if negb ok || negb (upNode atPod) then mret (requeue, None) else
  r ← fetchSubclusters atPod;
  match r with
  | Err e => mret (no_requeue, Some e)
  | Ok subclusters => err ← add_missing vdb atPod subclusters scs; mret (no_requeue, err)
  end.

Definition DBAddSubclusterReconciler_Reconcile (vdb : VerticaDB) (p : PodFacts)
    : M (PodFacts * (Result * option go_error)) :=
  if bool_decide (spec_InitPolicy (vdb_Spec vdb) = CommunalInitPolicyScheduleOnly)
  then mret (p, (no_requeue, None))
  else
    c ← Collect vdb p;
    let '(p, err) := c in
    match err with
    | Some e => mret (p, (no_requeue, Some e))
    | None => r ← addMissingSubclusters vdb p (spec_Subclusters (vdb_Spec vdb)); mret (p, r)
    end.

End dbaddsubcluster.

(** ** [rebalanceshards_reconcile.go] *)

(** The subclusters in the order in which a pod without shards was seen *)
Definition findShardsToRebalance (ScName : string) (pods : list PodFact) : list string :=
  foldl (λ scs pf,
    if (bool_decide (ScName = "") || bool_decide (ScName = subcluster pf)) && isPodRunning pf
       && upNode pf && bool_decide (shardSubscriptions pf = 0%Z)
    then if bool_decide (subcluster pf ∈ scs) then scs else scs ++ [subcluster pf]
    else scs) [] pods.

Section rebalance.
Context `{Env} `{PodOrder}.

Definition rebalanceShards (atPod : PodFact) (scName : string) : M (option go_error) :=
  r ← ExecVSQL (pf_name atPod) ["-tAc"; "select rebalance_shards('" +:+ scName +:+ "')"];
  match exec_err r with
  | Some e => mret (Some e)
  | None => _ ← Event "RebalanceShards"; mret None
  end.

Fixpoint rebalance_all (atPod : PodFact) (p : PodFacts) (scs : list string)
    : M (PodFacts * option go_error) :=
  match scs with
  | [] => mret (p, None)
  | sc :: scs =>
      err ← rebalanceShards atPod sc;
      match err with
      | Some e => mret (p, Some e)
      | None => rebalance_all atPod (Invalidate p) scs
      end
  end.

Definition RebalanceShardsReconciler_Reconcile (ScName : string) (vdb : VerticaDB) (p : PodFacts)
    : M (PodFacts * (Result * option go_error)) :=
  c ← Collect vdb p;
  let '(p, err) := c in
  match err with
  | Some e => mret (p, (no_requeue, Some e))
  | None =>
      l ← range_pods 34 p;
      let scToRebalance := findShardsToRebalance ScName l in
      if bool_decide (length scToRebalance = 0) then mret (p, (no_requeue, None)) else
      l ← range_pods 35 p;
      let '(atPod, ok) := findPodToRunVsql false "" l in
      if negb ok then mret (p, (requeue, None)) else
      r ← rebalance_all atPod p scToRebalance;
      let '(p, err) := r in mret (p, (no_requeue, err))
  end.

End rebalance.

(** ** [clientroutinglabel_reconcile.go] *)

Inductive ApplyMethodType : Type :=
| AddNodeApplyMethod
| PodRescheduleApplyMethod
| DelNodeApplyMethod.

#[global] Instance ApplyMethodType_eq_dec : EqDecision ApplyMethodType.
Proof. solve_decision. Defined.

Definition set_pod_labels (pod : Pod) (labels : gmap string string) : Pod :=
  MkPod (MkObjectMeta (om_Name (pod_Meta pod)) (om_Namespace (pod_Meta pod)) labels
           (om_Annotations (pod_Meta pod)))
    (pod_Phase pod) (pod_PodIP pod) (pod_Hostname pod) (pod_Subdomain pod) (pod_Image pod).

Definition manipulateRoutingLabelInPod (applyMethod : ApplyMethodType) (pod : Pod) (pf : PodFact) : Pod :=
  let labels := om_Labels (pod_Meta pod) in
  let labelExists := bool_decide (is_Some (labels !! ClientRoutingLabel)) in
  match applyMethod with
  | AddNodeApplyMethod | PodRescheduleApplyMethod =>
      if negb labelExists && upNode pf && bool_decide (0 < shardSubscriptions pf)%Z
         && negb (pendingDelete pf)
      then set_pod_labels pod (<[ClientRoutingLabel := ClientRoutingVal]> labels) else pod
  | DelNodeApplyMethod =>
      if labelExists && pendingDelete pf
      then set_pod_labels pod (delete ClientRoutingLabel labels) else pod
  end.

Section routing.
Context `{Env} `{PodOrder}.

(** One attempt; the state is the result so far. *)
Definition routing_attempt (applyMethod : ApplyMethodType) (pn : NamespacedName) (pf : PodFact)
    (res : Result) : M (Result * option go_error) :=
  r ← GetPod pn;
  match r with
  | Err ErrNotFound => mret (res, None)
  | Err e => mret (res, Some e)
  | Ok pod =>
      u ← PatchPod (manipulateRoutingLabelInPod applyMethod pod pf);
      match u with
      | Err e => mret (res, Some e)
      | Ok _ =>
          if bool_decide (applyMethod = AddNodeApplyMethod) && upNode pf
             && bool_decide (shardSubscriptions pf = 0%Z) && negb (pendingDelete pf)
          then mret (MkResult true (RequeueAfter res), None) else mret (res, None)
      end
  end.

Definition routing_reconcilePod (applyMethod : ApplyMethodType) (pn : NamespacedName) (pf : PodFact)
    : M (Result * option go_error) :=
  RetryOnConflict (routing_attempt applyMethod pn pf) no_requeue.

(** The key of a fact in the map is its name. *)
Fixpoint routing_pods (applyMethod : ApplyMethodType) (ScName : string) (pods : list PodFact)
    (savedRes : Result) : M (Result * option go_error) :=
  match pods with
  | [] => mret (savedRes, None)
  | pf :: pods =>
      if negb (bool_decide (ScName = "")) && negb (bool_decide (subcluster pf = ScName))
      then routing_pods applyMethod ScName pods savedRes
      else
        r ← routing_reconcilePod applyMethod (pf_name pf) pf;
        let '(res, err) := r in
        if IsReconcileAborted res err then
          match err with
          | None => routing_pods applyMethod ScName pods res
          | Some e => mret (res, Some e)
          end
        else routing_pods applyMethod ScName pods savedRes
  end.

Definition ClientRoutingLabelReconciler_Reconcile (applyMethod : ApplyMethodType) (ScName : string)
    (vdb : VerticaDB) (p : PodFacts) : M (PodFacts * (Result * option go_error)) :=
  c ← Collect vdb p;
  let '(p, err) := c in
  match err with
  | Some e => mret (p, (no_requeue, Some e))
  | None => l ← range_pods 36 p; r ← routing_pods applyMethod ScName l no_requeue; mret (p, r)
  end.

End routing.

(** ** [stopdb_reconcile.go] *)

Definition stopdb_genCmd (vdb : VerticaDB) : list string :=
  ["-t"; "stop_db"; "--database"; spec_DBName (vdb_Spec vdb); "--force"].

Section stopdb.
Context `{Env} `{PodOrder}.

Definition stopdb_runATCmd (vdb : VerticaDB) (atPod : NamespacedName) : M (option go_error) :=
  exec_at_with_events atPod (stopdb_genCmd vdb) "StopDBStart" "StopDBFailed" "StopDBSucceeded".

Definition stopVertica (vdb : VerticaDB) (p : PodFacts) : M (PodFacts * option go_error) :=
  f ← range_admintools_any p;
  let '(pf, ok) := f in
  if negb ok then mret (p, None) else
  err ← stopdb_runATCmd vdb (pf_name pf);
  mret (Invalidate p, err).

Definition StopDBReconciler_Reconcile (vdb : VerticaDB) (p : PodFacts)
    : M (VerticaDB * PodFacts * (Result * option go_error)) :=
  c ← Collect vdb p;
  let '(p, err) := c in
  match err with
  | Some e => mret (vdb, p, (no_requeue, Some e))
  | None =>
      l ← range_pods 37 p;
      if negb (doesDBExist l) then mret (vdb, p, (no_requeue, None)) else
      let '(isSet, err) := IsConditionSet vdb VerticaRestartNeeded in
      match err with
      | Some e => mret (vdb, p, (no_requeue, Some e))
      | None =>
          if isSet : bool then
            l ← range_pods 38 p;
            s ← (if bool_decide (0 < getUpNodeCount l)%Z then stopVertica vdb p else mret (p, None));
            let '(p, err) := s in
            match err with
            | Some e => mret (vdb, p, (no_requeue, Some e))
            | None =>
                u ← UpdateCondition vdb (MkVerticaDBCondition VerticaRestartNeeded ConditionFalse ZeroTime);
                mret (fst u, p, (no_requeue, snd u))
            end
          else mret (vdb, p, (no_requeue, None))
      end
  end.

End stopdb.
