(* ===== verification/ScalingSpec.v ===== *)
(** * Safety of scaling

    What must hold when nodes are added to or removed from the database, when
    the local files of a pod are deleted and when a pod is uninstalled; which
    pods the routing label is on; for all answers of the cluster and all
    iteration orders. *)

From Stdlib Require Import Ascii.
From stdpp Require Import base gmap strings pretty sorting numbers list.
From S2P Require Import Prelude GoStrings GoRegexp K8s Types Webhook Version KObjects Effects Status Labels ScFinder Atconf PodFacts PodFactsSpec Restart RestartSpec Install Scaling.

(** ** Rules and iterations

    A rule may speak about the facts [p] and the point [since] at which they were
    collected.  [based] is a rule for an iteration that started at [t0] with the
    facts [p0] and collects facts first. *)
Definition rule : Type := PodFacts → Trace → action → Trace → Prop.

Definition based `{Env} (vdb : VerticaDB) (r : rule) (p0 : PodFacts) (t0 : Trace) (a : action)
    (past : Trace) : Prop :=
  ∃ p, fst (Collect vdb p0 t0) = (p, None) ∧ r p (snd (Collect vdb p0 t0)) a past.

(** The facts that an iteration has after some collections and invalidations,
    and when they were collected *)
Inductive current `{Env} (vdb : VerticaDB) (p0 : PodFacts) (t0 : Trace) : PodFacts → Trace → Prop :=
| current_start : current vdb p0 t0 p0 t0
| current_invalidate p since : current vdb p0 t0 p since → current vdb p0 t0 (Invalidate p) since
| current_collect q p since t :
    current vdb p0 t0 q since → extends since t → fst (Collect vdb q t) = (p, None) →
    current vdb p0 t0 p (if NeedCollection q then snd (Collect vdb q t) else since).

(** A rule or a call before the iteration *)
Definition since_start (t0 : Trace) (r : action → Trace → Prop) (a : action) (past : Trace) : Prop :=
  length past < length t0 ∨ r a past.

Lemma safe_start t0 r : safe (since_start t0 r) t0.
Proof. apply safe_base. Qed.

Lemma safe_since {t0 r n1 a n2} :
  safe (since_start t0 r) (n1 ++ a :: n2) → extends t0 n2 → r a n2.
Proof. intros [Hl|Hr]%safe_at He; [apply extends_length in He; lia|done]. Qed.

(** ** Adding nodes *)

Lemma missing_db_spec scName pods v :
  v ∈ fst (findPodsWithMissingDB scName pods) →
  v ∈ pods ∧ subcluster v = scName ∧ dbExists v = false ∧
  (snd (findPodsWithMissingDB scName pods) = false → isPodRunning v = true).
Proof.
  unfold findPodsWithMissingDB. cbn [fst snd]. unfold sort_by. rewrite merge_sort_Permutation.
  intros [Hm Hv]%list_elem_of_filter. apply andb_true_iff in Hm as [Hs Hd].
  apply bool_decide_eq_true in Hs. apply negb_true_iff in Hd. split_and!; [done..|].
  intros Hall. destruct (isPodRunning v) eqn:Hr; [done|]. exfalso.
  assert (existsb (λ v, bool_decide (subcluster v = scName) && negb (dbExists v)
                        && negb (isPodRunning v)) pods = true) as Hex; [|congruence].
  apply existsb_exists. exists v. rewrite <- list_elem_of_In. split; [done|].
  by rewrite bool_decide_eq_true_2, Hd, Hr.
Qed.

Section add_node.
Context `{E : Env} `{O : PodOrder} (vdb : VerticaDB).

(** The directory was removed from the pod, or was not there. *)
Definition cleaned (since past : Trace) (path : string) (v : PodFact) : Prop :=
  ∃ before, extends since before ∧
    extends (AExecInPod (pf_name v) ["rm"; "-r"; path] :: before) past ∧
    let r := env_exec before (pf_name v) ["rm"; "-r"; path] in
    exec_err r = None ∨ Contains (stderr r) "No such file or directory" = true.

(** For nodes of a subcluster in [S] *)
Definition add_node_rule (S : Subcluster → Prop) : rule := λ p since a past,
  match a with
  | AExecInPod pod cmd => head cmd = Some "rm" → extends since past ∧
      ∃ v, v ∈ facts_list p ∧ pf_name v = pod ∧ isPodRunning v = true ∧ dbExists v = false
  | AExecAdmintools atPod cmd =>
      ∃ sc pods, S sc ∧ pods ≠ [] ∧ cmd = genAddNodeCommand vdb pods ∧
        (∃ l, l ≡ₚ facts_list p ∧ findPodsWithMissingDB (sc_Name sc) l = (pods, false)) ∧
        (∃ v, v ∈ facts_list p ∧ pf_name v = atPod ∧ upNode v = true ∧ readOnly v = false) ∧
        (∀ v, v ∈ pods → cleaned since past (GetDBDataPath vdb) v ∧ cleaned since past (GetDepotPath vdb) v)
  | _ => True
  end.

(** The removal of files, where the rules allow it in running pods without a
    database *)
Section removal.
Context (p : PodFacts) (since : Trace) (R : action → Trace → Prop).
Context (Hrm : ∀ v path past, v ∈ facts_list p → isPodRunning v = true → dbExists v = false → extends since past →
  R (AExecInPod (pf_name v) ["rm"; "-r"; path]) past).

Lemma cleaned_extends s t t' path v : extends t t' → cleaned s t path v → cleaned s t' path v.
Proof. intros He (b & Hs & Hb & H1). exists b. split; [done|]. split; [by etrans|done]. Qed.

Lemma remove_paths_spec v paths t :
  v ∈ facts_list p → isPodRunning v = true → dbExists v = false →
  safe R t → extends since t →
  wp (remove_paths (pf_name v) paths) t (λ err t', safe R t' ∧ extends t t' ∧
    (err = None → ∀ path, path ∈ paths → cleaned since t' path v)).
Proof using Hrm.
  intros Hv Hr Hd. revert t. induction paths as [|path paths IH]; intros t Ht Hs; simpl.
  { wp_step. split_and!; [done|done|]. by intros _ path ?%elem_of_nil. }
  wp_calls. do 2 wp_step. set (a := AExecInPod _ _).
  assert (safe R (a :: t)) as Ha by (split; [by apply Hrm|done]).
  set (x := env_exec t _ _).
  assert (exec_err x = None ∨ Contains (stderr x) "No such file or directory" = true →
    wp (remove_paths (pf_name v) paths) (a :: t) (λ err t', safe R t' ∧ extends t t' ∧
      (err = None → ∀ path0, path0 ∈ path :: paths → cleaned since t' path0 v))) as Hgo.
  { intros Hx. eapply wp_mono; [|apply IH; [done|etrans; [done|apply extends_cons]]].
    intros err t' (H1 & H2 & H3). split_and!; [done|by eapply extends_trans_cons|].
    intros He path0 [->|Hin]%elem_of_cons; [|by apply H3]. exists t. by split_and!. }
  destruct (exec_err x) eqn:Hx; [|apply Hgo; by left].
  destruct (Contains _ _) eqn:Hc; simpl; [apply Hgo; by right|].
  wp_step. split_and!; [done|apply extends_cons|done].
Qed.

Lemma cleanup_spec pods t :
  (∀ v, v ∈ pods → v ∈ facts_list p ∧ isPodRunning v = true ∧ dbExists v = false) →
  safe R t → extends since t →
  wp (cleanup_pods vdb pods) t (λ err t', safe R t' ∧ extends t t' ∧
    (err = None → ∀ v, v ∈ pods →
       cleaned since t' (GetDBDataPath vdb) v ∧ cleaned since t' (GetDepotPath vdb) v)).
Proof using Hrm.
  intros Hp. revert t. induction pods as [|v pods IH]; intros t Ht Hs; simpl.
  { wp_step. split_and!; [done|done|]. by intros _ v ?%elem_of_nil. }
  destruct (Hp v) as (Hv & Hr & Hd); [by left|]. wp_step. unfold cleanupLocalFiles.
  eapply wp_mono; [|by apply remove_paths_spec]. intros [e|] t1 (H1 & X1 & C1).
  { wp_step. by split_and!. }
  eapply wp_mono; [|apply IH; [|done|by etrans]].
  - intros err t2 (H2 & X2 & C2). split_and!; [done|by etrans|].
    intros He w [->|Hw]%elem_of_cons; [|by apply C2].
    split; (eapply cleaned_extends; [exact X2|]; apply C1; [done|]); set_solver.
  - intros w Hw. apply Hp. by right.
Qed.

End removal.

Section parts.
Context (S : Subcluster → Prop) (p : PodFacts) (since : Trace) (R : action → Trace → Prop).
Context (HR : ∀ a past, add_node_rule S p since a past → R a past).

(** Commands that remove nothing *)
Definition harmless (a : action) : Prop :=
  match a with
  | AExecInPod _ cmd => head cmd ≠ Some "rm"
  | AExecAdmintools _ _ => False
  | _ => True
  end.

Lemma harmless_R a t : harmless a → R a t.
Proof using HR. intros Ha. apply HR. destruct a; try done. Qed.

Lemma harmless_dump at_ : only harmless (debugDumpAdmintoolsConf at_).
Proof. unfold debugDumpAdmintoolsConf. wp_calls. repeat only_step ltac:(first [exact I|done]). Qed.

Lemma harmless_exec cmd pods : head cmd ≠ Some "rm" → only harmless (exec_in_pods cmd pods).
Proof.
  intros Hc. induction pods as [|v pods IH]; simpl; [apply only_ret|]. wp_calls.
  apply only_bind; [by apply only_call|]. intros r.
  destruct (exec_err r); [apply only_ret|apply IH].
Qed.

Lemma runAddNode_spec sc pods l q t :
  Detail q = Detail p → S sc → pods ≠ [] →
  l ≡ₚ facts_list p → findPodsWithMissingDB (sc_Name sc) l = (pods, false) →
  safe R t → extends since t →
  wp (runAddNode vdb q pods) t (λ r t', safe R t' ∧ extends t t' ∧ Detail (fst r) = Detail p).
Proof using HR.
  intros Hq Hsc Hne Hl Hfind Ht Hs. unfold runAddNode.
  assert (∀ v, v ∈ pods → v ∈ facts_list p ∧ isPodRunning v = true ∧ dbExists v = false) as Hp.
  { intros v Hv. pose proof (missing_db_spec (sc_Name sc) l v) as Hm. rewrite Hfind in Hm.
    destruct (Hm Hv) as (H1 & _ & H3 & H4). rewrite <- Hl. by split_and!; [|apply H4|]. }
  wp_step. apply wp_range. unfold facts_list. rewrite Hq. intros l' Hl'.
  destruct (findPodToRunVsql false "" l') as [at_ [|]] eqn:Hat; simpl; [|by wp_step].
  apply find_pod_true in Hat as [Hin Hat]. wp_step. unfold changeDepotPermissions.
  eapply (wp_only harmless _ R _ (λ _ _, True));
    [by apply harmless_exec|apply harmless_R|done|done|]. intros [e|] t1 _ H1 X1; [by wp_step|].
  wp_step. eapply wp_mono; [|apply (cleanup_spec p since R) with (pods := pods); [|exact Hp|exact H1|by etrans]];
    [|intros; apply HR; intros _; split; [done|eauto]].
  intros [e|] t2 (H2 & X2 & C2); [wp_step; split_and!; [done|by etrans|done]|].
  specialize (C2 eq_refl). wp_step.
  eapply (wp_only harmless _ R _ (λ _ _, True));
    [apply harmless_dump|apply harmless_R|done|done|]. intros _ t3 _ H3 X3.
  wp_step. unfold runAddNodeForPod. wp_calls. do 4 wp_step. set (t4 := AEvent _ :: t3).
  set (a := AExecAdmintools _ _).
  assert (safe R (a :: t4)) as H4.
  { split; [|split; [by apply harmless_R|done]]. apply HR. exists sc, pods.
    split_and!; [done..|by exists l| |].
    - exists at_. split; [by rewrite <- Hl'|]. split; [done|].
      rewrite !andb_true_iff in Hat. destruct Hat as (_ & H5 & H6). split; [done|].
      by apply negb_true_iff.
    - intros v Hv. assert (extends t2 t4) by (etrans; [exact X3|apply extends_cons]).
      split; (eapply cleaned_extends; [done|]); by apply C2. }
  assert (∀ s past, safe R past → safe R (AEvent s :: past)) as Hev.
  { intros s past Hpast. split; [by apply harmless_R|done]. }
  assert (∀ s, extends t (AEvent s :: a :: t4)) as X4.
  { intros s. etrans; [exact X1|]. etrans; [exact X2|]. etrans; [exact X3|].
    by exists [AEvent s; a; AEvent "AddNodeStart"]. }
  destruct (exec_err _); do 3 wp_step.
  - destruct (isLicenseLimitError _); wp_step; (split_and!; [by apply Hev|apply X4|done]).
  - wp_step. eapply (wp_only harmless _ R _ (λ _ _, True));
      [apply harmless_dump|apply harmless_R|by apply Hev|done|].
    intros _ t5 _ H5 X5. wp_step. split_and!; [done| |done]. etrans; [apply X4|exact X5].
Qed.

Lemma addnode_subcluster_spec sc q t :
  Detail q = Detail p → S sc → safe R t → extends since t →
  wp (addnode_reconcileSubcluster vdb q sc) t (λ r t', safe R t' ∧ extends t t' ∧ Detail (fst r) = Detail p).
Proof using HR.
  intros Hq Hsc Ht Hs. unfold addnode_reconcileSubcluster. wp_step. apply wp_range.
  unfold facts_list. rewrite Hq. intros l Hl.
  destruct (findPodsWithMissingDB (sc_Name sc) l) as [pods [|]] eqn:Hf; [by wp_step|].
  case_bool_decide as Hlen; [|by wp_step].
  apply (runAddNode_spec sc pods l); try done. by destruct pods; simpl in Hlen; [lia|].
Qed.

Lemma addnode_subclusters_spec scs q t :
  Detail q = Detail p → (∀ sc, sc ∈ scs → S sc) →
  safe R t → extends since t →
  wp (addnode_subclusters vdb q scs) t (λ _ t', safe R t').
Proof using HR.
  revert q t. induction scs as [|sc scs IH]; intros q t Hq Hscs Ht Hs; simpl; [by wp_step|].
  wp_step. eapply wp_mono; [|apply addnode_subcluster_spec; try done; apply Hscs; by left].
  intros [q1 [res err]] t1 (H1 & X1 & D1). destruct (IsReconcileAborted res err); [by wp_step|].
  apply IH; [done| |done|by etrans]. intros sc' Hin. apply Hscs. by right.
Qed.

End parts.

(** The rule on the facts that are collected first *)
Definition add_rule (S : Subcluster → Prop) (p0 : PodFacts) (t0 : Trace) (a : action) (past : Trace) : Prop :=
  match a with
  | AExecInPod _ cmd => head cmd = Some "rm" → based vdb (add_node_rule S) p0 t0 a past
  | AExecAdmintools _ _ => based vdb (add_node_rule S) p0 t0 a past
  | _ => True
  end.

Lemma add_after_collect {A} S p0 t0 (f : PodFacts * option go_error → M A) (R := since_start t0 (add_rule S p0 t0)) :
  (∀ p e t, safe R t → wp (f (p, Some e)) t (λ _ t', safe R t')) →
  (∀ p t, safe R t → (∀ a past, add_node_rule S p t a past → R a past) → wp (f (p, None)) t (λ _ t', safe R t')) →
  wp (c ← Collect vdb p0; f c) t0 (λ _ t', safe R t').
Proof.
  intros He Hf. assert (safe R t0) as H0 by apply safe_start. wp_step.
  eapply (wp_only collect_call _ R _ (λ c t1, c = fst (Collect vdb p0 t0) ∧ t1 = snd (Collect vdb p0 t0)));
    [apply Collect_calls| |done|done|].
  { intros a t Ha. right. destruct a; try done. intros Hc. simpl in Ha. rewrite Hc in Ha. exfalso.
    revert Ha. by apply (bool_decide_eq_false_1 _). }
  intros [p err] t1 [Hc Ht1] H1 X1. destruct err as [e|]; [by apply He|]. apply Hf; [done|].
  intros a past Ha. right. destruct a; try done; intros; exists p; subst t1; by split.
Qed.

Lemma DBAddNode_rules p0 t0 :
  wp (DBAddNodeReconciler_Reconcile vdb p0) t0 (λ _ t',
    safe (since_start t0 (add_rule (λ sc, sc ∈ spec_Subclusters (vdb_Spec vdb)) p0 t0)) t').
Proof.
  unfold DBAddNodeReconciler_Reconcile. case_bool_decide; [wp_step; apply safe_start|].
  apply add_after_collect; [intros; by wp_step|]. intros p t1 H1 HR.
  wp_step. apply wp_range. intros l Hl. destruct (doesDBExist l); simpl; [|by wp_step].
  by apply (addnode_subclusters_spec (λ sc, sc ∈ spec_Subclusters (vdb_Spec vdb)) p t1 _ HR).
Qed.

End add_node.

(** ** Removing nodes and installations *)

Lemma indices_spec lo hi i : i ∈ indices lo hi ↔ (lo ≤ i ≤ hi)%Z.
Proof.
  unfold indices. rewrite list_elem_of_fmap. split.
  - intros (k & -> & Hk). apply elem_of_seq in Hk. lia.
  - intros Hi. exists (Z.to_nat (i - lo)). split; [lia|]. apply elem_of_seq. lia.
Qed.

Lemma suitable_spec {step : list PodFact * bool → Z → list PodFact * bool}
    (P : PodFact → Z → Prop) idx acc :
  (∀ acc i, fst (step acc i) = fst acc ∨ ∃ v, fst (step acc i) = fst acc ++ [v] ∧ P v i) →
  ∀ v, v ∈ fst (foldl step acc idx) → v ∈ fst acc ∨ ∃ i, i ∈ idx ∧ P v i.
Proof.
  intros Hstep. revert acc. induction idx as [|i idx IH]; intros acc v Hv; simpl in Hv; [by left|].
  destruct (IH _ _ Hv) as [Hin|(j & Hj & Hp)]; [|right; exists j; split; [by right|done]].
  destruct (Hstep acc i) as [Heq|(w & Heq & Hw)]; rewrite Heq in Hin; [by left|].
  apply elem_of_app in Hin as [Hin|Hin]; [by left|]. apply list_elem_of_singleton in Hin as ->.
  right. exists i. split; [by left|done].
Qed.

(** The pod with this index of the subcluster, according to the facts *)
Definition pod_at (vdb : VerticaDB) (p : PodFacts) (sc : Subcluster) (i : Z) (v : PodFact) : Prop :=
  Detail p !! GenPodName vdb sc i = Some v.

Lemma removal_suitable vdb p sc lo hi v :
  v ∈ fst (findPodsSuitableForRemoval vdb p sc lo hi) →
  ∃ i, (lo ≤ i ≤ hi)%Z ∧ pod_at vdb p sc i v ∧ dbExists v = true ∧ isPodRunning v = true.
Proof.
  intros Hv. eapply (suitable_spec (λ v i, pod_at vdb p sc i v ∧ dbExists v = true ∧
    isPodRunning v = true)) in Hv as [Hn|(i & Hi%indices_spec & Hp)].
  - by apply elem_of_nil in Hn.
  - by exists i.
  - intros [pods b] i. unfold remove_node_step, pod_at. simpl.
    destruct (Detail p !! _) as [w|] eqn:Hw; [|by left].
    destruct (dbExists w) eqn:Hd, (isPodRunning w) eqn:Hr; simpl; try by left.
    right. exists w. by split_and!.
Qed.

Lemma uninstall_suitable vdb p sc lo hi v :
  v ∈ fst (findPodsSuitableForUninstall vdb p sc lo hi) →
  ∃ i, (lo ≤ i ≤ hi)%Z ∧ pod_at vdb p sc i v ∧ isInstalled v = true ∧ isPodRunning v = true ∧
    dbExists v = false.
Proof.
  intros Hv. eapply (suitable_spec (λ v i, pod_at vdb p sc i v ∧ isInstalled v = true ∧
    isPodRunning v = true ∧ dbExists v = false)) in Hv as [Hn|(i & Hi%indices_spec & Hp)].
  - by apply elem_of_nil in Hn.
  - by exists i.
  - intros [pods b] i. unfold uninstall_step, pod_at. simpl.
    destruct (Detail p !! _) as [w|] eqn:Hw; [|by left].
    destruct (isInstalled w) eqn:H1, (isPodRunning w) eqn:H2, (dbExists w) eqn:H3; simpl; try by left.
    right. exists w. by split_and!.
Qed.

Section scaledown.
Context `{E : Env} (vdb : VerticaDB) (p0 : PodFacts) (t0 : Trace) (R : action → Trace → Prop).
Context (Hquiet : ∀ a t, collect_call a → R a t).

(** The facts are current at this point of the trace. *)
Definition known (p : PodFacts) (t : Trace) : Prop :=
  ∃ since, current vdb p0 t0 p since ∧ extends since t.

(** The facts in use come from a collection, with current facts before it. *)
Definition used (p : PodFacts) (t : Trace) : Prop :=
  ∃ q t1, known q t1 ∧ fst (Collect vdb q t1) = (p, None) ∧ extends (snd (Collect vdb q t1)) t.

Lemma known_extends p t t' : known p t → extends t t' → known p t'.
Proof. intros (s & Hc & Hs) He. exists s. split; [done|]. by etrans. Qed.

Lemma known_invalidate p t : known p t → known (Invalidate p) t.
Proof. intros (s & Hc & Hs). exists s. split; [by constructor|done]. Qed.

Lemma used_extends p t t' : used p t → extends t t' → used p t'.
Proof. intros (q & t1 & Hq & Hc & Ht) He. exists q, t1. split_and!; [done..|by etrans]. Qed.

Lemma used_known p t : used p t → known p t.
Proof.
  intros (q & t1 & (s & Hc & Hs) & Hp & Ht). exists (if NeedCollection q then snd (Collect vdb q t1) else s).
  split; [by eapply current_collect|]. destruct (NeedCollection q) eqn:Hn; [done|].
  etrans; [exact Hs|]. revert Ht. unfold Collect. by rewrite Hn.
Qed.

Lemma Collect_known q t :
  known q t → safe R t →
  wp (Collect vdb q) t (λ c t', safe R t' ∧ extends t t' ∧ (snd c = None → used (fst c) t')).
Proof using Hquiet.
  intros Hq Ht.
  eapply (wp_only collect_call _ R _ (λ c t', c = fst (Collect vdb q t) ∧ t' = snd (Collect vdb q t)));
    [apply Collect_calls|apply Hquiet|done|done|].
  intros [p err] t' [Hp Ht'] H1 X1. split_and!; [done..|]. simpl. intros ->. exists q, t. by rewrite Ht'.
Qed.

Context (F : scale_down_func) (scs0 : list Subcluster).
Context (HF : ∀ p sc sts t, used p t → sc ∈ scs0 → (sc_Size sc < sts_StatusReplicas sts)%Z → safe R t →
  wp (F p sc (sc_Size sc) (wrap32 (sts_StatusReplicas sts - 1))) t
    (λ o t', safe R t' ∧ ∀ p' res, o = Ret (p', (res, None)) → known p' t')).

Lemma scaledownSubcluster_spec p sc t :
  known p t → sc ∈ scs0 → safe R t →
  wp (scaledownSubcluster vdb F p sc) t
    (λ o t', safe R t' ∧ ∀ p' res, o = Ret (p', (res, None)) → known p' t').
Proof using Hquiet HF.
  intros Hp Hsc Ht. unfold scaledownSubcluster. wp_calls. do 2 wp_step. set (t1 := _ :: t).
  assert (safe R t1) as H1 by (split; [by apply Hquiet|done]).
  assert (known p t1) as K1 by (eapply known_extends; [done|apply extends_cons]).
  assert (∀ x : Result * option go_error, wp (oret (p, x)) t1
    (λ o t', safe R t' ∧ ∀ p' res, o = Ret (p', (res, None)) → known p' t')) as Hret.
  { intros x. wp_step. split; [done|]. by intros p' res [= <- _]. }
  destruct (env_get_sts t _) as [sts|[]]; [|apply Hret..].
  case_bool_decide as Hlt; [|apply Hret]. wp_step.
  eapply wp_mono; [|by apply Collect_known]. intros [p2 [e|]] t2 (H2 & X2 & K2).
  - wp_step. by split.
  - specialize (K2 eq_refl). simpl in K2. apply wp_obind. eapply wp_mono; [|by apply HF].
    intros [[p3 [res err]]|m] t3 [H3 K3]; [|by split].
    destruct err as [e|]; [wp_step; by split|]. specialize (K3 _ _ eq_refl).
    destruct (IsReconcileAborted res None); wp_step; (split; [done|]); by intros p' r [= <- _].
Qed.

Lemma scaledown_all_spec scs p t :
  (∀ sc, sc ∈ scs → sc ∈ scs0) → known p t → safe R t →
  wp (scaledown_all vdb F p scs) t (λ _ t', safe R t').
Proof using Hquiet HF.
  revert p t. induction scs as [|sc scs IH]; intros p t Hscs Hp Ht; simpl; [by wp_step|].
  apply wp_obind. eapply wp_mono; [|apply scaledownSubcluster_spec; [done| |done]].
  - intros [[p1 [res err]]|m] t1 [H1 K1]; [|done].
    destruct (IsReconcileAborted res err) eqn:Ha; [by wp_step|].
    apply IsReconcileAborted_false in Ha as (_ & -> & _). apply IH; [|by eapply K1|done].
    intros s Hs. apply Hscs. by right.
  - apply Hscs. by left.
Qed.

End scaledown.

(** What a removal of nodes may name: pods of the subcluster beyond its size, that
    run and have a database *)
Definition remove_node_ok (vdb : VerticaDB) (p : PodFacts) (cmd : list string) : Prop :=
  ∃ sc pods, sc ∈ spec_Subclusters (vdb_Spec vdb) ∧ pods ≠ [] ∧ cmd = genCmdRemoveNode vdb pods ∧
    ∀ v, v ∈ pods → ∃ i, (sc_Size sc ≤ i)%Z ∧ pod_at vdb p sc i v ∧
      dbExists v = true ∧ isPodRunning v = true.

(** No subcluster of the spec has this name. *)
Definition not_in_spec (vdb : VerticaDB) (sc : Subcluster) : Prop :=
  sc_Name sc ∉ (sc_Name <$> spec_Subclusters (vdb_Spec vdb)).

(** What may be uninstalled: a pod without a database, of a subcluster of the spec
    and with an index not below its size, or of a subcluster without a place in the
    spec *)
Definition uninstall_ok (vdb : VerticaDB) (p : PodFacts) (pod : NamespacedName) : Prop :=
  ∃ sc i v, (sc ∈ spec_Subclusters (vdb_Spec vdb) ∧ (sc_Size sc ≤ i)%Z ∨ not_in_spec vdb sc ∧ (0 ≤ i)%Z) ∧
    pod_at vdb p sc i v ∧ pf_name v = pod ∧
    isInstalled v = true ∧ isPodRunning v = true ∧ dbExists v = false.

Section remove.
Context `{D : AtConfDeps} `{E : Env} `{O : PodOrder} (vdb : VerticaDB) (p0 : PodFacts) (t0 : Trace).

Definition remove_rule (a : action) (past : Trace) : Prop :=
  match a with
  | AExecAdmintools _ cmd => ∃ p, used vdb p0 t0 p past ∧ remove_node_ok vdb p cmd
  | _ => True
  end.

Lemma range_any_same p t (Q : PodFact * bool → Trace → Prop) :
  (∀ r, Q r t) → wp (range_admintools_any p) t Q.
Proof. intros HQ. unfold range_admintools_any. do 3 (wp_step; apply wp_range; intros ? _). wp_step. apply HQ. Qed.

Lemma collect_call_remove t a past : collect_call a → since_start t remove_rule a past.
Proof. intros Ha. right. by destruct a. Qed.

Lemma removeNodes_guarded p sc sts t :
  used vdb p0 t0 p t → sc ∈ spec_Subclusters (vdb_Spec vdb) → (sc_Size sc < sts_StatusReplicas sts)%Z →
  safe (since_start t0 remove_rule) t →
  wp (removeNodesInSubcluster vdb p sc (sc_Size sc) (wrap32 (sts_StatusReplicas sts - 1))) t
    (λ o t', safe (since_start t0 remove_rule) t' ∧ ∀ p' res, o = Ret (p', (res, None)) → known vdb p0 t0 p' t').
Proof.
  intros Hp Hsc Hlt Ht. unfold removeNodesInSubcluster.
  set (R := since_start t0 remove_rule) in *. set (hi := wrap32 _).
  assert (∀ x : Result * option go_error, wp (oret (p, x)) t
    (λ o t', safe R t' ∧ ∀ p' res, o = Ret (p', (res, None)) → known vdb p0 t0 p' t')) as Hret.
  { intros x. wp_step. split; [done|]. intros p' res [= <- _]. by apply used_known. }
  destruct (findPodsSuitableForRemoval vdb p sc (sc_Size sc) hi) as [pods rq] eqn:Hf.
  case_bool_decide as Hlen; [|apply Hret]. wp_step. apply range_any_same. intros [at_ [|]]; simpl; [|apply Hret].
  wp_step. unfold removenode_execATCmd, exec_at_with_events. wp_calls. do 4 wp_step.
  assert (R (AExecAdmintools (pf_name at_) (genCmdRemoveNode vdb pods)) (AEvent "RemoveNodesStart" :: t)) as Ha.
  { right. exists p. split; [eapply used_extends; [done|apply extends_cons]|]. exists sc, pods.
    split_and!; [done|by destruct pods; simpl in Hlen; [lia|]|done|].
    intros v Hv. destruct (removal_suitable vdb p sc (sc_Size sc) hi v) as (i & Hi & Hrest).
    { by rewrite Hf. }
    exists i. split; [lia|done]. }
  assert (∀ s past, safe R past → safe R (AEvent s :: past)) as Hev by (intros s past Hs; split; [by right|done]).
  set (a := AExecAdmintools _ _) in *. set (t2 := a :: _).
  assert (safe R t2) as H2 by (split; [done|by apply Hev]).
  assert (known vdb p0 t0 p t2) as K2.
  { eapply known_extends; [by apply used_known|]. by exists [a; AEvent "RemoveNodesStart"]. }
  destruct (exec_err _); do 3 wp_step.
  - wp_step. split; [by apply Hev|done].
  - set (t3 := AEvent _ :: t2). assert (safe R t3) as H3 by by apply Hev.
    assert (known vdb p0 t0 p t3) as K3 by (eapply known_extends; [done|apply extends_cons]).
    unfold checkShardToNodeRatio. wp_calls. wp_step.
    assert (∀ t', safe R t' → known vdb p0 t0 p t' →
      wp (oret (Invalidate p, (MkResult rq 0, @None go_error))) t' (λ o t', safe R t' ∧
        ∀ p' res, o = Ret (p', (res, None)) → known vdb p0 t0 p' t')) as Hend.
    { intros t' Hs' K'. wp_step. split; [done|]. intros p' r [= <- _]. by apply known_invalidate. }
    case_bool_decide; [|destruct (suboptimal_ratio _ _)]; wp_step; apply Hend; try done.
    + by apply Hev.
    + eapply known_extends; [done|apply extends_cons].
Qed.

Lemma DBRemoveNode_rules :
  wp (DBRemoveNodeReconciler_Reconcile vdb p0) t0 (λ _ t', safe (since_start t0 remove_rule) t').
Proof.
  assert (safe (since_start t0 remove_rule) t0) as H0 by apply safe_start.
  unfold DBRemoveNodeReconciler_Reconcile. case_bool_decide; [by wp_step|]. wp_step.
  replace (FindSubclusters vdb FindInVdb) with
    (mret (Ok (spec_Subclusters (vdb_Spec vdb))) : M (result (list Subcluster))) by done.
  wp_step. apply (scaledown_all_spec vdb p0 t0 _ (collect_call_remove t0) _ (spec_Subclusters (vdb_Spec vdb)));
    [apply removeNodes_guarded|done| |done].
  exists t0. split; [constructor|done].
Qed.

End remove.

Section uninstall.
Context `{D : AtConfDeps} `{E : Env} `{O : PodOrder} (vdb : VerticaDB) (p0 : PodFacts) (t0 : Trace).

Definition uninstall_rule (a : action) (past : Trace) : Prop :=
  match a with
  | AExecInPod pod cmd => head cmd = Some "rm" →
      ∃ p, used vdb p0 t0 p past ∧ uninstall_ok vdb p pod
  | _ => True
  end.

(** What distributes the configuration *)
Definition copying (a : action) : Prop :=
  match a with
  | AExecInPod _ cmd => head cmd = Some "cat"
  | ACopyToPod _ _ _ | AEvent _ => True
  | _ => False
  end.

Lemma collect_call_not_rm a : collect_call a → match a with AExecInPod _ cmd => head cmd ≠ Some "rm" | _ => True end.
Proof.
  destruct a; try done. simpl. intros Ha Hc. rewrite Hc in Ha. revert Ha. by apply (bool_decide_eq_false_1 _).
Qed.

Lemma copying_rule a past : copying a → since_start t0 uninstall_rule a past.
Proof. intros Ha. right. destruct a; try done. simpl in Ha |- *. rewrite Ha. by intros [=]. Qed.

Lemma collect_call_uninstall a past : collect_call a → since_start t0 uninstall_rule a past.
Proof. intros Ha%collect_call_not_rm. right. destruct a; try done. intros Hc. by destruct Ha. Qed.

Lemma copying_RemoveHosts base ips : only copying (RemoveHosts base ips).
Proof.
  unfold RemoveHosts, createAdmintoolsConfBase. wp_calls. repeat only_step ltac:(first [exact I|reflexivity]).
Qed.

Lemma copying_distribute p contents : only copying (distributeAdmintoolsConf vdb p contents).
Proof.
  unfold distributeAdmintoolsConf. wp_calls.
  destruct (findPodForFirstCopy vdb p) as [[base|e]|m]; [|apply only_ret..].
  apply only_bind; [by apply only_call|]. intros r. destruct (exec_err r); [apply only_ret|].
  apply only_bind; [intros t; exists []; by split|]. intros pods.
  apply only_bind; [|intros [|e errs]; [apply only_ret|apply only_bind; [by apply only_call|intros; apply only_ret]]].
  generalize (@nil go_error). induction pods as [|v pods IH]; intros errs; simpl; [apply only_ret|].
  destruct (negb _); [apply IH|]. case_bool_decide; [apply IH|]. wp_calls.
  apply only_bind; [by apply only_call|]. intros r'. apply IH.
Qed.

Lemma exec_rm_spec pods t :
  (∀ v past, v ∈ pods → extends t past → ∃ p, used vdb p0 t0 p past ∧ uninstall_ok vdb p (pf_name v)) →
  safe (since_start t0 uninstall_rule) t →
  wp (exec_in_pods (genCmdRemoveInstallIndicator vdb) pods) t
    (λ _ t', safe (since_start t0 uninstall_rule) t' ∧ extends t t').
Proof.
  revert t. induction pods as [|v pods IH]; intros t Hp Ht; simpl; [by wp_step|].
  wp_calls. do 2 wp_step. set (t1 := _ :: t).
  assert (safe (since_start t0 uninstall_rule) t1) as H1.
  { split; [|done]. right. intros _. by apply Hp; [left|]. }
  destruct (exec_err _); [wp_step; split; [done|apply extends_cons]|].
  eapply wp_mono; [|apply IH; [|done]]; [|intros w past Hw Hpast; apply Hp; [by right|by eapply extends_trans_cons]].
  intros err t2 [H2 X2]. split; [done|]. by eapply extends_trans_cons.
Qed.

Lemma uninstallPods_spec (scs0 : list Subcluster) p sc sts t :
  (∀ sc, sc ∈ scs0 → sc ∈ spec_Subclusters (vdb_Spec vdb) ∨ not_in_spec vdb sc ∧ sc_Size sc = 0%Z) →
  used vdb p0 t0 p t → sc ∈ scs0 → (sc_Size sc < sts_StatusReplicas sts)%Z →
  safe (since_start t0 uninstall_rule) t →
  wp (uninstallPodsInSubcluster vdb p sc (sc_Size sc) (wrap32 (sts_StatusReplicas sts - 1))) t
    (λ o t', safe (since_start t0 uninstall_rule) t' ∧
       ∀ p' res, o = Ret (p', (res, None)) → known vdb p0 t0 p' t').
Proof.
  intros Hscs Hp Hsc Hlt Ht. unfold uninstallPodsInSubcluster.
  set (R := since_start t0 uninstall_rule) in *. set (hi := wrap32 _).
  destruct (findPodsSuitableForUninstall vdb p sc (sc_Size sc) hi) as [pods rq] eqn:Hf.
  case_bool_decide as Hlen; [|wp_step; split; [done|intros p' res [= <- _]; by apply used_known]].
  destruct (findATBasePod vdb p) as [[base|e]|m]; [|wp_step; by split..].
  wp_step. eapply (wp_only copying _ R _ (λ _ _, True));
    [apply copying_RemoveHosts|apply copying_rule|done|done|].
  intros [[tmp contents]|e] t1 _ H1 X1; [|wp_step; by split]. apply wp_obind.
  eapply (wp_only copying _ R _ (λ _ _, True));
    [apply copying_distribute|apply copying_rule|done|done|].
  intros [[e|]|m] t2 _ H2 X2; [wp_step; by split| |by split]. wp_step.
  eapply wp_mono; [|apply exec_rm_spec; [|done]].
  - intros [e|] t3 [H3 X3]; wp_step; (split; [done|]); [done|]. intros p' res [= <- _].
    apply known_invalidate. eapply known_extends; [by apply used_known|]. etrans; [exact X1|]. by etrans.
  - intros v past Hv Hpast. exists p. split; [eapply used_extends; [done|]; etrans; [exact X1|]; by etrans|].
    destruct (uninstall_suitable vdb p sc (sc_Size sc) hi v) as (i & Hi & Hat & Hrest).
    { by rewrite Hf. }
    exists sc, i, v. split_and!; try apply Hrest; [|done|done].
    destruct (Hscs sc Hsc) as [Hin|[Hout Hz]]; [left|right]; (split; [done|lia]).
Qed.

Lemma FindSubclusters_sizes t :
  wp (FindSubclusters vdb FindAll) t (λ r t', (∃ new, t' = new ++ t ∧ Forall collect_call new) ∧
    ∀ scs sc, r = Ok scs → sc ∈ scs →
      sc ∈ spec_Subclusters (vdb_Spec vdb) ∨ not_in_spec vdb sc ∧ sc_Size sc = 0%Z).
Proof.
  unfold FindSubclusters, FindStatefulSets. simpl. wp_calls. do 3 wp_step.
  destruct (env_list_sts _ _ _) as [objs|e]; wp_step; wp_step; (split; [eexists [_]; split; [done|by repeat constructor]|]);
    intros scs sc; [|done]. intros [= <-]. unfold sort_if. simpl.
  rewrite elem_of_app, list_elem_of_fmap. intros [Hin|(sts & -> & Hsts)]; [by left|right]. split; [|done].
  change (sts ∈ filter (λ o, keep_object vdb FindNotInVdb (sts_labels o) = true) objs) in Hsts.
  apply list_elem_of_filter in Hsts as [Hk _]. unfold keep_object in Hk.
  destruct (negb (hasSubclusterNameLabel _)); [done|]. simpl in Hk. unfold hasSubclusterLabelFromVdb in Hk.
  case_bool_decide as Hl; [done|]. intros Hin. apply Hl, GenSubclusterMap_lookup. exact Hin.
Qed.

Lemma Uninstall_rules :
  wp (UninstallReconciler_Reconcile vdb p0) t0 (λ _ t', safe (since_start t0 uninstall_rule) t').
Proof.
  assert (safe (since_start t0 uninstall_rule) t0) as H0 by apply safe_start.
  unfold UninstallReconciler_Reconcile. case_bool_decide; [by wp_step|]. wp_step.
  eapply wp_mono; [|apply (Collect_known vdb p0 t0 _ collect_call_uninstall); [|done]].
  2: { exists t0. split; [constructor|done]. }
  intros [p [e|]] t1 (H1 & X1 & K1); [by wp_step|]. specialize (K1 eq_refl). simpl in K1. apply used_known in K1.
  wp_step. apply wp_range. intros l _. destruct (fst _); [by wp_step|]. wp_step.
  eapply wp_mono; [|apply FindSubclusters_sizes]. intros [scs|e] t2 [(new & -> & Hnew) Hsz].
  2: { wp_step. apply safe_app; [done|]. intros n1 a n2 ->. apply collect_call_uninstall.
       by apply Forall_app in Hnew as [_ [Hnew _]%Forall_cons]. }
  apply (scaledown_all_spec vdb p0 t0 _ collect_call_uninstall _ scs);
    [intros; by eapply uninstallPods_spec; [intros; by eapply Hsz|..]|done| |].
  - eapply known_extends; [done|by exists new].
  - apply safe_app; [done|]. intros n1 a n2 ->. apply collect_call_uninstall.
    by apply Forall_app in Hnew as [_ [Hnew _]%Forall_cons].
Qed.

End uninstall.

(** ** Routing *)

Section routing.
Context `{E : Env} `{O : PodOrder} (applyMethod : ApplyMethodType).

(** Since [t0] the pod was found missing, or it was fetched and the fetched pod
    was patched with the change of the routing label. *)
Definition routed (t0 : Trace) (pf : PodFact) (t : Trace) : Prop :=
  ∃ before, extends t0 before ∧
    (env_get_pod before (pf_name pf) = Err ErrNotFound ∧ extends (AGetPod (pf_name pf) :: before) t ∨
     ∃ pod pod', env_get_pod before (pf_name pf) = Ok pod ∧
       env_patch_pod (AGetPod (pf_name pf) :: before) (manipulateRoutingLabelInPod applyMethod pod pf) = Ok pod' ∧
       extends (APatchPod (manipulateRoutingLabelInPod applyMethod pod pf) :: AGetPod (pf_name pf) :: before) t).

Lemma routed_extends t0 pf t t' : extends t t' → routed t0 pf t → routed t0 pf t'.
Proof.
  intros He (b & Hb & [[H1 H2]|(pod & pod' & H1 & H2 & H3)]); exists b; (split; [done|]).
  - left. split; [done|]. by etrans.
  - right. exists pod, pod'. split_and!; [done|done|]. by etrans.
Qed.

Lemma routing_reconcilePod_spec t0 pf t :
  0 < env_retry_steps → extends t0 t →
  wp (routing_reconcilePod applyMethod (pf_name pf) pf) t (λ r t',
    extends t t' ∧ (snd r = None → routed t0 pf t')).
Proof.
  intros Hsteps Ht. unfold routing_reconcilePod, RetryOnConflict.
  apply (wp_retry _ _ (λ _ t', extends t t')); [done|done|].
  intros res t1 X1. unfold routing_attempt. wp_calls. do 2 wp_step. set (t2 := _ :: t1).
  assert (extends t t2) as X2 by (etrans; [done|apply extends_cons]).
  destruct (env_get_pod t1 (pf_name pf)) as [pod|[]] eqn:Hg; try (wp_step; naive_solver).
  - do 2 wp_step. set (t3 := _ :: t2).
    assert (extends t t3) as X3 by (etrans; [done|apply extends_cons]).
    destruct (env_patch_pod t2 _) as [pod'|e] eqn:Hp; [|wp_step; naive_solver].
    assert (routed t0 pf t3) as Hr.
    { exists t1. split; [by etrans|]. right. by exists pod, pod'. }
    destruct (_ && _); wp_step; naive_solver.
  - wp_step. split; [|naive_solver]. split; [done|]. intros _. exists t1. split; [by etrans|]. by left.
Qed.

Lemma routing_pods_spec t0 scName pods savedRes t :
  0 < env_retry_steps → extends t0 t →
  wp (routing_pods applyMethod scName pods savedRes) t (λ r t', extends t t' ∧
    (snd r = None → ∀ pf, pf ∈ pods → scName = "" ∨ subcluster pf = scName → routed t0 pf t')).
Proof.
  intros Hsteps. revert savedRes t. induction pods as [|pf pods IH]; intros saved t Ht; simpl.
  { wp_step. split; [done|]. by intros _ pf ?%elem_of_nil. }
  destruct (_ && _) eqn:Hskip.
  { eapply wp_mono; [|by apply IH]. intros r t' [X Hr]. split; [done|].
    intros Hn v [->|Hv]%elem_of_cons; [|by apply Hr]. intros Hsc. exfalso.
    apply andb_true_iff in Hskip as [H1%negb_true_iff H2%negb_true_iff].
    apply bool_decide_eq_false in H1, H2. naive_solver. }
  wp_step. eapply wp_mono; [|by apply (routing_reconcilePod_spec t0)].
  intros [res err] t1 [X1 Hr]. simpl in Hr.
  assert (∀ sv, err = None → wp (routing_pods applyMethod scName pods sv) t1 (λ r t', extends t t' ∧
    (snd r = None → ∀ v, v ∈ pf :: pods → scName = "" ∨ subcluster v = scName → routed t0 v t'))) as Hgo.
  { intros sv He. eapply wp_mono; [|apply IH; by etrans]. intros r t2 [X2 Hr2].
    split; [by etrans|]. intros Hn v [->|Hv]%elem_of_cons Hsc; [|by apply Hr2].
    eapply routed_extends; [exact X2|]. by apply Hr. }
  destruct (IsReconcileAborted res err) eqn:Ha.
  - destruct err as [e|]; [|by apply Hgo]. wp_step. split; [done|]. by intros [=].
  - apply IsReconcileAborted_false in Ha as (_ & -> & _). by apply Hgo.
Qed.

End routing.

(** ** Installation *)

(** A pod that can be installed: of this subcluster, not beyond its size,
    running, without an installation and without a database *)
Definition target_ok (vdb : VerticaDB) (p : PodFacts) (v : PodFact) : Prop :=
  ∃ sc i, sc ∈ spec_Subclusters (vdb_Spec vdb) ∧ (i < sc_Size sc)%Z ∧ pod_at vdb p sc i v ∧
    isPodRunning v = true ∧ isInstalled v = false ∧ dbExists v = false.

Section targets.
Context `{D : AtConfDeps} `{E : Env} `{O : PodOrder} (vdb : VerticaDB) (p : PodFacts).

Lemma targets_in_subcluster_spec sc n i podList t :
  sc ∈ spec_Subclusters (vdb_Spec vdb) → n = 0 ∨ (i + Z.of_nat n ≤ sc_Size sc)%Z →
  (∀ v, v ∈ podList → target_ok vdb p v) →
  wp (targets_in_subcluster vdb p sc i n podList) t (λ r _, ∀ v, v ∈ fst r → target_ok vdb p v).
Proof.
  intros Hsc. revert i podList t. induction n as [|n IH]; intros i podList t Hi Hl; simpl; [by wp_step|].
  destruct (Detail p !! _) as [v|] eqn:Hv; [|by wp_step].
  destruct (isInstalled v) eqn:H1; simpl; [apply IH; [lia|done]|].
  destruct (dbExists v) eqn:H2; [apply IH; [lia|done]|].
  destruct (isPodRunning v) eqn:H3; simpl; [|by wp_step].
  assert (∀ w, w ∈ podList ++ [v] → target_ok vdb p w) as Hl'.
  { intros w [Hw|Hw]%elem_of_app; [by apply Hl|]. apply list_elem_of_singleton in Hw as ->.
    exists sc, i. split_and!; try done. lia. }
  destruct (hasStaleAdmintoolsConf v); [|apply IH; [lia|done]].
  wp_calls. do 2 wp_step. destruct (exec_err _); [by wp_step|apply IH; [lia|done]].
Qed.

Lemma install_targets_spec scs podList t :
  (∀ sc, sc ∈ scs → sc ∈ spec_Subclusters (vdb_Spec vdb)) →
  (∀ v, v ∈ podList → target_ok vdb p v) →
  wp (install_targets vdb p scs podList) t (λ r _, ∀ v, v ∈ fst r → target_ok vdb p v).
Proof.
  revert podList t. induction scs as [|sc scs IH]; intros podList t Hscs Hl; simpl; [by wp_step|].
  wp_step. eapply wp_mono; [|apply targets_in_subcluster_spec; [apply Hscs; by left|lia|done]].
  intros [l [e|]] t1 Hl1; [by wp_step|]. apply IH; [|done]. intros s Hs. apply Hscs. by right.
Qed.

End targets.

(** ** A cluster to scale

    [has_db] and [installed] say in which pods there is a database and an
    installation; [reported nm] is the number of pods of a statefulset. *)
Definition no_such_file : exec_result :=
  MkExec "" ("cat: " +:+ GenInstallerIndicatorFileName MakeVDB +:+ ": No such file or directory")
    (Some (ErrMsg "exit 1")).

Definition scale_env (has_db installed : NamespacedName → bool) (reported : NamespacedName → option Z) : Env := {|
  env_exec _ nm cmd :=
    if bool_decide (cmd !! 2 = Some "ls -d /data/db/v_db_node????_data")
    then if has_db nm then MkExec "/data/db/v_db_node0001_data" "" None else no_such_file
    else if bool_decide (cmd = ["cat"; GenInstallerIndicatorFileName MakeVDB])
    then if installed nm then MkExec "node0001" "" None else no_such_file
    else if bool_decide (cmd = ["ls"; AdminToolsConf]) then no_such_file
    else MkExec "" "" None;
  env_vsql _ nm cmd := if has_db nm then MkExec "1" "" None
    else MkExec "" "vsql: could not connect to server: refused" (Some (ErrMsg "exit 1"));
  env_admintools _ _ _ := MkExec "" "" None;
  env_get_vdb _ _ := Ok MakeVDB;
  env_update_vdb _ w := Ok w;
  env_update_vdb_status _ w := Ok w;
  env_get_vas _ _ := Err ErrNotFound;
  env_update_vas _ w := Ok w;
  env_update_vas_status _ w := Ok w;
  env_get_sts _ nm :=
    match reported nm with
    | Some n => Ok (bare_sts (MkObjectMeta (nn_Name nm) (nn_Namespace nm) ∅ ∅) (Some n) n "img")
    | None => Err ErrNotFound
    end;
  env_get_pod _ nm := Ok (MkPod (MkObjectMeta (nn_Name nm) (nn_Namespace nm) ∅
    {[KubernetesVersionAnnotation := "v1"]}) "Running" "10.1.1.1" (nn_Name nm) "hl" "img");
  env_list_sts _ _ _ := Ok [];
  env_list_pods _ _ _ := Ok [];
  env_list_services _ _ _ := Ok [];
  env_update_sts _ s := Ok s;
  env_delete_pod _ _ := None;
  env_copy _ _ _ _ := MkExec "" "" None;
  env_update_pod _ q := Ok q;
  env_patch_pod _ q := Ok q;
  env_server_version _ := Ok ("v1", "c", "d");
  env_get_secret _ _ := Ok (MkSecret {["accesskey" := "ak"; "secretkey" := "sk"]});
  env_get_configmap _ _ := Some ErrNotFound;
  env_get_service _ _ := Err ErrNotFound;
  env_create_service _ _ := None;
  env_update_service _ s := Ok s;
  env_delete_service _ _ := None;
  env_create_sts _ _ := None;
  env_patch_sts _ s := Ok s;
  env_delete_sts _ _ := None;
  env_set_controller _ _ := None;
  env_now _ := 7%Z;
  env_retry_steps := 4 |}.

Definition demo_pod (i : Z) : NamespacedName := GenPodName MakeVDB demo_default i.

(** A database in pod 0 only; a fourth pod with a database; a fourth pod without *)
Definition add_env : Env := scale_env (λ nm, bool_decide (nm = demo_pod 0)) (λ _, true) (λ _, None).
Definition remove_env : Env := scale_env (λ _, true) (λ _, true) (λ _, Some 4%Z).
Definition uninstall_env : Env := scale_env (λ _, false) (λ _, true) (λ _, Some 4%Z).

Lemma split_at (t : Trace) k a : t !! k = Some a → t = take k t ++ a :: drop (S k) t.
Proof. intros Ha. symmetry. by apply take_drop_middle. Qed.

Lemma extends_nil t : extends [] t.
Proof. exists t. by rewrite app_nil_r. Qed.

(** What [db_add_node] needs *)
Record add_node_ok `{E : Env} (vdb : VerticaDB) (p : PodFacts) (since past : Trace) (atPod : NamespacedName)
    (cmd : list string) (sc : Subcluster) : Prop := {
  an_cmd : ∃ pods, pods ≠ [] ∧ cmd = genAddNodeCommand vdb pods ∧
    (∀ v, v ∈ pods ↔ v ∈ facts_list p ∧ subcluster v = sc_Name sc ∧ dbExists v = false) ∧
    (∀ v, v ∈ pods → isPodRunning v = true) ∧
    (∀ v, v ∈ pods → cleaned since past (GetDBDataPath vdb) v ∧ cleaned since past (GetDepotPath vdb) v);
  an_at : ∃ v, v ∈ facts_list p ∧ pf_name v = atPod ∧ upNode v = true ∧ readOnly v = false }.

Lemma add_node_rule_ok `{E : Env} vdb S p since past atPod cmd :
  add_node_rule vdb S p since (AExecAdmintools atPod cmd) past →
  ∃ sc, S sc ∧ add_node_ok vdb p since past atPod cmd sc.
Proof.
  intros (sc & pods & H1 & H2 & H3 & (l & Hl & H4) & H5 & H6). exists sc. split; [done|]. split; [|done].
  exists pods. split_and!; try done.
  - intros v. rewrite <- Hl. pose proof (missing_db_spec (sc_Name sc) l v) as Hm. rewrite H4 in Hm.
    split; [intros Hv; by destruct (Hm Hv) as (? & ? & ? & _)|]. intros (Hv & Hs & Hd).
    apply (f_equal fst) in H4. simpl in H4. rewrite <- H4. unfold sort_by.
    rewrite merge_sort_Permutation. apply list_elem_of_filter. split; [|done].
    by rewrite bool_decide_eq_true_2, Hd.
  - intros v Hv. pose proof (missing_db_spec (sc_Name sc) l v) as Hm. rewrite H4 in Hm.
    by apply Hm.
Qed.

(** ** Properties *)

(** When an iteration of the add-node reconciler sends [db_add_node], it
    names exactly the pods of one subcluster of the spec that have no database,
    all of them running; the command runs in a pod whose node is up and
    writable; and since the facts were collected the data and depot directories
    were removed from each of these pods, or were not there. *)
Theorem add_node_safe `{E : Env} `{O : PodOrder} vdb p0 t0 n1 atPod cmd n2 :
  snd (DBAddNodeReconciler_Reconcile vdb p0 t0) = n1 ++ AExecAdmintools atPod cmd :: n2 →
  extends t0 n2 →
  ∃ p sc pods, fst (Collect vdb p0 t0) = (p, None) ∧
    sc ∈ spec_Subclusters (vdb_Spec vdb) ∧ pods ≠ [] ∧ cmd = genAddNodeCommand vdb pods ∧
    (∀ v, v ∈ pods ↔ v ∈ facts_list p ∧ subcluster v = sc_Name sc ∧ dbExists v = false) ∧
    (∀ v, v ∈ pods → isPodRunning v = true) ∧
    (∃ v, v ∈ facts_list p ∧ pf_name v = atPod ∧ upNode v = true ∧ readOnly v = false) ∧
    (∀ v, v ∈ pods → cleaned (snd (Collect vdb p0 t0)) n2 (GetDBDataPath vdb) v ∧
                     cleaned (snd (Collect vdb p0 t0)) n2 (GetDepotPath vdb) v).
Proof.
  intros Ht Hex. pose proof (DBAddNode_rules vdb p0 t0) as Hr. unfold wp in Hr. rewrite Ht in Hr.
  apply safe_since in Hr; [|done]. destruct Hr as (p & Hc & (sc & H1 & [(pods & H2 & H3 & H4 & H5 & H6) Hat])%add_node_rule_ok).
  by exists p, sc, pods.
Qed.

Lemma add_node_safe_witness :
  ∃ p sc pods, fst (@Collect add_env MakeVDB MakePodFacts []) = (p, None) ∧
    sc ∈ spec_Subclusters (vdb_Spec MakeVDB) ∧ pods ≠ [] ∧
    (∀ v, v ∈ pods → isPodRunning v = true).
Proof.
  set (t := snd (@DBAddNodeReconciler_Reconcile add_env map_order MakeVDB MakePodFacts [])).
  set (cmd := ["-t"; "db_add_node"; "--hosts";
    "vertica-sample-defaultsubcluster-1.hl,vertica-sample-defaultsubcluster-2.hl";
    "--database"; "db"; "--subcluster"; "defaultsubcluster"; "--noprompt"]).
  assert (t !! 2 = Some (AExecAdmintools (demo_pod 0) cmd)) as Hi by (vm_compute; reflexivity).
  destruct (@add_node_safe add_env map_order MakeVDB MakePodFacts [] (take 2 t) (demo_pod 0) cmd
    (drop 3 t) (split_at _ _ _ Hi) (extends_nil _)) as (p & sc & pods & H1 & H2 & H3 & _ & _ & H6 & _).
  exists p, sc, pods. exact (conj H1 (conj H2 (conj H3 H6))).
Defined.

(** The add-node reconciler deletes files only in running pods that the
    facts of this iteration show without a database. *)
Theorem data_removed_safe `{E : Env} `{O : PodOrder} vdb p0 t0 n1 pod cmd n2 :
  snd (DBAddNodeReconciler_Reconcile vdb p0 t0) = n1 ++ AExecInPod pod cmd :: n2 →
  extends t0 n2 → head cmd = Some "rm" →
  ∃ p v, fst (Collect vdb p0 t0) = (p, None) ∧ v ∈ facts_list p ∧ pf_name v = pod ∧
    isPodRunning v = true ∧ dbExists v = false.
Proof.
  intros Ht Hex Hrm. pose proof (DBAddNode_rules vdb p0 t0) as Hr. unfold wp in Hr. rewrite Ht in Hr.
  apply safe_since in Hr; [|done]. destruct (Hr Hrm) as (p & Hc & Hv).
  destruct (Hv Hrm) as (_ & v & H1 & H2 & H3 & H4). by exists p, v.
Qed.

Lemma data_removed_safe_witness :
  ∃ p v, fst (@Collect add_env MakeVDB MakePodFacts []) = (p, None) ∧ v ∈ facts_list p ∧
    pf_name v = demo_pod 2 ∧ isPodRunning v = true ∧ dbExists v = false.
Proof.
  set (t := snd (@DBAddNodeReconciler_Reconcile add_env map_order MakeVDB MakePodFacts [])).
  assert (t !! 5 = Some (AExecInPod (demo_pod 2) ["rm"; "-r"; "/depot/db"])) as Hi
    by (vm_compute; reflexivity).
  exact (@data_removed_safe add_env map_order MakeVDB MakePodFacts [] (take 5 t) (demo_pod 2)
    ["rm"; "-r"; "/depot/db"] (drop 6 t) (split_at _ _ _ Hi) (extends_nil _) eq_refl).
Defined.

(** When an iteration of the remove-node reconciler sends [db_remove_node],
    it names only running pods with a database whose index is not below the size
    of their subcluster: a node that the spec asks for is never removed. *)
Theorem remove_node_safe `{E : Env} `{O : PodOrder} vdb p0 t0 n1 atPod cmd n2 :
  snd (DBRemoveNodeReconciler_Reconcile vdb p0 t0) = n1 ++ AExecAdmintools atPod cmd :: n2 →
  extends t0 n2 →
  ∃ p, used vdb p0 t0 p n2 ∧ remove_node_ok vdb p cmd.
Proof.
  intros Ht Hex. pose proof (DBRemoveNode_rules vdb p0 t0) as Hr. unfold wp in Hr. rewrite Ht in Hr.
  by apply safe_since in Hr.
Qed.

Lemma remove_node_safe_witness :
  ∃ p past, @used remove_env MakeVDB MakePodFacts [] p past ∧
    remove_node_ok MakeVDB p ["-t"; "db_remove_node"; "--database"; "db";
      "--hosts=vertica-sample-defaultsubcluster-3.hl"; "--noprompts"].
Proof.
  set (t := snd (@DBRemoveNodeReconciler_Reconcile remove_env map_order MakeVDB MakePodFacts [])).
  set (cmd := ["-t"; "db_remove_node"; "--database"; "db";
    "--hosts=vertica-sample-defaultsubcluster-3.hl"; "--noprompts"]).
  assert (t !! 2 = Some (AExecAdmintools (demo_pod 3) cmd)) as Hi by (vm_compute; reflexivity).
  destruct (@remove_node_safe remove_env map_order MakeVDB MakePodFacts [] (take 2 t) (demo_pod 3) cmd
    (drop 3 t) (split_at _ _ _ Hi) (extends_nil _)) as [p Hp]. exact (ex_intro _ p (ex_intro _ (drop 3 t) Hp)).
Defined.

(** C18: the uninstall reconciler removes the installation marker only from
    running, installed pods without a database, and only from pods of a subcluster
    of the spec with an index not below its size, or of a subcluster of which the
    spec does not have the name. *)
Theorem uninstall_safe `{D : AtConfDeps} `{E : Env} `{O : PodOrder} vdb p0 t0 n1 pod cmd n2 :
  snd (UninstallReconciler_Reconcile vdb p0 t0) = n1 ++ AExecInPod pod cmd :: n2 →
  extends t0 n2 → head cmd = Some "rm" →
  ∃ p, used vdb p0 t0 p n2 ∧ uninstall_ok vdb p pod.
Proof.
  intros Ht Hex Hrm. pose proof (Uninstall_rules vdb p0 t0) as Hr. unfold wp in Hr. rewrite Ht in Hr.
  apply safe_since in Hr; [|done]. by apply Hr.
Qed.

Lemma uninstall_safe_witness :
  ∃ p past, @used uninstall_env MakeVDB MakePodFacts [] p past ∧
    uninstall_ok MakeVDB p (demo_pod 3).
Proof.
  set (D := mem_deps_with demo_conf).
  set (t := snd (@UninstallReconciler_Reconcile D uninstall_env map_order MakeVDB MakePodFacts [])).
  set (cmd := ["rm"; GenInstallerIndicatorFileName MakeVDB]).
  assert (t !! 0 = Some (AExecInPod (demo_pod 3) cmd)) as Hi by (vm_compute; reflexivity).
  destruct (@uninstall_safe D uninstall_env map_order MakeVDB MakePodFacts [] (take 0 t) (demo_pod 3) cmd
    (drop 1 t) (split_at _ _ _ Hi) (extends_nil _) eq_refl) as [p Hp]. exact (ex_intro _ p (ex_intro _ (drop 1 t) Hp)).
Defined.

Lemma routing_done `{E : Env} `{O : PodOrder} applyMethod scName vdb p0 t0 :
  0 < env_retry_steps →
  wp (ClientRoutingLabelReconciler_Reconcile applyMethod scName vdb p0) t0 (λ r t',
    snd (snd r) = None → ∀ pf, pf ∈ facts_list (fst r) → scName = "" ∨ subcluster pf = scName →
    routed applyMethod t0 pf t').
Proof.
  intros Hsteps. unfold ClientRoutingLabelReconciler_Reconcile. wp_step.
  eapply (wp_only collect_call _ (λ _ _, True) _ (λ _ _, True));
    [apply Collect_calls|done|by apply safe_True|done|].
  intros [p [e|]] t1 _ _ X1; [by wp_step|]. wp_step. apply wp_range. intros l Hl. wp_step.
  eapply wp_mono; [|by apply (routing_pods_spec applyMethod t0)].
  intros r t2 [_ Hr]. wp_step. simpl. intros Hn pf Hpf. rewrite <- Hl in Hpf. by apply Hr.
Qed.

(** C37: a successful iteration of the routing reconciler handles every pod of
    its scope: the pod was missing, or what was fetched was patched.  A patch of
    an iteration before node removal leaves no service that selects a pod
    pending deletion; a patch after adding nodes or a restart routes to a pod
    exactly if it was routed to before, or is up, owns a shard and stays. *)
Theorem routing_complete `{E : Env} `{O : PodOrder} applyMethod scName vdb p0 t0 :
  0 < env_retry_steps →
  let r := fst (ClientRoutingLabelReconciler_Reconcile applyMethod scName vdb p0 t0) in
  let t' := snd (ClientRoutingLabelReconciler_Reconcile applyMethod scName vdb p0 t0) in
  snd (snd r) = None →
  (∀ pf, pf ∈ facts_list (fst r) → scName = "" ∨ subcluster pf = scName →
     routed applyMethod t0 pf t') ∧
  (∀ pod pf vdb' sc, applyMethod = DelNodeApplyMethod → pendingDelete pf = true →
     let labels := om_Labels (pod_Meta (manipulateRoutingLabelInPod applyMethod pod pf)) in
     ¬ selects (MakeSvcSelectorLabelsForServiceNameRouting vdb' sc) labels ∧
     ¬ selects (MakeSvcSelectorLabelsForSubclusterNameRouting vdb' sc) labels) ∧
  (∀ pod pf, applyMethod ≠ DelNodeApplyMethod →
     is_Some (om_Labels (pod_Meta (manipulateRoutingLabelInPod applyMethod pod pf)) !! ClientRoutingLabel) ↔
     is_Some (om_Labels (pod_Meta pod) !! ClientRoutingLabel) ∨
     (upNode pf = true ∧ (0 < shardSubscriptions pf)%Z ∧ pendingDelete pf = false)).
Proof.
  intros Hsteps. cbv zeta. intros Hnone. split_and!.
  - by apply (routing_done applyMethod scName vdb p0 t0 Hsteps).
  - intros pod pf vdb' sc -> Hd. simpl. rewrite Hd, andb_true_r.
    unfold MakeSvcSelectorLabelsForServiceNameRouting, MakeSvcSelectorLabelsForSubclusterNameRouting.
    rewrite !selects_insert by done.
    case_bool_decide as Hl; simpl; [rewrite lookup_delete_eq; naive_solver|].
    apply eq_None_not_Some in Hl. rewrite Hl. naive_solver.
  - intros pod pf Hm.
    assert (manipulateRoutingLabelInPod applyMethod pod pf =
      manipulateRoutingLabelInPod AddNodeApplyMethod pod pf) as -> by by destruct applyMethod.
    simpl. case_bool_decide as Hl; simpl; [tauto|].
    destruct (upNode pf); simpl; [|naive_solver]. case_bool_decide; simpl; [|naive_solver].
    destruct (pendingDelete pf); simpl; [naive_solver|]. rewrite lookup_insert_eq. naive_solver.
Qed.

Lemma routing_complete_witness :
  Forall (λ pf, @routed add_env PodRescheduleApplyMethod [] pf
      (snd (@ClientRoutingLabelReconciler_Reconcile add_env map_order
        PodRescheduleApplyMethod "" MakeVDB MakePodFacts [])))
    (facts_list (fst (fst (@ClientRoutingLabelReconciler_Reconcile add_env map_order
      PodRescheduleApplyMethod "" MakeVDB MakePodFacts [])))).
Proof.
  apply Forall_forall. intros pf Hpf. apply (@routing_complete add_env map_order PodRescheduleApplyMethod "" MakeVDB
    MakePodFacts []); [apply Nat.lt_0_succ| |exact Hpf|by left].
  vm_compute. reflexivity.
Defined.

(** The hosts that the installer adds are those of pods that the spec asks
    for, that run, and that have neither an installation nor a database. *)
Theorem install_targets_correct `{D : AtConfDeps} `{E : Env} `{O : PodOrder} vdb p t v :
  v ∈ fst (fst (getInstallTargets vdb p t)) → target_ok vdb p v.
Proof.
  revert v. assert (wp (getInstallTargets vdb p) t (λ r _, ∀ v, v ∈ fst r → target_ok vdb p v)) as Hw; [|by apply Hw].
  unfold getInstallTargets. apply wp_bind. unfold wp at 1, range_scs. simpl.
  apply install_targets_spec; [|by intros v ?%elem_of_nil].
  intros sc. rewrite sc_order_perm. intros Hin.
  apply list_elem_of_fmap in Hin as ([k sc'] & -> & Hin). simpl.
  apply elem_of_map_to_list in Hin. by apply GenSubclusterMap_lookup_Some in Hin as [Hin _].
Qed.

Lemma install_targets_correct_witness :
  let p := fst (fst (@Collect (scale_env (λ _, false) (λ _, false) (λ _, None)) MakeVDB MakePodFacts [])) in
  ∃ v, target_ok MakeVDB p v.
Proof.
  set (E := scale_env (λ _, false) (λ _, false) (λ _, None)). intros p.
  set (l := fst (fst (@getInstallTargets E map_order MakeVDB p []))).
  assert (l !! 0 = Some (default zero_PodFact (l !! 0))) as Hl by (vm_compute; reflexivity).
  exists (default zero_PodFact (l !! 0)).
  apply (@install_targets_correct mem_deps E map_order MakeVDB p []).
  exact (list_elem_of_lookup_2 _ _ _ Hl).
Defined.

(** When the first subcluster of the spec has no pod 0 among the facts,
    which is the case for an admissible subcluster of size 0, an installation
    that has hosts to add dereferences nil, unless admintools.conf could not be
    written. *)
Theorem empty_subcluster_install_panics `{D : AtConfDeps} `{E : Env} `{O : PodOrder} vdb p sc scs t targets t1 :
  spec_Subclusters (vdb_Spec vdb) = sc :: scs → Detail p !! GenPodName vdb sc 0 = None →
  getInstallTargets vdb p t = ((targets, None), t1) → targets ≠ [] →
  fst (addHostsToATConf vdb p t) = Panic nil_dereference ∨
  ∃ e t2, fst (AddHosts vdb no_pod (podIP <$> targets) t2) = Err e.
Proof.
  intros Hsc Hp Ht Hne.
  assert (findATBasePod vdb p = Panic nil_dereference) as Hbase.
  { unfold findATBasePod. rewrite Hsc. simpl. by rewrite Hp. }
  assert (∀ contents t, fst (distributeAdmintoolsConf vdb p contents t) = Panic nil_dereference) as Hdist.
  { intros contents t'. unfold distributeAdmintoolsConf, findPodForFirstCopy. by rewrite Hbase. }
  assert (wp (addHostsToATConf vdb p) t (λ r _, r = Panic nil_dereference ∨
    ∃ e t2, fst (AddHosts vdb no_pod (podIP <$> targets) t2) = Err e)) as Hw; [|by apply Hw].
  unfold addHostsToATConf. wp_step. unfold wp at 1. rewrite Ht. simpl.
  rewrite bool_decide_eq_false_2 by by destruct targets. wp_step. apply wp_range. intros l _.
  rewrite Hbase. destruct (negb _); [wp_step; by left|]. wp_step.
  unfold wp at 1. destruct (AddHosts _ _ _ _) as [[[tmp contents]|e] t2] eqn:Ha; simpl.
  - wp_step. unfold wp at 1. simpl. apply wp_obind. unfold wp at 1.
    destruct (distributeAdmintoolsConf _ _ _ _) as [o t3] eqn:Hd. simpl.
    pose proof (Hdist contents (snd (debugDumpAdmintoolsConfForPods (findInstalledPods l) t2))) as Hx.
    rewrite Hd in Hx. simpl in Hx. rewrite Hx. by left.
  - wp_step. right. exists e, t1. unfold no_pod. by rewrite Ha.
Qed.

(** An admissible spec that starts with an empty secondary subcluster *)
Definition empty_first : VerticaDB :=
  set_Subclusters MakeVDB (set_sc_IsPrimary (set_sc_Size (set_sc_Name demo_default "sc0") 0) false
                           :: spec_Subclusters (vdb_Spec MakeVDB)).

Lemma empty_subcluster_install_panics_witness :
  let E := scale_env (λ _, false) (λ _, false) (λ _, None) in
  let p := fst (fst (@Collect E empty_first MakePodFacts [])) in
  ValidateCreate empty_first = Allowed ∧
  (fst (@addHostsToATConf mem_deps E map_order empty_first p []) = Panic nil_dereference ∨
   ∃ e t2, fst (@AddHosts mem_deps E empty_first no_pod
     (podIP <$> fst (fst (@getInstallTargets E map_order empty_first p []))) t2) = Err e) ∧
  fst (@InstallReconciler_Reconcile mem_deps E map_order empty_first MakePodFacts [])
    = Panic nil_dereference.
Proof.
  intros E p.
  split; [vm_compute; reflexivity|]. split; [|vm_compute; reflexivity].
  assert (Detail p !! GenPodName empty_first (set_sc_IsPrimary (set_sc_Size (set_sc_Name demo_default "sc0") 0) false) 0 = None) as Hp
    by (vm_compute; reflexivity).
  set (g := @getInstallTargets E map_order empty_first p []).
  assert (snd (fst g) = None) as Hg by (vm_compute; reflexivity).
  assert (0 < length (fst (fst g))) as Hlen by (apply (bool_decide_eq_true_1 (0 < _)); vm_compute; reflexivity).
  apply (@empty_subcluster_install_panics mem_deps E map_order empty_first p _ _ [] (fst (fst g)) (snd g) eq_refl Hp).
  - fold g. destruct g as [[ts err] t1]. simpl in Hg. rewrite Hg. reflexivity.
  - intros Hn. rewrite Hn in Hlen. exact (Nat.lt_irrefl 0 Hlen).
Defined.
