(* ===== verification/Upgrade.v ===== *)
(** * Upgrading the server

    [pkg/controllers/vdb/version_reconciler.go], [annotateandlabelpod_reconcile.go],
    [upgrade.go] and [offlineupgrade_reconcile.go].  The reconcilers share the
    VerticaDB and the pod facts through pointers; both are passed along. *)

From Stdlib Require Import Ascii.
From stdpp Require Import base gmap strings pretty sorting numbers list.
From S2P Require Import Prelude GoStrings GoRegexp K8s Types Version KObjects Effects Status Labels ScFinder Atconf PodFacts Builder Restart Install Scaling.

(** ** [version_reconciler.go] *)

Section version.
Context `{Env} `{PodOrder}.

Definition getVersion (pod : PodFact) : M (result string) :=
  r ← ExecInPod (pf_name pod) ["/opt/vertica/bin/vertica"; "--version"];
  match exec_err r with
  | Some e => mret (Err e)
  | None => mret (Ok (stdout r))
  end.

(** One attempt to store the annotations; the order of the map does not matter
    ([merge_annotations_spec]). *)
Definition version_attempt (versionAnnotations : gmap string string) (vdb : VerticaDB)
    : M (VerticaDB * option go_error) :=
  r ← GetVdb (ExtractNamespacedName vdb);
  match r with
  | Err e => mret (vdb, Some e)
  | Ok vdb =>
      let '(vdb, changed) := MergeAnnotations vdb (map_to_list versionAnnotations) in
      if changed : bool then
        r ← UpdateVdb vdb;
        match r with
        | Err e => mret (vdb, Some e)
        | Ok vdb' => mret (vdb', None)
        end
      else mret (vdb, None)
  end.

Definition updateVDBVersion (enforceUpgradePath : bool) (vdb : VerticaDB) (newVersion : string)
    : M (outcome (VerticaDB * (Result * option go_error))) :=
  let versionAnnotations := ParseVersionOutput newVersion in
  let supported := if enforceUpgradePath && negb (spec_IgnoreUpgradePath (vdb_Spec vdb))
                   then IsUpgradePathSupported vdb versionAnnotations else Ret (true, "") in
  match supported with
  | Panic m => mret (Panic m)
  | Ret (false, _) => _ ← Event "InvalidUpgradePath"; oret (vdb, (requeue, None))
  | Ret (true, _) =>
      r ← RetryOnConflict (version_attempt versionAnnotations) vdb;
      let '(vdb, err) := r in oret (vdb, (no_requeue, err))
  end.

Definition reconcileVersion (enforceUpgradePath : bool) (vdb : VerticaDB) (pod : PodFact)
    : M (outcome (VerticaDB * (Result * option go_error))) :=
  v ← getVersion pod;
  match v with
  | Err e => oret (vdb, (no_requeue, Some e))
  | Ok vver => updateVDBVersion enforceUpgradePath vdb vver
  end.

Definition logWarningIfVersionDoesNotSupportsCGroupV2 (vinf : Info) (pod : PodFact) : M unit :=
  let '(ver12, _) := MakeInfoFromStr CGroupV2UnsupportedVersion in
  if negb (IsEqual vinf ver12) then mret tt
  else
    r ← ExecInPod (pf_name pod) ["test"; "-f"; "/sys/fs/cgroup/cgroup.controllers"];
    if exec_ok r then Event "UnsupportedVerticaVersion" else mret tt.

Definition VersionReconciler_Reconcile (enforceUpgradePath : bool)
    (findPodFunc : list PodFact → PodFact * bool) (vdb : VerticaDB) (p : PodFacts)
    : M (outcome (VerticaDB * PodFacts * (Result * option go_error))) :=
  c ← Collect vdb p;
  let '(p, err) := c in
  match err with
  | Some e => oret (vdb, p, (no_requeue, Some e))
  | None =>
      l ← range_pods 40 p;
      let '(pod, ok) := findPodFunc l in
      if negb ok then oret (vdb, p, (requeue, None)) else
      r ←! reconcileVersion enforceUpgradePath vdb pod;
      let '(vdb, (res, err)) := r in
      if IsReconcileAborted res err then oret (vdb, p, (res, err)) else
      match MakeInfoFromVdb vdb with
      | None => oret (vdb, p, (no_requeue, None))
      | Some vinf =>
          match IsUnsupported vinf with
          | Panic m => mret (Panic m)
          | Ret true => _ ← Event "UnsupportedVerticaVersion"; oret (vdb, p, (requeue, None))
          | Ret false =>
              _ ← logWarningIfVersionDoesNotSupportsCGroupV2 vinf pod;
              oret (vdb, p, (no_requeue, None))
          end
      end
  end.

End version.

(** ** [annotateandlabelpod_reconcile.go] *)

Definition set_dc_annotations (pf : PodFact) (b : bool) : PodFact :=
  MkPodFact (pf_name pf) (podIndex pf) (dnsName pf) (podIP pf) (subcluster pf) (isPrimary pf)
    (image pf) (exists_ pf) (isPodRunning pf) (managedByParent pf) (pendingDelete pf)
    (isInstalled pf) (hasStaleAdmintoolsConf pf) (dbExists pf) (upNode pf) (readOnly pf)
    (vnodeName pf) (compat21NodeName pf) (eulaAccepted pf) (configLogrotateExists pf)
    (configLogrotateWritable pf) (configShareExists pf) (isTransient pf) (shardSubscriptions pf) b.

Definition set_pod_annotations (pod : Pod) (anns : gmap string string) : Pod :=
  MkPod (MkObjectMeta (om_Name (pod_Meta pod)) (om_Namespace (pod_Meta pod))
           (om_Labels (pod_Meta pod)) anns)
    (pod_Phase pod) (pod_PodIP pod) (pod_Hostname pod) (pod_Subdomain pod) (pod_Image pod).

Definition generateLabels : list (string * string) := [(OperatorVersionLabel, CurOperatorVersion)].

(** A missing annotation reads as the empty string. *)
Definition merge_pod_annotations (anns : list (string * string)) (m : gmap string string)
    : gmap string string * bool :=
  foldl (λ acc '(k, v), let '(m, changed) := acc in
    if negb (bool_decide (default "" (m !! k) = v)) then (<[k := v]> m, true) else (m, changed))
    (m, false) anns.

Definition merge_pod_labels (labels : list (string * string)) (m : gmap string string) (changed : bool)
    : gmap string string * bool :=
  foldl (λ acc '(k, v), (<[k := v]> (fst acc), true)) (m, changed) labels.

Section annotate.
Context `{Env} `{PodOrder}.

Definition generateAnnotations : M (result (list (string * string))) :=
  r ← ServerVersion;
  match r with
  | Err e => mret (Err e)
  | Ok (gitVersion, gitCommit, buildDate) =>
      mret (Ok [(KubernetesVersionAnnotation, gitVersion); (KubernetesGitCommitAnnotation, gitCommit);
                (KubernetesBuildDateAnnotation, buildDate)])
  end.

Definition annotate_attempt (podName : NamespacedName) (anns labels : list (string * string))
    (p : PodFacts) : M (PodFacts * option go_error) :=
  r ← GetPod podName;
  match r with
  | Err ErrNotFound => mret (p, None)
  | Err e => mret (p, Some e)
  | Ok pod =>
      let '(panns, changed) := merge_pod_annotations anns (om_Annotations (pod_Meta pod)) in
      let '(plabels, changed) := merge_pod_labels labels (om_Labels (pod_Meta pod)) changed in
      if changed : bool then
        r ← UpdatePod (set_pod_labels (set_pod_annotations pod panns) plabels);
        match r with
        | Ok _ => mret (MkPodFacts (alter (λ pf, set_dc_annotations pf true) podName (Detail p))
                          (NeedCollection p), None)
        | Err e => mret (p, Some e)
        end
      else mret (p, None)
  end.

Definition applyAnnotationsAndLabels (podName : NamespacedName) (anns labels : list (string * string))
    (p : PodFacts) : M (PodFacts * option go_error) :=
  RetryOnConflict (annotate_attempt podName anns labels) p.

Fixpoint annotate_pods (anns labels : list (string * string)) (pods : list PodFact) (p : PodFacts)
    : M (PodFacts * option go_error) :=
  match pods with
  | [] => mret (p, None)
  | pf :: pods =>
      if exists_ pf then
        r ← applyAnnotationsAndLabels (pf_name pf) anns labels p;
        let '(p, err) := r in
        match err with
        | Some e => mret (p, Some e)
        | None => annotate_pods anns labels pods p
        end
      else annotate_pods anns labels pods p
  end.

Definition AnnotateAndLabelPodReconciler_Reconcile (vdb : VerticaDB) (p : PodFacts)
    : M (PodFacts * (Result * option go_error)) :=
  c ← Collect vdb p;
  let '(p, err) := c in
  match err with
  | Some e => mret (p, (no_requeue, Some e))
  | None =>
      a ← generateAnnotations;
      match a with
      | Err e => mret (p, (no_requeue, Some e))
      | Ok annotations =>
          l ← range_pods 41 p;
          r ← annotate_pods annotations generateLabels l p;
          let '(p, err) := r in mret (p, (no_requeue, err))
      end
  end.

End annotate.

(** ** [upgrade.go] *)

Definition onlineUpgradeAllowed (vdb : VerticaDB) : bool :=
  let s := vdb_Spec vdb in
  if bool_decide (spec_UpgradePolicy s = OfflineUpgrade) then false
  else if (bool_decide (spec_UpgradePolicy s = AutoUpgrade) || bool_decide (spec_UpgradePolicy s = ""))
          && ((RequiresTransientSubcluster vdb && bool_decide (spec_LicenseSecret s = ""))
              || bool_decide (spec_KSafety s = KSafety0))
  then false
  else vdb_version_from vdb OnlineUpgradeVersion.

Definition offlineUpgradeAllowed (vdb : VerticaDB) : bool := negb (onlineUpgradeAllowed vdb).

Definition OnDeleteStatefulSetStrategyType : string := "OnDelete".

(** The new image, and a strategy that leaves rescheduling to the operator *)
Definition set_sts_image (sts : StatefulSet) (image : string) : StatefulSet :=
  MkStatefulSet (sts_Meta sts)
    (set_update_strategy (set_spec_image (sts_Spec sts) image) OnDeleteStatefulSetStrategyType)
    (sts_StatusReplicas sts).

Definition has_old_image (vdb : VerticaDB) (image : string) : bool :=
  negb (bool_decide (image = spec_Image (vdb_Spec vdb))).

Section upgrade_manager.
Context `{Env} (StatusCondition : VerticaDBConditionType) (IsAllowedForUpgradePolicyFunc : VerticaDB → bool).

Definition isVDBImageDifferent (vdb : VerticaDB) : M (bool * option go_error) :=
  r ← FindStatefulSets vdb FindInVdb;
  match r with
  | Err e => mret (false, Some e)
  | Ok stss => mret (existsb (λ sts, has_old_image vdb (sts_Image sts)) stss, None)
  end.

(** The first result is [ContinuingUpgrade]. *)
Definition isUpgradeInProgress (vdb : VerticaDB) : bool * (bool * option go_error) :=
  let '(isSet, err) := IsConditionSet vdb StatusCondition in (isSet, (isSet, err)).

Definition IsUpgradeNeeded (vdb : VerticaDB) : M (bool * (bool * option go_error)) :=
  if bool_decide (spec_InitPolicy (vdb_Spec vdb) = CommunalInitPolicyScheduleOnly)
  then mret (false, (false, None))
  else
    let '(continuing, (ok, err)) := isUpgradeInProgress vdb in
    match ok, err with
    | false, None =>
        if negb (IsAllowedForUpgradePolicyFunc vdb) then mret (continuing, (false, None))
        else r ← isVDBImageDifferent vdb; mret (continuing, r)
    | _, _ => mret (continuing, (ok, err))
    end.

Definition toggleImageChangeInProgress (vdb : VerticaDB) (newVal : ConditionStatus)
    : M (VerticaDB * option go_error) :=
  u ← UpdateCondition vdb (MkVerticaDBCondition ImageChangeInProgress newVal ZeroTime);
  let '(vdb, err) := u in
  match err with
  | Some e => mret (vdb, Some e)
  | None => UpdateCondition vdb (MkVerticaDBCondition StatusCondition newVal ZeroTime)
  end.

Definition setUpgradeStatus (vdb : VerticaDB) (msg : string) : M (VerticaDB * option go_error) :=
  UpdateUpgradeStatus vdb msg.

Definition startUpgrade (continuing : bool) (vdb : VerticaDB)
    : M (VerticaDB * (Result * option go_error)) :=
  u ← toggleImageChangeInProgress vdb ConditionTrue;
  let '(vdb, err) := u in
  match err with
  | Some e => mret (vdb, (no_requeue, Some e))
  | None =>
      _ ← (if negb continuing then Event "UpgradeStart" else mret tt);
      mret (vdb, (no_requeue, None))
  end.

Definition finishUpgrade (vdb : VerticaDB) : M (VerticaDB * (Result * option go_error)) :=
  u ← setUpgradeStatus vdb "";
  let '(vdb, err) := u in
  match err with
  | Some e => mret (vdb, (no_requeue, Some e))
  | None =>
      u ← toggleImageChangeInProgress vdb ConditionFalse;
      let '(vdb, err) := u in
      match err with
      | Some e => mret (vdb, (no_requeue, Some e))
      | None => _ ← Event "UpgradeSucceeded"; mret (vdb, (no_requeue, None))
      end
  end.

Definition updateImageInStatefulSet (vdb : VerticaDB) (sts : StatefulSet) : M (bool * option go_error) :=
  if has_old_image vdb (sts_Image sts) then
    r ← UpdateSts (set_sts_image sts (spec_Image (vdb_Spec vdb)));
    match r with
    | Err e => mret (false, Some e)
    | Ok _ => mret (true, None)
    end
  else mret (false, None).

Fixpoint update_images (vdb : VerticaDB) (stss : list StatefulSet) (numStsChanged : Z)
    : M (Z * option go_error) :=
  match stss with
  | [] => mret (numStsChanged, None)
  | sts :: stss =>
      match ParseBool (default "" (sts_labels sts !! SubclusterTransientLabel)) with
      | None => mret (numStsChanged, Some (ErrMsg "strconv.ParseBool: invalid syntax"))
      | Some true => update_images vdb stss numStsChanged
      | Some false =>
          u ← updateImageInStatefulSet vdb sts;
          let '(stsUpdated, err) := u in
          match err with
          | Some e => mret (numStsChanged, Some e)
          | None => update_images vdb stss (if stsUpdated : bool then numStsChanged + 1 else numStsChanged)
          end
      end
  end.

Definition updateImageInStatefulSets (vdb : VerticaDB) : M (Z * (Result * option go_error)) :=
  r ← FindStatefulSets vdb FindExisting;
  match r with
  | Err e => mret (0%Z, (no_requeue, Some e))
  | Ok stss =>
      u ← update_images vdb stss 0;
      let '(n, err) := u in mret (n, (no_requeue, err))
  end.

(** Whether a pod is left alone because it is of another subcluster *)
Definition other_subcluster (scName : string) (pod : Pod) : bool :=
  negb (bool_decide (scName = "")) &&
  match om_Labels (pod_Meta pod) !! SubclusterNameLabel with
  | Some scNameFromLabel => negb (bool_decide (scNameFromLabel = scName))
  | None => false
  end.

Fixpoint delete_pods (vdb : VerticaDB) (scName : string) (pods : list Pod) (numPodsDeleted : Z)
    : M (Z * option go_error) :=
  match pods with
  | [] => mret (numPodsDeleted, None)
  | pod :: pods =>
      if other_subcluster scName pod then delete_pods vdb scName pods numPodsDeleted
      else if has_old_image vdb (pod_Image pod) then
        err ← DeletePod pod;
        match err with
        | Some e => mret (numPodsDeleted, Some e)
        | None => delete_pods vdb scName pods (numPodsDeleted + 1)
        end
      else delete_pods vdb scName pods numPodsDeleted
  end.

Definition deletePodsRunningOldImage (vdb : VerticaDB) (scName : string) : M (Z * option go_error) :=
  r ← FindPods vdb FindExisting;
  match r with
  | Err e => mret (0%Z, Some e)
  | Ok pods => delete_pods vdb scName pods 0
  end.

Definition manager_postNextStatusMsg (vdb : VerticaDB) (statusMsgs : list string) (msgIndex : nat)
    : M (VerticaDB * option go_error) :=
  match statusMsgs !! msgIndex with
  | None => mret (vdb, Some (ErrMsg "msgIndex out of bounds"))
  | Some msg =>
      if bool_decide (msgIndex = 0) then
        if bool_decide (st_UpgradeStatus (vdb_Status vdb) = "") then setUpgradeStatus vdb msg
        else mret (vdb, None)
      else if bool_decide (st_UpgradeStatus (vdb_Status vdb) ∈ take msgIndex statusMsgs)
      then setUpgradeStatus vdb msg else mret (vdb, None)
  end.

End upgrade_manager.

(** ** [offlineupgrade_reconcile.go] *)

Definition ClusterShutdownOfflineMsgIndex : nat := 0.
Definition ReschedulePodsOfflineMsgIndex : nat := 1.
Definition ClusterRestartOfflineMsgIndex : nat := 2.

Definition OfflineUpgradeStatusMsgs : list string :=
  ["Shutting down cluster"; "Rescheduling pods with new image"; "Restarting cluster with new image"].

(** What the steps share: the VerticaDB, the facts and [ContinuingUpgrade] *)
Record up_state : Type := MkUp { us_vdb : VerticaDB; us_pf : PodFacts; us_cont : bool }.

Section offline.
Context `{AtConfDeps} `{Env} `{PodOrder}.

Definition up_step : Type := up_state → M (outcome (up_state * (Result * option go_error))).

(** A step that only changes the VerticaDB, and one that only changes the facts *)
Definition vdb_step (f : VerticaDB → M (VerticaDB * (Result * option go_error))) : up_step := λ s,
  r ← f (us_vdb s);
  let '(vdb, res) := r in oret (MkUp vdb (us_pf s) (us_cont s), res).

Definition pf_step (f : PodFacts → M (PodFacts * (Result * option go_error))) : up_step := λ s,
  r ← f (us_pf s);
  let '(p, res) := r in oret (MkUp (us_vdb s) p (us_cont s), res).

Definition offline_postNextStatusMsg (msgIndex : nat) : up_step :=
  vdb_step (λ vdb, u ← manager_postNextStatusMsg vdb OfflineUpgradeStatusMsgs msgIndex;
                   let '(vdb, err) := u in mret (vdb, (no_requeue, err))).

Definition logEventIfOnlineUpgradeRequested : up_step := λ s,
  _ ← (if negb (us_cont s) && bool_decide (spec_UpgradePolicy (vdb_Spec (us_vdb s)) = OnlineUpgrade)
       then Event "IncompatibleOnlineUpgrade" else mret tt);
  oret (s, (no_requeue, None)).

Fixpoint any_old_image (vdb : VerticaDB) (pods : list PodFact) : M (bool * option go_error) :=
  match pods with
  | [] => mret (false, None)
  | pf :: pods =>
      if negb (upNode pf) then any_old_image vdb pods else
      r ← GetPod (pf_name pf);
      match r with
      | Err ErrNotFound => any_old_image vdb pods
      | Err _ => mret (false, Some (ErrMsg "error getting pod info"))
      | Ok pod => if has_old_image vdb (pod_Image pod) then mret (true, None) else any_old_image vdb pods
      end
  end.

Definition anyPodsRunningWithOldImage (vdb : VerticaDB) (p : PodFacts) : M (bool * option go_error) :=
  l ← range_pods 42 p; any_old_image vdb l.

Definition genStopDBCmd (vdb : VerticaDB) : list string :=
  ["-t"; "stop_db"; "-F"; "-d"; spec_DBName (vdb_Spec vdb)].

Definition offline_stopCluster (vdb : VerticaDB) (p : PodFacts) : M (Result * option go_error) :=
  l ← range_pods 43 p;
  let '(pf, found) := findRunningPod l in
  if negb found then mret (no_requeue, None) else
  l ← range_pods 44 p;
  if bool_decide (getUpNodeCount l = 0%Z) then mret (no_requeue, None) else
  a ← anyPodsRunningWithOldImage vdb p;
  match a with
  | (true, None) =>
      err ← exec_at_with_events (pf_name pf) (genStopDBCmd vdb)
              "ClusterShutdownStarted" "ClusterShutdownFailed" "ClusterShutdownSucceeded";
      mret (no_requeue, err)
  | (_, err) => mret (no_requeue, err)
  end.

Definition stopCluster : up_step := λ s,
  r ← offline_stopCluster (us_vdb s) (us_pf s); oret (s, r).

Definition offline_updateImageInStatefulSets : up_step := λ s,
  u ← updateImageInStatefulSets (us_vdb s);
  let '(numStsChanged, res) := u in
  let p := if bool_decide (0 < numStsChanged)%Z then Invalidate (us_pf s) else us_pf s in
  oret (MkUp (us_vdb s) p (us_cont s), res).

Definition offline_deletePods : up_step := λ s,
  d ← deletePodsRunningOldImage (us_vdb s) "";
  let '(numPodsDeleted, err) := d in
  let p := if bool_decide (0 < numPodsDeleted)%Z then Invalidate (us_pf s) else us_pf s in
  oret (MkUp (us_vdb s) p (us_cont s), (no_requeue, err)).

Definition checkForNewPods : up_step := λ s,
  r ← FindPods (us_vdb s) FindExisting;
  match r with
  | Err e => oret (s, (no_requeue, Some e))
  | Ok pods =>
      if negb (existsb (λ pod, negb (has_old_image (us_vdb s) (pod_Image pod))) pods)
      then oret (s, (requeue, None)) else oret (s, (no_requeue, None))
  end.

Definition checkVersion : up_step := λ s,
  if spec_IgnoreUpgradePath (vdb_Spec (us_vdb s)) then oret (s, (no_requeue, None))
  else
    r ←! VersionReconciler_Reconcile true findRunningPod (us_vdb s) (us_pf s);
    let '(vdb, p, res) := r in oret (MkUp vdb p (us_cont s), res).

Definition addPodAnnotations : up_step := λ s,
  pf_step (AnnotateAndLabelPodReconciler_Reconcile (us_vdb s)) s.

Definition runInstaller : up_step := λ s,
  r ←! InstallReconciler_Reconcile (us_vdb s) (us_pf s);
  let '(p, res) := r in oret (MkUp (us_vdb s) p (us_cont s), res).

Definition offline_restartCluster : up_step := λ s,
  r ← Restart.Reconcile true (us_vdb s) (us_pf s) (MkNamespacedName "" "");
  let '(vdb, p, res) := r in oret (MkUp vdb p (us_cont s), res).

Definition offline_addClientRoutingLabel : up_step := λ s,
  pf_step (ClientRoutingLabelReconciler_Reconcile PodRescheduleApplyMethod "" (us_vdb s)) s.

(** The steps in their order *)
Definition offline_funcs : list up_step :=
  [(λ s, vdb_step (startUpgrade OfflineUpgradeInProgress (us_cont s)) s);
   logEventIfOnlineUpgradeRequested;
   offline_postNextStatusMsg ClusterShutdownOfflineMsgIndex;
   stopCluster;
   offline_postNextStatusMsg ReschedulePodsOfflineMsgIndex;
   offline_updateImageInStatefulSets;
   offline_deletePods;
   checkForNewPods;
   checkVersion;
   offline_postNextStatusMsg ClusterRestartOfflineMsgIndex;
   addPodAnnotations;
   runInstaller;
   offline_restartCluster;
   offline_addClientRoutingLabel;
   vdb_step (finishUpgrade OfflineUpgradeInProgress)].

(** One step after the other until one aborts *)
Fixpoint run_upgrade (funcs : list up_step) (s : up_state)
    : M (outcome (up_state * (Result * option go_error))) :=
  match funcs with
  | [] => oret (s, (no_requeue, None))
  | fn :: funcs =>
      r ←! fn s;
      let '(s, (res, err)) := r in
      if IsReconcileAborted res err then
        match err with
        | None => oret (s, (MkResult false (GetUpgradeRequeueTime (us_vdb s)), None))
        | Some e => oret (s, (res, Some e))
        end
      else run_upgrade funcs s
  end.

Definition OfflineUpgradeReconciler_Reconcile (vdb : VerticaDB) (p : PodFacts)
    : M (outcome (up_state * (Result * option go_error))) :=
  n ← IsUpgradeNeeded OfflineUpgradeInProgress offlineUpgradeAllowed vdb;
  let '(continuing, (ok, err)) := n in
  match ok, err with
  | true, None =>
      c ← Collect vdb p;
      let '(p, err) := c in
      match err with
      | Some e => oret (MkUp vdb p continuing, (no_requeue, Some e))
      | None => run_upgrade offline_funcs (MkUp vdb p continuing)
      end
  | _, _ => oret (MkUp vdb p continuing, (no_requeue, err))
  end.

End offline.
