(* ===== verification/ObjRec.v ===== *)
(** * The object reconciler

    [pkg/controllers/vdb/obj_reconcile.go] and [pkg/controllers/vdb/k8s.go]:
    the services and statefulsets of the cluster are created, brought up to date
    with the VerticaDB and deleted.

    The calls of the client decode into an object of the caller.  When a fetch
    fails with another error than not found, the source goes on with the object
    that it had, which is empty. *)

From Stdlib Require Import Ascii.
From stdpp Require Import base gmap strings pretty sorting numbers list.
From S2P Require Import Prelude GoStrings GoRegexp K8s Types KObjects Webhook Version Effects Status Labels ScFinder PodFacts Builder Restart Install.

(** ** [k8s.go] *)

Section k8s.
Context `{Env}.

Definition empty_secret : Secret := MkSecret ∅.

Definition missing_object : M (Result * option go_error) :=
  _ ← Event "ObjectNotFound"; mret (requeue, None).

Definition could_not_read : go_error := ErrMsg "could not read the secret".

Definition getSecret (nm : NamespacedName) : M (Secret * (Result * option go_error)) :=
  r ← GetSecret nm;
  match r with
  | Ok s => mret (s, (no_requeue, None))
  | Err ErrNotFound => res ← missing_object; mret (empty_secret, res)
  | Err _ => mret (empty_secret, (no_requeue, Some could_not_read))
  end.

(** Nothing is read of a config map. *)
Definition getConfigMap (nm : NamespacedName) : M (Result * option go_error) :=
  r ← GetConfigMap nm;
  match r with
  | None => mret (no_requeue, None)
  | Some ErrNotFound => missing_object
  | Some _ => mret (no_requeue, Some could_not_read)
  end.

End k8s.

(** ** [obj_reconcile.go] *)

Inductive ObjReconcileModeType : Type :=
| ObjReconcileModeAll
| ObjReconcileModeIfNotFound.

#[global] Instance ObjReconcileModeType_eq_dec : EqDecision ObjReconcileModeType.
Proof. solve_decision. Defined.

(** *** Fields of services *)

Definition zero_Service : Service :=
  MkService "" "" ∅ None ∅ "" [] None "" "" false zero_opaque.

Definition set_svc_Annotations (s : Service) (a : option (gmap string string)) : Service :=
  MkService (svc_Name s) (svc_Namespace s) (svc_Labels s) a (svc_Selector s) (svc_Type s) (svc_Ports s)
    (svc_ExternalIPs s) (svc_LoadBalancerIP s) (svc_ClusterIP s) (svc_PublishNotReadyAddresses s) (svc_Rest s).

Definition set_svc_Labels (s : Service) (l : gmap string string) : Service :=
  MkService (svc_Name s) (svc_Namespace s) l (svc_Annotations s) (svc_Selector s) (svc_Type s) (svc_Ports s)
    (svc_ExternalIPs s) (svc_LoadBalancerIP s) (svc_ClusterIP s) (svc_PublishNotReadyAddresses s) (svc_Rest s).

Definition set_svc_Selector (s : Service) (l : gmap string string) : Service :=
  MkService (svc_Name s) (svc_Namespace s) (svc_Labels s) (svc_Annotations s) l (svc_Type s) (svc_Ports s)
    (svc_ExternalIPs s) (svc_LoadBalancerIP s) (svc_ClusterIP s) (svc_PublishNotReadyAddresses s) (svc_Rest s).

Definition set_svc_Type (s : Service) (t : string) : Service :=
  MkService (svc_Name s) (svc_Namespace s) (svc_Labels s) (svc_Annotations s) (svc_Selector s) t (svc_Ports s)
    (svc_ExternalIPs s) (svc_LoadBalancerIP s) (svc_ClusterIP s) (svc_PublishNotReadyAddresses s) (svc_Rest s).

Definition set_svc_Ports (s : Service) (p : list ServicePort) : Service :=
  MkService (svc_Name s) (svc_Namespace s) (svc_Labels s) (svc_Annotations s) (svc_Selector s) (svc_Type s) p
    (svc_ExternalIPs s) (svc_LoadBalancerIP s) (svc_ClusterIP s) (svc_PublishNotReadyAddresses s) (svc_Rest s).

Definition set_svc_ExternalIPs (s : Service) (l : option (list string)) : Service :=
  MkService (svc_Name s) (svc_Namespace s) (svc_Labels s) (svc_Annotations s) (svc_Selector s) (svc_Type s)
    (svc_Ports s) l (svc_LoadBalancerIP s) (svc_ClusterIP s) (svc_PublishNotReadyAddresses s) (svc_Rest s).

Definition set_svc_LoadBalancerIP (s : Service) (ip : string) : Service :=
  MkService (svc_Name s) (svc_Namespace s) (svc_Labels s) (svc_Annotations s) (svc_Selector s) (svc_Type s)
    (svc_Ports s) (svc_ExternalIPs s) ip (svc_ClusterIP s) (svc_PublishNotReadyAddresses s) (svc_Rest s).

(** [if exp != cur { updated = true; cur = exp }] for one field of [cur] *)
Definition merge_field {A} `{EqDecision A} (get : Service → A) (set : Service → A → Service)
    (exp : A) (u : bool * Service) : bool * Service :=
  if bool_decide (exp = get (snd u)) then u else (true, set (snd u) exp).

Definition clear_node_port (p : ServicePort) : ServicePort := MkServicePort (sp_Port p) (sp_Name p) 0.

Definition index_out_of_range : string := "index out of range".

(** The ports; the panic is that of an index into an empty slice. *)
Definition merge_ports (expSvc : Service) (sc : Subcluster) (u : bool * Service)
    : outcome (bool * Service) :=
  let '(updated, curSvc) := u in
  if bool_decide (svc_Type expSvc = "LoadBalancer") || bool_decide (svc_Type expSvc = "NodePort") then
    if bool_decide (sc_NodePort sc = 0%Z) then Ret u
    else
      match svc_Ports expSvc, svc_Ports curSvc with
      | e :: _, c :: _ =>
          if bool_decide (sp_NodePort e = sp_NodePort c) then Ret u
          else Ret (true, set_svc_Ports curSvc (svc_Ports expSvc))
      | _, _ => Panic index_out_of_range
      end
  else
    if existsb (λ p, negb (bool_decide (sp_NodePort p = 0%Z))) (svc_Ports curSvc)
    then Ret (true, set_svc_Ports curSvc (clear_node_port <$> svc_Ports curSvc))
    else Ret u.

(** The changed service, or [None] if nothing changed *)
Definition reconcileExtSvcFields (curSvc expSvc : Service) (sc : Subcluster)
    : outcome (option Service) :=
  let u := (false, curSvc) in
  let u := merge_field svc_Annotations set_svc_Annotations (svc_Annotations expSvc) u in
  let u := merge_field svc_Type set_svc_Type (svc_Type expSvc) u in
  match merge_ports expSvc sc u with
  | Panic m => Panic m
  | Ret u =>
      let u := merge_field svc_ExternalIPs set_svc_ExternalIPs (svc_ExternalIPs expSvc) u in
      let u := merge_field svc_LoadBalancerIP set_svc_LoadBalancerIP (svc_LoadBalancerIP expSvc) u in
      let u := merge_field svc_Selector set_svc_Selector (svc_Selector expSvc) u in
      let u := merge_field svc_Labels set_svc_Labels (svc_Labels expSvc) u in
      Ret (if fst u then Some (snd u) else None)
  end.

Definition reconcileHlSvcFields (curSvc expSvc : Service) : outcome (option Service) :=
  Ret (if bool_decide (svc_Labels expSvc = svc_Labels curSvc) then None
       else Some (set_svc_Labels curSvc (svc_Labels expSvc))).

(** *** The reconciler *)

(** The state: the VerticaDB, which building changes, and the facts *)
Record obj_state : Type := MkObj { ob_vdb : VerticaDB; ob_pf : PodFacts }.

Section objrec.
Context `{Env} `{AnnotationOrder} (deployNames : DeploymentNames).
Context (patchImageAllowed : bool) (mode : ObjReconcileModeType).

Definition createService (vdb : VerticaDB) (svc : Service) : M (option go_error) :=
  err ← SetControllerReference vdb;
  match err with
  | Some e => mret (Some e)
  | None => CreateService svc
  end.

Definition svc_nn (s : Service) : NamespacedName := MkNamespacedName (svc_Namespace s) (svc_Name s).

(** The part that deals with an existing object *)
Definition update_service (reconcileFieldsFunc : Service → Service → outcome (option Service))
    (expSvc curSvc : Service) : M (outcome (option go_error)) :=
  if bool_decide (mode = ObjReconcileModeIfNotFound) then oret None
  else
    match reconcileFieldsFunc curSvc expSvc with
    | Panic m => mret (Panic m)
    | Ret None => oret None
    | Ret (Some newSvc) =>
        u ← UpdateService newSvc;
        match u with
        | Ok _ => oret None
        | Err e => oret (Some e)
        end
    end.

Definition reconcileSvc (vdb : VerticaDB) (expSvc : Service) (svcName : NamespacedName)
    (reconcileFieldsFunc : Service → Service → outcome (option Service)) : M (outcome (option go_error)) :=
  r ← GetService svcName;
  match r with
  | Err ErrNotFound => err ← createService vdb expSvc; oret err
  | Err _ => update_service reconcileFieldsFunc expSvc zero_Service
  | Ok curSvc => update_service reconcileFieldsFunc expSvc curSvc
  end.

Definition reconcileExtSvc (vdb : VerticaDB) (expSvc : Service) (sc : Subcluster)
    : M (outcome (option go_error)) :=
  reconcileSvc vdb expSvc (svc_nn expSvc) (λ cur exp, reconcileExtSvcFields cur exp sc).

Definition reconcileHlSvc (vdb : VerticaDB) : M (outcome (option go_error)) :=
  let svcName := GenHlSvcName vdb in
  reconcileSvc vdb (BuildHlSvc svcName vdb) svcName reconcileHlSvcFields.

(** [for i := newStsSize; i < *sts.Spec.Replicas; i++] *)
Fixpoint check_orphans (vdb : VerticaDB) (p : PodFacts) (stsName : string) (ixs : list Z)
    : Result * option go_error :=
  match ixs with
  | [] => (no_requeue, None)
  | i :: ixs =>
      match Detail p !! GenPodNameFromSts vdb stsName i with
      | None => (no_requeue, Some (ErrMsg "could not find pod facts for pod"))
      | Some pf =>
          if isInstalled pf || dbExists pf then (requeue, None)
          else check_orphans vdb p stsName ixs
      end
  end.

Definition checkForOrphanAdmintoolsConfEntries (vdb : VerticaDB) (p : PodFacts) (newStsSize : Z)
    (sts : StatefulSet) : outcome (Result * option go_error) :=
  match sts_Replicas sts with
  | None => Panic nil_dereference
  | Some replicas =>
      if bool_decide (replicas ≤ newStsSize)%Z then Ret (no_requeue, None)
      else Ret (check_orphans vdb p (sts_name sts) (indices newStsSize (replicas - 1)))
  end.

Definition zero_StatefulSet : StatefulSet := bare_sts (MkObjectMeta "" "" ∅ ∅) None 0 "".

(** The current statefulset with the spec and labels of the expected one *)
Definition patched_sts (curSts expSts : StatefulSet) : StatefulSet :=
  let spec := if patchImageAllowed then sts_Spec expSts
              else set_spec_image (sts_Spec expSts) (sts_Image curSts) in
  let m := sts_Meta curSts in
  MkStatefulSet (MkObjectMeta (om_Name m) (om_Namespace m) (sts_labels expSts) (om_Annotations m))
    spec (sts_StatusReplicas curSts).

(** The part that deals with an existing object *)
Definition update_sts (vdb : VerticaDB) (p : PodFacts) (sc : Subcluster) (expSts curSts : StatefulSet)
    : M (outcome (obj_state * (Result * option go_error))) :=
  if bool_decide (mode = ObjReconcileModeIfNotFound) then oret (MkObj vdb p, (no_requeue, None))
  else
    match checkForOrphanAdmintoolsConfEntries vdb p (sc_Size sc) curSts with
    | Panic m => mret (Panic m)
    | Ret (res, err) =>
        if IsReconcileAborted res err then oret (MkObj vdb p, (res, err)) else
        u ← PatchSts (patched_sts curSts expSts);
        match u with
        | Err e => oret (MkObj vdb p, (no_requeue, Some e))
        | Ok newSts =>
            let p := if bool_decide (sts_Spec newSts = sts_Spec curSts) then p else Invalidate p in
            oret (MkObj vdb p, (no_requeue, None))
        end
    end.

Definition reconcileSts (s : obj_state) (sc : Subcluster)
    : M (outcome (obj_state * (Result * option go_error))) :=
  let nm := GenStsName (ob_vdb s) sc in
  let '(expSts, vdb) := BuildStsSpec nm (ob_vdb s) sc deployNames in
  let p := ob_pf s in
  r ← GetSts nm;
  match r with
  | Err ErrNotFound =>
      err ← SetControllerReference vdb;
      match err with
      | Some e => oret (MkObj vdb p, (no_requeue, Some e))
      | None =>
          err ← CreateSts expSts;
          oret (MkObj vdb (Invalidate p), (no_requeue, err))
      end
  | Err _ => update_sts vdb p sc expSts zero_StatefulSet
  | Ok curSts => update_sts vdb p sc expSts curSts
  end.

Definition checkForCreatedSubcluster (s : obj_state) (sc : Subcluster)
    : M (outcome (obj_state * (Result * option go_error))) :=
  if sc_IsTransient sc then reconcileSts s sc
  else
    let vdb := ob_vdb s in
    let expSvc := BuildExtSvc (GenExtSvcName vdb sc) vdb sc MakeSvcSelectorLabelsForServiceNameRouting in
    err ←! reconcileExtSvc vdb expSvc sc;
    match err with
    | Some e => oret (s, (no_requeue, Some e))
    | None => reconcileSts s sc
    end.

Fixpoint check_created (s : obj_state) (scs : list Subcluster)
    : M (outcome (obj_state * (Result * option go_error))) :=
  match scs with
  | [] => oret (s, (no_requeue, None))
  | sc :: scs =>
      r ←! checkForCreatedSubcluster s sc;
      let '(s, (res, err)) := r in
      if IsReconcileAborted res err then oret (s, (res, err)) else check_created s scs
  end.

Fixpoint delete_stss (vdb : VerticaDB) (p : PodFacts) (stss : list StatefulSet)
    : M (outcome (Result * option go_error)) :=
  match stss with
  | [] => oret (no_requeue, None)
  | sts :: stss =>
      match checkForOrphanAdmintoolsConfEntries vdb p 0 sts with
      | Panic m => mret (Panic m)
      | Ret (res, err) =>
          if IsReconcileAborted res err then oret (res, err) else
          err ← DeleteSts sts;
          match err with
          | Some e => oret (no_requeue, Some e)
          | None => delete_stss vdb p stss
          end
      end
  end.

Fixpoint delete_svcs (svcs : list Service) : M (option go_error) :=
  match svcs with
  | [] => mret None
  | svc :: svcs =>
      err ← DeleteService svc;
      match err with
      | Some e => mret (Some e)
      | None => delete_svcs svcs
      end
  end.

Definition checkForDeletedSubcluster (vdb : VerticaDB) (p : PodFacts)
    : M (outcome (Result * option go_error)) :=
  if bool_decide (mode = ObjReconcileModeIfNotFound) then oret (no_requeue, None)
  else
    r ← FindStatefulSets vdb FindNotInVdb;
    match r with
    | Err e => oret (no_requeue, Some e)
    | Ok stss =>
        d ←! delete_stss vdb p stss;
        let '(res, err) := d in
        if IsReconcileAborted res err then oret (res, err) else
        r ← FindServices vdb FindNotInVdb;
        match r with
        | Err e => oret (no_requeue, Some e)
        | Ok svcs => err ← delete_svcs svcs; oret (no_requeue, err)
        end
    end.

Fixpoint has_keys (secret : Secret) (keyNames : list string) : bool :=
  match keyNames with
  | [] => true
  | key :: keyNames => bool_decide (is_Some (secret_Data secret !! key)) && has_keys secret keyNames
  end.

Definition checkSecretHasKeys (vdb : VerticaDB) (secretName : string) (keyNames : list string)
    : M (Result * option go_error) :=
  r ← getSecret (GenNamespacedName vdb secretName);
  let '(secret, (res, err)) := r in
  if IsReconcileAborted res err then mret (res, err)
  else if has_keys secret keyNames then mret (no_requeue, None)
  else _ ← Event "MissingSecretKeys"; mret (requeue, None).

(** [if s != "" { if res, err := check; aborted { return } }] *)
Definition check_if_set (s : string) (check : M (Result * option go_error))
    (rest : M (Result * option go_error)) : M (Result * option go_error) :=
  if bool_decide (s = "") then rest
  else
    r ← check;
    let '(res, err) := r in
    if IsReconcileAborted res err then mret (res, err) else rest.

Definition checkMountedObjs (vdb : VerticaDB) : M (Result * option go_error) :=
  let s := vdb_Spec vdb in
  check_if_set (spec_LicenseSecret s)
    (r ← getSecret (GenNamespacedName vdb (spec_LicenseSecret s)); mret (snd r))
  (check_if_set (com_HadoopConfig (spec_Communal s))
    (getConfigMap (GenNamespacedName vdb (com_HadoopConfig (spec_Communal s))))
  (check_if_set (spec_KerberosSecret s)
    (checkSecretHasKeys vdb (spec_KerberosSecret s) [Base Krb5Conf; Base Krb5Keytab])
  (check_if_set (spec_SSHSecret s)
    (checkSecretHasKeys vdb (spec_SSHSecret s) SSHKeyPaths)
    (mret (no_requeue, None))))).

Definition ObjReconciler_Reconcile (vdb : VerticaDB) (p : PodFacts)
    : M (outcome (obj_state * (Result * option go_error))) :=
  c ← Collect vdb p;
  let '(p, err) := c in
  match err with
  | Some e => oret (MkObj vdb p, (no_requeue, Some e))
  | None =>
      m ← checkMountedObjs vdb;
      let '(res, err) := m in
      if IsReconcileAborted res err then oret (MkObj vdb p, (res, err)) else
      err ←! reconcileHlSvc vdb;
      match err with
      | Some e => oret (MkObj vdb p, (no_requeue, Some e))
      | None =>
          r ←! check_created (MkObj vdb p) (spec_Subclusters (vdb_Spec vdb));
          let '(s, (res, err)) := r in
          if IsReconcileAborted res err then oret (s, (res, err)) else
          d ←! checkForDeletedSubcluster (ob_vdb s) (ob_pf s);
          let '(res, err) := d in
          if IsReconcileAborted res err then oret (s, (res, err)) else oret (s, (no_requeue, None))
      end
  end.

End objrec.
