(* ===== verification/InitDB.v ===== *)
(** * Creation and revival of the database

    [pkg/controllers/vdb/init_db.go], [createdb_reconcile.go] and
    [revivedb_reconcile.go]; [pkg/license/license.go] and [pkg/cloud].  The
    interface [DatabaseInitializer] of the source is a class with an instance for
    each of the two reconcilers. *)

From Stdlib Require Import Ascii.
From stdpp Require Import base gmap strings pretty sorting numbers list.
From S2P Require Import Prelude GoStrings GoRegexp K8s Types Version KObjects Webhook Effects Status Labels ScFinder Atconf PodFacts Builder Restart Install Scaling ObjRec.

(** ** [pkg/cloud] *)

Definition CommunalAccessKeyName : string := "accesskey".
Definition CommunalSecretKeyName : string := "secretkey".
Definition AzureAccountName : string := "accountName".
Definition AzureBlobEndpoint : string := "blobEndpoint".
Definition AzureAccountKey : string := "accountKey".
Definition AzureSharedAccessSignature : string := "sharedAccessSignature".
Definition AzureDefaultProtocol : string := "HTTPS".

Definition IsEndpointBadError (op : string) : bool := Contains op "Unable to connect to endpoint".
Definition IsBucketNotExistError (op : string) : bool := Contains op "The specified bucket does not exist".

Record AzureCredential : Type := MkAzureCredential {
  ac_AccountName : string;
  ac_BlobEndpoint : string;
  ac_AccountKey : string;
  ac_SharedAccessSignature : string }.

Record AzureEndpointConfig : Type := MkAzureEndpointConfig {
  ae_AccountName : string;
  ae_BlobEndpoint : string;
  ae_Protocol : string;
  ae_IsMultiAccountEndpoint : bool }.

Definition zero_AzureCredential : AzureCredential := MkAzureCredential "" "" "" "".
Definition zero_AzureEndpointConfig : AzureEndpointConfig := MkAzureEndpointConfig "" "" "" false.

(** ** [license.go] *)

Section license.
Context `{Env}.

Definition GetPath (vdb : VerticaDB) : M (result string) :=
  let name := spec_LicenseSecret (vdb_Spec vdb) in
  if bool_decide (name = "") then mret (Ok CELicensePath)
  else
    r ← GetSecret (MkNamespacedName (vdb_Namespace vdb) name);
    match r with
    | Err e => mret (Err e)
    | Ok secret =>
        match sort_by (λ k, k) (map_to_list (secret_Data secret)).*1 with
        | [] => mret (Ok CELicensePath)
        | licenseName :: _ => mret (Ok (MountedLicensePath +:+ "/" +:+ licenseName))
        end
    end.

End license.

(** ** Text of the parameters for the communal storage

    The package [dedent], which removes the common indentation of lines, is
    [Dedent] of [AtConfDeps]. *)

Definition tab : string := String (ascii_of_nat 9) EmptyString.

(** A raw string literal that starts a new line for each of [lines] *)
Definition raw_text (indent : string) (lines : list string) (closing : string) : string :=
  newline +:+ foldr (λ l s, indent +:+ l +:+ newline +:+ s) closing lines.

(** [strings.TrimSpace] for ASCII spaces *)
Definition is_space (c : ascii) : bool :=
  bool_decide (nat_of_ascii c = 32 ∨ 9 ≤ nat_of_ascii c ≤ 13).

Fixpoint TrimLeftSpace (s : string) : string :=
  match s with
  | EmptyString => EmptyString
  | String c s' => if is_space c then TrimLeftSpace s' else s
  end.

Definition TrimSpace (s : string) : string := String.rev (TrimLeftSpace (String.rev (TrimLeftSpace s))).

Fixpoint ToUpper (s : string) : string :=
  match s with
  | EmptyString => EmptyString
  | String c s => String (upper_byte c) (ToUpper s)
  end.

Definition AWSRegionParm : string := "awsregion".
Definition GCloudRegionParm : string := "GCSRegion".

(** The first prefix of the list that the endpoint has is cut off. *)
Fixpoint strip_protocol (endpoint : string) (prefix : list string) : string :=
  match prefix with
  | [] => endpoint
  | pref :: prefix =>
      if HasPrefix endpoint pref then TrimSuffix (drop_str (String.length pref) endpoint) "/"
      else strip_protocol endpoint prefix
  end.

Definition getCommunalEndpoint (vdb : VerticaDB) : string :=
  strip_protocol (com_Endpoint (spec_Communal (vdb_Spec vdb))) ["https://"; "http://"].

Definition getEnableHTTPS (vdb : VerticaDB) : string :=
  if HasPrefix (com_Endpoint (spec_Communal (vdb_Spec vdb))) "https://" then "1" else "0".

Definition getCAFile (vdb : VerticaDB) : string :=
  let file := com_CaFile (spec_Communal (vdb_Spec vdb)) in
  if bool_decide (file = "") then "" else "SystemCABundlePath = " +:+ file.

Definition getRegion (vdb : VerticaDB) (parmName : string) : string :=
  let region := com_Region (spec_Communal (vdb_Spec vdb)) in
  parmName +:+ " = " +:+ (if bool_decide (region = "") then DefaultS3Region else region).

(** [([a-z]+)://] *)
Definition protocol_re : re := RSeq (RGroup 1 (RPlus (RSet is_lower))) (RLit "://").

(** The same followed by the rest of the line, as group 2 *)
Definition endpoint_re : re := RSeq protocol_re (RGroup 2 (RStar (RSet any_byte))).

Definition getEndpointProtocol (blobEndpoint : string) : string :=
  if bool_decide (blobEndpoint = "") then AzureDefaultProtocol
  else
    match find_submatch protocol_re blobEndpoint with
    | None => AzureDefaultProtocol
    | Some caps => ToUpper (group 1 caps)
    end.

Definition getEndpointHostPort (blobEndpoint : string) : string :=
  match find_submatch endpoint_re blobEndpoint with
  | None => blobEndpoint
  | Some caps => TrimSuffix (group 2 caps) "/"
  end.

Definition getHadoopConfDir (vdb : VerticaDB) : string :=
  if negb (bool_decide (com_HadoopConfig (spec_Communal (vdb_Spec vdb)) = ""))
  then "HadoopConfDir = " +:+ HadoopConfPath else "".

(** One element of a JSON object, left out when it is empty; [prefix] is the
    separator, which later elements inherit. *)
Definition json_element (name value : string) (acc : string * string) : string * string :=
  let '(text, elemPrefix) := acc in
  if bool_decide (value = "") then acc
  else (text +:+ elemPrefix +:+ dquote +:+ name +:+ dquote +:+ ": " +:+ dquote +:+ value +:+ dquote, ",").

Definition azureCredsJSON (c : AzureCredential) : string :=
  fst (json_element "sharedAccessSignature" (ac_SharedAccessSignature c)
        (json_element "accountKey" (ac_AccountKey c)
          (json_element "blobEndpoint" (ac_BlobEndpoint c)
            (json_element "accountName" (ac_AccountName c) ("[{", ""))))) +:+ "}]".

Definition azureConfigJSON (c : AzureEndpointConfig) : string :=
  fst (json_element "protocol" (ae_Protocol c)
        (json_element "blobEndpoint" (ae_BlobEndpoint c)
          (json_element "accountName" (ae_AccountName c) ("[{", "")))) +:+ "}]".

(** ** [init_db.go] *)

Section auth.
Context `{Env} `{AtConfDeps}.

Definition getCommunalCredsSecret (vdb : VerticaDB) : M (Secret * (Result * option go_error)) :=
  getSecret (GenCommunalCredSecretName vdb).

Definition wrong_key {A} (a : A) : M (A * (Result * option go_error)) :=
  _ ← Event "CommunalCredsWrongKey"; mret (a, (requeue, None)).

Definition getCommunalAuth (vdb : VerticaDB) : M (string * (Result * option go_error)) :=
  '(secret, (res, err)) ← getCommunalCredsSecret vdb;
  if IsReconcileAborted res err then mret ("", (res, err))
  else
    match secret_Data secret !! CommunalAccessKeyName with
    | None => wrong_key ""
    | Some accessKey =>
        match secret_Data secret !! CommunalSecretKeyName with
        | None => wrong_key ""
        | Some secretKey =>
            mret (TrimSuffix accessKey newline +:+ ":" +:+ TrimSuffix secretKey newline, (no_requeue, None))
        end
    end.

Definition getAzureAuth (vdb : VerticaDB)
    : M (AzureCredential * AzureEndpointConfig * (Result * option go_error)) :=
  let none := (zero_AzureCredential, zero_AzureEndpointConfig) in
  '(secret, (res, err)) ← getCommunalCredsSecret vdb;
  if IsReconcileAborted res err then mret (none, (res, err))
  else
    let accountName := secret_Data secret !! AzureAccountName in
    let blobEndpointRaw := secret_Data secret !! AzureBlobEndpoint in
    if bool_decide (accountName = None) && bool_decide (blobEndpointRaw = None) then wrong_key none
    else
      let blobEndpoint :=
        match blobEndpointRaw with Some raw => getEndpointHostPort raw | None => "" end in
      let accountKey := secret_Data secret !! AzureAccountKey in
      let sas := secret_Data secret !! AzureSharedAccessSignature in
      if Bool.eqb (bool_decide (accountKey = None)) (bool_decide (sas = None)) then wrong_key none
      else
        mret ((MkAzureCredential (default "" accountName) blobEndpoint (default "" accountKey) (default "" sas),
               MkAzureEndpointConfig (default "" accountName) blobEndpoint
                 (getEndpointProtocol (default "" blobEndpointRaw)) false),
              (no_requeue, None)).

Definition getS3AuthParmsContent (vdb : VerticaDB) : M (string * (Result * option go_error)) :=
  '(auth, (res, err)) ← getCommunalAuth vdb;
  if IsReconcileAborted res err then mret ("", (res, err))
  else
    mret (Dedent (raw_text (tab +:+ tab +:+ tab)
            ["awsauth = " +:+ auth; "awsendpoint = " +:+ getCommunalEndpoint vdb;
             "awsenablehttps = " +:+ getEnableHTTPS vdb; getRegion vdb AWSRegionParm; getCAFile vdb]
            (tab +:+ tab)), (no_requeue, None)).

Definition getHDFSAuthParmsContent (vdb : VerticaDB) : M (string * (Result * option go_error)) :=
  mret (TrimSpace (Dedent (raw_text (tab +:+ tab +:+ tab) [getHadoopConfDir vdb; getCAFile vdb]
                             (tab +:+ tab))), (no_requeue, None)).

Definition getKerberosAuthParmsContent (vdb : VerticaDB) : string :=
  let com := spec_Communal (vdb_Spec vdb) in
  Dedent (raw_text (tab +:+ tab +:+ tab)
    ["KerberosServiceName = " +:+ com_KerberosServiceName com; "KerberosRealm = " +:+ com_KerberosRealm com;
     "KerberosKeytabFile = " +:+ Krb5Keytab; "KerberosEnableKeytabPermissionCheck = 0"] tab).

Definition getGCloudAuthParmsContent (vdb : VerticaDB) : M (string * (Result * option go_error)) :=
  '(auth, (res, err)) ← getCommunalAuth vdb;
  if IsReconcileAborted res err then mret ("", (res, err))
  else
    mret (Dedent (raw_text (tab +:+ tab)
            ["GCSAuth = " +:+ auth; "GCSEndpoint = " +:+ getCommunalEndpoint vdb;
             "GCSEnableHttps = " +:+ getEnableHTTPS vdb; getRegion vdb GCloudRegionParm; getCAFile vdb]
            tab), (no_requeue, None)).

Definition getAzureAuthParmsContent (vdb : VerticaDB) : M (string * (Result * option go_error)) :=
  '((creds, config), (res, err)) ← getAzureAuth vdb;
  if IsReconcileAborted res err then mret ("", (res, err))
  else
    mret (Dedent (raw_text (tab +:+ "  ")
            ["AzureStorageCredentials = " +:+ azureCredsJSON creds;
             "AzureStorageEndpointConfig = " +:+ azureConfigJSON config; getCAFile vdb] tab),
          (no_requeue, None)).

Definition genCopyAuthFileCmd (content : string) : list string :=
  ["bash"; "-c"; "cat > " +:+ AuthParmsFile +:+ "<<< '" +:+ content +:+ "'"].

Definition copyAuthFile (atPod : NamespacedName) (content : string) : M (option go_error) :=
  r ← ExecInPod atPod (genCopyAuthFileCmd content);
  match exec_err r with
  | Some e => _ ← Event "AuthParmsCopyFailed"; mret (Some e)
  | None => mret None
  end.

Definition DefaultKerberosSupportedVersion : string := "v11.0.2".

Definition hasCompatibleVersionForKerberos (vdb : VerticaDB) : M Result :=
  match MakeInfoFromVdb vdb with
  | None => mret no_requeue
  | Some _ =>
      if vdb_version_from vdb DefaultKerberosSupportedVersion then mret no_requeue
      else _ ← Event "UnsupportedVerticaVersion"; mret requeue
  end.

(** The generator for the kind of communal storage *)
Definition contentGen (vdb : VerticaDB) : option (M (string * (Result * option go_error))) :=
  if IsS3 vdb then Some (getS3AuthParmsContent vdb)
  else if IsHDFS vdb then Some (getHDFSAuthParmsContent vdb)
  else if IsGCloud vdb then Some (getGCloudAuthParmsContent vdb)
  else if IsAzure vdb then Some (getAzureAuthParmsContent vdb)
  else None.

Definition ConstructAuthParms (vdb : VerticaDB) (atPod : NamespacedName) : M (Result * option go_error) :=
  match contentGen vdb with
  | None => mret (no_requeue, Some (ErrMsg "unknown communal storage type"))
  | Some gen =>
      '(content, (res, err)) ← gen;
      if IsReconcileAborted res err then mret (res, err)
      else if HasKerberosConfig vdb then
        res ← hasCompatibleVersionForKerberos vdb;
        if IsReconcileAborted res None then mret (res, None)
        else
          let indent := newline +:+ tab +:+ tab +:+ tab in
          err ← copyAuthFile atPod
            (Dedent (indent +:+ content +:+ indent +:+ getKerberosAuthParmsContent vdb));
          mret (no_requeue, err)
      else
        err ← copyAuthFile atPod content;
        mret (no_requeue, err)
  end.

Definition DestroyAuthParms (atPod : NamespacedName) : M (option go_error) :=
  r ← ExecInPod atPod ["rm"; AuthParmsFile];
  mret (exec_err r).

End auth.

(** The interface of the two ways to set up a database.  The VerticaDB is shared
    with the initializer; [preCmdSetup] may refresh it. *)
Class DatabaseInitializer : Type := {
  getPodList : VerticaDB → PodFacts → M (outcome (option (list PodFact)));
  genCmd : VerticaDB → list string → M (result (list string));
  execCmd : VerticaDB → NamespacedName → list string → M (outcome (Result * option go_error));
  preCmdSetup : VerticaDB → NamespacedName → M (outcome (VerticaDB * option go_error));
  postCmdCleanup : VerticaDB → M (Result * option go_error) }.

Definition getHostList (podList : list PodFact) : list string := podIP <$> podList.

Definition checkPodList (podList : list PodFact) : bool :=
  forallb (λ pod, isPodRunning pod && hasDCTableAnnotations pod) podList.

Section generic.
Context `{Env} `{PodOrder} `{AtConfDeps} `{DatabaseInitializer}.

Fixpoint cleanupLocalFilesInPods (vdb : VerticaDB) (podList : list PodFact) : M (option go_error) :=
  match podList with
  | [] => mret None
  | pod :: podList =>
      err ← cleanupLocalFiles vdb (pf_name pod);
      match err with
      | Some e => mret (Some e)
      | None => cleanupLocalFilesInPods vdb podList
      end
  end.

(** What the reconciler leaves behind: the shared VerticaDB and the facts *)
Definition init_result : Type := VerticaDB * PodFacts * (Result * option go_error).

(** After the command: the condition is set and the parameters are removed. *)
Definition finish_init (vdb : VerticaDB) (p : PodFacts) (atPod : NamespacedName) : M (outcome init_result) :=
  _ ← debugDumpAdmintoolsConf atPod;
  '(vdb, err) ← UpdateCondition vdb (MkVerticaDBCondition DBInitialized ConditionTrue ZeroTime);
  match err with
  | Some e => oret (vdb, p, (no_requeue, Some e))
  | None =>
      _ ← DestroyAuthParms atPod;
      r ← postCmdCleanup vdb;
      oret (vdb, Invalidate p, r)
  end.

(** The command, once its pods are known *)
Definition run_command (vdb : VerticaDB) (p : PodFacts) (atPod : NamespacedName) (podList : list PodFact)
    : M (outcome init_result) :=
  err ← cleanupLocalFilesInPods vdb podList;
  match err with
  | Some e => oret (vdb, p, (no_requeue, Some e))
  | None =>
      err ← changeDepotPermissions vdb podList;
      match err with
      | Some e => oret (vdb, p, (no_requeue, Some e))
      | None =>
          _ ← debugDumpAdmintoolsConf atPod;
          r ← genCmd vdb (getHostList podList);
          match r with
          | Err e => oret (vdb, p, (no_requeue, Some e))
          | Ok cmd =>
              r ←! execCmd vdb atPod cmd;
              let '(res, err) := r in
              if IsReconcileAborted res err then oret (vdb, p, (res, err))
              else finish_init vdb p atPod
          end
      end
  end.

Definition runInit (vdb : VerticaDB) (p : PodFacts) : M (outcome init_result) :=
  pods ← range_pods 50 p;
  let '(atPodFact, ok) := findPodToRunAdmintoolsOffline pods in
  if negb ok then oret (vdb, p, (requeue, None))
  else
    let atPod := pf_name atPodFact in
    '(res, err) ← ConstructAuthParms vdb atPod;
    if IsReconcileAborted res err then oret (vdb, p, (res, err))
    else
      r ←! preCmdSetup vdb atPod;
      let '(vdb, err) := r in
      match err with
      | Some e => oret (vdb, p, (no_requeue, Some e))
      | None =>
          l ←! getPodList vdb p;
          match l with
          | None => oret (vdb, p, (requeue, None))
          | Some podList =>
              if negb (checkPodList podList) then oret (vdb, p, (requeue, None))
              else run_command vdb p atPod podList
          end
      end.

Definition checkAndRunInit (vdb : VerticaDB) (p : PodFacts) : M (outcome init_result) :=
  '(p, err) ← Collect vdb p;
  match err with
  | Some e => oret (vdb, p, (no_requeue, Some e))
  | None =>
      pods ← range_pods 51 p;
      if negb (doesDBExist pods) then
        r ←! runInit vdb p;
        let '(vdb, p, (res, err)) := r in
        if IsReconcileAborted res err then oret (vdb, p, (res, err))
        else oret (vdb, p, (no_requeue, None))
      else oret (vdb, p, (no_requeue, None))
  end.

End generic.

(** [re.FindAllString(op, -1) != nil] *)
Definition matches (r : re) (op : string) : bool :=
  match find_submatch r op with Some _ => true | None => false end.

(** ** [createdb_reconcile.go] *)

Definition PostDBCreateSQLFile : string := "/home/dbadmin/post-db-create.sql".

Definition isCommunalPathNotEmpty : string → bool :=
  matches (RSeq (RLit "Communal location [") (RSeq (RPlus (RSet any_byte)) (RLit "] is not empty"))).

Definition isWrongRegion (op : string) : bool :=
  matches (RLit "You are trying to access your S3 bucket using the wrong region") op ||
  matches (RSeq (RLit "the region '") (RSeq (RPlus (RSet any_byte))
            (RSeq (RLit "' is wrong; expecting '") (RSeq (RPlus (RSet any_byte)) (RLit "'"))))) op.

Definition isKerberosAuthError : string → bool :=
  matches (RLit "An error occurred during kerberos authentication").

(** The webhook rejects a VerticaDB without a primary subcluster; one without
    subclusters is an index out of range. *)
Definition getFirstPrimarySubcluster (vdb : VerticaDB) : outcome Subcluster :=
  match list_find (λ sc, sc_IsPrimary sc = true) (spec_Subclusters (vdb_Spec vdb)) with
  | Some (_, sc) => Ret sc
  | None =>
      match spec_Subclusters (vdb_Spec vdb) with
      | sc :: _ => Ret sc
      | [] => Panic index_out_of_range
      end
  end.

Definition backslash : string := String (ascii_of_nat 92) EmptyString.

(** The SQL to run after [create_db] *)
Definition post_create_sql (vdb : VerticaDB) (sc : Subcluster) : string :=
  let q := backslash +:+ dquote in
  newline +:+ "     alter subcluster default_subcluster rename to " +:+ q +:+ sc_Name sc +:+ q +:+ ";"
  +:+ newline +:+ tab
  +:+ (if bool_decide (spec_KSafety (vdb_Spec vdb) = KSafety0)
       then "select set_preferred_ksafe(0);" +:+ newline else "")
  +:+ (if bool_decide (spec_EncryptSpreadComm (vdb_Spec vdb) = "") then ""
       else "alter database default set parameter EncryptSpreadComm = '"
            +:+ spec_EncryptSpreadComm (vdb_Spec vdb) +:+ "';" +:+ newline +:+ tab +:+ tab).

(** The facts of the pods [0 .. n-1] of a subcluster, if there is one for each *)
Fixpoint pods_of (vdb : VerticaDB) (p : PodFacts) (sc : Subcluster) (ixs : list Z) : option (list PodFact) :=
  match ixs with
  | [] => Some []
  | i :: ixs =>
      match Detail p !! GenPodName vdb sc i with
      | None => None
      | Some pf => cons pf <$> pods_of vdb p sc ixs
      end
  end.

Section createdb.
Context `{Env}.

Definition createdb_preCmdSetup (vdb : VerticaDB) (atPod : NamespacedName)
    : M (outcome (VerticaDB * option go_error)) :=
  match getFirstPrimarySubcluster vdb with
  | Panic m => mret (Panic m)
  | Ret sc =>
      r ← ExecInPod atPod ["bash"; "-c"; "cat > " +:+ PostDBCreateSQLFile +:+ "<<< " +:+ dquote
                           +:+ post_create_sql vdb sc +:+ dquote];
      match exec_err r with
      | Some e => oret (vdb, Some e)
      | None =>
          if bool_decide (spec_EncryptSpreadComm (vdb_Spec vdb) = "") then oret (vdb, None)
          else olift (UpdateCondition vdb (MkVerticaDBCondition VerticaRestartNeeded ConditionTrue ZeroTime))
      end
  end.

(** The pods are sorted with [sort.Slice], which may reorder pods with the same
    compat21 name; here they keep their order. *)
Definition createdb_getPodList (vdb : VerticaDB) (p : PodFacts) : M (outcome (option (list PodFact))) :=
  match getFirstPrimarySubcluster vdb with
  | Panic m => mret (Panic m)
  | Ret sc =>
      if bool_decide (sc_Size sc < 0)%Z then mret (Panic "makeslice: cap out of range")
      else
        match pods_of vdb p sc (indices 0 (sc_Size sc - 1)) with
        | None => oret None
        | Some podList =>
            let podList := sort_by compat21NodeName podList in
            _ ← checkShardToNodeRatio vdb sc;
            if bool_decide (spec_KSafety (vdb_Spec vdb) = KSafety0) then
              match podList with
              | [] => mret (Panic "slice bounds out of range")
              | pf :: _ => oret (Some [pf])
              end
            else oret (Some podList)
        end
  end.

Definition genCreateDBCmd (vdb : VerticaDB) (hostList : list string) (licPath : string) : list string :=
  ["-t"; "create_db"; "--skip-fs-checks"; "--hosts=" +:+ Join hostList ",";
   "--communal-storage-location=" +:+ GetCommunalPath vdb; "--communal-storage-params=" +:+ AuthParmsFile;
   "--sql=" +:+ PostDBCreateSQLFile; "--shard-count=" +:+ Itoa (spec_ShardCount (vdb_Spec vdb));
   "--depot-path=" +:+ loc_DepotPath (spec_Local (vdb_Spec vdb));
   "--database"; spec_DBName (vdb_Spec vdb); "--force-cleanup-on-failure"; "--noprompt";
   "--license"; licPath].

Definition createdb_genCmd (vdb : VerticaDB) (hostList : list string) : M (result (list string)) :=
  r ← GetPath vdb;
  match r with
  | Err e => mret (Err e)
  | Ok licPath => mret (Ok (genCreateDBCmd vdb hostList licPath))
  end.

(** The event for a failed [create_db], and whether it is a known problem, after
    which the reconciler waits *)
Definition createdb_failure (op : string) : string * bool :=
  if IsEndpointBadError op then ("S3EndpointIssue", true)
  else if IsBucketNotExistError op then ("S3BucketDoesNotExist", true)
  else if isCommunalPathNotEmpty op then ("CommunalPathIsNotEmpty", true)
  else if isWrongRegion op then ("S3WrongRegion", true)
  else if isKerberosAuthError op then ("KerberosAuthError", true)
  else ("CreateDBFailed", false).

Definition init_failed (failure : string * bool) (e : go_error) : M (outcome (Result * option go_error)) :=
  _ ← Event (fst failure);
  oret (if snd failure then (requeue, None) else (no_requeue, Some e)).

Definition createdb_execCmd (vdb : VerticaDB) (atPod : NamespacedName) (cmd : list string)
    : M (outcome (Result * option go_error)) :=
  _ ← Event "CreateDBStart";
  r ← ExecAdmintools atPod cmd;
  match exec_err r with
  | Some e => init_failed (createdb_failure (stdout r)) e
  | None =>
      match getFirstPrimarySubcluster vdb with
      | Panic m => mret (Panic m)
      | Ret _ => _ ← Event "CreateDBSucceeded"; oret (no_requeue, None)
      end
  end.

Definition createdb_postCmdCleanup (vdb : VerticaDB) : M (Result * option go_error) :=
  if bool_decide (spec_EncryptSpreadComm (vdb_Spec vdb) = "") then mret (no_requeue, None)
  else mret (requeue, None).

#[local] Instance createdb : DatabaseInitializer := {|
  getPodList := createdb_getPodList;
  genCmd := createdb_genCmd;
  execCmd := createdb_execCmd;
  preCmdSetup := createdb_preCmdSetup;
  postCmdCleanup := createdb_postCmdCleanup |}.

Definition CreateDBReconciler_Reconcile `{PodOrder} `{AtConfDeps} (vdb : VerticaDB) (p : PodFacts)
    : M (outcome init_result) :=
  if negb (bool_decide (spec_InitPolicy (vdb_Spec vdb) = CommunalInitPolicyCreate))
  then oret (vdb, p, (no_requeue, None))
  else checkAndRunInit vdb p.

End createdb.

(** ** [revivedb_reconcile.go] *)

(** Any byte: [.] after [(?s)] *)
Definition all_any : re := RStar (RSet (λ _, true)).

Definition isClusterLeaseNotExpired : string → bool :=
  matches (RSeq (RLit "the communal storage location") (RSeq all_any
    (RSeq (RLit "might still be in use") (RSeq all_any (RLit "cluster lease will expire"))))).

Definition isDatabaseNotFound : string → bool :=
  matches (RSeq (RLit "Could not copy file") (RSeq (RPlus (RSet (λ _, true))) (RSeq (RLit ": ")
    (RGroup 1 (RAlt (RLit "No such file or directory") (RAlt (RSeq all_any (RLit "FileNotFoundException"))
      (RAlt (RLit "File not found") (RSeq all_any (RLit "blob does not exist"))))))))).

Definition isPermissionDeniedError (op : string) : bool := Contains op "Permission Denied".

Definition isNodeCountMismatch (op : string) : bool :=
  Contains op "Error: Node count mismatch" || Contains op "Error: Primary node count mismatch".

Section revivedb.
Context `{Env}.

(** How many pods of each subcluster are left, by its index, and the pods so far *)
Record revive_state : Type := MkRevive { scPodCounts : list Z; rv_podList : list PodFact }.

Definition logBadReviveOrder : M unit := Event "ReviveOrderBad".

(** [addPodsFromSubcluster]; the loop runs [n] more times *)
Fixpoint addPodsFromSubcluster (vdb : VerticaDB) (p : PodFacts) (subclusterIndex : nat) (sc : Subcluster)
    (n : nat) (s : revive_state) : M (option revive_state) :=
  match n with
  | 0 => mret (Some s)
  | S n =>
      let podsLeft := default 0%Z (scPodCounts s !! subclusterIndex) in
      match Detail p !! GenPodName vdb sc (sc_Size sc - podsLeft) with
      | None => _ ← logBadReviveOrder; mret None
      | Some pf =>
          addPodsFromSubcluster vdb p subclusterIndex sc n
            (MkRevive (<[subclusterIndex := (podsLeft - 1)%Z]> (scPodCounts s)) (rv_podList s ++ [pf]))
      end
  end.

(** [podsToAdd] of an entry of the revive order: [PodCount] is an [int] that is
    cut to 32 bits. *)
Definition pods_to_add (podCount podsLeft : Z) : Z :=
  let podsToAdd := wrap32 podCount in
  if bool_decide (podsLeft < podsToAdd)%Z || bool_decide (podsToAdd ≤ 0)%Z then podsLeft else podsToAdd.

(** [l[i]] where [i] may be out of range *)
Definition lookup_index {A} (l : list A) (i : Z) : option A :=
  if bool_decide (i < 0)%Z then None else l !! Z.to_nat i.

Fixpoint add_revive_order (vdb : VerticaDB) (p : PodFacts) (order : list SubclusterPodCount) (s : revive_state)
    : M (option revive_state) :=
  match order with
  | [] => mret (Some s)
  | cur :: order =>
      match lookup_index (spec_Subclusters (vdb_Spec vdb)) (spc_SubclusterIndex cur) with
      | None => _ ← logBadReviveOrder; mret None
      | Some sc =>
          let i := Z.to_nat (spc_SubclusterIndex cur) in
          let podsLeft := default 0%Z (scPodCounts s !! i) in
          r ← addPodsFromSubcluster vdb p i sc (Z.to_nat (pods_to_add (spc_PodCount cur) podsLeft)) s;
          match r with
          | None => mret None
          | Some s => add_revive_order vdb p order s
          end
      end
  end.

(** The pods that the revive order leaves out *)
Fixpoint add_remaining (vdb : VerticaDB) (p : PodFacts) (i : nat) (scs : list Subcluster) (s : revive_state)
    : M (option revive_state) :=
  match scs with
  | [] => mret (Some s)
  | sc :: scs =>
      r ← addPodsFromSubcluster vdb p i sc (Z.to_nat (default 0%Z (scPodCounts s !! i))) s;
      match r with
      | None => mret None
      | Some s => add_remaining vdb p (S i) scs s
      end
  end.

Definition revivedb_getPodList (vdb : VerticaDB) (p : PodFacts) : M (outcome (option (list PodFact))) :=
  let scs := spec_Subclusters (vdb_Spec vdb) in
  r ← add_revive_order vdb p (spec_ReviveOrder (vdb_Spec vdb)) (MkRevive (sc_Size <$> scs) []);
  match r with
  | None => oret None
  | Some s =>
      r ← add_remaining vdb p 0 scs s;
      match r with
      | None => oret None
      | Some s => oret (Some (rv_podList s))
      end
  end.

Definition genReviveDBCmd (vdb : VerticaDB) (hostList : list string) : list string :=
  ["-t"; "revive_db"; "--hosts=" +:+ Join hostList ",";
   "--communal-storage-location=" +:+ GetCommunalPath vdb; "--communal-storage-params=" +:+ AuthParmsFile;
   "--database"; spec_DBName (vdb_Spec vdb)]
  ++ (if spec_IgnoreClusterLease (vdb_Spec vdb) then ["--ignore-cluster-lease"] else []).

Definition revivedb_genCmd (vdb : VerticaDB) (hostList : list string) : M (result (list string)) :=
  mret (Ok (genReviveDBCmd vdb hostList)).

Definition revivedb_failure (op : string) : string * bool :=
  if isClusterLeaseNotExpired op then ("ReviveDBClusterInUse", true)
  else if IsBucketNotExistError op then ("S3BucketDoesNotExist", true)
  else if IsEndpointBadError op then ("S3EndpointIssue", true)
  else if isDatabaseNotFound op then ("ReviveDBNotFound", true)
  else if isPermissionDeniedError op then ("ReviveDBPermissionDenied", true)
  else if isNodeCountMismatch op then ("ReviveDBNodeCountMismatch", true)
  else if isKerberosAuthError op then ("KerberosAuthError", true)
  else ("ReviveDBFailed", false).

Definition revivedb_execCmd (vdb : VerticaDB) (atPod : NamespacedName) (cmd : list string)
    : M (outcome (Result * option go_error)) :=
  _ ← Event "ReviveDBStart";
  r ← ExecAdmintools atPod cmd;
  match exec_err r with
  | Some e => init_failed (revivedb_failure (stdout r)) e
  | None => _ ← Event "ReviveDBSucceeded"; oret (no_requeue, None)
  end.

Definition revivedb_preCmdSetup (vdb : VerticaDB) (atPod : NamespacedName)
    : M (outcome (VerticaDB * option go_error)) := oret (vdb, None).

Definition revivedb_postCmdCleanup (vdb : VerticaDB) : M (Result * option go_error) :=
  mret (no_requeue, None).

#[local] Instance revivedb : DatabaseInitializer := {|
  getPodList := revivedb_getPodList;
  genCmd := revivedb_genCmd;
  execCmd := revivedb_execCmd;
  preCmdSetup := revivedb_preCmdSetup;
  postCmdCleanup := revivedb_postCmdCleanup |}.

Definition ReviveDBReconciler_Reconcile `{PodOrder} `{AtConfDeps} (vdb : VerticaDB) (p : PodFacts)
    : M (outcome init_result) :=
  if negb (bool_decide (spec_InitPolicy (vdb_Spec vdb) = CommunalInitPolicyRevive))
  then oret (vdb, p, (no_requeue, None))
  else checkAndRunInit vdb p.

End revivedb.
