(* ===== verification/StatusRec.v ===== *)
(** * Status, metrics and migration reconcilers

    [pkg/controllers/vdb/status_reconcile.go], the summary of
    [metrics_reconcile.go] and [upgradeoperator120_reconciler.go]. *)

From stdpp Require Import base gmap strings pretty sorting numbers list.
From S2P Require Import Prelude GoStrings K8s Types KObjects Effects Status Labels ScFinder PodFacts Restart Install.

(** ** [vdbstatus.Update] with an update function that makes calls

    The function may also panic; a panic ends the retries. *)
Section update.
Context `{Env}.

Definition UpdateM_attempt (updateFunc : VerticaDB → M (outcome (result VerticaDB))) (s : outcome VerticaDB)
    : M (outcome VerticaDB * option go_error) :=
  match s with
  | Panic m => mret (Panic m, None)
  | Ret vdb =>
      r ← GetVdb (ExtractNamespacedName vdb);
      match r with
      | Err e => mret (Ret vdb, Some e)
      | Ok vdb =>
          r ← updateFunc vdb;
          match r with
          | Panic m => mret (Panic m, None)
          | Ret (Err e) => mret (Ret vdb, Some e)
          | Ret (Ok vdbChg) =>
              if negb (bool_decide (vdb_Status vdb = vdb_Status vdbChg)) then
                let vdb := set_Status vdb (vdb_Status vdbChg) in
                r ← UpdateVdbStatus vdb;
                match r with
                | Err e => mret (Ret vdb, Some e)
                | Ok vdb' => mret (Ret vdb', None)
                end
              else mret (Ret vdb, None)
          end
      end
  end.

Definition UpdateM (vdb : VerticaDB) (updateFunc : VerticaDB → M (outcome (result VerticaDB)))
    : M (outcome (VerticaDB * option go_error)) :=
  '(o, err) ← RetryOnConflict (UpdateM_attempt updateFunc) (Ret vdb);
  mret (match o with Ret vdb => Ret (vdb, err) | Panic m => Panic m end).

(** It is [Update] when the function makes no calls. *)
Lemma UpdateM_pure vdb f t :
  UpdateM vdb (λ v, oret (f v)) t = (Ret (fst (Update vdb f t)), snd (Update vdb f t)).
Proof.
  unfold UpdateM, Update, RetryOnConflict, mbind, M_bind.
  assert (∀ v t, UpdateM_attempt (λ v, oret (f v)) (Ret v) t
    = (let '((v', e), t') := Update_attempt f v t in ((Ret v', e), t'))) as Ha.
  { intros v t1. unfold UpdateM_attempt, Update_attempt, GetVdb, UpdateVdbStatus, mbind, M_bind, call, oret, mret, M_ret.
    destruct (env_get_vdb _ _) as [w|e]; [|done]. destruct (f w) as [c|e]; [|done].
    case_bool_decide; simpl; [done|]. by destruct (env_update_vdb_status _ _). }
  set (g := UpdateM_attempt _) in *. clearbody g.
  assert (∀ n v t, retry_on_conflict n g (Ret v) t
    = (let '((v', e), t') := retry_on_conflict n (Update_attempt f) v t in ((Ret v', e), t'))) as Hr.
  { induction n as [|n IH]; intros v t1; [done|]. simpl. destruct n as [|n]; [apply Ha|].
    unfold mbind, M_bind. rewrite Ha. destruct (Update_attempt f v t1) as [[v' e] t2].
    destruct e as [[]|]; try done; apply IH. }
  rewrite Hr. by destruct (retry_on_conflict _ _ _ _) as [[v' e] t'].
Qed.

End update.

(** ** [status_reconcile.go] *)

Definition zero_VerticaDBPodStatus : VerticaDBPodStatus := MkVerticaDBPodStatus false false "" false false.
Definition zero_SubclusterStatus : SubclusterStatus := MkSubclusterStatus "" 0 0 0 0 [].

(** [for ok := true; ok; ok = int32(len(Detail)) < scSize { append }]; the body
    runs at least once, and at most [fuel + 1] times. *)
Fixpoint grow_detail (fuel : nat) (scSize : Z) (detail : list VerticaDBPodStatus) : list VerticaDBPodStatus :=
  let detail := detail ++ [zero_VerticaDBPodStatus] in
  match fuel with
  | 0 => detail
  | S fuel => if bool_decide (Z.of_nat (length detail) < scSize)%Z then grow_detail fuel scSize detail else detail
  end.

(** A negative size is out of range for the slice. *)
Definition resize_detail (scSize : Z) (detail : list VerticaDBPodStatus) : outcome (list VerticaDBPodStatus) :=
  let detail := grow_detail (Z.to_nat scSize) scSize detail in
  if bool_decide (scSize < Z.of_nat (length detail))%Z then
    if bool_decide (scSize < 0)%Z then Panic "slice bounds out of range"
    else Ret (take (Z.to_nat scSize) detail)
  else Ret detail.

(** The status of a pod from its fact *)
Definition pod_status (pf : PodFact) (old : VerticaDBPodStatus) : VerticaDBPodStatus :=
  MkVerticaDBPodStatus (isInstalled pf) (dbExists pf)
    (if bool_decide (vnodeName pf = "") then vps_VNodeName old else vnodeName pf)
    (upNode pf) (readOnly pf).

Definition fill_detail (vdb : VerticaDB) (p : PodFacts) (sc : Subcluster) (detail : list VerticaDBPodStatus)
    : list VerticaDBPodStatus :=
  imap (λ i old, match Detail p !! GenPodName vdb sc (Z.of_nat i) with
                 | None => old
                 | Some pf => pod_status pf old
                 end) detail.

Definition count_detail (flag : VerticaDBPodStatus → bool) (detail : list VerticaDBPodStatus) : Z :=
  foldl (λ n v, if flag v then (n + 1)%Z else n) 0%Z detail.

(** A status with the given detail and the counts refreshed *)
Definition counted_status (name : string) (detail : list VerticaDBPodStatus) : SubclusterStatus :=
  MkSubclusterStatus name (count_detail vps_Installed detail) (count_detail vps_AddedToDB detail)
    (count_detail vps_UpNode detail) (count_detail vps_ReadOnly detail) detail.

(** The counters have 32 bits. *)
Definition add_subcluster (stat : VerticaDBStatus) (sc : SubclusterStatus) : VerticaDBStatus :=
  MkVerticaDBStatus (wrap32 (st_InstallCount stat + scs_InstallCount sc))
    (wrap32 (st_AddedToDBCount stat + scs_AddedToDBCount sc))
    (wrap32 (st_UpNodeCount stat + scs_UpNodeCount sc)) (wrap32 (st_SubclusterCount stat + 1))
    (st_Subclusters stat) (st_Conditions stat) (st_UpgradeStatus stat).

Definition calculateClusterStatus (stat : VerticaDBStatus) : VerticaDBStatus :=
  foldl add_subcluster
    (MkVerticaDBStatus 0 0 0 0 (st_Subclusters stat) (st_Conditions stat) (st_UpgradeStatus stat))
    (st_Subclusters stat).

Definition set_status_subclusters (stat : VerticaDBStatus) (scs : list SubclusterStatus) : VerticaDBStatus :=
  MkVerticaDBStatus (st_InstallCount stat) (st_AddedToDBCount stat) (st_UpNodeCount stat)
    (st_SubclusterCount stat) scs (st_Conditions stat) (st_UpgradeStatus stat).

Section status.
Context `{Env}.

Definition getSubclusterSize (vdb : VerticaDB) (sc : Subcluster) : M (result Z) :=
  r ← GetSts (GenStsName vdb sc);
  match r with
  | Err ErrNotFound => mret (Ok (sc_Size sc))
  | Err _ => mret (Err (ErrMsg "could not fetch sts for subcluster"))
  | Ok sts => mret (Ok (if bool_decide (sc_Size sc < sts_StatusReplicas sts)%Z
                        then sts_StatusReplicas sts else sc_Size sc))
  end.

Definition resizeSubclusterStatus (vdb : VerticaDB) (sc : Subcluster) (curStat : SubclusterStatus)
    : M (outcome (result (list VerticaDBPodStatus))) :=
  r ← getSubclusterSize vdb sc;
  match r with
  | Err e => oret (Err e)
  | Ok scSize =>
      mret (match resize_detail scSize (scs_Detail curStat) with
            | Panic m => Panic m
            | Ret detail => Ret (Ok detail)
            end)
  end.

Definition calculateSubclusterStatus (vdb : VerticaDB) (p : PodFacts) (sc : Subcluster)
    (curStat : SubclusterStatus) : M (outcome (result SubclusterStatus)) :=
  r ←! resizeSubclusterStatus vdb sc curStat;
  match r with
  | Err e => oret (Err e)
  | Ok detail => oret (Ok (counted_status (sc_Name sc) (fill_detail vdb p sc detail)))
  end.

(** The loop over the subclusters; each gets a new status at the end of the list. *)
Fixpoint subcluster_statuses (vdb : VerticaDB) (p : PodFacts) (subclusters : list Subcluster)
    (acc : list SubclusterStatus) : M (outcome (result (list SubclusterStatus))) :=
  match subclusters with
  | [] => oret (Ok acc)
  | sc :: subclusters =>
      r ←! calculateSubclusterStatus vdb p sc zero_SubclusterStatus;
      match r with
      | Err _ => oret (Err (ErrMsg "failed to calculate subcluster status"))
      | Ok stat => subcluster_statuses vdb p subclusters (acc ++ [stat])
      end
  end.

Definition refreshStatus (p : PodFacts) (subclusters : list Subcluster) (vdbChg : VerticaDB)
    : M (outcome (result VerticaDB)) :=
  r ←! subcluster_statuses vdbChg p subclusters [];
  match r with
  | Err e => oret (Err e)
  | Ok scs =>
      oret (Ok (set_Status vdbChg (calculateClusterStatus (set_status_subclusters (vdb_Status vdbChg) scs))))
  end.

Definition StatusReconciler_Reconcile (vdb : VerticaDB) (p : PodFacts)
    : M (outcome (VerticaDB * PodFacts * (Result * option go_error))) :=
  '(p, err) ← Collect vdb p;
  match err with
  | Some e => oret (vdb, p, (no_requeue, Some e))
  | None =>
      r ← FindSubclusters vdb FindAll;
      match r with
      | Err e => oret (vdb, p, (no_requeue, Some e))
      | Ok subclusters =>
          r ←! UpdateM vdb (refreshStatus p subclusters);
          let '(vdb, err) := r in oret (vdb, p, (no_requeue, err))
      end
  end.

End status.

(** ** [metrics_reconcile.go] *)

(** The gauges of a subcluster; the counts are floats of small integers. *)
Record subclusterGaugeDetail : Type := MkGauge { podCount : Z; runningCount : Z; readyCount : Z }.

Definition count_pod (m : gmap string subclusterGaugeDetail) (pf : PodFact) : gmap string subclusterGaugeDetail :=
  let d := default (MkGauge 0 0 0) (m !! subcluster pf) in
  <[subcluster pf :=
      MkGauge (podCount d + 1)
        (if isPodRunning pf then runningCount d + 1 else runningCount d)
        (if upNode pf then readyCount d + 1 else readyCount d)]> m.

(** The pods in some order of the map of facts *)
Definition captureRawMetrics (vdb : VerticaDB) (pods : list PodFact) : gmap string subclusterGaugeDetail :=
  foldl count_pod ∅
    (filter (λ pf, is_Some (GenSubclusterMap vdb !! subcluster pf)) pods).

(** Setting the gauges is not a call to the cluster; it is in [Metrics]. *)
Definition MetricReconciler_Reconcile `{Env} (vdb : VerticaDB) (p : PodFacts)
    : M (PodFacts * (Result * option go_error)) :=
  '(p, err) ← Collect vdb p;
  match err with
  | Some e => mret (p, (no_requeue, Some e))
  | None => mret (p, (no_requeue, None))
  end.

(** ** [upgradeoperator120_reconciler.go] *)

Definition created_by_old_operator (sts : StatefulSet) : bool :=
  match om_Labels (sts_Meta sts) !! OperatorVersionLabel with
  | None => false
  | Some opVer => bool_decide (opVer ∈ [OperatorVersion120; OperatorVersion110; OperatorVersion100])
  end.

Fixpoint delete_old_sts `{Env} (stss : list StatefulSet) : M (Result * option go_error) :=
  match stss with
  | [] => mret (no_requeue, None)
  | sts :: stss =>
      if created_by_old_operator sts then
        _ ← Event "OperatorUpgrade";
        err ← DeleteSts sts;
        match err with
        | Some e => mret (no_requeue, Some e)
        | None => delete_old_sts stss
        end
      else delete_old_sts stss
  end.

Definition UpgradeOperator120Reconciler_Reconcile `{Env} (vdb : VerticaDB) : M (Result * option go_error) :=
  r ← FindStatefulSets vdb FindExisting;
  match r with
  | Err e => mret (no_requeue, Some e)
  | Ok stss => delete_old_sts stss
  end.
