(* ===== verification/Online.v ===== *)
(** * Upgrading the server online

    [pkg/controllers/vdb/onlineupgrade_reconciler.go].  The subclusters are
    upgraded one kind after the other while a transient subcluster, or another
    one, takes the traffic.  [TransientSc] points into an array that later fetches
    of the VerticaDB replace, so it is a value here. *)

From Stdlib Require Import Ascii.
From stdpp Require Import base gmap strings pretty sorting numbers list.
From S2P Require Import Prelude GoStrings GoRegexp K8s Types Version KObjects Effects Status Labels ScFinder Atconf PodFacts Builder Restart Install Scaling Upgrade ObjRec.

Record on_state : Type := MkOn {
  on_vdb : VerticaDB;
  on_pf : PodFacts;
  on_cont : bool;
  TransientSc : option Subcluster;
  PrimaryImages : list string;
  StatusMsgs : list string;
  MsgIndex : Z }.

Definition set_on_vdb (s : on_state) (v : VerticaDB) : on_state :=
  MkOn v (on_pf s) (on_cont s) (TransientSc s) (PrimaryImages s) (StatusMsgs s) (MsgIndex s).
Definition set_on_pf (s : on_state) (p : PodFacts) : on_state :=
  MkOn (on_vdb s) p (on_cont s) (TransientSc s) (PrimaryImages s) (StatusMsgs s) (MsgIndex s).
Definition set_TransientSc (s : on_state) (sc : option Subcluster) : on_state :=
  MkOn (on_vdb s) (on_pf s) (on_cont s) sc (PrimaryImages s) (StatusMsgs s) (MsgIndex s).
Definition set_PrimaryImages (s : on_state) (l : list string) : on_state :=
  MkOn (on_vdb s) (on_pf s) (on_cont s) (TransientSc s) l (StatusMsgs s) (MsgIndex s).
Definition set_msgs (s : on_state) (l : list string) (i : Z) : on_state :=
  MkOn (on_vdb s) (on_pf s) (on_cont s) (TransientSc s) (PrimaryImages s) l i.

Definition reconcile_result : Type := Result * option go_error.

Definition ok_result : reconcile_result := (no_requeue, None).

(** ** Pure parts *)

Definition fetchOldImage (s : on_state) : option string :=
  snd <$> list_find (λ i, i ≠ spec_Image (vdb_Spec (on_vdb s))) (PrimaryImages s).

Definition cache_image (images : list string) (sts : StatefulSet) : list string :=
  if bool_decide (default "" (sts_labels sts !! SubclusterTypeLabel) = PrimarySubclusterType) then
    if bool_decide (sts_Image sts ∈ images) then images else images ++ [sts_Image sts]
  else images.

Definition isMatchingSubclusterType (sts : StatefulSet) (scType : string) : result bool :=
  match ParseBool (default "" (sts_labels sts !! SubclusterTransientLabel)) with
  | None => Err (ErrMsg "could not parse label")
  | Some isTransient =>
      Ok (bool_decide (default "" (sts_labels sts !! SubclusterTypeLabel) = scType) && negb isTransient)
  end.

Definition sts_sc_name (sts : StatefulSet) : string := default "" (sts_labels sts !! SubclusterNameLabel).

(** [None] is a nil pointer; without a subcluster in the spec the first one is
    out of range. *)
Definition pickDefaultSubclusterForTemporaryRouting (vdb : VerticaDB) (offlineSc : Subcluster)
    : outcome (option Subcluster) :=
  let scs := spec_Subclusters (vdb_Spec vdb) in
  if sc_IsPrimary offlineSc then
    match list_find (λ sc, sc_IsPrimary sc = false) scs with
    | Some (_, sc) => Ret (Some sc)
    | None => match scs with sc :: _ => Ret (Some sc) | [] => Panic index_out_of_range end
    end
  else Ret (snd <$> list_find (λ sc, sc_Name sc ≠ sc_Name offlineSc) scs).

(** The loop over [TemporarySubclusterRouting.Names] *)
Fixpoint pick_named (scMap : gmap string Subcluster) (offline : string) (names : list string)
    (routingSc : option Subcluster) : option Subcluster :=
  match names with
  | [] => routingSc
  | routeName :: names =>
      match scMap !! routeName with
      | None => pick_named scMap offline names routingSc
      | Some sc =>
          if negb (bool_decide (routeName = offline)) then Some sc
          else pick_named scMap offline names (Some sc)
      end
  end.

(** [for i := len - 1; i >= 0; i-- { if IsTransient { remove i } }] *)
Definition remove_transient (scs : list Subcluster) : list Subcluster :=
  filter (λ sc, sc_IsTransient sc = false) scs.

Definition base_msgs : list string :=
  ["Creating transient secondary subcluster"; "Draining primary subclusters";
   "Recreating pods for primary subclusters"; "Checking if new version is compatible";
   "Adding annotations to pods"; "Running installer"; "Waiting for secondary nodes to become read-only";
   "Restarting vertica in primary subclusters"].

Definition secondary_msgs (scName : string) : list string :=
  ["Draining secondary subcluster '" +:+ scName +:+ "'";
   "Recreating pods for secondary subcluster '" +:+ scName +:+ "'";
   "Restarting vertica in secondary subcluster '" +:+ scName +:+ "'"].

Definition idle_sql (scName : string) : string :=
  "select count(session_id) sessions from v_monitor.sessions join v_catalog.subclusters using (node_name)"
  +:+ " where session_id not in (select session_id from current_session)"
  +:+ "       and subcluster_name = '" +:+ scName +:+ "';".

(** ** Steps *)

Section online.
Context `{AtConfDeps} `{Env} `{PodOrder} `{AnnotationOrder} (deployNames : DeploymentNames).

Definition on_step : Type := on_state → M (outcome (on_state * reconcile_result)).

(** A step for one statefulset *)
Definition sts_step : Type := StatefulSet → on_step.

Definition proceed (s : on_state) : M (outcome (on_state * reconcile_result)) := oret (s, ok_result).

(** Reconcilers of other components as steps *)
Definition on_pf_step (f : VerticaDB → PodFacts → M (PodFacts * reconcile_result)) : on_step := λ s,
  '(p, res) ← f (on_vdb s) (on_pf s);
  oret (set_on_pf s p, res).

Definition on_pf_ostep (f : VerticaDB → PodFacts → M (outcome (PodFacts * reconcile_result))) : on_step := λ s,
  r ←! f (on_vdb s) (on_pf s);
  let '(p, res) := r in oret (set_on_pf s p, res).

Definition on_vdb_step (f : VerticaDB → M (VerticaDB * reconcile_result)) : on_step := λ s,
  '(v, res) ← f (on_vdb s);
  oret (set_on_vdb s v, res).

Definition on_obj_step (f : obj_state → M (outcome (obj_state * reconcile_result))) : on_step := λ s,
  r ←! f (MkObj (on_vdb s) (on_pf s));
  let '(o, res) := r in oret (set_on_pf (set_on_vdb s (ob_vdb o)) (ob_pf o), res).

(** The facts are collected first. *)
Definition collected (f : on_step) : on_step := λ s,
  '(p, err) ← Collect (on_vdb s) (on_pf s);
  let s := set_on_pf s p in
  match err with
  | Some e => oret (s, (no_requeue, Some e))
  | None => f s
  end.

Definition skipTransientSetup (s : on_state) : M bool :=
  if negb (RequiresTransientSubcluster (on_vdb s)) ||
     bool_decide (PrimaryImages s = [spec_Image (vdb_Spec (on_vdb s))])
  then mret true
  else
    pods ← range_pods 60 (on_pf s);
    mret (negb (snd (findPodToRunVsql false "" pods))).

Definition unless_skipped (f : on_step) : on_step := λ s,
  skip ← skipTransientSetup s;
  if skip : bool then proceed s else f s.

Definition with_transient (f : Subcluster → on_step) : on_step := λ s,
  match TransientSc s with
  | None => mret (Panic nil_dereference)
  | Some sc => f sc s
  end.

Definition cachePrimaryImages (s : on_state) : M (on_state * option go_error) :=
  r ← FindStatefulSets (on_vdb s) FindExisting;
  match r with
  | Err e => mret (s, Some e)
  | Ok stss => mret (set_PrimaryImages s (foldl cache_image (PrimaryImages s) stss), None)
  end.

Definition loadSubclusterState : on_step :=
  collected (λ s,
    let s := set_TransientSc s (FindTransientSubcluster (on_vdb s)) in
    '(s, err) ← cachePrimaryImages s;
    oret (s, (no_requeue, err))).

Fixpoint iterate_stss (scType : string) (processFunc : sts_step) (stss : list StatefulSet) : on_step := λ s,
  match stss with
  | [] => proceed s
  | sts :: stss =>
      match isMatchingSubclusterType sts scType with
      | Err e => oret (s, (no_requeue, Some e))
      | Ok false => iterate_stss scType processFunc stss s
      | Ok true =>
          r ←! processFunc sts s;
          let '(s, (res, err)) := r in
          if IsReconcileAborted res err then oret (s, (res, err)) else iterate_stss scType processFunc stss s
      end
  end.

Definition iterateSubclusterType (scType : string) (processFunc : sts_step) : on_step := λ s,
  r ← FindStatefulSets (on_vdb s) (Z.lor FindExisting FindSorted);
  match r with
  | Err e => oret (s, (no_requeue, Some e))
  | Ok stss => iterate_stss scType processFunc stss s
  end.

Definition precomputeStatusMsgs : on_step := λ s,
  let procFunc (sts : StatefulSet) (s : on_state) :=
    proceed (set_msgs s (StatusMsgs s ++ secondary_msgs (sts_sc_name sts)) (MsgIndex s)) in
  r ←! iterateSubclusterType SecondarySubclusterType procFunc (set_msgs s base_msgs (MsgIndex s));
  let '(s, (res, err)) := r in
  if IsReconcileAborted res err then oret (s, (res, err))
  else proceed (set_msgs s (StatusMsgs s ++ ["Destroying transient secondary subcluster"]) (-1)).

Definition postNextStatusMsg : on_step := λ s,
  let s := set_msgs s (StatusMsgs s) (MsgIndex s + 1) in
  on_vdb_step (λ vdb, '(vdb, err) ← manager_postNextStatusMsg vdb (StatusMsgs s) (Z.to_nat (MsgIndex s));
                      mret (vdb, (no_requeue, err))) s.

Definition postNextStatusMsgForSts : sts_step := λ _, postNextStatusMsg.

(** One attempt to add the transient subcluster; the answer of the update is
    decoded into the array that [TransientSc] points into. *)
Definition add_transient_attempt (transientSc : Subcluster) (s : on_state) : M (on_state * option go_error) :=
  r ← GetVdb (ExtractNamespacedName (on_vdb s));
  match r with
  | Err e => mret (s, Some e)
  | Ok vdb =>
      let s := set_on_vdb s vdb in
      match FindTransientSubcluster vdb with
      | Some otherSc => mret (set_TransientSc s (Some otherSc), None)
      | None =>
          let scs := spec_Subclusters (vdb_Spec vdb) in
          let vdb := set_Subclusters vdb (scs ++ [transientSc]) in
          r ← UpdateVdb vdb;
          match r with
          | Err e => mret (set_TransientSc (set_on_vdb s vdb) (Some transientSc), Some e)
          | Ok vdb' =>
              let stored := default transientSc (spec_Subclusters (vdb_Spec vdb') !! length scs) in
              mret (set_TransientSc (set_on_pf (set_on_vdb s vdb') (Invalidate (on_pf s))) (Some stored), None)
          end
      end
  end.

Definition addTransientToVdb : on_step := λ s,
  match TransientSc s with
  | Some _ => proceed s
  | None =>
      unless_skipped (λ s,
        match fetchOldImage s with
        | None => oret (s, (no_requeue, Some (ErrMsg "could not determine the old image name")))
        | Some oldImage =>
            '(s, err) ← RetryOnConflict (add_transient_attempt (BuildTransientSubcluster (on_vdb s) oldImage)) s;
            oret (s, (no_requeue, err))
        end) s
  end.

Definition createTransientSts : on_step :=
  unless_skipped (with_transient (λ sc,
    on_obj_step (λ o, reconcileSts deployNames false ObjReconcileModeAll o sc))).

Definition installTransientNodes : on_step := unless_skipped (on_pf_ostep InstallReconciler_Reconcile).

Definition addTransientSubcluster : on_step :=
  unless_skipped (collected (with_transient (λ sc s,
    res ← addMissingSubclusters (on_vdb s) (on_pf s) [sc];
    oret (s, res)))).

Definition addTransientNodes : on_step :=
  unless_skipped (collected (with_transient (λ sc,
    on_pf_step (λ vdb p, addnode_reconcileSubcluster vdb p sc)))).

Definition rebalanceTransientNodes : on_step :=
  unless_skipped (with_transient (λ sc, on_pf_step (RebalanceShardsReconciler_Reconcile (sc_Name sc)))).

Definition addClientRoutingLabelToTransientNodes : on_step :=
  unless_skipped (with_transient (λ sc,
    on_pf_step (ClientRoutingLabelReconciler_Reconcile AddNodeApplyMethod (sc_Name sc)))).

(** ** Routing *)

Definition getSubclusterForTemporaryRouting (s : on_state) (offlineSc : Subcluster)
    (scMap : gmap string Subcluster) : M (outcome (option Subcluster)) :=
  match TransientSc s with
  | Some transientSc =>
      r ← GetSts (GenStsName (on_vdb s) transientSc);
      match r with
      | Err _ => oret None
      | Ok _ => oret (Some transientSc)
      end
  | None =>
      match default [] (sel_Names (spec_TemporarySubclusterRouting (vdb_Spec (on_vdb s)))) with
      | [] => mret (pickDefaultSubclusterForTemporaryRouting (on_vdb s) offlineSc)
      | names => oret (pick_named scMap (sc_Name offlineSc) names None)
      end
  end.

(** The service with the selector that the traffic of [sc] should have *)
Definition routed_service (s : on_state) (sc : Subcluster) (scMap : gmap string Subcluster)
    (setTemporaryRouting : bool) (svc : Service) : M (outcome Service) :=
  if setTemporaryRouting then
    r ←! getSubclusterForTemporaryRouting s sc scMap;
    oret (match r with
          | Some routingSc => set_svc_Selector svc (MakeSvcSelectorLabelsForSubclusterNameRouting (on_vdb s) routingSc)
          | None => svc
          end)
  else oret (set_svc_Selector svc (MakeSvcSelectorLabelsForServiceNameRouting (on_vdb s) sc)).

Definition routeClientTraffic (s : on_state) (scName : string) (setTemporaryRouting : bool)
    : M (outcome (option go_error)) :=
  let scMap := GenSubclusterMap (on_vdb s) in
  match scMap !! scName with
  | None => oret (Some (ErrMsg "we are routing for a subcluster that isn't in the vdb"))
  | Some sc =>
      r ← GetService (GenExtSvcName (on_vdb s) sc);
      match r with
      | Err ErrNotFound => oret None
      | Err e => oret (Some e)
      | Ok svc =>
          svc ←! routed_service s sc scMap setTemporaryRouting svc;
          reconcileExtSvc ObjReconcileModeAll (on_vdb s) svc sc
      end
  end.

Definition isSubclusterIdle (s : on_state) (scName : string) : M reconcile_result :=
  pods ← range_pods 61 (on_pf s);
  let '(pf, ok) := findPodToRunVsql true scName pods in
  if negb ok then mret ok_result
  else
    r ← ExecVSQL (pf_name pf) ["-tAc"; idle_sql scName];
    match exec_err r with
    | Some e => mret (no_requeue, Some e)
    | None =>
        let active := anyActiveConnections (stdout r) in
        _ ← (if active then Event "DrainSubclusterRetry" else mret tt);
        mret (MkResult active 0, None)
    end.

(** ** Steps for one subcluster *)

Definition drainSubcluster : sts_step := λ sts s,
  if has_old_image (on_vdb s) (sts_Image sts) then
    let scName := sts_sc_name sts in
    err ←! routeClientTraffic s scName true;
    match err with
    | Some e => oret (s, (no_requeue, Some e))
    | None => res ← isSubclusterIdle s scName; oret (s, res)
    end
  else proceed s.

Definition recreateSubclusterWithNewImage : sts_step := λ sts s,
  '(stsChanged, err) ← updateImageInStatefulSet (on_vdb s) sts;
  match err with
  | Some e => oret (s, (no_requeue, Some e))
  | None =>
      let s := if stsChanged : bool then set_on_pf s (Invalidate (on_pf s)) else s in
      '(podsDeleted, err) ← deletePodsRunningOldImage (on_vdb s) (sts_sc_name sts);
      match err with
      | Some e => oret (s, (no_requeue, Some e))
      | None =>
          proceed (if bool_decide (0 < podsDeleted)%Z then set_on_pf s (Invalidate (on_pf s)) else s)
      end
  end.

(** [FindPodFunc]: a running pod of the subcluster *)
Definition find_version_pod (scName : string) : list PodFact → PodFact * bool :=
  find_pod (λ v, isPodRunning v && bool_decide (subcluster v = scName)).

Definition online_checkVersion : sts_step := λ sts s,
  if spec_IgnoreUpgradePath (vdb_Spec (on_vdb s)) then proceed s
  else
    r ←! VersionReconciler_Reconcile true (find_version_pod (sts_sc_name sts)) (on_vdb s) (on_pf s);
    let '(vdb, p, res) := r in oret (set_on_pf (set_on_vdb s vdb) p, res).

Definition online_addPodAnnotations : sts_step := λ _, on_pf_step AnnotateAndLabelPodReconciler_Reconcile.

Definition online_runInstaller : sts_step := λ _, on_pf_ostep InstallReconciler_Reconcile.

Definition waitForReadOnly : sts_step := λ sts s,
  pods ← range_pods 62 (on_pf s);
  if negb (bool_decide (countUpPrimaryNodes pods = 0%Z)) then proceed s
  else
    pods ← range_pods 63 (on_pf s);
    if bool_decide (countNotReadOnlyWithOldImage (sts_Image sts) pods = 0%Z) then proceed s
    else oret (s, (requeue, None)).

Definition bringSubclusterOnline : sts_step := λ sts s,
  '(vdb, p, (res, err)) ← Restart.Reconcile false (on_vdb s) (on_pf s) (MkNamespacedName "" "");
  let s := set_on_pf (set_on_vdb s vdb) p in
  if IsReconcileAborted res err then oret (s, (res, err))
  else
    let scName := sts_sc_name sts in
    r ←! on_pf_step (ClientRoutingLabelReconciler_Reconcile PodRescheduleApplyMethod scName) s;
    let '(s, (res, err)) := r in
    if IsReconcileAborted res err then oret (s, (res, err))
    else
      err ←! routeClientTraffic s scName false;
      oret (s, (no_requeue, err)).

(** One function after the other for the primaries, each for all of them *)
Definition primary_funcs : list sts_step :=
  [drainSubcluster; recreateSubclusterWithNewImage; online_checkVersion; online_addPodAnnotations;
   online_runInstaller; waitForReadOnly; bringSubclusterOnline].

(** Run steps until one aborts. *)
Fixpoint run_steps (funcs : list on_step) : on_step := λ s,
  match funcs with
  | [] => proceed s
  | fn :: funcs =>
      r ←! fn s;
      let '(s, (res, err)) := r in
      if IsReconcileAborted res err then oret (s, (res, err)) else run_steps funcs s
  end.

Definition restartPrimaries : on_step :=
  run_steps (primary_funcs ≫= λ fn, [postNextStatusMsg; iterateSubclusterType PrimarySubclusterType fn]).

Definition secondary_funcs : list sts_step :=
  [postNextStatusMsgForSts; drainSubcluster; postNextStatusMsgForSts; recreateSubclusterWithNewImage;
   postNextStatusMsgForSts; online_addPodAnnotations; online_runInstaller; bringSubclusterOnline].

Definition processSecondary : sts_step := λ sts, run_steps ((λ fn : sts_step, fn sts) <$> secondary_funcs).

Definition restartSecondaries : on_step := iterateSubclusterType SecondarySubclusterType processSecondary.

(** ** Removal of the transient subcluster *)

Definition remove_transient_attempt (s : on_state) : M (on_state * option go_error) :=
  r ← GetVdb (ExtractNamespacedName (on_vdb s));
  match r with
  | Err e => mret (s, Some e)
  | Ok vdb =>
      let s := set_on_vdb s vdb in
      let scs := spec_Subclusters (vdb_Spec vdb) in
      if negb (existsb sc_IsTransient scs) then mret (s, None)
      else
        let vdb := set_Subclusters vdb (remove_transient scs) in
        let s := set_TransientSc (set_on_pf (set_on_vdb s vdb) (Invalidate (on_pf s))) None in
        r ← UpdateVdb vdb;
        match r with
        | Err e => mret (s, Some e)
        | Ok vdb' => mret (set_on_vdb s vdb', None)
        end
  end.

Definition if_transient_required (f : on_step) : on_step := λ s,
  if negb (RequiresTransientSubcluster (on_vdb s)) then proceed s else f s.

Definition removeTransientFromVdb : on_step :=
  if_transient_required (λ s,
    '(s, err) ← RetryOnConflict remove_transient_attempt s;
    oret (s, (no_requeue, err))).

Definition removeClientRoutingLabelFromTransientNodes : on_step :=
  if_transient_required (on_pf_step (ClientRoutingLabelReconciler_Reconcile DelNodeApplyMethod "")).

Definition removeTransientSubclusters : on_step :=
  if_transient_required (on_pf_step DBRemoveSubclusterReconciler_Reconcile).

Definition uninstallTransientNodes : on_step :=
  if_transient_required (on_pf_ostep UninstallReconciler_Reconcile).

Definition deleteTransientSts : on_step :=
  if_transient_required (on_obj_step (λ o,
    ObjReconciler_Reconcile deployNames false ObjReconcileModeAll (ob_vdb o) (ob_pf o))).

(** ** The whole upgrade *)

Definition online_funcs : list on_step :=
  [(λ s, on_vdb_step (startUpgrade OnlineUpgradeInProgress (on_cont s)) s);
   loadSubclusterState;
   precomputeStatusMsgs;
   postNextStatusMsg;
   addTransientToVdb;
   createTransientSts;
   installTransientNodes;
   addTransientSubcluster;
   addTransientNodes;
   rebalanceTransientNodes;
   addClientRoutingLabelToTransientNodes;
   restartPrimaries;
   restartSecondaries;
   postNextStatusMsg;
   removeTransientFromVdb;
   removeClientRoutingLabelFromTransientNodes;
   removeTransientSubclusters;
   uninstallTransientNodes;
   deleteTransientSts;
   on_vdb_step (finishUpgrade OnlineUpgradeInProgress)].

Definition OnlineUpgradeReconciler_Reconcile (vdb : VerticaDB) (p : PodFacts)
    : M (outcome (on_state * reconcile_result)) :=
  '(continuing, (ok, err)) ← IsUpgradeNeeded OnlineUpgradeInProgress onlineUpgradeAllowed vdb;
  let s := MkOn vdb p continuing None [] [] 0 in
  match ok, err with
  | true, None =>
      r ←! run_steps online_funcs s;
      let '(s, (res, err)) := r in
      if IsReconcileAborted res err then
        match err with
        | None => oret (s, (MkResult false (GetUpgradeRequeueTime (on_vdb s)), None))
        | Some e => oret (s, (res, Some e))
        end
      else oret (s, ok_result)
  | _, _ => oret (s, (no_requeue, err))
  end.

End online.
