(* ===== verification/Controller.v ===== *)
(** * The VerticaDB controller

    [pkg/controllers/vdb/verticadb_controller.go] and [pkg/controllers/actor.go]:
    the sequence of reconcilers and the loop over them.  The reconcilers share the
    VerticaDB and the pod facts. *)

From stdpp Require Import base gmap strings pretty sorting numbers list.
From S2P Require Import Prelude GoStrings GoRegexp K8s Types Version KObjects Effects Status Labels ScFinder Atconf PodFacts Builder Restart Install Scaling Upgrade ObjRec InitDB StatusRec Online.

(** What the reconcilers share *)
Definition shared : Type := VerticaDB * PodFacts.

Section controller.
Context `{AtConfDeps} `{Env} `{PodOrder} `{AnnotationOrder} (deployNames : DeploymentNames).

(** [ReconcileActor] *)
Definition ReconcileActor : Type := shared → M (outcome (shared * reconcile_result)).

(** Reconcilers that leave the VerticaDB alone, with and without a panic *)
Definition facts_actor (f : VerticaDB → PodFacts → M (PodFacts * reconcile_result)) : ReconcileActor :=
  λ '(vdb, p), '(p, res) ← f vdb p; oret ((vdb, p), res).

Definition facts_oactor (f : VerticaDB → PodFacts → M (outcome (PodFacts * reconcile_result))) : ReconcileActor :=
  λ '(vdb, p), r ←! f vdb p; let '(p, res) := r in oret ((vdb, p), res).

(** Reconcilers that also refresh the VerticaDB *)
Definition full_actor (f : VerticaDB → PodFacts → M (VerticaDB * PodFacts * reconcile_result)) : ReconcileActor :=
  λ '(vdb, p), '(vdb, p, res) ← f vdb p; oret ((vdb, p), res).

Definition full_oactor (f : VerticaDB → PodFacts → M (outcome (VerticaDB * PodFacts * reconcile_result)))
    : ReconcileActor :=
  λ '(vdb, p), f vdb p.

Definition StatusActor : ReconcileActor := full_oactor StatusReconciler_Reconcile.

Definition MetricActor : ReconcileActor := facts_actor MetricReconciler_Reconcile.

Definition RoutingActor (method : ApplyMethodType) : ReconcileActor :=
  facts_actor (ClientRoutingLabelReconciler_Reconcile method "").

Definition ObjActor (mode : ObjReconcileModeType) : ReconcileActor := λ '(vdb, p),
  r ←! ObjReconciler_Reconcile deployNames false mode vdb p;
  let '(o, res) := r in oret ((ob_vdb o, ob_pf o), res).

Definition OfflineUpgradeActor : ReconcileActor := λ '(vdb, p),
  r ←! OfflineUpgradeReconciler_Reconcile vdb p;
  let '(s, res) := r in oret ((us_vdb s, us_pf s), res).

Definition OnlineUpgradeActor : ReconcileActor := λ '(vdb, p),
  r ←! OnlineUpgradeReconciler_Reconcile deployNames vdb p;
  let '(s, res) := r in oret ((on_vdb s, on_pf s), res).

Definition constructActors : list ReconcileActor :=
  [StatusActor;
   MetricActor;
   facts_actor (λ vdb p, res ← UpgradeOperator120Reconciler_Reconcile vdb; mret (p, res));
   OfflineUpgradeActor;
   OnlineUpgradeActor;
   ObjActor ObjReconcileModeIfNotFound;
   facts_actor AnnotateAndLabelPodReconciler_Reconcile;
   full_actor StopDBReconciler_Reconcile;
   full_actor (λ vdb p, Restart.Reconcile true vdb p (MkNamespacedName "" ""));
   MetricActor;
   StatusActor;
   RoutingActor PodRescheduleApplyMethod;
   RoutingActor DelNodeApplyMethod;
   facts_actor DrainNodeReconciler_Reconcile;
   facts_actor DBRemoveSubclusterReconciler_Reconcile;
   StatusActor;
   facts_oactor DBRemoveNodeReconciler_Reconcile;
   MetricActor;
   StatusActor;
   facts_oactor UninstallReconciler_Reconcile;
   StatusActor;
   ObjActor ObjReconcileModeAll;
   full_oactor (VersionReconciler_Reconcile false findRunningPod);
   facts_oactor InstallReconciler_Reconcile;
   StatusActor;
   full_oactor CreateDBReconciler_Reconcile;
   full_oactor ReviveDBReconciler_Reconcile;
   MetricActor;
   StatusActor;
   RoutingActor AddNodeApplyMethod;
   facts_actor DBAddSubclusterReconciler_Reconcile;
   MetricActor;
   StatusActor;
   facts_actor DBAddNodeReconciler_Reconcile;
   StatusActor;
   facts_actor (RebalanceShardsReconciler_Reconcile "");
   RoutingActor AddNodeApplyMethod].

(** The first result is the password; a secret without the key has none. *)
Definition GetSuperuserPassword (vdb : VerticaDB) : M (string * option go_error) :=
  let secretName := GenSUPasswdSecretName vdb in
  if bool_decide (nn_Name secretName = "") then mret ("", None)
  else
    r ← GetSecret secretName;
    match r with
    | Err e =>
        _ ← (match e with ErrNotFound => Event "SuperuserPasswordSecretNotFound" | _ => mret tt end);
        mret ("", Some e)
    | Ok secret => mret (default "" (secret_Data secret !! SuperuserPasswordKey), None)
    end.

(** The result when an actor aborts: a requeue takes the time of the spec.  The
    number is used as nanoseconds. *)
Definition abort_result (vdb : VerticaDB) (res : Result) : Result :=
  if (Requeue res || bool_decide (0 < RequeueAfter res)%Z) && bool_decide (0 < spec_RequeueTime (vdb_Spec vdb))%Z
  then MkResult false (spec_RequeueTime (vdb_Spec vdb)) else res.

Fixpoint run_reconcilers (actors : list ReconcileActor) (s : shared) : M (outcome (shared * reconcile_result)) :=
  match actors with
  | [] => oret (s, ok_result)
  | act :: actors =>
      r ←! act s;
      let '(s, (res, err)) := r in
      if IsReconcileAborted res err then oret (s, (abort_result (fst s) res, err))
      else
        match actors with
        | [] => oret (s, (res, err))
        | _ => run_reconcilers actors s
        end
  end.

(** The password goes to the runner of the commands in the pods. *)
Definition VerticaDBReconciler_Reconcile (req : NamespacedName) : M (outcome reconcile_result) :=
  r ← GetVdb req;
  match r with
  | Err ErrNotFound => oret ok_result
  | Err e => oret (no_requeue, Some e)
  | Ok vdb =>
      '(_, err) ← GetSuperuserPassword vdb;
      match err with
      | Some e => oret (no_requeue, Some e)
      | None =>
          r ←! run_reconcilers constructActors (vdb, MakePodFacts);
          oret (snd r)
      end
  end.

End controller.
