(* ===== verification/Frame.v ===== *)
(** * Which calls a reconciler can make

    Every call has a kind, and each reconciler makes only calls of the kinds in
    its row, whatever the cluster answers.  The safety theorems take from here
    that the reconcilers they do not look into cannot interfere. *)

From Stdlib Require Import Ascii.
From stdpp Require Import base gmap strings pretty sorting numbers list.
From S2P Require Import Prelude GoStrings GoRegexp K8s Types Webhook Version KObjects Effects Status Labels ScFinder Atconf PodFacts PodFactsSpec Builder Restart RestartSpec Install Scaling Upgrade ObjRec InitDB StatusRec Online Events.

Inductive kind : Type :=
| KEvent (reason : string) | KRead | KExec | KRemove | KVsql | KTool (tool : string) | KCopy | KUpdateVdb | KUpdateStatus | KAutoscaler
| KUpdateSts | KCreateSts | KPatchSts | KDeleteSts | KUpdatePod | KPatchPod | KDeletePod
| KCreateService | KUpdateService | KDeleteService.

#[global] Instance kind_eq_dec : EqDecision kind.
Proof. solve_decision. Defined.

(** The admintools command: [-t tool ...] *)
Definition tool_of (cmd : list string) : string := default "" (cmd !! 1).

(** [rm -r path] *)
Definition removes (cmd : list string) : bool := bool_decide (take 2 cmd = ["rm"; "-r"]).

(** Each reason of an event is a kind of its own, and so are the removal of a
    directory in a pod and each tool of admintools. *)
Definition kind_of (a : action) : kind :=
  match a with
  | AEvent reason => KEvent reason
  | AExecInPod _ cmd => if removes cmd then KRemove else KExec
  | AExecVSQL _ _ => KVsql
  | AExecAdmintools _ cmd => KTool (tool_of cmd)
  | ACopyToPod _ _ _ => KCopy
  | AUpdateVdb _ => KUpdateVdb
  | AUpdateVdbStatus _ => KUpdateStatus
  | AGetVas _ | AUpdateVas _ | AUpdateVasStatus _ => KAutoscaler
  | AUpdateSts _ => KUpdateSts
  | ACreateSts _ => KCreateSts
  | APatchSts _ => KPatchSts
  | ADeleteSts _ => KDeleteSts
  | AUpdatePod _ => KUpdatePod
  | APatchPod _ => KPatchPod
  | ADeletePod _ => KDeletePod
  | ACreateService _ => KCreateService
  | AUpdateService _ => KUpdateService
  | ADeleteService _ => KDeleteService
  | _ => KRead
  end.

Definition row : Type := list kind.

Definition within (K : row) (a : action) : Prop := kind_of a ∈ K.

#[global] Instance within_dec K a : Decision (within K a).
Proof. unfold within. apply _. Defined.

Definition row_le (K K' : row) : bool := forallb (λ k, bool_decide (k ∈ K')) K.

Lemma only_row {A} K K' (m : M A) : row_le K K' = true → only (within K) m → only (within K') m.
Proof.
  intros Hle. apply only_mono. intros a Ha. unfold within in *.
  pose proof (proj1 (forallb_forall _ _) Hle (kind_of a) (proj1 (list_elem_of_In _ _) Ha)) as Hk.
  by apply bool_decide_eq_true in Hk.
Qed.

(** ** Rows *)

Definition events (reasons : list string) : row := KEvent <$> reasons.

Definition read_row : row := [KRead; KExec; KVsql].
Definition remove_row : row := KRemove :: read_row.
Definition status_row : row := KUpdateStatus :: read_row.
Definition check_row : row := events ["UnsupportedVerticaVersion"] ++ read_row.
Definition version_row : row := KUpdateVdb :: events ["InvalidUpgradePath"] ++ check_row.
Definition annotate_row : row := KUpdatePod :: read_row.
Definition routing_row : row := KPatchPod :: read_row.
Definition copy_row : row := KCopy :: events ["ATConfPartiallyCopied"] ++ read_row.
Definition drain_row : row := events ["DrainNodeRetry"] ++ read_row.
Definition rebalance_row : row := events ["RebalanceShards"] ++ read_row.
Definition remove_subcluster_row : row :=
  KTool "db_remove_subcluster" :: events ["SubclusterRemoved"] ++ read_row.
Definition ratio_row : row := events ["SuboptimalNodeCount"] ++ read_row.
Definition remove_node_row : row :=
  KTool "db_remove_node" :: events ["RemoveNodesStart"; "RemoveNodesSucceeded"; "RemoveNodesFailed"] ++ ratio_row.
Definition add_subcluster_row : row := KTool "db_add_subcluster" :: events ["SubclusterAdded"] ++ ratio_row.
Definition add_node_row : row :=
  KTool "db_add_node" :: events ["AddNodeStart"; "AddNodeSucceeded"; "AddNodeLicenseFail"; "AddNodeFailed"] ++
  ratio_row ++ remove_row.
Definition stop_row : row :=
  KTool "stop_db" :: events ["StopDBStart"; "StopDBSucceeded"; "StopDBFailed"] ++ status_row.
Definition restart_row : row :=
  (KTool <$> ["start_db"; "restart_node"; "re_ip"; "list_allnodes"]) ++
  events ["NodeRestartStarted"; "NodeRestartFailed"; "NodeRestartSucceeded"; "ClusterRestartStarted";
          "ClusterRestartFailed"; "ClusterRestartSucceeded"; "ReipFailed"] ++ status_row.
Definition secrets_row : row := events ["ObjectNotFound"; "MissingSecretKeys"] ++ read_row.
Definition auth_row : row :=
  events ["CommunalCredsWrongKey"; "AuthParmsCopyFailed"; "UnsupportedVerticaVersion"] ++ secrets_row.
Definition init_row : row := KRemove :: KUpdateStatus :: auth_row.
Definition create_row : row :=
  KTool "create_db" ::
  events ["CreateDBStart"; "CreateDBSucceeded"; "CreateDBFailed"; "S3EndpointIssue"; "S3BucketDoesNotExist";
          "S3WrongRegion"; "CommunalPathIsNotEmpty"; "KerberosAuthError"] ++ ratio_row ++ init_row.
Definition revive_row : row :=
  KTool "revive_db" ::
  events ["ReviveDBStart"; "ReviveDBSucceeded"; "ReviveDBFailed"; "ReviveDBClusterInUse"; "ReviveDBNotFound";
          "ReviveDBPermissionDenied"; "ReviveDBNodeCountMismatch"; "ReviveOrderBad"; "S3EndpointIssue"; "S3BucketDoesNotExist"; "KerberosAuthError"] ++ init_row.
Definition migration_row : row := KDeleteSts :: events ["OperatorUpgrade"] ++ read_row.
Definition upgrade_row : row :=
  [KUpdateVdb; KUpdateSts; KDeletePod; KUpdatePod; KPatchPod; KCopy; KTool "stop_db"] ++
  events ["UpgradeStart"; "UpgradeSucceeded"; "IncompatibleOnlineUpgrade"; "ClusterShutdownStarted";
          "ClusterShutdownFailed"; "ClusterShutdownSucceeded"] ++ version_row ++ copy_row ++ restart_row.
Definition object_row : row :=
  [KCreateSts; KPatchSts; KDeleteSts; KCreateService; KUpdateService; KDeleteService] ++ secrets_row.
Definition online_row : row :=
  (KTool <$> ["db_add_subcluster"; "db_add_node"; "db_remove_subcluster"]) ++ events ["DrainSubclusterRetry"] ++
  KRemove :: upgrade_row ++ object_row ++ add_node_row ++ add_subcluster_row ++ remove_subcluster_row ++ rebalance_row.

Create HintDb frame.

(** Computations that make no call *)
Lemma only_pure {A} ok (m : M A) : (∀ t, snd (m t) = t) → only ok m.
Proof. intros Hm t. exists []. unfold wp. rewrite Hm. by split. Qed.

Lemma tool_start vdb pods : tool_of (genStartDBCommand vdb pods) = "start_db".
Proof. unfold genStartDBCommand. by repeat case_match. Qed.

Lemma tool_restart vdb nodes ips : tool_of (genRestartNodeCmd vdb nodes ips) = "restart_node".
Proof. unfold genRestartNodeCmd. by repeat case_match. Qed.

Lemma tool_reip vdb : tool_of (genReIPCommand vdb) = "re_ip".
Proof. unfold genReIPCommand. by repeat case_match. Qed.

Lemma tool_add_subcluster vdb sc : tool_of (genCreateSubclusterCmd vdb sc) = "db_add_subcluster".
Proof. unfold genCreateSubclusterCmd. by repeat case_match. Qed.

Create HintDb tools.

#[export] Hint Resolve tool_start tool_restart tool_reip tool_add_subcluster : tools.
#[export] Hint Extern 2 (tool_of _ = _) => reflexivity : tools.

Lemma within_tool K at_ cmd tool : tool_of cmd = tool → bool_decide (KTool tool ∈ K) = true → within K (AExecAdmintools at_ cmd).
Proof. intros Ht HK%bool_decide_eq_true. unfold within. simpl. by rewrite Ht. Qed.

Ltac row_tac :=
  idtac; lazymatch goal with
  | |- within _ (AExecAdmintools _ _) =>
      solve [eapply within_tool; [solve [eauto 1 with tools nocore]|vm_compute; reflexivity]]
  | |- _ => solve [apply (bool_decide_unpack _); vm_compute; exact I]
  end.

Ltac use_row := solve [eapply only_row; [|solve [eauto 2 with frame nocore]]; vm_compute; reflexivity].

(** Walk through a computation; parts that the hints know are not opened. *)
Ltac frame_step :=
  first
  [ lazymatch goal with
    | |- only _ (range_pods _ _) => by apply only_pure
    | |- only _ (range_scs _ _) => by apply only_pure
    | |- only _ Now => by apply only_pure
    | |- only _ (SetControllerReference _) => by apply only_pure
    end
  | use_row
  | lazymatch goal with
    | |- only _ (obind _ _) => apply only_obind; [|intros ?]
    | |- only _ (olift _) => unfold olift
    | |- only _ _ => only_step row_tac
    end ].

Ltac frame_auto := wp_calls; repeat frame_step.

Section frame.
Context `{D : AtConfDeps} `{E : Env} `{O : PodOrder}.

Lemma within_Collect vdb p : only (within read_row) (Collect vdb p).
Proof.
  eapply only_mono; [|apply Collect_calls]. intros []; simpl; try done; try (intros _; row_tac).
  intros Hc. unfold within. simpl. unfold removes. rewrite bool_decide_eq_false_2; [row_tac|].
  destruct cmd as [|c [|c' cmd]]; [done|done|]. simpl. intros [= -> _]. revert Hc. by apply (bool_decide_unpack _).
Qed.

Lemma within_dump at_ : only (within read_row) (debugDumpAdmintoolsConf at_).
Proof. unfold debugDumpAdmintoolsConf. frame_auto. Qed.

#[local] Hint Resolve within_Collect within_dump : frame.

Lemma within_exec_in_pods cmd pods : removes cmd = false → only (within read_row) (exec_in_pods cmd pods).
Proof.
  intros Hc. assert (∀ pod, within read_row (AExecInPod pod cmd)) as Hw.
  { intros pod. unfold within. simpl. rewrite Hc. row_tac. }
  induction pods; simpl; wp_calls; repeat first [apply only_call, Hw|frame_step]; eauto.
Qed.

#[local] Hint Extern 1 (only _ (exec_in_pods _ _)) => apply within_exec_in_pods; reflexivity : frame.

Lemma within_dumps pods : only (within read_row) (debugDumpAdmintoolsConfForPods pods).
Proof. induction pods; simpl; frame_auto; eauto. Qed.

Lemma within_remove_paths pod paths : only (within remove_row) (remove_paths pod paths).
Proof. induction paths; simpl; frame_auto; eauto. Qed.

Lemma within_Update vdb f : only (within status_row) (Update vdb f).
Proof. unfold Update, Update_attempt. frame_auto. Qed.

#[local] Hint Resolve within_dumps within_remove_paths within_Update : frame.

Lemma within_UpdateCondition vdb c : only (within status_row) (UpdateCondition vdb c).
Proof. unfold UpdateCondition. frame_auto. Qed.

#[local] Hint Resolve within_UpdateCondition : frame.

Lemma within_FindStatefulSets vdb flags : only (within read_row) (FindStatefulSets vdb flags).
Proof. unfold FindStatefulSets. frame_auto. Qed.

Lemma within_FindPods vdb flags : only (within read_row) (FindPods vdb flags).
Proof. unfold FindPods. frame_auto. Qed.

Lemma within_FindServices vdb flags : only (within read_row) (FindServices vdb flags).
Proof. unfold FindServices. frame_auto. Qed.

#[local] Hint Resolve within_FindStatefulSets within_FindPods within_FindServices : frame.

Lemma within_FindSubclusters vdb flags : only (within read_row) (FindSubclusters vdb flags).
Proof. unfold FindSubclusters. frame_auto. Qed.

#[local] Hint Resolve within_FindSubclusters : frame.

(** ** Version, annotations, routing, installation *)

Lemma within_cgroup vinf pod : only (within check_row) (logWarningIfVersionDoesNotSupportsCGroupV2 vinf pod).
Proof. unfold logWarningIfVersionDoesNotSupportsCGroupV2. frame_auto. Qed.

#[local] Hint Resolve within_cgroup : frame.

Lemma within_Version enforce find vdb p : only (within version_row) (VersionReconciler_Reconcile enforce find vdb p).
Proof.
  unfold VersionReconciler_Reconcile, reconcileVersion, getVersion, updateVDBVersion, version_attempt. frame_auto.
Qed.

Lemma within_annotate_pods anns labels pods p : only (within annotate_row) (annotate_pods anns labels pods p).
Proof.
  revert p. induction pods; intros p; simpl; [apply only_ret|].
  unfold applyAnnotationsAndLabels, annotate_attempt. frame_auto; eauto.
Qed.

#[local] Hint Resolve within_annotate_pods : frame.

Lemma within_Annotate vdb p : only (within annotate_row) (AnnotateAndLabelPodReconciler_Reconcile vdb p).
Proof. unfold AnnotateAndLabelPodReconciler_Reconcile, generateAnnotations. frame_auto. Qed.

Lemma within_routing_pods m scName pods saved : only (within routing_row) (routing_pods m scName pods saved).
Proof.
  revert saved. induction pods; intros saved; simpl; [apply only_ret|].
  unfold routing_reconcilePod, routing_attempt. frame_auto; eauto.
Qed.

#[local] Hint Resolve within_routing_pods : frame.

Lemma within_Routing m sc vdb p : only (within routing_row) (ClientRoutingLabelReconciler_Reconcile m sc vdb p).
Proof. unfold ClientRoutingLabelReconciler_Reconcile. frame_auto. Qed.

Lemma within_targets_in vdb p sc i n l : only (within read_row) (targets_in_subcluster vdb p sc i n l).
Proof. revert i l. induction n; intros i l; simpl; [apply only_ret|]. frame_auto; eauto. Qed.

#[local] Hint Resolve within_targets_in : frame.

Lemma within_install_targets vdb p scs l : only (within read_row) (install_targets vdb p scs l).
Proof. revert l. induction scs; intros l; simpl; [apply only_ret|]. frame_auto; eauto. Qed.

#[local] Hint Resolve within_install_targets : frame.

Lemma within_indicators vdb pods : only (within read_row) (createInstallIndicators vdb pods).
Proof. induction pods; simpl; [apply only_ret|]. unfold fetchCompat21NodeNum. frame_auto; eauto. Qed.

Lemma within_AddHosts vdb base ips : only (within read_row) (AddHosts vdb base ips).
Proof. unfold AddHosts, createAdmintoolsConfBase. frame_auto. Qed.

Lemma within_RemoveHosts base ips : only (within read_row) (RemoveHosts base ips).
Proof. unfold RemoveHosts, createAdmintoolsConfBase. frame_auto. Qed.

Lemma within_copy_to_rest base contents pods errs : only (within copy_row) (copy_to_rest base contents pods errs).
Proof. revert errs. induction pods; intros errs; simpl; [apply only_ret|]. frame_auto; eauto. Qed.

#[local] Hint Resolve within_indicators within_AddHosts within_RemoveHosts within_copy_to_rest : frame.

Lemma within_distribute vdb p contents : only (within copy_row) (distributeAdmintoolsConf vdb p contents).
Proof. unfold distributeAdmintoolsConf. frame_auto. Qed.

#[local] Hint Resolve within_distribute : frame.

Lemma within_eula pods : only (within copy_row) (accept_eula pods).
Proof. induction pods; simpl; [apply only_ret|]. unfold acceptEulaInPod. frame_auto; eauto. Qed.

Lemma within_config_dirs pods : only (within read_row) (check_config_dirs pods).
Proof. induction pods; simpl; [apply only_ret|]. unfold check_config_dir. frame_auto; eauto. Qed.

#[local] Hint Resolve within_eula within_config_dirs : frame.

Lemma within_Install vdb p : only (within copy_row) (InstallReconciler_Reconcile vdb p).
Proof.
  unfold InstallReconciler_Reconcile, analyzeFacts, acceptEulaIfMissing, checkConfigDir, addHostsToATConf,
    getInstallTargets. frame_auto.
Qed.

(** ** Restart *)

Lemma within_admintools_any p : only (within read_row) (range_admintools_any p).
Proof. unfold range_admintools_any. frame_auto. Qed.

Lemma within_kill pods : only (within read_row) (killOldProcesses pods).
Proof.
  unfold killOldProcesses. apply only_bind; [|intros []; apply only_ret]. generalize false.
  induction pods as [|pod pods IH]; intros b; simpl; [apply only_ret|]. frame_auto; eauto.
Qed.

#[local] Hint Resolve within_admintools_any within_kill : frame.

Lemma within_reip vdb at_ pods : only (within restart_row) (reipNodes vdb at_ pods).
Proof. unfold reipNodes, fetchOldIPsFromNode. frame_auto. Qed.

Lemma within_restartPods vdb p at_ pods : only (within restart_row) (restartPods vdb p at_ pods).
Proof.
  unfold restartPods, removePodsWithClusterUpState, fetchClusterNodeStatus, execRestartPods. frame_auto.
Qed.

Lemma within_nodes_end p : only (within read_row) (reconcileNodes_end p).
Proof. unfold reconcileNodes_end, shouldRequeueIfPodsNotRunning. frame_auto. Qed.

#[local] Hint Resolve within_reip within_restartPods within_nodes_end : frame.

Lemma within_nodes_reip vdb p at_ : only (within restart_row) (reconcileNodes_reip vdb p at_).
Proof. unfold reconcileNodes_reip. frame_auto. Qed.

#[local] Hint Resolve within_nodes_reip : frame.

Lemma within_Nodes b vdb p at_ : only (within restart_row) (reconcileNodes b vdb p at_).
Proof. unfold reconcileNodes. frame_auto. Qed.

Lemma within_Cluster b vdb p at_ : only (within restart_row) (reconcileCluster b vdb p at_).
Proof. unfold reconcileCluster, restartCluster. frame_auto. Qed.

#[local] Hint Resolve within_Nodes within_Cluster : frame.

Lemma within_Restart b vdb p at_ : only (within restart_row) (Restart.Reconcile b vdb p at_).
Proof. unfold Restart.Reconcile. frame_auto. Qed.

#[local] Hint Resolve within_Version within_Annotate within_Routing within_Install within_Restart : frame.

(** ** Scaling *)

Lemma within_ratio vdb sc : only (within ratio_row) (checkShardToNodeRatio vdb sc).
Proof. unfold checkShardToNodeRatio. frame_auto. Qed.

#[local] Hint Resolve within_ratio : frame.

Lemma within_scaledown K vdb f p scs :
  row_le read_row K = true → (∀ p sc i j, only (within K) (f p sc i j)) →
  only (within K) (scaledown_all vdb f p scs).
Proof.
  intros HK Hf.
  assert (∀ A (m : M A), only (within read_row) m → only (within K) m) as Hr.
  { intros A m. by apply only_row. }
  revert p. induction scs as [|sc scs IH]; intros p; simpl; [apply only_ret|].
  apply only_obind; [|intros [q [res err]]; destruct (IsReconcileAborted res err); [apply only_ret|apply IH]].
  unfold scaledownSubcluster. wp_calls. apply only_bind; [apply Hr; by repeat frame_step|].
  intros [sts|[]]; try apply only_ret. case_bool_decide; [|apply only_ret].
  apply only_bind; [apply Hr, within_Collect|]. intros [q [e|]]; [apply only_ret|].
  apply only_obind; [apply Hf|]. intros [q' [res [e|]]]; [apply only_ret|].
  destruct (IsReconcileAborted res None); apply only_ret.
Qed.

Lemma within_RemoveNode vdb p : only (within remove_node_row) (DBRemoveNodeReconciler_Reconcile vdb p).
Proof.
  unfold DBRemoveNodeReconciler_Reconcile. case_bool_decide; [apply only_ret|].
  apply only_bind; [use_row|]. intros [scs|e]; [|apply only_ret]. apply within_scaledown; [done|].
  intros q sc i j. unfold removeNodesInSubcluster, removenode_execATCmd, exec_at_with_events. frame_auto.
Qed.

Lemma within_Uninstall vdb p : only (within copy_row) (UninstallReconciler_Reconcile vdb p).
Proof.
  unfold UninstallReconciler_Reconcile. case_bool_decide; [apply only_ret|].
  apply only_bind; [use_row|]. intros [q [e|]]; [apply only_ret|]. apply only_bind; [by apply only_pure|].
  intros l. destruct (fst _); [apply only_ret|].
  apply only_bind; [use_row|]. intros [scs|e]; [|apply only_ret]. apply within_scaledown; [done|].
  intros q' sc i j. unfold uninstallPodsInSubcluster. frame_auto.
Qed.

Lemma within_removeSubcluster vdb at_ name : only (within remove_subcluster_row) (removeSubcluster vdb at_ name).
Proof. unfold removeSubcluster. frame_auto. Qed.

#[local] Hint Resolve within_removeSubcluster : frame.

Lemma within_remove_subclusters vdb at_ scs : only (within remove_subcluster_row) (remove_subclusters vdb at_ scs).
Proof. induction scs; simpl; [apply only_ret|]. frame_auto; eauto. Qed.

#[local] Hint Resolve within_remove_subclusters : frame.

Lemma within_RemoveSubcluster vdb p : only (within remove_subcluster_row) (DBRemoveSubclusterReconciler_Reconcile vdb p).
Proof.
  unfold DBRemoveSubclusterReconciler_Reconcile, removeExtraSubclusters, resetDefaultSubcluster,
    getDefaultSubcluster, changeDefaultSubcluster. frame_auto.
Qed.

Lemma within_drain_pods pods : only (within drain_row) (drain_pods pods).
Proof. induction pods; simpl; [apply only_ret|]. unfold drain_reconcilePod. frame_auto; eauto. Qed.

Lemma within_cleanup_pods vdb pods : only (within remove_row) (cleanup_pods vdb pods).
Proof. induction pods; simpl; [apply only_ret|]. unfold cleanupLocalFiles. frame_auto; eauto. Qed.

#[local] Hint Resolve within_drain_pods within_cleanup_pods : frame.

Lemma within_Drain vdb p : only (within drain_row) (DrainNodeReconciler_Reconcile vdb p).
Proof. unfold DrainNodeReconciler_Reconcile. frame_auto. Qed.

Lemma within_addnode_subcluster vdb p sc : only (within add_node_row) (addnode_reconcileSubcluster vdb p sc).
Proof.
  unfold addnode_reconcileSubcluster, runAddNode, runAddNodeForPod, changeDepotPermissions. wp_calls.
  repeat first [frame_step | apply only_call; destruct (isLicenseLimitError _); row_tac].
Qed.

#[local] Hint Resolve within_addnode_subcluster : frame.

Lemma within_addnode_subclusters vdb p scs : only (within add_node_row) (addnode_subclusters vdb p scs).
Proof. revert p. induction scs; intros p; simpl; [apply only_ret|]. frame_auto; eauto. Qed.

#[local] Hint Resolve within_addnode_subclusters : frame.

Lemma within_AddNode vdb p : only (within add_node_row) (DBAddNodeReconciler_Reconcile vdb p).
Proof. unfold DBAddNodeReconciler_Reconcile. frame_auto. Qed.

Lemma within_add_missing vdb at_ names scs : only (within add_subcluster_row) (add_missing vdb at_ names scs).
Proof. induction scs; simpl; [apply only_ret|]. unfold createSubcluster. frame_auto; eauto. Qed.

#[local] Hint Resolve within_add_missing : frame.

Lemma within_addMissing vdb p scs : only (within add_subcluster_row) (addMissingSubclusters vdb p scs).
Proof. unfold addMissingSubclusters, fetchSubclusters. frame_auto. Qed.

#[local] Hint Resolve within_addMissing : frame.

Lemma within_AddSubcluster vdb p : only (within add_subcluster_row) (DBAddSubclusterReconciler_Reconcile vdb p).
Proof. unfold DBAddSubclusterReconciler_Reconcile. frame_auto. Qed.

Lemma within_rebalance_all at_ p scs : only (within rebalance_row) (rebalance_all at_ p scs).
Proof. revert p. induction scs; intros p; simpl; [apply only_ret|]. unfold rebalanceShards. frame_auto; eauto. Qed.

#[local] Hint Resolve within_rebalance_all : frame.

Lemma within_Rebalance sc vdb p : only (within rebalance_row) (RebalanceShardsReconciler_Reconcile sc vdb p).
Proof. unfold RebalanceShardsReconciler_Reconcile. frame_auto. Qed.

Lemma within_StopDB vdb p : only (within stop_row) (StopDBReconciler_Reconcile vdb p).
Proof. unfold StopDBReconciler_Reconcile, stopVertica, stopdb_runATCmd, exec_at_with_events. frame_auto. Qed.

End frame.

#[export] Hint Extern 1 (only _ (exec_in_pods _ _)) => apply within_exec_in_pods; reflexivity : frame.

#[export] Hint Resolve within_Collect within_dump within_dumps within_remove_paths within_Update
  within_UpdateCondition within_FindStatefulSets within_FindPods within_FindServices
  within_FindSubclusters within_cgroup within_annotate_pods within_routing_pods within_targets_in
  within_install_targets within_indicators within_AddHosts within_RemoveHosts within_copy_to_rest
  within_distribute within_eula within_config_dirs within_admintools_any within_kill within_reip
  within_restartPods within_nodes_end within_nodes_reip within_Nodes within_Cluster within_Version
  within_Annotate within_Routing within_Install within_Restart within_ratio within_removeSubcluster
  within_remove_subclusters within_drain_pods within_cleanup_pods within_addnode_subcluster
  within_addnode_subclusters within_add_missing within_addMissing within_rebalance_all
  within_RemoveNode within_Uninstall within_RemoveSubcluster within_Drain within_AddNode
  within_AddSubcluster within_Rebalance within_StopDB : frame.

(** ** Objects, initialization and status *)

Section frame_objects.
Context `{D : AtConfDeps} `{E : Env} `{O : PodOrder} `{A : AnnotationOrder} (d : DeploymentNames).

Lemma within_getSecret nm : only (within secrets_row) (getSecret nm).
Proof. unfold getSecret, missing_object. frame_auto. Qed.

Lemma within_getConfigMap nm : only (within secrets_row) (getConfigMap nm).
Proof. unfold getConfigMap, missing_object. frame_auto. Qed.

#[local] Hint Resolve within_getSecret within_getConfigMap : frame.

Lemma within_mounted vdb : only (within secrets_row) (checkMountedObjs vdb).
Proof. unfold checkMountedObjs, check_if_set, checkSecretHasKeys. frame_auto. Qed.

Lemma within_reconcileSvc mode vdb exp nm f : only (within object_row) (reconcileSvc mode vdb exp nm f).
Proof. unfold reconcileSvc, createService, update_service. frame_auto. Qed.

Lemma within_reconcileSts allowed mode s sc : only (within object_row) (reconcileSts d allowed mode s sc).
Proof. unfold reconcileSts, update_sts. frame_auto. Qed.

#[local] Hint Resolve within_mounted within_reconcileSvc within_reconcileSts : frame.

Lemma within_reconcileExtSvc mode vdb exp sc : only (within object_row) (reconcileExtSvc mode vdb exp sc).
Proof. unfold reconcileExtSvc. frame_auto. Qed.

#[local] Hint Resolve within_reconcileExtSvc : frame.

Lemma within_check_created allowed mode s scs : only (within object_row) (check_created d allowed mode s scs).
Proof.
  revert s. induction scs; intros s; simpl; [apply only_ret|]. unfold checkForCreatedSubcluster. frame_auto; eauto.
Qed.

Lemma within_delete_stss vdb p stss : only (within object_row) (delete_stss vdb p stss).
Proof. induction stss; simpl; [apply only_ret|]. frame_auto; eauto. Qed.

Lemma within_delete_svcs svcs : only (within object_row) (delete_svcs svcs).
Proof. induction svcs; simpl; [apply only_ret|]. frame_auto; eauto. Qed.

#[local] Hint Resolve within_check_created within_delete_stss within_delete_svcs : frame.

Lemma within_Obj allowed mode vdb p : only (within object_row) (ObjReconciler_Reconcile d allowed mode vdb p).
Proof. unfold ObjReconciler_Reconcile, reconcileHlSvc, checkForDeletedSubcluster. frame_auto. Qed.

(** The initializers differ in the event for a failure. *)
Lemma within_init_failed K failure e : KEvent (fst failure) ∈ K → only (within K) (init_failed failure e).
Proof. intros Hf. unfold init_failed. wp_calls. apply only_bind; [by apply only_call|intros; apply only_ret]. Qed.

Lemma within_auth vdb at_ : only (within auth_row) (ConstructAuthParms vdb at_).
Proof.
  assert (only (within auth_row) (getCommunalAuth vdb)) as Ha.
  { unfold getCommunalAuth, getCommunalCredsSecret, wrong_key. frame_auto. }
  assert (only (within auth_row) (getAzureAuth vdb)) as Hz.
  { unfold getAzureAuth, getCommunalCredsSecret, wrong_key. frame_auto. }
  assert (∀ gen, contentGen vdb = Some gen → only (within auth_row) gen) as Hg.
  { intros gen. unfold contentGen, getS3AuthParmsContent, getHDFSAuthParmsContent, getGCloudAuthParmsContent,
      getAzureAuthParmsContent.
    destruct (IsS3 vdb); [|destruct (IsHDFS vdb); [|destruct (IsGCloud vdb); [|destruct (IsAzure vdb); [|done]]]];
      intros [= <-]; try apply only_ret; (apply only_bind; [done|]).
    1, 2: intros [auth [res err]]; destruct (IsReconcileAborted res err); apply only_ret.
    intros [[creds config] [res err]]. destruct (IsReconcileAborted res err); apply only_ret. }
  unfold ConstructAuthParms. destruct (contentGen vdb) as [gen|]; [|apply only_ret].
  apply only_bind; [by apply Hg|]. intros [content [res err]].
  unfold hasCompatibleVersionForKerberos, copyAuthFile. frame_auto.
Qed.

#[local] Hint Resolve within_auth : frame.

Lemma within_cleanup_init vdb pods : only (within remove_row) (cleanupLocalFilesInPods vdb pods).
Proof. exact (within_cleanup_pods vdb pods). Qed.

#[local] Hint Resolve within_cleanup_init : frame.

Lemma within_init (I : DatabaseInitializer) K tool vdb p :
  row_le init_row K = true →
  (∀ vdb p, only (within K) (getPodList vdb p)) →
  (∀ vdb hosts, only (within K) (genCmd vdb hosts)) →
  (∀ vdb hosts t cmd, fst (genCmd vdb hosts t) = Ok cmd → tool_of cmd = tool) →
  (∀ vdb at_ cmd, tool_of cmd = tool → only (within K) (execCmd vdb at_ cmd)) →
  (∀ vdb at_, only (within K) (preCmdSetup vdb at_)) →
  (∀ vdb, only (within K) (postCmdCleanup vdb)) →
  only (within K) (checkAndRunInit vdb p).
Proof.
  intros HK H1 H2 Htool H3 H4 H5.
  assert (∀ B (m : M B), only (within init_row) m → only (within K) m) as Hst by (intros B m; by apply only_row).
  assert (∀ vdb p at_, only (within K) (finish_init vdb p at_)) as Hfin.
  { intros v q at_. unfold finish_init, DestroyAuthParms. wp_calls.
    repeat first [apply H5|apply Hst; solve [repeat frame_step]|frame_step]. }
  unfold checkAndRunInit, runInit, run_command, changeDepotPermissions. wp_calls.
  repeat first
    [ apply H1 | apply H4 | apply Hfin | apply H3; by eauto
    | lazymatch goal with
      | |- only _ (genCmd _ _ ≫= _) =>
          apply (only_bind_val _ (λ r, ∀ cmd, r = Ok cmd → tool_of cmd = tool)); [apply H2|by eauto|intros ? ?]
      end
    | apply Hst; solve [use_row] | frame_step ].
Qed.

Lemma within_Create vdb p : only (within create_row) (CreateDBReconciler_Reconcile vdb p).
Proof.
  unfold CreateDBReconciler_Reconcile. destruct (negb _); [apply only_ret|].
  apply (within_init _ _ "create_db"); [done|..].
  - intros v q. simpl. unfold createdb_getPodList. frame_auto.
  - intros v hosts. simpl. unfold createdb_genCmd, GetPath. frame_auto.
  - intros v hosts t cmd Hg. simpl in Hg. unfold createdb_genCmd, mbind, M_bind in Hg. destruct (GetPath _ _) as [[]]; simpl in Hg; by simplify_eq.
  - intros v at_ cmd Ht. simpl. unfold createdb_execCmd. wp_calls.
    repeat first [frame_step | apply within_init_failed
                 | apply only_call; eapply within_tool; [exact Ht|done]].
    unfold createdb_failure. repeat case_match; row_tac.
  - intros v at_. simpl. unfold createdb_preCmdSetup. frame_auto.
  - intros v. simpl. unfold createdb_postCmdCleanup. frame_auto.
Qed.

Lemma within_add_pods vdb p i sc n s : only (within revive_row) (addPodsFromSubcluster vdb p i sc n s).
Proof. revert s. induction n; intros s; simpl; [apply only_ret|]. unfold logBadReviveOrder. frame_auto; eauto. Qed.

#[local] Hint Resolve within_add_pods : frame.

Lemma within_revive_order vdb p order s : only (within revive_row) (add_revive_order vdb p order s).
Proof. revert s. induction order; intros s; simpl; [apply only_ret|]. unfold logBadReviveOrder. frame_auto; eauto. Qed.

Lemma within_remaining vdb p i scs s : only (within revive_row) (add_remaining vdb p i scs s).
Proof. revert i s. induction scs; intros i s; simpl; [apply only_ret|]. frame_auto; eauto. Qed.

#[local] Hint Resolve within_revive_order within_remaining : frame.

Lemma within_Revive vdb p : only (within revive_row) (ReviveDBReconciler_Reconcile vdb p).
Proof.
  unfold ReviveDBReconciler_Reconcile. destruct (negb _); [apply only_ret|].
  apply (within_init _ _ "revive_db"); [done|..].
  - intros v q. simpl. unfold revivedb_getPodList. frame_auto.
  - intros v hosts. apply only_ret.
  - by intros v hosts t cmd [= <-].
  - intros v at_ cmd Ht. simpl. unfold revivedb_execCmd. wp_calls.
    repeat first [frame_step | apply within_init_failed
                 | apply only_call; eapply within_tool; [exact Ht|done]].
    unfold revivedb_failure. repeat case_match; row_tac.
  - intros v at_. apply only_ret.
  - intros v. apply only_ret.
Qed.

Lemma within_statuses vdb p scs acc : only (within read_row) (subcluster_statuses vdb p scs acc).
Proof.
  revert acc. induction scs; intros acc; simpl; [apply only_ret|].
  unfold calculateSubclusterStatus, resizeSubclusterStatus, getSubclusterSize. frame_auto; eauto.
Qed.

#[local] Hint Resolve within_statuses : frame.

Lemma within_Status vdb p : only (within status_row) (StatusReconciler_Reconcile vdb p).
Proof. unfold StatusReconciler_Reconcile, UpdateM, UpdateM_attempt, refreshStatus. frame_auto. Qed.

Lemma within_Metric vdb p : only (within read_row) (MetricReconciler_Reconcile vdb p).
Proof. unfold MetricReconciler_Reconcile. frame_auto. Qed.

Lemma within_delete_old stss : only (within migration_row) (delete_old_sts stss).
Proof. induction stss; simpl; [apply only_ret|]. frame_auto; eauto. Qed.

#[local] Hint Resolve within_delete_old : frame.

Lemma within_Operator120 vdb : only (within migration_row) (UpgradeOperator120Reconciler_Reconcile vdb).
Proof. unfold UpgradeOperator120Reconciler_Reconcile. frame_auto. Qed.

End frame_objects.

(** The steps of the online upgrade, opened *)
Ltac unfold_online :=
  unfold loadSubclusterState, precomputeStatusMsgs, addTransientToVdb, createTransientSts, installTransientNodes,
    addTransientSubcluster, addTransientNodes, rebalanceTransientNodes, addClientRoutingLabelToTransientNodes,
    removeTransientFromVdb, removeClientRoutingLabelFromTransientNodes, removeTransientSubclusters,
    uninstallTransientNodes, deleteTransientSts, drainSubcluster, online_checkVersion, online_addPodAnnotations,
    online_runInstaller, waitForReadOnly, bringSubclusterOnline, recreateSubclusterWithNewImage, postNextStatusMsg,
    if_transient_required, unless_skipped, collected, with_transient, cachePrimaryImages, on_pf_step, on_pf_ostep,
    on_vdb_step, on_obj_step, startUpgrade, finishUpgrade, manager_postNextStatusMsg, setUpgradeStatus,
    toggleImageChangeInProgress, UpdateUpgradeStatus.

(** The steps of the offline upgrade *)
Ltac unfold_offline :=
  unfold offline_postNextStatusMsg, logEventIfOnlineUpgradeRequested, stopCluster, offline_stopCluster,
    exec_at_with_events, anyPodsRunningWithOldImage, offline_updateImageInStatefulSets, updateImageInStatefulSets,
    offline_deletePods, checkForNewPods, checkVersion, addPodAnnotations, runInstaller, offline_restartCluster,
    offline_addClientRoutingLabel, vdb_step, pf_step, startUpgrade, finishUpgrade, manager_postNextStatusMsg,
    setUpgradeStatus, toggleImageChangeInProgress, UpdateUpgradeStatus.
