(* ===== verification/UpgradeSpec.v ===== *)
(** * Safety of the offline upgrade

    In which order an iteration of the offline upgrade shuts the database down,
    changes images, deletes pods, checks the version, restarts and reports
    success; for all answers of the cluster, including changes of the VerticaDB
    by others during the iteration, and all iteration orders. *)

From Stdlib Require Import Ascii.
From stdpp Require Import base gmap strings pretty sorting numbers list.
From S2P Require Import Prelude GoStrings GoRegexp K8s Types Version KObjects Effects Status Labels ScFinder Atconf PodFacts PodFactsSpec Builder Restart RestartSpec Install Scaling ScalingSpec Upgrade Frame.

(** ** Calls without a rule *)

Definition plain (a : action) : Prop :=
  match a with
  | AUpdateSts _ | ADeletePod _ | AExecAdmintools _ _ => False
  | AEvent reason => reason ≠ "UpgradeSucceeded"
  | _ => True
  end.

(** What a restart may send *)
Definition no_objects (a : action) : Prop :=
  match a with
  | AUpdateSts _ | ADeletePod _ => False
  | AEvent reason => reason ≠ "UpgradeSucceeded"
  | _ => True
  end.

Ltac plain_tac := first [exact I | discriminate].

Ltac plain_steps := repeat only_step plain_tac.

(** Rows without the kinds that have a rule *)
Definition no_object_kinds (K : row) : bool :=
  forallb (λ k, bool_decide (k ∉ [KUpdateSts; KDeletePod; KEvent "UpgradeSucceeded"])) K.

Definition plain_kinds (K : row) : bool :=
  no_object_kinds K && forallb (λ k, match k with KTool _ => false | _ => true end) K.

Lemma within_no_objects K a : no_object_kinds K = true → within K a → no_objects a.
Proof.
  intros HK Ha. pose proof (proj1 (forallb_forall _ _) HK _ (proj1 (list_elem_of_In _ _) Ha)) as Hk.
  apply bool_decide_eq_true in Hk. destruct a; simpl in *; try done; try (set_solver +Hk).
Qed.

Lemma only_no_objects {A} K (m : M A) : no_object_kinds K = true → only (within K) m → only no_objects m.
Proof. intros HK. apply only_mono. intros a. by apply within_no_objects. Qed.

Lemma only_plain {A} K (m : M A) : plain_kinds K = true → only (within K) m → only plain m.
Proof.
  intros [HK Hat]%andb_true_iff. apply only_mono. intros a Ha. pose proof (within_no_objects K a HK Ha) as Hno.
  pose proof (proj1 (forallb_forall _ _) Hat _ (proj1 (list_elem_of_In _ _) Ha)) as Hk. by destruct a.
Qed.

Section plain.
Context `{D : AtConfDeps} `{E : Env} `{O : PodOrder}.

Lemma plain_Collect vdb p : only plain (Collect vdb p).
Proof. eapply only_plain; [|apply within_Collect]. done. Qed.

Lemma plain_Version enforce find vdb p : only plain (VersionReconciler_Reconcile enforce find vdb p).
Proof. eapply only_plain; [|apply within_Version]. done. Qed.

Lemma plain_Annotate vdb p : only plain (AnnotateAndLabelPodReconciler_Reconcile vdb p).
Proof. eapply only_plain; [|apply within_Annotate]. done. Qed.

Lemma plain_Routing m sc vdb p : only plain (ClientRoutingLabelReconciler_Reconcile m sc vdb p).
Proof. eapply only_plain; [|apply within_Routing]. done. Qed.

Lemma plain_Install vdb p : only plain (InstallReconciler_Reconcile vdb p).
Proof. eapply only_plain; [|apply within_Install]. done. Qed.

Lemma plain_cgroup vinf pod : only plain (logWarningIfVersionDoesNotSupportsCGroupV2 vinf pod).
Proof. eapply only_plain; [|apply within_cgroup]. done. Qed.

Lemma plain_Update vdb f : only plain (Update vdb f).
Proof. eapply only_plain; [|apply within_Update]. done. Qed.

Lemma plain_UpdateCondition vdb c : only plain (UpdateCondition vdb c).
Proof. eapply only_plain; [|apply within_UpdateCondition]. done. Qed.

Lemma noobj_Nodes b vdb p at_ : only no_objects (reconcileNodes b vdb p at_).
Proof. eapply only_no_objects; [|apply within_Nodes]. done. Qed.

Lemma noobj_Cluster b vdb p at_ : only no_objects (reconcileCluster b vdb p at_).
Proof. eapply only_no_objects; [|apply within_Cluster]. done. Qed.

Lemma noobj_Restart b vdb p at_ : only no_objects (Restart.Reconcile b vdb p at_).
Proof. eapply only_no_objects; [|apply within_Restart]. done. Qed.

End plain.

(** ** What has happened

    All of these hold from some point of the iteration, which started at [t0]
    with the object [vdb0], on. *)

Section upgrade.
Context `{D : AtConfDeps} `{E : Env} `{O : PodOrder} (vdb0 : VerticaDB) (t0 : Trace).

Definition same_vdb (v w : VerticaDB) : Prop :=
  vdb_Spec v = vdb_Spec w ∧ vdb_Annotations v = vdb_Annotations w.

(** The call was made since the start and answered so. *)
Definition answered {A} (a : action) (ans : Trace → A) (x : A) (past : Trace) : Prop :=
  ∃ before, extends t0 before ∧ ans before = x ∧ extends (a :: before) past.

(** The API server has returned the object. *)
Definition returned (v : VerticaDB) (past : Trace) : Prop :=
  (∃ nm, answered (AGetVdb nm) (λ t, env_get_vdb t nm) (Ok v) past) ∨
  (∃ w, answered (AUpdateVdbStatus w) (λ t, env_update_vdb_status t w) (Ok v) past) ∨
  (∃ w, answered (AUpdateVdb w) (λ t, env_update_vdb t w) (Ok v) past).

(** The spec and annotations that the operator works with are from such an
    object, or the first one. *)
Definition seen (v : VerticaDB) (past : Trace) : Prop :=
  ∃ w, same_vdb v w ∧ (w = vdb0 ∨ returned w past).

(** The database was stopped, no pod of the facts runs, no node is up, or every node
    that is up runs the new image. *)
Definition shut_down (p : PodFacts) (past : Trace) : Prop :=
  (∃ vdb pod r, seen vdb past ∧ answered (AExecAdmintools pod (genStopDBCmd vdb))
     (λ t, env_admintools t pod (genStopDBCmd vdb)) r past ∧ exec_err r = None) ∨
  (∀ v, v ∈ facts_list p → isPodRunning v = false) ∨
  ((Z.of_nat (length (facts_list p)) < 2 ^ 63)%Z → ∀ v, v ∈ facts_list p → upNode v = false) ∨
  (∃ vdb, seen vdb past ∧ ∀ v, v ∈ facts_list p → upNode v = true →
     answered (AGetPod (pf_name v)) (λ t, env_get_pod t (pf_name v)) (Err ErrNotFound) past ∨
     ∃ pod, answered (AGetPod (pf_name v)) (λ t, env_get_pod t (pf_name v)) (Ok pod) past ∧
       pod_Image pod = spec_Image (vdb_Spec vdb)).

(** Some node is up with an old image. *)
Definition old_node_up (vdb : VerticaDB) (p : PodFacts) (past : Trace) : Prop :=
  ∃ v pod, v ∈ facts_list p ∧ upNode v = true ∧
    answered (AGetPod (pf_name v)) (λ t, env_get_pod t (pf_name v)) (Ok pod) past ∧
    pod_Image pod ≠ spec_Image (vdb_Spec vdb).

Definition sts_transient (s : StatefulSet) : option bool :=
  ParseBool (default "" (sts_labels s !! SubclusterTransientLabel)).

(** Every statefulset of a subcluster that is not transient has the new image. *)
Definition images_set (vdb : VerticaDB) (past : Trace) : Prop :=
  ∃ objs, answered (AListSts (vdb_Namespace vdb) (MakeOperatorLabels vdb))
      (λ t, env_list_sts t (vdb_Namespace vdb) (MakeOperatorLabels vdb)) (Ok objs) past ∧
    ∀ s, s ∈ objs → hasSubclusterNameLabel (sts_labels s) = true →
      sts_transient s = Some true ∨ sts_Image s = spec_Image (vdb_Spec vdb) ∨
      ∃ s', answered (AUpdateSts (set_sts_image s (spec_Image (vdb_Spec vdb))))
        (λ t, env_update_sts t (set_sts_image s (spec_Image (vdb_Spec vdb)))) (Ok s') past.

(** A pod with the new image exists. *)
Definition new_pod (vdb : VerticaDB) (past : Trace) : Prop :=
  ∃ objs pod, answered (AListPods (vdb_Namespace vdb) (MakeOperatorLabels vdb))
      (λ t, env_list_pods t (vdb_Namespace vdb) (MakeOperatorLabels vdb)) (Ok objs) past ∧
    pod ∈ objs ∧ pod_Image pod = spec_Image (vdb_Spec vdb).

(** The version of the new image may follow the old one, or nobody asks. *)
Definition version_ok (past : Trace) : Prop :=
  ∃ vdb, seen vdb past ∧
    (spec_IgnoreUpgradePath (vdb_Spec vdb) = true ∨
     ∃ pod r reason, answered (AExecInPod pod ["/opt/vertica/bin/vertica"; "--version"])
         (λ t, env_exec t pod ["/opt/vertica/bin/vertica"; "--version"]) r past ∧
       exec_err r = None ∧
       IsUpgradePathSupported vdb (ParseVersionOutput (stdout r)) = Ret (true, reason)).

(** The steps ran one after the other, and none of them ended the iteration. *)
Inductive ran : list up_step → up_state → Trace → up_state → Trace → Prop :=
| ran_nil s t : ran [] s t s t
| ran_snoc fs f s t s1 t1 s2 res err t2 :
    ran fs s t s1 t1 → f s1 t1 = (Ret (s2, (res, err)), t2) → IsReconcileAborted res err = false →
    ran (fs ++ [f]) s t s2 t2.

(** After the steps before it, from [s0] and [t1] on, the restart reconciler has run
    on the VerticaDB and the facts that they left, and asks for nothing more. *)
Definition restart_done (s0 : up_state) (t1 : Trace) (past : Trace) : Prop :=
  ∃ s t, ran (take 12 offline_funcs) s0 t1 s t ∧
    (let r := Restart.Reconcile true (us_vdb s) (us_pf s) no_pod t in
     IsReconcileAborted (fst (snd (fst r))) (snd (snd (fst r))) = false ∧ extends (snd r) past).

(** ** The rules of the iteration, which runs its steps from [s0] and [t1] on *)

Definition upgrade_rule (s0 : up_state) (t1 : Trace) (a : action) (past : Trace) : Prop :=
  let p := us_pf s0 in
  match a with
  | AUpdateSts s => shut_down p past ∧ ∃ vdb sts, seen vdb past ∧
      s = set_sts_image sts (spec_Image (vdb_Spec vdb)) ∧
      sts_Image sts ≠ spec_Image (vdb_Spec vdb) ∧ sts_transient sts = Some false
  | ADeletePod pod => shut_down p past ∧ ∃ vdb, seen vdb past ∧ images_set vdb past ∧
      pod_Image pod ≠ spec_Image (vdb_Spec vdb)
  | AExecAdmintools pod cmd =>
      (∃ vdb, seen vdb past ∧ cmd = genStopDBCmd vdb ∧ old_node_up vdb p past) ∨
      (shut_down p past ∧ (∃ vdb, seen vdb past ∧ images_set vdb past ∧ new_pod vdb past) ∧ version_ok past)
  | AEvent reason => reason = "UpgradeSucceeded" → restart_done s0 t1 past
  | _ => True
  end.

(** ** Everything that has happened stays so *)

Lemma answered_extends {A} a (ans : Trace → A) x t t' :
  extends t t' → answered a ans x t → answered a ans x t'.
Proof. intros He (b & H1 & H2 & H3). exists b. split_and!; [done..|]. by etrans. Qed.

Lemma answered_now {A} a (ans : Trace → A) t : extends t0 t → answered a ans (ans t) (a :: t).
Proof. intros He. exists t. by split_and!. Qed.

Lemma seen_extends v t t' : extends t t' → seen v t → seen v t'.
Proof.
  intros He (w & Hs & [Hw|Hr]); exists w; (split; [done|]); [by left|right].
  destruct Hr as [(x & Hx)|[(x & Hx)|(x & Hx)]]; [left|right; left|right; right]; exists x;
    by eapply answered_extends.
Qed.

Lemma shut_down_extends p t t' : extends t t' → shut_down p t → shut_down p t'.
Proof.
  intros He [(vdb & pod & r & Hs & Hr & Hn)|[Hd|[Hd|(vdb & Hs & Hd)]]].
  - left. exists vdb, pod, r. split_and!; [by eapply seen_extends|by eapply answered_extends|done].
  - by right; left.
  - by right; right; left.
  - right; right; right. exists vdb. split; [by eapply seen_extends|]. intros v Hv Hu.
    destruct (Hd v Hv Hu) as [Ha|(pod & Ha & Hi)]; [left; by eapply answered_extends|right].
    exists pod. split; [by eapply answered_extends|done].
Qed.

Lemma images_set_extends vdb t t' : extends t t' → images_set vdb t → images_set vdb t'.
Proof.
  intros He (objs & Ha & Hall). exists objs. split; [by eapply answered_extends|].
  intros s Hs Hl. destruct (Hall s Hs Hl) as [Hx|[Hx|(s' & Hx)]]; [by left|by right; left|].
  right; right. exists s'. by eapply answered_extends.
Qed.

Lemma new_pod_extends vdb t t' : extends t t' → new_pod vdb t → new_pod vdb t'.
Proof.
  intros He (objs & pod & Ha & Hx). exists objs, pod. split; [by eapply answered_extends|done].
Qed.

Lemma version_ok_extends t t' : extends t t' → version_ok t → version_ok t'.
Proof.
  intros He (vdb & Hs & Hx). exists vdb. split; [by eapply seen_extends|].
  destruct Hx as [Hx|(pod & r & reason & Ha & Hx)]; [by left|right].
  exists pod, r, reason. split; [by eapply answered_extends|done].
Qed.

Lemma restart_done_extends s0 t1 t t' : extends t t' → restart_done s0 t1 t → restart_done s0 t1 t'.
Proof. intros He (s & b & H1 & H2 & H3). exists s, b. split; [done|]. split; [done|]. by etrans. Qed.

(** ** The object that the operator works with *)

Lemma seen_answer v a (ans : Trace → result VerticaDB) w t :
  same_vdb v w → ans t = Ok w → extends t0 t →
  (∃ nm, a = AGetVdb nm ∧ ans = λ t, env_get_vdb t nm) ∨
  (∃ u, a = AUpdateVdbStatus u ∧ ans = λ t, env_update_vdb_status t u) ∨
  (∃ u, a = AUpdateVdb u ∧ ans = λ t, env_update_vdb t u) →
  seen v (a :: t).
Proof.
  intros Hs Ha He Hk. exists w. split; [done|right].
  destruct Hk as [(x & -> & Hk)|[(x & -> & Hk)|(x & -> & Hk)]]; [left|right; left|right; right];
    exists x, t; subst ans; by split_and!.
Qed.

Lemma Update_seen vdb f t :
  extends t0 t → seen vdb t →
  wp (Update vdb f) t (λ r t', extends t t' ∧ seen (fst r) t').
Proof.
  intros Ht Hv. unfold Update, RetryOnConflict.
  apply (wp_retry_inv _ _ (λ v t', extends t t' ∧ seen v t')); [done|].
  intros v t1 [X1 Hv1]. assert (extends t0 t1) as Y1 by by etrans.
  unfold Update_attempt. wp_calls. do 2 wp_step. set (t2 := _ :: t1).
  assert (extends t t2) as X2 by (etrans; [done|apply extends_cons]).
  assert (extends t1 t2) as Z2 by apply extends_cons.
  destruct (env_get_vdb t1 _) as [w|e] eqn:Hg; [|wp_step; split; [done|by eapply seen_extends]].
  assert (∀ st, seen (set_Status w st) t2) as Hw.
  { intros st. eapply (seen_answer _ _ (λ t, env_get_vdb t _) w); [done|exact Hg|done|]. left. by eexists. }
  assert (seen w t2) as Hw' by (by destruct w; apply (Hw _)).
  destruct (f w) as [chg|e]; [|by wp_step]. destruct (negb _); [|by wp_step].
  do 2 wp_step. set (t3 := _ :: t2).
  assert (extends t t3) as X3 by (etrans; [done|apply extends_cons]).
  assert (extends t0 t2) as Y2 by by etrans.
  destruct (env_update_vdb_status t2 _) as [w'|e] eqn:Hu; wp_step; (split; [done|]).
  - eapply (seen_answer _ _ (λ t, env_update_vdb_status t _) w'); [done|exact Hu|done|]. right. left. by eexists.
  - eapply seen_extends; [apply extends_cons|]. apply Hw.
Qed.

Lemma UpdateCondition_seen vdb c t :
  extends t0 t → seen vdb t →
  wp (UpdateCondition vdb c) t (λ r t', extends t t' ∧ seen (fst r) t').
Proof. intros Ht Hv. unfold UpdateCondition. wp_step. by apply Update_seen. Qed.

(** ** Steps *)

Section steps.
Context (s0 : up_state) (ts : Trace) (R : action → Trace → Prop) (HR : ∀ a past, upgrade_rule s0 ts a past → R a past).

#[local] Notation p := (us_pf s0).

Definition assertion : Type := up_state → Trace → Prop.

(** From [A], a step keeps the rules and, unless it aborts, establishes [B]. *)
Definition step_ok (A B : assertion) (f : up_step) : Prop := ∀ s t,
  safe R t → extends t0 t → seen (us_vdb s) t → A s t →
  wp (f s) t (λ o t', safe R t' ∧ ∀ s' res err, o = Ret (s', (res, err)) →
    IsReconcileAborted res err = false → extends t t' ∧ seen (us_vdb s') t' ∧ B s' t').

(** [A] holds after the steps [pre]. *)
Definition after (pre : list up_step) (A : assertion) : assertion := λ s t, ran pre s0 ts s t ∧ A s t.

Lemma step_after pre A B f : step_ok A B f → step_ok (after pre A) B f.
Proof. intros Hf s t Ht He Hs [_ HA]. by apply Hf. Qed.

(** [pre] are the steps before the list. *)
Fixpoint chain (pre : list up_step) (A : assertion) (fs : list up_step) : Prop :=
  match fs with
  | [] => True
  | f :: fs => ∃ B, step_ok (after pre A) B f ∧ chain (pre ++ [f]) B fs
  end.

Lemma run_upgrade_safe fs pre A s t :
  chain pre A fs → safe R t → extends t0 t → seen (us_vdb s) t → after pre A s t →
  wp (run_upgrade fs s) t (λ _ t', safe R t').
Proof.
  revert pre A s t. induction fs as [|f fs IH]; intros pre A s t Hch Ht He Hs HA; simpl; [by wp_step|].
  destruct Hch as (B & Hf & Hch). apply wp_obind. eapply wp_mono; [|apply wp_and; [apply wp_run|by apply Hf]].
  intros [[s' [res err]]|m] t2 [Hrun [H1 Hn]]; [|done].
  destruct (IsReconcileAborted res err) eqn:Ha; [destruct err; by wp_step|].
  destruct (Hn s' res err eq_refl Ha) as (X1 & S1 & B1). eapply IH; [done|done|by etrans|done|].
  split; [by eapply ran_snoc; [apply HA|..]|done].
Qed.

Lemma plain_R a t : plain a → R a t.
Proof using HR. intros Ha. apply HR. destruct a; try done. intros Hc. by destruct Ha. Qed.

(** What does not depend on the state and stays *)
Definition stays (A : assertion) : Prop :=
  ∀ s s' t t', extends t t' → A s t → A s' t'.

(** A step without ruled calls that keeps the object *)
Lemma step_plain A f :
  stays A → (∀ s, only plain (f s)) →
  (∀ s t, wp (f s) t (λ o _, ∀ s' x, o = Ret (s', x) → us_vdb s' = us_vdb s)) →
  step_ok A A f.
Proof using HR.
  intros HA Hp Hv s t Ht He Hs Has.
  eapply (wp_only plain _ R); [apply Hp|apply plain_R|done|apply Hv|].
  intros o t' Ho H1 X1. split; [done|]. intros s' res err -> _. split; [done|].
  rewrite (Ho s' (res, err) eq_refl). split; [by eapply seen_extends|by eapply HA].
Qed.

(** A step that changes the object through status updates *)
Lemma step_vdb A f :
  (∀ s s' t t', us_pf s' = us_pf s → extends t t' → A s t → A s' t') →
  (∀ v, only plain (f v)) →
  (∀ v t, extends t0 t → seen v t → wp (f v) t (λ r t', extends t t' ∧ seen (fst r) t')) →
  step_ok A A (vdb_step f).
Proof using HR.
  intros HA Hp Hf s t Ht He Hs Has. unfold vdb_step. wp_step.
  eapply (wp_only plain _ R); [apply Hp|apply plain_R|done|by apply Hf|].
  intros [v r] t' [X1 S1] H1 _. wp_step. split; [done|]. intros s' res err [= <- ->] _.
  split_and!; [done|done|]. by apply (HA s _ t t').
Qed.

Lemma plain_toggle cond v st : only plain (toggleImageChangeInProgress cond v st).
Proof.
  unfold toggleImageChangeInProgress. apply only_bind; [apply plain_UpdateCondition|].
  intros [w [e|]]; [apply only_ret|apply plain_UpdateCondition].
Qed.

Lemma toggle_seen cond v st t :
  extends t0 t → seen v t →
  wp (toggleImageChangeInProgress cond v st) t (λ r t', extends t t' ∧ seen (fst r) t').
Proof.
  intros He Hv. unfold toggleImageChangeInProgress. wp_step.
  eapply wp_mono; [|by apply UpdateCondition_seen]. intros [w [e|]] t1 [X1 S1]; [by wp_step|].
  eapply wp_mono; [|apply UpdateCondition_seen; [by etrans|done]].
  intros r t2 [X2 S2]. split; [by etrans|done].
Qed.

Lemma start_ok A :
  (∀ s s' t t', us_pf s' = us_pf s → extends t t' → A s t → A s' t') →
  step_ok A A (λ s, vdb_step (startUpgrade OfflineUpgradeInProgress (us_cont s)) s).
Proof using HR.
  intros HA s t. eapply (step_vdb A (startUpgrade OfflineUpgradeInProgress (us_cont s))); [done| |].
  - intros v. unfold startUpgrade. apply only_bind; [apply plain_toggle|].
    intros [w [e|]]; [apply only_ret|]. wp_calls. plain_steps.
  - intros v t1 He Hv. unfold startUpgrade. wp_step. eapply wp_mono; [|by apply toggle_seen].
    intros [w [e|]] t2 [X2 S2]; [by wp_step|]. wp_step.
    destruct (negb _); wp_calls; wp_step; wp_step; [|done].
    split; [etrans; [done|apply extends_cons]|]. eapply seen_extends; [apply extends_cons|done].
Qed.

Lemma postmsg_ok A i :
  (∀ s s' t t', us_pf s' = us_pf s → extends t t' → A s t → A s' t') →
  step_ok A A (offline_postNextStatusMsg i).
Proof using HR.
  intros HA. unfold offline_postNextStatusMsg. apply step_vdb; [done| |].
  - intros v. apply only_bind; [|intros []; apply only_ret]. unfold manager_postNextStatusMsg.
    destruct (_ !! i); [|apply only_ret].
    repeat case_bool_decide; first [apply only_ret|apply plain_Update].
  - intros v t He Hv. wp_step.
    assert (wp (manager_postNextStatusMsg v OfflineUpgradeStatusMsgs i) t
      (λ r t', extends t t' ∧ seen (fst r) t')) as Hm.
    { unfold manager_postNextStatusMsg. destruct (_ !! i); [|by wp_step].
      repeat case_bool_decide; first [by apply Update_seen|by wp_step]. }
    eapply wp_mono; [|exact Hm]. intros [w e] t1 H1. by wp_step.
Qed.

(** *** Shutting down *)

Lemma any_old_image_spec v pods t :
  extends t0 t →
  wp (any_old_image v pods) t (λ r t', extends t t' ∧
    (r = (true, None) → ∃ w pod, w ∈ pods ∧ upNode w = true ∧
       answered (AGetPod (pf_name w)) (λ t, env_get_pod t (pf_name w)) (Ok pod) t' ∧
       pod_Image pod ≠ spec_Image (vdb_Spec v)) ∧
    (r = (false, None) → ∀ w, w ∈ pods → upNode w = true →
       answered (AGetPod (pf_name w)) (λ t, env_get_pod t (pf_name w)) (Err ErrNotFound) t' ∨
       ∃ pod, answered (AGetPod (pf_name w)) (λ t, env_get_pod t (pf_name w)) (Ok pod) t' ∧
         pod_Image pod = spec_Image (vdb_Spec v))).
Proof.
  revert t. induction pods as [|w pods IH]; intros t He; simpl.
  { wp_step. split_and!; [done|done|]. by intros _ w ?%elem_of_nil. }
  destruct (upNode w) eqn:Hu; simpl.
  2: { eapply wp_mono; [|by apply IH]. intros r t' (X & H1 & H2). split_and!; [done| |].
       - intros Hr. destruct (H1 Hr) as (w' & pod & Hw & Hx). exists w', pod. split; [by right|done].
       - intros Hr w' [->|Hw]%elem_of_cons Hu'; [congruence|]. by apply H2. }
  wp_calls. do 2 wp_step. set (t1 := _ :: t).
  assert (extends t t1) as X1 by apply extends_cons.
  assert (extends t0 t1) as Y1 by by etrans.
  assert (answered (AGetPod (pf_name w)) (λ t, env_get_pod t (pf_name w)) (env_get_pod t (pf_name w)) t1) as Ha.
  { by apply (answered_now _ (λ t, env_get_pod t (pf_name w))). }
  destruct (env_get_pod t (pf_name w)) as [pod|e].
  - unfold has_old_image. case_bool_decide as Hi; simpl.
    + eapply wp_mono; [|by apply IH]. intros r t' (X & H1 & H2). split_and!; [by etrans| |].
      * intros Hr. destruct (H1 Hr) as (w' & pod' & Hw & Hx). exists w', pod'. split; [by right|done].
      * intros Hr w' [->|Hw]%elem_of_cons Hu'; [|by apply H2]. right. exists pod.
        split; [by eapply answered_extends|done].
    + wp_step. split_and!; [done| |done]. intros _. exists w, pod. split_and!; [by left|done..].
  - destruct e; try (wp_step; by split_and!).
    eapply wp_mono; [|by apply IH]. intros r t' (X & H1 & H2). split_and!; [by etrans| |].
    + intros Hr. destruct (H1 Hr) as (w' & pod' & Hw & Hx). exists w', pod'. split; [by right|done].
    + intros Hr w' [->|Hw]%elem_of_cons Hu'; [|by apply H2]. left. by eapply answered_extends.
Qed.

Definition facts_are : assertion := λ s _, us_pf s = p.
Definition is_down : assertion := λ _ t, shut_down p t.

Lemma safe_event r past : r ≠ "UpgradeSucceeded" → safe R past → safe R (AEvent r :: past).
Proof using HR. intros Hr Hs. split; [by apply plain_R|done]. Qed.

Lemma stop_step_ok : step_ok facts_are is_down stopCluster.
Proof using HR.
  intros s t Ht He Hs Hp. unfold stopCluster. wp_step.
  assert (wp (offline_stopCluster (us_vdb s) (us_pf s)) t (λ r t', safe R t' ∧ extends t t' ∧
    (snd r = None → shut_down p t'))) as Hw.
  2: { eapply wp_mono; [|exact Hw]. intros r t' (H1 & X1 & S1). wp_step. split; [done|].
       intros s' res err [= <- ->] Ha. apply IsReconcileAborted_false in Ha as (_ & Hn & _).
       split_and!; [done|by eapply seen_extends|by apply S1]. }
  rewrite Hp. unfold offline_stopCluster. wp_step. apply wp_range. intros l1 Hl1.
  destruct (findRunningPod l1) as [pf [|]] eqn:Hf; simpl.
  2: { wp_step. split_and!; [done|done|]. intros _. right; left. intros v Hv.
       apply (find_pod_false _ _ _ _ Hf). by rewrite Hl1. }
  wp_step. apply wp_range. intros l2 Hl2. case_bool_decide as Hz.
  { wp_step. split_and!; [done|done|]. intros _. right; right; left. intros Hlen v Hv.
    apply (proj1 (count_if_zero upNode l2 ltac:(by rewrite Hl2)) Hz). by rewrite Hl2. }
  wp_step. unfold anyPodsRunningWithOldImage. wp_step. apply wp_range. intros l3 Hl3.
  eapply (wp_only plain _ R); [| apply plain_R|done|by apply any_old_image_spec|].
  { clear. induction l3 as [|v l3 IH]; simpl; [apply only_ret|]. destruct (negb _); [apply IH|].
    wp_calls. apply only_bind; [by apply only_call|].
    intros [pod|[]]; [destruct (has_old_image _ _); [apply only_ret|apply IH]|apply IH|apply only_ret..]. }
  intros [ok err] t1 (X1 & Hold & Hnew) H1 _.
  destruct ok; [destruct err as [e|]|].
  - wp_step. by split_and!.
  - destruct (Hold eq_refl) as (w & pod & Hw & Hu & Ha & Hi). wp_step.
    unfold exec_at_with_events. wp_calls. do 4 wp_step. set (t2 := AEvent _ :: t1).
    assert (extends t0 t2) as Y2 by (etrans; [exact He|]; etrans; [exact X1|apply extends_cons]).
    set (a := AExecAdmintools _ _).
    assert (safe R (a :: t2)) as H3.
    { split; [|by apply safe_event]. apply HR. left. exists (us_vdb s). split_and!; [|done|].
      - eapply seen_extends; [|exact Hs]. etrans; [exact X1|apply extends_cons].
      - exists w, pod. split_and!; [by rewrite <- Hl3|done| |done].
        eapply answered_extends; [apply extends_cons|done]. }
    set (r := env_admintools t2 _ _).
    assert (∀ x, extends t (AEvent x :: a :: t2)) as X3.
    { intros x. etrans; [exact X1|]. by exists [AEvent x; a; AEvent "ClusterShutdownStarted"]. }
    destruct (exec_err r) eqn:Her; do 4 wp_step; (split_and!; [by apply safe_event|apply X3|]); [done|].
    intros _. left. exists (us_vdb s), (pf_name pf), r. split_and!; [by eapply seen_extends; [apply X3|]| |done].
    eapply answered_extends; [apply extends_cons|].
    by apply (answered_now _ (λ t, env_admintools t (pf_name pf) (genStopDBCmd (us_vdb s)))).
  - wp_step. split_and!; [done|done|]. simpl. intros ->. right; right; right. exists (us_vdb s).
    split; [by eapply seen_extends|]. intros v Hv. apply (Hnew eq_refl). by rewrite Hl3.
Qed.

(** *** Changing images *)

(** The statefulset has the new image or was changed to it, or is transient. *)
Definition image_done (v : VerticaDB) (t : Trace) (s : StatefulSet) : Prop :=
  sts_transient s = Some true ∨ sts_Image s = spec_Image (vdb_Spec v) ∨
  ∃ s', answered (AUpdateSts (set_sts_image s (spec_Image (vdb_Spec v))))
    (λ t, env_update_sts t (set_sts_image s (spec_Image (vdb_Spec v)))) (Ok s') t.

Lemma image_done_extends v t t' s : extends t t' → image_done v t s → image_done v t' s.
Proof.
  intros He [Hx|[Hx|(s' & Hx)]]; [by left|by right; left|right; right; exists s'].
  by eapply answered_extends.
Qed.

Lemma update_images_spec v stss n t :
  safe R t → extends t0 t → seen v t → shut_down p t →
  wp (update_images v stss n) t (λ r t', safe R t' ∧ extends t t' ∧
    (snd r = None → ∀ s, s ∈ stss → image_done v t' s)).
Proof using HR.
  revert n t. induction stss as [|s stss IH]; intros n t Ht He Hv Hd; simpl.
  { wp_step. split_and!; [done|done|]. by intros _ s ?%elem_of_nil. }
  change (ParseBool _) with (sts_transient s).
  assert (∀ n t1, safe R t1 → extends t t1 → image_done v t1 s →
    wp (update_images v stss n) t1 (λ r t', safe R t' ∧ extends t t' ∧
      (snd r = None → ∀ sx, sx ∈ s :: stss → image_done v t' sx))) as Hgo.
  { intros m t1 H1 X1 Hdone. eapply wp_mono; [|apply IH; [done|by etrans|by eapply seen_extends|by eapply shut_down_extends]].
    intros r t' (H2 & X2 & Hr). split_and!; [done|by etrans|].
    intros Hn sx [->|Hs0]%elem_of_cons; [by eapply image_done_extends|by apply Hr]. }
  destruct (sts_transient s) as [[]|] eqn:Htr; [apply Hgo; [done|done|by left]| |wp_step; by split_and!].
  wp_step. unfold updateImageInStatefulSet, has_old_image.
  case_bool_decide as Hi; simpl; [wp_step; apply Hgo; [done|done|by right; left]|].
  wp_calls. do 2 wp_step. set (a := AUpdateSts _).
  assert (safe R (a :: t)) as H1.
  { split; [|done]. apply HR. split; [done|]. by exists v, s. }
  destruct (env_update_sts t _) as [s'|e] eqn:Hu; wp_step.
  - apply Hgo; [done|apply extends_cons|]. right; right. exists s', t. by split_and!.
  - wp_step. split_and!; [done|apply extends_cons|done].
Qed.

Definition images_done : assertion := λ s t, shut_down p t ∧ images_set (us_vdb s) t.

Lemma existing_kept v l : keep_object v FindExisting l = hasSubclusterNameLabel l.
Proof. unfold keep_object. by destruct (hasSubclusterNameLabel l). Qed.

Lemma images_step_ok : step_ok is_down images_done offline_updateImageInStatefulSets.
Proof using HR.
  intros s t Ht He Hs Hd. unfold offline_updateImageInStatefulSets, updateImageInStatefulSets, FindStatefulSets.
  wp_calls. do 4 wp_step. set (t1 := _ :: t).
  assert (safe R t1) as H1 by (split; [by apply plain_R|done]).
  assert (extends t t1) as X1 by apply extends_cons.
  assert (∀ objs, env_list_sts t (vdb_Namespace (us_vdb s)) (MakeOperatorLabels (us_vdb s)) = Ok objs →
    answered (AListSts (vdb_Namespace (us_vdb s)) (MakeOperatorLabels (us_vdb s)))
      (λ t, env_list_sts t (vdb_Namespace (us_vdb s)) (MakeOperatorLabels (us_vdb s))) (Ok objs) t1) as Hans.
  { intros objs Ho. exists t. by split_and!. }
  destruct (env_list_sts t _ _) as [objs|e]; do 2 wp_step.
  2: { wp_step. split; [done|]. by intros s' res err [= _ <- <-]. }
  eapply wp_mono; [|apply update_images_spec; [exact H1|by etrans|by eapply seen_extends|by eapply shut_down_extends]].
  intros [n err] t2 (H2 & X2 & Hall). do 2 wp_step. split; [done|].
  intros s' res err' [= <- <- <-] Ha. apply IsReconcileAborted_false in Ha as (_ & Hn & _).
  assert (extends t t2) as X by by etrans.
  split_and!; [done|by eapply seen_extends|split; [by eapply shut_down_extends|]].
  exists objs. split; [eapply answered_extends; [exact X2|by apply Hans]|].
  intros st Hst Hl. apply (Hall Hn). apply list_elem_of_filter. split; [|done].
  by rewrite existing_kept.
Qed.

Lemma delete_pods_spec v pods n t :
  safe R t → extends t0 t → seen v t → shut_down p t → images_set v t →
  wp (delete_pods v "" pods n) t (λ r t', safe R t' ∧ extends t t').
Proof using HR.
  revert n t. induction pods as [|pod pods IH]; intros n t Ht He Hv Hd Hi; simpl; [by wp_step|].
  unfold has_old_image. case_bool_decide as Him; simpl; [by apply IH|]. wp_calls. do 2 wp_step.
  assert (extends t (ADeletePod pod :: t)) as X1 by apply extends_cons.
  assert (safe R (ADeletePod pod :: t)) as H1.
  { split; [|done]. apply HR. split; [done|]. by exists v. }
  destruct (env_delete_pod t pod); [by wp_step|].
  eapply wp_mono; [|apply IH; [done|by etrans|by eapply seen_extends|by eapply shut_down_extends|by eapply images_set_extends]].
  intros r t' [H2 X2]. split; [done|]. by etrans.
Qed.

Lemma delete_step_ok : step_ok images_done images_done offline_deletePods.
Proof using HR.
  intros s t Ht He Hs [Hd Hi]. unfold offline_deletePods, deletePodsRunningOldImage, FindPods.
  wp_calls. do 4 wp_step. set (t1 := _ :: t).
  assert (safe R t1) as H1 by (split; [by apply plain_R|done]).
  assert (extends t t1) as X1 by apply extends_cons.
  destruct (env_list_pods t _ _) as [objs|e]; wp_step.
  2: { do 2 wp_step. split; [done|]. by intros s' res err [= _ <- <-]. }
  eapply wp_mono; [|apply delete_pods_spec; [exact H1|by etrans|by eapply seen_extends|by eapply shut_down_extends|by eapply images_set_extends]].
  intros [n err] t2 (H2 & X2). wp_step. split; [done|].
  intros s' res err' [= <- <- <-] _. assert (extends t t2) as X by by etrans.
  split_and!; [done|by eapply seen_extends|].
  split; [by eapply shut_down_extends|by eapply images_set_extends].
Qed.

(** Down, with new images, and a pod that has one *)
Definition pods_new : assertion := λ _ t,
  shut_down p t ∧ ∃ v, seen v t ∧ images_set v t ∧ new_pod v t.

Lemma newpods_step_ok : step_ok images_done pods_new checkForNewPods.
Proof using HR.
  intros s t Ht He Hs [Hd Hi]. unfold checkForNewPods, FindPods. wp_calls. do 3 wp_step. set (t1 := _ :: t).
  assert (safe R t1) as H1 by (split; [by apply plain_R|done]).
  assert (extends t t1) as X1 by apply extends_cons.
  destruct (env_list_pods t _ _) as [objs|e] eqn:Ho; wp_step.
  2: { wp_step. split; [done|]. by intros s' res err [= _ <- <-]. }
  destruct (existsb _ _) eqn:Hex; simpl; wp_step; (split; [done|]); intros s' res err [= <- <- <-] Ha; [|done].
  split_and!; [done|by eapply seen_extends|split; [by eapply shut_down_extends|]]. exists (us_vdb s).
  split_and!; [by eapply seen_extends|by eapply images_set_extends|].
  apply existsb_exists in Hex as (pod & Hin%list_elem_of_In & Himg).
  apply list_elem_of_filter in Hin as [_ Hin]. exists objs, pod. split_and!; [|done|].
  - exists t. by split_and!.
  - unfold has_old_image in Himg. rewrite negb_involutive in Himg. by apply bool_decide_eq_true in Himg.
Qed.

(** *** Checking the version *)

Lemma MergeAnnotations_same v kvs w :
  NoDup kvs.*1 → MergeAnnotations v kvs = (w, false) → same_vdb w v.
Proof.
  intros Hnd. unfold MergeAnnotations. rewrite merge_annotations_spec by done. simpl.
  intros [= <- Hc]. apply negb_false_iff, bool_decide_eq_true in Hc. split; [done|]. exact Hc.
Qed.

Lemma version_store_seen anns v t :
  extends t0 t → seen v t →
  wp (RetryOnConflict (version_attempt anns) v) t (λ r t', extends t t' ∧ (snd r = None → seen (fst r) t')).
Proof.
  intros He Hv. unfold RetryOnConflict. destruct env_retry_steps as [|steps]; [by apply wp_ret|].
  apply (wp_retry _ _ (λ _ t', extends t t')); [lia|done|]. intros u t1 X1.
  assert (extends t0 t1) as Y1 by by etrans.
  unfold version_attempt. wp_calls. do 2 wp_step. set (t2 := _ :: t1).
  assert (extends t t2) as X2 by (etrans; [done|apply extends_cons]).
  assert (extends t0 t2) as Y2 by (etrans; [exact He|exact X2]).
  destruct (env_get_vdb t1 _) as [w|e] eqn:Hg; [|by wp_step].
  destruct (MergeAnnotations w (map_to_list anns)) as [w' changed] eqn:Hm. destruct changed.
  - do 2 wp_step. set (t3 := _ :: t2).
    assert (extends t t3) as X3 by (etrans; [done|apply extends_cons]).
    destruct (env_update_vdb t2 w') as [w''|e] eqn:Hu; wp_step; (split; [split; [done|]|done]); [|done].
    intros _. eapply (seen_answer _ _ (λ t, env_update_vdb t w') w''); [done|exact Hu|done|].
    right; right. by eexists.
  - wp_step. split; [split; [done|]|done]. intros _.
    eapply (seen_answer _ _ (λ t, env_get_vdb t _) w); [|exact Hg|done|left; by eexists].
    eapply MergeAnnotations_same; [|exact Hm]. apply NoDup_fst_map_to_list.
Qed.

Lemma only_extends {A} (m : M A) t : only plain m → wp m t (λ _ t', extends t t').
Proof. intros Hm. eapply wp_mono; [|apply Hm]. intros _ t' (new & -> & _). by exists new. Qed.

Lemma Version_spec v q t :
  extends t0 t → seen v t → spec_IgnoreUpgradePath (vdb_Spec v) = false →
  wp (VersionReconciler_Reconcile true findRunningPod v q) t (λ o t',
    ∀ v' q' res err, o = Ret (v', q', (res, err)) → IsReconcileAborted res err = false →
      seen v' t' ∧ version_ok t').
Proof.
  intros He Hv Hig. unfold VersionReconciler_Reconcile. wp_step.
  eapply wp_mono; [|apply only_extends, plain_Collect].
  intros [p1 [e|]] t1 X1; [wp_step; by intros v' q' res err [= _ _ <- <-]|].
  wp_step. apply wp_range. intros l _. destruct (findRunningPod l) as [pod [|]]; cbn [negb].
  2: { wp_step. by intros v' q' res err [= _ _ <- <-]. }
  apply wp_obind. unfold reconcileVersion, getVersion. wp_calls. do 3 wp_step. set (t2 := _ :: t1).
  assert (extends t t2) as X2 by (etrans; [done|apply extends_cons]).
  set (r := env_exec t1 _ _). destruct (exec_err r) eqn:Her; wp_step.
  { wp_step. apply wp_ret. by intros v' q' res err [= _ _ <- <-]. }
  unfold updateVDBVersion. rewrite Hig. cbn [negb andb].
  destruct (IsUpgradePathSupported v _) as [[[] reason]|m] eqn:Hsup.
  - wp_step. eapply wp_mono; [|apply version_store_seen; [by etrans|by eapply seen_extends]].
    intros [v2 err2] t3 [X3 S3]. wp_step.
    destruct (IsReconcileAborted no_requeue err2) eqn:Ha.
    { wp_step. by intros v' q' res err [= _ _ <- <-]; rewrite Ha. }
    apply IsReconcileAborted_false in Ha as (_ & -> & _). specialize (S3 eq_refl). simpl in S3.
    assert (version_ok t3) as Hok.
    { exists v. split; [eapply seen_extends; [|exact Hv]; by etrans|]. right. exists (pf_name pod), r, reason.
      split_and!; [|done|done]. eapply answered_extends; [exact X3|]. exists t1. split_and!; [by etrans|done|done]. }
    destruct (MakeInfoFromVdb v2) as [vinf|]; [|wp_step; by intros v' q' res err [= <- _ _ _] _].
    destruct (IsUnsupported vinf) as [[]|m]; [|wp_step|wp_step; done].
    + wp_calls. do 3 wp_step. by intros v' q' res err [= _ _ <- <-].
    + eapply wp_mono; [|apply only_extends, plain_cgroup]. intros u4 t4 X4. wp_step.
      intros v' q' res err [= <- _ _ _] _.
      split; [eapply seen_extends; [exact X4|exact S3]|eapply version_ok_extends; [exact X4|exact Hok]].
  - wp_step. wp_calls. do 2 wp_step. apply wp_ret.
    by intros v' q' res err [= _ _ <- <-].
  - wp_step. done.
Qed.

Definition verified : assertion := λ s t, pods_new s t ∧ version_ok t.

Lemma pods_new_stays : stays pods_new.
Proof.
  intros s s' t t' He [Hd (v & H1 & H2 & H3)]. split; [by eapply shut_down_extends|].
  exists v. split_and!; [by eapply seen_extends|by eapply images_set_extends|by eapply new_pod_extends].
Qed.

Lemma verified_stays : stays verified.
Proof.
  intros s s' t t' He [H1 H2]. split; [by eapply pods_new_stays|by eapply version_ok_extends].
Qed.

Lemma version_step_ok : step_ok pods_new verified checkVersion.
Proof using HR.
  intros s t Ht He Hs Hn. unfold checkVersion.
  destruct (spec_IgnoreUpgradePath (vdb_Spec (us_vdb s))) eqn:Hig.
  { wp_step. split; [done|]. intros s' res err [= <- _ _] _. split_and!; [done|done|].
    split; [done|]. exists (us_vdb s). split; [done|by left]. }
  apply wp_obind. eapply (wp_only plain _ R); [apply plain_Version|apply plain_R|done|by apply Version_spec|].
  intros [[[v q] [res err]]|m] t1 Hv H1 X1; [|done]. wp_step. split; [done|].
  intros s' res' err' [= <- <- <-] Ha. destruct (Hv _ _ _ _ eq_refl Ha) as [Hv1 Hv2].
  split_and!; [done|done|]. split; [by eapply pods_new_stays|done].
Qed.

(** *** Restarting and finishing *)

Lemma log_step_ok : step_ok facts_are facts_are logEventIfOnlineUpgradeRequested.
Proof using HR.
  intros s t Ht He Hs Hp. unfold logEventIfOnlineUpgradeRequested. wp_step.
  destruct (_ && _); wp_calls; do 2 wp_step.
  - split; [by apply safe_event|]. intros s' res err [= <- _ _] _.
    split_and!; [apply extends_cons| |done]. eapply seen_extends; [apply extends_cons|done].
  - split; [done|]. by intros s' res err [= <- _ _] _.
Qed.

Lemma annotate_step_ok A : stays A → step_ok A A addPodAnnotations.
Proof using HR.
  intros HA. unfold addPodAnnotations, pf_step. apply step_plain; [done| |].
  - intros s. apply only_bind; [apply plain_Annotate|]. intros []. apply only_ret.
  - intros s t. apply wp_bind. unfold wp at 1. destruct (fst _) as [q x]. wp_step. by intros s' y [= <- _].
Qed.

Lemma install_step_ok A : stays A → step_ok A A runInstaller.
Proof using HR.
  intros HA. unfold runInstaller. apply step_plain; [done| |].
  - intros s. apply only_obind; [apply plain_Install|]. intros []. apply only_ret.
  - intros s t. apply wp_obind. unfold wp at 1. destruct (fst _) as [[q x]|m]; [|done].
    wp_step. by intros s' y [= <- _].
Qed.

Lemma routing_step_ok A : stays A → step_ok A A offline_addClientRoutingLabel.
Proof using HR.
  intros HA. unfold offline_addClientRoutingLabel, pf_step. apply step_plain; [done| |].
  - intros s. apply only_bind; [apply plain_Routing|]. intros []. apply only_ret.
  - intros s t. apply wp_bind. unfold wp at 1. destruct (fst _) as [q x]. wp_step. by intros s' y [= <- _].
Qed.

Lemma Restart_seen v q t :
  extends t0 t → seen v t →
  wp (Restart.Reconcile true v q no_pod) t (λ r t', seen (fst (fst r)) t').
Proof.
  intros He Hv. unfold Restart.Reconcile. destruct (negb _).
  { wp_step. eapply wp_mono; [|by apply UpdateCondition_seen]. intros u t1 [X1 S1]. by wp_step. }
  wp_step. eapply wp_mono; [|by apply UpdateCondition_seen]. intros [w [e|]] t1 [X1 S1]; [by wp_step|].
  simpl in S1. wp_step. eapply wp_mono; [|apply only_extends, plain_Collect].
  intros [q1 [e|]] t2 X2; wp_step; [by eapply seen_extends|].
  apply wp_range. intros l _. wp_step.
  set (m := if _ : bool then _ else _).
  assert (wp m t2 (λ _ t', extends t2 t')) as Hm.
  { assert (only no_objects m) as Hm. { subst m. destruct (_ && _); [apply noobj_Cluster|apply noobj_Nodes]. }
    eapply wp_mono; [|apply Hm]. intros x t' (new & -> & _). by exists new. }
  eapply wp_mono; [|exact Hm]. intros [q2 res] t3 X3. wp_step.
  eapply seen_extends; [exact X3|]. eapply seen_extends; [exact X2|exact S1].
Qed.

Definition restarted : assertion := λ _ t, restart_done s0 ts t.

Lemma restart_step_ok : step_ok (after (take 12 offline_funcs) verified) restarted offline_restartCluster.
Proof using HR.
  intros s t Ht He Hs [Hran Hv]. unfold offline_restartCluster. wp_step.
  eapply (wp_only_from no_objects _ R);
    [apply noobj_Restart| |done|apply (wp_and _ _ _ _ (Restart_seen _ _ _ He Hs) (wp_run _ _))|].
  { intros a past X Ha. apply HR. destruct a; try done; [|by intros ->].
    right. destruct (verified_stays s s t past X Hv) as [[H1 H2] H3]. by split_and!. }
  intros [[v q] [res err]] t2 [S1 Hrun] H1 X1. wp_step. split; [done|].
  intros s' res' err' [= <- <- <-] Ha. split_and!; [done|done|].
  exists s, t. split; [exact Hran|]. rewrite Hrun. by split.
Qed.

Lemma restarted_stays : stays restarted.
Proof. intros s s' t t' He H. by eapply restart_done_extends. Qed.

Lemma finish_step_ok : step_ok restarted restarted (vdb_step (finishUpgrade OfflineUpgradeInProgress)).
Proof using HR.
  intros s t Ht He Hs Hr. unfold vdb_step, finishUpgrade. do 2 wp_step.
  eapply (wp_only plain _ R); [apply plain_Update|apply plain_R|done|by apply Update_seen|].
  intros [v [e|]] t1 [_ S1] H1 X1; [do 2 wp_step; split; [done|]; by intros s' res err [= _ <- <-]|].
  wp_step. eapply (wp_only plain _ R); [apply plain_toggle|apply plain_R|done|apply toggle_seen; [by etrans|done]|].
  intros [w [e|]] t2 [_ S2] H2 X2; [do 2 wp_step; split; [done|]; by intros s' res err [= _ <- <-]|].
  assert (extends t t2) as X by by etrans.
  wp_calls. do 4 wp_step. split.
  - split; [|done]. apply HR. intros _. by eapply restart_done_extends.
  - intros s' res err [= <- _ _] _. split_and!; [etrans; [exact X|apply extends_cons]| |].
    + eapply seen_extends; [apply extends_cons|done].
    + eapply restart_done_extends; [|exact Hr]. etrans; [exact X|apply extends_cons].
Qed.

Lemma facts_kept s s' (t t' : Trace) :
  us_pf s' = us_pf s → extends t t' → facts_are s t → facts_are s' t'.
Proof. intros Hp _ Hs. unfold facts_are in *. congruence. Qed.

Lemma down_kept s s' t t' : us_pf s' = us_pf s → extends t t' → is_down s t → is_down s' t'.
Proof. intros _. apply shut_down_extends. Qed.

Lemma offline_chain : chain [] facts_are offline_funcs.
Proof using HR.
  exists facts_are; split; [apply step_after, start_ok, facts_kept|].
  exists facts_are; split; [apply step_after, log_step_ok|].
  exists facts_are; split; [apply step_after, postmsg_ok, facts_kept|].
  exists is_down; split; [apply step_after, stop_step_ok|].
  exists is_down; split; [apply step_after, postmsg_ok, down_kept|].
  exists images_done; split; [apply step_after, images_step_ok|].
  exists images_done; split; [apply step_after, delete_step_ok|].
  exists pods_new; split; [apply step_after, newpods_step_ok|].
  exists verified; split; [apply step_after, version_step_ok|].
  exists verified; split; [apply step_after, postmsg_ok; intros s s' t t' _; apply verified_stays|].
  exists verified; split; [apply step_after, annotate_step_ok, verified_stays|].
  exists verified; split; [apply step_after, install_step_ok, verified_stays|].
  exists restarted; split; [apply restart_step_ok|].
  exists restarted; split; [apply step_after, routing_step_ok, restarted_stays|].
  exists restarted; split; [apply step_after, finish_step_ok|exact I].
Qed.

End steps.

(** ** The iteration *)

Lemma plain_IsUpgradeNeeded cond allowed vdb : only plain (IsUpgradeNeeded cond allowed vdb).
Proof.
  unfold IsUpgradeNeeded. case_bool_decide; [apply only_ret|].
  destruct (isUpgradeInProgress cond vdb) as [c [[] [e|]]]; [apply only_ret..|].
  destruct (negb _); [apply only_ret|]. unfold isVDBImageDifferent, FindStatefulSets. wp_calls. plain_steps.
Qed.

(** The state and the trace from which the iteration runs its steps, with the facts
    that it collects, if it gets to that *)
Definition offline_start (p0 : PodFacts) (s0 : up_state) (t1 : Trace) : Prop :=
  let n := IsUpgradeNeeded OfflineUpgradeInProgress offlineUpgradeAllowed vdb0 t0 in
  ∃ p, Collect vdb0 p0 (snd n) = ((p, None), t1) ∧ s0 = MkUp vdb0 p (fst (fst n)).

(** The rules for this start *)
Definition offline_rule (p0 : PodFacts) (a : action) (past : Trace) : Prop :=
  plain a ∨ ∃ s0 t1, offline_start p0 s0 t1 ∧ upgrade_rule s0 t1 a past.

Lemma OfflineUpgrade_rules p0 :
  wp (OfflineUpgradeReconciler_Reconcile vdb0 p0) t0
     (λ _ t', safe (since_start t0 (offline_rule p0)) t').
Proof.
  unfold OfflineUpgradeReconciler_Reconcile. set (R := since_start t0 (offline_rule p0)).
  assert (∀ a t, plain a → R a t) as Hplain by (intros a t Ha; right; by left).
  wp_step. eapply (wp_only plain _ R);
    [apply plain_IsUpgradeNeeded|done|apply safe_start|apply wp_run|].
  intros [c [ok err]] t1 Hn H1 X1.
  destruct ok; [destruct err as [e|]|]; [by wp_step| |by wp_step]. wp_step.
  eapply (wp_only plain _ R); [apply plain_Collect|done|done|apply wp_run|].
  intros [p [e|]] t2 Hc H2 X2; [by wp_step|].
  set (s0 := MkUp vdb0 p c).
  apply (run_upgrade_safe s0 t2 R offline_funcs [] (facts_are s0)); [|done|by etrans| |by split; [constructor|]].
  - apply offline_chain. intros a past Ha. right. right. exists s0, t2. split; [|done].
    exists p. by rewrite Hn.
  - exists vdb0. split; [done|by left].
Qed.

End upgrade.

(** ** A cluster to upgrade

    It is up with the image [img] until [stop_db], and again from [start_db] on;
    its pods have the new image once a statefulset was changed. *)
Definition sent (nth1 : string) (t : Trace) : bool :=
  existsb (λ a, match a with AExecAdmintools _ cmd => bool_decide (cmd !! 1 = Some nth1) | _ => false end) t.

Definition set_image (t : Trace) : bool :=
  existsb (λ a, match a with AUpdateSts _ => true | _ => false end) t.

Definition old_sts : StatefulSet :=
  bare_sts (MkObjectMeta "vertica-sample-defaultsubcluster" "default"
    {[SubclusterNameLabel := "defaultsubcluster"; SubclusterTransientLabel := "false"]} ∅)
    (Some 3%Z) 3 "img".

Definition pod_with (img : string) (nm : NamespacedName) : Pod :=
  MkPod (MkObjectMeta (nn_Name nm) (nn_Namespace nm)  {[SubclusterNameLabel := "defaultsubcluster"]}
    {[KubernetesVersionAnnotation := "v1"]}) "Running" "10.1.1.1" (nn_Name nm) "hl" img.

Definition upgrade_env : Env := {|
  env_exec _ nm cmd :=
    if bool_decide (cmd !! 2 = Some "ls -d /data/db/v_db_node????_data")
    then MkExec "/data/db/v_db_node0001_data" "" None
    else if bool_decide (cmd = ["cat"; GenInstallerIndicatorFileName MakeVDB])
    then MkExec "node0001" "" None
    else if bool_decide (cmd = ["/opt/vertica/bin/vertica"; "--version"])
    then MkExec "Vertica Analytic Database v12.0.2-0" "" None
    else MkExec "" "" None;
  env_vsql t nm cmd := if negb (sent "stop_db" t) || sent "start_db" t then MkExec "1" "" None
    else MkExec "" "vsql: could not connect to server: refused" (Some (ErrMsg "exit 1"));
  env_admintools _ _ _ := MkExec "" "" None;
  env_get_vdb _ _ := Ok MakeVDB;
  env_update_vdb _ w := Ok w;
  env_update_vdb_status _ w := Ok w;
  env_get_vas _ _ := Err ErrNotFound;
  env_update_vas _ w := Ok w;
  env_update_vas_status _ w := Ok w;
  env_get_sts _ nm := Ok old_sts;
  env_get_pod t nm := Ok (pod_with (if set_image t then spec_Image (vdb_Spec MakeVDB) else "img") nm);
  env_list_sts _ _ _ := Ok [old_sts];
  env_list_pods t _ _ := Ok [pod_with "img" (demo_pod 0); pod_with (spec_Image (vdb_Spec MakeVDB)) (demo_pod 1)];
  env_list_services _ _ _ := Ok [];
  env_update_sts _ s := Ok s;
  env_delete_pod _ _ := None;
  env_copy _ _ _ _ := MkExec "" "" None;
  env_update_pod _ q := Ok q;
  env_patch_pod _ q := Ok q;
  env_server_version _ := Ok ("v1", "c", "d");
  env_get_secret _ _ := Err ErrNotFound;
  env_get_configmap _ _ := Some ErrNotFound;
  env_get_service _ _ := Err ErrNotFound;
  env_create_service _ _ := None;
  env_update_service _ s := Ok s;
  env_delete_service _ _ := None;
  env_create_sts _ _ := None;
  env_patch_sts _ s := Ok s;
  env_delete_sts _ _ := None;
  env_set_controller _ _ := None;
  env_now _ := 7%Z;
  env_retry_steps := 4 |}.

(** ** Properties *)

(** C2: the order of an offline upgrade.  In an iteration, whatever the cluster
    answers: a statefulset gets the new image, and a pod with an old image is
    deleted, only after [stop_db] succeeded or when the facts of the iteration have
    no node that is up with an image other than the new one (a node that is up with
    the new image is left alone); a pod is deleted only after every statefulset that
    was listed has the new image; admintools is run only to stop the database, when
    a node is up with an old image, or, once none is, after the images were set, a
    pod with the new image was seen and the upgrade path was checked; and success is
    reported only when all steps before the restart had run to their end and the
    restart reconciler, on the VerticaDB and the facts that they left, had run and
    ended without an error and without a request to come back. *)
Theorem offline_upgrade_order `{D : AtConfDeps} `{E : Env} `{O : PodOrder} vdb0 p0 t0 n1 a n2 :
  snd (OfflineUpgradeReconciler_Reconcile vdb0 p0 t0) = n1 ++ a :: n2 →
  extends t0 n2 → ¬ plain a →
  ∃ s0 t1, offline_start vdb0 t0 p0 s0 t1 ∧ upgrade_rule vdb0 t0 s0 t1 a n2.
Proof.
  intros Ht Hex Ha. pose proof (OfflineUpgrade_rules vdb0 t0 p0) as Hr. unfold wp in Hr.
  rewrite Ht in Hr. by apply safe_since in Hr as [Hp|Hr].
Qed.

(** The whole upgrade in one iteration: a pod is deleted, and success reported. *)
Lemma offline_upgrade_order_witness :
  let D := mem_deps_with demo_conf in
  let t := snd (@OfflineUpgradeReconciler_Reconcile D upgrade_env map_order MakeVDB MakePodFacts []) in
  (∃ s0 t1, @upgrade_rule D upgrade_env map_order MakeVDB [] s0 t1 (ADeletePod (pod_with "img" (demo_pod 0)))
     (drop 90 t)) ∧
  ∃ s0 t1, @offline_start upgrade_env MakeVDB [] MakePodFacts s0 t1 ∧
    @restart_done D upgrade_env map_order s0 t1 (drop 1 t).
Proof.
  intros D t.
  assert (t !! 89 = Some (ADeletePod (pod_with "img" (demo_pod 0)))) as Hd by (vm_compute; reflexivity).
  assert (t !! 0 = Some (AEvent "UpgradeSucceeded")) as Hs by (vm_compute; reflexivity).
  split.
  - destruct (@offline_upgrade_order D upgrade_env map_order MakeVDB MakePodFacts [] (take 89 t) _ (drop 90 t)
      (split_at _ _ _ Hd) (extends_nil _) (λ x, x)) as (s0 & t1 & _ & H). exists s0, t1. exact H.
  - destruct (@offline_upgrade_order D upgrade_env map_order MakeVDB MakePodFacts [] (take 0 t) _ (drop 1 t)
      (split_at _ _ _ Hs) (extends_nil _) (λ x, x eq_refl)) as (s0 & t1 & Hst & H).
    exists s0, t1. exact (conj Hst (H eq_refl)).
Defined.
