(* ===== verification/ObjSpec.v ===== *)
(** * Safety of the object reconciler

    When statefulsets are shrunk or deleted, what a patch may change, which
    fields of a service are brought up to date, and what happens when a fetch
    fails. *)

From Stdlib Require Import Ascii.
From stdpp Require Import base gmap strings pretty sorting numbers list.
From S2P Require Import Prelude GoStrings GoRegexp K8s Types KObjects Webhook Version Effects Status Labels ScFinder PodFacts PodFactsSpec Builder BuilderSpec Restart RestartSpec Install Scaling ScalingSpec ObjRec.

(** ** The VerticaDB while objects are built

    Only its security context changes. *)
Definition context_of (vdb w : VerticaDB) : Prop := ∃ sc, w = set_SecurityContext vdb sc.

Lemma context_refl vdb : context_of vdb vdb.
Proof. exists (spec_SecurityContext (vdb_Spec vdb)). by destruct vdb as [? ? ? ? ? [] ?]. Qed.

Lemma context_after vdb w : context_of vdb w → context_of vdb (after_security_context w).
Proof.
  intros [sc ->]. unfold after_security_context. simpl. destruct sc; [|by eexists]. by eexists.
Qed.

Lemma context_fields vdb w :
  context_of vdb w →
  vdb_Namespace w = vdb_Namespace vdb ∧ vdb_Name w = vdb_Name vdb ∧
  spec_Subclusters (vdb_Spec w) = spec_Subclusters (vdb_Spec vdb) ∧
  MakeOperatorLabels w = MakeOperatorLabels vdb.
Proof. by intros [sc ->]. Qed.

Lemma context_names vdb w sc :
  context_of vdb w → GenStsName w sc = GenStsName vdb sc.
Proof. by intros [c ->]. Qed.

(** ** Rules *)

Section rules.
Context `{E : Env} `{A : AnnotationOrder} (d : DeploymentNames).
Context (patchImageAllowed : bool) (mode : ObjReconcileModeType) (vdb : VerticaDB).

(** The pods of a statefulset from index [lo] to below [hi] have neither an
    installation nor a database. *)
Definition removable (p : PodFacts) (stsName : string) (lo hi : Z) : Prop :=
  ∀ i, (lo ≤ i < hi)%Z → ∃ pf, Detail p !! GenPodNameFromSts vdb stsName i = Some pf ∧
    isInstalled pf = false ∧ dbExists pf = false.

(** A patch of the statefulset [cur] of the subcluster [sc], as it was fetched *)
Record patch_ok (p : PodFacts) (since past : Trace) (s : StatefulSet) (sc : Subcluster)
    (cur : StatefulSet) (n : Z) : Prop := {
  pk_fetched : ∃ t, extends since t ∧ env_get_sts t (GenStsName vdb sc) = Ok cur ∧
    extends (AGetSts (GenStsName vdb sc) :: t) past;
  pk_name : sts_name s = sts_name cur;
  pk_size : sts_Replicas s = Some (sc_Size sc);
  pk_image : patchImageAllowed = false → sts_Image s = sts_Image cur;
  pk_replicas : sts_Replicas cur = Some n;
  pk_removable : removable p (sts_name cur) (sc_Size sc) n }.

Definition obj_rule : rule := λ p since a past,
  match a with
  | APatchSts s => mode = ObjReconcileModeAll ∧ ∃ sc cur n,
      sc ∈ spec_Subclusters (vdb_Spec vdb) ∧ patch_ok p since past s sc cur n
  | ADeleteSts s => mode = ObjReconcileModeAll ∧ ∃ n,
      sts_Replicas s = Some n ∧ removable p (sts_name s) 0 n
  | AUpdateService _ | ADeleteService _ => mode = ObjReconcileModeAll
  | _ => True
  end.

Definition harmless_obj (a : action) : Prop :=
  match a with
  | APatchSts _ | ADeleteSts _ | AUpdateService _ | ADeleteService _ => False
  | _ => True
  end.

Lemma check_orphans_ok w p name ixs :
  context_of vdb w →
  IsReconcileAborted (fst (check_orphans w p name ixs)) (snd (check_orphans w p name ixs)) = false →
  ∀ i, i ∈ ixs → ∃ pf, Detail p !! GenPodNameFromSts vdb name i = Some pf ∧
    isInstalled pf = false ∧ dbExists pf = false.
Proof.
  intros [c ->]. induction ixs as [|j ixs IH]; simpl; [by intros _ i ?%elem_of_nil|].
  change (GenPodNameFromSts (set_SecurityContext vdb c) name j) with (GenPodNameFromSts vdb name j).
  destruct (Detail p !! _) as [pf|] eqn:Hp; [|done].
  destruct (isInstalled pf) eqn:Hi, (dbExists pf) eqn:Hd; simpl; try done.
  intros Ha i [->|Hin]%elem_of_cons; [by exists pf|by apply IH].
Qed.

Lemma orphans_removable w p size sts res err :
  context_of vdb w →
  checkForOrphanAdmintoolsConfEntries w p size sts = Ret (res, err) →
  IsReconcileAborted res err = false →
  ∃ n, sts_Replicas sts = Some n ∧ removable p (sts_name sts) size n.
Proof.
  intros Hw. unfold checkForOrphanAdmintoolsConfEntries. destruct (sts_Replicas sts) as [n|]; [|done].
  intros Hc Ha. exists n. split; [done|]. intros i Hi. case_bool_decide; [lia|].
  injection Hc as Hc. apply (check_orphans_ok w p _ (indices size (n - 1)) Hw); [by rewrite Hc|].
  apply indices_spec. lia.
Qed.

Context (p : PodFacts) (since : Trace) (R : action → Trace → Prop).
Context (HR : ∀ a past, obj_rule p since a past → R a past).

Lemma obj_harmless a t : harmless_obj a → R a t.
Proof using HR. intros Ha. apply HR. by destruct a. Qed.

Ltac obj_tac := exact I.

Lemma only_mounted w : only harmless_obj (checkMountedObjs w).
Proof.
  assert (∀ nm, only harmless_obj (getSecret nm)) as Hs.
  { intros nm. unfold getSecret, missing_object. wp_calls. repeat only_step obj_tac. }
  assert (∀ nm, only harmless_obj (getConfigMap nm)) as Hc.
  { intros nm. unfold getConfigMap, missing_object. wp_calls. repeat only_step obj_tac. }
  assert (∀ n ks, only harmless_obj (checkSecretHasKeys w n ks)) as Hk.
  { intros n ks. unfold checkSecretHasKeys. apply only_bind; [apply Hs|]. intros [sec [res err]].
    wp_calls. repeat only_step obj_tac. }
  assert (∀ s (m1 m2 : M (Result * option go_error)),
    only harmless_obj m1 → only harmless_obj m2 → only harmless_obj (check_if_set s m1 m2)) as Hif.
  { intros s m1 m2 H1 H2. unfold check_if_set. case_bool_decide; [done|].
    apply only_bind; [done|]. intros [res err]. destruct (IsReconcileAborted res err); [apply only_ret|done]. }
  unfold checkMountedObjs. repeat apply Hif; try apply Hk; try apply Hc; [|apply only_ret].
  apply only_bind; [apply Hs|intros; apply only_ret].
Qed.

Lemma reconcileSvc_safe w exp nm f t :
  safe R t → wp (reconcileSvc mode w exp nm f) t (λ _ t', safe R t' ∧ extends t t').
Proof using HR.
  intros Ht. unfold reconcileSvc. wp_calls. do 2 wp_step. set (t1 := _ :: t).
  assert (safe R t1) as H1 by (split; [by apply obj_harmless|done]).
  assert (extends t t1) as X1 by apply extends_cons.
  assert (∀ cur, wp (update_service mode f exp cur) t1 (λ _ t', safe R t' ∧ extends t t')) as Hu.
  { intros cur. unfold update_service. wp_calls. case_bool_decide as Hm; [by wp_step|].
    destruct (f cur exp) as [[new|]|m]; [|by wp_step|by wp_step].
    do 2 wp_step. set (t2 := _ :: t1).
    assert (safe R t2 ∧ extends t t2) as H2.
    { split; [|etrans; [exact X1|apply extends_cons]]. split; [|done].
      apply HR. simpl. by destruct mode. }
    destruct (env_update_service t1 new); wp_step; exact H2. }
  destruct (env_get_service t nm) as [cur|[]]; [apply Hu| |apply Hu..].
  unfold createService. wp_step. wp_step. unfold SetControllerReference, wp at 1. simpl.
  wp_calls. destruct (env_set_controller t1 w); [by do 2 wp_step|]. do 2 wp_step.
  split; [split; [by apply obj_harmless|done]|]. etrans; [exact X1|apply extends_cons].
Qed.

(** What stays while objects are reconciled *)
Definition obj_ok (s : obj_state) : Prop := context_of vdb (ob_vdb s) ∧ Detail (ob_pf s) = Detail p.

Lemma removable_detail q name lo hi :
  Detail q = Detail p → removable q name lo hi → removable p name lo hi.
Proof. intros Hd Hr i Hi. rewrite <- Hd. by apply Hr. Qed.

Lemma reconcileSts_safe s sc t :
  obj_ok s → sc ∈ spec_Subclusters (vdb_Spec vdb) → safe R t → extends since t →
  wp (reconcileSts d patchImageAllowed mode s sc) t (λ o t', safe R t' ∧ extends t t' ∧
    ∀ s' x, o = Ret (s', x) → obj_ok s').
Proof using HR.
  intros [Hv Hp] Hsc Ht He. unfold reconcileSts. rewrite (context_names _ _ sc Hv).
  destruct (BuildStsSpec _ _ _ _) as [exp w] eqn:Hb.
  assert (context_of vdb w) as Hw.
  { apply (f_equal snd) in Hb. simpl in Hb. subst w. by apply context_after. }
  assert (sts_Replicas exp = Some (sc_Size sc)) as Hsize.
  { apply (f_equal fst) in Hb. simpl in Hb. by subst exp. }
  wp_calls. do 2 wp_step. set (t1 := _ :: t).
  assert (safe R t1) as H1 by (split; [by apply obj_harmless|done]).
  assert (extends t t1) as X1 by apply extends_cons.
  assert (∀ q, Detail q = Detail p → obj_ok (MkObj w q)) as Hok by (by split).
  assert (∀ cur, env_get_sts t (GenStsName vdb sc) = Ok cur ∨ sts_Replicas cur = None →
    wp (update_sts patchImageAllowed mode w (ob_pf s) sc exp cur) t1 (λ o t', safe R t' ∧ extends t t' ∧ ∀ s' x, o = Ret (s', x) → obj_ok s')) as Hu.
  { intros cur Hcur. unfold update_sts. wp_calls. case_bool_decide as Hm.
    { wp_step. split_and!; [done|done|]. intros s' x [= <- _]. by apply Hok. }
    destruct (checkForOrphanAdmintoolsConfEntries _ _ _ _) as [[res err]|m] eqn:Ho; [|by wp_step].
    destruct (IsReconcileAborted res err) eqn:Ha.
    { wp_step. split_and!; [done|done|]. intros s' x [= <- _]. by apply Hok. }
    destruct (orphans_removable w (ob_pf s) _ cur res err Hw Ho Ha) as (n & Hn & Hrem).
    destruct Hcur as [Hcur|Hcur]; [|congruence].
    do 2 wp_step. set (t2 := _ :: t1).
    assert (safe R t2) as H2.
    { split; [|done]. apply HR. split; [by destruct mode|]. exists sc, cur, n. split; [done|].
      split; [exists t; by split_and!|done| | |done|by eapply removable_detail].
      - unfold patched_sts. by destruct patchImageAllowed.
      - intros ->. done. }
    assert (extends t t2) as X2 by (etrans; [exact X1|apply extends_cons]).
    destruct (env_patch_sts t1 _); wp_step; (split_and!; [done|done|]); intros s' x [= <- _];
      apply Hok; [by case_bool_decide|done]. }
  destruct (env_get_sts t _) as [cur|[]] eqn:Hg; [apply Hu; by left| |apply Hu; by right..].
  wp_step. unfold SetControllerReference, wp at 1. simpl.
  destruct (env_set_controller t1 w).
  { wp_step. split_and!; [done|done|]. intros s' x [= <- _]. by apply Hok. }
  do 2 wp_step. wp_step. split_and!; [split; [by apply obj_harmless|done]| |].
  - etrans; [exact X1|apply extends_cons].
  - intros s' x [= <- _]. by apply Hok.
Qed.

Lemma check_created_safe scs s t :
  obj_ok s → (∀ sc, sc ∈ scs → sc ∈ spec_Subclusters (vdb_Spec vdb)) → safe R t → extends since t →
  wp (check_created d patchImageAllowed mode s scs) t (λ o t', safe R t' ∧ extends t t' ∧
    ∀ s' x, o = Ret (s', x) → obj_ok s').
Proof using HR.
  revert s t. induction scs as [|sc scs IH]; intros s t Hs Hin Ht He; simpl.
  { wp_step. split_and!; [done|done|]. by intros s' x [= <- _]. }
  apply wp_obind. unfold checkForCreatedSubcluster.
  assert (∀ t1, safe R t1 → extends t t1 → wp (reconcileSts d patchImageAllowed mode s sc) t1
    (λ o t', safe R t' ∧ extends t t' ∧ ∀ s' x, o = Ret (s', x) → obj_ok s')) as Hsts.
  { intros t1 H1 X1. eapply wp_mono; [|apply reconcileSts_safe; [done|apply Hin; by left|done|by etrans]].
    intros o t' (H2 & X2 & Ho). split_and!; [done|by etrans|done]. }
  assert (wp (if sc_IsTransient sc then reconcileSts d patchImageAllowed mode s sc
    else err ←! reconcileExtSvc mode (ob_vdb s) (BuildExtSvc (GenExtSvcName (ob_vdb s) sc) (ob_vdb s) sc
           MakeSvcSelectorLabelsForServiceNameRouting) sc;
         match err with
         | Some e => oret (s, (no_requeue, Some e))
         | None => reconcileSts d patchImageAllowed mode s sc
         end) t
    (λ o t', safe R t' ∧ extends t t' ∧ ∀ s' x, o = Ret (s', x) → obj_ok s')) as Hc.
  { destruct (sc_IsTransient sc); [by apply Hsts|]. apply wp_obind.
    eapply wp_mono; [|by apply reconcileSvc_safe]. intros [[e|]|m] t1 [H1 X1]; [|by apply Hsts|done].
    wp_step. split_and!; [done|done|]. by intros s' x [= <- _]. }
  eapply wp_mono; [|exact Hc]. intros [[s1 [res err]]|m] t1 (H1 & X1 & Ho); [|done].
  pose proof (Ho _ _ eq_refl) as Hs1. destruct (IsReconcileAborted res err).
  { wp_step. split_and!; [done|done|]. by intros s' x [= <- _]. }
  eapply wp_mono; [|apply IH; [done|by intros sc' Hsc'; apply Hin; right|done|by etrans]].
  intros o t' (H2 & X2 & Ho2). split_and!; [done|by etrans|done].
Qed.

Lemma checkForDeleted_safe s t :
  obj_ok s → safe R t → wp (checkForDeletedSubcluster mode (ob_vdb s) (ob_pf s)) t (λ _ t', safe R t').
Proof using HR.
  intros [Hv Hp] Ht. unfold checkForDeletedSubcluster, FindStatefulSets, FindServices. wp_calls.
  case_bool_decide as Hm; [by wp_step|]. assert (mode = ObjReconcileModeAll) as Hall by by destruct mode.
  do 3 wp_step. set (t1 := _ :: t).
  assert (safe R t1) as H1 by (split; [by apply obj_harmless|done]).
  destruct (env_list_sts _ _ _) as [objs|e]; wp_step; [|by wp_step]. apply wp_obind.
  assert (∀ stss t, safe R t → wp (delete_stss (ob_vdb s) (ob_pf s) stss) t (λ _ t', safe R t')) as Hdel.
  { clear -HR Hv Hp Hall. induction stss as [|sts stss IH]; intros t Ht; simpl; [by wp_step|].
    destruct (checkForOrphanAdmintoolsConfEntries _ _ _ _) as [[res err]|m] eqn:Ho; [|by wp_step].
    destruct (IsReconcileAborted res err) eqn:Ha; [by wp_step|].
    destruct (orphans_removable (ob_vdb s) (ob_pf s) 0 sts res err Hv Ho Ha) as (n & Hn & Hrem).
    wp_calls. do 2 wp_step. assert (safe R (ADeleteSts sts :: t)) as H1.
    { split; [|done]. apply HR. split; [done|]. exists n. split; [done|by eapply removable_detail]. }
    destruct (env_delete_sts t sts); [by wp_step|by apply IH]. }
  eapply wp_mono; [|by apply Hdel]. intros [[res err]|m] t2 H2; [|done].
  destruct (IsReconcileAborted res err); [by wp_step|]. do 3 wp_step. set (t3 := _ :: t2).
  assert (safe R t3) as H3 by (split; [by apply obj_harmless|done]).
  destruct (env_list_services _ _ _) as [svcs|e]; wp_step; [|by wp_step].
  assert (∀ svcs t, safe R t → wp (delete_svcs svcs) t (λ _ t', safe R t')) as Hsvc.
  { clear -HR Hall. induction svcs as [|svc svcs IH]; intros t Ht; simpl; [by wp_step|].
    wp_calls. do 2 wp_step. assert (safe R (ADeleteService svc :: t)) as H1 by (split; [by apply HR|done]).
    destruct (env_delete_service t svc); [by wp_step|by apply IH]. }
  wp_step. eapply wp_mono; [|by apply Hsvc]. intros err' t4 H4. by wp_step.
Qed.

End rules.

Lemma Obj_rules `{E : Env} `{A : AnnotationOrder} d allowed mode vdb p0 t0 :
  wp (ObjReconciler_Reconcile d allowed mode vdb p0) t0
     (λ _ t', safe (since_start t0 (λ a past, harmless_obj a ∨ based vdb (obj_rule allowed mode vdb) p0 t0 a past)) t').
Proof.
  unfold ObjReconciler_Reconcile. set (R := since_start t0 _).
  assert (∀ a t, harmless_obj a → R a t) as Hh by (intros a t Ha; right; by left).
  wp_step. eapply (wp_only collect_call _ R);
    [apply Collect_calls|intros a t Ha; apply Hh; by destruct a|apply safe_start|apply wp_run|].
  intros [p [e|]] t1 Hc H1 X1; [by wp_step|].
  wp_step. eapply (wp_only harmless_obj _ R); [apply only_mounted|done|done|apply wp_run|].
  intros [res err] t2 _ H2 X2. destruct (IsReconcileAborted res err); [by wp_step|].
  assert (∀ a past, obj_rule allowed mode vdb p t1 a past → R a past) as HR.
  { intros a past Ha. right. right. exists p. rewrite Hc. by split. }
  apply wp_obind. eapply wp_mono; [|by eapply (reconcileSvc_safe allowed mode vdb p t1 R HR)].
  intros [[e|]|m] t3 [H3 X3]; [by wp_step| |done]. apply wp_obind.
  eapply wp_mono; [|eapply (check_created_safe d allowed mode vdb p t1 R HR)];
    [|split; [apply context_refl|done]|done|done|by etrans].
  intros [[s [res' err']]|m] t4 (H4 & X4 & Hs); [|done].
  destruct (IsReconcileAborted res' err'); [by wp_step|]. apply wp_obind.
  eapply wp_mono; [|eapply (checkForDeleted_safe allowed mode vdb p t1 R HR); [by eapply Hs|done]].
  intros [[res'' err'']|m] t5 H5; [|done]. destruct (IsReconcileAborted res'' err''); by wp_step.
Qed.

(** ** Services *)

(** The fields of a service that the reconciler looks after are as expected. *)
Record svc_matches (sc : Subcluster) (cur exp : Service) : Prop := {
  sm_annotations : svc_Annotations cur = svc_Annotations exp;
  sm_type : svc_Type cur = svc_Type exp;
  sm_ports : if bool_decide (svc_Type exp ∈ ["LoadBalancer"; "NodePort"])
    then sc_NodePort sc = 0%Z ∨ sp_NodePort <$> head (svc_Ports cur) = sp_NodePort <$> head (svc_Ports exp)
    else Forall (λ p, sp_NodePort p = 0%Z) (svc_Ports cur);
  sm_ips : svc_ExternalIPs cur = svc_ExternalIPs exp;
  sm_lb : svc_LoadBalancerIP cur = svc_LoadBalancerIP exp;
  sm_selector : svc_Selector cur = svc_Selector exp;
  sm_labels : svc_Labels cur = svc_Labels exp }.

(** The other fields *)
Definition svc_rest_of (s : Service) : string * string * string * bool * k8s_opaque :=
  (svc_Name s, svc_Namespace s, svc_ClusterIP s, svc_PublishNotReadyAddresses s, svc_Rest s).

Lemma merge_field_eq {A} `{EqDecision A} (get : Service → A) set exp b s :
  (∀ s, set s (get s) = s) →
  merge_field get set exp (b, s) = (b || negb (bool_decide (exp = get s)), set s exp).
Proof.
  intros Hset. unfold merge_field. simpl. case_bool_decide as He; simpl; [|by rewrite orb_true_r].
  by rewrite orb_false_r, He, Hset.
Qed.

Definition ports_match (sc : Subcluster) (cur exp : Service) : Prop :=
  if bool_decide (svc_Type exp ∈ ["LoadBalancer"; "NodePort"])
  then sc_NodePort sc = 0%Z ∨ sp_NodePort <$> head (svc_Ports cur) = sp_NodePort <$> head (svc_Ports exp)
  else Forall (λ p, sp_NodePort p = 0%Z) (svc_Ports cur).

Lemma merge_ports_spec exp sc u :
  svc_Ports exp ≠ [] → svc_Ports (snd u) ≠ [] →
  ∃ u', merge_ports exp sc u = Ret u' ∧ ports_match sc (snd u') exp ∧
    (fst u' = false ↔ fst u = false ∧ ports_match sc (snd u) exp) ∧
    ∃ ports, snd u' = set_svc_Ports (snd u) ports.
Proof.
  intros He Hc. destruct u as [b s]. unfold merge_ports, ports_match. simpl in *.
  assert (bool_decide (svc_Type exp ∈ ["LoadBalancer"; "NodePort"])
    = bool_decide (svc_Type exp = "LoadBalancer") || bool_decide (svc_Type exp = "NodePort")) as ->.
  { apply eq_true_iff_eq. rewrite orb_true_iff, !bool_decide_eq_true, !elem_of_cons, elem_of_nil. tauto. }
  assert (s = set_svc_Ports s (svc_Ports s)) as Hsame by by destruct s.
  destruct (_ || _).
  - case_bool_decide as Hn; [eexists; split; [done|]; simpl; naive_solver|].
    destruct (svc_Ports exp) as [|e es], (svc_Ports s) as [|c cs] eqn:Hs; [done..|].
    case_bool_decide as Hp; eexists; (split; [done|]); simpl.
    + rewrite ?Hs. simpl. rewrite Hp. naive_solver.
    + split; [by right|]. split; [|by eexists]. naive_solver.
  - destruct (existsb _ _) eqn:Hx; eexists; (split; [done|]); simpl.
    + split; [by apply Forall_fmap, Forall_true|]. split; [|by eexists].
      split; [done|]. intros [_ Hall]. apply existsb_exists in Hx as (q & Hq%list_elem_of_In & Hb).
      apply negb_true_iff, bool_decide_eq_false in Hb. by apply (proj1 (Forall_forall _ _) Hall) in Hq.
    + assert (Forall (λ p, sp_NodePort p = 0%Z) (svc_Ports s)) as Hall; [|naive_solver].
      apply Forall_forall. intros q Hq. apply dec_stable. intros Hz.
      assert (existsb (λ p, negb (bool_decide (sp_NodePort p = 0%Z))) (svc_Ports s) = true); [|congruence].
      apply existsb_exists. exists q. rewrite <- list_elem_of_In. split; [done|].
      by rewrite bool_decide_eq_false_2.
Qed.

(** A cluster that has one pod too many, without an installation *)
Definition shrink_env : Env := scale_env (λ _, false) (λ _, false) (λ _, Some 4%Z).

(** A cluster whose statefulsets cannot be fetched *)
Definition refused_env : Env :=
  let E := shrink_env in {|
  env_exec := env_exec; env_vsql := env_vsql; env_admintools := env_admintools;
  env_get_vdb := env_get_vdb; env_update_vdb := env_update_vdb;
  env_update_vdb_status := env_update_vdb_status; env_get_vas := env_get_vas;
  env_update_vas := env_update_vas; env_update_vas_status := env_update_vas_status;
  env_get_sts _ _ := Err (ErrMsg "timeout"); env_get_pod := env_get_pod; env_list_sts := env_list_sts;
  env_list_pods := env_list_pods; env_list_services := env_list_services;
  env_update_sts := env_update_sts; env_delete_pod := env_delete_pod; env_copy := env_copy;
  env_update_pod := env_update_pod; env_patch_pod := env_patch_pod;
  env_server_version := env_server_version; env_get_secret := env_get_secret;
  env_get_configmap := env_get_configmap; env_get_service := env_get_service;
  env_create_service := env_create_service; env_update_service := env_update_service;
  env_delete_service := env_delete_service; env_create_sts := env_create_sts;
  env_patch_sts := env_patch_sts; env_delete_sts := env_delete_sts;
  env_set_controller := env_set_controller; env_now := @env_now shrink_env;
  env_retry_steps := 4 |}.

(** ** Properties *)

(** C13: the object reconciler shrinks or deletes a statefulset only when the
    facts collected in this iteration show, for every pod that goes away, neither
    an installation nor a database; a patch is for a statefulset of a subcluster
    of the spec, as fetched since, gives it the size of the spec and keeps its
    image; and existing objects are only changed in mode All. *)
Theorem obj_changes_safe `{E : Env} `{O : AnnotationOrder} d mode vdb p0 t0 n1 a n2 :
  snd (ObjReconciler_Reconcile d false mode vdb p0 t0) = n1 ++ a :: n2 →
  extends t0 n2 → ¬ harmless_obj a →
  based vdb (obj_rule false mode vdb) p0 t0 a n2.
Proof.
  intros Ht Hex Ha. pose proof (Obj_rules d false mode vdb p0 t0) as Hr. unfold wp in Hr.
  rewrite Ht in Hr. by apply safe_since in Hr as [?|?].
Qed.

(** A statefulset of four pods is patched to the size of its subcluster. *)
Lemma obj_changes_safe_witness :
  let t := snd (@ObjReconciler_Reconcile shrink_env map_ann_order DefaultDeploymentNames false
                  ObjReconcileModeAll MakeVDB MakePodFacts []) in
  ∃ s p sc cur n, t !! 2 = Some (APatchSts s) ∧ fst (@Collect shrink_env MakeVDB MakePodFacts []) = (p, None) ∧
    sts_Replicas s = Some (sc_Size sc) ∧ sts_Replicas cur = Some n ∧ removable MakeVDB p (sts_name cur) (sc_Size sc) n.
Proof.
  intros t.
  set (sts := patched_sts false (bare_sts (MkObjectMeta (nn_Name (GenStsName MakeVDB demo_sc)) "default" ∅ ∅)
      (Some 4%Z) 4 "img")
    (fst (BuildStsSpec (GenStsName MakeVDB demo_sc) MakeVDB demo_sc DefaultDeploymentNames))).
  assert (t !! 2 = Some (APatchSts sts)) as Hi by (vm_compute; reflexivity).
  destruct (@obj_changes_safe shrink_env map_ann_order DefaultDeploymentNames ObjReconcileModeAll MakeVDB
    MakePodFacts [] (take 2 t) (APatchSts sts) (drop 3 t) (split_at _ _ _ Hi) (extends_nil _) (λ x, x))
    as (p & Hc & _ & sc & cur & n & _ & [_ _ Hs _ Hn Hr]).
  exists sts, p, sc, cur, n. exact (conj Hi (conj Hc (conj Hs (conj Hn Hr)))).
Defined.

(** When both services have a port, merging succeeds; it reports no change
    exactly when every field that the reconciler looks after is as expected,
    and otherwise returns a service in which they are, with all other fields
    kept. *)
Theorem reconcileExtSvcFields_correct cur exp sc :
  svc_Ports exp ≠ [] → svc_Ports cur ≠ [] →
  ∃ o, reconcileExtSvcFields cur exp sc = Ret o ∧ (o = None ↔ svc_matches sc cur exp) ∧
    ∀ new, o = Some new → svc_matches sc new exp ∧ svc_rest_of new = svc_rest_of cur.
Proof.
  intros He Hc. unfold reconcileExtSvcFields.
  rewrite !merge_field_eq by (by intros []).
  match goal with |- context [merge_ports exp sc (?b, ?s)] => set (b2 := b); set (s2 := s) end.
  destruct (merge_ports_spec exp sc (b2, s2)) as ([b3 s3] & -> & Hp & Hb & ports & Hs3); [done|done|].
  simpl in Hs3. subst s3. rewrite !merge_field_eq by (by intros []). simpl.
  eexists. split; [done|]. split.
  - destruct b3; simpl.
    + split; [done|]. intros [M1 M2 M3 M4 M5 M6 M7]. destruct Hb as [_ Hb]. discriminate Hb.
      split; [|exact M3]. unfold b2. simpl. rewrite M1, M2, !bool_decide_eq_true_2; done.
    + destruct Hb as [Hb _]. destruct (Hb eq_refl) as [Hb2 Hports]. unfold b2 in Hb2. simpl in Hb2.
      apply orb_false_iff in Hb2 as [M1 M2]. apply negb_false_iff, bool_decide_eq_true in M1, M2.
      match goal with |- context [if ?b then _ else _] => destruct b eqn:Hor end.
      * split; [done|]. intros [_ _ _ M4 M5 M6 M7].
        by rewrite M4, M5, M6, M7, !bool_decide_eq_true_2 in Hor.
      * split; [intros _|done]. repeat (apply orb_false_iff in Hor as [Hor ?%negb_false_iff%bool_decide_eq_true]).
        apply negb_false_iff, bool_decide_eq_true in Hor. by split.
  - intros new. match goal with |- context [if ?b then Some _ else _] => destruct b end; [|done]. intros [= <-]. split; [|done]. by split.
Qed.

Lemma reconcileExtSvcFields_correct_witness :
  let exp := BuildExtSvc (GenExtSvcName MakeVDB zero_Subcluster) MakeVDB zero_Subcluster
               MakeSvcSelectorLabelsForServiceNameRouting in
  let cur := set_svc_Annotations exp None in
  ∃ o, reconcileExtSvcFields cur exp zero_Subcluster = Ret o ∧ o ≠ None.
Proof.
  intros exp cur. destruct (reconcileExtSvcFields_correct cur exp zero_Subcluster) as (o & Ho & Hn & _);
    [done|done|]. exists o. split; [exact Ho|]. intros [Ha _ _ _ _ _ _]%Hn. discriminate Ha.
Defined.

(** When the fetch of a statefulset fails with an error other than not
    found, the reconciler goes on with an empty object and, in mode All,
    dereferences its missing replica count. *)
Theorem sts_fetch_error_panics `{E : Env} `{O : AnnotationOrder} d allowed s sc t e :
  env_get_sts t (GenStsName (ob_vdb s) sc) = Err e → e ≠ ErrNotFound →
  fst (reconcileSts d allowed ObjReconcileModeAll s sc t) = Panic nil_dereference.
Proof.
  intros Hg He. unfold reconcileSts, GetSts, call. simpl. unfold mbind, M_bind. simpl. rewrite Hg.
  by destruct e.
Qed.

Lemma sts_fetch_error_panics_witness :
  fst (@reconcileSts refused_env map_ann_order DefaultDeploymentNames false ObjReconcileModeAll
    (MkObj MakeVDB MakePodFacts) zero_Subcluster []) = Panic nil_dereference.
Proof. by apply (@sts_fetch_error_panics refused_env map_ann_order _ _ _ _ [] (ErrMsg "timeout")). Defined.
