(* ===== verification/InitSpec.v ===== *)
(** * Safety of database creation

    What holds when [create_db] or [revive_db] is sent, for every initializer
    that keeps the promises of its interface, and that the two initializers keep
    them; which pods they pick; where the credentials go. *)

From Stdlib Require Import Ascii.
From stdpp Require Import base gmap strings pretty sorting numbers list.
From S2P Require Import Prelude GoStrings GoRegexp K8s Types Webhook WebhookSpec Version KObjects Effects Status Labels ScFinder Atconf Cmds PodFacts PodFactsSpec Builder Restart RestartSpec Install Scaling ScalingSpec ObjRec InitDB.

(** ** The promises of an initializer *)

Definition is_event (a : action) : Prop := match a with AEvent _ => True | _ => False end.

(** Calls that touch neither the database nor the files of a node *)
Definition setup_call (a : action) : Prop :=
  match a with
  | AEvent _ | AGetVdb _ | AUpdateVdbStatus _ | AGetSecret _ => True
  | AExecInPod _ cmd => head cmd ≠ Some "rm"
  | _ => False
  end.

Class InitializerLaws `{E : Env} (D : DatabaseInitializer) : Prop := {
  law_setup vdb atPod : only setup_call (preCmdSetup vdb atPod);
  law_pods_calls vdb p : only setup_call (getPodList vdb p);
  law_pods_known vdb p t l : fst (getPodList vdb p t) = Ret (Some l) → ∀ v, v ∈ l → v ∈ facts_list p;
  law_gen vdb hosts : only setup_call (genCmd vdb hosts);
  law_exec vdb atPod cmd t : ∃ before after, Forall is_event before ∧ Forall is_event after ∧
    snd (execCmd vdb atPod cmd t) = after ++ AExecAdmintools atPod cmd :: before ++ t;
  law_cleanup vdb : only setup_call (postCmdCleanup vdb) }.

Section generic_init.
Context `{E : Env} `{O : PodOrder} `{T : AtConfDeps} (D : DatabaseInitializer) `{L : !InitializerLaws D}.
Context (vdb : VerticaDB).

(** The parameters that the generator for the kind of communal storage gave for the
    VerticaDB, with those for Kerberos if it is configured *)
Definition auth_content (since : Trace) (content : string) : Prop :=
  ∃ gen t parms res err, contentGen vdb = Some gen ∧ extends since t ∧ fst (gen t) = (parms, (res, err)) ∧
    IsReconcileAborted res err = false ∧
    let indent := newline +:+ tab +:+ tab +:+ tab in
    content = if HasKerberosConfig vdb
              then Dedent (indent +:+ parms +:+ indent +:+ getKerberosAuthParmsContent vdb) else parms.

(** The parameters for the communal storage were copied to the pod. *)
Definition auth_copied (since past : Trace) (pod : NamespacedName) : Prop :=
  ∃ content before, auth_content since content ∧ extends since before ∧
    extends (AExecInPod pod (genCopyAuthFileCmd content) :: before) past ∧
    exec_err (env_exec before pod (genCopyAuthFileCmd content)) = None.

(** [podList] are the pods that the command [cmd] is for, according to the
    VerticaDB [v], which is the one after the set-up. *)
Record init_ok (p : PodFacts) (since past : Trace) (pod : NamespacedName) (cmd : list string)
    (v : VerticaDB) (podList : list PodFact) : Prop := {
  io_no_db : ∀ f, f ∈ facts_list p → dbExists f = false;
  io_at : ∃ f, f ∈ facts_list p ∧ pf_name f = pod ∧ isInstalled f = true ∧ isPodRunning f = true ∧
    upNode f = false;
  io_auth : auth_copied since past pod;
  io_setup : ∃ t, extends since t ∧ fst (preCmdSetup vdb pod t) = Ret (v, None);
  io_pods : ∃ t, extends since t ∧ fst (getPodList v p t) = Ret (Some podList);
  io_ready : ∀ f, f ∈ podList → f ∈ facts_list p ∧ isPodRunning f = true ∧ hasDCTableAnnotations f = true;
  io_cleaned : ∀ f, f ∈ podList →
    cleaned since past (GetDBDataPath v) f ∧ cleaned since past (GetDepotPath v) f;
  io_cmd : ∃ t, extends since t ∧ fst (genCmd v (getHostList podList) t) = Ok cmd }.

Definition init_rule : rule := λ p since a past,
  match a with
  | AExecAdmintools pod cmd => ∃ v podList, init_ok p since past pod cmd v podList
  | AExecInPod pod cmd => head cmd = Some "rm" →
      cmd = ["rm"; AuthParmsFile] ∨ extends since past ∧
      ∃ f, f ∈ facts_list p ∧ pf_name f = pod ∧ isPodRunning f = true ∧ dbExists f = false
  | _ => True
  end.

Lemma init_setup_call p since a past : setup_call a → init_rule p since a past.
Proof. destruct a; try done. intros Ha Hc. by destruct Ha. Qed.

Lemma only_setup_Update v f : only setup_call (Update v f).
Proof.
  unfold Update. apply only_retry. intros s. unfold Update_attempt. wp_calls.
  repeat only_step ltac:(exact I).
Qed.

Lemma only_setup_UpdateCondition v c : only setup_call (UpdateCondition v c).
Proof.
  unfold UpdateCondition. apply only_bind; [|intros n; apply only_setup_Update].
  intros t. exists []. by split.
Qed.

Lemma only_setup_getSecret nm : only setup_call (getSecret nm).
Proof. unfold getSecret, missing_object. wp_calls. repeat only_step ltac:(exact I). Qed.

Lemma only_setup_contentGen v gen : contentGen v = Some gen → only setup_call gen.
Proof.
  assert (only setup_call (getCommunalAuth v)) as Ha.
  { unfold getCommunalAuth, wrong_key. apply only_bind; [apply only_setup_getSecret|].
    intros [secret [res err]]. wp_calls. repeat only_step ltac:(exact I). }
  assert (only setup_call (getAzureAuth v)) as Hz.
  { unfold getAzureAuth, wrong_key. apply only_bind; [apply only_setup_getSecret|].
    intros [secret [res err]]. wp_calls. repeat only_step ltac:(exact I). }
  unfold contentGen, getS3AuthParmsContent, getHDFSAuthParmsContent, getGCloudAuthParmsContent,
    getAzureAuthParmsContent.
  destruct (IsS3 v); [|destruct (IsHDFS v); [|destruct (IsGCloud v); [|destruct (IsAzure v); [|done]]]];
    intros [= <-]; try apply only_ret; (apply only_bind; [done|]).
  1, 2: intros [auth [res err]]; destruct (IsReconcileAborted res err); apply only_ret.
  intros [[creds config] [res err]]. destruct (IsReconcileAborted res err); apply only_ret.
Qed.

Lemma only_setup_dump at_ : only setup_call (debugDumpAdmintoolsConf at_).
Proof. unfold debugDumpAdmintoolsConf. wp_calls. repeat only_step ltac:(first [exact I|done]). Qed.

Lemma only_setup_exec cmd pods : head cmd ≠ Some "rm" → only setup_call (exec_in_pods cmd pods).
Proof.
  intros Hc. induction pods as [|v pods IH]; simpl; [apply only_ret|]. wp_calls.
  apply only_bind; [by apply only_call|]. intros r. destruct (exec_err r); [apply only_ret|apply IH].
Qed.

Context (p : PodFacts) (since : Trace) (R : action → Trace → Prop).
Context (HR : ∀ a past, init_rule p since a past → R a past).

Lemma setup_R a past : setup_call a → R a past.
Proof using HR. intros Ha. by apply HR, init_setup_call. Qed.

(** A part that only makes calls of the set-up *)
Lemma wp_setup {A} (m : M A) t (Q : A → Trace → Prop) :
  only setup_call m → safe R t →
  (∀ a t', m t = (a, t') → safe R t' → extends t t' → Q a t') → wp m t Q.
Proof using HR.
  intros Hm Ht HQ. eapply (wp_only setup_call _ R); [done|apply setup_R|done|apply wp_run|done].
Qed.

Lemma ConstructAuthParms_spec atPod t :
  safe R t → extends since t →
  wp (ConstructAuthParms vdb atPod) t (λ r t', safe R t' ∧ extends t t' ∧
    (IsReconcileAborted (fst r) (snd r) = false → auth_copied since t' atPod)).
Proof using HR.
  intros Ht Hs. unfold ConstructAuthParms.
  destruct (contentGen vdb) as [gen|] eqn:Hgen; [|by wp_step].
  wp_step. apply wp_setup; [by eapply only_setup_contentGen|done|].
  intros [content [res err]] t1 Hgot H1 X1.
  destruct (IsReconcileAborted res err) eqn:Ha; [wp_step; simpl; rewrite Ha; by split_and!|].
  assert (∀ c t2, safe R t2 → extends t t2 → auth_content since c →
    wp (copyAuthFile atPod c ≫= λ e, mret (no_requeue, e)) t2 (λ r t', safe R t' ∧ extends t t' ∧
      (IsReconcileAborted (fst r) (snd r) = false → auth_copied since t' atPod))) as Hcopy.
  { intros c t2 H2 X2 Hauth. wp_step. unfold copyAuthFile. wp_calls. do 2 wp_step. set (t3 := _ :: t2).
    assert (safe R t3) as H3 by (split; [by apply setup_R|done]).
    assert (extends t t3) as X3 by (etrans; [exact X2|apply extends_cons]).
    destruct (exec_err _) as [e|] eqn:He.
    - repeat wp_step. split; [split; [by apply setup_R|done]|]. split; [|done].
      etrans; [exact X3|apply extends_cons].
    - repeat wp_step. split_and!; [done..|]. intros _. exists c, t2. split_and!; [done|by etrans|done|done]. }
  assert (fst (gen t) = (content, (res, err))) as Hfst by by rewrite Hgot.
  destruct (HasKerberosConfig vdb) eqn:Hk;
    [|apply Hcopy; [done|done|]; exists gen, t, content, res, err; split_and!; try done; by rewrite Hk].
  wp_step. apply wp_setup; [|done|].
  { unfold hasCompatibleVersionForKerberos. wp_calls. repeat only_step ltac:(exact I). }
  intros res2 t2 _ H2 X2. destruct (IsReconcileAborted res2 None) eqn:Hb.
  - wp_step. simpl. rewrite Hb. split_and!; [done|by etrans|done].
  - apply Hcopy; [done|by etrans|]. exists gen, t, content, res, err. split_and!; try done. by rewrite Hk.
Qed.

Lemma finish_init_safe v q atPod t : safe R t → wp (finish_init v q atPod) t (λ _ t', safe R t').
Proof using HR L.
  intros Ht. unfold finish_init. wp_step. apply wp_setup; [apply only_setup_dump|done|]. intros _ t1 _ H1 _.
  wp_step. apply wp_setup; [apply only_setup_UpdateCondition|done|]. intros [v' [e|]] t2 _ H2 _; [by wp_step|].
  wp_step. unfold DestroyAuthParms. wp_calls. do 3 wp_step. wp_step. set (t3 := _ :: t2).
  assert (safe R t3) as H3 by (split; [apply HR; intros _; by left|done]).
  apply wp_setup; [apply law_cleanup|done|]. intros r t4 _ H4 _. by wp_step.
Qed.

Lemma cleanup_pods_eq v l : cleanupLocalFilesInPods v l = cleanup_pods v l.
Proof. done. Qed.

(** The rules hold while the command is run. *)
Lemma run_command_safe v q atPod podList t :
  (∀ f, f ∈ facts_list p → dbExists f = false) →
  (∃ f, f ∈ facts_list p ∧ pf_name f = atPod ∧ isInstalled f = true ∧ isPodRunning f = true ∧ upNode f = false) →
  (∃ t, extends since t ∧ fst (preCmdSetup vdb atPod t) = Ret (v, None)) →
  (∃ t, extends since t ∧ fst (getPodList v p t) = Ret (Some podList)) →
  checkPodList podList = true → auth_copied since t atPod →
  safe R t → extends since t →
  wp (run_command v q atPod podList) t (λ _ t', safe R t').
Proof using HR L.
  intros Hdb Hat Hpre Hpods Hready Hauth Ht Hs. unfold run_command.
  assert (∀ f, f ∈ podList → f ∈ facts_list p ∧ isPodRunning f = true ∧ hasDCTableAnnotations f = true) as Hok.
  { intros f Hf. destruct Hpods as (t' & _ & Hpods). split; [by eapply law_pods_known|].
    apply andb_true_iff. apply (proj1 (forallb_forall _ _) Hready). by apply list_elem_of_In. }
  wp_step. rewrite cleanup_pods_eq.
  eapply wp_mono; [|apply (cleanup_spec v p since R) with (pods := podList); [| |done|done]].
  2: { intros f path past Hf Hr Hd He. apply HR. intros _. right. split; [done|by exists f]. }
  2: { intros f Hf. destruct (Hok f Hf) as (? & ? & _). split_and!; [done|done|by apply Hdb]. }
  intros [e|] t1 (H1 & X1 & C1); [by wp_step|]. specialize (C1 eq_refl).
  wp_step. unfold changeDepotPermissions. apply wp_setup; [by apply only_setup_exec|done|].
  intros [e|] t2 _ H2 X2; [by wp_step|].
  wp_step. apply wp_setup; [apply only_setup_dump|done|]. intros _ t3 _ H3 X3.
  wp_step. apply wp_setup; [apply law_gen|done|]. intros [cmd|e] t4 Hgen H4 X4; [|by wp_step].
  assert (extends t t3) as X13 by (etrans; [exact X1|]; etrans; [exact X2|exact X3]).
  assert (extends t t4) as X14 by (etrans; [exact X13|exact X4]).
  apply wp_obind. destruct (law_exec v atPod cmd t4) as (before & after & Hb & Ha & Hex).
  assert (safe R (snd (execCmd v atPod cmd t4))) as H5.
  { assert (∀ l t, Forall is_event l → safe R t → safe R (l ++ t)) as Hev.
    { clear -HR. intros l t Hl Ht. apply safe_app; [done|]. intros n1 a n2 ->.
      apply Forall_app in Hl as [_ Hl]. apply Forall_cons in Hl as [Hl _]. apply setup_R. by destruct a. }
    rewrite Hex. apply (Hev after); [done|]. split; [|by apply Hev]. apply HR. exists v, podList.
    assert (extends t (before ++ t4)) as X5 by (etrans; [exact X14|apply extends_app]).
    split; try done.
    - destruct Hauth as (c & b & B0 & B1 & B2 & B3). exists c, b. split_and!; [done|done|by etrans|done].
    - intros f Hf. assert (extends t1 (before ++ t4)) as X6.
      { etrans; [exact X2|]. etrans; [exact X3|]. etrans; [exact X4|apply extends_app]. }
      destruct (C1 f Hf). split; by eapply cleaned_extends.
    - exists t3. split; [by etrans|by rewrite Hgen]. }
  unfold wp. destruct (execCmd v atPod cmd t4) as [[[res err]|m] t5]; simpl in *; [|done].
  destruct (IsReconcileAborted res err); [done|]. by apply finish_init_safe.
Qed.

Lemma runInit_safe t :
  (∀ f, f ∈ facts_list p → dbExists f = false) →
  safe R t → extends since t → wp (runInit vdb p) t (λ _ t', safe R t').
Proof using HR L.
  intros Hdb Ht Hs. unfold runInit. wp_step. apply wp_range. intros l Hl.
  destruct (findPodToRunAdmintoolsOffline l) as [at_ [|]] eqn:Hat; simpl; [|by wp_step].
  apply find_pod_true in Hat as [Hin Hat]. rewrite Hl in Hin.
  rewrite !andb_true_iff, negb_true_iff in Hat. destruct Hat as [[Hi Hr] Hu].
  wp_step. eapply wp_mono; [|by apply ConstructAuthParms_spec].
  intros [res err] t1 (H1 & X1 & C1). simpl in C1.
  destruct (IsReconcileAborted res err); [by wp_step|]. specialize (C1 eq_refl).
  apply wp_obind. apply wp_setup; [apply law_setup|done|].
  intros [[v [e|]]|m] t2 Hpre H2 X2; [by wp_step| |done].
  apply wp_obind. apply wp_setup; [apply law_pods_calls|done|].
  intros [[podList|]|m] t3 Hpods H3 X3; [|by wp_step|done].
  destruct (checkPodList podList) eqn:Hc; simpl; [|by wp_step].
  assert (extends since t1) as Y1 by (etrans; [exact Hs|exact X1]).
  assert (extends since t2) as Y2 by (etrans; [exact Y1|exact X2]).
  apply run_command_safe; try done.
  - exists at_. by split_and!.
  - exists t1. split; [done|by rewrite Hpre].
  - exists t2. split; [done|by rewrite Hpods].
  - destruct C1 as (c & b & B0 & B1 & B2 & B3). exists c, b. split_and!; [done|done| |done].
    etrans; [exact B2|]. etrans; [exact X2|exact X3].
  - etrans; [exact Y2|exact X3].
Qed.

End generic_init.

Lemma not_existsb_dbExists pods : existsb dbExists pods = false → ∀ f, f ∈ pods → dbExists f = false.
Proof.
  intros Hx f Hf. destruct (dbExists f) eqn:Hd; [|done].
  assert (existsb dbExists pods = true); [|congruence].
  apply existsb_exists. exists f. by rewrite <- list_elem_of_In.
Qed.

(** The rules for a whole iteration, with any initializer *)
Lemma init_rules `{E : Env} `{O : PodOrder} `{T : AtConfDeps} (D : DatabaseInitializer)
    `{L : !InitializerLaws D} vdb p0 t0 :
  wp (checkAndRunInit vdb p0) t0 (λ _ t',
    safe (since_start t0 (λ a past, setup_call a ∨ collect_call a ∨ based vdb (init_rule D vdb) p0 t0 a past)) t').
Proof.
  set (R := since_start t0 _). unfold checkAndRunInit. wp_step.
  eapply (wp_only collect_call _ R);
    [apply Collect_calls|intros a t Ha; right; right; by left|apply safe_start|apply wp_run|].
  intros [p [e|]] t1 Hc H1 X1; [by wp_step|]. wp_step. apply wp_range. intros l Hl.
  destruct (doesDBExist l) eqn:Hdb; simpl; [by wp_step|].
  apply wp_obind. eapply wp_mono.
  2: { apply (runInit_safe D vdb p t1 R); [| |done|done].
    - intros a past Ha. right. right. right. exists p. rewrite Hc. by split.
    - intros f Hf. eapply not_existsb_dbExists; [exact Hdb|]. by rewrite Hl. }
  intros [[[v q] [res err]]|m] t2 H2; [|done]. by destruct (IsReconcileAborted res err); wp_step.
Qed.

(** ** The pods of a revival *)

Section revive.
Context `{E : Env} (vdb : VerticaDB) (p : PodFacts).

Abbreviation scs := (spec_Subclusters (vdb_Spec vdb)).

(** The fact of pod [snd x] of the subcluster at index [fst x] *)
Definition pod_of (x : nat * Z) (f : PodFact) : Prop :=
  ∃ sc, scs !! fst x = Some sc ∧ Detail p !! GenPodName vdb sc (snd x) = Some f.

(** The pods of one subcluster among those chosen, in their order *)
Definition chosen_of (i : nat) (xs : list (nat * Z)) : list Z := snd <$> filter (λ x, fst x = i) xs.

(** The pods [xs] were added so far: of each subcluster the first ones, in the
    order of their indices. *)
Record revive_inv (s : revive_state) (xs : list (nat * Z)) : Prop := {
  ri_length : length (scPodCounts s) = length scs;
  ri_facts : Forall2 pod_of xs (rv_podList s);
  ri_counts : ∀ i sc left, scs !! i = Some sc → scPodCounts s !! i = Some left →
    (left ≤ sc_Size sc)%Z ∧ (0 ≤ left ∨ left = sc_Size sc)%Z ∧
    chosen_of i xs = indices 0 (sc_Size sc - left - 1) }.

Lemma indices_snoc k : (0 ≤ k)%Z → indices 0 k = indices 0 (k - 1) ++ [k].
Proof.
  intros Hk. unfold indices. replace (Z.to_nat (k - 0 + 1)) with (S (Z.to_nat (k - 1 - 0 + 1))) by lia.
  rewrite seq_S, fmap_app. simpl. do 3 f_equal. lia.
Qed.

Lemma chosen_of_snoc i xs j k :
  chosen_of i (xs ++ [(j, k)]) = chosen_of i xs ++ (if bool_decide (j = i) then [k] else []).
Proof.
  unfold chosen_of. rewrite filter_app, fmap_app. f_equal. rewrite filter_cons. simpl.
  case_bool_decide; case_decide; done.
Qed.

Lemma add_pods_spec i sc n s xs left t :
  scs !! i = Some sc → scPodCounts s !! i = Some left → n = 0 ∨ (Z.of_nat n ≤ left)%Z →
  revive_inv s xs →
  wp (addPodsFromSubcluster vdb p i sc n s) t (λ r _,
    match r with
    | Some s' => revive_inv s' (xs ++ ((λ k, (i, sc_Size sc - left + Z.of_nat k)%Z) <$> seq 0 n)) ∧
                 scPodCounts s' = <[i := (left - Z.of_nat n)%Z]> (scPodCounts s)
    | None => ∃ j, (0 ≤ j < sc_Size sc)%Z ∧ Detail p !! GenPodName vdb sc j = None
    end).
Proof.
  intros Hsc. revert s xs left t. induction n as [|n IH]; intros s xs left t Hleft Hn Hinv; simpl.
  { wp_step. rewrite app_nil_r, Z.sub_0_r. split; [done|]. by rewrite list_insert_id. }
  destruct (ri_counts s xs Hinv i sc left Hsc Hleft) as (Hle & _ & Hch).
  rewrite Hleft. simpl.
  destruct (Detail p !! _) as [pf|] eqn:Hpf.
  2: { unfold logBadReviveOrder. wp_calls. repeat wp_step. exists (sc_Size sc - left)%Z. split; [lia|done]. }
  set (s' := MkRevive _ _).
  assert (scPodCounts s' !! i = Some (left - 1)%Z) as Hleft'.
  { apply list_lookup_insert_eq. by eapply lookup_lt_Some. }
  eapply wp_mono; [|apply (IH s' (xs ++ [(i, sc_Size sc - left)%Z]) (left - 1)%Z); [done|lia|]].
  - intros [s''|] _; [|done]. rewrite <- (assoc_L (++)). simpl. rewrite Z.add_0_r, <- fmap_S_seq, <- list_fmap_compose.
    intros [Hi Hc]. split; [|rewrite Hc; simpl; rewrite list_insert_insert_eq; f_equal; lia].
    replace (_ <$> seq 0 n) with ((λ k, (i, sc_Size sc - (left - 1) + Z.of_nat k)%Z) <$> seq 0 n); [done|].
    apply list_fmap_ext. intros k x _. simpl. f_equal. lia.
  - split; simpl.
    + rewrite length_insert. apply Hinv.
    + apply Forall2_app; [apply Hinv|]. constructor; [|done]. by exists sc.
    + intros j sc' l' Hj Hl'. rewrite chosen_of_snoc.
      destruct (decide (i = j)) as [<-|Hne].
      * rewrite bool_decide_eq_true_2 by done. change (scPodCounts s' !! i = Some l') in Hl'.
        rewrite Hleft' in Hl'. simplify_eq.
        split_and!; [lia..|]. rewrite Hch.
        replace (sc_Size sc - (left - 1) - 1)%Z with (sc_Size sc - left)%Z by lia.
        by rewrite <- indices_snoc by lia.
      * rewrite bool_decide_eq_false_2 by done. rewrite app_nil_r. rewrite list_lookup_insert_ne in Hl' by done.
        by apply Hinv.
Qed.

(** ** The revive order *)

Definition in_range (e : SubclusterPodCount) : Prop := is_Some (lookup_index scs (spc_SubclusterIndex e)).

Definition pod_missing : Prop :=
  ∃ i sc j, scs !! i = Some sc ∧ (0 ≤ j < sc_Size sc)%Z ∧ Detail p !! GenPodName vdb sc j = None.

(** How many pods of a subcluster the order asks for *)
Definition ordered (i : nat) (order : list SubclusterPodCount) : Z :=
  foldr (λ e n, (if bool_decide (spc_SubclusterIndex e = Z.of_nat i) then spc_PodCount e else 0) + n)%Z 0%Z order.

(** The order asks for a positive number of pods each time, and in total for no
    more than there are. *)
Definition order_fits (order : list SubclusterPodCount) (counts : list Z) : Prop :=
  Forall (λ e, 0 < spc_PodCount e < 2 ^ 31)%Z order ∧
  ∀ i left, counts !! i = Some left → (ordered i order ≤ left)%Z.

(** The subclusters in the order of the revive order, as often as it says *)
Definition order_seq (order : list SubclusterPodCount) : list nat :=
  order ≫= λ e, replicate (Z.to_nat (spc_PodCount e)) (Z.to_nat (spc_SubclusterIndex e)).

Lemma lookup_index_Some {A} (l : list A) i x :
  lookup_index l i = Some x → (0 ≤ i)%Z ∧ l !! Z.to_nat i = Some x.
Proof. unfold lookup_index. case_bool_decide; [done|]. split; [lia|done]. Qed.

Lemma pods_to_add_range n left :
  pods_to_add n left = left ∨ (0 < pods_to_add n left ≤ left)%Z.
Proof. unfold pods_to_add. repeat case_bool_decide; simpl; lia. Qed.

Lemma ordered_nonneg i order :
  Forall (λ e, 0 < spc_PodCount e < 2 ^ 31)%Z order → (0 ≤ ordered i order)%Z.
Proof. induction 1; simpl; [done|]. case_bool_decide; lia. Qed.

Lemma fmap_fst_const {A B} (i : A) (f : nat → B) n : fst <$> ((λ k, (i, f k)) <$> seq 0 n) = replicate n i.
Proof.
  rewrite <- list_fmap_compose. generalize 0 as m. induction n as [|n IH]; intros m; simpl; [done|]. by rewrite IH.
Qed.

Lemma add_order_spec order s xs t :
  revive_inv s xs →
  wp (add_revive_order vdb p order s) t (λ r _,
    match r with
    | Some s' => Forall in_range order ∧ ∃ ys, revive_inv s' (xs ++ ys) ∧
                 (order_fits order (scPodCounts s) → fst <$> ys = order_seq order)
    | None => ¬ Forall in_range order ∨ pod_missing
    end).
Proof.
  revert s xs t. induction order as [|e order IH]; intros s xs t Hinv; simpl.
  { wp_step. split; [done|]. exists []. by rewrite app_nil_r. }
  destruct (lookup_index _ _) as [sc|] eqn:Hsc.
  2: { unfold logBadReviveOrder. wp_calls. repeat wp_step. left.
       intros [[sc Hr] _]%Forall_cons. unfold in_range in Hr. congruence. }
  assert (in_range e) as Hin by by exists sc.
  apply lookup_index_Some in Hsc as [Hpos Hsc]. set (i := Z.to_nat _) in *.
  destruct (lookup_lt_is_Some_2 (scPodCounts s) i) as [left Hleft].
  { rewrite (ri_length s xs Hinv). by eapply lookup_lt_Some. }
  rewrite Hleft. simpl. set (n := pods_to_add _ _).
  destruct (ri_counts s xs Hinv i sc left Hsc Hleft) as (Hle & Hcase & _).
  pose proof (pods_to_add_range (spc_PodCount e) left) as Hn. fold n in Hn.
  wp_step. eapply wp_mono; [|apply (add_pods_spec i sc _ s xs left); [done|done|lia|done]].
  intros [s1|] t1; [|intros (j & Hj & Hm); wp_step; right; by exists i, sc, j].
  set (ys := _ <$> seq 0 (Z.to_nat n)). intros [Hi1 Hc1].
  eapply wp_mono; [|by apply IH]. intros [s2|] _.
  2: { intros [Hf|Hm]; [left|by right]. intros [_ Hf']%Forall_cons. done. }
  intros [Hf (zs & Hz & Hzs)]. split; [by constructor|]. exists (ys ++ zs). rewrite (assoc_L (++)).
  split; [done|]. intros [Hpc Hfit]. apply Forall_cons in Hpc as [He Hpc]. rewrite fmap_app. unfold order_seq.
  simpl. pose proof (Hfit i left Hleft) as Hsum. simpl in Hsum. rewrite bool_decide_eq_true_2 in Hsum by lia.
  pose proof (ordered_nonneg i order Hpc).
  assert (n = spc_PodCount e) as Hne.
  { unfold n, pods_to_add. rewrite wrap32_small by (unfold int32_range; lia).
    repeat case_bool_decide; simpl; lia. }
  f_equal; [unfold ys; rewrite (fmap_fst_const i); by rewrite Hne|].
  apply Hzs. split; [done|]. intros k l Hk. rewrite Hc1 in Hk.
  destruct (decide (i = k)) as [<-|Hik].
  - rewrite list_lookup_insert_eq in Hk by (by eapply lookup_lt_Some). injection Hk as <-. lia.
  - rewrite list_lookup_insert_ne in Hk by done. pose proof (Hfit k l Hk) as Hk'. simpl in Hk'.
    rewrite bool_decide_eq_false_2 in Hk' by lia. lia.
Qed.

Lemma add_remaining_spec i rest s xs t :
  rest = drop i scs → revive_inv s xs →
  wp (add_remaining vdb p i rest s) t (λ r _,
    match r with
    | Some s' => ∃ ys, revive_inv s' (xs ++ ys) ∧ Forall (λ x, i ≤ fst x) ys ∧ Sorted le (fst <$> ys) ∧
        (∀ k left, scPodCounts s' !! k = Some left → i ≤ k → (left ≤ 0)%Z) ∧
        (∀ k, k < i → scPodCounts s' !! k = scPodCounts s !! k)
    | None => pod_missing
    end).
Proof.
  revert i s xs t. induction rest as [|sc rest IH]; intros i s xs t Hrest Hinv; simpl.
  { wp_step. exists []. rewrite app_nil_r. split_and!; [done|done|constructor| |done].
    intros k left Hk Hik. apply lookup_lt_Some in Hk. rewrite (ri_length s xs Hinv) in Hk.
    assert (length (drop i scs) = 0) as Hl by (by rewrite <- Hrest). rewrite length_drop in Hl. lia. }
  assert (scs !! i = Some sc) as Hsc.
  { rewrite <- (Nat.add_0_r i), <- lookup_drop, <- Hrest. done. }
  assert (rest = drop (S i) scs) as Hrest'.
  { rewrite <- Nat.add_1_r, <- drop_drop, <- Hrest. done. }
  destruct (lookup_lt_is_Some_2 (scPodCounts s) i) as [left Hleft].
  { rewrite (ri_length s xs Hinv). by eapply lookup_lt_Some. }
  rewrite Hleft. simpl. wp_step.
  eapply wp_mono; [|apply (add_pods_spec i sc _ s xs left); [done|done|lia|done]].
  intros [s1|] t1; [|intros (j & Hj & Hm); wp_step; by exists i, sc, j].
  set (ys := _ <$> seq 0 (Z.to_nat left)). intros [Hi1 Hc1].
  eapply wp_mono; [|by apply IH]. intros [s2|] _; [|done].
  intros (zs & Hz & Hge & Hsort & Hdone & Hkeep). exists (ys ++ zs). rewrite (assoc_L (++)).
  split_and!; [done| | | |].
  - apply Forall_app_2; [|eapply Forall_impl; [exact Hge|simpl; lia]].
    unfold ys. apply Forall_fmap, Forall_true. intros k. simpl. lia.
  - rewrite fmap_app. unfold ys. rewrite (fmap_fst_const i). apply StronglySorted_Sorted.
    apply StronglySorted_app_2; [ | |apply Sorted_StronglySorted; [intros ???; lia|done]].
    + intros a b Ha Hb. apply elem_of_replicate in Ha as [-> _]. apply list_elem_of_fmap in Hb as (x & -> & Hx).
      apply (proj1 (Forall_forall _ _) Hge) in Hx. lia.
    + apply Sorted_StronglySorted; [intros ???; lia|]. clear.
      induction (Z.to_nat left) as [|n IH]; simpl; constructor; [exact IH|]. destruct n; simpl; constructor; lia.
  - intros k l Hk Hik. destruct (decide (i = k)) as [<-|Hne]; [|eapply Hdone; [done|lia]].
    rewrite Hkeep, Hc1, list_lookup_insert_eq in Hk by (lia || by eapply lookup_lt_Some).
    injection Hk as <-. lia.
  - intros k Hk. rewrite Hkeep, Hc1 by lia. apply list_lookup_insert_ne. lia.
Qed.

(** The pods [l] of a revival are the pods [xs]: all pods of every subcluster,
    those of one subcluster in the order of their indices, and first those that a
    fitting revive order asks for. *)
Record revive_pods (l : list PodFact) (xs : list (nat * Z)) : Prop := {
  rp_facts : Forall2 pod_of xs l;
  rp_all : ∀ i sc, scs !! i = Some sc → chosen_of i xs = indices 0 (sc_Size sc - 1);
  rp_order : order_fits (spec_ReviveOrder (vdb_Spec vdb)) (sc_Size <$> scs) →
    ∃ rest, fst <$> xs = order_seq (spec_ReviveOrder (vdb_Spec vdb)) ++ rest ∧ Sorted le rest }.

Lemma revive_start : revive_inv (MkRevive (sc_Size <$> scs) []) [].
Proof.
  split; simpl; [by rewrite length_fmap|constructor|]. intros i sc left Hsc Hl.
  rewrite list_lookup_fmap, Hsc in Hl. injection Hl as <-. split_and!; [lia|by right|].
  unfold indices. by replace (Z.to_nat _) with 0 by lia.
Qed.

Lemma indices_empty k : (k < 0)%Z → indices 0 k = [].
Proof. intros Hk. unfold indices. by replace (Z.to_nat _) with 0 by lia. Qed.

Lemma revive_pods_all l xs : revive_pods l xs → ¬ pod_missing.
Proof.
  intros [Hf Ha _] (i & sc & j & Hsc & Hj & Hm).
  assert (j ∈ chosen_of i xs) as Hin by (rewrite (Ha i sc Hsc); apply indices_spec; lia).
  apply list_elem_of_fmap in Hin as ([i' j'] & Hj' & [Hi' Hx]%list_elem_of_filter). simpl in *. subst i' j'.
  apply list_elem_of_lookup in Hx as [k Hk]. destruct (Forall2_lookup_l _ _ _ _ _ Hf Hk) as (f & _ & sc' & Hsc' & Hd).
  simpl in *. congruence.
Qed.

Lemma revive_getPodList_spec t :
  wp (revivedb_getPodList vdb p) t (λ o _,
    match o with
    | Ret (Some l) => Forall in_range (spec_ReviveOrder (vdb_Spec vdb)) ∧ ∃ xs, revive_pods l xs
    | Ret None => ¬ Forall in_range (spec_ReviveOrder (vdb_Spec vdb)) ∨ pod_missing
    | Panic _ => False
    end).
Proof.
  unfold revivedb_getPodList. wp_step.
  eapply wp_mono; [|apply add_order_spec, revive_start]. intros [s|] t1; [|intros H; by wp_step].
  simpl. intros [Hr (ys & Hinv & Hord)]. wp_step.
  eapply wp_mono; [|by apply (add_remaining_spec 0 scs s ys)]. intros [s'|] t2; [|intros H; wp_step; by right].
  intros (zs & Hinv' & _ & Hsort & Hdone & _). wp_step. split; [done|]. exists (ys ++ zs).
  split; [apply Hinv'| |].
  - intros i sc Hsc. destruct (lookup_lt_is_Some_2 (scPodCounts s') i) as [left Hleft].
    { rewrite (ri_length _ _ Hinv'). by eapply lookup_lt_Some. }
    destruct (ri_counts _ _ Hinv' i sc left Hsc Hleft) as (H1 & H2 & ->).
    pose proof (Hdone i left Hleft (Nat.le_0_l _)) as H3. destruct H2 as [H2|H2].
    + f_equal. lia.
    + destruct (decide (0 ≤ left)%Z); [f_equal; lia|]. rewrite !indices_empty by lia. done.
  - intros Hfit. exists (fst <$> zs). by rewrite fmap_app, (Hord Hfit).
Qed.

End revive.

(** ** The two initializers keep the promises *)

Section laws.
Context `{E : Env}.

Lemma exec_law atPod cmd (start : string) (rest : exec_result → M (outcome (Result * option go_error))) t :
  (∀ r, only is_event (rest r)) →
  ∃ before after, Forall is_event before ∧ Forall is_event after ∧
    snd ((Event start ≫= λ _, ExecAdmintools atPod cmd ≫= rest) t)
    = after ++ AExecAdmintools atPod cmd :: before ++ t.
Proof.
  intros Hrest. destruct (Hrest (env_admintools (AEvent start :: t) atPod cmd)
    (AExecAdmintools atPod cmd :: AEvent start :: t)) as (new & Hn & Hev).
  exists [AEvent start], new. split_and!; [by repeat constructor|done|exact Hn].
Qed.

Lemma only_init_failed failure e : only is_event (init_failed failure e).
Proof. unfold init_failed. wp_calls. repeat only_step ltac:(exact I). Qed.

Lemma pods_of_spec vdb p sc ixs l :
  pods_of vdb p sc ixs = Some l → Forall2 (λ i f, Detail p !! GenPodName vdb sc i = Some f) ixs l.
Proof.
  revert l. induction ixs as [|i ixs IH]; intros l; simpl; [by intros [= <-]|].
  destruct (Detail p !! _) as [f|] eqn:Hf; [|done].
  destruct (pods_of vdb p sc ixs) as [l'|]; simpl; [|done]. intros [= <-]. constructor; [done|by apply IH].
Qed.

(** The pods of a creation: those of the first primary subcluster, in the order
    of their compat21 names; only the first of them without k-safety *)
Record create_pods (vdb : VerticaDB) (p : PodFacts) (podList : list PodFact) (sc : Subcluster)
    (all : list PodFact) : Prop := {
  cp_first : getFirstPrimarySubcluster vdb = Ret sc;
  cp_all : ∃ l, Forall2 (λ i f, Detail p !! GenPodName vdb sc i = Some f) (indices 0 (sc_Size sc - 1)) l ∧
    all ≡ₚ l;
  cp_sorted : Sorted (name_le compat21NodeName) all;
  cp_list : podList = if bool_decide (spec_KSafety (vdb_Spec vdb) = KSafety0) then take 1 all else all }.

Lemma create_getPodList_spec vdb p t :
  wp (createdb_getPodList vdb p) t (λ o _, ∀ podList, o = Ret (Some podList) →
    ∃ sc all, create_pods vdb p podList sc all).
Proof.
  unfold createdb_getPodList. destruct (getFirstPrimarySubcluster vdb) as [sc|m] eqn:Hsc; [|by wp_step].
  case_bool_decide; [by wp_step|]. destruct (pods_of _ _ _ _) as [l|] eqn:Hl; [|by wp_step].
  apply pods_of_spec in Hl. set (all := sort_by _ _). wp_step.
  assert (∀ podList, podList = (if bool_decide (spec_KSafety (vdb_Spec vdb) = KSafety0) then take 1 all else all) →
    create_pods vdb p podList sc all) as Hc.
  { intros podList ->. split; [done| | |done].
    - exists l. split; [done|]. apply merge_sort_Permutation.
    - apply (Sorted_merge_sort _). }
  apply wp_mono with (Q := λ _ _, True); [|done]. intros _ t1 _.
  case_bool_decide as Hk; [|wp_step; intros podList [= <-]; exists sc, all; apply Hc; by rewrite ?bool_decide_eq_false_2].
  destruct all as [|f all'] eqn:Hall; [by wp_step|]. wp_step. intros podList [= <-]. exists sc, (f :: all').
  by apply Hc.
Qed.

Lemma create_pods_known vdb p podList sc all : create_pods vdb p podList sc all → ∀ f, f ∈ podList → f ∈ facts_list p.
Proof.
  intros [_ (l & Hl & Hp) _ ->] f Hf. assert (f ∈ all) as Hin.
  { case_bool_decide; [|done]. by apply (subseteq_take 1). }
  rewrite Hp in Hin. apply list_elem_of_lookup in Hin as [k Hk].
  destruct (Forall2_lookup_r _ _ _ _ _ Hl Hk) as (i & _ & Hd). apply list_elem_of_fmap.
  exists (GenPodName vdb sc i, f). split; [done|]. by apply elem_of_map_to_list.
Qed.

#[global] Instance createdb_laws : InitializerLaws createdb.
Proof.
  split.
  - intros vdb atPod. simpl. unfold createdb_preCmdSetup.
    destruct (getFirstPrimarySubcluster vdb); [|apply only_ret]. wp_calls.
    apply only_bind; [by apply only_call|]. intros r. destruct (exec_err r); [apply only_ret|].
    case_bool_decide; [apply only_ret|]. apply only_bind; [apply only_setup_UpdateCondition|intros; apply only_ret].
  - intros vdb p. simpl. unfold createdb_getPodList, checkShardToNodeRatio. wp_calls.
    repeat only_step ltac:(exact I).
  - intros vdb p t l Hl f Hf. destruct (create_getPodList_spec vdb p t l Hl) as (sc & all & Hc).
    by eapply create_pods_known.
  - intros vdb hosts. simpl. unfold createdb_genCmd, GetPath. wp_calls. repeat only_step ltac:(exact I).
  - intros vdb atPod cmd t. apply exec_law. intros r.
    destruct (exec_err r); [apply only_init_failed|]. wp_calls. repeat only_step ltac:(exact I).
  - intros vdb. simpl. unfold createdb_postCmdCleanup. case_bool_decide; apply only_ret.
Qed.

Lemma only_add_pods vdb p i sc n s : only setup_call (addPodsFromSubcluster vdb p i sc n s).
Proof.
  revert s. induction n as [|n IH]; intros s; simpl; [apply only_ret|].
  destruct (Detail p !! _); [apply IH|]. unfold logBadReviveOrder. wp_calls. repeat only_step ltac:(exact I).
Qed.

#[global] Instance revivedb_laws : InitializerLaws revivedb.
Proof.
  split.
  - intros vdb atPod. apply only_ret.
  - intros vdb p. simpl. unfold revivedb_getPodList.
    assert (∀ order s, only setup_call (add_revive_order vdb p order s)) as Ho.
    { induction order as [|e order IH]; intros s; simpl; [apply only_ret|].
      destruct (lookup_index _ _); [|unfold logBadReviveOrder; wp_calls; by repeat only_step ltac:(exact I)].
      apply only_bind; [apply only_add_pods|]. intros [s'|]; [apply IH|apply only_ret]. }
    assert (∀ scs i s, only setup_call (add_remaining vdb p i scs s)) as Hr.
    { induction scs as [|sc scs IH]; intros i s; simpl; [apply only_ret|].
      apply only_bind; [apply only_add_pods|]. intros [s'|]; [apply IH|apply only_ret]. }
    apply only_bind; [apply Ho|]. intros [s|]; [|apply only_ret].
    apply only_bind; [apply Hr|]. intros [s'|]; apply only_ret.
  - intros vdb p t l Hl f Hf. pose proof (revive_getPodList_spec vdb p t) as Hs. unfold wp in Hs.
    simpl in Hl. rewrite Hl in Hs. destruct Hs as [_ (xs & [Hx _ _])].
    apply list_elem_of_lookup in Hf as [k Hk]. destruct (Forall2_lookup_r _ _ _ _ _ Hx Hk) as (x & _ & sc & _ & Hd).
    apply list_elem_of_fmap. eexists (_, f). split; [done|]. by apply elem_of_map_to_list.
  - intros vdb hosts. apply only_ret.
  - intros vdb atPod cmd t. apply exec_law. intros r.
    destruct (exec_err r); [apply only_init_failed|]. wp_calls. repeat only_step ltac:(exact I).
  - intros vdb. apply only_ret.
Qed.

End laws.

(** ** Examples *)

Definition create_env : Env := scale_env (λ _, false) (λ _, true) (λ _, None).

(** The same, revived with the first two pods first *)
Definition demo_revive : VerticaDB :=
  match vdb_Spec MakeVDB with
  | MkVerticaDBSpec a1 a2 a3 a4 a5 a6 a7 a8 a9 a10 a11 _ a13 a14 _ a16 a17 a18 a19 a20 a21 a22 a23 a24 a25 a26
      a27 a28 a29 a30 a31 =>
      set_spec MakeVDB (MkVerticaDBSpec a1 a2 a3 a4 a5 a6 a7 a8 a9 a10 a11 CommunalInitPolicyRevive a13 a14
        [MkSubclusterPodCount 0 2] a16 a17 a18 a19 a20 a21 a22 a23 a24 a25 a26 a27 a28 a29
        a30 a31)
  end.

Lemma nothing_sent (t0 n1 : Trace) a n2 : t0 = n1 ++ a :: n2 → extends t0 n2 → False.
Proof. intros -> Hx%extends_length. rewrite length_app in Hx. simpl in Hx. lia. Qed.

(** ** Properties *)



(** C15: [revive_db] is sent only when the init policy is to revive, no pod has a
    database in facts collected in this iteration, all pods of the spec are running
    and annotated, their local directories were removed and the parameters copied
    since then; it names the addresses of all pods, in the revive order. *)
Theorem revive_db_safe `{E : Env} `{O : PodOrder} `{T : AtConfDeps} vdb p0 t0 n1 pod cmd n2 :
  snd (ReviveDBReconciler_Reconcile vdb p0 t0) = n1 ++ AExecAdmintools pod cmd :: n2 →
  extends t0 n2 →
  spec_InitPolicy (vdb_Spec vdb) = CommunalInitPolicyRevive ∧
  ∃ p podList xs, fst (Collect vdb p0 t0) = (p, None) ∧
    init_ok revivedb vdb p (snd (Collect vdb p0 t0)) n2 pod cmd vdb podList ∧
    revive_pods vdb p podList xs ∧ cmd = genReviveDBCmd vdb (podIP <$> podList).
Proof.
  intros Ht Hex. unfold ReviveDBReconciler_Reconcile in Ht. case_bool_decide as Hpol.
  2: { by edestruct nothing_sent. }
  split; [done|]. pose proof (init_rules revivedb vdb p0 t0) as Hr. unfold wp in Hr.
  simpl in Ht. rewrite Ht in Hr. apply safe_since in Hr; [|done].
  destruct Hr as [[]|[[]|(p & Hc & v & podList & Hok)]].
  destruct (io_setup _ _ _ _ _ _ _ _ _ Hok) as (t0' & _ & Hv). simpl in Hv. injection Hv as <-.
  destruct (io_pods _ _ _ _ _ _ _ _ _ Hok) as (t1 & _ & Hp).
  pose proof (revive_getPodList_spec vdb p t1) as Hs. unfold wp in Hs. simpl in Hp. rewrite Hp in Hs.
  destruct Hs as [_ [xs Hxs]].
  destruct (io_cmd _ _ _ _ _ _ _ _ _ Hok) as (t2 & _ & Hg). simpl in Hg. injection Hg as <-.
  by exists p, podList, xs.
Qed.

Lemma revive_db_safe_witness :
  ∃ p podList xs, fst (@Collect create_env demo_revive MakePodFacts []) = (p, None) ∧
    revive_pods demo_revive p podList xs.
Proof.
  set (t := snd (@ReviveDBReconciler_Reconcile create_env map_order mem_deps demo_revive MakePodFacts [])).
  set (cmd := genReviveDBCmd demo_revive ["10.1.1.1"; "10.1.1.1"; "10.1.1.1"]).
  assert (t !! 5 = Some (AExecAdmintools (demo_pod 1) cmd)) as Hi by (vm_compute; reflexivity).
  destruct (@revive_db_safe create_env map_order mem_deps demo_revive MakePodFacts [] (take 5 t) (demo_pod 1) cmd
    (drop 6 t) (split_at _ _ _ Hi) (extends_nil _)) as (_ & p & podList & xs & H1 & _ & H3 & _).
  exists p, podList, xs. exact (conj H1 H3).
Defined.

(** The list of pods for a revival is found exactly when every entry of the
    revive order names a subcluster and every pod of the spec has a fact; it then
    holds every pod of every subcluster exactly once, those of one subcluster in
    the order of their indices, and starts as the revive order says when that
    asks for no more pods than there are. *)
Theorem revive_pods_correct `{E : Env} vdb p t :
  ((∃ l, fst (revivedb_getPodList vdb p t) = Ret (Some l)) ↔
    Forall (in_range vdb) (spec_ReviveOrder (vdb_Spec vdb)) ∧ ¬ pod_missing vdb p) ∧
  (∀ l, fst (revivedb_getPodList vdb p t) = Ret (Some l) → ∃ xs, revive_pods vdb p l xs).
Proof.
  pose proof (revive_getPodList_spec vdb p t) as Hs. unfold wp in Hs.
  destruct (fst (revivedb_getPodList vdb p t)) as [[l|]|m]; [| |done].
  - destruct Hs as [Hr [xs Hxs]]. split; [|intros l' [= <-]; by exists xs]. split; [|by eexists].
    intros _. split; [done|]. by eapply revive_pods_all.
  - split; [|done]. split; [by intros [l Hl]|]. tauto.
Qed.

(** The parameters for the communal storage, with its credentials, are part
    of the command that copies them into the pod, which is logged without hiding
    them. *)
Theorem credentials_logged content : Contains (logInfoCmd (genCopyAuthFileCmd content)) content = true.
Proof.
  apply Contains_spec. exists ("bash -c cat > " +:+ AuthParmsFile +:+ "<<< '"), "' ".
  unfold genCopyAuthFileCmd. cbn [logInfoCmd]. rewrite !bool_decide_eq_false_2 by done. simpl.
  repeat (f_equal; []). rewrite !str_app_assoc. done.
Qed.
