(* ===== verification/Origin.v ===== *)
(** * Where the VerticaDB of an iteration comes from

    The reconcilers of an iteration share the VerticaDB.  They may replace it by what
    the API server returns, and send it changed versions of it; building objects
    fills in its security context.  So the VerticaDB in use reads as one that the API
    server returned in the same iteration, or that was sent to it. *)

From stdpp Require Import base gmap strings pretty sorting numbers list.
From S2P Require Import Prelude GoStrings K8s Types Version KObjects Effects Status Labels ScFinder Atconf PodFacts Builder BuilderSpec Restart RestartSpec Install Scaling ScalingSpec Upgrade ObjRec InitDB StatusRec Online Frame UpgradeSpec ObjSpec.

(** ** VerticaDBs that the cluster knows *)

(** The same name and spec, apart from the security context *)
Definition reads_as (v w : VerticaDB) : Prop :=
  vdb_Name v = vdb_Name w ∧ vdb_Namespace v = vdb_Namespace w ∧
  ∃ c, vdb_Spec v = vdb_Spec (set_SecurityContext w c).

Lemma reads_as_spec v w :
  vdb_Name v = vdb_Name w → vdb_Namespace v = vdb_Namespace w → vdb_Spec v = vdb_Spec w → reads_as v w.
Proof.
  intros H1 H2 H3. split_and!; [done..|]. exists (spec_SecurityContext (vdb_Spec w)). rewrite H3.
  by destruct w as [? ? ? ? ? [] ?].
Qed.

#[global] Instance reads_as_preorder : PreOrder reads_as.
Proof.
  split; [intros v; by apply reads_as_spec|]. intros u v w (H1 & H2 & c & H3) (H4 & H5 & c' & H6).
  split_and!; [congruence..|]. exists c. rewrite H3. destruct v as [? ? ? ? ? s ?]. simpl in *. rewrite H6. done.
Qed.

Lemma reads_as_subclusters v w : reads_as v w → spec_Subclusters (vdb_Spec v) = spec_Subclusters (vdb_Spec w).
Proof. by intros (_ & _ & c & ->). Qed.

Lemma reads_as_policy v w : reads_as v w → spec_InitPolicy (vdb_Spec v) = spec_InitPolicy (vdb_Spec w).
Proof. by intros (_ & _ & c & ->). Qed.

Lemma reads_as_context v w : context_of v w → reads_as w v.
Proof. intros [c ->]. split_and!; [done..|]. by exists c. Qed.

Section origin.
Context `{D : AtConfDeps} `{E : Env} `{O : PodOrder} `{AO : AnnotationOrder}.

(** Since [t0] the VerticaDB was sent to the API server. *)
Definition sent_vdb (t0 : Trace) (w : VerticaDB) (t : Trace) : Prop :=
  ∃ b, extends t0 b ∧ extends (AUpdateVdb w :: b) t.

Definition authentic (t0 : Trace) (v : VerticaDB) (t : Trace) : Prop :=
  ∃ w, reads_as v w ∧ (returned t0 w t ∨ sent_vdb t0 w t).

Lemma authentic_extends t0 v t t' : extends t t' → authentic t0 v t → authentic t0 v t'.
Proof.
  intros He (w & Hw & H). exists w. split; [done|]. destruct H as [H|(b & H1 & H2)]; [left|right; exists b; split; [done|by etrans]].
  destruct H as [(x & Hx)|[(x & Hx)|(x & Hx)]]; [left|right; left|right; right]; exists x; by eapply answered_extends.
Qed.

Lemma authentic_earlier t0 t1 v t : extends t0 t1 → authentic t1 v t → authentic t0 v t.
Proof.
  intros He (w & Hw & H). exists w. split; [done|].
  destruct H as [[(x & b & H1 & H2)|[(x & b & H1 & H2)|(x & b & H1 & H2)]]|(b & H1 & H2)];
    [left; left|left; right; left|left; right; right|right; exists b; split; [by etrans|done]];
    exists x, b; (split; [by etrans|done]).
Qed.

Lemma authentic_since t0 v t : authentic t0 v t → extends t0 t.
Proof.
  assert (∀ a b, extends t0 b → extends (a :: b) t → extends t0 t) as Hx.
  { intros a b H1 H2. etrans; [exact H1|]. by eapply extends_trans_cons. }
  intros (w & _ & H). destruct H as [[(x & b & H1 & _ & H2)|[(x & b & H1 & _ & H2)|(x & b & H1 & _ & H2)]]|(b & H1 & H2)];
    by eapply Hx.
Qed.

(** [w] can stand for [v]. *)
Definition vfrom (v w : VerticaDB) : Prop := ∀ t0 t, authentic t0 v t → authentic t0 w t.

#[global] Instance vfrom_preorder : PreOrder vfrom.
Proof. split; [by intros v t0 t|]. intros u v w H1 H2 t0 t H. by apply H2, H1. Qed.

Lemma vfrom_reads v w : reads_as w v → vfrom v w.
Proof. intros Hr t0 t (u & Hu & H). exists u. split; [by etrans|done]. Qed.

Lemma authentic_got t0 nm w t : extends t0 t → env_get_vdb t nm = Ok w → authentic t0 w (AGetVdb nm :: t).
Proof. intros He Hg. exists w. split; [done|]. left; left. exists nm, t. by split_and!. Qed.

Lemma authentic_status t0 v w t :
  extends t0 t → env_update_vdb_status t v = Ok w → authentic t0 w (AUpdateVdbStatus v :: t).
Proof. intros He Hg. exists w. split; [done|]. left; right; left. exists v, t. by split_and!. Qed.

Lemma authentic_updated t0 v w t :
  extends t0 t → env_update_vdb t v = Ok w → authentic t0 w (AUpdateVdb v :: t).
Proof. intros He Hg. exists w. split; [done|]. left; right; right. exists v, t. by split_and!. Qed.

Lemma authentic_sent t0 v t : extends t0 t → authentic t0 v (AUpdateVdb v :: t).
Proof. intros He. exists v. split; [done|]. right. by exists t. Qed.

(** ** Computations that replace the VerticaDB *)

(** [m] starts with the VerticaDB [v]; its results satisfy [held] in place of [v]. *)
Definition refreshes {A} (held : A → option VerticaDB) (v : VerticaDB) (m : M A) : Prop :=
  ∀ t0 t, authentic t0 v t → wp m t (λ a t', extends t t' ∧ ∀ w, held a = Some w → authentic t0 w t').

Context {A : Type} (held : A → option VerticaDB).

Lemma refreshes_ret v a : (∀ w, held a = Some w → vfrom v w) → refreshes held v (mret a).
Proof. intros Ha t0 t Hv. apply wp_ret. split; [done|]. intros w Hw. by apply (Ha w Hw). Qed.

Lemma refreshes_from v w (m : M A) : vfrom v w → refreshes held w m → refreshes held v m.
Proof. intros Hw Hm t0 t Hv. by apply Hm, Hw. Qed.

Lemma refreshes_quiet {B} v (m : M B) (f : B → M A) :
  only (λ _, True) m → (∀ b, refreshes held v (f b)) → refreshes held v (m ≫= f).
Proof.
  intros Hm Hf t0 t Hv. apply wp_bind. eapply wp_mono; [|apply Hm]. intros b t1 (new & -> & _).
  assert (extends t (new ++ t)) as X by apply extends_app.
  eapply wp_mono; [|apply Hf; by eapply authentic_extends]. intros a t2 [X2 H2]. split; [by etrans|done].
Qed.

Lemma refreshes_bind {B} (h : B → option VerticaDB) v (m : M B) (f : B → M A) :
  refreshes h v m → (∀ b, refreshes held (default v (h b)) (f b)) → refreshes held v (m ≫= f).
Proof.
  intros Hm Hf t0 t Hv. apply wp_bind. eapply wp_mono; [|by apply Hm]. intros b t1 [X1 H1].
  eapply wp_mono; [|apply Hf]. { intros a t2 [X2 H2]. split; [by etrans|done]. }
  destruct (h b) as [w|]; simpl; [by apply H1|by eapply authentic_extends].
Qed.

Lemma refreshes_get v nm (f : result VerticaDB → M A) :
  (∀ w, refreshes held w (f (Ok w))) → (∀ e, refreshes held v (f (Err e))) →
  refreshes held v (r ← call (AGetVdb nm) (λ t, env_get_vdb t nm); f r).
Proof.
  intros Hok Herr t0 t Hv. apply wp_bind, wp_call. pose proof (authentic_since _ _ _ Hv) as He.
  assert (extends t (AGetVdb nm :: t)) as X by apply extends_cons.
  destruct (env_get_vdb t nm) as [w|e] eqn:Hg.
  - eapply wp_mono; [|apply Hok; by apply authentic_got]. intros a t2 [X2 H2]. split; [by etrans|done].
  - eapply wp_mono; [|apply Herr; by eapply authentic_extends]. intros a t2 [X2 H2]. split; [by etrans|done].
Qed.

Lemma refreshes_status v w (f : result VerticaDB → M A) :
  (∀ w', refreshes held w' (f (Ok w'))) → (∀ e, refreshes held v (f (Err e))) →
  refreshes held v (r ← call (AUpdateVdbStatus w) (λ t, env_update_vdb_status t w); f r).
Proof.
  intros Hok Herr t0 t Hv. apply wp_bind, wp_call. pose proof (authentic_since _ _ _ Hv) as He.
  assert (extends t (AUpdateVdbStatus w :: t)) as X by apply extends_cons.
  destruct (env_update_vdb_status t w) as [w'|e] eqn:Hg.
  - eapply wp_mono; [|apply Hok; by apply authentic_status]. intros a t2 [X2 H2]. split; [by etrans|done].
  - eapply wp_mono; [|apply Herr; by eapply authentic_extends]. intros a t2 [X2 H2]. split; [by etrans|done].
Qed.

Lemma refreshes_update v w (f : result VerticaDB → M A) :
  (∀ w', refreshes held w' (f (Ok w'))) → (∀ e, refreshes held w (f (Err e))) →
  refreshes held v (r ← call (AUpdateVdb w) (λ t, env_update_vdb t w); f r).
Proof.
  intros Hok Herr t0 t Hv. apply wp_bind, wp_call. pose proof (authentic_since _ _ _ Hv) as He.
  assert (extends t (AUpdateVdb w :: t)) as X by apply extends_cons.
  destruct (env_update_vdb t w) as [w'|e] eqn:Hg.
  - eapply wp_mono; [|apply Hok; by apply authentic_updated]. intros a t2 [X2 H2]. split; [by etrans|done].
  - eapply wp_mono; [|apply Herr; by apply authentic_sent]. intros a t2 [X2 H2]. split; [by etrans|done].
Qed.

End origin.

Lemma refreshes_retry `{E : Env} {S} (h : S → option VerticaDB) (fn : S → M (S * option go_error)) v s :
  (∀ v s, (∀ w, h s = Some w → vfrom v w) → refreshes (h ∘ fst) v (fn s)) → (∀ w, h s = Some w → vfrom v w) →
  refreshes (h ∘ fst) v (RetryOnConflict fn s).
Proof.
  intros Hfn. unfold RetryOnConflict. generalize env_retry_steps. intros steps.
  revert v s. induction steps as [|steps IH]; intros v s Hs; cbn; [by apply refreshes_ret|].
  destruct steps as [|steps]; [by apply Hfn|]. apply (refreshes_bind _ (h ∘ fst)); [by apply Hfn|].
  intros [s' err]. simpl. assert (∀ w, h s' = Some w → vfrom (default v (h s')) w) as Hs' by (by intros w ->).
  destruct err as [[]|]; first [by apply IH|by apply refreshes_ret].
Qed.

(** The VerticaDB in a result *)
Definition vdb_first {B} (x : VerticaDB * B) : option VerticaDB := Some (fst x).

Definition vdb_outcome {B} (o : outcome (VerticaDB * B)) : option VerticaDB :=
  match o with Ret x => Some (fst x) | Panic _ => None end.

Create HintDb refresh.

Ltac vfrom_tac :=
  let w := fresh "w" in
  intros w [= <-]; first [reflexivity | solve [apply vfrom_reads, reads_as_spec; reflexivity]].

Ltac refresh_norm := cbn [vdb_first vdb_outcome default compose fst snd id].

Ltac refresh_call_step :=
  lazymatch goal with
  | |- refreshes _ _ (mret _) => apply refreshes_ret; vfrom_tac
  | |- refreshes _ _ (oret _) => apply refreshes_ret; vfrom_tac
  | |- refreshes _ _ (mbind _ (call (AGetVdb _) _)) => apply refreshes_get; intros ?; cbv beta iota
  | |- refreshes _ _ (mbind _ (call (AUpdateVdbStatus _) _)) => apply refreshes_status; intros ?; cbv beta iota
  | |- refreshes _ _ (mbind _ (call (AUpdateVdb _) _)) => apply refreshes_update; intros ?; cbv beta iota
  | |- refreshes _ _ (let '(_, _) := ?x in _) => destruct x; refresh_norm
  | |- refreshes _ _ (match ?x with _ => _ end) => destruct x eqn:?; refresh_norm
  end.

(** Any calls will do. *)
Ltac grows_tac :=
  first [ by apply only_pure | solve [eapply only_mono; [|solve [eauto 2 with frame nocore]]; done]
        | solve [auto 2] | solve [repeat only_step ltac:(exact I)] ].

Ltac refresh_step :=
  first
  [ solve [eauto 2 with refresh nocore]
  | lazymatch goal with
    | |- refreshes _ _ (mbind _ (call _ _)) =>
        first [refresh_call_step | apply refreshes_quiet; [by apply only_call|intros ?]]
    | |- refreshes _ _ (obind _ _) => unfold obind
    | |- refreshes _ _ (mbind _ _) =>
        first [ eapply refreshes_bind; [solve [eauto 2 with refresh nocore]|intros ?; refresh_norm]
              | apply refreshes_quiet; [solve [grows_tac]|intros ?] ]
    end
  | refresh_call_step ].

Section updates.
Context `{D : AtConfDeps} `{E : Env} `{O : PodOrder} `{AO : AnnotationOrder}.

Lemma refreshes_Update v f : refreshes vdb_first v (Update v f).
Proof.
  unfold Update. apply (refreshes_retry Some); [|vfrom_tac]. clear v. intros v s Hs.
  apply (refreshes_from _ _ s); [by apply Hs|]. change (Some ∘ fst) with (@vdb_first (option go_error)).
  unfold Update_attempt. wp_calls. repeat refresh_step.
Qed.

#[local] Hint Resolve refreshes_Update : refresh.

Lemma refreshes_UpdateCondition v c : refreshes vdb_first v (UpdateCondition v c).
Proof. unfold UpdateCondition. repeat refresh_step. Qed.

Lemma refreshes_upgrade_status v msg : refreshes vdb_first v (setUpgradeStatus v msg).
Proof. unfold setUpgradeStatus, UpdateUpgradeStatus. repeat refresh_step. Qed.

#[local] Hint Resolve refreshes_UpdateCondition refreshes_upgrade_status : refresh.

Lemma refreshes_toggle cond v st : refreshes vdb_first v (toggleImageChangeInProgress cond v st).
Proof. unfold toggleImageChangeInProgress. repeat refresh_step. Qed.

#[local] Hint Resolve refreshes_toggle : refresh.

Lemma refreshes_start cond b v : refreshes vdb_first v (startUpgrade cond b v).
Proof.
  unfold startUpgrade. wp_calls. repeat first [refresh_step | apply refreshes_quiet; [destruct (negb b); [by apply only_call|apply only_ret]|intros ?]].
Qed.

Lemma refreshes_finish cond v : refreshes vdb_first v (finishUpgrade cond v).
Proof. unfold finishUpgrade. wp_calls. repeat refresh_step. Qed.

Lemma refreshes_postmsg v msgs i : refreshes vdb_first v (manager_postNextStatusMsg v msgs i).
Proof. unfold manager_postNextStatusMsg. repeat refresh_step. Qed.

Lemma refreshes_version_attempts anns v : refreshes vdb_first v (RetryOnConflict (version_attempt anns) v).
Proof.
  apply (refreshes_retry Some); [|vfrom_tac]. clear v. intros v s Hs.
  apply (refreshes_from _ _ s); [by apply Hs|]. change (Some ∘ fst) with (@vdb_first (option go_error)).
  unfold version_attempt. wp_calls. apply refreshes_get; intros ?; cbv beta iota; [|repeat refresh_step].
  destruct (MergeAnnotations w _) as [w' c] eqn:Hm. assert (vfrom w w') as Hw.
  { apply vfrom_reads. unfold MergeAnnotations in Hm. destruct (merge_annotations _ _ _) as [m b]. injection Hm as <- _.
    by apply reads_as_spec. }
  apply (refreshes_from _ _ _ _ Hw). repeat refresh_step.
Qed.

#[local] Hint Resolve refreshes_version_attempts : refresh.

Lemma refreshes_reconcileVersion enforce v pod : refreshes vdb_outcome v (reconcileVersion enforce v pod).
Proof. unfold reconcileVersion, getVersion, updateVDBVersion. wp_calls. repeat refresh_step. Qed.

Lemma refreshes_UpdateM v f : (∀ w, only (λ _, True) (f w)) → refreshes vdb_outcome v (UpdateM v f).
Proof.
  intros Hf. unfold UpdateM.
  set (h := λ o : outcome VerticaDB, match o with Ret w => Some w | Panic _ => None end).
  apply (refreshes_bind _ (h ∘ fst)).
  - apply (refreshes_retry h); [|vfrom_tac]. clear v. intros v s Hs. unfold UpdateM_attempt. destruct s as [u|m].
    + apply (refreshes_from _ _ u); [by apply Hs|]. wp_calls. repeat refresh_step.
    + repeat refresh_step.
  - intros [[w|m] err]; repeat refresh_step.
Qed.

Lemma refreshes_createdb v pod : refreshes vdb_outcome v (createdb_preCmdSetup v pod).
Proof.
  unfold createdb_preCmdSetup, olift. wp_calls. repeat first [refresh_step | eapply refreshes_bind; [apply refreshes_UpdateCondition|intros ?]].
Qed.

End updates.

#[export] Hint Resolve refreshes_Update refreshes_UpdateCondition refreshes_upgrade_status refreshes_toggle refreshes_start
  refreshes_finish refreshes_postmsg refreshes_version_attempts refreshes_reconcileVersion : refresh.
