(* ===== verification/Facts.v ===== *)
(** * Where the facts of an iteration come from

    The reconcilers of an iteration share the facts on the pods.  Each of them may
    collect the facts, mark them as out of date or note that it has annotated a
    pod, and nothing else.  So facts that are in use were collected in the same
    iteration, possibly by an earlier reconciler, for a VerticaDB that the API server
    knows ([Origin]). *)

From stdpp Require Import base gmap strings pretty sorting numbers list.
From S2P Require Import Prelude GoStrings GoRegexp K8s Types Version KObjects Effects Status Labels ScFinder Atconf PodFacts PodFactsSpec Builder Restart RestartSpec Install Scaling ScalingSpec Upgrade ObjRec InitDB StatusRec Online Frame UpgradeSpec ObjSpec InitSpec Origin.

(** ** Facts that were collected *)

(** Equal but for the annotations that pods were given *)
Definition alike (p q : PodFacts) : Prop :=
  (λ pf, set_dc_annotations pf true) <$> Detail p = (λ pf, set_dc_annotations pf true) <$> Detail q.

#[global] Instance alike_equivalence : Equivalence alike.
Proof. split; unfold alike; [done|by intros ???|intros p q r Hp Hq; by rewrite Hp]. Qed.

Lemma alike_lookup p q nm pf :
  alike p q → Detail p !! nm = Some pf → ∃ pf', Detail q !! nm = Some pf' ∧ set_dc_annotations pf true = set_dc_annotations pf' true.
Proof.
  intros Ha Hp. apply (f_equal (.!! nm)) in Ha. rewrite !lookup_fmap, Hp in Ha. simpl in Ha.
  destruct (Detail q !! nm) as [pf'|]; [|done]. exists pf'. split; [done|]. by apply (inj Some).
Qed.

Section facts.
Context `{E : Env}.

(** After [t0] and before [t] facts were collected, with the result [p] *)
Definition collected_at (t0 : Trace) (p : PodFacts) (t : Trace) : Prop :=
  ∃ vdb q t1 p', extends t0 t1 ∧ authentic t0 vdb t1 ∧ NeedCollection q = true ∧ fst (Collect vdb q t1) = (p', None) ∧ alike p p' ∧
    extends (snd (Collect vdb q t1)) t.

(** Facts that count as up to date were collected. *)
Definition genuine (t0 : Trace) (p : PodFacts) (t : Trace) : Prop :=
  extends t0 t ∧ (NeedCollection p = false → collected_at t0 p t).

Lemma collected_extends t0 p t t' : collected_at t0 p t → extends t t' → collected_at t0 p t'.
Proof.
  intros (v & q & t1 & p' & H1 & Hv & H2 & H3 & H4 & H5) He. exists v, q, t1, p'. split_and!; [done..|by etrans].
Qed.

Lemma genuine_extends t0 p t t' : genuine t0 p t → extends t t' → genuine t0 p t'.
Proof. intros [H1 H2] He. split; [by etrans|]. intros Hn. by eapply collected_extends; [apply H2|]. Qed.

Lemma genuine_stale t0 p t : extends t0 t → NeedCollection p = true → genuine t0 p t.
Proof. intros He Hn. split; [done|]. by rewrite Hn. Qed.

Lemma collected_earlier t0 t p t' : extends t0 t → collected_at t p t' → collected_at t0 p t'.
Proof.
  intros He (v & q & t1 & p' & H1 & Hv & H2). exists v, q, t1, p'. split; [by etrans|].
  split; [by eapply authentic_earlier|done].
Qed.

(** *** The collection *)

Lemma collect_pods_stale vdb sc replicas i n p t :
  wp (collect_pods vdb sc replicas i n p) t (λ r _, NeedCollection (fst r) = NeedCollection p).
Proof.
  revert i p t. induction n as [|n IH]; intros i p t; simpl; [by wp_step|]. wp_step.
  unfold collectPodByStsIndex. wp_calls. do 2 wp_step.
  assert (∀ pf, wp (r ← run_checks (checks vdb) pf;
      match r with
      | Err e => mret (p, Some e)
      | Ok pf => mret (MkPodFacts (<[pf_name pf := pf]> (Detail p)) (NeedCollection p), None)
      end) (AGetPod (GenPodName vdb sc i) :: t)
    (λ a t0, wp (let '(p0, err) := a in match err with
      | Some e => mret (p0, Some e) | None => collect_pods vdb sc replicas (i + 1) n p0 end) t0
      (λ r _, NeedCollection r.1 = NeedCollection p))) as Hgo.
  { intros pf. wp_step. eapply wp_mono; [|apply wp_run]. intros [pf'|e] t' _; wp_step; [|by wp_step].
    eapply wp_mono; [|apply IH]. done. }
  destruct (env_get_pod _ _) as [pod|[]]; first [apply Hgo | by do 2 wp_step].
Qed.

Lemma collect_subclusters_stale vdb scs p t :
  NeedCollection p = true →
  wp (collect_subclusters vdb scs p) t (λ r _, snd r ≠ None → NeedCollection (fst r) = true).
Proof.
  revert p t. induction scs as [|sc scs IH]; intros p t Hp; simpl; [by wp_step|]. wp_step.
  unfold collectSubcluster. wp_calls. do 2 wp_step.
  assert (∀ replicas, wp (collect_pods vdb sc replicas 0 (Z.to_nat (maxStsSize sc replicas)) p)
    (AGetSts (GenStsName vdb sc) :: t) (λ a t0, wp (let '(p0, err) := a in match err with
      | Some e => mret (p0, Some e) | None => collect_subclusters vdb scs p0 end) t0
      (λ r _, r.2 ≠ None → NeedCollection r.1 = true))) as Hgo.
  { intros replicas. eapply wp_mono; [|apply collect_pods_stale]. intros [q [e|]] t' Hq; simpl in Hq.
    - wp_step. simpl. congruence.
    - apply IH. congruence. }
  destruct (env_get_sts _ _) as [sts|[]]; first [apply Hgo | by do 2 wp_step].
Qed.

(** A failed collection leaves the facts out of date. *)
Lemma Collect_stale vdb p t :
  NeedCollection p = true →
  wp (Collect vdb p) t (λ r _, snd r ≠ None → NeedCollection (fst r) = true).
Proof.
  intros Hp. unfold Collect. rewrite Hp. simpl. wp_step. eapply wp_mono; [|apply wp_run].
  intros [scs|e] t' _; [|by wp_step]. by apply collect_subclusters_stale.
Qed.

Lemma Collect_grows vdb p t : extends t (snd (Collect vdb p t)).
Proof. destruct (Collect_calls vdb p t) as (new & -> & _). apply extends_app. Qed.

(** What a collection returns without an error was collected in the iteration. *)
Lemma Collect_used t0 vdb p t q :
  genuine t0 p t → authentic t0 vdb t → fst (Collect vdb p t) = (q, None) → collected_at t0 q (snd (Collect vdb p t)).
Proof.
  intros [He Hp] Hv Hc. destruct (NeedCollection p) eqn:Hn.
  - by exists vdb, p, t, q.
  - assert (Collect vdb p t = (p, None, t)) as Heq by (unfold Collect; by rewrite Hn).
    rewrite Heq in Hc |- *. injection Hc as <-. by apply Hp.
Qed.

Lemma Collect_genuine t0 vdb p t :
  genuine t0 p t → authentic t0 vdb t → genuine t0 (fst (fst (Collect vdb p t))) (snd (Collect vdb p t)).
Proof.
  intros Hp Hv. split; [etrans; [apply Hp|apply Collect_grows]|]. destruct (fst (Collect vdb p t)) as [q [e|]] eqn:Hc; simpl.
  2: { intros _. by eapply Collect_used. }
  destruct (NeedCollection p) eqn:Hn.
  - pose proof (Collect_stale vdb p t Hn) as Hs. unfold wp in Hs. rewrite Hc in Hs. simpl in Hs.
    rewrite Hs by done. done.
  - exfalso. revert Hc. unfold Collect. by rewrite Hn.
Qed.

End facts.

(** ** What computations do with the facts *)

(** The facts in a result, and the VerticaDB if it has one *)
Class Carries (A : Type) := MkCarries { carried : A → PodFacts; held : A → option VerticaDB }.

#[global] Instance carries_facts : Carries PodFacts := {| carried := λ p, p; held := λ _, None |}.
#[global] Instance carries_fst {A B} `{Carries A} : Carries (A * B) :=
  {| carried := λ x, carried (fst x); held := λ x, held (fst x) |}.
#[global] Instance carries_snd {B} `{Carries B} : Carries (VerticaDB * B) :=
  {| carried := λ x, carried (snd x); held := λ x, Some (fst x) |}.
#[global] Instance carries_up : Carries up_state := {| carried := us_pf; held := λ s, Some (us_vdb s) |}.
#[global] Instance carries_obj : Carries obj_state := {| carried := ob_pf; held := λ s, Some (ob_vdb s) |}.
#[global] Instance carries_on : Carries on_state := {| carried := on_pf; held := λ s, Some (on_vdb s) |}.

(** After a panic there are no facts left. *)
#[global] Instance carries_outcome {A} `{Carries A} : Carries (outcome A) := {|
  carried := λ o, match o with Ret a => carried a | Panic _ => MakePodFacts end;
  held := λ o, match o with Ret a => held a | Panic _ => None end |}.

Section carries.
Context `{E : Env}.

(** Facts [q] that are genuine when [p] are *)
Definition from (p q : PodFacts) : Prop := ∀ t0 t, genuine t0 p t → genuine t0 q t.

#[global] Instance from_preorder : PreOrder from.
Proof. split; [by intros p t0 t|]. intros p q r Hpq Hqr t0 t Hp. by apply Hqr, Hpq. Qed.

Lemma from_stale p q : NeedCollection q = true → from p q.
Proof. intros Hn t0 t [He _]. by apply genuine_stale. Qed.

Lemma from_annotated p nm b :
  from p (MkPodFacts (alter (λ pf, set_dc_annotations pf b) nm (Detail p)) (NeedCollection p)).
Proof.
  intros t0 t [He Hp]. split; [done|]. simpl. intros Hn. destruct (Hp Hn) as (v & q & t1 & p' & H1 & Hv & H2 & H3 & H4 & H5).
  exists v, q, t1, p'. split_and!; try done. rewrite <- H4. unfold alike. simpl. apply map_eq. intros i.
  rewrite !lookup_fmap. destruct (decide (i = nm)) as [->|]; [|by rewrite lookup_alter_ne].
  rewrite lookup_alter_eq. by destruct (Detail p !! nm).
Qed.

(** [m] returns facts that come from [p], and a VerticaDB that the API server knows
    if [v] is one. *)
Definition carries {A} `{Carries A} (v : VerticaDB) (p : PodFacts) (m : M A) : Prop :=
  ∀ t0 t, genuine t0 p t → authentic t0 v t →
  wp m t (λ r t', extends t t' ∧ genuine t0 (carried r) t' ∧ ∀ w, held r = Some w → authentic t0 w t').

Lemma carries_ret {A} `{Carries A} v p (a : A) :
  from p (carried a) → (∀ w, held a = Some w → vfrom v w) → carries v p (mret a).
Proof. intros Ha Hw t0 t Hp Hv. apply wp_ret. split_and!; [done|by apply Ha|]. intros w Hh. by apply (Hw w Hh). Qed.

Lemma carries_from {A} `{Carries A} v p q (m : M A) : from p q → carries v q m → carries v p m.
Proof. intros Hq Hm t0 t Hp. by apply Hm, Hq. Qed.

Lemma carries_vfrom {A} `{Carries A} v w p (m : M A) : vfrom v w → carries w p m → carries v p m.
Proof. intros Hq Hm t0 t Hp Hv. by apply Hm, Hq. Qed.

(** The first part returns neither facts nor a VerticaDB, a VerticaDB, or both. *)
Lemma carries_quiet {A B} `{Carries B} v p (m : M A) (f : A → M B) :
  only (λ _, True) m → (∀ a, carries v p (f a)) → carries v p (m ≫= f).
Proof.
  intros Hm Hf t0 t Hp Hv. apply wp_bind. eapply wp_mono; [|apply Hm]. intros a t' (new & -> & _).
  assert (extends t (new ++ t)) as X by apply extends_app.
  eapply wp_mono; [|apply Hf; [by eapply genuine_extends|by eapply authentic_extends]].
  intros b t2 [X2 H2]. split; [by etrans|done].
Qed.

Lemma carries_refresh {A B} `{Carries B} (h : A → option VerticaDB) v p (m : M A) (f : A → M B) :
  refreshes h v m → (∀ a, carries (default v (h a)) p (f a)) → carries v p (m ≫= f).
Proof.
  intros Hm Hf t0 t Hp Hv. apply wp_bind. eapply wp_mono; [|by apply Hm]. intros a t' [X Ha].
  eapply wp_mono; [|apply Hf; [by eapply genuine_extends|]].
  - intros b t2 [X2 H2]. split; [by etrans|done].
  - destruct (h a); simpl; [by apply Ha|by eapply authentic_extends].
Qed.

Lemma carries_bind {A B} `{Carries A} `{Carries B} v p (m : M A) (f : A → M B) :
  carries v p m → (∀ a, carries (default v (held a)) (carried a) (f a)) → carries v p (m ≫= f).
Proof.
  intros Hm Hf t0 t Hp Hv. apply wp_bind. eapply wp_mono; [|by apply Hm]. intros a t' (X & Ha & Hw).
  eapply wp_mono; [|apply Hf; [done|]].
  - intros b t2 [X2 H2]. split; [by etrans|done].
  - destruct (held a); simpl; [by apply Hw|by eapply authentic_extends].
Qed.

Lemma carries_panic {A} `{Carries A} v p msg : carries v p (mret (Panic msg : outcome A)).
Proof. apply carries_ret; [by apply from_stale|done]. Qed.

Lemma carries_oquiet {A B} `{Carries B} v p (m : M (outcome A)) (f : A → M (outcome B)) :
  only (λ _, True) m → (∀ a, carries v p (f a)) → carries v p (obind m f).
Proof. intros Hm Hf. apply carries_quiet; [done|]. intros [a|msg]; [apply Hf|apply carries_panic]. Qed.

Lemma carries_orefresh {A B} `{Carries B} (h : outcome A → option VerticaDB) v p (m : M (outcome A)) (f : A → M (outcome B)) :
  refreshes h v m → (∀ a, carries (default v (h (Ret a))) p (f a)) → carries v p (obind m f).
Proof. intros Hm Hf. apply (carries_refresh h); [done|]. intros [a|msg]; [apply Hf|apply carries_panic]. Qed.

Lemma carries_obind {A B} `{Carries A} `{Carries B} v p (m : M (outcome A)) (f : A → M (outcome B)) :
  carries v p m → (∀ a, carries (default v (held a)) (carried a) (f a)) → carries v p (obind m f).
Proof. intros Hm Hf. apply carries_bind; [done|]. intros [a|msg]; [apply Hf|apply carries_panic]. Qed.

Lemma carries_retry {S} `{Carries S} (fn : S → M (S * option go_error)) v s p :
  from p (carried s) → (∀ w, held s = Some w → vfrom v w) →
  (∀ v s, (∀ w, held s = Some w → vfrom v w) → carries v (carried s) (fn s)) → carries v p (RetryOnConflict fn s).
Proof.
  unfold RetryOnConflict. generalize env_retry_steps. intros steps Hs Hv Hfn.
  apply (carries_from _ _ _ _ Hs). clear Hs p.
  revert v s Hv. induction steps as [|steps IH]; intros v s Hv; simpl; [by apply carries_ret|].
  destruct steps; [by apply Hfn|]. apply carries_bind; [by apply Hfn|].
  intros [s' err]. assert (∀ w, held s' = Some w → vfrom (default v (held s')) w) as Hs' by (by intros w ->).
  destruct err as [[]|]; simpl; solve [by apply IH | by apply carries_ret].
Qed.

(** The calls that return a VerticaDB *)
Lemma carries_get {A} `{Carries A} v p nm (f : result VerticaDB → M A) :
  (∀ w, carries w p (f (Ok w))) → (∀ e, carries v p (f (Err e))) →
  carries v p (r ← call (AGetVdb nm) (λ t, env_get_vdb t nm); f r).
Proof.
  intros Hok Herr.
  apply (carries_refresh (λ r, match r with Ok w => Some w | Err _ => None end)); [|by intros []].
  intros t0 t Hv. apply wp_call. split; [apply extends_cons|]. intros w.
  destruct (env_get_vdb t nm) as [w'|] eqn:Hg; [|done]. intros [= <-].
  apply authentic_got; [by eapply authentic_since|done].
Qed.

(** A failed update leaves the version that was sent. *)
Lemma carries_update {A} `{Carries A} v p u (f : result VerticaDB → M A) :
  (∀ w, carries w p (f (Ok w))) → (∀ e, carries u p (f (Err e))) →
  carries v p (r ← call (AUpdateVdb u) (λ t, env_update_vdb t u); f r).
Proof.
  intros Hok Herr.
  apply (carries_refresh (λ r, match r with Ok w => Some w | Err _ => Some u end)); [|by intros []].
  intros t0 t Hv. apply wp_call. split; [apply extends_cons|]. intros w. pose proof (authentic_since _ _ _ Hv) as He.
  destruct (env_update_vdb t u) as [w'|] eqn:Hg; intros [= <-]; [by apply authentic_updated|by apply authentic_sent].
Qed.

Lemma carries_Collect vdb p : carries vdb p (Collect vdb p).
Proof.
  intros t0 t Hp Hv. split; [apply Collect_grows|]. split; [by apply Collect_genuine|done].
Qed.

End carries.

Create HintDb carries.

#[export] Hint Resolve carries_Collect : carries.

(** A computation of which only the calls matter *)
Ltac grows_step :=
  first
  [ lazymatch goal with
    | |- only _ (range_pods _ _) => by apply only_pure
    | |- only _ (range_scs _ _) => by apply only_pure
    | |- only _ Now => by apply only_pure
    | |- only _ (SetControllerReference _) => by apply only_pure
    end
  | solve [eapply only_mono; [|solve [eauto 2 with frame nocore]]; done]
  | lazymatch goal with
    | |- only _ (obind _ _) => apply only_obind; [|intros ?]
    | |- only _ (olift _) => unfold olift
    | |- only _ _ => only_step ltac:(exact I)
    end ].

Ltac from_tac :=
  first [ reflexivity | solve [apply from_stale; reflexivity]
        | solve [repeat case_match; first [reflexivity | apply from_stale; reflexivity]] ].

(** The VerticaDB of a result is the one that there was, or is built from it. *)
Ltac held_tac :=
  let w := fresh "w" in intros w;
  first [ discriminate
        | intros [= <-]; first [ reflexivity | solve [apply vfrom_reads, reads_as_spec; reflexivity]
            | solve [repeat case_match; reflexivity] ] ].

Ltac carried_norm :=
  lazymatch goal with
  | |- @carries ?E ?A ?C ?v ?p ?m =>
      let v' := eval cbv [held carried carries_facts carries_fst carries_snd carries_up carries_obj carries_on
        carries_outcome fst snd default vdb_first vdb_outcome compose id] in v in
      let p' := eval cbv [carried held carries_facts carries_fst carries_snd carries_up carries_obj carries_on
        carries_outcome fst snd] in p in
      change (@carries E A C v' p' m)
  end.

Ltac carries_known := solve [eauto 2 with carries nocore].

Ltac refresh_known := solve [eauto 2 with refresh nocore].

Ltac carries_step :=
  first
  [ carries_known
  | lazymatch goal with
    | |- carries _ _ (mret (Panic _)) => apply carries_panic
    | |- carries _ _ (mret _) => apply carries_ret; [from_tac|held_tac]
    | |- carries _ _ (oret _) => apply carries_ret; [from_tac|held_tac]
    | |- carries _ _ (proceed _) => apply carries_ret; [from_tac|held_tac]
    | |- carries _ _ (mbind _ (call (AGetVdb _) _)) => apply carries_get; intros ?; cbv beta iota
    | |- carries _ _ (mbind _ (call (AUpdateVdb _) _)) => apply carries_update; intros ?; cbv beta iota
    | |- carries _ _ (obind _ _) =>
        first [ apply carries_obind; [solve [repeat carries_step]|intros ?; carried_norm]
              | eapply carries_orefresh; [refresh_known|intros ?; carried_norm]
              | apply carries_oquiet; [solve [repeat grows_step]|intros ?] ]
    | |- carries _ _ (mbind _ _) =>
        first [ apply carries_bind; [solve [repeat carries_step]|intros ?; carried_norm]
              | eapply carries_refresh; [refresh_known|intros ?; carried_norm]
              | apply carries_quiet; [solve [repeat grows_step]|intros ?] ]
    | |- carries _ _ (let '(_, _) := ?x in _) => destruct x; carried_norm
    | |- carries _ _ (match ?x with _ => _ end) => destruct x eqn:?; carried_norm
    end ].

Ltac carries_auto := wp_calls; repeat carries_step.

(** ** The reconcilers *)

Section reconcilers.
Context `{D : AtConfDeps} `{E : Env} `{O : PodOrder} `{AO : AnnotationOrder} (d : DeploymentNames).

#[local] Hint Resolve within_Obj within_reconcileSts within_reconcileExtSvc within_Create within_Revive
  within_Status within_Metric within_Operator120 within_statuses : frame.

Lemma carries_restartPods vdb p at_ pods : carries vdb p (restartPods vdb p at_ pods).
Proof. unfold restartPods, removePodsWithClusterUpState, fetchClusterNodeStatus, execRestartPods. carries_auto. Qed.

Lemma carries_nodes_end v p : carries v p (reconcileNodes_end p).
Proof. unfold reconcileNodes_end, shouldRequeueIfPodsNotRunning. carries_auto. Qed.

#[local] Hint Resolve carries_restartPods carries_nodes_end : carries.

Lemma carries_nodes_reip vdb p at_ : carries vdb p (reconcileNodes_reip vdb p at_).
Proof. unfold reconcileNodes_reip. carries_auto. Qed.

#[local] Hint Resolve carries_nodes_reip : carries.

Lemma carries_Nodes b vdb p at_ : carries vdb p (reconcileNodes b vdb p at_).
Proof. unfold reconcileNodes. carries_auto. Qed.

Lemma carries_Cluster b vdb p at_ : carries vdb p (reconcileCluster b vdb p at_).
Proof. unfold reconcileCluster, restartCluster. carries_auto. Qed.

#[local] Hint Resolve carries_Nodes carries_Cluster : carries.

Lemma carries_Restart b vdb p at_ : carries vdb p (Restart.Reconcile b vdb p at_).
Proof. unfold Restart.Reconcile. carries_auto. Qed.

Lemma carries_scaledown vdb (f : scale_down_func) p scs :
  (∀ p sc lo hi, carries vdb p (f p sc lo hi)) → carries vdb p (scaledown_all vdb f p scs).
Proof.
  intros Hf. revert p. induction scs as [|sc scs IH]; intros p; simpl; [by apply carries_ret; [|held_tac]|].
  apply carries_obind; [unfold scaledownSubcluster; carries_auto; eauto|]. intros [q [res err]]. carried_norm.
  destruct (IsReconcileAborted res err); [by apply carries_ret; [|held_tac]|apply IH].
Qed.

Lemma carries_RemoveNode vdb p : carries vdb p (DBRemoveNodeReconciler_Reconcile vdb p).
Proof.
  unfold DBRemoveNodeReconciler_Reconcile. repeat first [carries_step | apply carries_scaledown].
  intros q sc lo hi. unfold removeNodesInSubcluster, removenode_execATCmd, exec_at_with_events. carries_auto.
Qed.

Lemma carries_Uninstall vdb p : carries vdb p (UninstallReconciler_Reconcile vdb p).
Proof.
  unfold UninstallReconciler_Reconcile. repeat first [carries_step | apply carries_scaledown].
  intros q sc lo hi. unfold uninstallPodsInSubcluster. carries_auto.
Qed.

Lemma carries_RemoveSubcluster vdb p : carries vdb p (DBRemoveSubclusterReconciler_Reconcile vdb p).
Proof.
  unfold DBRemoveSubclusterReconciler_Reconcile, removeExtraSubclusters, resetDefaultSubcluster, getDefaultSubcluster,
    changeDefaultSubcluster. carries_auto.
Qed.

Lemma carries_Drain vdb p : carries vdb p (DrainNodeReconciler_Reconcile vdb p).
Proof. unfold DrainNodeReconciler_Reconcile. carries_auto. Qed.

Lemma carries_addnode vdb p sc : carries vdb p (addnode_reconcileSubcluster vdb p sc).
Proof. unfold addnode_reconcileSubcluster, runAddNode, runAddNodeForPod, changeDepotPermissions. carries_auto. Qed.

#[local] Hint Resolve carries_addnode : carries.

Lemma carries_addnodes vdb p scs : carries vdb p (addnode_subclusters vdb p scs).
Proof. revert p. induction scs; intros p; simpl; [by apply carries_ret; [|held_tac]|]. carries_auto; eauto. Qed.

#[local] Hint Resolve carries_addnodes : carries.

Lemma carries_AddNode vdb p : carries vdb p (DBAddNodeReconciler_Reconcile vdb p).
Proof. unfold DBAddNodeReconciler_Reconcile. carries_auto. Qed.

Lemma carries_AddSubcluster vdb p : carries vdb p (DBAddSubclusterReconciler_Reconcile vdb p).
Proof. unfold DBAddSubclusterReconciler_Reconcile. carries_auto. Qed.

Lemma carries_rebalance_all v at_ p scs : carries v p (rebalance_all at_ p scs).
Proof.
  revert p. induction scs; intros p; simpl; [by apply carries_ret; [|held_tac]|]. unfold rebalanceShards. carries_auto.
  apply (carries_from _ p (Invalidate p)); [by apply from_stale|apply IHscs].
Qed.

#[local] Hint Resolve carries_rebalance_all : carries.

Lemma carries_Rebalance sc vdb p : carries vdb p (RebalanceShardsReconciler_Reconcile sc vdb p).
Proof. unfold RebalanceShardsReconciler_Reconcile. carries_auto. Qed.

Lemma carries_Routing m sc vdb p : carries vdb p (ClientRoutingLabelReconciler_Reconcile m sc vdb p).
Proof. unfold ClientRoutingLabelReconciler_Reconcile. carries_auto. Qed.

Lemma carries_StopDB vdb p : carries vdb p (StopDBReconciler_Reconcile vdb p).
Proof. unfold StopDBReconciler_Reconcile, stopVertica, stopdb_runATCmd, exec_at_with_events. carries_auto. Qed.

Lemma carries_Install vdb p : carries vdb p (InstallReconciler_Reconcile vdb p).
Proof.
  unfold InstallReconciler_Reconcile, analyzeFacts, acceptEulaIfMissing, checkConfigDir, addHostsToATConf,
    getInstallTargets. carries_auto.
Qed.

Lemma carries_Version enforce find vdb p : carries vdb p (VersionReconciler_Reconcile enforce find vdb p).
Proof.
  unfold VersionReconciler_Reconcile, reconcileVersion, getVersion, updateVDBVersion, version_attempt. carries_auto.
Qed.

Lemma carries_annotate_pods v anns labels pods p : carries v p (annotate_pods anns labels pods p).
Proof.
  revert p. induction pods as [|pf pods IH]; intros p; simpl; [by apply carries_ret; [|held_tac]|].
  destruct (exists_ pf); [|apply IH]. apply carries_bind.
  { unfold applyAnnotationsAndLabels. apply carries_retry; [done|done|]. intros u q _. carried_norm.
    unfold annotate_attempt. wp_calls. repeat first [carries_step | apply carries_ret; [apply from_annotated|held_tac]]. }
  intros [q err]. carried_norm. destruct err; [by apply carries_ret; [|held_tac]|apply IH].
Qed.

#[local] Hint Resolve carries_annotate_pods : carries.

Lemma carries_Annotate vdb p : carries vdb p (AnnotateAndLabelPodReconciler_Reconcile vdb p).
Proof. unfold AnnotateAndLabelPodReconciler_Reconcile, generateAnnotations. carries_auto. Qed.

Lemma carries_Status vdb p : carries vdb p (StatusReconciler_Reconcile vdb p).
Proof.
  unfold StatusReconciler_Reconcile.
  repeat first [ eapply carries_orefresh; [apply refreshes_UpdateM; intros ?; unfold refreshStatus; solve [repeat grows_step]|
                   intros ?; carried_norm]
               | carries_step ].
Qed.

Lemma carries_Metric vdb p : carries vdb p (MetricReconciler_Reconcile vdb p).
Proof. unfold MetricReconciler_Reconcile. carries_auto. Qed.

Lemma carries_reconcileSts allowed mode s sc : carries (ob_vdb s) (ob_pf s) (reconcileSts d allowed mode s sc).
Proof.
  unfold reconcileSts, update_sts.
  destruct (BuildStsSpec _ _ _ _) as [exp w] eqn:Hb. apply (f_equal snd) in Hb. simpl in Hb. subst w.
  apply (carries_vfrom _ (after_security_context (ob_vdb s))).
  { apply vfrom_reads, reads_as_context, context_after, context_refl. }
  carries_auto.
Qed.

#[local] Hint Resolve carries_reconcileSts : carries.

Lemma carries_check_created allowed mode s scs : carries (ob_vdb s) (ob_pf s) (check_created d allowed mode s scs).
Proof.
  revert s. induction scs; intros s; simpl; [by apply carries_ret; [|held_tac]|]. unfold checkForCreatedSubcluster. carries_auto; eauto.
Qed.

#[local] Hint Extern 1 (carries _ _ (check_created _ _ _ ?s _)) => exact (carries_check_created _ _ s _) : carries.
#[local] Hint Resolve within_mounted within_reconcileSvc within_delete_stss within_delete_svcs : frame.

Lemma carries_Obj allowed mode vdb p : carries vdb p (ObjReconciler_Reconcile d allowed mode vdb p).
Proof.
  unfold ObjReconciler_Reconcile, reconcileHlSvc, checkForDeletedSubcluster. carries_auto.
Qed.

End reconcilers.

(** With any initializer *)
Section init.
Context `{D : AtConfDeps} `{E : Env} `{O : PodOrder} (I : DatabaseInitializer) `{!InitializerLaws I}.
Context (setup_refreshes : ∀ v pod, refreshes vdb_outcome v (preCmdSetup v pod)).

Lemma grows_exec v at_ cmd : only (λ _, True) (execCmd v at_ cmd).
Proof using All.
  intros t. destruct (law_exec v at_ cmd t) as (b & a & _ & _ & Heq). exists (a ++ AExecAdmintools at_ cmd :: b).
  unfold wp. rewrite Heq, <- (assoc_L (++)). split; [done|]. by apply Forall_true.
Qed.

#[local] Hint Resolve setup_refreshes : refresh.
#[local] Hint Resolve law_setup law_pods_calls law_gen law_cleanup grows_exec within_auth within_cleanup_init : frame.

Lemma carries_finish vdb p at_ : carries vdb p (finish_init vdb p at_).
Proof using All. unfold finish_init, DestroyAuthParms. carries_auto. Qed.

#[local] Hint Resolve carries_finish : carries.

Lemma carries_run_command vdb p at_ pods : carries vdb p (run_command vdb p at_ pods).
Proof using All. unfold run_command, changeDepotPermissions. carries_auto. Qed.

#[local] Hint Resolve carries_run_command : carries.

Lemma carries_runInit vdb p : carries vdb p (runInit vdb p).
Proof using All. unfold runInit. carries_auto. Qed.

#[local] Hint Resolve carries_runInit : carries.

Lemma carries_init vdb p : carries vdb p (checkAndRunInit vdb p).
Proof using All. unfold checkAndRunInit. carries_auto. Qed.

End init.

#[export] Hint Resolve carries_Restart carries_RemoveNode carries_Uninstall carries_RemoveSubcluster carries_Drain
  carries_addnode carries_AddNode carries_AddSubcluster carries_Rebalance carries_Routing carries_StopDB carries_Install
  carries_Version carries_Annotate carries_Status carries_Metric carries_Obj : carries.

#[export] Hint Extern 1 (carries _ _ (reconcileSts _ _ _ ?s _)) => exact (carries_reconcileSts _ _ _ s _) : carries.

Lemma carries_Create `{D : AtConfDeps} `{E : Env} `{O : PodOrder} vdb p : carries vdb p (CreateDBReconciler_Reconcile vdb p).
Proof.
  unfold CreateDBReconciler_Reconcile. destruct (negb _); [by apply carries_ret; [|held_tac]|].
  apply (carries_init createdb). apply refreshes_createdb.
Qed.

Lemma carries_Revive `{D : AtConfDeps} `{E : Env} `{O : PodOrder} vdb p : carries vdb p (ReviveDBReconciler_Reconcile vdb p).
Proof.
  unfold ReviveDBReconciler_Reconcile. destruct (negb _); [by apply carries_ret; [|held_tac]|].
  apply (carries_init revivedb). intros v pod. apply refreshes_ret. vfrom_tac.
Qed.

#[export] Hint Resolve carries_Create carries_Revive : carries.
