(* ===== verification/StatusSpec.v ===== *)
(** * The status tells what the facts say

    Every status that the status reconciler writes has one entry per subcluster
    found, with one detail per pod taken from the facts, exact counts and, unless
    they overflow, exact totals.  The gauges count the pods of each subcluster. *)

From stdpp Require Import base gmap strings pretty sorting numbers list.
From S2P Require Import Prelude GoStrings K8s Types KObjects Effects Status Labels ScFinder PodFacts PodFactsSpec Restart RestartSpec Install Scaling ScalingSpec StatusRec.

(** ** Counting *)

Definition flagged (flag : VerticaDBPodStatus → bool) (l : list VerticaDBPodStatus) : Z :=
  Z.of_nat (length (filter (λ d, flag d = true) l)).

Lemma count_detail_flagged flag l : count_detail flag l = flagged flag l.
Proof.
  unfold count_detail, flagged.
  assert (∀ n, foldl (λ n v, if flag v then (n + 1)%Z else n) n l
    = (n + Z.of_nat (length (filter (λ d, flag d = true) l)))%Z) as Hg; [|by rewrite Hg].
  induction l as [|d l IH]; intros n; simpl; [lia|]. rewrite filter_cons, IH.
  case_decide as Hd; [rewrite Hd; simpl; lia|]. apply not_true_is_false in Hd. rewrite Hd. lia.
Qed.

Lemma flagged_bounds flag l : (0 ≤ flagged flag l ≤ Z.of_nat (length l))%Z.
Proof. unfold flagged. pose proof (length_filter (λ d, flag d = true) l). lia. Qed.

(** The loop of [resizeSubclusterStatus] ends with the right number of entries. *)
Lemma grow_detail_spec scSize fuel detail :
  (scSize ≤ Z.of_nat (length detail) + 1 + Z.of_nat fuel)%Z →
  ∃ n, grow_detail fuel scSize detail = detail ++ replicate n zero_VerticaDBPodStatus ∧ 0 < n ∧
    (scSize ≤ Z.of_nat (length detail + n))%Z ∧
    ((Z.of_nat (length detail + n) ≤ scSize)%Z ∨ n = 1).
Proof.
  revert detail. induction fuel as [|fuel IH]; intros detail Hf; simpl.
  { exists 1. simpl. split_and!; [done|lia|lia|by right]. }
  case_bool_decide as Hlt.
  - destruct (IH (detail ++ [zero_VerticaDBPodStatus])) as (n & Hg & Hn & H1 & H2).
    { rewrite length_app. simpl. lia. }
    exists (S n). rewrite Hg, <- (assoc_L (++)). rewrite length_app in *. simpl in *. split_and!; [done|lia|lia|lia].
  - exists 1. rewrite length_app in Hlt. simpl in *. split_and!; [done|lia|lia|by right].
Qed.

Lemma resize_detail_fresh scSize :
  resize_detail scSize [] =
    if bool_decide (scSize < 0)%Z then Panic "slice bounds out of range"
    else Ret (replicate (Z.to_nat scSize) zero_VerticaDBPodStatus).
Proof.
  unfold resize_detail. destruct (grow_detail_spec scSize (Z.to_nat scSize) []) as (n & -> & Hn & H1 & H2); [simpl; lia|].
  simpl in *. rewrite length_replicate. repeat case_bool_decide; try (done || lia).
  - f_equal. rewrite take_replicate. f_equal. lia.
  - f_equal. f_equal. lia.
Qed.

Section reconciler.
Context `{E : Env}.

(** The entry of subcluster [sc] when it has [size] pods *)
Record status_of (vdb : VerticaDB) (p : PodFacts) (sc : Subcluster) (size : Z) (stat : SubclusterStatus) : Prop := {
  so_name : scs_Name stat = sc_Name sc;
  so_length : Z.of_nat (length (scs_Detail stat)) = size;
  so_detail : ∀ i, (0 ≤ i < size)%Z → scs_Detail stat !! Z.to_nat i =
    Some (match Detail p !! GenPodName vdb sc i with
          | Some pf => MkVerticaDBPodStatus (isInstalled pf) (dbExists pf) (vnodeName pf) (upNode pf) (readOnly pf)
          | None => zero_VerticaDBPodStatus
          end);
  so_install : scs_InstallCount stat = flagged vps_Installed (scs_Detail stat);
  so_added : scs_AddedToDBCount stat = flagged vps_AddedToDB (scs_Detail stat);
  so_up : scs_UpNodeCount stat = flagged vps_UpNode (scs_Detail stat);
  so_readonly : scs_ReadOnlyCount stat = flagged vps_ReadOnly (scs_Detail stat) }.

(** The size of the subcluster as it was seen after [since]: the larger one of the
    spec and the statefulset *)
Definition size_seen (since : Trace) (vdb : VerticaDB) (sc : Subcluster) (size : Z) : Prop :=
  ∃ t, extends since t ∧
    match env_get_sts t (GenStsName vdb sc) with
    | Ok sts => size = Z.max (sc_Size sc) (sts_StatusReplicas sts)
    | Err e => e = ErrNotFound ∧ size = sc_Size sc
    end.

Lemma counted_status_of vdb p sc size :
  (0 ≤ size)%Z →
  status_of vdb p sc size
    (counted_status (sc_Name sc) (fill_detail vdb p sc (replicate (Z.to_nat size) zero_VerticaDBPodStatus))).
Proof.
  intros Hs. split; simpl; try apply count_detail_flagged; [done| |].
  - unfold fill_detail. rewrite length_imap, length_replicate. lia.
  - intros i Hi. unfold fill_detail. rewrite list_lookup_imap, lookup_replicate_2 by lia. simpl.
    rewrite Z2Nat.id by lia. f_equal. destruct (Detail p !! _) as [pf|]; [|done]. unfold pod_status. simpl.
    f_equal. by case_bool_decide.
Qed.

(** Calls of the update function *)
Definition sts_fetch (a : action) : Prop := match a with AGetSts _ => True | _ => False end.

Lemma calculateSubclusterStatus_spec vdb p sc t :
  wp (calculateSubclusterStatus vdb p sc zero_SubclusterStatus) t (λ o t',
    (∃ new, t' = new ++ t ∧ Forall sts_fetch new) ∧
    ∀ stat, o = Ret (Ok stat) → ∃ size, size_seen t vdb sc size ∧ status_of vdb p sc size stat).
Proof.
  unfold calculateSubclusterStatus, resizeSubclusterStatus, getSubclusterSize. wp_calls.
  apply wp_obind. do 3 wp_step. set (t1 := _ :: t).
  assert (∃ new, t1 = new ++ t ∧ Forall sts_fetch new) as Hn by (exists [AGetSts (GenStsName vdb sc)]; by repeat constructor).
  assert (∀ size, size_seen t vdb sc size →
    match match resize_detail size [] with Ret detail => Ret (Ok detail) | Panic m => Panic m end with
    | Ret a => wp (match a with
                   | Ok detail => oret (Ok (counted_status (sc_Name sc) (fill_detail vdb p sc detail)))
                   | Err e => oret (Err e)
                   end) t1 (λ o t', (∃ new, t' = new ++ t ∧ Forall sts_fetch new) ∧
                     ∀ stat, o = Ret (Ok stat) → ∃ size, size_seen t vdb sc size ∧ status_of vdb p sc size stat)
    | Panic m => (∃ new, t1 = new ++ t ∧ Forall sts_fetch new) ∧
                 ∀ stat, Panic m = Ret (Ok stat) → ∃ size, size_seen t vdb sc size ∧ status_of vdb p sc size stat
    end) as Hsize.
  { intros size Hseen. rewrite resize_detail_fresh. case_bool_decide; [done|]. wp_step. split; [done|].
    intros stat [= <-]. exists size. split; [done|]. apply counted_status_of. lia. }
  destruct (env_get_sts t (GenStsName vdb sc)) as [sts|[]] eqn:Hg; do 2 wp_step; try (wp_step; split; [done|]; by intros ?).
  - apply Hsize. exists t. split; [done|]. rewrite Hg. case_bool_decide; lia.
  - apply Hsize. exists t. split; [done|]. by rewrite Hg.
Qed.

Lemma size_seen_extends s s' vdb sc size : extends s s' → size_seen s' vdb sc size → size_seen s vdb sc size.
Proof. intros He (t & Ht & Hm). exists t. split; [by etrans|done]. Qed.

Lemma subcluster_statuses_spec vdb p scs acc t :
  wp (subcluster_statuses vdb p scs acc) t (λ o t',
    (∃ new, t' = new ++ t ∧ Forall sts_fetch new) ∧
    ∀ l, o = Ret (Ok l) → ∃ l', l = acc ++ l' ∧
      Forall2 (λ sc stat, ∃ size, size_seen t vdb sc size ∧ status_of vdb p sc size stat) scs l').
Proof.
  revert acc t. induction scs as [|sc scs IH]; intros acc t; simpl.
  { wp_step. split; [by exists []|]. intros l [= <-]. exists []. by rewrite app_nil_r. }
  apply wp_obind. eapply wp_mono; [|apply calculateSubclusterStatus_spec].
  intros [[stat|e]|m] t1 [(n1 & -> & Hn1) Hstat]; [|wp_step; split; [by exists n1|done]|split; [by exists n1|done]].
  destruct (Hstat _ eq_refl) as (size & Hseen & Hof). eapply wp_mono; [|apply IH].
  intros o t2 [(n2 & -> & Hn2) Hl]. split.
  { exists (n2 ++ n1). rewrite (assoc_L (++)). split; [done|by apply Forall_app_2]. }
  intros l Ho. destruct (Hl l Ho) as (l' & -> & Hl'). exists (stat :: l'). rewrite <- (assoc_L (++)). split; [done|].
  constructor; [by exists size|]. eapply Forall2_impl; [exact Hl'|]. intros sc' stat' (size' & Hs' & Hof').
  exists size'. split; [|done]. eapply size_seen_extends; [|done]. apply extends_app.
Qed.

End reconciler.

(** ** Totals *)

Definition total (f : SubclusterStatus → Z) (l : list SubclusterStatus) : Z := foldr (λ sc n, (f sc + n)%Z) 0%Z l.

Lemma calculateClusterStatus_spec stat :
  calculateClusterStatus stat =
    MkVerticaDBStatus (wrap32 (total scs_InstallCount (st_Subclusters stat)))
      (wrap32 (total scs_AddedToDBCount (st_Subclusters stat)))
      (wrap32 (total scs_UpNodeCount (st_Subclusters stat)))
      (wrap32 (Z.of_nat (length (st_Subclusters stat))))
      (st_Subclusters stat) (st_Conditions stat) (st_UpgradeStatus stat).
Proof.
  unfold calculateClusterStatus.
  assert (∀ l a b c d scs cs u, wrap32 a = a → wrap32 b = b → wrap32 c = c → wrap32 d = d →
    foldl add_subcluster (MkVerticaDBStatus a b c d scs cs u) l =
    MkVerticaDBStatus (wrap32 (a + total scs_InstallCount l)) (wrap32 (b + total scs_AddedToDBCount l))
      (wrap32 (c + total scs_UpNodeCount l)) (wrap32 (d + Z.of_nat (length l))) scs cs u) as Hg.
  { assert (∀ x, wrap32 (wrap32 x) = wrap32 x) as Hw by (intros x; apply wrap32_small, wrap32_range).
    induction l as [|sc l IH]; intros a b c d scs cs u Ha Hb Hc Hd; simpl.
    - rewrite !Z.add_0_r, Ha, Hb, Hc, Hd. done.
    - unfold add_subcluster at 2. simpl. rewrite IH by apply Hw. rewrite !wrap32_add_l, <- !Z.add_assoc.
      do 2 f_equal. lia. }
  rewrite Hg by done. by rewrite !Z.add_0_l.
Qed.

Section written.
Context `{E : Env}.

(** The status written, [v], is that of the fetched VerticaDB [w] with the entries
    and totals of the facts. *)
Record written_ok (p : PodFacts) (subclusters : list Subcluster) (since : Trace) (w v : VerticaDB) : Prop := {
  wo_rest : v = set_Status w (vdb_Status v);
  wo_conditions : st_Conditions (vdb_Status v) = st_Conditions (vdb_Status w);
  wo_upgrade : st_UpgradeStatus (vdb_Status v) = st_UpgradeStatus (vdb_Status w);
  wo_entries : Forall2 (λ sc stat, ∃ size, size_seen since w sc size ∧ status_of w p sc size stat)
    subclusters (st_Subclusters (vdb_Status v));
  wo_install : st_InstallCount (vdb_Status v) = wrap32 (total scs_InstallCount (st_Subclusters (vdb_Status v)));
  wo_added : st_AddedToDBCount (vdb_Status v) = wrap32 (total scs_AddedToDBCount (st_Subclusters (vdb_Status v)));
  wo_up : st_UpNodeCount (vdb_Status v) = wrap32 (total scs_UpNodeCount (st_Subclusters (vdb_Status v)));
  wo_count : st_SubclusterCount (vdb_Status v) = wrap32 (Z.of_nat (length subclusters)) }.

(** The VerticaDB [w] was fetched after [since]. *)
Definition fetched (since past : Trace) (w : VerticaDB) : Prop :=
  ∃ nm t, extends since t ∧ env_get_vdb t nm = Ok w ∧ extends (AGetVdb nm :: t) past.

Definition status_rule (p : PodFacts) (subclusters : list Subcluster) (since : Trace) (a : action) (past : Trace) : Prop :=
  match a with
  | AUpdateVdbStatus v => ∃ w, fetched since past w ∧ written_ok p subclusters since w v
  | AGetSts _ | AGetVdb _ => True
  | _ => False
  end.

Context (p : PodFacts) (subclusters : list Subcluster) (since : Trace) (R : action → Trace → Prop).
Context (HR : ∀ a past, status_rule p subclusters since a past → R a past).

Lemma refreshStatus_spec w t :
  wp (refreshStatus p subclusters w) t (λ o t',
    (∃ new, t' = new ++ t ∧ Forall sts_fetch new) ∧
    ∀ v, o = Ret (Ok v) → written_ok p subclusters t w v).
Proof.
  unfold refreshStatus. apply wp_obind. eapply wp_mono; [|apply subcluster_statuses_spec].
  intros [[l|e]|m] t1 [Hn Hl]; [|by wp_step|done]. wp_step. split; [done|]. intros v [= <-].
  destruct (Hl l eq_refl) as (l' & -> & Hf). simpl in *. rewrite calculateClusterStatus_spec. simpl.
  split; simpl; try done. by rewrite (Forall2_length _ _ _ Hf).
Qed.

Lemma UpdateM_safe s t :
  safe R t → extends since t →
  wp (UpdateM_attempt (refreshStatus p subclusters) s) t (λ _ t', safe R t' ∧ extends since t').
Proof using HR.
  intros Ht Hs. unfold UpdateM_attempt. destruct s as [vdb|m]; [|by wp_step]. wp_calls. do 2 wp_step.
  set (nm := ExtractNamespacedName vdb). set (t1 := _ :: t).
  assert (safe R t1) as H1 by (split; [by apply HR|done]).
  assert (extends since t1) as X1 by (etrans; [exact Hs|apply extends_cons]).
  destruct (env_get_vdb t nm) as [w|e] eqn:Hg; [|by wp_step]. wp_step.
  eapply wp_mono; [|apply refreshStatus_spec]. intros o t2 [(new & -> & Hnew) Hv].
  assert (safe R (new ++ t1)) as H2.
  { apply safe_app; [done|]. intros n1 a n2 ->. apply HR. apply Forall_app in Hnew as [_ Hnew].
    apply Forall_cons in Hnew as [Hnew _]. by destruct a. }
  assert (extends since (new ++ t1)) as X2 by (etrans; [exact X1|apply extends_app]).
  destruct o as [[v|e]|m]; [|by wp_step..]. pose proof (Hv v eq_refl) as Hw.
  case_bool_decide; simpl; [by wp_step|]. do 2 wp_step. set (a := AUpdateVdbStatus _).
  assert (safe R (a :: new ++ t1) ∧ extends since (a :: new ++ t1)) as H3.
  { split; [|etrans; [exact X2|apply extends_cons]]. split; [|done]. apply HR. exists w. split.
    - exists nm, t. split_and!; [done|done|]. apply extends_app.
    - assert (∀ stat, set_Status (set_Status w stat) stat = set_Status w stat) as Hss by by intros.
      destruct Hw as [Hr Hcnd Hu He Hi Had Hup Hct]. split; simpl; try done.
      eapply Forall2_impl; [exact He|]. intros sc stat (size & Hsz & Hof). exists size. split; [|done].
      eapply size_seen_extends; [|exact Hsz]. done. }
  destruct (env_update_vdb_status _ _); wp_step; exact H3.
Qed.

End written.

Lemma Status_rules `{E : Env} vdb p0 t0 :
  wp (StatusReconciler_Reconcile vdb p0) t0 (λ _ t', safe (since_start t0 (λ a past,
    match a with
    | AUpdateVdbStatus _ => based vdb (λ p since a past, ∃ subclusters,
        fst (FindSubclusters vdb FindAll since) = Ok subclusters ∧ status_rule p subclusters since a past) p0 t0 a past
    | _ => True
    end)) t').
Proof.
  set (R := since_start t0 _). unfold StatusReconciler_Reconcile. wp_step.
  eapply (wp_only collect_call _ R);
    [apply Collect_calls|intros a t Ha; right; by destruct a|apply safe_start|apply wp_run|].
  intros [p [e|]] t1 Hc H1 X1; [by wp_step|]. wp_step.
  eapply (wp_only (λ a, match a with AListSts _ _ => True | _ => False end) _ R);
    [|intros a t Ha; right; by destruct a|done|apply wp_run|].
  { unfold FindSubclusters, FindStatefulSets. wp_calls. repeat only_step ltac:(exact I). }
  intros [subclusters|e] t2 Hf H2 X2; [|by wp_step]. apply wp_obind. unfold UpdateM, RetryOnConflict. wp_step.
  eapply wp_mono; [|apply (wp_retry_inv _ _ (λ _ t, safe R t ∧ extends t1 t))].
  - intros [[v|m] err] t3 [H3 X3]; wp_step; [by wp_step|done].
  - done.
  - intros s t [Hs Hx]. apply (UpdateM_safe p subclusters t1 R); [|done|done].
    intros a past Ha. right. destruct a; try done. exists p. rewrite Hc. split; [done|]. exists subclusters.
    split; [simpl; by rewrite Hf|done].
Qed.

(** ** Bounds *)

Definition pods_in (l : list SubclusterStatus) : Z := total (λ sc, Z.of_nat (length (scs_Detail sc))) l.

Lemma flagged_mono f g l :
  (∀ d, d ∈ l → f d = true → g d = true) → (flagged f l ≤ flagged g l)%Z.
Proof.
  intros Hfg. unfold flagged. induction l as [|d l IH]; [done|]. rewrite !filter_cons.
  assert (∀ d, d ∈ l → f d = true → g d = true) as Hl by (intros d' Hd'; apply Hfg; by right).
  specialize (IH Hl). pose proof (Hfg d ltac:(by left)).
  repeat case_decide; simpl; try tauto; lia.
Qed.

(** The counts of one entry, from consistent facts *)
Definition counts_ok (sc : SubclusterStatus) : Prop :=
  (0 ≤ scs_UpNodeCount sc ≤ scs_AddedToDBCount sc)%Z ∧ (0 ≤ scs_ReadOnlyCount sc ≤ scs_AddedToDBCount sc)%Z ∧
  (scs_AddedToDBCount sc ≤ Z.of_nat (length (scs_Detail sc)))%Z ∧
  (0 ≤ scs_InstallCount sc ≤ Z.of_nat (length (scs_Detail sc)))%Z.

Lemma status_of_counts vdb w p sc size stat : facts_ok vdb p → status_of w p sc size stat → counts_ok stat.
Proof.
  intros Hok [_ Hlen Hd Hi Ha Hu Hr]. unfold counts_ok. rewrite Hi, Ha, Hu, Hr.
  assert (∀ d, d ∈ scs_Detail stat → (vps_UpNode d = true → vps_AddedToDB d = true) ∧
    (vps_ReadOnly d = true → vps_AddedToDB d = true)) as Hdet.
  { intros d [i Hi']%list_elem_of_lookup. pose proof (lookup_lt_Some _ _ _ Hi').
    pose proof (Hd (Z.of_nat i) ltac:(lia)) as Heq. rewrite Nat2Z.id, Hi' in Heq. injection Heq as ->.
    destruct (Detail p !! _) as [pf|] eqn:Hpf; [|done]. destruct (Hok _ _ Hpf) as [_ Hf]. simpl.
    split; intros Hx; [by apply (up_running _ _ Hf)|by apply (readonly_running _ _ Hf)]. }
  pose proof (flagged_bounds vps_UpNode (scs_Detail stat)). pose proof (flagged_bounds vps_ReadOnly (scs_Detail stat)).
  pose proof (flagged_bounds vps_AddedToDB (scs_Detail stat)). pose proof (flagged_bounds vps_Installed (scs_Detail stat)).
  pose proof (flagged_mono vps_UpNode vps_AddedToDB (scs_Detail stat) (λ d Hin, proj1 (Hdet d Hin))).
  pose proof (flagged_mono vps_ReadOnly vps_AddedToDB (scs_Detail stat) (λ d Hin, proj2 (Hdet d Hin))).
  lia.
Qed.

Lemma totals_ok l :
  Forall counts_ok l →
  (0 ≤ total scs_UpNodeCount l ≤ total scs_AddedToDBCount l)%Z ∧ (total scs_AddedToDBCount l ≤ pods_in l)%Z ∧
  (0 ≤ total scs_InstallCount l ≤ pods_in l)%Z.
Proof. unfold pods_in. induction 1 as [|sc l (H1 & H2 & H3 & H4) _ IH]; simpl; lia. Qed.

(** ** Gauges *)

Definition pods_with (test : PodFact → bool) (l : list PodFact) : Z :=
  Z.of_nat (length (filter (λ pf, test pf = true) l)).

Definition gauge_of (l : list PodFact) : subclusterGaugeDetail :=
  MkGauge (Z.of_nat (length l)) (pods_with isPodRunning l) (pods_with upNode l).

Definition gauge_add (a b : subclusterGaugeDetail) : subclusterGaugeDetail :=
  MkGauge (podCount a + podCount b) (runningCount a + runningCount b) (readyCount a + readyCount b).

Lemma pods_with_cons test pf l : pods_with test (pf :: l) = ((if test pf then 1 else 0) + pods_with test l)%Z.
Proof.
  unfold pods_with. rewrite filter_cons. destruct (test pf); case_decide; try done; simpl; lia.
Qed.

Lemma count_pods_lookup l m name :
  foldl count_pod m l !! name =
    match filter (λ pf, subcluster pf = name) l with
    | [] => m !! name
    | l' => Some (gauge_add (default (MkGauge 0 0 0) (m !! name)) (gauge_of l'))
    end.
Proof.
  revert m. induction l as [|pf l IH]; intros m; [done|]. simpl. rewrite IH, filter_cons. clear IH.
  case_decide as Hn.
  - subst name. unfold count_pod. rewrite lookup_insert_eq. simpl. set (d := default _ _).
    set (l' := filter _ l).
    assert (gauge_of (pf :: l') = gauge_add (MkGauge 1 (if isPodRunning pf then 1 else 0) (if upNode pf then 1 else 0))
      (gauge_of l')) as Hg.
    { unfold gauge_of, gauge_add. rewrite !pods_with_cons. simpl. f_equal. lia. }
    rewrite Hg. destruct l' as [|pf' l'].
    + f_equal. unfold gauge_add, gauge_of, pods_with. simpl. destruct (isPodRunning pf), (upNode pf); f_equal; lia.
    + f_equal. unfold gauge_add. simpl. destruct (isPodRunning pf), (upNode pf); f_equal; lia.
  - unfold count_pod. rewrite lookup_insert_ne by done. done.
Qed.

(** ** Properties *)

(** C16: every status that the status reconciler writes is based on facts of this
    iteration: it has one entry for each subcluster of the spec or of a statefulset,
    with one detail for each pod, taken from its fact, and the exact counts; the
    totals are the sums of the counts in 32 bits; conditions, upgrade message and
    everything outside the status are as fetched. *)
Theorem status_correct `{E : Env} vdb p0 t0 n1 v n2 :
  snd (StatusReconciler_Reconcile vdb p0 t0) = n1 ++ AUpdateVdbStatus v :: n2 → extends t0 n2 →
  ∃ p subclusters w, let since := snd (Collect vdb p0 t0) in
    fst (Collect vdb p0 t0) = (p, None) ∧ fst (FindSubclusters vdb FindAll since) = Ok subclusters ∧
    fetched since n2 w ∧ written_ok p subclusters since w v.
Proof.
  intros Ht Hex. pose proof (Status_rules vdb p0 t0) as Hr. unfold wp in Hr. rewrite Ht in Hr.
  apply safe_since in Hr; [|done]. destruct Hr as (p & Hc & subclusters & Hf & w & Hw & Hok).
  by exists p, subclusters, w.
Qed.

Lemma status_correct_witness :
  let t := snd (@StatusReconciler_Reconcile add_env MakeVDB MakePodFacts []) in
  ∃ p subclusters w v, t !! 0 = Some (AUpdateVdbStatus v) ∧ st_InstallCount (vdb_Status v) = 3%Z ∧
    fst (@Collect add_env MakeVDB MakePodFacts []) = (p, None) ∧
    @written_ok add_env p subclusters (snd (@Collect add_env MakeVDB MakePodFacts [])) w v.
Proof.
  intros t. destruct (t !! 0) as [[]|] eqn:Hi; try (vm_compute in Hi; discriminate Hi).
  destruct (@status_correct add_env MakeVDB MakePodFacts [] (take 0 t) v (drop 1 t) (split_at _ _ _ Hi)
    (extends_nil _)) as (p & subclusters & w & H1 & H2 & H3 & H4).
  exists p, subclusters, w, v. split; [reflexivity|]. split; [|exact (conj H1 H4)].
  vm_compute in Hi. injection Hi as <-. reflexivity.
Defined.

(** C38: in every status written after fresh facts, as long as there are fewer
    than [2^31] pods, the totals are the true sums and ordered: the nodes that are
    up are at most those in the database, which are at most the pods, and the same
    holds in each entry. *)
Theorem status_bounds `{E : Env} vdb p0 t0 n1 v n2 :
  snd (StatusReconciler_Reconcile vdb p0 t0) = n1 ++ AUpdateVdbStatus v :: n2 → extends t0 n2 →
  NeedCollection p0 = true → (pods_in (st_Subclusters (vdb_Status v)) < 2 ^ 31)%Z →
  let st := vdb_Status v in
  (0 ≤ st_UpNodeCount st ≤ st_AddedToDBCount st)%Z ∧ (st_AddedToDBCount st ≤ pods_in (st_Subclusters st))%Z ∧
  (0 ≤ st_InstallCount st ≤ pods_in (st_Subclusters st))%Z ∧
  st_UpNodeCount st = total scs_UpNodeCount (st_Subclusters st) ∧
  st_AddedToDBCount st = total scs_AddedToDBCount (st_Subclusters st) ∧
  st_InstallCount st = total scs_InstallCount (st_Subclusters st) ∧
  Forall counts_ok (st_Subclusters st).
Proof.
  intros Ht Hex Hneed Hlt st. pose proof (Status_rules vdb p0 t0) as Hr. unfold wp in Hr. rewrite Ht in Hr.
  apply safe_since in Hr; [|done]. destruct Hr as (p & Hc & subclusters & _ & w & _ & Hok).
  destruct (Collect_ok vdb p0 t0 Hneed) as [Hfacts _]. rewrite Hc in Hfacts. simpl in Hfacts.
  assert (Forall counts_ok (st_Subclusters st)) as Hall.
  { apply Forall_lookup. intros i stat Hi. destruct (Forall2_lookup_r _ _ _ _ _ (wo_entries _ _ _ _ _ Hok) Hi)
      as (sc & _ & size & _ & Hof). by eapply status_of_counts. }
  pose proof (totals_ok _ Hall) as (H1 & H2 & H3). fold st in Hlt.
  pose proof (wo_up _ _ _ _ _ Hok) as Hu. pose proof (wo_added _ _ _ _ _ Hok) as Ha.
  pose proof (wo_install _ _ _ _ _ Hok) as Hi. fold st in Hu, Ha, Hi.
  rewrite wrap32_small in Hu, Ha, Hi by (unfold int32_range; lia).
  rewrite Hu, Ha, Hi. split_and!; try done; lia.
Qed.

Lemma status_bounds_witness :
  let t := snd (@StatusReconciler_Reconcile add_env MakeVDB MakePodFacts []) in
  ∃ v, t !! 0 = Some (AUpdateVdbStatus v) ∧ st_UpNodeCount (vdb_Status v) = 1%Z ∧
    (st_UpNodeCount (vdb_Status v) ≤ st_AddedToDBCount (vdb_Status v))%Z.
Proof.
  intros t. destruct (t !! 0) as [[]|] eqn:Hi; try (vm_compute in Hi; discriminate Hi).
  assert (pods_in (st_Subclusters (vdb_Status v)) < 2 ^ 31 ∧ st_UpNodeCount (vdb_Status v) = 1)%Z as [Hlt H1]
    by (vm_compute in Hi; injection Hi as <-; vm_compute; split; reflexivity).
  destruct (@status_bounds add_env MakeVDB MakePodFacts [] (take 0 t) v (drop 1 t) (split_at _ _ _ Hi)
    (extends_nil _) eq_refl Hlt) as ([_ H2] & _).
  exists v. exact (conj eq_refl (conj H1 H2)).
Defined.

(** Whatever the order in which the facts are visited, the gauges of a
    subcluster of the spec that has pods are the number of its pods, of the running
    ones and of those whose node is up; there are no others. *)
Theorem captureRawMetrics_correct vdb p pods name :
  pods ≡ₚ facts_list p →
  let l := filter (λ pf, subcluster pf = name) (facts_list p) in
  captureRawMetrics vdb pods !! name =
    if bool_decide (is_Some (GenSubclusterMap vdb !! name) ∧ l ≠ []) then Some (gauge_of l) else None.
Proof.
  intros Hp l. unfold captureRawMetrics. rewrite count_pods_lookup. simpl. rewrite list_filter_filter.
  assert (gauge_of (filter (λ pf, subcluster pf = name) pods) = gauge_of l) as Hg.
  { unfold gauge_of, pods_with, l. by rewrite Hp. }
  assert (filter (λ pf, subcluster pf = name) pods = [] ↔ l = []) as Hl.
  { unfold l. rewrite <- !length_zero_iff_nil. by rewrite Hp. }
  destruct (decide (is_Some (GenSubclusterMap vdb !! name))) as [Hin|Hout].
  - rewrite (list_filter_iff _ (λ pf, subcluster pf = name)) by (intros pf; split; [tauto|intros ->; done]).
    set (fl := filter _ pods) in *. destruct fl as [|pf fl].
    + rewrite bool_decide_eq_false_2 by tauto. done.
    + rewrite bool_decide_eq_true_2 by (split; [done|]; by rewrite <- Hl). f_equal. rewrite <- Hg.
      unfold gauge_add, gauge_of. done.
  - rewrite bool_decide_eq_false_2 by tauto.
    rewrite (list_filter_iff _ (λ _, False)) by (intros pf; split; [intros [-> ?]; done|done]).
    assert (filter (λ _ : PodFact, False) pods = []) as ->; [|done].
    clear. induction pods as [|pf pods IH]; [done|]. rewrite filter_cons, decide_False; [exact IH|tauto].
Qed.

Lemma captureRawMetrics_correct_witness :
  let p := fst (fst (@Collect add_env MakeVDB MakePodFacts [])) in
  captureRawMetrics MakeVDB (reverse (facts_list p)) !! "defaultsubcluster" = Some (MkGauge 3 3 1).
Proof.
  intros p. rewrite (captureRawMetrics_correct MakeVDB p); [vm_compute; reflexivity|]. apply reverse_Permutation.
Defined.
