(* ===== verification/Liveness.v ===== *)
(** * Work that an iteration does not leave undone

    An iteration of the restart reconciler that ends without an error and without
    a request to come back has restarted what was down. *)

From stdpp Require Import base gmap strings pretty sorting numbers list.
From S2P Require Import Prelude GoStrings K8s Types KObjects Effects Status Atconf PodFacts PodFactsSpec Restart RestartSpec Scaling ScalingSpec Frame.

(** [m] only adds to the trace. *)
Lemma only_adds {A} ok (m : M A) t : only ok m → wp m t (λ _ t', extends t t').
Proof. intros Hm. eapply wp_mono; [|exact (Hm t)]. intros _ t' (new & -> & _). apply extends_app. Qed.

(** After [since] the call [a] was made. *)
Definition sent_since (since : Trace) (a : action) (t' : Trace) : Prop :=
  ∃ t, extends since t ∧ extends (a :: t) t'.

Lemma sent_since_extends s a t t' : extends t t' → sent_since s a t → sent_since s a t'.
Proof. intros He (b & H1 & H2). exists b. split; [done|by etrans]. Qed.

Lemma count_none test l : Forall (λ v, test v = false) l → count_if test l = 0%Z.
Proof.
  unfold count_if, countPods.
  induction l as [|v l IH]; [done|]. intros [Hv Hl]%Forall_cons. simpl. rewrite Hv. by apply IH.
Qed.

Section restart.
Context `{D : AtConfDeps} `{E : Env} `{O : PodOrder} (restartReadOnly : bool).

Definition start_db_sent (vdb : VerticaDB) (since : Trace) (t' : Trace) : Prop :=
  ∃ atPod down, sent_since since (AExecAdmintools atPod (genStartDBCommand vdb down)) t'.

Lemma reconcileCluster_starts vdb p t :
  (∃ v, v ∈ facts_list p ∧ isInstalled v = true) → (∃ v, v ∈ facts_list p ∧ dbExists v = true) →
  wp (reconcileCluster restartReadOnly vdb p no_pod) t (λ '(_, (res, err)) t',
    IsReconcileAborted res err = false → start_db_sent vdb t t').
Proof.
  intros (vi & Hvi & Hi) (vd & Hvd & Hd). unfold reconcileCluster.
  wp_step. apply wp_range. intros l1 Hl1.
  assert (areAllPodsRunningAndZeroInstalled l1 = false) as ->.
  { apply negb_false_iff, existsb_exists. exists vi. rewrite <- list_elem_of_In, Hl1, Hi, orb_true_r. done. }
  wp_step. apply wp_range. intros l2 _. case_bool_decide; [by wp_step|].
  wp_step. apply wp_range. intros l3 _. match goal with |- context [if ?b then _ else _] => destruct b end; [by wp_step|].
  wp_step. apply wp_range. intros l4 _. destruct (setATPod _ _) as [at_|]; [|by wp_step].
  wp_step. apply wp_range. intros l5 _. set (down := findRestartablePods _ _ l5). wp_step.
  eapply wp_mono; [|eapply only_adds, within_kill]. intros [res err] t1 X1.
  destruct (IsReconcileAborted res err) eqn:Hab; [wp_step; by rewrite Hab|].
  wp_step. apply wp_range. intros l6 _. wp_step. eapply wp_mono; [|eapply only_adds, within_reip].
  intros [res' err'] t2 X2. destruct (IsReconcileAborted res' err') eqn:Hab'; [wp_step; by rewrite Hab'|].
  wp_step. apply wp_range. intros l7 Hl7.
  assert (doesDBExist l7 = true) as ->.
  { apply existsb_exists. exists vd. by rewrite <- list_elem_of_In, Hl7. }
  simpl. wp_step. unfold restartCluster. wp_calls. do 4 wp_step.
  set (a := AExecAdmintools at_ _). set (e := AEvent "ClusterRestartStarted").
  assert (start_db_sent vdb t (a :: e :: t2)) as Hsent.
  { exists at_, down. exists (e :: t2). split; [|done]. etrans; [exact X1|]. etrans; [exact X2|apply extends_cons]. }
  destruct (exec_err _) eqn:Hex; wp_step; wp_step; repeat wp_step; try done.
  intros _. destruct Hsent as (x & y & Hs). exists x, y. eapply sent_since_extends; [|exact Hs]. apply extends_cons.
Qed.

(** [restart_node] was sent for these pods. *)
Definition restart_node_sent (vdb : VerticaDB) (pods : list PodFact) (since t' : Trace) : Prop :=
  ∃ atPod, sent_since since
    (AExecAdmintools atPod (genRestartNodeCmd vdb (genRestartVNodeList pods) (genRestartIPList pods))) t'.

Lemma filter_full {A} (P : A → Prop) `{!∀ x, Decision (P x)} l : ¬ length (filter P l) < length l → filter P l = l.
Proof.
  induction l as [|x l IH]; [done|]. rewrite filter_cons. case_decide; simpl; intros Hl.
  - f_equal. apply IH. lia.
  - pose proof (length_filter P l). lia.
Qed.

(** All pods are restarted, or the reconciler asks to come back. *)
Lemma restartPods_sends vdb p atPod pods t :
  wp (restartPods vdb p atPod pods) t (λ '(_, (res, err)) t',
    extends t t' ∧ (IsReconcileAborted res err = false → restart_node_sent vdb pods t t')).
Proof.
  eapply wp_mono; [|apply wp_and; [eapply only_adds, within_restartPods|
    instantiate (1 := λ '(_, (res, err)) t', IsReconcileAborted res err = false → restart_node_sent vdb pods t t')]].
  { by intros [q [res err]] t' [H1 H2]. }
  unfold restartPods, removePodsWithClusterUpState, fetchClusterNodeStatus. wp_calls. do 4 wp_step.
  set (a0 := AExecAdmintools atPod ["-t"; "list_allnodes"]).
  destruct (exec_err _); [by repeat wp_step|]. do 2 wp_step. set (down := filter _ pods).
  case_bool_decide as Hlen; [by wp_step|]. wp_step. eapply wp_mono; [|eapply only_adds, within_kill].
  intros [res err] t1 X1. destruct (IsReconcileAborted res err) eqn:Hab; [wp_step; by rewrite Hab|].
  wp_step. eapply wp_mono; [|eapply only_adds, within_dump]. intros u t2 X2. unfold execRestartPods. wp_calls. do 5 wp_step.
  set (a := AExecAdmintools atPod (genRestartNodeCmd _ _ _)). set (e := AEvent "NodeRestartStarted").
  assert (sent_since t a (a :: e :: t2)) as Hsent.
  { exists (e :: t2). split; [|done]. etrans; [apply extends_cons|]. etrans; [exact X1|].
    etrans; [exact X2|apply extends_cons]. }
  destruct (exec_err _).
  { do 3 wp_step. destruct (Contains _ _); wp_step; done. }
  do 4 wp_step. eapply wp_mono; [|eapply only_adds, within_dump]. intros u3 t3 X3. wp_step.
  unfold IsReconcileAborted. simpl. case_bool_decide as Hl; [done|]. intros _. apply filter_full in Hl.
  exists atPod. fold down in Hl. rewrite <- Hl. fold a. eapply sent_since_extends; [|exact Hsent].
  etrans; [apply extends_cons|exact X3].
Qed.

Lemma reconcileNodes_sends vdb p t :
  wp (reconcileNodes restartReadOnly vdb p no_pod) t (λ '(_, (res, err)) t',
    IsReconcileAborted res err = false →
    ∃ pods, pods ≡ₚ findRestartablePods restartReadOnly false (facts_list p) ∧
      (pods = [] ∨ restart_node_sent vdb pods t t')).
Proof.
  unfold reconcileNodes. wp_step. apply wp_range. intros l Hl.
  set (down := findRestartablePods restartReadOnly false l).
  assert (down ≡ₚ findRestartablePods restartReadOnly false (facts_list p)) as Hdown by by apply filterPods_perm.
  case_bool_decide as Hlen.
  2: { eapply wp_mono; [|eapply only_adds, within_nodes_reip]. intros [q [res err]] t' _ _. exists down. split; [done|].
       left. destruct down; [done|simpl in Hlen; lia]. }
  wp_step. eapply wp_mono; [|eapply only_adds, within_admintools_any]. intros f t1 X1.
  destruct (setATPod _ f) as [at_|]; [|by wp_step]. wp_step. eapply wp_mono; [|apply restartPods_sends].
  intros [q [res err]] t2 [X2 Hs]. destruct (IsReconcileAborted res err) eqn:Hab; [wp_step; by rewrite Hab|].
  eapply wp_mono; [|eapply only_adds, within_nodes_reip]. intros [q' [res' err']] t3 X3 _. exists down. split; [done|].
  right. destruct (Hs eq_refl) as (at' & b & H1 & H2). exists at', b. split; [etrans; [exact X1|exact H1]|etrans; [exact H2|exact X3]].
Qed.

(** What an iteration has done when it neither fails nor asks to come back *)
Definition restarted (vdb : VerticaDB) (p : PodFacts) (since t' : Trace) : Prop :=
  ∃ l, l ≡ₚ facts_list p ∧
    if bool_decide (getUpNodeAndNotReadOnlyCount l = 0%Z)
       && negb (bool_decide (spec_InitPolicy (vdb_Spec vdb) = CommunalInitPolicyScheduleOnly))
    then (∃ v, v ∈ facts_list p ∧ isInstalled v = true) → (∃ v, v ∈ facts_list p ∧ dbExists v = true) →
         start_db_sent vdb since t'
    else ∃ pods, pods ≡ₚ findRestartablePods restartReadOnly false (facts_list p) ∧
           (pods = [] ∨ restart_node_sent vdb pods since t').

Lemma Reconcile_restarts vdb0 p0 t0 :
  spec_AutoRestartVertica (vdb_Spec vdb0) = true →
  wp (Reconcile restartReadOnly vdb0 p0 no_pod) t0 (λ '(vdb, _, (res, err)) t',
    IsReconcileAborted res err = false →
    ∃ p t1, extends t0 t1 ∧ fst (Collect vdb p0 t1) = (p, None) ∧ restarted vdb p (snd (Collect vdb p0 t1)) t').
Proof.
  intros Hauto. unfold Reconcile. rewrite Hauto. simpl. wp_step.
  eapply wp_mono; [|eapply only_adds, within_UpdateCondition]. intros [vdb [e|]] t1 X1; [by wp_step|]. wp_step.
  eapply wp_mono; [|apply wp_run]. intros [p [e|]] t2 Hc; [by wp_step|]. wp_step. apply wp_range. intros l Hl.
  assert (fst (Collect vdb p0 t1) = (p, None) ∧ snd (Collect vdb p0 t1) = t2) as [H1 H2] by by rewrite Hc.
  wp_step.
  match goal with |- wp (if ?b then _ else _) _ _ => destruct b eqn:Hb end.
  - apply (wp_mono _ _ (λ '(_, (res, err)) t', IsReconcileAborted res err = false →
      (∃ v, v ∈ facts_list p ∧ isInstalled v = true) → (∃ v, v ∈ facts_list p ∧ dbExists v = true) →
      start_db_sent vdb t2 t')).
    { intros [q [res err]] t3 Hr. wp_step. intros Ha. exists p, t1. rewrite H2. split_and!; [done|done|].
      exists l. rewrite Hb. split; [done|by apply Hr]. }
    pose proof (λ H1 H2, reconcileCluster_starts vdb p t2 H1 H2) as Hs. unfold wp in *.
    destruct (reconcileCluster restartReadOnly vdb p no_pod t2) as [[q [res err]] t3]. simpl in *. naive_solver.
  - eapply wp_mono; [|apply reconcileNodes_sends]. intros [q [res err]] t3 Hr. wp_step. intros Ha. exists p, t1.
    rewrite H2. split_and!; [done|done|]. exists l. rewrite Hb. split; [done|by apply Hr].
Qed.

End restart.

(** ** Properties *)


Lemma run_eta {A B C D T} (r : (A * B * (C * D)) * T) :
  r = ((fst (fst (fst r)), snd (fst (fst r)), (fst (snd (fst r)), snd (snd (fst r)))), snd r).
Proof. by destruct r as [[[] []] ?]. Qed.

