(* ===== verification/ObjLive.v ===== *)
(** * What an object reconciliation leaves behind

    An object reconciliation in mode All that ends without an error and without a
    request to come back has brought every object in line with the VerticaDB: each
    subcluster has its statefulset and its service, and what belonged to removed
    subclusters is gone. *)

From Stdlib Require Import Ascii.
From stdpp Require Import base gmap strings pretty sorting numbers list.
From S2P Require Import Prelude GoStrings GoRegexp K8s Types KObjects Webhook Version Effects Status Labels ScFinder Atconf PodFacts PodFactsSpec Builder BuilderSpec Restart RestartSpec Install Scaling ScalingSpec ObjRec Frame ObjSpec Liveness.

(** After [since] the call [a] was made and succeeded. *)
Definition succeeded (since : Trace) (a : action) (ok : Trace → Prop) (t' : Trace) : Prop :=
  ∃ t, extends since t ∧ ok t ∧ extends (a :: t) t'.

Lemma succeeded_extends since since' a ok t t' :
  extends since' since → extends t t' → succeeded since a ok t → succeeded since' a ok t'.
Proof. intros H1 H2 (b & H3 & Hok & H4). exists b. split_and!; [by etrans|done|by etrans]. Qed.

Definition is_ok {A} (r : result A) : Prop := match r with Ok _ => True | Err _ => False end.

(** The object of a subcluster that the VerticaDB does not have *)
Definition leftover (vdb : VerticaDB) (labels : gmap string string) : bool :=
  hasSubclusterNameLabel labels && negb (hasSubclusterLabelFromVdb vdb labels).

Lemma find_leftover {A} (labels : A → gmap string string) (name : A → string) vdb objs o :
  o ∈ sort_if FindNotInVdb name (build_objs labels vdb FindNotInVdb objs) ↔ o ∈ objs ∧ leftover vdb (labels o) = true.
Proof.
  change (sort_if FindNotInVdb name (build_objs labels vdb FindNotInVdb objs))
    with (filter (λ o, keep_object vdb FindNotInVdb (labels o) = true) objs).
  rewrite list_elem_of_filter. unfold keep_object, leftover. change (has_flag FindNotInVdb FindExisting) with false.
  change (has_flag FindNotInVdb FindInVdb) with false. change (has_flag FindNotInVdb FindNotInVdb) with true.
  destruct (hasSubclusterNameLabel _), (hasSubclusterLabelFromVdb _ _); simpl; naive_solver.
Qed.

(** Merging keeps the name, and changes something if the labels differ. *)
Lemma merged_name cur exp sc o :
  reconcileExtSvcFields cur exp sc = Ret o →
  match o with Some new => svc_Name new = svc_Name cur | None => svc_Labels cur = svc_Labels exp end.
Proof.
  unfold reconcileExtSvcFields. rewrite !merge_field_eq by (by intros []).
  match goal with |- context [merge_ports exp sc (?b, ?s)] => set (b2 := b); set (s2 := s) end.
  assert (∀ b s, merge_ports exp sc (b2, s2) = Ret (b, s) → svc_Name s = svc_Name cur ∧ svc_Labels s = svc_Labels cur) as Hp.
  { intros b s. unfold merge_ports. repeat case_match; intros [=]; by subst s. }
  destruct (merge_ports exp sc (b2, s2)) as [[b s]|]; [|done]. destruct (Hp _ _ eq_refl) as [Hn Hl].
  rewrite !merge_field_eq by (by intros []). simpl. intros [= <-]. match goal with |- context [if ?c then _ else _] => destruct c eqn:Hb end; [done|].
  apply orb_false_iff in Hb as [_ Hb]. apply negb_false_iff, bool_decide_eq_true in Hb. congruence.
Qed.

Section complete.
Context `{D : AtConfDeps} `{E : Env} `{O : PodOrder} `{A : AnnotationOrder} (d : DeploymentNames).
Context (allowed : bool) (vdb : VerticaDB).

(** The statefulset of a subcluster was created, or the existing one was patched,
    with the size and the labels that the VerticaDB asks for. *)
Definition sts_in_place (sc : Subcluster) (since t' : Trace) : Prop :=
  let nm := GenStsName vdb sc in
  ∃ sts, sts_Replicas sts = Some (sc_Size sc) ∧ sts_labels sts = MakeLabelsForStsObject vdb (Some sc) ∧
    (sts_name sts = nn_Name nm ∧ succeeded since (ACreateSts sts) (λ t, env_create_sts t sts = None) t' ∨
     ∃ cur t, extends since t ∧ env_get_sts t nm = Ok cur ∧ sts_name sts = sts_name cur ∧
       is_ok (env_patch_sts (AGetSts nm :: t) sts) ∧ extends (APatchSts sts :: AGetSts nm :: t) t').

(** The service of a subcluster was created, is as it should be, or was updated. *)
Definition svc_in_place (sc : Subcluster) (since t' : Trace) : Prop :=
  let nm := GenExtSvcName vdb sc in
  let exp := BuildExtSvc nm vdb sc MakeSvcSelectorLabelsForServiceNameRouting in
  succeeded since (ACreateService exp) (λ t, env_create_service t exp = None) t' ∨
  ∃ cur t, extends since t ∧ env_get_service t nm = Ok cur ∧
    (svc_matches sc cur exp ∧ extends (AGetService nm :: t) t' ∨
     ∃ new, svc_matches sc new exp ∧ svc_rest_of new = svc_rest_of cur ∧
       is_ok (env_update_service (AGetService nm :: t) new) ∧ extends (AUpdateService new :: AGetService nm :: t) t').

Definition in_place (sc : Subcluster) (since t' : Trace) : Prop :=
  sts_in_place sc since t' ∧ (sc_IsTransient sc = false → svc_in_place sc since t').

Lemma sts_in_place_extends sc since since' t t' :
  extends since' since → extends t t' → sts_in_place sc since t → sts_in_place sc since' t'.
Proof using.
  intros H1 H2 (sts & Hr & Hl & [[Hn Hs]|(cur & b & H3 & Hg & Hn & Ho & H4)]); exists sts; (split; [done|]); (split; [done|]).
  - left. split; [done|]. by eapply succeeded_extends.
  - right. exists cur, b. split_and!; [by etrans|done..|by etrans].
Qed.

Lemma svc_in_place_extends sc since since' t t' :
  extends since' since → extends t t' → svc_in_place sc since t → svc_in_place sc since' t'.
Proof using.
  intros H1 H2 [Hs|(cur & b & H3 & Hg & [[Hm H4]|(new & Hm & Hr & Ho & H4)])]; [left; by eapply succeeded_extends|right..];
    exists cur, b; (split; [by etrans|]); (split; [done|]); [left; split; [done|by etrans]|].
  right. exists new. split_and!; [done..|by etrans].
Qed.

Lemma in_place_extends sc since since' t t' :
  extends since' since → extends t t' → in_place sc since t → in_place sc since' t'.
Proof using.
  intros H1 H2 [Hs Hv]. split; [by eapply sts_in_place_extends|]. intros Ht. eapply svc_in_place_extends; [done|done|by apply Hv].
Qed.

Lemma reconcileSts_done s sc t :
  context_of vdb (ob_vdb s) →
  wp (reconcileSts d allowed ObjReconcileModeAll s sc) t (λ o t', extends t t' ∧
    ∀ s' res err, o = Ret (s', (res, err)) →
      context_of vdb (ob_vdb s') ∧ (IsReconcileAborted res err = false → sts_in_place sc t t')).
Proof using.
  intros Hv. eapply wp_mono; [|apply wp_and; [eapply only_adds, within_reconcileSts|]].
  { intros o t' [H1 H2]. split; [exact H1|exact H2]. }
  unfold reconcileSts. rewrite (context_names _ _ sc Hv). destruct (BuildStsSpec _ _ _ _) as [exp w] eqn:Hb.
  assert (context_of vdb w) as Hw by (apply (f_equal snd) in Hb; simpl in Hb; subst w; by apply context_after).
  assert (sts_Replicas exp = Some (sc_Size sc) ∧ sts_name exp = nn_Name (GenStsName vdb sc) ∧
    sts_labels exp = MakeLabelsForStsObject vdb (Some sc)) as (Hsize & Hname & Hlab).
  { apply (f_equal fst) in Hb. simpl in Hb. subst exp. destruct Hv as [c ->]. done. }
  wp_calls. do 2 wp_step.
  assert (∀ cur, env_get_sts t (GenStsName vdb sc) = Ok cur ∨ sts_Replicas cur = None →
    wp (update_sts allowed ObjReconcileModeAll w (ob_pf s) sc exp cur) (AGetSts (GenStsName vdb sc) :: t)
      (λ o t', ∀ s' res err, o = Ret (s', (res, err)) →
        context_of vdb (ob_vdb s') ∧ (IsReconcileAborted res err = false → sts_in_place sc t t'))) as Hu.
  { intros cur Hcur. unfold update_sts. wp_calls. rewrite bool_decide_eq_false_2 by done.
    destruct (checkForOrphanAdmintoolsConfEntries _ _ _ _) as [[res err]|m] eqn:Ho; [|by wp_step].
    destruct (IsReconcileAborted res err) eqn:Ha; [wp_step; intros s' r x [= <- <- <-]; by rewrite Ha|].
    destruct (orphans_removable vdb w (ob_pf s) _ cur res err Hw Ho Ha) as (n & Hn & _).
    destruct Hcur as [Hcur|Hcur]; [|congruence]. do 2 wp_step. set (new := patched_sts allowed cur exp).
    destruct (env_patch_sts _ new) eqn:Hp; wp_step; [|by intros s' r x [= <- <- <-]].
    intros s' r x [= <- <- <-]. split; [done|]. intros _. exists new.
    split; [unfold new, patched_sts; by destruct allowed|]. split; [by unfold new, patched_sts|]. right. exists cur, t.
    split_and!; [done|done|by unfold new, patched_sts| |done]. by rewrite Hp. }
  destruct (env_get_sts t _) as [cur|[]] eqn:Hg; [apply Hu; by left| |apply Hu; by right..].
  wp_step. unfold SetControllerReference, wp at 1. simpl.
  destruct (env_set_controller _ w); [wp_step; by intros s' r x [= <- <- <-]|]. do 3 wp_step.
  intros s' r x [= <- <- Hc]. split; [done|]. intros Ha. exists exp. split; [done|]. split; [done|]. left. split; [done|].
  exists (AGetSts (GenStsName vdb sc) :: t). split; [apply extends_cons|]. split; [|done]. subst x.
  by destruct (env_create_sts _ _).
Qed.

(** What the API server makes sure of: a service that is fetched has ports, and one
    without a name cannot be updated. *)
Hypothesis Hports : ∀ t nm s, env_get_service t nm = Ok s → svc_Ports s ≠ [].
Hypothesis Hnamed : ∀ t s, svc_Name s = "" → ¬ is_ok (env_update_service t s).

Lemma reconcileExtSvc_done w sc t :
  context_of vdb w →
  let exp := BuildExtSvc (GenExtSvcName w sc) w sc MakeSvcSelectorLabelsForServiceNameRouting in
  wp (reconcileExtSvc ObjReconcileModeAll w exp sc) t (λ o t', extends t t' ∧ (o = Ret None → svc_in_place sc t t')).
Proof using Hports Hnamed.
  intros Hw exp. eapply wp_mono; [|apply wp_and; [eapply only_adds, within_reconcileExtSvc|]].
  { intros o t' [H1 H2]. split; [exact H1|exact H2]. }
  assert (exp = BuildExtSvc (GenExtSvcName vdb sc) vdb sc MakeSvcSelectorLabelsForServiceNameRouting) as Hexp.
  { unfold exp. by destruct Hw as [c ->]. }
  assert (svc_nn exp = GenExtSvcName vdb sc) as Hnn by by rewrite Hexp.
  assert (svc_Labels exp ≠ ∅) as Hlab by (unfold exp; simpl; unfold MakeLabelsForSvcObject; apply insert_non_empty).
  unfold reconcileExtSvc, reconcileSvc. rewrite Hnn. wp_calls. do 2 wp_step. set (t1 := AGetService _ :: t).
  assert (wp (update_service ObjReconcileModeAll (λ cur exp, reconcileExtSvcFields cur exp sc) exp zero_Service) t1
    (λ o t', o = Ret None → svc_in_place sc t t')) as Herr.
  { unfold update_service. wp_calls. rewrite bool_decide_eq_false_2 by done.
    destruct (reconcileExtSvcFields zero_Service exp sc) as [[new|]|m] eqn:Hf; [| |by wp_step]; apply merged_name in Hf.
    - do 2 wp_step. pose proof (Hnamed t1 new Hf) as Hno. destruct (env_update_service t1 new); [by destruct Hno|]. by wp_step.
    - by destruct Hlab. }
  destruct (env_get_service t _) as [cur|[]] eqn:Hg; [| |exact Herr..].
  - unfold update_service. wp_calls. rewrite bool_decide_eq_false_2 by done.
    destruct (reconcileExtSvcFields_correct cur exp sc) as (o & -> & Hnone & Hsome); [by rewrite Hexp|by eapply Hports|].
    destruct o as [new|].
    + destruct (Hsome new eq_refl) as [Hm Hr]. do 2 wp_step. destruct (env_update_service t1 new) eqn:Hu; [|by wp_step].
      wp_step. intros _. right. exists cur, t. split_and!; [done|done|]. right. exists new. rewrite <- Hexp.
      split_and!; [done|done| |done]. fold t1. by rewrite Hu.
    + wp_step. intros _. right. exists cur, t. split_and!; [done|done|]. left. rewrite <- Hexp. split; [by apply Hnone|done].
  - unfold createService. do 2 wp_step. unfold SetControllerReference, wp at 1. simpl. wp_calls.
    destruct (env_set_controller t1 w); [do 2 wp_step; done|]. do 2 wp_step. intros [= Hc]. left. rewrite <- Hexp.
    exists t1. split_and!; [apply extends_cons|done|done].
Qed.

Lemma checkCreated_done s sc t :
  context_of vdb (ob_vdb s) →
  wp (checkForCreatedSubcluster d allowed ObjReconcileModeAll s sc) t (λ o t', extends t t' ∧
    ∀ s' res err, o = Ret (s', (res, err)) →
      context_of vdb (ob_vdb s') ∧ (IsReconcileAborted res err = false → in_place sc t t')).
Proof using Hports Hnamed.
  intros Hv. unfold checkForCreatedSubcluster. destruct (sc_IsTransient sc) eqn:Ht.
  { eapply wp_mono; [|by apply reconcileSts_done]. intros o t' [H1 H2]. split; [done|]. intros s' res err Ho.
    destruct (H2 _ _ _ Ho) as [H3 H4]. split; [done|]. intros Ha. split; [by apply H4|congruence]. }
  apply wp_obind. eapply wp_mono; [|by apply reconcileExtSvc_done]. intros [[e|]|m] t1 [X1 Hs]; [|specialize (Hs eq_refl)|done].
  { wp_step. split; [done|]. by intros s' res err [= <- <- <-]. }
  eapply wp_mono; [|by apply reconcileSts_done]. intros o t' [X2 H2]. split; [by etrans|]. intros s' res err Ho.
  destruct (H2 _ _ _ Ho) as [H3 H4]. split; [done|]. intros Ha. split.
  - eapply sts_in_place_extends; [exact X1|reflexivity|by apply H4].
  - intros _. eapply svc_in_place_extends; [reflexivity|exact X2|exact Hs].
Qed.

Lemma check_created_done scs s t :
  context_of vdb (ob_vdb s) →
  wp (check_created d allowed ObjReconcileModeAll s scs) t (λ o t', extends t t' ∧
    ∀ s' res err, o = Ret (s', (res, err)) → context_of vdb (ob_vdb s') ∧
      (IsReconcileAborted res err = false → ∀ sc, sc ∈ scs → in_place sc t t')).
Proof using Hports Hnamed.
  revert s t. induction scs as [|sc scs IH]; intros s t Hv; simpl.
  { wp_step. split; [done|]. intros s' res err [= <- <- <-]. split; [done|]. by intros _ sc ?%elem_of_nil. }
  apply wp_obind. eapply wp_mono; [|by apply checkCreated_done]. intros [[s1 [res err]]|m] t1 [X1 H1]; [|done].
  destruct (H1 _ _ _ eq_refl) as [Hv1 Hin]. destruct (IsReconcileAborted res err) eqn:Ha.
  { wp_step. split; [done|]. intros s' r x [= <- <- <-]. by rewrite Ha. }
  eapply wp_mono; [|by apply IH]. intros o t' [X2 H2]. split; [by etrans|]. intros s' r x Ho.
  destruct (H2 _ _ _ Ho) as [Hv2 Hall]. split; [done|]. intros Hab sc' [->|Hsc]%elem_of_cons.
  - eapply in_place_extends; [reflexivity|exact X2|by apply Hin].
  - eapply in_place_extends; [exact X1|reflexivity|by apply Hall].
Qed.

(** The objects of removed subclusters were deleted. *)
Definition gone (since t' : Trace) : Prop :=
  (∃ t objs, extends since t ∧ env_list_sts t (vdb_Namespace vdb) (MakeOperatorLabels vdb) = Ok objs ∧
     ∀ sts, sts ∈ objs → leftover vdb (sts_labels sts) = true →
       succeeded t (ADeleteSts sts) (λ t, env_delete_sts t sts = None) t') ∧
  (∃ t objs, extends since t ∧ env_list_services t (vdb_Namespace vdb) (MakeOperatorLabels vdb) = Ok objs ∧
     ∀ svc, svc ∈ objs → leftover vdb (svc_Labels svc) = true →
       succeeded t (ADeleteService svc) (λ t, env_delete_service t svc = None) t').

Lemma delete_stss_done w p stss t :
  wp (delete_stss w p stss) t (λ o t', extends t t' ∧ ∀ res err, o = Ret (res, err) → IsReconcileAborted res err = false →
    ∀ sts, sts ∈ stss → succeeded t (ADeleteSts sts) (λ t, env_delete_sts t sts = None) t').
Proof using.
  revert t. induction stss as [|sts stss IH]; intros t; simpl; [wp_step; split; [done|]; by intros _ _ _ _ ? ?%elem_of_nil|].
  destruct (checkForOrphanAdmintoolsConfEntries _ _ _ _) as [[res err]|m]; [|by wp_step].
  destruct (IsReconcileAborted res err) eqn:Ha.
  { wp_step. split; [done|]. intros r x [= <- <-]. by rewrite Ha. }
  wp_calls. do 2 wp_step. destruct (env_delete_sts t sts) eqn:Hd.
  { wp_step. split; [apply extends_cons|]. by intros r x [= <- <-]. }
  eapply wp_mono; [|apply IH]. intros o t' [X H1]. split; [etrans; [apply extends_cons|exact X]|].
  intros r x Ho Hab sts' [->|Hin]%elem_of_cons; [by exists t; split_and!|].
  eapply succeeded_extends; [apply extends_cons|reflexivity|by eapply H1].
Qed.

Lemma delete_svcs_done svcs t :
  wp (delete_svcs svcs) t (λ o t', extends t t' ∧ (o = None →
    ∀ svc, svc ∈ svcs → succeeded t (ADeleteService svc) (λ t, env_delete_service t svc = None) t')).
Proof using.
  revert t. induction svcs as [|svc svcs IH]; intros t; simpl; [wp_step; split; [done|]; by intros _ ? ?%elem_of_nil|].
  wp_calls. do 2 wp_step. destruct (env_delete_service t svc) eqn:Hd.
  { wp_step. split; [apply extends_cons|done]. }
  eapply wp_mono; [|apply IH]. intros o t' [X H1]. split; [etrans; [apply extends_cons|exact X]|].
  intros Ho svc' [->|Hin]%elem_of_cons; [by exists t; split_and!|].
  eapply succeeded_extends; [apply extends_cons|reflexivity|by apply H1].
Qed.

Lemma leftover_context w l : context_of vdb w → leftover w l = leftover vdb l.
Proof using. by intros [c ->]. Qed.

Lemma checkDeleted_done w p t :
  context_of vdb w →
  wp (checkForDeletedSubcluster ObjReconcileModeAll w p) t (λ o t', extends t t' ∧
    ∀ res err, o = Ret (res, err) → IsReconcileAborted res err = false → gone t t').
Proof using.
  intros Hw. destruct (context_fields _ _ Hw) as (Hns & _ & _ & Hlab).
  unfold checkForDeletedSubcluster, FindStatefulSets, FindServices. rewrite bool_decide_eq_false_2 by done. rewrite Hns, Hlab.
  wp_calls. do 3 wp_step. destruct (env_list_sts t _ _) as [objs|e] eqn:Hl; wp_step.
  2: { wp_step. split; [apply extends_cons|]. by intros r x [= <- <-]. }
  apply wp_obind. eapply wp_mono; [|apply delete_stss_done]. intros [[res err]|m] t1 [X1 H1].
  2: { split; [etrans; [apply extends_cons|exact X1]|done]. }
  assert (extends t t1) as X by (etrans; [apply extends_cons|exact X1]).
  destruct (IsReconcileAborted res err) eqn:Ha; [wp_step; split; [done|]; intros r x [= <- <-]; by rewrite Ha|].
  specialize (H1 _ _ eq_refl Ha). do 3 wp_step. destruct (env_list_services t1 _ _) as [svcs|e] eqn:Hl2; wp_step.
  2: { wp_step. split; [etrans; [exact X|apply extends_cons]|]. by intros r x [= <- <-]. }
  wp_step. eapply wp_mono; [|apply delete_svcs_done]. intros err' t2 [X2 H2]. wp_step.
  assert (extends t1 t2) as X3 by (etrans; [apply extends_cons|exact X2]). split; [by etrans|].
  intros r x [= <- <-] Hab. assert (err' = None) as -> by by destruct err'. split.
  - exists t, objs. split_and!; [done|done|]. intros sts Hin Hlo. eapply succeeded_extends; [|exact X3|apply H1].
    + apply extends_cons.
    + apply find_leftover. split; [done|]. by rewrite (leftover_context _ _ Hw).
  - exists t1, svcs. split_and!; [done|done|]. intros svc Hin Hlo. eapply succeeded_extends; [|reflexivity|apply (H2 eq_refl)].
    + apply extends_cons.
    + apply (find_leftover (λ s, svc_Labels s)). split; [done|]. by rewrite (leftover_context _ _ Hw).
Qed.

End complete.

Lemma gone_extends `{E : Env} vdb since since' t' : extends since' since → gone vdb since t' → gone vdb since' t'.
Proof.
  intros X [(t & objs & H1 & H2) (u & svcs & H3 & H4)]. split; [exists t, objs|exists u, svcs]; (split; [by etrans|done]).
Qed.

Section done.
Context `{D : AtConfDeps} `{E : Env} `{O : PodOrder} `{A : AnnotationOrder} (d : DeploymentNames) (allowed : bool).
Hypothesis ports : ∀ t nm svc, env_get_service t nm = Ok svc → svc_Ports svc ≠ [].
Hypothesis named : ∀ t svc, svc_Name svc = "" → ¬ is_ok (env_update_service t svc).

Lemma objects_done vdb p0 t0 :
  wp (ObjReconciler_Reconcile d allowed ObjReconcileModeAll vdb p0) t0 (λ o t', ∀ s res err,
    o = Ret (s, (res, err)) → IsReconcileAborted res err = false →
    (∀ sc, sc ∈ spec_Subclusters (vdb_Spec vdb) → in_place vdb sc t0 t') ∧ gone vdb t0 t').
Proof using ports named.
  unfold ObjReconciler_Reconcile. wp_step.
  eapply wp_mono; [|eapply only_adds, within_Collect]. intros [p [e|]] t1 X1; [wp_step; by intros ? ? ? [= <- <- <-]|].
  wp_step. eapply wp_mono; [|eapply only_adds, within_mounted]. intros [r x] t2 X2.
  destruct (IsReconcileAborted r x) eqn:Ha; [wp_step; intros ? ? ? [= <- <- <-]; by rewrite Ha|].
  apply wp_obind. eapply wp_mono; [|eapply only_adds; unfold reconcileHlSvc; apply within_reconcileSvc].
  intros [[e|]|m] t3 X3; [wp_step; by intros ? ? ? [= <- <- <-]| |done].
  apply wp_obind. eapply wp_mono; [|apply (check_created_done d allowed vdb ports named); apply context_refl].
  intros [[s1 [r1 x1]]|m] t4 [X4 H4]; [|done]. destruct (H4 _ _ _ eq_refl) as [Hv Hin].
  destruct (IsReconcileAborted r1 x1) eqn:Ha1; [wp_step; intros ? ? ? [= <- <- <-]; by rewrite Ha1|].
  apply wp_obind. eapply wp_mono; [|apply (checkDeleted_done vdb _ _ _ Hv)].
  intros [[r2 x2]|m] t5 [X5 H5]; [|done].
  destruct (IsReconcileAborted r2 x2) eqn:Ha2; wp_step; intros ? ? ? [= <- <- <-]; [by rewrite Ha2|]. intros _.
  assert (extends t0 t3) as X by (etrans; [exact X1|]; etrans; [exact X2|exact X3]). split.
  - intros sc Hsc. eapply in_place_extends; [exact X|exact X5|by apply Hin].
  - eapply gone_extends; [|by eapply H5]. by etrans.
Qed.

End done.


(** An environment with a server without services that refuses services without a name *)
Definition named_env (E : Env) : Env :=
  let '(Build_Env e1 e2 e3 e4 e5 e6 e7 e8 e9 e10 e11 e12 e13 e14 e15 e16 e17 e18 e19 e20 e21 e22 e23 e24 _ e26 e27 e28 e29
    e30 e31 e32) := E in
  Build_Env e1 e2 e3 e4 e5 e6 e7 e8 e9 e10 e11 e12 e13 e14 e15 e16 e17 e18 e19 e20 e21 e22
    (λ _ _, Err ErrNotFound) e24
    (λ _ s, if bool_decide (svc_Name s = "") then Err (ErrMsg "name is required") else Ok s)
    e26 e27 e28 e29 e30 e31 e32.

