(* ===== verification/Rules.v ===== *)
(** * Rules on single calls

    On top of the rows of [Frame], a call may have a condition: an update of the
    VerticaDB keeps what the user wrote ([user_kept]), a tool of admintools is run
    only under the conditions of its safety theorem, and a directory is removed only
    in a pod without a database, both for facts that were collected in the same
    iteration and for a VerticaDB that the API server knows.  [obeys] says that the
    calls of a computation are in its row and have no condition other than the one
    on updates. *)

From stdpp Require Import base gmap strings pretty sorting numbers list.
From S2P Require Import Prelude GoStrings GoRegexp K8s Types Version KObjects Effects Status Labels ScFinder Atconf PodFacts PodFactsSpec Builder Restart RestartSpec Install Scaling ScalingSpec Upgrade ObjRec InitDB StatusRec StatusSpec Online Frame UpgradeSpec ObjSpec InitSpec Origin Facts.

#[local] Hint Resolve within_Obj within_reconcileSts within_reconcileExtSvc within_Create within_Revive
  within_Status within_Metric within_Operator120 : frame.

(** ** What the user wrote *)

Definition transient_count (v : VerticaDB) : nat :=
  length (filter (λ sc, sc_IsTransient sc = true) (spec_Subclusters (vdb_Spec v))).

Definition version_annotations : list string := [VersionAnnotation; BuildRefAnnotation; BuildDateAnnotation].

(** [v] is written in place of [w]. *)
Record user_kept (w v : VerticaDB) : Prop := {
  uk_subclusters : remove_transient (spec_Subclusters (vdb_Spec v)) = remove_transient (spec_Subclusters (vdb_Spec w));
  uk_transient : transient_count v ≤ max 1 (transient_count w);
  uk_annotations : ∀ k, k ∉ version_annotations → vdb_Annotations v !! k = vdb_Annotations w !! k;
  uk_rest : set_Annotations (set_Subclusters v []) ∅ = set_Annotations (set_Subclusters w []) ∅ }.

Lemma ParseVersionOutput_keys op k : is_Some (ParseVersionOutput op !! k) → k ∈ version_annotations.
Proof.
  unfold ParseVersionOutput, version_annotations. simpl.
  destruct (find_submatch version_line_re op), (find_submatch build_ref_re op), (find_submatch build_date_re op);
    rewrite ?lookup_insert_is_Some, lookup_empty, is_Some_alt; set_solver.
Qed.

Lemma user_kept_annotations w (anns : gmap string string) :
  (∀ k, is_Some (anns !! k) → k ∈ version_annotations) →
  user_kept w (set_Annotations w (anns ∪ vdb_Annotations w)).
Proof.
  intros Hk. split; [done|apply Nat.le_max_r| |done]. intros k Hv. simpl. apply lookup_union_r, eq_None_not_Some.
  intros Hs. by apply Hv, Hk.
Qed.

Lemma user_kept_subclusters w scs :
  remove_transient scs = remove_transient (spec_Subclusters (vdb_Spec w)) →
  length (filter (λ sc, sc_IsTransient sc = true) scs) ≤ max 1 (transient_count w) →
  user_kept w (set_Subclusters w scs).
Proof. intros Hs Hn. by split. Qed.

Lemma no_transient_found l :
  find_transient l = None → filter (λ sc, sc_IsTransient sc = true) l = [].
Proof.
  induction l as [|sc l IH]; simpl; [done|]. rewrite filter_cons.
  destruct (sc_IsTransient sc) eqn:Ht; [done|]. rewrite decide_False by done. done.
Qed.

Lemma user_kept_add w sc :
  FindTransientSubcluster w = None → sc_IsTransient sc = true →
  user_kept w (set_Subclusters w (spec_Subclusters (vdb_Spec w) ++ [sc])).
Proof.
  intros Hn%no_transient_found Ht. apply user_kept_subclusters; unfold remove_transient; rewrite filter_app.
  - rewrite filter_cons_False by congruence. rewrite filter_nil. apply app_nil_r.
  - rewrite Hn, filter_cons_True by done. apply Nat.le_max_l.
Qed.

Lemma user_kept_remove w : user_kept w (set_Subclusters w (remove_transient (spec_Subclusters (vdb_Spec w)))).
Proof.
  apply user_kept_subclusters; unfold remove_transient; rewrite list_filter_filter.
  - apply list_filter_iff. naive_solver.
  - erewrite (list_filter_iff _ (λ _, False)) by (intros; split; [|done]; intros []; congruence).
    induction (spec_Subclusters _) as [|sc l IH]; [apply Nat.le_0_l|]. rewrite filter_cons_False; [exact IH|]. tauto.
Qed.

(** ** Computations that obey the rule *)

Section obeys.
Context `{D : AtConfDeps} `{E : Env} `{O : PodOrder} `{AO : AnnotationOrder}.

(** The facts [p] were collected after [t0] and in use from [since] on. *)
Definition facts_at (t0 : Trace) (p : PodFacts) (since past : Trace) : Prop :=
  collected_at t0 p since ∧ extends since past.

(** When a tool may be run, with facts and a VerticaDB of an iteration that started at
    [t0] *)
Record tool_ok (t0 : Trace) (pod : NamespacedName) (cmd : list string) (past : Trace) : Prop := {
  ok_add_node : tool_of cmd = "db_add_node" →
    ∃ vdb p since sc, authentic t0 vdb past ∧ facts_at t0 p since past ∧ add_node_ok vdb p since past pod cmd sc;
  ok_remove_node : tool_of cmd = "db_remove_node" →
    ∃ vdb p, authentic t0 vdb past ∧ collected_at t0 p past ∧ remove_node_ok vdb p cmd;
  ok_create_db : tool_of cmd = "create_db" →
    ∃ vdb p since v podList, authentic t0 vdb past ∧ facts_at t0 p since past ∧
      spec_InitPolicy (vdb_Spec vdb) = CommunalInitPolicyCreate ∧
      init_ok createdb vdb p since past pod cmd v podList;
  ok_revive_db : tool_of cmd = "revive_db" →
    ∃ vdb p since v podList, authentic t0 vdb past ∧ facts_at t0 p since past ∧
      spec_InitPolicy (vdb_Spec vdb) = CommunalInitPolicyRevive ∧
      init_ok revivedb vdb p since past pod cmd v podList;
  ok_start_db : tool_of cmd = "start_db" →
    ∃ b vdb p since down, authentic t0 vdb past ∧ facts_at t0 p since past ∧ start_db_ok b vdb p pod cmd since past down;
  ok_restart_node : tool_of cmd = "restart_node" →
    ∃ b vdb p since down, authentic t0 vdb past ∧ facts_at t0 p since past ∧ restart_node_ok b vdb p pod cmd since past down }.

(** When a directory may be removed in a pod *)
Definition removal_ok (t0 : Trace) (pod : NamespacedName) (past : Trace) : Prop :=
  ∃ p f, collected_at t0 p past ∧ f ∈ facts_list p ∧ pf_name f = pod ∧ isPodRunning f = true ∧
    dbExists f = false.

(** The calls with a rule *)
Definition call_ok (t0 : Trace) (a : action) (past : Trace) : Prop :=
  match a with
  | AUpdateVdb v => ∃ w, fetched t0 past w ∧ user_kept w v
  | AExecAdmintools pod cmd => tool_ok t0 pod cmd past
  | AExecInPod pod cmd => removes cmd = true → removal_ok t0 pod past
  | _ => True
  end.

Definition ruled_tools : list string :=
  ["db_add_node"; "db_remove_node"; "create_db"; "revive_db"; "start_db"; "restart_node"].

(** A row without calls that have a rule *)
Definition unruled (K : row) : bool :=
  forallb (λ k, match k with
                | KUpdateVdb | KRemove => false
                | KTool tool => bool_decide (tool ∉ ruled_tools)
                | _ => true
                end) K.

Lemma unruled_ok K t0 a past : unruled K = true → within K a → call_ok t0 a past.
Proof.
  intros HK Ha. pose proof (proj1 (forallb_forall _ _) HK _ (proj1 (list_elem_of_In _ _) Ha)) as Hk.
  destruct a; try done; simpl in *.
  - intros Hr. by rewrite Hr in Hk.
  - apply bool_decide_eq_true in Hk. split; intros Ht; rewrite Ht in Hk; exfalso; apply Hk;
      apply (bool_decide_unpack _); vm_compute; exact I.
Qed.

Lemma facts_at_earlier t0 t p since past : extends t0 t → facts_at t p since past → facts_at t0 p since past.
Proof. intros He [Hc Hs]. split; [by eapply collected_earlier|done]. Qed.

Lemma fetched_extends t0 t past w : extends t0 t → fetched t past w → fetched t0 past w.
Proof. intros He (nm & t1 & H1 & H2 & H3). exists nm, t1. split_and!; [by etrans|done|done]. Qed.

Lemma call_ok_earlier t0 t a past : extends t0 t → call_ok t a past → call_ok t0 a past.
Proof.
  intros He Hok. pose proof (λ p since past, facts_at_earlier t0 t p since past He) as Hf.
  pose proof (λ p past, collected_earlier t0 t p past He) as Hc.
  pose proof (λ v past, authentic_earlier t0 t v past He) as Hv. destruct a; try done; simpl in *.
  - intros Hr. destruct (Hok Hr) as (p & f & Hp & Hrest). exists p, f. split; [by apply Hc|done].
  - destruct Hok as [H1 H2 H3 H4 H5 H6]. clear He. split; naive_solver.
  - destruct Hok as (w & Hw & Hk). exists w. split; [by eapply fetched_extends|done].
Qed.

(** A call is of a kind in the row and keeps its rule. *)
Definition actor_rule (K : row) (t0 : Trace) (a : action) (past : Trace) : Prop := within K a ∧ call_ok t0 a past.

Definition obeyed (K : row) (t0 t : Trace) : Prop := extends t0 t ∧ safe (since_start t0 (actor_rule K t0)) t.

Definition obeys {A} (K : row) (m : M A) : Prop := ∀ t0, keeps (obeyed K t0) m.

Lemma obeys_ret {A} K (a : A) : obeys K (mret a).
Proof. intros t0. apply keeps_ret. Qed.

Lemma obeys_bind {A B} K (m : M A) (f : A → M B) : obeys K m → (∀ a, obeys K (f a)) → obeys K (m ≫= f).
Proof. intros Hm Hf t0. apply keeps_bind; [apply Hm|]. intros a. apply Hf. Qed.

Lemma obeys_obind {A B} K (m : M (outcome A)) (f : A → M (outcome B)) :
  obeys K m → (∀ a, obeys K (f a)) → obeys K (obind m f).
Proof. intros Hm Hf. apply obeys_bind; [done|]. intros [a|msg]; [apply Hf|apply obeys_ret]. Qed.

Lemma obeys_retry {S} K (fn : S → M (S * option go_error)) s :
  (∀ s, obeys K (fn s)) → obeys K (RetryOnConflict fn s).
Proof. intros Hf t0. apply keeps_retry. intros s'. apply Hf. Qed.

Lemma obeyed_cons K t0 a t : actor_rule K t0 a t → obeyed K t0 t → obeyed K t0 (a :: t).
Proof. intros Ha [He Hs]. split; [etrans; [exact He|apply extends_cons]|]. split; [by right|done]. Qed.

Lemma row_le_in K K' k : row_le K K' = true → k ∈ K → k ∈ K'.
Proof.
  intros Hle Hk. pose proof (proj1 (forallb_forall _ _) Hle k (proj1 (list_elem_of_In _ _) Hk)) as Hb.
  by apply bool_decide_eq_true in Hb.
Qed.

(** What the frame lemmas say about computations without calls that have a rule *)
Lemma obeys_only {A} K K' (m : M A) : row_le K' K && unruled K' = true → only (within K') m → obeys K m.
Proof.
  intros [Hle Hno]%andb_true_iff Hm t0 t Ht. eapply wp_mono; [|exact (Hm t)]. intros _ t' (new & -> & Hall).
  induction Hall as [|a new Ha _ IH]; [done|]. apply obeyed_cons; [|done].
  split; [by eapply row_le_in|by eapply unruled_ok].
Qed.

(** A computation that obeys a row from its own start on obeys larger rows. *)
Lemma obeys_row_le {A} K K' (m : M A) : row_le K K' = true → obeys K m → obeys K' m.
Proof.
  intros HK Hm t0 t [He Hs]. eapply wp_mono; [|exact (Hm t t (conj (reflexivity t) (safe_start t _)))].
  intros _ t' [[new ->] Hsafe]. split; [etrans; [exact He|apply extends_app]|].
  apply safe_app; [done|]. intros n1 a n2 ->. right. rewrite <- (assoc_L (++)) in Hsafe.
  destruct (safe_since Hsafe (extends_app n2 t)) as [Hin Hu]. split; [by eapply row_le_in|].
  by eapply call_ok_earlier.
Qed.

(** ** The three ways to update the VerticaDB *)

Lemma update_ok {K t0} nm w v t1 t2 :
  KUpdateVdb ∈ K → env_get_vdb t1 nm = Ok w → user_kept w v → obeyed K t0 t1 →
  extends (AGetVdb nm :: t1) t2 → actor_rule K t0 (AUpdateVdb v) t2.
Proof. intros HK Hw Hv [He _] Ht. split; [done|]. exists w. split; [|done]. by exists nm, t1. Qed.

(** An attempt that fetches the VerticaDB [w], may edit it and continues *)
Definition edits {A} (K : row) (w : VerticaDB) (m : M A) : Prop :=
  obeys K m ∨
  ∃ v (g : result VerticaDB → M A), m = (r ← UpdateVdb v; g r) ∧ user_kept w v ∧ ∀ r, obeys K (g r).

Lemma obeys_fetch {A} K nm (f : result VerticaDB → M A) :
  row_le version_row K = true → (∀ e, obeys K (f (Err e))) → (∀ w, edits K w (f (Ok w))) →
  obeys K (r ← GetVdb nm; f r).
Proof.
  intros HK He Hw t0 t Ht. unfold GetVdb. apply wp_bind, wp_call.
  assert (obeyed K t0 (AGetVdb nm :: t)) as H1.
  { apply obeyed_cons; [|done]. split; [|done]. eapply row_le_in; [exact HK|]. row_tac. }
  destruct (env_get_vdb t nm) as [w|e] eqn:Hget; [|by apply He].
  destruct (Hw w) as [Ho|(v & g & -> & Hv & Hg)]; [by apply Ho|].
  apply wp_bind, wp_call. apply Hg. apply obeyed_cons; [|done].
  eapply update_ok; [eapply row_le_in; [exact HK|row_tac]|exact Hget|exact Hv|exact Ht|done].
Qed.

Lemma obeys_version_attempt K anns v :
  row_le version_row K = true → (∀ k, is_Some (anns !! k) → k ∈ version_annotations) →
  obeys K (version_attempt anns v).
Proof.
  intros HK Hk. apply obeys_fetch; [done|intros e; apply obeys_ret|]. intros w.
  rewrite (MergeAnnotations_correct w anns) by done. destruct (negb _); [|left; apply obeys_ret].
  right. eexists _, _. split_and!; [done|by apply user_kept_annotations|]. intros []; apply obeys_ret.
Qed.

Lemma obeys_add_transient K sc s :
  row_le version_row K = true → sc_IsTransient sc = true → obeys K (add_transient_attempt sc s).
Proof.
  intros HK Hsc. apply obeys_fetch; [done|intros e; apply obeys_ret|]. intros w.
  destruct (FindTransientSubcluster w) eqn:Hf; [left; apply obeys_ret|].
  right. eexists _, _. split_and!; [done|by apply user_kept_add|]. intros []; apply obeys_ret.
Qed.

Lemma obeys_remove_transient K s : row_le version_row K = true → obeys K (remove_transient_attempt s).
Proof.
  intros HK. apply obeys_fetch; [done|intros e; apply obeys_ret|]. intros w.
  cbv beta iota zeta. destruct (negb _); [left; apply obeys_ret|].
  right. eexists _, _. split_and!; [done|apply user_kept_remove|]. intros []; apply obeys_ret.
Qed.

End obeys.

(** ** Walking through the steps *)

Create HintDb obeys.

Ltac obeys_row := solve [eapply obeys_only; [|solve [eauto 2 with frame nocore]]; vm_compute; reflexivity].

Ltac obeys_pure := solve [eapply (obeys_only _ []); [done|by apply only_pure]].

Ltac obeys_step :=
  first
  [ lazymatch goal with
    | |- obeys _ (range_pods _ _) => obeys_pure
    | |- obeys _ Now => obeys_pure
    end
  | obeys_row
  | solve [eauto 2 with obeys nocore]
  | lazymatch goal with
    | |- obeys _ (mret _) => apply obeys_ret
    | |- obeys _ (oret _) => apply obeys_ret
    | |- obeys _ (proceed _) => apply obeys_ret
    | |- obeys _ (obind _ _) => apply obeys_obind; [|intros ?]
    | |- obeys _ (mbind _ _) => apply obeys_bind; [|intros ?]
    | |- obeys _ (RetryOnConflict _ _) => apply obeys_retry; intros ?
    | |- obeys _ (call ?a _) =>
        apply (obeys_only _ [kind_of a]); [vm_compute; reflexivity|apply only_call; apply list_elem_of_here]
    | |- obeys _ (let '(_, _) := ?x in _) => destruct x
    | |- obeys _ (match ?x with _ => _ end) => destruct x eqn:?
    end ].

Ltac obeys_auto := repeat obeys_step.

Section rules.
Context `{D : AtConfDeps} `{E : Env} `{O : PodOrder} `{AO : AnnotationOrder}.

Lemma obeys_Version enforce find vdb p : obeys version_row (VersionReconciler_Reconcile enforce find vdb p).
Proof.
  unfold VersionReconciler_Reconcile, reconcileVersion, getVersion, updateVDBVersion. wp_calls.
  repeat first [ apply obeys_version_attempt; [done|intros k; apply ParseVersionOutput_keys] | obeys_step ].
Qed.

End rules.

#[export] Hint Extern 1 (obeys _ (VersionReconciler_Reconcile _ _ _ _)) =>
  eapply obeys_row_le; [|apply obeys_Version]; vm_compute; reflexivity : obeys.
