(* ===== verification/Tracks.v ===== *)
(** * The rules with the facts of an iteration

    The calls of the reconcilers with rules of their own are justified by the
    facts they are given.  [tracks] says of a computation both that its calls keep
    the rules of [Rules], when the VerticaDB and the facts it starts with are genuine,
    and that those it returns are.  It holds for all reconcilers and for the steps of both
    upgrades. *)

From stdpp Require Import base gmap strings pretty sorting numbers list.
From S2P Require Import Prelude GoStrings GoRegexp K8s Types Version KObjects Effects Status Labels ScFinder Atconf PodFacts PodFactsSpec Builder Restart RestartSpec Install Scaling ScalingSpec Upgrade ObjRec InitDB StatusRec StatusSpec Online Frame UpgradeSpec ObjSpec InitSpec Origin Facts Rules.

#[local] Hint Resolve within_Obj within_reconcileSts within_reconcileExtSvc within_Create within_Revive
  within_Status within_Metric within_Operator120 : frame.

(** ** Runs *)

Lemma split_extends (t t' n1 : Trace) a n2 :
  t' = n1 ++ a :: n2 → extends t t' → extends t n2 ∨ ∃ n, t = n ++ a :: n2.
Proof.
  intros -> [new Hn]. revert new Hn. induction n1 as [|b n1 IH]; intros [|c new] Hn; simplify_eq/=.
  - right. by exists [].
  - left. by exists new.
  - right. by exists (b :: n1).
  - by eapply IH.
Qed.

(** A call since [t] is one of the new ones. *)
Lemma split_new {t new n1 n2 : Trace} {a} {P : action → Prop} :
  n1 ++ a :: n2 = new ++ t → extends t n2 → Forall P new → P a.
Proof.
  intros Heq [n3 ->] Hall. change (a :: n3 ++ t) with ((a :: n3) ++ t) in Heq. rewrite (assoc_L (++)) in Heq.
  apply (inj (.++ t)) in Heq as <-. by apply Forall_app in Hall as [_ [? _]%Forall_cons].
Qed.

Section tracks.
Context `{D : AtConfDeps} `{E : Env} `{O : PodOrder} `{AO : AnnotationOrder}.

(** From [t] to [t'] every call keeps the rules of an iteration since [t0]. *)
Definition runs (K : row) (t0 t t' : Trace) : Prop :=
  extends t t' ∧ ∀ n1 a n2, t' = n1 ++ a :: n2 → extends t n2 → actor_rule K t0 a n2.

Lemma runs_refl K t0 t : runs K t0 t t.
Proof.
  split; [done|]. intros n1 a n2 -> [new Hn]. apply (f_equal length) in Hn. rewrite !length_app in Hn. simpl in Hn. lia.
Qed.

Lemma runs_trans K t0 t t1 t2 : runs K t0 t t1 → runs K t0 t1 t2 → runs K t0 t t2.
Proof.
  intros [X1 H1] [X2 H2]. split; [by etrans|]. intros n1 a n2 Ht He.
  destruct (split_extends t1 t2 n1 a n2 Ht X2) as [Hx|[n ->]]; [by eapply H2|by eapply H1].
Qed.

Lemma runs_le K K' t0 t t' : row_le K K' = true → runs K t0 t t' → runs K' t0 t t'.
Proof.
  intros HK [He Hr]. split; [done|]. intros n1 a n2 Ht Hn. destruct (Hr n1 a n2 Ht Hn) as [Ha Hok].
  split; [by eapply row_le_in|done].
Qed.

Lemma runs_obeyed K t0 t t' : extends t0 t → obeyed K t t' → runs K t0 t t'.
Proof.
  intros He [Hx Hs]. split; [done|]. intros n1 a n2 -> Hn. destruct (safe_since Hs Hn) as [Ha Hok].
  split; [done|]. by eapply call_ok_earlier.
Qed.

Lemma obeys_runs {A} K (m : M A) t0 t : obeys K m → extends t0 t → wp m t (λ _ t', runs K t0 t t').
Proof.
  intros Hm He. eapply wp_mono; [|exact (Hm t t (conj (reflexivity t) (safe_start t _)))].
  intros x t' Ht. by apply runs_obeyed.
Qed.

(** ** Computations that return facts *)

Definition tracks {A} `{Carries A} (K : row) (v : VerticaDB) (p : PodFacts) (m : M A) : Prop :=
  ∀ t0 t, genuine t0 p t → authentic t0 v t →
  wp m t (λ r t', runs K t0 t t' ∧ genuine t0 (carried r) t' ∧ ∀ w, held r = Some w → authentic t0 w t').

Lemma tracks_of {A} `{Carries A} K v p (m : M A) : carries v p m → obeys K m → tracks K v p m.
Proof. intros Hc Ho t0 t Hp Hv. split; [by apply (obeys_runs K m t0 t Ho), Hp|by apply Hc]. Qed.

Lemma tracks_ret {A} `{Carries A} K v p (a : A) :
  from p (carried a) → (∀ w, held a = Some w → vfrom v w) → tracks K v p (mret a).
Proof.
  intros Ha Hw t0 t Hp Hv. apply wp_ret. split_and!; [apply runs_refl|by apply Ha|]. intros w Hh. by apply (Hw w Hh).
Qed.

Lemma tracks_from {A} `{Carries A} K v p q (m : M A) : from p q → tracks K v q m → tracks K v p m.
Proof. intros Hq Hm t0 t Hp. by apply Hm, Hq. Qed.

Lemma tracks_vfrom {A} `{Carries A} K v w p (m : M A) : vfrom v w → tracks K w p m → tracks K v p m.
Proof. intros Hq Hm t0 t Hp Hv. by apply Hm, Hq. Qed.

Lemma tracks_le {A} `{Carries A} K K' v p (m : M A) : row_le K K' = true → tracks K v p m → tracks K' v p m.
Proof.
  intros HK Hm t0 t Hp Hv. eapply wp_mono; [|exact (Hm t0 t Hp Hv)]. intros a t1 [Hr Ha].
  split; [by eapply runs_le|done].
Qed.

Lemma tracks_quiet {A B} `{Carries B} K v p (m : M A) (f : A → M B) :
  obeys K m → (∀ a, tracks K v p (f a)) → tracks K v p (m ≫= f).
Proof.
  intros Hm Hf t0 t Hp Hv. apply wp_bind. eapply wp_mono; [|apply (obeys_runs K m t0 t Hm), Hp]. intros a t1 H1.
  eapply wp_mono; [|apply Hf; [eapply genuine_extends; [exact Hp|apply H1]|eapply authentic_extends; [apply H1|exact Hv]]].
  intros b t2 [H2 Hb]. split; [exact (runs_trans K t0 t t1 t2 H1 H2)|done].
Qed.

Lemma tracks_refresh {A B} `{Carries B} (h : A → option VerticaDB) K v p (m : M A) (f : A → M B) :
  obeys K m → refreshes h v m → (∀ a, tracks K (default v (h a)) p (f a)) → tracks K v p (m ≫= f).
Proof.
  intros Ho Hm Hf t0 t Hp Hv. apply wp_bind.
  eapply wp_mono; [|apply wp_and; [apply (obeys_runs K m t0 t Ho), Hp|by apply Hm]]. intros a t1 [H1 [X1 Ha]].
  eapply wp_mono; [|apply Hf; [by eapply genuine_extends|]].
  - intros b t2 [H2 Hb]. split; [exact (runs_trans K t0 t t1 t2 H1 H2)|done].
  - destruct (h a); simpl; [by apply Ha|by eapply authentic_extends].
Qed.

Lemma tracks_bind {A B} `{Carries A} `{Carries B} K v p (m : M A) (f : A → M B) :
  tracks K v p m → (∀ a, tracks K (default v (held a)) (carried a) (f a)) → tracks K v p (m ≫= f).
Proof.
  intros Hm Hf t0 t Hp Hv. apply wp_bind. eapply wp_mono; [|by apply Hm]. intros a t1 (H1 & Ha & Hw).
  eapply wp_mono; [|apply Hf; [done|]].
  - intros b t2 [H2 Hb]. split; [exact (runs_trans K t0 t t1 t2 H1 H2)|done].
  - destruct (held a); simpl; [by apply Hw|]. eapply authentic_extends; [apply H1|done].
Qed.

Lemma tracks_panic {A} `{Carries A} K v p msg : tracks K v p (mret (Panic msg : outcome A)).
Proof. apply tracks_ret; [by apply from_stale|done]. Qed.

Lemma tracks_oquiet {A B} `{Carries B} K v p (m : M (outcome A)) (f : A → M (outcome B)) :
  obeys K m → (∀ a, tracks K v p (f a)) → tracks K v p (obind m f).
Proof. intros Hm Hf. apply tracks_quiet; [done|]. intros [a|msg]; [apply Hf|apply tracks_panic]. Qed.

Lemma tracks_obind {A B} `{Carries A} `{Carries B} K v p (m : M (outcome A)) (f : A → M (outcome B)) :
  tracks K v p m → (∀ a, tracks K (default v (held a)) (carried a) (f a)) → tracks K v p (obind m f).
Proof. intros Hm Hf. apply tracks_bind; [done|]. intros [a|msg]; [apply Hf|apply tracks_panic]. Qed.

(** A computation with a rule of its own *)
Lemma tracks_rule {A} `{Carries A} K v p (m : M A) (R : Trace → action → Trace → Prop) :
  carries v p m → only (within K) m → (∀ t, wp m t (λ _ t', safe (since_start t (R t)) t')) →
  (∀ t0 t a past, genuine t0 p t → authentic t0 v t → extends t past → within K a → R t a past → call_ok t0 a past) →
  tracks K v p m.
Proof.
  intros Hc Hm Hr Hok t0 t Hp Hv. split; [|by apply Hc]. destruct (Hm t) as (new & Hnew & Hall).
  specialize (Hr t). unfold wp in Hr. rewrite Hnew in *. split; [apply extends_app|]. intros n1 a n2 Heq Hn.
  rewrite Heq in Hr. pose proof (safe_since Hr Hn) as Ha.
  split; [by eapply split_new|]. eapply Hok; [done|done|done|by eapply split_new|done].
Qed.

End tracks.

(** ** The reconcilers with rules of their own *)

Section rules.
Context `{D : AtConfDeps} `{E : Env} `{O : PodOrder} `{AO : AnnotationOrder}.

Lemma call_ok_cases K t a past :
  bool_decide (KUpdateVdb ∉ K) = true → within K a →
  (∀ pod cmd, a = AExecAdmintools pod cmd → tool_ok t pod cmd past) →
  (∀ pod cmd, a = AExecInPod pod cmd → removes cmd = true → removal_ok t pod past) → call_ok t a past.
Proof. intros HK%bool_decide_eq_true Ha H1 H2. destruct a; try done; simpl; [by apply H2|by apply H1]. Qed.

(** The tools that are not in the row *)
Ltac other_tools Ha :=
  split; intros Ht;
    try (exfalso; revert Ha; unfold within; cbn [kind_of]; rewrite Ht; apply (bool_decide_unpack _); vm_compute; exact I).

Ltac no_removal Ha :=
  let pod := fresh in let cmd := fresh in let Hr := fresh in
  intros pod cmd -> Hr; exfalso; revert Ha; unfold within; cbn [kind_of]; rewrite Hr;
  apply (bool_decide_unpack _); vm_compute; exact I.

Lemma tool_cmd cmd tool : tool_of cmd = tool → tool ≠ "" → cmd !! 1 = Some tool.
Proof. unfold tool_of. destruct (cmd !! 1); simpl; by intros <-. Qed.

Lemma tracks_Restart b vdb p : tracks restart_row vdb p (Restart.Reconcile b vdb p (MkNamespacedName "" "")).
Proof.
  apply (tracks_rule _ _ _ _ (by_the_rules b vdb p));
    [apply carries_Restart|apply within_Restart|intros t; apply (Reconcile_rules b vdb p t)|].
  intros t0 t a past Hp Hv Hx Ha Hr. apply (call_ok_cases restart_row); [done|done| |no_removal Ha].
  intros pod cmd ->. destruct Hr as (v & q & t1 & Hon & H1 & H2 & Hstart & Hnode & _).
  assert (authentic t0 v t1) as Hv1.
  { pose proof (refreshes_UpdateCondition vdb (MkVerticaDBCondition AutoRestartVertica ConditionTrue ZeroTime) t0 t Hv) as Hw.
    unfold wp in Hw. rewrite !Hon in Hw. by apply Hw. }
  assert (collected_at t0 q (snd (Collect v p t1))) as Hq by (eapply Collect_used; [by eapply genuine_extends|done|done]).
  assert (∀ u, extends (snd (Collect v p t1)) u → authentic t0 v u) as Hvu.
  { intros u Hu. eapply authentic_extends; [|exact Hv1]. etrans; [apply Collect_grows|exact Hu]. }
  other_tools Ha.
  - destruct (Hstart (tool_cmd _ _ Ht ltac:(done))) as [down Hd]. exists b, v, q, (snd (Collect v p t1)), down.
    split; [apply Hvu, Hd|]. split; [split; [done|apply Hd]|done].
  - destruct (Hnode (tool_cmd _ _ Ht ltac:(done))) as [down Hd]. exists b, v, q, (snd (Collect v p t1)), down.
    split; [apply Hvu, Hd|]. split; [split; [done|apply Hd]|done].
Qed.

Lemma removes_rm cmd : removes cmd = true → head cmd = Some "rm".
Proof. unfold removes. intros Hr%bool_decide_eq_true. by destruct cmd as [|c [|c' cmd]]; simplify_eq/=. Qed.

Lemma cleaned_since since past path v : cleaned since past path v → extends since past.
Proof. intros (b & H1 & H2 & _). etrans; [exact H1|]. by eapply extends_trans_cons. Qed.

Lemma add_node_since vdb p since past pod cmd sc : add_node_ok vdb p since past pod cmd sc → extends since past.
Proof.
  intros [(pods & Hne & _ & _ & _ & Hc) _]. destruct pods as [|v pods]; [done|].
  destruct (Hc v ltac:(by left)) as [Hv _]. by eapply cleaned_since.
Qed.

Lemma add_call_ok vdb S p t0 t a past :
  genuine t0 p t → authentic t0 vdb t → extends t past → within add_node_row a → add_rule vdb S p t a past →
  call_ok t0 a past.
Proof.
  intros Hp Hv Hx Ha Hr. apply (call_ok_cases add_node_row); [done|done| |].
  - intros pod cmd ->. destruct Hr as (q & H1 & (sc & _ & H2)%add_node_rule_ok). other_tools Ha.
    exists vdb, q, (snd (Collect vdb p t)), sc. split; [by eapply authentic_extends|]. split; [|done]. split; [by eapply Collect_used|by eapply add_node_since].
  - intros pod cmd -> Hrm%removes_rm. destruct (Hr Hrm) as (q & H1 & H2). destruct (H2 Hrm) as (Hs & f & Hf).
    exists q, f. split; [|done]. eapply collected_extends; [by eapply Collect_used|done].
Qed.

Lemma tracks_AddNode vdb p : tracks add_node_row vdb p (DBAddNodeReconciler_Reconcile vdb p).
Proof.
  eapply (tracks_rule _ _ _ _ (λ t a past, _)); [apply carries_AddNode|apply within_AddNode|intros t; apply DBAddNode_rules|].
  intros t0 t a past Hp Hv. by apply add_call_ok.
Qed.

(** Facts that are current, when the reconciler started with genuine ones *)
Lemma known_genuine vdb p0 t00 t0 p t :
  genuine t00 p0 t0 → authentic t00 vdb t0 → known vdb p0 t0 p t → extends t0 t ∧ genuine t00 p t.
Proof.
  intros H0 Hv (since & Hc & Hs). assert (extends t0 since ∧ genuine t00 p since) as [X Hg].
  2: { split; [by etrans|by eapply genuine_extends]. }
  clear Hs. induction Hc as [|p since Hc [X IH]|q p since t1 Hc [X IH] He Hp]; [done| |].
  - split; [done|]. apply genuine_stale; [apply IH|done].
  - assert (authentic t00 vdb t1) as Hv1 by (eapply authentic_extends; [|exact Hv]; by etrans).
    destruct (NeedCollection q) eqn:Hn.
    + split; [etrans; [exact X|]; etrans; [exact He|apply Collect_grows]|].
      pose proof (Collect_genuine t00 vdb q t1 (genuine_extends _ _ _ _ IH He) Hv1) as Hg. by rewrite Hp in Hg.
    + split; [done|]. revert Hp. unfold Collect. rewrite Hn. by intros [= <-].
Qed.

Lemma used_collected vdb p0 t00 t0 p t :
  genuine t00 p0 t0 → authentic t00 vdb t0 → used vdb p0 t0 p t → collected_at t00 p t.
Proof.
  intros H0 Hv (q & t1 & Hq & Hc & He). eapply collected_extends; [|exact He].
  destruct (known_genuine _ _ _ _ _ _ H0 Hv Hq) as [X Hg]. eapply Collect_used; [done|by eapply authentic_extends|done].
Qed.

Lemma tracks_RemoveNode vdb p : tracks remove_node_row vdb p (DBRemoveNodeReconciler_Reconcile vdb p).
Proof.
  apply (tracks_rule _ _ _ _ (remove_rule vdb p)); [apply carries_RemoveNode|apply within_RemoveNode|intros t; apply DBRemoveNode_rules|].
  intros t0 t a past Hp Hv Hx Ha Hr. apply (call_ok_cases remove_node_row); [done|done| |no_removal Ha].
  intros pod cmd ->. destruct Hr as (q & H1 & H2). other_tools Ha. exists vdb, q.
  split; [by eapply authentic_extends|]. split; [by eapply used_collected|done].
Qed.

(** Both initializers *)
Lemma init_call_ok (I : DatabaseInitializer) `{!InitializerLaws I} K vdb p t0 t a past :
  bool_decide (KUpdateVdb ∉ K) = true → genuine t0 p t → authentic t0 vdb t → within K a →
  setup_call a ∨ collect_call a ∨ based vdb (init_rule I vdb) p t a past →
  (∀ pod cmd q since v podList, a = AExecAdmintools pod cmd → facts_at t0 q since past →
    init_ok I vdb q since past pod cmd v podList → tool_ok t0 pod cmd past) →
  call_ok t0 a past.
Proof.
  intros HK Hp Hv Ha Hr Hok. apply (call_ok_cases K); [done|done| |].
  - intros pod cmd ->. destruct Hr as [[]|[[]|(q & H1 & v & podList & H2)]].
    eapply Hok; [done| |done]. split; [by eapply Collect_used|].
    destruct (io_auth _ _ _ _ _ _ _ _ _ H2) as (c & b & _ & Hb & Hx & _). etrans; [exact Hb|]. by eapply extends_trans_cons.
  - intros pod cmd -> Hrm. pose proof (removes_rm _ Hrm) as Hh. destruct Hr as [Hr|[Hr|(q & H1 & H2)]].
    + by destruct Hr.
    + simpl in Hr. rewrite Hh in Hr. exfalso. revert Hr. by apply (bool_decide_unpack _).
    + destruct (H2 Hh) as [->|(Hs & f & Hf)]; [done|]. exists q, f.
      split; [eapply collected_extends; [by eapply Collect_used|done]|done].
Qed.

Lemma tracks_Create vdb p : tracks create_row vdb p (CreateDBReconciler_Reconcile vdb p).
Proof.
  pose proof (carries_Create vdb p) as Hc. pose proof (within_Create vdb p) as Hw. revert Hc Hw.
  unfold CreateDBReconciler_Reconcile. case_bool_decide as Hpol; simpl; intros Hc Hw; [|by apply tracks_ret; [|held_tac]].
  eapply (tracks_rule _ _ _ _ (λ t a past, _)); [done|done|intros t; apply (init_rules createdb)|].
  intros t0 t a past Hp Hv Hx Ha Hr. eapply (init_call_ok createdb create_row); [done|done|done|done|exact Hr|].
  intros pod cmd q since v podList -> Hf Hok. other_tools Ha. exists vdb, q, since, v, podList.
  split; [by eapply authentic_extends|done].
Qed.

Lemma tracks_Revive vdb p : tracks revive_row vdb p (ReviveDBReconciler_Reconcile vdb p).
Proof.
  pose proof (carries_Revive vdb p) as Hc. pose proof (within_Revive vdb p) as Hw. revert Hc Hw.
  unfold ReviveDBReconciler_Reconcile. case_bool_decide as Hpol; simpl; intros Hc Hw; [|by apply tracks_ret; [|held_tac]].
  eapply (tracks_rule _ _ _ _ (λ t a past, _)); [done|done|intros t; apply (init_rules revivedb)|].
  intros t0 t a past Hp Hv Hx Ha Hr. eapply (init_call_ok revivedb revive_row); [done|done|done|done|exact Hr|].
  intros pod cmd q since v podList -> Hf Hok. other_tools Ha. exists vdb, q, since, v, podList.
  split; [by eapply authentic_extends|done].
Qed.

End rules.

Create HintDb tracks.

Ltac with_row lem := eapply tracks_le; [|apply lem]; vm_compute; reflexivity.

#[export] Hint Extern 1 (tracks _ _ _ (Restart.Reconcile _ _ _ _)) => with_row tracks_Restart : tracks.
#[export] Hint Extern 1 (tracks _ _ _ (DBAddNodeReconciler_Reconcile _ _)) => with_row tracks_AddNode : tracks.
#[export] Hint Extern 1 (tracks _ _ _ (DBRemoveNodeReconciler_Reconcile _ _)) => with_row tracks_RemoveNode : tracks.
#[export] Hint Extern 1 (tracks _ _ _ (CreateDBReconciler_Reconcile _ _)) => with_row tracks_Create : tracks.
#[export] Hint Extern 1 (tracks _ _ _ (ReviveDBReconciler_Reconcile _ _)) => with_row tracks_Revive : tracks.

(** ** Walking through the steps *)

Ltac tracked_norm :=
  lazymatch goal with
  | |- tracks ?K ?v ?p ?m =>
      let v' := eval cbv [held carried carries_facts carries_fst carries_snd carries_up carries_obj carries_on
        carries_outcome fst snd default vdb_first vdb_outcome compose id] in v in
      let p' := eval cbv [carried held carries_facts carries_fst carries_snd carries_up carries_obj carries_on
        carries_outcome fst snd] in p in
      change (tracks K v' p' m)
  end.

Ltac tracks_known :=
  first [ solve [eauto 2 with tracks nocore]
        | solve [apply tracks_of; [carries_known|first [obeys_row | solve [eauto 2 with obeys nocore]]]] ].

Ltac tracks_step :=
  first
  [ tracks_known
  | lazymatch goal with
    | |- tracks _ _ _ (mret (Panic _)) => apply tracks_panic
    | |- tracks _ _ _ (mret _) => apply tracks_ret; [from_tac|held_tac]
    | |- tracks _ _ _ (oret _) => apply tracks_ret; [from_tac|held_tac]
    | |- tracks _ _ _ (proceed _) => apply tracks_ret; [from_tac|held_tac]
    | |- tracks _ _ _ (obind _ _) =>
        first [ apply tracks_obind; [solve [repeat tracks_step]|intros ?; tracked_norm]
              | apply tracks_oquiet; [solve [obeys_auto]|intros ?] ]
    | |- tracks _ _ _ (mbind _ _) =>
        first [ apply tracks_bind; [solve [repeat tracks_step]|intros ?; tracked_norm]
              | eapply tracks_refresh; [|refresh_known|intros ?; tracked_norm]; [solve [obeys_auto]|]
              | apply (tracks_refresh vdb_first); [solve [obeys_auto]|solve [repeat refresh_step]|intros ?; tracked_norm]
              | apply tracks_quiet; [solve [obeys_auto]|intros ?] ]
    | |- tracks _ _ _ (let '(_, _) := ?x in _) => destruct x; tracked_norm
    | |- tracks _ _ _ (match ?x with _ => _ end) => destruct x eqn:?; tracked_norm
    end ].

Ltac tracks_auto := wp_calls; repeat tracks_step.

Section upgrades.
Context `{D : AtConfDeps} `{E : Env} `{O : PodOrder} `{AO : AnnotationOrder} (d : DeploymentNames).

(** ** The upgrade manager *)

Lemma obeys_needed cond allowed vdb : obeys read_row (IsUpgradeNeeded cond allowed vdb).
Proof. unfold IsUpgradeNeeded, isVDBImageDifferent. obeys_auto. Qed.

Lemma obeys_IsUpgradeNeeded cond allowed vdb : obeys upgrade_row (IsUpgradeNeeded cond allowed vdb).
Proof. eapply obeys_row_le; [|apply obeys_needed]. done. Qed.

Lemma obeys_update_image vdb sts : obeys upgrade_row (updateImageInStatefulSet vdb sts).
Proof. unfold updateImageInStatefulSet. wp_calls. obeys_auto. Qed.

#[local] Hint Resolve obeys_IsUpgradeNeeded obeys_update_image : obeys.

Lemma obeys_update_images vdb stss n : obeys upgrade_row (update_images vdb stss n).
Proof. revert n. induction stss; intros n; simpl; [apply obeys_ret|]. obeys_auto; eauto. Qed.

Lemma obeys_delete_pods vdb scName pods n : obeys upgrade_row (delete_pods vdb scName pods n).
Proof. revert n. induction pods; intros n; simpl; [apply obeys_ret|]. wp_calls. obeys_auto; eauto. Qed.

#[local] Hint Resolve obeys_update_images obeys_delete_pods : obeys.

Lemma obeys_deletePods vdb scName : obeys upgrade_row (deletePodsRunningOldImage vdb scName).
Proof. unfold deletePodsRunningOldImage. obeys_auto. Qed.

Lemma obeys_any_old_image vdb pods : obeys upgrade_row (any_old_image vdb pods).
Proof. induction pods; simpl; [apply obeys_ret|]. wp_calls. obeys_auto; eauto. Qed.

#[local] Hint Resolve obeys_deletePods obeys_any_old_image : obeys.

(** ** The offline upgrade *)

Lemma tracks_offline : Forall (λ f : up_step, ∀ s, tracks upgrade_row (us_vdb s) (us_pf s) (f s)) offline_funcs.
Proof.
  unfold offline_funcs. repeat (apply Forall_cons; split); [..|by apply Forall_nil]; intros s; unfold_offline; tracks_auto.
Qed.

Lemma tracks_run_upgrade fs s :
  Forall (λ f : up_step, ∀ s, tracks upgrade_row (us_vdb s) (us_pf s) (f s)) fs → tracks upgrade_row (us_vdb s) (us_pf s) (run_upgrade fs s).
Proof.
  intros Hfs. revert s. induction Hfs as [|f fs Hf _ IH]; intros s; simpl; [by apply tracks_ret; [|held_tac]|].
  apply tracks_obind; [apply Hf|]. intros [s' [res err]]. tracked_norm. destruct (IsReconcileAborted res err); [|apply IH].
  destruct err; by apply tracks_ret; [|held_tac].
Qed.

Lemma tracks_Offline vdb p : tracks upgrade_row vdb p (OfflineUpgradeReconciler_Reconcile vdb p).
Proof.
  unfold OfflineUpgradeReconciler_Reconcile.
  repeat first [tracks_step | apply (tracks_run_upgrade _ (MkUp _ _ _)), tracks_offline].
Qed.

(** ** The online upgrade *)

Definition step_tracks (K : row) (f : on_step) : Prop := ∀ s, tracks K (on_vdb s) (on_pf s) (f s).

Lemma step_tracks_le K K' f : row_le K K' = true → step_tracks K f → step_tracks K' f.
Proof. intros HK Hf s. eapply tracks_le; [exact HK|apply Hf]. Qed.

Lemma tracks_iterate K scType f :
  row_le read_row K = true → (∀ sts, step_tracks K (f sts)) → step_tracks K (iterateSubclusterType scType f).
Proof.
  intros HK Hf s. unfold iterateSubclusterType. apply tracks_quiet.
  { eapply obeys_row_le; [exact HK|]. obeys_row. }
  intros [stss|e]; [|by apply tracks_ret; [|held_tac]].
  revert s. induction stss as [|sts stss IH]; intros s; simpl; [by apply tracks_ret; [|held_tac]|].
  destruct (isMatchingSubclusterType sts scType) as [[]|]; [|apply IH|by apply tracks_ret; [|held_tac]].
  apply tracks_obind; [apply Hf|]. intros [s' [res err]]. tracked_norm.
  destruct (IsReconcileAborted res err); [by apply tracks_ret; [|held_tac]|apply IH].
Qed.

Lemma tracks_run_steps K fs : Forall (step_tracks K) fs → step_tracks K (run_steps fs).
Proof.
  intros Hfs. induction Hfs as [|f fs Hf _ IH]; intros s; simpl; [by apply tracks_ret; [|held_tac]|].
  apply tracks_obind; [apply Hf|]. intros [s' [res err]]. tracked_norm.
  destruct (IsReconcileAborted res err); [by apply tracks_ret; [|held_tac]|apply IH].
Qed.

Lemma obeys_route s scName b : obeys online_row (routeClientTraffic s scName b).
Proof.
  unfold routeClientTraffic, routed_service, getSubclusterForTemporaryRouting. wp_calls. obeys_auto.
Qed.

Lemma obeys_skip s : obeys online_row (skipTransientSetup s).
Proof. unfold skipTransientSetup. obeys_auto. Qed.

Lemma obeys_update_image_online vdb sts : obeys online_row (updateImageInStatefulSet vdb sts).
Proof. apply (obeys_row_le upgrade_row); [done|apply obeys_update_image]. Qed.

Lemma obeys_deletePods_online vdb scName : obeys online_row (deletePodsRunningOldImage vdb scName).
Proof. apply (obeys_row_le upgrade_row); [done|apply obeys_deletePods]. Qed.

#[local] Hint Resolve obeys_route obeys_skip obeys_update_image_online obeys_deletePods_online : obeys.

(** The two updates of the VerticaDB *)
Lemma carries_add_transient sc s : carries (on_vdb s) (on_pf s) (add_transient_attempt sc s).
Proof. unfold add_transient_attempt. carries_auto. Qed.

Lemma carries_remove_transient s : carries (on_vdb s) (on_pf s) (remove_transient_attempt s).
Proof. unfold remove_transient_attempt. carries_auto. Qed.

Lemma tracks_retry_on K (fn : on_state → M (on_state * option go_error)) s :
  (∀ s, carries (on_vdb s) (on_pf s) (fn s)) → (∀ s, obeys K (fn s)) → tracks K (on_vdb s) (on_pf s) (RetryOnConflict fn s).
Proof.
  intros Hc Ho. apply tracks_of; [|by apply obeys_retry]. apply carries_retry; [done|held_tac|].
  intros v s' Hs. eapply carries_vfrom; [by apply Hs|apply Hc].
Qed.

Lemma tracks_add_transient vdb image s :
  tracks online_row (on_vdb s) (on_pf s) (RetryOnConflict (add_transient_attempt (BuildTransientSubcluster vdb image)) s).
Proof.
  apply tracks_retry_on; intros s'; [apply carries_add_transient|by apply obeys_add_transient].
Qed.

Lemma tracks_remove_transient s : tracks online_row (on_vdb s) (on_pf s) (RetryOnConflict remove_transient_attempt s).
Proof. apply tracks_retry_on; intros s'; [apply carries_remove_transient|by apply obeys_remove_transient]. Qed.

#[local] Hint Resolve tracks_add_transient tracks_remove_transient : tracks.

(** The facts are collected first. *)
Lemma tracks_addTransientNodes : step_tracks online_row addTransientNodes.
Proof.
  intros s. unfold addTransientNodes, unless_skipped. apply tracks_quiet; [apply obeys_skip|].
  intros []; [by apply tracks_ret; [|held_tac]|]. apply (tracks_le add_node_row); [done|].
  apply (tracks_rule _ _ _ _ (add_rule (on_vdb s) (λ _, True) (on_pf s))).
  - unfold collected, with_transient, on_pf_step. carries_auto.
  - unfold collected, with_transient, on_pf_step. repeat first [apply within_addnode_subcluster | frame_step].
  - intros t. unfold collected. apply add_after_collect; [intros; by wp_step|]. intros p t1 H1 HR.
    unfold with_transient. simpl. destruct (TransientSc s) as [sc|]; [|by wp_step].
    unfold on_pf_step. wp_step. eapply wp_mono; [|by apply (addnode_subcluster_spec (on_vdb s) (λ _, True) p t1 _ HR)].
    intros [q res] t2 (H2 & _). by wp_step.
  - intros t0 t a past. by apply add_call_ok.
Qed.

Lemma tracks_sts_steps sts : Forall (λ f : sts_step, step_tracks online_row (f sts)) (primary_funcs ++ secondary_funcs).
Proof.
  unfold primary_funcs, secondary_funcs, postNextStatusMsgForSts.
  repeat (apply Forall_cons; split); [..|by apply Forall_nil]; intros s; unfold_online; unfold isSubclusterIdle; tracks_auto.
Qed.

Lemma tracks_postmsg : step_tracks online_row postNextStatusMsg.
Proof. intros s. unfold_online. tracks_auto. Qed.

Lemma tracks_primaries : step_tracks online_row restartPrimaries.
Proof.
  apply tracks_run_steps. apply Forall_forall. intros f (g & Hf & Hg)%list_elem_of_bind.
  apply elem_of_cons in Hf as [->|Hf]; [apply tracks_postmsg|].
  apply list_elem_of_singleton in Hf as ->. apply tracks_iterate; [done|]. intros sts.
  apply (proj1 (Forall_forall _ _) (tracks_sts_steps sts)). set_solver.
Qed.

Lemma tracks_secondaries : step_tracks online_row restartSecondaries.
Proof.
  apply tracks_iterate; [done|]. intros sts. apply tracks_run_steps. apply Forall_fmap.
  pose proof (tracks_sts_steps sts) as Hall. by apply Forall_app in Hall as [_ ?].
Qed.

Lemma tracks_precompute : step_tracks online_row precomputeStatusMsgs.
Proof.
  intros s. unfold precomputeStatusMsgs. apply tracks_obind.
  - refine (tracks_iterate online_row _ _ eq_refl _ (set_msgs s base_msgs (MsgIndex s))). intros sts s'. by apply tracks_ret; [|held_tac].
  - intros [s' [res err]]. tracked_norm. destruct (IsReconcileAborted res err); by apply tracks_ret; [|held_tac].
Qed.

Lemma tracks_online : Forall (step_tracks online_row) (online_funcs d).
Proof.
  unfold online_funcs. repeat (apply Forall_cons; split); [..|by apply Forall_nil];
    try first [ apply tracks_primaries | apply tracks_secondaries | apply tracks_addTransientNodes | apply tracks_precompute ];
    intros s; unfold_online; tracks_auto.
Qed.

Lemma tracks_Online vdb p : tracks online_row vdb p (OnlineUpgradeReconciler_Reconcile d vdb p).
Proof.
  unfold OnlineUpgradeReconciler_Reconcile. apply tracks_quiet.
  { eapply obeys_row_le; [|apply obeys_IsUpgradeNeeded]. done. }
  intros [c [ok err]]. destruct ok, err; try by apply tracks_ret; [|held_tac].
  apply tracks_obind; [apply (tracks_run_steps _ _ tracks_online (MkOn vdb p c None [] [] 0))|]. intros [s [res err]].
  tracked_norm. destruct (IsReconcileAborted res err), err; by apply tracks_ret; [|held_tac].
Qed.

End upgrades.

#[export] Hint Resolve tracks_Offline tracks_Online : tracks.
