(* ===== verification/OnlineSpec.v ===== *)
(** * Safety of the online upgrade

    No subcluster loses its pods before its clients were sent elsewhere and its
    connections are gone; and where the clients are sent. *)

From Stdlib Require Import Ascii.
From stdpp Require Import base gmap strings pretty sorting numbers list.
From S2P Require Import Prelude GoStrings GoRegexp K8s Types Version KObjects Effects Status Labels ScFinder Atconf PodFacts PodFactsSpec Builder BuilderSpec Restart RestartSpec Install Scaling ScalingSpec Upgrade ObjRec ObjSpec InitDB StatusRec StatusSpec Online Frame.

#[local] Hint Resolve within_Obj within_reconcileSts within_reconcileExtSvc : frame.

(** ** Calm steps

    Only one step changes the image of statefulsets and deletes pods. *)

Definition calm_row : row := filter (λ k, k ∉ [KUpdateSts; KDeletePod]) online_row.

Section calm.
Context `{D : AtConfDeps} `{E : Env} `{O : PodOrder} `{AO : AnnotationOrder} (d : DeploymentNames).

Definition step_within (K : row) (f : on_step) : Prop := ∀ s, only (within K) (f s).

Definition calm : on_step → Prop := step_within calm_row.

Lemma step_within_le K K' f : row_le K K' = true → step_within K f → step_within K' f.
Proof. intros HK Hf s. eapply only_row; [exact HK|apply Hf]. Qed.

Lemma within_route s scName b : only (within calm_row) (routeClientTraffic s scName b).
Proof. unfold routeClientTraffic, routed_service, getSubclusterForTemporaryRouting. frame_auto. Qed.

#[local] Hint Resolve within_route : frame.

Ltac calm_auto := intros s; unfold_online; unfold isSubclusterIdle, proceed; frame_auto.

Lemma calm_postmsg : calm postNextStatusMsg.
Proof. calm_auto. Qed.

Lemma calm_postmsg_sts sts : calm (postNextStatusMsgForSts sts).
Proof. exact calm_postmsg. Qed.

Lemma calm_drain sts : calm (drainSubcluster sts).
Proof. calm_auto. Qed.

Lemma calm_version sts : calm (online_checkVersion sts).
Proof. calm_auto. Qed.

Lemma calm_annotate sts : calm (online_addPodAnnotations sts).
Proof. calm_auto. Qed.

Lemma calm_installer sts : calm (online_runInstaller sts).
Proof. calm_auto. Qed.

Lemma calm_wait sts : calm (waitForReadOnly sts).
Proof. calm_auto. Qed.

Lemma calm_online sts : calm (bringSubclusterOnline sts).
Proof. calm_auto. Qed.

Lemma within_iterate K scType f :
  row_le read_row K = true → (∀ sts, step_within K (f sts)) → step_within K (iterateSubclusterType scType f).
Proof.
  intros HK Hf s. unfold iterateSubclusterType. apply only_bind; [eapply only_row; [exact HK|use_row]|].
  intros [stss|e]; [|apply only_ret].
  revert s. induction stss as [|sts stss IH]; intros s; simpl; [apply only_ret|].
  destruct (isMatchingSubclusterType sts scType) as [[]|]; [|apply IH|apply only_ret].
  apply only_obind; [apply Hf|]. intros [s' [res err]]. destruct (IsReconcileAborted res err); [apply only_ret|apply IH].
Qed.

Lemma calm_iterated scType f : (∀ sts, calm (f sts)) → calm (iterateSubclusterType scType f).
Proof. by apply within_iterate. Qed.

Lemma within_run_steps K fs : Forall (step_within K) fs → step_within K (run_steps fs).
Proof.
  intros Hfs. induction Hfs as [|f fs Hf _ IH]; intros s; simpl; [apply only_ret|].
  apply only_obind; [apply Hf|]. intros [s' [res err]]. destruct (IsReconcileAborted res err); [apply only_ret|apply IH].
Qed.

Definition calm_funcs_before : list on_step :=
  [(λ s, on_vdb_step (startUpgrade OnlineUpgradeInProgress (on_cont s)) s);
   loadSubclusterState; precomputeStatusMsgs; postNextStatusMsg; addTransientToVdb; createTransientSts d;
   installTransientNodes; addTransientSubcluster; addTransientNodes; rebalanceTransientNodes;
   addClientRoutingLabelToTransientNodes].

Definition calm_funcs_after : list on_step :=
  [postNextStatusMsg; removeTransientFromVdb; removeClientRoutingLabelFromTransientNodes;
   removeTransientSubclusters; uninstallTransientNodes; deleteTransientSts d;
   on_vdb_step (finishUpgrade OnlineUpgradeInProgress)].

Lemma online_funcs_parts :
  online_funcs d = calm_funcs_before ++ [restartPrimaries; restartSecondaries] ++ calm_funcs_after.
Proof. done. Qed.

Lemma calm_funcs : Forall calm (calm_funcs_before ++ calm_funcs_after).
Proof.
  unfold calm_funcs_before, calm_funcs_after.
  repeat (apply Forall_cons; split); [..|by apply Forall_nil]; try apply calm_postmsg; intros s; unfold_online;
    unfold skipTransientSetup, proceed, add_transient_attempt, remove_transient_attempt; wp_calls;
    repeat first [frame_step | apply calm_iterated; intros ??; apply only_ret].
Qed.

Lemma within_needed cond allowed vdb : only (within read_row) (IsUpgradeNeeded cond allowed vdb).
Proof. unfold IsUpgradeNeeded, isVDBImageDifferent. frame_auto. Qed.

(** *** All steps *)

Lemma within_delete_pods vdb scName pods n : only (within upgrade_row) (delete_pods vdb scName pods n).
Proof. revert n. induction pods; intros n; simpl; [apply only_ret|]. frame_auto; eauto. Qed.

Lemma within_update_image vdb sts : only (within upgrade_row) (updateImageInStatefulSet vdb sts).
Proof. unfold updateImageInStatefulSet. frame_auto. Qed.

#[local] Hint Resolve within_delete_pods within_update_image within_needed : frame.

Lemma within_recreate sts : step_within online_row (recreateSubclusterWithNewImage sts).
Proof.
  intros s. apply (only_row upgrade_row); [done|].
  unfold recreateSubclusterWithNewImage, deletePodsRunningOldImage, proceed. frame_auto.
Qed.

Lemma within_sts_steps sts : Forall (λ f : sts_step, step_within online_row (f sts)) (primary_funcs ++ secondary_funcs).
Proof.
  assert (∀ f, calm f → step_within online_row f) as Hc. { intros f. by apply step_within_le. }
  unfold primary_funcs, secondary_funcs, postNextStatusMsgForSts.
  repeat (apply Forall_cons; split); [..|by apply Forall_nil];
    first [ apply within_recreate | apply Hc; first [ apply calm_postmsg | apply calm_drain | apply calm_version
      | apply calm_annotate | apply calm_installer | apply calm_wait | apply calm_online ] ].
Qed.

Lemma within_Online vdb p : only (within online_row) (OnlineUpgradeReconciler_Reconcile d vdb p).
Proof.
  assert (∀ f, calm f → step_within online_row f) as Hc. { intros f. by apply step_within_le. }
  assert (Forall (step_within online_row) (online_funcs d)) as Hall.
  { rewrite online_funcs_parts. pose proof calm_funcs as [H1 H2]%Forall_app. apply Forall_app. split; [by eapply Forall_impl|].
    constructor; [|constructor; [|by eapply Forall_impl]].
    - apply within_run_steps, Forall_forall. intros f (g & Hf & Hg)%list_elem_of_bind.
      apply elem_of_cons in Hf as [->|Hf]; [apply Hc, calm_postmsg|].
      apply list_elem_of_singleton in Hf as ->. apply within_iterate; [done|]. intros sts.
      apply (proj1 (Forall_forall _ _) (within_sts_steps sts)). set_solver.
    - apply within_iterate; [done|]. intros sts. apply within_run_steps, Forall_fmap.
      pose proof (within_sts_steps sts) as Hs. by apply Forall_app in Hs as [_ ?]. }
  unfold OnlineUpgradeReconciler_Reconcile. apply only_bind; [use_row|]. intros [c [ok err]].
  destruct ok, err; try apply only_ret. apply only_obind; [by apply within_run_steps|].
  intros [s [res err]]. destruct (IsReconcileAborted res err), err; apply only_ret.
Qed.

(** *** The offline upgrade *)

Lemma within_update_images vdb stss n : only (within upgrade_row) (update_images vdb stss n).
Proof. revert n. induction stss; intros n; simpl; [apply only_ret|]. frame_auto; eauto. Qed.

Lemma within_any_old_image vdb pods : only (within upgrade_row) (any_old_image vdb pods).
Proof. induction pods; simpl; [apply only_ret|]. frame_auto; eauto. Qed.

#[local] Hint Resolve within_update_images within_any_old_image : frame.

Lemma within_offline : Forall (λ f : up_step, ∀ s, only (within upgrade_row) (f s)) offline_funcs.
Proof.
  unfold offline_funcs. repeat (apply Forall_cons; split); [..|by apply Forall_nil]; intros s; unfold_offline;
    unfold deletePodsRunningOldImage; frame_auto.
Qed.

Lemma within_Offline vdb p : only (within upgrade_row) (OfflineUpgradeReconciler_Reconcile vdb p).
Proof.
  unfold OfflineUpgradeReconciler_Reconcile. apply only_bind; [use_row|]. intros [c [ok err]].
  destruct ok, err; try apply only_ret. apply only_bind; [use_row|]. intros [q [e|]]; [apply only_ret|].
  generalize (MkUp vdb q c). pose proof within_offline as Hfs.
  induction Hfs as [|f fs Hf _ IH]; intros s; simpl; [apply only_ret|].
  apply only_obind; [apply Hf|]. intros [s' [res err]]. destruct (IsReconcileAborted res err); [|apply IH].
  destruct err; apply only_ret.
Qed.

End calm.

(** ** The run of an upgrade

    Running the step [f] in the state [s] at the trace [t] gets to the step [g], in
    the state [s'] at [t'].  Each constructor follows one way in which steps are
    composed. *)

Inductive gets_to `{D : AtConfDeps} `{E : Env} `{O : PodOrder} :
    on_step → on_state → Trace → on_step → on_state → Trace → Prop :=
| gets_here f s t : gets_to f s t f s t
| gets_first f fs s t g s' t' : gets_to f s t g s' t' → gets_to (run_steps (f :: fs)) s t g s' t'
| gets_later f fs s t s1 res err t1 g s' t' :
    f s t = (Ret (s1, (res, err)), t1) → IsReconcileAborted res err = false →
    gets_to (run_steps fs) s1 t1 g s' t' → gets_to (run_steps (f :: fs)) s t g s' t'
| gets_listed scType f s t stss t1 g s' t' :
    FindStatefulSets (on_vdb s) (Z.lor FindExisting FindSorted) t = (Ok stss, t1) →
    gets_to (iterate_stss scType f stss) s t1 g s' t' → gets_to (iterateSubclusterType scType f) s t g s' t'
| gets_skip scType f sts stss s t g s' t' :
    isMatchingSubclusterType sts scType = Ok false →
    gets_to (iterate_stss scType f stss) s t g s' t' → gets_to (iterate_stss scType f (sts :: stss)) s t g s' t'
| gets_sts scType f sts stss s t g s' t' :
    isMatchingSubclusterType sts scType = Ok true →
    gets_to (f sts) s t g s' t' → gets_to (iterate_stss scType f (sts :: stss)) s t g s' t'
| gets_next scType f sts stss s t s1 res err t1 g s' t' :
    isMatchingSubclusterType sts scType = Ok true →
    f sts s t = (Ret (s1, (res, err)), t1) → IsReconcileAborted res err = false →
    gets_to (iterate_stss scType f stss) s1 t1 g s' t' → gets_to (iterate_stss scType f (sts :: stss)) s t g s' t'.

#[local] Hint Constructors gets_to : core.

Lemma gets_to_trans `{D : AtConfDeps} `{E : Env} `{O : PodOrder} f s t g s1 t1 h s2 t2 :
  gets_to f s t g s1 t1 → gets_to g s1 t1 h s2 t2 → gets_to f s t h s2 t2.
Proof. intros H1 H2. induction H1; eauto. Qed.

(** ** Drained subclusters *)

Section drained.
Context `{D : AtConfDeps} `{E : Env} `{O : PodOrder} `{AO : AnnotationOrder} (d : DeploymentNames).

(** The iteration starts at [start]; it runs the steps of the upgrade from the state
    [s0] and the trace [t0] on. *)
Context (start : Trace) (s0 : on_state) (t0 : Trace).

(** This step of the upgrade is run in the state [s] at [t]. *)
Definition at_step (f : on_step) (s : on_state) (t : Trace) : Prop :=
  gets_to (run_steps (online_funcs d)) s0 t0 f s t.

(** The facts know no node of the subcluster that is up. *)
Definition no_node_up (s : on_state) (scName : string) : Prop :=
  ∀ pf, pf ∈ facts_list (on_pf s) → scName = "" ∨ subcluster pf = scName → upNode pf = false.

(** After [t] a query in a pod of the subcluster saw no session of a client. *)
Definition no_sessions (s : on_state) (scName : string) (t past : Trace) : Prop :=
  ∃ pf, let cmd := ["-tAc"; idle_sql scName] in let r := env_vsql t (pf_name pf) cmd in
    pf ∈ facts_list (on_pf s) ∧ upNode pf = true ∧ (scName = "" ∨ subcluster pf = scName) ∧
    exec_err r = None ∧ anyActiveConnections (stdout r) = false ∧ extends (AExecVSQL (pf_name pf) cmd :: t) past.

(** The upgrade got to the step that drains [sts], and with the VerticaDB and the
    facts that it had there [sts] had the new image already, or the traffic was sent
    elsewhere and then either no node of it was up or no session was left. *)
Definition drained (sts : StatefulSet) (past : Trace) : Prop :=
  ∃ s t, at_step (drainSubcluster sts) s t ∧
    (sts_Image sts = spec_Image (vdb_Spec (on_vdb s)) ∧ extends t past ∨
     ∃ t', routeClientTraffic s (sts_sc_name sts) true t = (Ret None, t') ∧ extends t t' ∧
       (no_node_up s (sts_sc_name sts) ∧ extends t' past ∨ no_sessions s (sts_sc_name sts) t' past)).

(** The upgrade got to the draining of the primary subclusters, and all that were
    listed there were drained. *)
Definition primaries_drained (past : Trace) : Prop :=
  ∃ s t stss, at_step (iterateSubclusterType PrimarySubclusterType drainSubcluster) s t ∧
    fst (FindStatefulSets (on_vdb s) (Z.lor FindExisting FindSorted) t) = Ok stss ∧
    ∀ sts, sts ∈ stss → isMatchingSubclusterType sts PrimarySubclusterType = Ok true → drained sts past.

(** A statefulset may be changed when it was drained or, for a primary, all
    primaries were. *)
Definition ready (sts : StatefulSet) (past : Trace) : Prop :=
  isMatchingSubclusterType sts PrimarySubclusterType = Ok true ∧ primaries_drained past ∨
  isMatchingSubclusterType sts SecondarySubclusterType = Ok true ∧ drained sts past.

(** A statefulset is changed, or a pod deleted, in the step that recreates a
    subcluster with the image of the VerticaDB, and only what had another image. *)
Definition change_rule (a : action) (past : Trace) : Prop :=
  match a with
  | AUpdateSts sts' => ∃ sts s t, at_step (recreateSubclusterWithNewImage sts) s t ∧ extends t past ∧
      let image := spec_Image (vdb_Spec (on_vdb s)) in
      sts' = set_sts_image sts image ∧ sts_Image sts ≠ image ∧ ready sts past
  | ADeletePod pod => ∃ sts s t, at_step (recreateSubclusterWithNewImage sts) s t ∧ extends t past ∧
      other_subcluster (sts_sc_name sts) pod = false ∧ pod_Image pod ≠ spec_Image (vdb_Spec (on_vdb s)) ∧ ready sts past
  | _ => True
  end.

Lemma drained_extends sts t t' : extends t t' → drained sts t → drained sts t'.
Proof.
  intros He (s & t1 & H1 & Hd). exists s, t1. split; [done|].
  destruct Hd as [[Hi Ht]|(t2 & Hr & H12 & Hd)]; [left; by split; [|etrans]|right].
  exists t2. split_and!; [done|done|]. destruct Hd as [[Hn Ht]|(pf & H2 & H3 & H4 & H5 & H6 & Ht)].
  - left. split; [done|by etrans].
  - right. exists pf. split_and!; [done..|by etrans].
Qed.

Lemma ready_extends sts t t' : extends t t' → ready sts t → ready sts t'.
Proof.
  intros He [[Hm (s & t1 & stss & H1 & H2 & H3)]|[Hm Hd]].
  - left. split; [done|]. exists s, t1, stss. split_and!; [done|done|]. intros sts' Hs Hp.
    by eapply drained_extends; [|apply H3].
  - right. split; [done|by eapply drained_extends].
Qed.

Definition R : action → Trace → Prop := since_start start change_rule.

(** [f] keeps the rule from a trace with [A] on and ensures [B] when it completes. *)
Definition completed {S} (o : outcome (S * reconcile_result)) : Prop :=
  ∃ s res err, o = Ret (s, (res, err)) ∧ IsReconcileAborted res err = false.

Definition step_safe (A B : Trace → Prop) (f : on_step) : Prop := ∀ s t,
  safe R t → at_step f s t → A t →
  wp (f s) t (λ o t', safe R t' ∧ extends t t' ∧ (completed o → B t')).

Definition lasting (A : Trace → Prop) : Prop := ∀ t t', extends t t' → A t → A t'.

(** Computations without a change of a statefulset or a pod *)
Lemma calm_safe {A} (m : M A) t :
  only (within calm_row) m → safe R t → wp m t (λ _ t', safe R t' ∧ extends t t').
Proof.
  intros Hm Ht. eapply (wp_only (within calm_row) _ R _ (λ _ _, True)); [done| |done|done|done].
  intros a past Ha. right. destruct a; try done; exfalso; revert Ha; row_tac.
Qed.

Lemma calm_step A f : lasting A → calm f → step_safe A A f.
Proof.
  intros HA Hf s t Ht He Ha. eapply wp_mono; [|apply calm_safe; [apply Hf|done]].
  intros o t' [H1 H2]. split_and!; [done|done|]. intros _. by eapply HA.
Qed.

(** ** Draining *)

Lemma idle_spec s scName t :
  wp (isSubclusterIdle s scName) t (λ '(res, err) t', IsReconcileAborted res err = false →
    no_node_up s scName ∧ t' = t ∨ no_sessions s scName t t').
Proof.
  unfold isSubclusterIdle. wp_calls. wp_step. apply wp_range. intros l Hl.
  destruct (findPodToRunVsql true scName l) as [pf ok] eqn:Hf. destruct ok; simpl.
  - apply find_pod_true in Hf as [Hin Htest].
    apply andb_true_iff in Htest as [Hsc [Hup _]%andb_true_iff].
    do 2 wp_step. set (cmd := ["-tAc"; idle_sql scName]).
    destruct (exec_err (env_vsql t (pf_name pf) cmd)) eqn:Hex; [by wp_step|].
    destruct (anyActiveConnections (stdout (env_vsql t (pf_name pf) cmd))) eqn:Hact; simpl; [by repeat wp_step|].
    do 2 wp_step. wp_step. intros _. right. exists pf. split_and!; try done.
    + by rewrite <- Hl.
    + revert Hsc. case_bool_decide; [by left|]. case_bool_decide; [by right|done].
  - wp_step. intros _. left. split; [|done]. intros pf' Hin Hsc. rewrite <- Hl in Hin.
    pose proof (find_pod_false _ _ _ _ Hf Hin) as Ht. destruct (upNode pf') eqn:Hup; [|done]. exfalso. revert Ht.
    destruct Hsc as [Hsc|Hsc]; rewrite (bool_decide_eq_true_2 _ Hsc); simpl; by rewrite Hup, ?andb_false_r.
Qed.

Lemma drain_safe sts : step_safe (λ _, True) (drained sts) (drainSubcluster sts).
Proof.
  intros s t Ht He _.
  eapply wp_mono; [|apply wp_and; [apply calm_safe; [apply calm_drain|done]|
    instantiate (1 := λ o t', completed o → drained sts t')]].
  { by intros o t' [[H1 H2] H3]. }
  unfold drainSubcluster. destruct (has_old_image _ _) eqn:Hi.
  - apply wp_obind. pose proof (wp_run (routeClientTraffic s (sts_sc_name sts) true) t) as Hrun.
    pose proof (calm_safe _ _ (within_route s (sts_sc_name sts) true) Ht) as Hsafe.
    eapply wp_mono; [|apply wp_and; [exact Hrun|exact Hsafe]].
    intros [[e|]|msg] t1 [Hr [_ X1]]; [wp_step; by intros (? & ? & ? & [= <- <- <-] & ?)| |by intros (? & ? & ? & ? & ?)].
    apply wp_bind. eapply wp_mono; [|apply idle_spec]. intros [res err] t2 Hidle. wp_step.
    intros (s' & res' & err' & [= <- <- <-] & Hab). exists s, t. split; [exact He|]. right.
    exists t1. split_and!; [done|done|]. destruct (Hidle Hab) as [[Hn ->]|Hs]; [by left|by right].
  - apply wp_ret. intros _. exists s, t. split; [exact He|]. left. split; [|done].
    unfold has_old_image in Hi. by apply negb_false_iff, bool_decide_eq_true in Hi.
Qed.

(** ** Changing *)

Lemma old_image v img : has_old_image v img = true → img ≠ spec_Image (vdb_Spec v).
Proof. unfold has_old_image. intros Hi%negb_true_iff. by apply bool_decide_eq_false in Hi. Qed.

Lemma delete_pods_safe sts s t1 pods n t :
  at_step (recreateSubclusterWithNewImage sts) s t1 → extends t1 t → safe R t → ready sts t →
  wp (delete_pods (on_vdb s) (sts_sc_name sts) pods n) t (λ _ t', safe R t' ∧ extends t t').
Proof.
  intros Hat. revert n t. induction pods as [|pod pods IH]; intros n t X Ht Hr; simpl; [by wp_step|].
  destruct (other_subcluster _ pod) eqn:Ho; [by apply IH|].
  destruct (has_old_image (on_vdb s) (pod_Image pod)) eqn:Hold; [|by apply IH]. wp_calls. do 2 wp_step.
  assert (extends t (ADeletePod pod :: t)) as X1 by apply extends_cons.
  assert (safe R (ADeletePod pod :: t)) as H1.
  { split; [|done]. right. exists sts, s, t1. split_and!; [done..|by apply old_image|done]. }
  destruct (env_delete_pod t pod); [by wp_step|].
  eapply wp_mono; [|apply IH; [by etrans|done|by eapply ready_extends]]. intros r t' [H2 X2]. split; [done|by etrans].
Qed.

Lemma find_pods_safe v flags t : safe R t → wp (FindPods v flags) t (λ _ t', safe R t' ∧ extends t t').
Proof.
  apply calm_safe. use_row.
Qed.

Lemma recreate_safe sts : step_safe (ready sts) (ready sts) (recreateSubclusterWithNewImage sts).
Proof.
  intros s t Ht He Hr. unfold recreateSubclusterWithNewImage, deletePodsRunningOldImage. apply wp_bind.
  eapply (wp_mono _ _ (λ _ t', safe R t' ∧ extends t t')).
  2: { unfold updateImageInStatefulSet. destruct (has_old_image _ _) eqn:Hold; [|by wp_step]. wp_calls. do 2 wp_step.
       assert (safe R (AUpdateSts (set_sts_image sts (spec_Image (vdb_Spec (on_vdb s)))) :: t)) as H1.
       { split; [|done]. right. exists sts, s, t. split_and!; [exact He|done|].
         cbv zeta. split_and!; [done|by apply old_image|done]. }
       destruct (env_update_sts t _); wp_step; (split; [done|apply extends_cons]). }
  intros [changed [e|]] t1 [H1 X1]; [wp_step; split_and!; [done|done|by intros (? & ? & ? & [= <- <- <-] & ?)]|].
  do 2 apply wp_bind. eapply wp_mono; [|by apply find_pods_safe]. intros [pods|e] t2 [H2 X2].
  2: { do 2 apply wp_ret. split_and!; [done|by etrans|by intros (? & ? & ? & [= <- <- <-] & ?)]. }
  assert (ready sts t2) as Hr2 by (eapply ready_extends; [|exact Hr]; by etrans).
  replace (on_vdb (if changed : bool then _ else s)) with (on_vdb s) by by destruct changed.
  eapply wp_mono; [|eapply (delete_pods_safe sts s t); [exact He|by etrans|done|done]]. intros [n err] t3 [H3 X3].
  assert (extends t t3) as X by (etrans; [exact X1|]; etrans; [exact X2|exact X3]).
  destruct err as [e|]; apply wp_ret; (split_and!; [done|done|]).
  - by intros (? & ? & ? & [= <- <- <-] & ?).
  - intros _. eapply ready_extends; [|exact Hr2]. done.
Qed.

(** ** Composition *)

Lemma step_weaken (A A' B B' : Trace → Prop) f :
  (∀ t, A' t → A t) → (∀ t, B t → B' t) → step_safe A B f → step_safe A' B' f.
Proof.
  intros HA HB Hf s t Ht He Ha. eapply wp_mono; [|apply Hf; [done|done|by apply HA]].
  intros o t' (H1 & H2 & H3). split_and!; [done|done|]. intros Hc. by apply HB, H3.
Qed.

(** One step after the other, each with what the one before ensures *)
Fixpoint chain (A : Trace → Prop) (fs : list on_step) (C : Trace → Prop) : Prop :=
  match fs with
  | [] => ∀ t, A t → C t
  | f :: fs => ∃ B, step_safe A B f ∧ chain B fs C
  end.

Lemma run_steps_safe fs A C : chain A fs C → step_safe A C (run_steps fs).
Proof.
  revert A. induction fs as [|f fs IH]; intros A Hch s t Ht He Ha; simpl.
  { apply wp_ret. split_and!; [done|done|]. intros _. by apply Hch. }
  destruct Hch as (B & Hf & Hch). apply wp_obind.
  eapply wp_mono; [|apply wp_and; [apply wp_run|apply Hf; [done|eapply gets_to_trans; [exact He|eauto]|done]]].
  intros [[s' [res err]]|m] t1 [Hrun (H1 & X1 & HB)]; [|split_and!; [done|done|by intros (? & ? & ? & ? & ?)]].
  destruct (IsReconcileAborted res err) eqn:Hab.
  { apply wp_ret. split_and!; [done|done|]. intros (? & ? & ? & [= <- <- <-] & ?). congruence. }
  eapply wp_mono; [|apply (IH B Hch); [done|eapply gets_to_trans; [exact He|eauto]|]].
  - intros o t2 (H2 & X2 & HC). split_and!; [done|by etrans|done].
  - apply HB. by exists s', res, err.
Qed.

Lemma chain_keep (A C : Trace → Prop) fs : Forall (step_safe A A) fs → (∀ t, A t → C t) → chain A fs C.
Proof. intros Hall HC. induction Hall as [|f fs Hf _ IH]; [exact HC|]. by exists A. Qed.

Lemma chain_app A fs B gs C : chain A fs B → chain B gs C → chain A (fs ++ gs) C.
Proof.
  revert A. induction fs as [|f fs IH]; intros A Hfs Hgs; simpl.
  - destruct gs as [|g gs]; simpl in *; [naive_solver|]. destruct Hgs as (B' & Hg & Hgs). exists B'.
    split; [|done]. eapply step_weaken; [|done|exact Hg]. exact Hfs.
  - destruct Hfs as (B' & Hf & Hfs). exists B'. split; [done|]. by apply IH.
Qed.

Section iteration.
Context (scType : string) (A : Trace → Prop) (B : StatefulSet → Trace → Prop) (f : sts_step).
Context (HA : lasting A) (HB : ∀ sts, lasting (B sts)).
Context (Hf : ∀ sts, isMatchingSubclusterType sts scType = Ok true → step_safe A (B sts) (f sts)).

Lemma iterate_stss_safe stss :
  step_safe A (λ t, ∀ sts, sts ∈ stss → isMatchingSubclusterType sts scType = Ok true → B sts t)
    (iterate_stss scType f stss).
Proof.
  induction stss as [|sts stss IH]; intros s t Ht He Ha; simpl.
  { apply wp_ret. split_and!; [done|done|]. by intros _ sts ?%elem_of_nil. }
  destruct (isMatchingSubclusterType sts scType) as [[]|e] eqn:Hm.
  - apply wp_obind.
    eapply wp_mono; [|apply wp_and; [apply wp_run|apply Hf; [done|done|eapply gets_to_trans; [exact He|eauto]|done]]].
    intros [[s' [res err]]|m] t1 [Hrun (H1 & X1 & Hb)]; [|split_and!; [done|done|by intros (? & ? & ? & ? & ?)]].
    destruct (IsReconcileAborted res err) eqn:Hab.
    { apply wp_ret. split_and!; [done|done|]. intros (? & ? & ? & [= <- <- <-] & ?). congruence. }
    eapply wp_mono; [|apply IH; [done|eapply gets_to_trans; [exact He|eauto]|by eapply HA]].
    intros o t2 (H2 & X2 & HC). split_and!; [done|by etrans|]. intros Hc sts' [->|Hin]%elem_of_cons Hm'; [|by apply HC].
    eapply HB; [exact X2|]. apply Hb. by exists s', res, err.
  - eapply wp_mono; [|apply IH; [done|eapply gets_to_trans; [exact He|eauto]|done]].
    intros o t2 (H2 & X2 & HC). split_and!; [done|done|]. intros Hc sts' [->|Hin]%elem_of_cons Hm'; [congruence|by apply HC].
  - apply wp_ret. split_and!; [done|done|]. by intros (? & ? & ? & [= <- <- <-] & ?).
Qed.

Lemma iterate_safe :
  step_safe A (λ t, ∃ s t1 stss, at_step (iterateSubclusterType scType f) s t1 ∧
      fst (FindStatefulSets (on_vdb s) (Z.lor FindExisting FindSorted) t1) = Ok stss ∧
      ∀ sts, sts ∈ stss → isMatchingSubclusterType sts scType = Ok true → B sts t)
    (iterateSubclusterType scType f).
Proof.
  intros s t Ht He Ha. unfold iterateSubclusterType. apply wp_bind.
  eapply wp_mono; [|apply wp_and; [apply wp_run|apply calm_safe; [|exact Ht]; use_row]].
  intros [stss|e] t1 [Hrun [H1 X1]].
  2: { apply wp_ret. split_and!; [done|done|]. by intros (? & ? & ? & [= <- <- <-] & ?). }
  eapply wp_mono; [|apply iterate_stss_safe; [done|eapply gets_to_trans; [exact He|by eapply gets_listed]|by eapply HA]].
  intros o t2 (H2 & X2 & HC). split_and!; [done|by etrans|]. intros Hc. exists s, t, stss.
  split_and!; [done|by rewrite Hrun|by apply HC].
Qed.

End iteration.

Lemma iterate_keep scType A f :
  lasting A → (∀ sts, isMatchingSubclusterType sts scType = Ok true → step_safe A (λ _, True) (f sts)) →
  step_safe A A (iterateSubclusterType scType f).
Proof.
  intros HA Hf s t Ht He Ha.
  eapply wp_mono; [|apply (iterate_safe scType A (λ _ _, True) f); try done; intros sts t1 t2; done].
  intros o t' (H1 & X1 & _). split_and!; [done|done|]. intros _. by eapply HA.
Qed.

(** ** The whole upgrade *)

Definition any (t : Trace) : Prop := True.

Lemma lasting_any : lasting any.
Proof. done. Qed.

Lemma lasting_primaries : lasting primaries_drained.
Proof.
  intros t t' He (s & t1 & stss & H1 & H2 & H3). exists s, t1, stss. split_and!; [done|done|].
  intros sts Hin Hm. eapply drained_extends; [exact He|by apply H3].
Qed.

Lemma lasting_drained sts : lasting (drained sts).
Proof. intros t t'. apply drained_extends. Qed.

#[local] Hint Resolve lasting_any lasting_primaries lasting_drained calm_postmsg calm_postmsg_sts calm_drain calm_version calm_annotate
  calm_installer calm_wait calm_online : core.

(** A calm step for each subcluster of a type *)
Lemma calm_iterate scType A f :
  lasting A → (∀ sts, calm (f sts)) → step_safe A A (iterateSubclusterType scType f).
Proof. intros HA Hf. apply calm_step; [done|]. by apply calm_iterated. Qed.

Lemma primaries_safe : step_safe any any restartPrimaries.
Proof.
  apply run_steps_safe. exists any. split; [by apply calm_step|]. exists primaries_drained. split.
  { apply iterate_safe; [done|apply lasting_drained|]. intros sts _. apply drain_safe. }
  apply chain_keep; [|done].
  repeat (apply Forall_cons; split); [..|by apply Forall_nil];
    try solve [by apply calm_step | by apply calm_iterate].
  apply iterate_keep; [done|]. intros sts Hm. eapply step_weaken; [..|apply recreate_safe]; [|done].
  intros t Hd. left. by split.
Qed.

Lemma secondary_safe sts :
  isMatchingSubclusterType sts SecondarySubclusterType = Ok true → step_safe any any (processSecondary sts).
Proof.
  intros Hm. apply run_steps_safe. exists any. split; [by apply calm_step|]. exists (drained sts).
  split; [apply drain_safe|]. apply chain_keep; [|done].
  repeat (apply Forall_cons; split); [..|by apply Forall_nil]; try solve [by apply calm_step].
  intros s t Ht He Hd. eapply wp_mono; [|apply recreate_safe; [done|done|by right]].
  intros o t' (H1 & H2 & H3). split_and!; [done|done|]. intros _. by eapply drained_extends.
Qed.

Lemma online_safe : step_safe any any (run_steps (online_funcs d)).
Proof.
  apply run_steps_safe. rewrite online_funcs_parts. pose proof (calm_funcs d) as Hcalm.
  apply Forall_app in Hcalm as [Hb Ha]. apply (chain_app _ _ any).
  { apply chain_keep; [|done]. eapply Forall_impl; [exact Hb|]. intros f. by apply calm_step. }
  apply (chain_app _ _ any).
  { apply chain_keep; [|done]. constructor; [apply primaries_safe|]. constructor; [|by apply Forall_nil].
    apply iterate_keep; [done|]. intros sts Hm. by apply secondary_safe. }
  apply chain_keep; [|done]. eapply Forall_impl; [exact Ha|]. intros f. by apply calm_step.
Qed.

End drained.

(** What the iteration runs its steps with: the given VerticaDB and facts *)
Definition online_start `{E : Env} (vdb : VerticaDB) (p : PodFacts) (t : Trace) : on_state :=
  MkOn vdb p (fst (fst (IsUpgradeNeeded OnlineUpgradeInProgress onlineUpgradeAllowed vdb t))) None [] [] 0.

Definition online_checked `{E : Env} (vdb : VerticaDB) (t : Trace) : Trace :=
  snd (IsUpgradeNeeded OnlineUpgradeInProgress onlineUpgradeAllowed vdb t).

Lemma Online_rules `{D : AtConfDeps} `{E : Env} `{O : PodOrder} `{AO : AnnotationOrder} d vdb p t0 :
  wp (OnlineUpgradeReconciler_Reconcile d vdb p) t0 (λ _ t',
    safe (since_start t0 (change_rule d (online_start vdb p t0) (online_checked vdb t0))) t').
Proof.
  unfold OnlineUpgradeReconciler_Reconcile. apply wp_bind. set (s0 := online_start vdb p t0). set (t1 := online_checked vdb t0).
  eapply wp_mono; [|apply wp_and; [apply wp_run|
    apply (calm_safe d t0 s0 t1 _ t0); [eapply only_row; [|apply within_needed]; done|apply safe_start]]].
  intros [c [ok err]] t2 [Hrun [H1 X1]]. destruct ok, err; try by apply wp_ret.
  assert (MkOn vdb p c None [] [] 0 = s0 ∧ t2 = t1) as [-> ->] by (unfold s0, t1, online_start, online_checked; by rewrite Hrun).
  apply wp_obind. eapply wp_mono; [|apply (online_safe d t0 s0 t1 s0 t1); [done|apply gets_here|done]].
  intros [[s [res err]]|m] t2 (H2 & _); [|done].
  destruct (IsReconcileAborted res err), err; by apply wp_ret.
Qed.

(** ** Where the traffic goes *)

(** Which subclusters of the spec can take the traffic of [off] when there is no
    transient one: the named ones or, by default, a secondary while the primaries
    are down and any other while a secondary is. *)
Definition can_take_over (vdb : VerticaDB) (off sc : Subcluster) : Prop :=
  sc ∈ spec_Subclusters (vdb_Spec vdb) ∧
  match default [] (sel_Names (spec_TemporarySubclusterRouting (vdb_Spec vdb))) with
  | [] => if sc_IsPrimary off then sc_IsPrimary sc = false else sc_Name sc ≠ sc_Name off
  | names => sc_Name sc ∈ names ∧ sc_Name sc ≠ sc_Name off
  end.

Lemma pick_named_spec vdb off names acc sc :
  sc ∈ spec_Subclusters (vdb_Spec vdb) → sc_Name sc ∈ names → sc_Name sc ≠ off →
  ∃ sc', pick_named (GenSubclusterMap vdb) off names acc = Some sc' ∧
    sc' ∈ spec_Subclusters (vdb_Spec vdb) ∧ sc_Name sc' ∈ names ∧ sc_Name sc' ≠ off.
Proof.
  intros Hin Hn Hoff. revert acc. induction names as [|n names IH]; intros acc; [by apply elem_of_nil in Hn|]. simpl.
  destruct (GenSubclusterMap vdb !! n) as [x|] eqn:Hx.
  - apply GenSubclusterMap_lookup_Some in Hx as [Hxin Hxn]. case_bool_decide as Ho; simpl.
    + apply elem_of_cons in Hn as [Hn|Hn]; [congruence|].
      destruct (IH Hn (Some x)) as (sc' & -> & H1 & H2 & H3). exists sc'. split_and!; [done|done|by right|done].
    + exists x. split_and!; [done|done|rewrite Hxn; by left|congruence].
  - apply elem_of_cons in Hn as [<-|Hn].
    + destruct (proj2 (GenSubclusterMap_lookup vdb (sc_Name sc))) as [y Hy]; [|congruence].
      apply list_elem_of_fmap. by exists sc.
    + destruct (IH Hn acc) as (sc' & -> & H1 & H2 & H3). exists sc'. split_and!; [done|done|by right|done].
Qed.

Lemma find_some (P : Subcluster → Prop) `{!∀ x, Decision (P x)} l sc :
  sc ∈ l → P sc → ∃ i sc', list_find P l = Some (i, sc') ∧ sc' ∈ l ∧ P sc'.
Proof.
  intros Hin HP. destruct (list_find_elem_of P l sc Hin HP) as [[i sc'] Hf]. exists i, sc'. split; [done|].
  apply list_find_Some in Hf as (Hl & HP' & _). split; [by eapply list_elem_of_lookup_2|done].
Qed.

Section routing.
Context `{E : Env}.

Lemma routing_target s off t :
  TransientSc s = None → (∃ sc, can_take_over (on_vdb s) off sc) →
  ∃ sc, getSubclusterForTemporaryRouting s off (GenSubclusterMap (on_vdb s)) t = (Ret (Some sc), t) ∧
    can_take_over (on_vdb s) off sc.
Proof.
  intros Htr [sc [Hin Hsc]]. unfold getSubclusterForTemporaryRouting, can_take_over in *. rewrite Htr.
  destruct (default [] _) as [|n names].
  - unfold pickDefaultSubclusterForTemporaryRouting. destruct (sc_IsPrimary off).
    + destruct (find_some (λ sc, sc_IsPrimary sc = false) _ sc Hin Hsc) as (i & sc' & -> & H1 & H2). by exists sc'.
    + destruct (find_some (λ sc, sc_Name sc ≠ sc_Name off) _ sc Hin Hsc) as (i & sc' & -> & H1 & H2). by exists sc'.
  - destruct Hsc as [Hn Hoff].
    destruct (pick_named_spec (on_vdb s) (sc_Name off) (n :: names) None sc Hin Hn Hoff) as (sc' & Hp & H1 & H2 & H3).
    exists sc'. split; [|done]. unfold oret, mret, M_ret. by rewrite Hp.
Qed.

Lemma fields_selector cur exp sc o :
  reconcileExtSvcFields cur exp sc = Ret o → svc_Selector (default cur o) = svc_Selector exp.
Proof.
  unfold reconcileExtSvcFields. rewrite !merge_field_eq by (by intros []).
  destruct (merge_ports exp sc _) as [[b s]|m] eqn:Hp; [|done].
  assert (svc_Selector s = svc_Selector cur) as Hs.
  { revert Hp. unfold merge_ports. destruct (_ || _).
    - case_bool_decide; [by intros [= <- <-]|]. case_match; [done|]. case_match; [done|].
      case_bool_decide; by intros [= <- <-].
    - destruct (existsb _ _); by intros [= <- <-]. }
  rewrite !merge_field_eq by (by intros []). simpl. intros [= <-].
  match goal with |- context [if ?b then _ else _] => destruct b eqn:Hb end; [done|]. simpl.
  repeat apply orb_false_iff in Hb as [Hb ?]. repeat apply orb_false_iff in Hb as [Hb ?].
  repeat match goal with H : negb (bool_decide _) = false |- _ => apply negb_false_iff, bool_decide_eq_true in H end.
  congruence.
Qed.

(** How a computation that reconciles the service [nm] left it: with the selector
    [sel], which it was found with or which was written *)
Definition left_with (nm : NamespacedName) (sel : gmap string string) (t' : Trace) : Prop :=
  (∃ t1, t' = AGetService nm :: t1 ∧ ∀ cur, env_get_service t1 nm = Ok cur → svc_Selector cur = sel) ∨
  (∃ new t1, (t' = AUpdateService new :: t1 ∨ t' = ACreateService new :: t1) ∧ svc_Selector new = sel).

Lemma reconcileExtSvc_left vdb exp sc t t' :
  reconcileExtSvc ObjReconcileModeAll vdb exp sc t = (Ret None, t') → left_with (svc_nn exp) (svc_Selector exp) t'.
Proof.
  assert (∀ cur t1, (∀ c, env_get_service t1 (svc_nn exp) = Ok c → c = cur) →
    update_service ObjReconcileModeAll (λ cur exp, reconcileExtSvcFields cur exp sc) exp cur
      (AGetService (svc_nn exp) :: t1) = (Ret None, t') → left_with (svc_nn exp) (svc_Selector exp) t') as Hu.
  { intros cur t1 Hcur. unfold update_service. simpl.
    destruct (reconcileExtSvcFields cur exp sc) as [[new|]|m] eqn:Hf; [| |done].
    - apply fields_selector in Hf. unfold UpdateService, mbind, M_bind, call. intros Hrun. right.
      exists new. destruct (env_update_service _ _); [|done]. injection Hrun as <-. eexists. by split; [left|].
    - apply fields_selector in Hf. intros [= <-]. left. exists t1. split; [done|]. intros c Hc. by rewrite (Hcur c Hc). }
  unfold reconcileExtSvc, reconcileSvc, GetService, mbind, M_bind, call.
  destruct (env_get_service t (svc_nn exp)) as [cur|e] eqn:Hg; [apply Hu; intros c Hc; congruence|].
  destruct e; try (by apply Hu; intros c ?; congruence). unfold createService, mbind, M_bind. simpl.
  destruct (env_set_controller _ _); [done|]. unfold CreateService, call. simpl. intros Hrun. right.
  destruct (env_create_service _ _); [done|]. injection Hrun as <-. exists exp. eexists. by split; [right|].
Qed.

(** The selector that the traffic of [sc] should get *)
Definition wanted (s : on_state) (sc : Subcluster) (temporary : bool) (svc : Service) (t : Trace)
    (sel : gmap string string) : Prop :=
  if temporary then
    match TransientSc s with
    | Some tr =>
        sel = match env_get_sts t (GenStsName (on_vdb s) tr) with
              | Ok _ => MakeSvcSelectorLabelsForSubclusterNameRouting (on_vdb s) tr
              | Err _ => svc_Selector svc
              end
    | None =>
        (∃ other, can_take_over (on_vdb s) sc other) →
        ∃ target, can_take_over (on_vdb s) sc target ∧
          sel = MakeSvcSelectorLabelsForSubclusterNameRouting (on_vdb s) target
    end
  else sel = MakeSvcSelectorLabelsForServiceNameRouting (on_vdb s) sc.

Lemma routed_service_wanted s sc b svc t svc' t' :
  routed_service s sc (GenSubclusterMap (on_vdb s)) b svc t = (Ret svc', t') →
  wanted s sc b svc t (svc_Selector svc') ∧ svc_nn svc' = svc_nn svc.
Proof.
  unfold routed_service, wanted. destruct b; [|by intros [= <- <-]].
  destruct (TransientSc s) as [tr|] eqn:Htr.
  - unfold getSubclusterForTemporaryRouting, obind, GetSts, mbind, M_bind, call. rewrite Htr.
    destruct (env_get_sts t _); by intros [= <- <-].
  - destruct (getSubclusterForTemporaryRouting s sc (GenSubclusterMap (on_vdb s)) t) as [o t1] eqn:Hget. unfold obind, mbind, M_bind. rewrite Hget.
    destruct o as [[target|]|m]; intros [= <- <-]; (split; [|done]); intros Hother;
      destruct (routing_target s sc t Htr Hother) as (target' & Heq & Hcan); rewrite Hget in Heq; [|done].
    injection Heq as -> _. by exists target'.
Qed.

End routing.

(** ** A cluster for the witnesses: a primary and a secondary subcluster *)

Definition reader : Subcluster :=
  MkSubcluster "reader" 1 false false "" None zero_Affinity "" None zero_opaque "ClusterIP" "" 0 None "" None.

Definition online_vdb : VerticaDB :=
  set_Annotations (set_Subclusters MakeVDB [demo_default; reader]) {[VersionAnnotation := "v12.0.1"]}.

Definition sts_of (sc : Subcluster) (image : string) : StatefulSet :=
  bare_sts (MkObjectMeta (nn_Name (GenStsName online_vdb sc)) "default"
    {[SubclusterNameLabel := sc_Name sc; SubclusterTransientLabel := "false";
      SubclusterTypeLabel := if sc_IsPrimary sc then PrimarySubclusterType else SecondarySubclusterType]} ∅)
    (Some (sc_Size sc)) (sc_Size sc) image.

Definition image_set (t : Trace) (nm : string) : bool :=
  existsb (λ a, match a with AUpdateSts s => bool_decide (om_Name (sts_Meta s) = nm) | _ => false end) t.

Definition pod_deleted (t : Trace) (nm : string) : bool :=
  existsb (λ a, match a with ADeletePod p => bool_decide (om_Name (pod_Meta p) = nm) | _ => false end) t.

(** The images are old until the update of the statefulset; a deleted pod comes
    back with the new image. *)
Definition online_sts (t : Trace) (sc : Subcluster) : StatefulSet :=
  sts_of sc (if image_set t (nn_Name (GenStsName online_vdb sc)) then spec_Image (vdb_Spec online_vdb) else "img").

Definition online_pod (t : Trace) (sc : Subcluster) (i : Z) : Pod :=
  let nm := GenPodName online_vdb sc i in
  MkPod (MkObjectMeta (nn_Name nm) "default" {[SubclusterNameLabel := sc_Name sc]}
    {[KubernetesVersionAnnotation := "v1"]}) "Running" "10.1.1.1" (nn_Name nm) "hl"
    (if pod_deleted t (nn_Name nm) then spec_Image (vdb_Spec online_vdb) else "img").

Definition node_status_sql : string :=
  "select node_state, is_readonly from nodes where node_name in (select node_name from current_session)".

Definition online_env : Env := {|
  env_exec _ nm cmd :=
    if bool_decide (cmd !! 2 = Some "ls -d /data/db/v_db_node????_data")
    then MkExec "/data/db/v_db_node0001_data" "" None
    else if bool_decide (cmd = ["cat"; GenInstallerIndicatorFileName MakeVDB])
    then MkExec "node0001" "" None
    else if bool_decide (cmd = ["/opt/vertica/bin/vertica"; "--version"])
    then MkExec ("Vertica Analytic Database v12.0.2-0" +:+ String "010"%char "") "" None
    else MkExec "" "" None;
  env_vsql _ nm cmd := if bool_decide (cmd = ["-tAc"; idle_sql "reader"]) ||
                          bool_decide (cmd = ["-tAc"; idle_sql "defaultsubcluster"])
                       then MkExec "0" "" None
                       else if bool_decide (cmd !! 1 = Some node_status_sql) then MkExec "UP|f" "" None
                       else MkExec "1" "" None;
  env_admintools _ _ _ := MkExec "" "" None;
  env_get_vdb _ _ := Ok online_vdb;
  env_update_vdb _ w := Ok w;
  env_update_vdb_status _ w := Ok w;
  env_get_vas _ _ := Err ErrNotFound;
  env_update_vas _ w := Ok w;
  env_update_vas_status _ w := Ok w;
  env_get_sts t nm := Ok (online_sts t (if bool_decide (nm = GenStsName online_vdb reader) then reader else demo_default));
  env_get_pod t nm := Ok (if bool_decide (nm = GenPodName online_vdb reader 0) then online_pod t reader 0
    else online_pod t demo_default (if bool_decide (nm = GenPodName online_vdb demo_default 0) then 0
      else if bool_decide (nm = GenPodName online_vdb demo_default 1) then 1 else 2));
  env_list_sts t _ _ := Ok [online_sts t demo_default; online_sts t reader];
  env_list_pods t _ _ := Ok [online_pod t demo_default 0; online_pod t demo_default 1; online_pod t demo_default 2;
    online_pod t reader 0];
  env_list_services _ _ _ := Ok [];
  env_update_sts _ s := Ok s;
  env_delete_pod _ _ := None;
  env_copy _ _ _ _ := MkExec "" "" None;
  env_update_pod _ q := Ok q;
  env_patch_pod _ q := Ok q;
  env_server_version _ := Ok ("v1", "c", "d");
  env_get_secret _ _ := Err ErrNotFound;
  env_get_configmap _ _ := Some ErrNotFound;
  env_get_service _ _ := Ok (BuildExtSvc (GenExtSvcName online_vdb reader) online_vdb reader
               MakeSvcSelectorLabelsForServiceNameRouting);
  env_create_service _ _ := None;
  env_update_service _ s := Ok s;
  env_delete_service _ _ := None;
  env_create_sts _ _ := None;
  env_patch_sts _ s := Ok s;
  env_delete_sts _ _ := None;
  env_set_controller _ _ := None;
  env_now _ := 7%Z;
  env_retry_steps := 4 |}.

(** ** Properties *)

(** C6: in an iteration of the online upgrade, whatever the cluster answers and
    in whatever order maps are visited, a statefulset gets a new image, or a pod is
    deleted, only in the step that recreates its subcluster, with the image that the
    VerticaDB has in that step and only if it had another one, and only after the
    subcluster was drained.  For a secondary this means that the upgrade ran its
    draining step for the statefulset, for a primary that it ran it for every primary
    statefulset that was listed; and that in the state of that step the statefulset
    had the image of the VerticaDB, or its traffic was sent elsewhere without an
    error and then no node of it was up or a query saw no session. *)
Theorem online_drained_first `{D : AtConfDeps} `{E : Env} `{O : PodOrder} `{AO : AnnotationOrder} d vdb p t0 n1 a n2 :
  snd (OnlineUpgradeReconciler_Reconcile d vdb p t0) = n1 ++ a :: n2 → extends t0 n2 →
  change_rule d (online_start vdb p t0) (online_checked vdb t0) a n2.
Proof.
  intros Ht He. pose proof (Online_rules d vdb p t0) as Hr. unfold wp in Hr. rewrite Ht in Hr.
  exact (safe_since Hr He).
Qed.

(** A whole upgrade in one iteration, which reports success: the secondary is
    changed and its pod deleted. *)
Lemma online_drained_first_witness :
  let D := mem_deps_with demo_conf in
  let d := DefaultDeploymentNames in
  let t := snd (@OnlineUpgradeReconciler_Reconcile D online_env map_order map_ann_order d online_vdb MakePodFacts []) in
  t !! 0 = Some (AEvent "UpgradeSucceeded") ∧
  ∃ pod sts, t !! 60 = Some (ADeletePod pod) ∧
    @ready D online_env map_order map_ann_order d (@online_start online_env online_vdb MakePodFacts [])
      (@online_checked online_env online_vdb []) sts (drop 61 t).
Proof.
  intros D d t. assert (t !! 0 = Some (AEvent "UpgradeSucceeded")) as H0 by (vm_compute; reflexivity).
  split; [exact H0|].
  assert (∃ pod, t !! 60 = Some (ADeletePod pod)) as [pod Hd] by (vm_compute; eexists; reflexivity).
  destruct (@online_drained_first D online_env map_order map_ann_order DefaultDeploymentNames online_vdb
    MakePodFacts [] (take 60 t) (ADeletePod pod) (drop 61 t) (split_at _ _ _ Hd) (extends_nil _))
    as (sts & s & t1 & _ & _ & _ & _ & Hr).
  exists pod, sts. exact (conj Hd Hr).
Defined.


(** The traffic of the primary goes to the secondary. *)
Definition written_selector (t : Trace) : gmap string string :=
  match t with AUpdateService svc :: _ => svc_Selector svc | _ => ∅ end.

