(* ===== verification/ControllerSpec.v ===== *)
(** * What an iteration of the controller may change

    Each reconciler of the sequence makes only calls of the kinds in its row of a
    table; every update of the VerticaDB, whichever reconciler makes it, keeps what
    the user wrote; and every command that changes the database is justified by
    facts that were collected, and a VerticaDB that was read or sent, in the same
    iteration. *)

From stdpp Require Import base gmap strings pretty sorting numbers list.
From S2P Require Import Prelude GoStrings GoRegexp K8s Types Version KObjects Effects Status Labels ScFinder Atconf PodFacts PodFactsSpec Builder BuilderSpec Restart RestartSpec Install Scaling ScalingSpec Upgrade ObjRec InitDB StatusRec StatusSpec Online Frame UpgradeSpec ObjSpec InitSpec Origin Facts Rules Tracks OnlineSpec Controller Events.

#[local] Hint Resolve within_Obj within_reconcileSts within_reconcileExtSvc within_Create within_Revive
  within_Status within_Metric within_Operator120 within_Online within_Offline : frame.

Section iteration.
Context `{D : AtConfDeps} `{E : Env} `{O : PodOrder} `{AO : AnnotationOrder} (d : DeploymentNames).

(** ** The sequence of reconcilers *)

Definition actor_rows : list row :=
  [status_row; read_row; migration_row; upgrade_row; online_row; object_row; annotate_row; stop_row; restart_row;
   read_row; status_row; routing_row; routing_row; drain_row; remove_subcluster_row; status_row; remove_node_row;
   read_row; status_row; copy_row; status_row; object_row; version_row; copy_row; status_row; create_row; revive_row;
   read_row; status_row; routing_row; add_subcluster_row; read_row; status_row; add_node_row; status_row;
   rebalance_row; routing_row].

Definition actor_tracks (K : row) (act : ReconcileActor) : Prop :=
  ∀ s, tracks (A := outcome (VerticaDB * PodFacts * reconcile_result)) K (fst s) (snd s) (act s).

Lemma tracks_actors : Forall2 actor_tracks actor_rows (constructActors d).
Proof.
  unfold actor_rows, constructActors.
  repeat (apply Forall2_cons; split); [..|by apply Forall2_nil]; intros [vdb p]; cbv beta iota; cbn [fst snd];
    unfold StatusActor, MetricActor, RoutingActor, ObjActor, OfflineUpgradeActor, OnlineUpgradeActor, facts_actor,
      facts_oactor, full_actor, full_oactor;
    tracks_auto.
Qed.

Lemma within_actors : Forall2 (λ K act, ∀ s, only (within K) (act s)) actor_rows (constructActors d).
Proof.
  unfold actor_rows, constructActors.
  repeat (apply Forall2_cons; split); [..|by apply Forall2_nil]; intros [vdb p]; cbv beta iota;
    unfold StatusActor, MetricActor, RoutingActor, ObjActor, OfflineUpgradeActor, OnlineUpgradeActor, facts_actor,
      facts_oactor, full_actor, full_oactor; frame_auto.
Qed.

(** The kinds of calls of a whole iteration: all but those on autoscalers *)
Definition iteration_row : row :=
  events ["SuperuserPasswordSecretNotFound"] ++ online_row ++ migration_row ++ stop_row ++ drain_row ++ remove_node_row ++
  create_row ++ revive_row.

(** All events have a reason that is declared for this controller. *)
Lemma iteration_reasons reason : KEvent reason ∈ iteration_row → reason ∈ vdb_reasons.
Proof.
  intros Hr. assert (forallb (λ k, match k with KEvent r => bool_decide (r ∈ vdb_reasons) | _ => true end) iteration_row = true)
    as Hall by (vm_compute; reflexivity).
  pose proof (proj1 (forallb_forall _ _) Hall _ (proj1 (list_elem_of_In _ _) Hr)) as Hb. by apply bool_decide_eq_true in Hb.
Qed.

Lemma tracks_run actors :
  Forall (actor_tracks iteration_row) actors → actor_tracks iteration_row (run_reconcilers actors).
Proof.
  intros Hall. induction Hall as [|act actors Ha _ IH]; intros s; simpl; [by apply tracks_ret; [|held_tac]|].
  apply tracks_obind; [apply Ha|]. intros [[v p] [res err]]. tracked_norm.
  destruct (IsReconcileAborted res err); [by apply tracks_ret; [|held_tac]|].
  destruct actors; [by apply tracks_ret; [|held_tac]|apply (IH (v, p))].
Qed.

Lemma iteration_runs req t0 : wp (VerticaDBReconciler_Reconcile d req) t0 (λ _ t', runs iteration_row t0 t0 t').
Proof.
  unfold VerticaDBReconciler_Reconcile. wp_step.
  eapply wp_mono; [|apply wp_and; [apply wp_run|
    apply (obeys_runs iteration_row (GetVdb req) t0 t0); [wp_calls; obeys_step|done]]].
  intros [vdb|[]] t1 [Hget H1]; try by wp_step. wp_step.
  assert (authentic t0 vdb t1) as Hv1.
  { injection Hget as Hok <-. by apply authentic_got. }
  eapply wp_mono; [|apply (obeys_runs iteration_row (GetSuperuserPassword vdb) t0 t1); [|apply H1]].
  2: { unfold GetSuperuserPassword. wp_calls. obeys_auto. }
  intros [pw [e|]] t2 H2; [wp_step; by eapply runs_trans|]. apply wp_obind.
  assert (runs iteration_row t0 t0 t2) as H12 by exact (runs_trans _ _ _ _ _ H1 H2).
  assert (authentic t0 vdb t2) as Hv2 by (eapply authentic_extends; [apply H2|done]).
  eapply wp_mono; [|refine (tracks_run (constructActors d) _ (vdb, MakePodFacts) t0 t2 _ Hv2);
    [|by apply genuine_stale; [apply H12|]]].
  { intros [r|m] t3 [H3 _]; try wp_step; exact (runs_trans _ _ _ _ _ H12 H3). }
  pose proof tracks_actors as Hall. assert (Forall (λ K, row_le K iteration_row = true) actor_rows) as Hrows.
  { by repeat constructor. }
  induction Hall as [|K act Ks acts Ha _ IH]; [by constructor|]. apply Forall_cons in Hrows as [HK Hrows].
  constructor; [|by apply IH]. intros s. by eapply tracks_le; [|apply Ha].
Qed.

End iteration.

Definition is_update (a : action) : bool := match a with AUpdateVdb _ => true | _ => false end.

Lemma update_found (t : Trace) i : is_update <$> t !! i = Some true → ∃ v, t !! i = Some (AUpdateVdb v).
Proof. destruct (t !! i) as [[]|]; try done. by eexists. Qed.

(** ** Properties *)

(** C7: an iteration never changes what the user wrote: every update of the
    VerticaDB, by whichever reconciler, writes a version that was fetched in the
    same iteration with the subclusters of the user in place, at most one
    transient subcluster unless there were more, and nothing else changed but the
    annotations for the version. *)
Theorem spec_kept `{D : AtConfDeps} `{E : Env} `{O : PodOrder} `{AO : AnnotationOrder} d req t0 n1 v n2 :
  snd (VerticaDBReconciler_Reconcile d req t0) = n1 ++ AUpdateVdb v :: n2 → extends t0 n2 →
  ∃ w, fetched t0 n2 w ∧ user_kept w v.
Proof.
  intros Ht He. destruct (iteration_runs d req t0) as [_ Hr]. exact (proj2 (Hr _ _ _ Ht He)).
Qed.

(** The version is stored in the course of an upgrade. *)
Lemma spec_kept_witness :
  let D := mem_deps_with demo_conf in
  let t := snd (@VerticaDBReconciler_Reconcile D online_env map_order map_ann_order DefaultDeploymentNames
                  (ExtractNamespacedName online_vdb) []) in
  ∃ v w, t !! 246 = Some (AUpdateVdb v) ∧ @fetched online_env [] (drop (S 246) t) w ∧ user_kept w v.
Proof.
  intros D t.
  destruct (update_found t 246) as [v Hi]; [vm_compute; reflexivity|].
  destruct (@spec_kept D online_env map_order map_ann_order DefaultDeploymentNames
    (ExtractNamespacedName online_vdb) [] (take 246 t) v (drop (S 246) t) (split_at t 246 (AUpdateVdb v) Hi)
    (extends_nil (drop (S 246) t))) as (w & Hw & Hk).
  exists v, w. exact (conj Hi (conj Hw Hk)).
Defined.

(** C17: each of the 37 reconcilers of the sequence makes only calls of the kinds
    in its row, whatever state it is given and whatever the cluster answers: only
    the two upgrades change images and delete pods, only they and the version
    reconciler update the VerticaDB, only the object reconciler and the online
    upgrade create statefulsets and services, and only they and the migration from
    an old operator delete them.  The rows also say which tools of admintools a
    reconciler runs, whether it removes directories, and the reasons of its events;
    every event of an iteration has a reason of [pkg/events]. *)
Theorem actor_effects `{D : AtConfDeps} `{E : Env} `{O : PodOrder} `{AO : AnnotationOrder} d :
  length (constructActors d) = 37 ∧
  (∀ i act K, constructActors d !! i = Some act → actor_rows !! i = Some K →
  ∀ s t0 n1 a n2, snd (act s t0) = n1 ++ a :: n2 → extends t0 n2 → within K a) ∧
  ∀ req t0 n1 reason n2, snd (VerticaDBReconciler_Reconcile d req t0) = n1 ++ AEvent reason :: n2 → extends t0 n2 →
  reason ∈ vdb_reasons.
Proof.
  split; [done|]. split.
  2: { intros req t0 n1 reason n2 Ht He. destruct (iteration_runs d req t0) as [_ Hr].
       by apply iteration_reasons, (proj1 (Hr _ _ _ Ht He)). }
  intros i act K Ha HK s t0 n1 a n2 Ht He.
  destruct (Forall2_lookup_lr _ _ _ _ _ _ (within_actors d) HK Ha s t0) as (new & Hnew & Hall).
  rewrite Ht in Hnew. exact (split_new Hnew He Hall).
Qed.

Lemma actor_effects_witness :
  let D := mem_deps_with demo_conf in
  let acts := @constructActors D online_env map_order map_ann_order DefaultDeploymentNames in
  length acts = 37 ∧
  ∃ act t, acts !! 0 = Some act ∧ t = snd (act (online_vdb, MakePodFacts) []) ∧
    ∃ v, head t = Some (AUpdateVdbStatus v) ∧ within status_row (AUpdateVdbStatus v).
Proof.
  intros D acts. split; [reflexivity|]. eexists _, _. split; [reflexivity|]. split; [reflexivity|].
  set (act := StatusActor). set (t := snd _).
  assert (∃ v, t !! 0 = Some (AUpdateVdbStatus v)) as [v Hv] by (vm_compute; eexists; reflexivity).
  exists v. split; [by destruct t|].
  exact (proj1 (proj2 (@actor_effects D online_env map_order map_ann_order DefaultDeploymentNames)) 0 act status_row
    eq_refl eq_refl (online_vdb, MakePodFacts) [] (take 0 t) (AUpdateVdbStatus v) (drop 1 t) (split_at _ _ _ Hv)
    (extends_nil _)).
Defined.

(** C5: whatever a whole iteration runs in the pods is justified by facts that
    were collected in the same iteration and by a VerticaDB whose name and spec
    (apart from the security context, which the operator fills in) the API server
    returned, or was sent, in the same iteration, whichever of the 37 reconcilers
    runs it: [create_db], [revive_db], [start_db], [restart_node], [db_add_node] and
    [db_remove_node] each only under the conditions of its rule, and a directory is
    removed only in a running pod that was found without a database. *)
Theorem iteration_commands_safe `{D : AtConfDeps} `{E : Env} `{O : PodOrder} `{AO : AnnotationOrder} d req t0 n1 a n2 :
  snd (VerticaDBReconciler_Reconcile d req t0) = n1 ++ a :: n2 → extends t0 n2 →
  match a with
  | AExecAdmintools pod cmd => tool_ok t0 pod cmd n2
  | AExecInPod pod cmd => removes cmd = true → removal_ok t0 pod n2
  | _ => True
  end.
Proof.
  intros Ht He. destruct (iteration_runs d req t0) as [_ Hr]. pose proof (proj2 (Hr _ _ _ Ht He)) as Hok.
  by destruct a.
Qed.

(** A database is created, and a node is added, in the course of an iteration. *)
Lemma iteration_commands_safe_witness :
  let D := mem_deps_with demo_conf in
  let req := ExtractNamespacedName MakeVDB in
  (∃ cmd past vdb p since v podList, tool_of cmd = "create_db" ∧ @authentic create_env [] vdb past ∧
     @facts_at create_env [] p since past ∧ spec_InitPolicy (vdb_Spec vdb) = CommunalInitPolicyCreate ∧
     @init_ok create_env D (@createdb create_env) vdb p since past (demo_pod 1) cmd v podList) ∧
  (∃ cmd past vdb p since sc, tool_of cmd = "db_add_node" ∧ @authentic add_env [] vdb past ∧
     @facts_at add_env [] p since past ∧
     @add_node_ok add_env vdb p since past (demo_pod 0) cmd sc) ∧
  ∃ past, @removal_ok add_env [] (demo_pod 2) past.
Proof.
  intros D req.
  set (t := snd (@VerticaDBReconciler_Reconcile D create_env map_order map_ann_order DefaultDeploymentNames req [])).
  set (u := snd (@VerticaDBReconciler_Reconcile D add_env map_order map_ann_order DefaultDeploymentNames req [])).
  assert (∃ cmd, t !! 38 = Some (AExecAdmintools (demo_pod 1) cmd) ∧ tool_of cmd = "create_db") as (c1 & H1 & T1)
    by (vm_compute; eexists; split; reflexivity).
  assert (∃ cmd, u !! 37 = Some (AExecAdmintools (demo_pod 0) cmd) ∧ tool_of cmd = "db_add_node") as (c2 & H2 & T2)
    by (vm_compute; eexists; split; reflexivity).
  assert (∃ cmd, u !! 40 = Some (AExecInPod (demo_pod 2) cmd) ∧ removes cmd = true) as (c3 & H3 & T3)
    by (vm_compute; eexists; split; reflexivity).
  pose proof (@iteration_commands_safe D create_env map_order map_ann_order DefaultDeploymentNames req [] (take 38 t)
    (AExecAdmintools (demo_pod 1) c1) (drop 39 t) (split_at t 38 _ H1) (extends_nil (drop 39 t))) as S1.
  pose proof (@iteration_commands_safe D add_env map_order map_ann_order DefaultDeploymentNames req [] (take 37 u)
    (AExecAdmintools (demo_pod 0) c2) (drop 38 u) (split_at u 37 _ H2) (extends_nil (drop 38 u))) as S2.
  pose proof (@iteration_commands_safe D add_env map_order map_ann_order DefaultDeploymentNames req [] (take 40 u)
    (AExecInPod (demo_pod 2) c3) (drop 41 u) (split_at u 40 _ H3) (extends_nil (drop 41 u)) T3) as S3.
  destruct (@ok_create_db D create_env [] _ _ _ S1 T1) as (vdb & p & since & v & podList & F1 & P1 & I1).
  destruct (@ok_add_node D add_env [] _ _ _ S2 T2) as (vdb' & p' & since' & sc & F2 & I2).
  split; [|split].
  - exists c1, (drop 39 t), vdb, p, since, v, podList. exact (conj T1 (conj F1 (conj P1 I1))).
  - exists c2, (drop 38 u), vdb', p', since', sc. exact (conj T2 (conj F2 I2)).
  - exact (ex_intro _ (drop 41 u) S3).
Defined.
