(* ===== verification/Complete.v ===== *)
(** * What a finished iteration of the controller has done

    The reconcilers run one after the other and the first that fails or asks to
    come back ends the iteration.  An iteration that ends well has therefore run all
    of them, each on the state its predecessors left, and what each one completes
    is complete for the iteration. *)

From stdpp Require Import base gmap strings pretty sorting numbers list.
From S2P Require Import Prelude GoStrings GoRegexp K8s Types Version KObjects Effects Status Labels ScFinder Atconf PodFacts PodFactsSpec Builder BuilderSpec Restart RestartSpec Install Scaling ScalingSpec Upgrade ObjRec InitDB StatusRec StatusSpec Online Frame InitSpec Facts Rules Tracks OnlineSpec Controller Events ObjSpec Liveness ObjLive ControllerSpec.

(** The reconcilers ran in this order from the first state and trace to the second,
    and none ended the iteration. *)
Inductive completed : list ReconcileActor → shared → Trace → shared → Trace → Prop :=
| completed_nil s t : completed [] s t s t
| completed_cons act actors s t s1 res err t1 s2 t2 :
    act s t = (Ret (s1, (res, err)), t1) → IsReconcileAborted res err = false →
    completed actors s1 t1 s2 t2 → completed (act :: actors) s t s2 t2.

#[global] Hint Constructors completed : core.

Lemma completed_det actors s t s1 t1 s2 t2 :
  completed actors s t s1 t1 → completed actors s t s2 t2 → s1 = s2 ∧ t1 = t2.
Proof.
  intros H. revert s2 t2. induction H as [|act actors s t s1 res err t1 s' t' Ha _ _ IH]; intros s2 t2 H2;
    inversion H2 as [|? ? ? ? u1 r e v1 u2 v2 Ha' Hn Hc]; subst; [done|].
  rewrite Ha in Ha'. injection Ha' as <- <- <- <-. by apply IH.
Qed.

(** Every reconciler of the sequence ran on what its predecessors left. *)
Lemma completed_lookup actors s t s' t' i act :
  completed actors s t s' t' → actors !! i = Some act →
  ∃ s1 t1 s2 res err t2, completed (take i actors) s t s1 t1 ∧ act s1 t1 = (Ret (s2, (res, err)), t2) ∧
    IsReconcileAborted res err = false ∧ completed (take (S i) actors) s t s2 t2.
Proof.
  intros H. revert i. induction H as [|a actors s t s1 res err t1 s' t' Ha Hn _ IH]; intros i Hi; [done|].
  destruct i as [|i]; simpl in Hi.
  - injection Hi as ->. exists s, t, s1, res, err, t1. cbn. rewrite take_0. split_and!; eauto.
  - destruct (IH i Hi) as (u1 & v1 & u2 & r & e & v2 & H1 & H2 & H3 & H4).
    exists u1, v1, u2, r, e, v2. cbn. split_and!; eauto.
Qed.

(** The result of an iteration that was ended early says so. *)
Lemma abort_result_aborted vdb res err :
  IsReconcileAborted (abort_result vdb res) err = IsReconcileAborted res err.
Proof.
  unfold abort_result. destruct ((_ || _) && _) eqn:Hb; [|done]. apply andb_true_iff in Hb as [Ha Ht%bool_decide_eq_true].
  unfold IsReconcileAborted. cbn. apply orb_true_iff in Ha. rewrite bool_decide_eq_true in Ha.
  rewrite (bool_decide_eq_true_2 _ Ht), orb_true_r.
  destruct Ha as [->|Ha]; [done|by rewrite (bool_decide_eq_true_2 _ Ha), orb_true_r].
Qed.

Lemma run_completed actors s t :
  wp (run_reconcilers actors s) t (λ o t', ∀ s' res err, o = Ret (s', (res, err)) →
    IsReconcileAborted res err = false → completed actors s t s' t').
Proof.
  revert s t. induction actors as [|act actors IH]; intros s t; cbn [run_reconcilers].
  { apply wp_ret. by intros s' res err [= -> <- <-] _. }
  apply wp_obind. unfold wp at 1. destruct (act s t) as [[[s1 [res err]]|m] t1] eqn:Ha; simpl; [|done].
  destruct (IsReconcileAborted res err) eqn:Hab.
  { apply wp_ret. intros s' r e [= <- <- <-]. by rewrite abort_result_aborted, Hab. }
  destruct actors as [|act' actors].
  - apply wp_ret. intros s' r e [= <- <- <-] _. eauto.
  - eapply wp_mono; [|apply IH]. intros o t2 Hc s' r e -> Hr. eauto.
Qed.

Section actors.
Context `{D : AtConfDeps} `{E : Env} `{O : PodOrder} `{A : AnnotationOrder} (d : DeploymentNames).

(** What the iteration does before the first reconciler *)
Lemma iteration_completed req vdb t0 res err t' :
  env_get_vdb t0 req = Ok vdb → VerticaDBReconciler_Reconcile d req t0 = (Ret (res, err), t') →
  IsReconcileAborted res err = false →
  ∃ s, completed (constructActors d) (vdb, MakePodFacts) (snd (GetSuperuserPassword vdb (AGetVdb req :: t0))) s t'.
Proof using.
  intros Hget Hrun Hok. revert res err Hrun Hok. pattern t'.
  assert (wp (VerticaDBReconciler_Reconcile d req) t0 (λ o t', ∀ res err, o = Ret (res, err) →
    IsReconcileAborted res err = false → ∃ s, completed (constructActors d) (vdb, MakePodFacts)
      (snd (GetSuperuserPassword vdb (AGetVdb req :: t0))) s t')) as Hwp.
  { unfold VerticaDBReconciler_Reconcile. wp_calls. do 2 wp_step. rewrite Hget. wp_step.
    eapply wp_mono; [|apply wp_run]. intros [pw [e|]] t1 Hp; [wp_step; by intros r x [= <- <-]|]. rewrite Hp. cbn [snd].
    apply wp_obind. eapply wp_mono; [|apply run_completed]. intros [[s [res err]]|m] t2 Hc; [|done].
    wp_step. intros r x [= <- <-] Hok. exists s. by eapply Hc. }
  intros res err Hrun Hok. unfold wp in Hwp. rewrite Hrun in Hwp. by eapply Hwp.
Qed.

Lemma restart_actor s t s' res err t' :
  full_actor (λ vdb p, Restart.Reconcile true vdb p (MkNamespacedName "" "")) s t = (Ret (s', (res, err)), t') →
  IsReconcileAborted res err = false → spec_AutoRestartVertica (vdb_Spec (fst s)) = true →
  ∃ p tc, extends t tc ∧ fst (Collect (fst s') (snd s) tc) = (p, None) ∧
    restarted true (fst s') p (snd (Collect (fst s') (snd s) tc)) t'.
Proof using.
  destruct s as [vdb p0]. intros Hrun Hok Hauto. pose proof (Reconcile_restarts true vdb p0 t Hauto) as Hwp.
  unfold wp in Hwp. unfold full_actor in Hrun. unfold mbind, M_bind in Hrun.
  change (MkNamespacedName "" "") with no_pod in Hrun.
  destruct (Restart.Reconcile true vdb p0 no_pod t) as [[[w q] [r e]] t1]. cbn in Hrun. injection Hrun as <- <- <- <-.
  by apply Hwp.
Qed.

Lemma routing_actor method s t s' res err t' :
  0 < env_retry_steps → RoutingActor method s t = (Ret (s', (res, err)), t') →
  IsReconcileAborted res err = false → ∀ pf, pf ∈ facts_list (snd s') → routed method t pf t'.
Proof using.
  destruct s as [vdb p0]. intros Hsteps Hrun Hok pf Hpf. pose proof (routing_done method "" vdb p0 t Hsteps) as Hwp.
  unfold wp in Hwp. unfold RoutingActor, facts_actor in Hrun. unfold mbind, M_bind in Hrun.
  destruct (ClientRoutingLabelReconciler_Reconcile method "" vdb p0 t) as [[q [r e]] t1]. cbn in Hrun.
  injection Hrun as <- <- <- <-. apply Hwp; [|done|by left].
  by apply IsReconcileAborted_false in Hok as (_ & -> & _).
Qed.

Lemma object_actor s t s' res err t' :
  (∀ t nm svc, env_get_service t nm = Ok svc → svc_Ports svc ≠ []) →
  (∀ t svc, svc_Name svc = "" → ¬ is_ok (env_update_service t svc)) →
  ObjActor d ObjReconcileModeAll s t = (Ret (s', (res, err)), t') → IsReconcileAborted res err = false →
  (∀ sc, sc ∈ spec_Subclusters (vdb_Spec (fst s)) → in_place (fst s) sc t t') ∧ gone (fst s) t t'.
Proof using.
  destruct s as [vdb p0]. intros Hports Hnamed Hrun Hok. pose proof (objects_done d false Hports Hnamed vdb p0 t) as Hwp.
  unfold wp in Hwp. unfold ObjActor in Hrun. unfold obind, mbind, M_bind in Hrun.
  destruct (ObjReconciler_Reconcile d false ObjReconcileModeAll vdb p0 t) as [[[o [r e]]|m] t1]; [|done]. cbn in Hrun.
  injection Hrun as <- <- <- <-. by eapply Hwp.
Qed.

End actors.

(** ** Properties *)


