(* ===== verification/GoJson.v ===== *)
(** * JSON as Go decodes it

    The part of [encoding/json] that the repository uses: [json.Unmarshal] into a
    slice of structs with string and boolean fields. *)

From Stdlib Require Import Ascii.
From stdpp Require Import base gmap strings pretty numbers list.
From S2P Require Import Prelude GoStrings.

Inductive json : Type :=
| JNull
| JBool (b : bool)
| JNumber
| JString (s : string)
| JArray (l : list json)
| JObject (l : list (string * json)).

(** ** Lexical parts *)

Definition is_space (c : ascii) : bool :=
  bool_decide (c = " "%char) || bool_decide (c = "009"%char) || bool_decide (c = "010"%char)
  || bool_decide (c = "013"%char).

Fixpoint skip_space (s : string) : string :=
  match s with
  | String c s' => if is_space c then skip_space s' else s
  | EmptyString => EmptyString
  end.

Definition byte (c : ascii) : nat := nat_of_ascii c.

Definition in_byte (lo hi : nat) (c : ascii) : bool := (lo <=? byte c)%nat && (byte c <=? hi)%nat.

Definition hex_val (c : ascii) : option nat :=
  if in_byte 48 57 c then Some (byte c - 48)
  else if in_byte 97 102 c then Some (byte c - 87)
  else if in_byte 65 70 c then Some (byte c - 55)
  else None.

Definition hex4 (a b c d : ascii) : option Z :=
  a ← hex_val a; b ← hex_val b; c ← hex_val c; d ← hex_val d;
  Some (Z.of_nat a * 4096 + Z.of_nat b * 256 + Z.of_nat c * 16 + Z.of_nat d)%Z.

Definition chr (z : Z) : ascii := ascii_of_nat (Z.to_nat z).

(** [utf8.EncodeRune]; surrogates are not runes. *)
Definition replacement_char : string := String "239" (String "191" (String "189" EmptyString)).

Definition encode_rune (r : Z) : string :=
  if (r <? 128)%Z then String (chr r) EmptyString
  else if (r <? 2048)%Z then String (chr (192 + r / 64)) (String (chr (128 + r mod 64)) EmptyString)
  else if (55296 <=? r)%Z && (r <=? 57343)%Z then replacement_char
  else if (r <? 65536)%Z then
    String (chr (224 + r / 4096)) (String (chr (128 + r / 64 mod 64)) (String (chr (128 + r mod 64)) EmptyString))
  else String (chr (240 + r / 262144)) (String (chr (128 + r / 4096 mod 64))
         (String (chr (128 + r / 64 mod 64)) (String (chr (128 + r mod 64)) EmptyString))).

Definition is_cont (c : ascii) : bool := in_byte 128 191 c.

(** Is this a valid encoding of a rune in two, three or four bytes? *)
Definition rune2 (a b : ascii) : bool := in_byte 194 223 a && is_cont b.

Definition rune3 (a b c : ascii) : bool :=
  is_cont c &&
  ((in_byte 224 224 a && in_byte 160 191 b) || (in_byte 237 237 a && in_byte 128 159 b) ||
   ((in_byte 225 236 a || in_byte 238 239 a) && is_cont b)).

Definition rune4 (a b c d : ascii) : bool :=
  is_cont c && is_cont d &&
  ((in_byte 240 240 a && in_byte 144 191 b) || (in_byte 244 244 a && in_byte 128 143 b) ||
   (in_byte 241 243 a && is_cont b)).

Definition high_surrogate (r : Z) : bool := (55296 <=? r)%Z && (r <=? 56319)%Z.
Definition low_surrogate (r : Z) : bool := (56320 <=? r)%Z && (r <=? 57343)%Z.

Definition surrogate_pair (r1 r2 : Z) : Z := ((r1 - 55296) * 1024 + (r2 - 56320) + 65536)%Z.

(** The escapes of one character *)
Definition simple_escape (c : ascii) : option ascii :=
  match c with
  | "034"%char | "\"%char | "/"%char => Some c
  | "b"%char => Some "008"%char
  | "f"%char => Some "012"%char
  | "n"%char => Some "010"%char
  | "r"%char => Some "013"%char
  | "t"%char => Some "009"%char
  | _ => None
  end.

(** The rest of a string after the opening quote: the decoded string, with invalid
    UTF-8 replaced, and what follows the closing quote.  [None] is a syntax error. *)
Fixpoint parse_chars (s : string) : option (string * string) :=
  let emit (t : string) (r : option (string * string)) := '(v, rest) ← r; Some (t +:+ v, rest) in
  match s with
  | EmptyString => None
  | String c s1 =>
      if bool_decide (c = "034"%char) then Some (EmptyString, s1)
      else if bool_decide (c = "\"%char) then
        match s1 with
        | String "u" (String a (String b (String c (String d s2)))) =>
            match hex4 a b c d with
            | None => None
            | Some r1 =>
                if high_surrogate r1 then
                  match s2 with
                  | String "\" (String "u" (String e (String f (String g (String h s3))))) =>
                      match hex4 e f g h with
                      | None => None
                      | Some r2 =>
                          if low_surrogate r2 then emit (encode_rune (surrogate_pair r1 r2)) (parse_chars s3)
                          else emit replacement_char (parse_chars s2)
                      end
                  | _ => emit replacement_char (parse_chars s2)
                  end
                else emit (encode_rune r1) (parse_chars s2)
            end
        | String e s2 =>
            match simple_escape e with
            | Some x => emit (String x EmptyString) (parse_chars s2)
            | None => None
            end
        | EmptyString => None
        end
      else if (byte c <? 32)%nat then None
      else if (byte c <? 128)%nat then emit (String c EmptyString) (parse_chars s1)
      else
        match s1 with
        | String c1 s2 =>
            if rune2 c c1 then emit (String c (String c1 EmptyString)) (parse_chars s2)
            else
              match s2 with
              | String c2 s3 =>
                  if rune3 c c1 c2 then emit (String c (String c1 (String c2 EmptyString))) (parse_chars s3)
                  else
                    match s3 with
                    | String c3 s4 =>
                        if rune4 c c1 c2 c3
                        then emit (String c (String c1 (String c2 (String c3 EmptyString)))) (parse_chars s4)
                        else emit replacement_char (parse_chars s1)
                    | EmptyString => emit replacement_char (parse_chars s1)
                    end
              | EmptyString => emit replacement_char (parse_chars s1)
              end
        | EmptyString => emit replacement_char (parse_chars s1)
        end
  end.

(** ** Numbers *)

Fixpoint skip_digits (s : string) : string :=
  match s with
  | String c s' => if is_digit c then skip_digits s' else s
  | EmptyString => EmptyString
  end.

(** At least one digit *)
Definition digits (s : string) : option string :=
  match s with
  | String c s' => if is_digit c then Some (skip_digits s') else None
  | EmptyString => None
  end.

Definition int_part (s : string) : option string :=
  match s with
  | String "0" s' => Some s'
  | _ => digits s
  end.

Definition frac_part (s : string) : option string :=
  match s with
  | String "." s' => digits s'
  | _ => Some s
  end.

Definition exp_part (s : string) : option string :=
  match s with
  | String "e" s' | String "E" s' =>
      match s' with
      | String "+" s'' | String "-" s'' => digits s''
      | _ => digits s'
      end
  | _ => Some s
  end.

(** What follows a number *)
Definition skip_number (s : string) : option string :=
  s ← int_part (match s with String "-" s' => s' | _ => s end); s ← frac_part s; exp_part s.

(** ** Values *)

(** What a text starts with, after space *)
Inductive token : Type :=
| TLiteral (v : json) (r : string)
| TQuote (r : string)
| TArray (r : string)
| TObject (r : string)
| TOther (r : string).

Definition lex (s : string) : token :=
  match skip_space s with
  | String "n" (String "u" (String "l" (String "l" r))) => TLiteral JNull r
  | String "t" (String "r" (String "u" (String "e" r))) => TLiteral (JBool true) r
  | String "f" (String "a" (String "l" (String "s" (String "e" r)))) => TLiteral (JBool false) r
  | String "034" r => TQuote r
  | String "[" r => TArray r
  | String "{" r => TObject r
  | r => TOther r
  end.

(** What follows the byte [c], after space *)
Definition eat (c : ascii) (s : string) : option string :=
  match skip_space s with
  | String d r => if bool_decide (d = c) then Some r else None
  | EmptyString => None
  end.

(** The nesting that Go allows *)
Definition max_depth : N := 10000.

Fixpoint parse_value (fuel : nat) (depth : N) (s : string) : option (json * string) :=
  match fuel with
  | 0 => None
  | S fuel =>
      match lex s with
      | TLiteral v r => Some (v, r)
      | TQuote r => '(v, r) ← parse_chars r; Some (JString v, r)
      | TArray r =>
          if (max_depth <=? depth)%N then None else
          match eat "]" r with
          | Some r => Some (JArray [], r)
          | None => '(l, r) ← parse_elements fuel (depth + 1) r; Some (JArray l, r)
          end
      | TObject r =>
          if (max_depth <=? depth)%N then None else
          match eat "}" r with
          | Some r => Some (JObject [], r)
          | None => '(l, r) ← parse_members fuel (depth + 1) r; Some (JObject l, r)
          end
      | TOther r => r ← skip_number r; Some (JNumber, r)
      end
  end
with parse_elements (fuel : nat) (depth : N) (s : string) : option (list json * string) :=
  match fuel with
  | 0 => None
  | S fuel =>
      '(v, r) ← parse_value fuel depth s;
      match eat "," r with
      | Some r => '(l, r) ← parse_elements fuel depth r; Some (v :: l, r)
      | None => r ← eat "]" r; Some ([v], r)
      end
  end
with parse_members (fuel : nat) (depth : N) (s : string) : option (list (string * json) * string) :=
  match fuel with
  | 0 => None
  | S fuel =>
      r ← eat "034" s;
      '(k, r) ← parse_chars r;
      r ← eat ":" r;
      '(v, r) ← parse_value fuel depth r;
      match eat "," r with
      | Some r => '(l, r) ← parse_members fuel depth r; Some ((k, v) :: l, r)
      | None => r ← eat "}" r; Some ([(k, v)], r)
      end
  end.

(** Twice the length is fuel enough, see [parse_value_fuel]. *)
Definition parse_json (s : string) : option json :=
  match parse_value (1 + String.length s + String.length s) 0 s with
  | Some (v, r) => match skip_space r with EmptyString => Some v | _ => None end
  | None => None
  end.

(** ** The fuel is enough

    Every function leaves no more than it was given, and all but [parse_value] on a
    number at least one byte less; so the recursion never runs out of fuel. *)

#[local] Notation len := String.length.

Lemma skip_space_le s : len (skip_space s) ≤ len s.
Proof. induction s as [|c s IH]; simpl; [done|]. destruct (is_space c); simpl; lia. Qed.

Lemma eat_lt c s r : eat c s = Some r → len r < len s.
Proof.
  unfold eat. pose proof (skip_space_le s) as Hs. destruct (skip_space s) as [|d r']; [done|].
  case_bool_decide; [|done]. intros [= <-]. simpl in Hs. lia.
Qed.

Lemma lex_le s :
  match lex s with
  | TLiteral _ r | TQuote r | TArray r | TObject r => len r < len s
  | TOther r => len r ≤ len s
  end.
Proof.
  unfold lex. pose proof (skip_space_le s) as Hs. remember (skip_space s) as t. clear Heqt.
  repeat case_match; simplify_eq; simpl in *; lia.
Qed.

Lemma parse_chars_lt s v r : parse_chars s = Some (v, r) → len r < len s.
Proof.
  revert v r. remember (len s) as n eqn:Hn. revert s Hn.
  induction (lt_wf n) as [n _ IH]. intros s -> v r.
  destruct s as [|c s]; [done|]. cbn [parse_chars].
  assert (∀ t s', len s' < len (String c s) →
    ('(v', rest) ← parse_chars s'; Some (t +:+ v', rest)) = Some (v, r) → len r < len (String c s)) as Hemit.
  { intros t s' Hlt ([v' r'] & Hp & [= _ ->])%bind_Some. specialize (IH _ Hlt s' eq_refl v' r Hp). lia. }
  repeat (case_match; try discriminate); simplify_eq; intros Hp;
    first [injection Hp as <- <-; simpl; lia|eapply Hemit; [|exact Hp]; simpl; lia].
Qed.

Lemma digits_le s r : digits s = Some r → len r < len s.
Proof.
  destruct s as [|c s]; [done|]. simpl. destruct (is_digit c); [|done]. intros [= <-].
  induction s as [|d s IH]; simpl; [lia|]. destruct (is_digit d); simpl in *; lia.
Qed.

Lemma skip_number_le s r : skip_number s = Some r → len r ≤ len s.
Proof.
  unfold skip_number. intros (r1 & H1 & (r2 & H2 & H3)%bind_Some)%bind_Some.
  assert (len r1 ≤ len s) by
    (unfold int_part in H1; repeat case_match; simplify_eq; try apply digits_le in H1; simpl in *; lia).
  assert (len r2 ≤ len r1) by
    (unfold frac_part in H2; repeat case_match; simplify_eq; try apply digits_le in H2; simpl in *; lia).
  unfold exp_part in H3; repeat case_match; simplify_eq; try apply digits_le in H3; simpl in *; lia.
Qed.


Lemma parse_le fuel :
  (∀ depth s v r, parse_value fuel depth s = Some (v, r) → len r ≤ len s) ∧
  (∀ depth s l r, parse_elements fuel depth s = Some (l, r) → len r ≤ len s) ∧
  (∀ depth s l r, parse_members fuel depth s = Some (l, r) → len r ≤ len s).
Proof.
  induction fuel as [|fuel (IHv & IHe & IHm)]; [done|]. split_and!; intros depth s v r; simpl.
  - pose proof (lex_le s) as Hl. destruct (lex s) as [j r'|r'|r'|r'|r'].
    + intros [= <- <-]. lia.
    + intros ([w r2] & Hp%parse_chars_lt & [= _ <-])%bind_Some. lia.
    + destruct (max_depth <=? depth)%N; [done|]. destruct (eat "]" r') as [r2|] eqn:He.
      * intros [= _ <-]. apply eat_lt in He. lia.
      * intros ([w r2] & Hp%IHe & [= _ <-])%bind_Some. lia.
    + destruct (max_depth <=? depth)%N; [done|]. destruct (eat "}" r') as [r2|] eqn:He.
      * intros [= _ <-]. apply eat_lt in He. lia.
      * intros ([w r2] & Hp%IHm & [= _ <-])%bind_Some. lia.
    + intros (r2 & Hp%skip_number_le & [= _ <-])%bind_Some. lia.
  - intros ([w r1] & Hv%IHv & Hr)%bind_Some. destruct (eat "," r1) as [r2|] eqn:He.
    + apply bind_Some in Hr as ([l r3] & Hl%IHe & [= _ <-]). apply eat_lt in He. lia.
    + apply bind_Some in Hr as (r3 & Hl%eat_lt & [= _ <-]). lia.
  - intros (r1 & H1%eat_lt & Hr)%bind_Some. apply bind_Some in Hr as ([k r2] & H2%parse_chars_lt & Hr).
    apply bind_Some in Hr as (r3 & H3%eat_lt & Hr). apply bind_Some in Hr as ([w r4] & H4%IHv & Hr).
    destruct (eat "," r4) as [r5|] eqn:He.
    + apply bind_Some in Hr as ([l r6] & Hl%IHm & [= _ <-]). apply eat_lt in He. lia.
    + apply bind_Some in Hr as (r6 & Hl%eat_lt & [= _ <-]). lia.
Qed.

Lemma option_bind_ext_some {A B} (mx : option A) (f g : A → option B) :
  (∀ x, mx = Some x → f x = g x) → mx ≫= f = mx ≫= g.
Proof. intros Hf. destruct mx as [x|]; [by apply Hf|done]. Qed.

Lemma parse_fuel fuel fuel' :
  (∀ depth s, 1 + len s + len s ≤ fuel → 1 + len s + len s ≤ fuel' →
    parse_value fuel depth s = parse_value fuel' depth s) ∧
  (∀ depth s, 2 + len s + len s ≤ fuel → 2 + len s + len s ≤ fuel' →
    parse_elements fuel depth s = parse_elements fuel' depth s) ∧
  (∀ depth s, 2 + len s + len s ≤ fuel → 2 + len s + len s ≤ fuel' →
    parse_members fuel depth s = parse_members fuel' depth s).
Proof.
  revert fuel'. induction fuel as [|fuel IH]; [intros fuel'; split_and!; intros; lia|].
  intros [|fuel']; [split_and!; intros; lia|]. destruct (IH fuel') as (IHv & IHe & IHm). clear IH.
  split_and!; intros depth s H1 H2; simpl.
  - pose proof (lex_le s) as Hl. destruct (lex s) as [j r|r|r|r|r]; [done|done| | |done].
    + by rewrite IHe by lia.
    + by rewrite IHm by lia.
  - rewrite IHv by lia. apply option_bind_ext_some. intros [v r] Hv. apply (parse_le fuel') in Hv.
    destruct (eat "," r) as [r2|] eqn:He; [|done]. apply eat_lt in He. by rewrite IHe by lia.
  - apply option_bind_ext_some. intros r1 E1%eat_lt. apply option_bind_ext_some. intros [k r2] E2%parse_chars_lt.
    apply option_bind_ext_some. intros r3 E3%eat_lt. rewrite IHv by lia.
    apply option_bind_ext_some. intros [v r] Hv. apply (parse_le fuel') in Hv.
    destruct (eat "," r) as [r4|] eqn:He; [|done]. apply eat_lt in He. by rewrite IHm by lia.
Qed.

(** More fuel than that of [parse_json] gives the same value, or the same error. *)
Lemma parse_value_fuel s fuel :
  1 + len s + len s ≤ fuel → parse_value fuel 0 s = parse_value (1 + len s + len s) 0 s.
Proof. intros Hf. by apply parse_fuel. Qed.

(** ** Decoding into structs *)

(** How [encoding/json] compares a key with the name of a field: ignoring case,
    where the Kelvin sign is a [k] and the long s an [s]. *)
Fixpoint fold_key (s : string) : string :=
  match s with
  | String "226" (String "132" (String "170" r)) => String "k" (fold_key r)
  | String "197" (String "191" r) => String "s" (fold_key r)
  | String c r => String (lower_byte c) (fold_key r)
  | EmptyString => EmptyString
  end.

(** A field is a name with a setter that rejects values of another type. *)
Record json_field (A : Type) : Type := MkField { fld_name : string; fld_set : json → A → option A }.
Arguments MkField {A}.
Arguments fld_name {A}.
Arguments fld_set {A}.

Definition string_field {A} (name : string) (set : string → A → A) : json_field A :=
  MkField name (λ v a, match v with JString s => Some (set s a) | JNull => Some a | _ => None end).

Definition bool_field {A} (name : string) (set : bool → A → A) : json_field A :=
  MkField name (λ v a, match v with JBool b => Some (set b a) | JNull => Some a | _ => None end).

(** The field for a key: an exact match first *)
Definition field_for {A} (fields : list (json_field A)) (key : string) : option (json_field A) :=
  match list_find (λ f, fld_name f = key) fields with
  | Some (_, f) => Some f
  | None => snd <$> list_find (λ f, fold_key (fld_name f) = fold_key key) fields
  end.

Fixpoint decode_members {A} (fields : list (json_field A)) (ms : list (string * json)) (a : A) : option A :=
  match ms with
  | [] => Some a
  | (k, v) :: ms =>
      match field_for fields k with
      | None => decode_members fields ms a
      | Some f => a ← fld_set f v a; decode_members fields ms a
      end
  end.

Definition decode_struct {A} (fields : list (json_field A)) (zero : A) (v : json) : option A :=
  match v with
  | JNull => Some zero
  | JObject ms => decode_members fields ms zero
  | _ => None
  end.

(** [json.Unmarshal] into a slice of structs.  After an error of a type Go goes on
    decoding and returns the first error; the callers drop the slice then. *)
Definition Unmarshal {A} (fields : list (json_field A)) (zero : A) (text : string) : option (list A) :=
  v ← parse_json text;
  match v with
  | JNull => Some []
  | JArray l => mapM (decode_struct fields zero) l
  | _ => None
  end.
