(* ===== verification/VdbGenSpec.v ===== *)
(** * The generated manifests

    What the generator reads from a database is what the operator needs to revive
    it: the nodes in their order, the communal storage with its credentials, and
    every object that the VerticaDB refers to. *)

From Stdlib Require Import Ascii.
From stdpp Require Import base gmap strings pretty sorting numbers list.
From S2P Require Import Prelude GoStrings GoRegexp GoJson K8s Types Webhook KObjects Effects Status Atconf PodFacts PodFactsSpec Builder Restart RestartSpec Install Scaling ScalingSpec ObjRec InitDB InitSpec VdbGen.

(** ** Subclusters and the revive order *)

Definition count_in (i : nat) (l : list nat) : Z := Z.of_nat (length (filter (λ j, j = i) l)).

Lemma count_in_app i l k : count_in i (l ++ k) = (count_in i l + count_in i k)%Z.
Proof. unfold count_in. rewrite filter_app, length_app. lia. Qed.

Lemma count_in_le i l : (0 ≤ count_in i l ≤ Z.of_nat (length l))%Z.
Proof. unfold count_in. pose proof (length_filter (λ j, j = i) l). lia. Qed.

Lemma count_in_replicate i n j : count_in i (replicate n j) = if bool_decide (j = i) then Z.of_nat n else 0%Z.
Proof.
  unfold count_in. induction n as [|n IH]; simpl; [by case_bool_decide|]. rewrite filter_cons.
  case_decide; case_bool_decide; simpl in *; try done; rewrite ?bool_decide_eq_true_2 in IH by done; lia.
Qed.

(** The entries name a subcluster and ask for at least one pod. *)
Definition good_order (n : nat) (order : list SubclusterPodCount) : Prop :=
  Forall (λ e, 0 < spc_PodCount e ∧ 0 ≤ spc_SubclusterIndex e < Z.of_nat n)%Z order.

Lemma order_seq_cons e order :
  order_seq (e :: order) = replicate (Z.to_nat (spc_PodCount e)) (Z.to_nat (spc_SubclusterIndex e)) ++ order_seq order.
Proof. done. Qed.

Lemma ordered_count i n order : good_order n order → ordered i order = count_in i (order_seq order).
Proof.
  induction 1 as [|e order [Hc Hi] _ IH]; [done|]. rewrite order_seq_cons. simpl.
  rewrite count_in_app, count_in_replicate, <- IH. repeat case_bool_decide; lia.
Qed.

Lemma order_seq_app l k : order_seq (l ++ k) = order_seq l ++ order_seq k.
Proof. unfold order_seq. by rewrite bind_app. Qed.

Lemma order_count_bound e order : e ∈ order → (spc_PodCount e ≤ Z.of_nat (length (order_seq order)))%Z.
Proof.
  intros (l & k & ->)%list_elem_of_split. rewrite order_seq_app, order_seq_cons, !length_app, length_replicate. lia.
Qed.

(** One more pod of the subcluster [inx] *)
Lemma add_to_order_seq n inx order :
  good_order n order → inx < n → (Z.of_nat (length (order_seq order)) < 2 ^ 31)%Z →
  order_seq (add_to_order inx order) = order_seq order ++ [inx] ∧ good_order n (add_to_order inx order).
Proof.
  intros Hg Hn Hlen. unfold add_to_order.
  destruct (last order) as [e|] eqn:Hl.
  - apply last_Some in Hl as [l ->]. apply Forall_app in Hg as [Hg [[Hc Hi] _]%Forall_cons].
    rewrite removelast_last. case_bool_decide as He.
    + assert (spc_PodCount e ≤ Z.of_nat (length (order_seq (l ++ [e]))))%Z as Hb
        by (apply order_count_bound; set_solver).
      rewrite wrap64_small by (unfold int64_range; lia). rewrite !order_seq_app. split.
      * rewrite <- (assoc_L (++)). f_equal. unfold order_seq. simpl. rewrite !app_nil_r, He, Nat2Z.id.
        replace (Z.to_nat (spc_PodCount e + 1)) with (Z.to_nat (spc_PodCount e) + 1) by lia.
        by rewrite replicate_add.
      * apply Forall_app. split; [done|]. constructor; [|done]. simpl. lia.
    + rewrite (order_seq_app (l ++ [e])). split; [f_equal; unfold order_seq; simpl; by rewrite Nat2Z.id|].
      apply Forall_app. split; [apply Forall_app; split; [done|by constructor]|]. constructor; [|done]. simpl. lia.
  - apply last_None in Hl as ->. split; [unfold order_seq; simpl; by rewrite Nat2Z.id|]. constructor; [|done]. simpl. lia.
Qed.

(** The subclusters [scs] and the order describe the nodes [ns], each given by the
    name of its subcluster. *)
Record describes (ns : list string) (s : detail_state) : Prop := {
  de_names : NoDup (sc_Name <$> fst (fst s));
  de_map : ∀ name i, snd s !! name = Some i ↔ (sc_Name <$> fst (fst s)) !! i = Some name;
  de_order : good_order (length (fst (fst s))) (snd (fst s));
  de_seq : ((λ i, (sc_Name <$> fst (fst s)) !! i) <$> order_seq (snd (fst s))) = Some <$> ns;
  de_sizes : ∀ i sc, fst (fst s) !! i = Some sc → sc_Size sc = count_in i (order_seq (snd (fst s))) }.

Lemma order_seq_bound n order i : good_order n order → i ∈ order_seq order → i < n.
Proof.
  intros Hg (e & Hi & He)%list_elem_of_bind. apply elem_of_replicate in Hi as [-> _].
  apply (proj1 (Forall_forall _ _) Hg) in He as [_ He]. lia.
Qed.

Lemma count_in_none i l : (∀ j, j ∈ l → j ≠ i) → count_in i l = 0%Z.
Proof.
  intros Hl. unfold count_in. enough (filter (λ j, j = i) l = []) as -> by done.
  apply elem_of_nil_inv. intros j [-> Hj]%list_elem_of_filter. by apply (Hl i).
Qed.

Lemma describes_length ns s : describes ns s → length (order_seq (snd (fst s))) = length ns.
Proof. intros [_ _ _ Hs _]. apply (f_equal length) in Hs. by rewrite !length_fmap in Hs. Qed.

Lemma describes_nil : describes [] ([], [], ∅).
Proof. split; simpl; [constructor| |by constructor|done|done]. intros name i. by rewrite lookup_empty. Qed.

(** A new subcluster without nodes *)
Lemma describes_new ns scs order m name b :
  describes ns (scs, order, m) → m !! name = None →
  describes ns (scs ++ [new_subcluster name b], order, <[name := length scs]> m).
Proof.
  intros [H1 H2 H3 H4 H5] Hm. simpl in *.
  assert (name ∉ sc_Name <$> scs) as Hnew.
  { intros [i Hi]%list_elem_of_lookup. apply H2 in Hi. congruence. }
  split; simpl; rewrite ?fmap_app.
  - apply NoDup_app. split; [done|]. split; [set_solver|]. simpl. apply NoDup_singleton.
  - intros x i. destruct (decide (x = name)) as [->|Hne].
    + rewrite lookup_insert_eq. split.
      * intros [= <-]. rewrite lookup_app_r by (by rewrite length_fmap). by rewrite length_fmap, Nat.sub_diag.
      * intros Hi. apply lookup_app_Some in Hi as [Hi|[Hi Hx]].
        { destruct Hnew. by eapply list_elem_of_lookup_2. }
        rewrite length_fmap in *. apply list_lookup_singleton_Some in Hx as [Hx _]. f_equal. lia.
    + rewrite lookup_insert_ne by done. rewrite H2. split.
      * intros Hi. by apply lookup_app_l_Some.
      * intros Hi. apply lookup_app_Some in Hi as [Hi|[Hi Hx]]; [done|].
        by apply list_lookup_singleton_Some in Hx as [_ [= <-]].
  - rewrite length_app. simpl. eapply Forall_impl; [exact H3|]. intros e He. simpl in *. lia.
  - rewrite <- H4. apply list_fmap_ext. intros k i Hi%list_elem_of_lookup_2. apply lookup_app_l.
    rewrite length_fmap. by eapply order_seq_bound.
  - intros i sc [Hi|[Hi Hx]]%lookup_app_Some; [by apply H5|]. apply list_lookup_singleton_Some in Hx as [Hi' <-].
    simpl. symmetry. apply count_in_none. intros j Hj ->. apply (order_seq_bound _ _ _ H3) in Hj. lia.
Qed.

(** One more node of a known subcluster *)
Lemma describes_more ns scs order m name inx :
  describes ns (scs, order, m) → (sc_Name <$> scs) !! inx = Some name → (Z.of_nat (length ns) + 1 < 2 ^ 31)%Z →
  describes (ns ++ [name]) (alter incr_size inx scs, add_to_order inx order, m).
Proof.
  intros Hd Hinx Hlen. pose proof (describes_length _ _ Hd) as Hl. destruct Hd as [H1 H2 H3 H4 H5]. simpl in *.
  assert (sc_Name <$> alter incr_size inx scs = sc_Name <$> scs) as Hnames.
  { apply list_eq. intros i. rewrite !list_lookup_fmap, list_lookup_alter. case_decide as Hi; [|done].
    subst i. by destruct (scs !! inx). }
  destruct (add_to_order_seq (length scs) inx order H3) as [Hseq Hgood].
  { apply lookup_lt_Some in Hinx. by rewrite length_fmap in Hinx. }
  { lia. }
  split; simpl; rewrite ?Hnames; [done|done| | |].
  - by rewrite length_alter.
  - rewrite Hseq, !fmap_app, H4. simpl. by rewrite Hinx.
  - intros i sc Hi. rewrite Hseq, count_in_app. change [inx] with (replicate 1 inx). rewrite count_in_replicate.
    rewrite list_lookup_alter in Hi. case_decide as Hd.
    + subst i. apply fmap_Some in Hi as (sc' & Hsc' & ->). rewrite bool_decide_eq_true_2 by done. simpl.
      rewrite (H5 _ _ Hsc'). pose proof (count_in_le inx (order_seq order)). apply wrap32_small.
      unfold int32_range. lia.
    + rewrite bool_decide_eq_false_2 by done. rewrite (H5 _ _ Hi). lia.
Qed.

Lemma add_node_describes ns s name b s' :
  describes ns s → (Z.of_nat (length ns) + 1 < 2 ^ 31)%Z → add_node (name, b) s = Ok s' →
  describes (ns ++ [name]) s' ∧ IsValidSubclusterName name = true.
Proof.
  destruct s as [[scs order] m]. intros Hd Hlen. unfold add_node.
  destruct (IsValidSubclusterName name); [|done]. simpl.
  destruct (m !! name) as [inx|] eqn:Hm; intros [= <-]; (split; [|done]).
  - apply describes_more; [done| |done]. by apply (de_map _ _ Hd).
  - apply describes_more; [by apply describes_new| |done].
    rewrite fmap_app, lookup_app_r by (by rewrite length_fmap). by rewrite length_fmap, Nat.sub_diag.
Qed.

(** A row of the query *)
Definition node_row (node : string * bool) : list sql_value := [SqlString (fst node); SqlBool (snd node)].

#[local] Arguments add_node : simpl never.

Lemma each_node_describes nodes ns s s' :
  describes ns s → (Z.of_nat (length ns + length nodes) < 2 ^ 31)%Z →
  each_row (scan2 scan_string scan_bool) add_node (node_row <$> nodes) s = Ok s' →
  describes (ns ++ nodes.*1) s' ∧ Forall (λ n, IsValidSubclusterName n = true) nodes.*1.
Proof.
  revert ns s. induction nodes as [|[name b] nodes IH]; intros ns s Hd Hlen; simpl.
  { intros [= <-]. rewrite app_nil_r. by split; [|constructor]. }
  destruct (add_node (name, b) s) as [s1|e] eqn:Ha; [|done].
  simpl in Hlen. destruct (add_node_describes ns s name b s1 Hd) as [Hd1 Hv]; [lia|done|]. intros Hr.
  destruct (IH (ns ++ [name]) s1 Hd1) as [Hd2 Hvs]; [rewrite length_app; simpl; lia|done|].
  rewrite <- (assoc_L (++)) in Hd2. split; [done|by constructor].
Qed.

(** ** What the collectors keep *)

Definition keeps (P : DBGenerator → Prop) (c : DBGenerator → outcome (result DBGenerator)) : Prop :=
  ∀ d d', P d → c d = Ret (Ok d') → P d'.

Lemma keeps_run P cs : Forall (keeps P) cs → keeps P (run_collectors cs).
Proof.
  induction 1 as [|c cs Hc _ IH]; intros d d' Hd; simpl; [by intros [= <-]|].
  destruct (c d) as [[d1|e]|m] eqn:Hcd; [|done..]. apply IH. by eapply Hc.
Qed.

Lemma run_collectors_app cs c cs' d d' :
  run_collectors (cs ++ c :: cs') d = Ret (Ok d') →
  ∃ d1 d2, run_collectors cs d = Ret (Ok d1) ∧ c d1 = Ret (Ok d2) ∧ run_collectors cs' d2 = Ret (Ok d').
Proof.
  revert d. induction cs as [|c0 cs IH]; intros d; simpl.
  - destruct (c d) as [[d2|e]|m] eqn:Hc; [|done..]. intros H'. by exists d, d2.
  - destruct (c0 d) as [[d2|e]|m]; [|done..]. apply IH.
Qed.

(** A collector keeps what is computed from fields that it does not assign. *)
Ltac split_generator d :=
  destruct d as [? ? [? ? [? ? ? ? ? spec ?] ? ? ? ? ? ?] ? ? ? ? ? ?]; destruct spec.

Ltac collector_cases :=
  repeat (case_match; simplify_eq); try done; simplify_eq; simpl in *.

Ltac collector_keeps d :=
  unfold readLicense, connect, setShardCount, setCommunalPath, fetchDatabaseConfig, setCommunalEndpointAWS,
    setCommunalEndpointGCloud, setCommunalEndpointGeneric, setLocalPaths, setLicense, setPasswordSecret,
    readCAFile, setCAFile, readHadoopConfig, setHadoopConfig, readKrb5ConfFile, readKrb5KeytabFile, setKrb5Secret,
    setSubclusterDetail, read_option, done_with, fail_with;
  intros Hr; split_generator d; collector_cases.

Definition sc_part (d : DBGenerator) : list Subcluster * list SubclusterPodCount :=
  (spec_Subclusters (gen_spec d), spec_ReviveOrder (gen_spec d)).

Lemma pick_account_keeps {A} (f : A → string) l d d' x :
  pick_account f l d = Ok (d', x) → Objs d' = Objs d ∧ DBCfg d' = DBCfg d.
Proof. unfold pick_account. intros Hp. repeat (case_match; simplify_eq); done. Qed.

(** What the VerticaDB refers to is an object of the manifest. *)
Definition name_of (s : option GenSecret) : string := default "" (gs_Name <$> s).

Definition linked (k : KObjs) : Prop :=
  let s := vdb_Spec (ko_Vdb k) in
  com_CredentialSecret (spec_Communal s) = gs_Name (CredSecret k) ∧
  spec_LicenseSecret s = name_of (LicenseSecret k) ∧
  spec_SuperuserPasswordSecret s = name_of (SuperuserPasswordSecret k) ∧
  spec_CertSecrets s = gs_Name <$> option_list (ko_CAFile k) ∧
  com_HadoopConfig (spec_Communal s) = name_of (ko_HadoopConfig k) ∧
  spec_KerberosSecret s = name_of (KerberosSecret k) ∧
  com_CaFile (spec_Communal s) =
    default "" ((λ c, CertsRoot +:+ "/" +:+ gs_Name c +:+ "/" +:+ CACertKey) <$> ko_CAFile k).

Lemma set_cred_objs data d d' : Objs d' = Objs d → Objs (set_cred_data data d') = Objs (set_cred_data data d).
Proof. unfold set_cred_data. simpl. by intros ->. Qed.

Section keeping.
Context `{GenEnv}.

Lemma azure_keeps d d' :
  setCommunalEndpointAzure d = Ret (Ok d') → ∃ data, Objs d' = Objs (set_cred_data data d).
Proof.
  assert (Objs d = Objs (set_cred_data (gs_Data (CredSecret (Objs d))) d)) as Hsame
    by by destruct d as [? ? [? ? ? [] ? ? ? ? ?]].
  unfold setCommunalEndpointAzure, extractAzureCredential, extractAzureEndpointConfig, done_with, fail_with.
  intros Ha. repeat (case_match; simplify_eq); try by eexists.
  all: repeat match goal with Hp : pick_account _ _ _ = _ |- _ => apply pick_account_keeps in Hp as [Hp _] end.
  all: first [eexists; apply set_cred_objs; congruence|eexists; etrans; [|exact Hsame]; congruence].
Qed.

(** The subclusters are only set by [setSubclusterDetail], the secret with the
    certificate of the communal storage by [setCAFile]. *)
Lemma keeps_sc x :
  Forall (keeps (λ d, sc_part d = x)) (take 9 collectors) ∧ Forall (keeps (λ d, sc_part d = x)) (drop 10 collectors).
Proof.
  split; simpl; repeat apply Forall_cons_2; try apply Forall_nil_2; intros d d' Hd.
  8: { intros [data Ha]%azure_keeps. unfold sc_part, gen_spec in *. by rewrite Ha. }
  all: by collector_keeps d.
Qed.

Definition linked_ca (x : option GenSecret) (d : DBGenerator) : Prop := linked (Objs d) ∧ ko_CAFile (Objs d) = x.

Lemma keeps_linked x :
  Forall (keeps (linked_ca x)) (take 13 collectors) ∧ Forall (keeps (linked_ca x)) (drop 14 collectors).
Proof.
  split; simpl; repeat apply Forall_cons_2; try apply Forall_nil_2; intros d d' [Hd Hx]; unfold linked_ca.
  8: { intros [data Ha]%azure_keeps. unfold linked in *. by rewrite Ha. }
  all: unfold linked in *; collector_keeps d; destruct_and!; by split_and!.
Qed.

Lemma setCAFile_linked d d' : linked_ca None d → setCAFile d = Ret (Ok d') → linked (Objs d').
Proof. unfold linked_ca, linked. intros [Hd Hx]. collector_keeps d; destruct_and!; subst; by split_and!. Qed.

(** A run that ends, around one collector *)
Lemma Create_around cs c cs' o objs :
  Create (make_DBGenerator o) = Ret (Ok objs) → collectors = cs ++ c :: cs' →
  ∃ d d1 d2, objs = Objs d ∧ run_collectors cs (setParmsFromOptions (make_DBGenerator o)) = Ret (Ok d1) ∧
    c d1 = Ret (Ok d2) ∧ run_collectors cs' d2 = Ret (Ok d).
Proof.
  unfold Create. intros Hr Hcs. rewrite Hcs in Hr. destruct (run_collectors _ _) as [[d'|]|] eqn:Hd; [|done..]. injection Hr as <-.
  apply run_collectors_app in Hd as (d1 & d2 & H1 & H2 & H3). by exists d', d1, d2.
Qed.

Lemma Create_linked o objs : Create (make_DBGenerator o) = Ret (Ok objs) → linked objs.
Proof.
  intros Hr. destruct (Create_around (take 13 collectors) setCAFile (drop 14 collectors) o objs Hr eq_refl)
    as (d & d1 & d2 & -> & H1 & H2 & H3).
  apply (keeps_run (linked_ca None)) in H1; [|apply keeps_linked|].
  2: { unfold setParmsFromOptions, linked_ca, linked. simpl. by destruct (op_IgnoreClusterLease o), (op_Image o). }
  apply (setCAFile_linked _ _ H1) in H2.
  apply (keeps_run (linked_ca (ko_CAFile (Objs d2)))) in H3; [by destruct H3|apply keeps_linked|done].
Qed.

Lemma Create_describes o objs nodes fail :
  Create (make_DBGenerator o) = Ret (Ok objs) →
  gen_query SubclusterQuery None = Ok (MkRows (node_row <$> nodes) fail) → (Z.of_nat (length nodes) < 2 ^ 31)%Z →
  ∃ m, describes nodes.*1 (spec_Subclusters (vdb_Spec (ko_Vdb objs)), spec_ReviveOrder (vdb_Spec (ko_Vdb objs)), m).
Proof.
  intros Hr Hq Hlen. destruct (Create_around (take 9 collectors) setSubclusterDetail (drop 10 collectors) o objs Hr eq_refl)
    as (d & d1 & d2 & -> & H1 & H2 & H3).
  apply (keeps_run (λ d, sc_part d = ([], []))) in H1; [|apply keeps_sc|].
  2: { unfold setParmsFromOptions, sc_part, gen_spec. simpl. by destruct (op_IgnoreClusterLease o), (op_Image o). }
  apply (keeps_run (λ d, sc_part d = sc_part d2)) in H3; [|apply keeps_sc|done].
  unfold sc_part in H1, H3. injection H1 as Hs Ho. unfold gen_spec in *.
  injection H3 as -> ->. unfold setSubclusterDetail in H2. rewrite Hq in H2. unfold gen_spec in H2.
  rewrite Hs, Ho in H2. simpl in H2.
  destruct (each_row _ _ _ _) as [[[scs order] m]|e] eqn:He; [|done].
  apply (each_node_describes nodes []) in He as [He _]; [|apply describes_nil|done].
  case_bool_decide; [done|]. injection H2 as <-. exists m. by destruct d1 as [? ? [? ? [? ? ? ? ? [] ?] ? ? ? ? ? ?]].
Qed.

End keeping.

(** ** Reviving with the generated order *)

Lemma describes_fits ns scs order m :
  describes ns (scs, order, m) → (Z.of_nat (length ns) < 2 ^ 31)%Z → order_fits order (sc_Size <$> scs).
Proof.
  intros Hd Hlen. pose proof (describes_length _ _ Hd) as Hl. destruct Hd as [_ _ Hg _ Hs]. simpl in *. split.
  - apply Forall_forall. intros e He. pose proof (order_count_bound e order He).
    apply (proj1 (Forall_forall _ _) Hg) in He as [? _]. lia.
  - intros i left Hi. rewrite list_lookup_fmap in Hi. apply fmap_Some in Hi as (sc & Hsc & ->).
    rewrite (ordered_count _ _ _ Hg), (Hs _ _ Hsc). done.
Qed.

Lemma chosen_count i xs : Z.of_nat (length (chosen_of i xs)) = count_in i (fst <$> xs).
Proof.
  unfold chosen_of, count_in. rewrite length_fmap. f_equal. induction xs as [|[j z] xs IH]; [done|].
  rewrite fmap_cons, !filter_cons. simpl. by case_decide; simpl; rewrite IH.
Qed.

Lemma length_indices k : (-1 ≤ k)%Z → Z.of_nat (length (indices 0 k)) = (k + 1)%Z.
Proof. intros Hk. unfold indices. rewrite length_fmap, length_seq. lia. Qed.

(** With an order for every node there is nothing left to add. *)
Lemma revive_order_all v p l xs ns m :
  describes ns (spec_Subclusters (vdb_Spec v), spec_ReviveOrder (vdb_Spec v), m) → (Z.of_nat (length ns) < 2 ^ 31)%Z →
  revive_pods v p l xs → fst <$> xs = order_seq (spec_ReviveOrder (vdb_Spec v)).
Proof.
  intros Hd Hlen [Hf Ha Ho]. destruct (Ho (describes_fits _ _ _ _ Hd Hlen)) as (rest & Hxs & _). rewrite Hxs.
  enough (rest = []) as -> by by rewrite app_nil_r. apply elem_of_nil_inv. intros i Hi.
  assert (i ∈ fst <$> xs) as ((j & z) & -> & Hx)%list_elem_of_fmap by (rewrite Hxs; set_solver).
  apply list_elem_of_lookup in Hx as [k Hk]. destruct (Forall2_lookup_l _ _ _ _ _ Hf Hk) as (f & _ & sc & Hsc & _).
  simpl in *. pose proof (de_sizes _ _ Hd j sc Hsc) as Hs. simpl in Hs.
  pose proof (chosen_count j xs) as Hc. rewrite (Ha j sc Hsc), Hxs, count_in_app, <- Hs, length_indices in Hc.
  - assert (count_in j rest = 0%Z) as H0 by lia. unfold count_in in H0.
    destruct (filter (λ j0, j0 = j) rest) as [|] eqn:Hr; [|done].
    assert (j ∈ filter (λ j0, j0 = j) rest) by by apply list_elem_of_filter. rewrite Hr in *. set_solver.
  - pose proof (count_in_le j (order_seq (spec_ReviveOrder (vdb_Spec v)))). lia.
Qed.

(** C26: The generator and the revive agree on the nodes: a VerticaDB with the
    subclusters and the revive order that the generator made of a database with
    fewer than 2^31 nodes is revived, once its pods are there, with one pod per node
    of that database, the k-th pod belonging to the subcluster of the k-th node. *)
Theorem generated_revive_order `{GenEnv} o objs nodes fail v p t :
  Create (make_DBGenerator o) = Ret (Ok objs) →
  gen_query SubclusterQuery None = Ok (MkRows (node_row <$> nodes) fail) → (Z.of_nat (length nodes) < 2 ^ 31)%Z →
  spec_Subclusters (vdb_Spec v) = spec_Subclusters (vdb_Spec (ko_Vdb objs)) →
  spec_ReviveOrder (vdb_Spec v) = spec_ReviveOrder (vdb_Spec (ko_Vdb objs)) →
  ¬ pod_missing v p →
  ∃ l xs, fst (revivedb_getPodList v p t) = Ret (Some l) ∧ revive_pods v p l xs ∧
    Forall2 (λ name x, sc_Name <$> spec_Subclusters (vdb_Spec v) !! fst x = Some name) nodes.*1 xs.
Proof.
  intros Hr Hq Hlen Hs Ho Hp. destruct (Create_describes o objs nodes fail Hr Hq Hlen) as [m Hd].
  rewrite <- Hs, <- Ho in Hd.
  assert (Forall (in_range v) (spec_ReviveOrder (vdb_Spec v))) as Hin.
  { eapply Forall_impl; [apply (de_order _ _ Hd)|]. intros e [_ He]. simpl in He. unfold in_range, lookup_index.
    rewrite bool_decide_eq_false_2 by lia. apply lookup_lt_is_Some_2. lia. }
  pose proof (revive_getPodList_spec v p t) as Hl. unfold wp in Hl.
  destruct (fst (revivedb_getPodList v p t)) as [[l|]|]; [|by destruct Hl|done].
  destruct Hl as [_ [xs Hx]]. exists l, xs. split_and!; [done..|].
  rewrite <- length_fmap with (f := @fst string bool) in Hlen.
  pose proof (revive_order_all _ _ _ _ _ _ Hd Hlen Hx) as Hall. pose proof (de_seq _ _ Hd) as Hseq. simpl in Hseq.
  rewrite <- Hall in Hseq. apply Forall2_same_length_lookup_2.
  - apply (f_equal length) in Hseq. by rewrite !length_fmap in *.
  - intros k name x Hn Hxk. apply (f_equal (lookup k)) in Hseq. rewrite !list_lookup_fmap in Hseq.
    rewrite Hxk, <- (list_lookup_fmap fst nodes), Hn in Hseq. simpl in Hseq. injection Hseq as Hseq. by rewrite <- list_lookup_fmap.
Qed.

(** ** Example: a database in S3 with three nodes *)

Definition demo_config : list (string * string) :=
  [("AWSEnableHttps", "0"); ("AWSEndpoint", "minio:9000"); ("AWSAuth", "user:pass"); ("AWSRegion", "us-east-1");
   ("AWSCAFile", "/certs/ca.crt")].

Definition demo_nodes : list (string * bool) := [("sc1", true); ("sc2", false); ("sc1", true)].

Definition demo_query (q : string) (arg : option string) : result sql_rows :=
  let rows l := Ok (MkRows l false) in
  if bool_decide (q = ShardCountQuery) then rows [[SqlInt 6]]
  else if bool_decide (q = DBCfgQuery) then rows ((λ '(k, x), [SqlString k; SqlString x]) <$> demo_config)
  else if bool_decide (q = SubclusterQuery) then rows (node_row <$> demo_nodes)
  else match arg with
       | Some "DATA" => rows [[SqlNull; SqlString "s3://nimbusdb/db"]]
       | Some "DATA,TEMP" => rows [[SqlString "v_db_node0001"; SqlString "/data/db/v_db_node0001_data"]]
       | _ => rows [[SqlString "v_db_node0001"; SqlString "/depot/db/v_db_node0001_depot"]]
       end.

Definition demo_gen : GenEnv := {|
  gen_open := λ _, None;
  gen_ping := None;
  gen_query := demo_query;
  ReadFile := λ f, Ok ("data of " +:+ f);
  Readdirnames := λ _, Ok [];
  Marshal := λ _, Ok "{}" |}.

Definition demo_options : Options :=
  MkOptions "dbadmin" "secret" "none" "vdb" "10.0.0.1" 5433 "db" false "vertica-k8s" "/lic.dat" "/ca.crt" "" "" "" "" "".

Definition demo_objs : KObjs :=
  match @Create demo_gen (make_DBGenerator demo_options) with Ret (Ok objs) => objs | _ => zero_KObjs end.

Definition demo_facts : PodFacts :=
  let v := ko_Vdb demo_objs in
  MkPodFacts (list_to_map ((λ x, (x, zero_PodFact)) <$>
    (spec_Subclusters (vdb_Spec v) ≫= λ sc, GenPodName v sc <$> [0; 1]%Z))) false.

Lemma demo_created : @Create demo_gen (make_DBGenerator demo_options) = Ret (Ok demo_objs).
Proof. vm_compute. reflexivity. Qed.

Lemma pods_there v p :
  Forall (λ sc, Forall (λ j, is_Some (Detail p !! GenPodName v sc j)) (indices 0 (sc_Size sc - 1)))
    (spec_Subclusters (vdb_Spec v)) → ¬ pod_missing v p.
Proof.
  intros Hall (i & sc & j & Hi & Hj & Hd). apply (Forall_lookup_1 _ _ _ _ Hall) in Hi.
  destruct (proj1 (Forall_forall _ _) Hi j) as [f Hf]; [apply indices_spec; lia|congruence].
Qed.

Lemma demo_pods_there : ¬ pod_missing (ko_Vdb demo_objs) demo_facts.
Proof. apply pods_there. apply (bool_decide_unpack _). vm_compute. exact I. Qed.

Lemma generated_revive_order_witness :
  ∃ l xs, fst (revivedb_getPodList (ko_Vdb demo_objs) demo_facts []) = Ret (Some l) ∧
    revive_pods (ko_Vdb demo_objs) demo_facts l xs ∧
    Forall2 (λ name x, sc_Name <$> spec_Subclusters (vdb_Spec (ko_Vdb demo_objs)) !! fst x = Some name)
      ["sc1"; "sc2"; "sc1"] xs.
Proof.
  exact (@generated_revive_order demo_gen demo_options demo_objs demo_nodes false (ko_Vdb demo_objs)
    demo_facts [] demo_created eq_refl ltac:(vm_compute; reflexivity) eq_refl eq_refl demo_pods_there).
Defined.

(** ** The manifest *)

Lemma elem_of_option_list {A} (x : A) mx : x ∈ option_list mx ↔ mx = Some x.
Proof. destruct mx as [y|]; simpl; [|set_solver]. rewrite list_elem_of_singleton. naive_solver. Qed.

Lemma elem_of_documents (k : KObjs) m :
  m ∈ documents k ↔
    m = MSecret (CredSecret k) ∨
    (∃ s, m = MSecret s ∧ (SuperuserPasswordSecret k = Some s ∨ LicenseSecret k = Some s ∨ ko_CAFile k = Some s ∨
                           KerberosSecret k = Some s)) ∨
    (∃ s, m = MConfigMap s ∧ ko_HadoopConfig k = Some s) ∨ m = MVdb (ko_APIVersion k) (ko_Kind k) (ko_Vdb k).
Proof.
  unfold documents. rewrite elem_of_cons, !elem_of_app, !list_elem_of_fmap, list_elem_of_singleton.
  setoid_rewrite elem_of_option_list. naive_solver.
Qed.

(** The secrets that a VerticaDB refers to *)
Definition named_secrets (v : VerticaDB) : list string :=
  let s := vdb_Spec v in
  filter (λ n, n ≠ "")
    ([com_CredentialSecret (spec_Communal s); spec_LicenseSecret s; spec_SuperuserPasswordSecret s;
      spec_KerberosSecret s] ++ spec_CertSecrets s).

Lemma name_of_nonempty k : name_of k ≠ "" → ∃ s, k = Some s ∧ gs_Name s = name_of k.
Proof. destruct k as [s|]; [|done]. intros _. by exists s. Qed.

(** C29: A generated manifest is complete: every secret and every config map that
    the VerticaDB refers to is one of the documents written with it, the VerticaDB
    being the last, and the CA file of the communal storage is the certificate of a
    secret that the operator mounts in the pods, under the path of that mount. *)
Theorem manifest_complete `{GenEnv} o objs :
  Create (make_DBGenerator o) = Ret (Ok objs) →
  let v := ko_Vdb objs in let com := spec_Communal (vdb_Spec v) in
  last (documents objs) = Some (MVdb (ko_APIVersion objs) (ko_Kind objs) v) ∧
  (∀ name, name ∈ named_secrets v → ∃ s, MSecret s ∈ documents objs ∧ gs_Name s = name) ∧
  (com_HadoopConfig com ≠ "" → ∃ s, MConfigMap s ∈ documents objs ∧ gs_Name s = com_HadoopConfig com) ∧
  (com_CaFile com ≠ "" →
    ∃ s m, MSecret s ∈ documents objs ∧ m ∈ buildCertSecretVolumeMounts v ∧
      MkVolume (gs_Name s) (SecretVolume (gs_Name s)) ∈ buildCertSecretVolumes v ∧ vm_Name m = gs_Name s ∧
      com_CaFile com = vm_MountPath m +:+ "/" +:+ CACertKey).
Proof.
  intros Hc v com. destruct (Create_linked o objs Hc) as (H1 & H2 & H3 & H4 & H5 & H6 & H7).
  fold v in H1, H2, H3, H4, H5, H6, H7. fold com in H1, H5, H7. split_and!.
  - unfold documents. by rewrite !app_assoc, app_comm_cons, last_snoc.
  - intros name [Hne Hin]%list_elem_of_filter. setoid_rewrite elem_of_documents.
    rewrite H2, H3, H4, H6 in Hin. fold com in Hin. rewrite H1 in Hin.
    repeat apply elem_of_cons in Hin as [->|Hin]; try (apply name_of_nonempty in Hne as (s & -> & <-)); eauto 10.
    apply list_elem_of_fmap in Hin as (s & -> & Hs%elem_of_option_list). eauto 10.
  - intros Hne. rewrite H5 in *. apply name_of_nonempty in Hne as (s & Hs & <-). exists s. rewrite elem_of_documents. eauto 10.
  - intros Hne. rewrite H7 in *. destruct (ko_CAFile objs) as [s|] eqn:Hs; [|done].
    exists s, (mount (gs_Name s) (CertsRoot +:+ "/" +:+ gs_Name s) ""). rewrite elem_of_documents.
    unfold buildCertSecretVolumeMounts, buildCertSecretVolumes. rewrite H4. simpl.
    split_and!; [eauto 10|set_solver|set_solver|done..].
Qed.

Lemma manifest_complete_witness :
  MSecret (CredSecret demo_objs) ∈ documents demo_objs ∧
  (∃ s, MSecret s ∈ documents demo_objs ∧ gs_Name s = "vdb-su-passwd") ∧
  ∃ s m, MSecret s ∈ documents demo_objs ∧ m ∈ buildCertSecretVolumeMounts (ko_Vdb demo_objs) ∧
    com_CaFile (spec_Communal (vdb_Spec (ko_Vdb demo_objs))) = vm_MountPath m +:+ "/" +:+ CACertKey.
Proof.
  destruct (@manifest_complete demo_gen demo_options demo_objs demo_created) as (_ & Hs & _ & Hca).
  split_and!; [left|apply Hs, (bool_decide_unpack _); vm_compute; exact I|].
  destruct Hca as (s & m & H1 & H2 & _ & _ & H3); [vm_compute; discriminate|]. exact (ex_intro _ s (ex_intro _ m (conj H1 (conj H2 H3)))).
Defined.

(** ** The communal storage *)

Definition com_part (d : DBGenerator) : string * string * string * gmap string string :=
  let c := spec_Communal (gen_spec d) in (com_Path c, com_Endpoint c, com_Region c, gs_Data (CredSecret (Objs d))).

Definition config_row (kv : string * string) : list sql_value := [SqlString (fst kv); SqlString (snd kv)].

(** The settings, the last one for a name counting *)
Definition settings (kvs : list (string * string)) : gmap string string :=
  foldl (λ cfg kv, <[fst kv := snd kv]> cfg) ∅ kvs.

Lemma each_config_row kvs (cfg : gmap string string) :
  each_row (scan2 scan_string scan_string) (λ '(key, value) cfg, Ok (<[key := value]> cfg)) (config_row <$> kvs) cfg =
  Ok (foldl (λ cfg kv, <[fst kv := snd kv]> cfg) cfg kvs).
Proof. revert cfg. induction kvs as [|[k x] kvs IH]; intros cfg; [done|]. apply IH. Qed.

Lemma split_colon_app user secret : Contains user ":" = false → split_colon (user +:+ ":" +:+ secret) = (user, Some secret).
Proof.
  induction user as [|c user IH]; [done|]. simpl in *. intros [Hc Hu]%orb_false_iff.
  rewrite bool_decide_eq_false_2, IH; [done..|].
  intros ->. by destruct user.
Qed.

Lemma TrimSuffix_none s suf : HasSuffix s suf = false → TrimSuffix s suf = s.
Proof.
  induction s as [|c s IH]; simpl; intros [Hs Hr]%orb_false_iff; rewrite Hs; [done|]. by rewrite IH.
Qed.

Section communal.
Context `{GenEnv}.

Lemma keeps_communal x : Forall (keeps (λ d, com_part d = x)) (drop 8 collectors).
Proof. simpl. repeat apply Forall_cons_2; try apply Forall_nil_2; intros d d' Hd; by collector_keeps d. Qed.

Lemma keeps_path x : Forall (keeps (λ d, com_Path (spec_Communal (gen_spec d)) = x)) (drop 4 collectors).
Proof.
  simpl. repeat apply Forall_cons_2; try apply Forall_nil_2; intros d d' Hd.
  4: { intros [data Ha]%azure_keeps. unfold gen_spec in *. by rewrite Ha. }
  all: by collector_keeps d.
Qed.

Lemma path_kept k d d' :
  run_collectors (drop k (drop 4 collectors)) d = Ret (Ok d') →
  com_Path (spec_Communal (gen_spec d)) = com_Path (spec_Communal (gen_spec d')).
Proof.
  intros Hr. symmetry. revert Hr.
  apply (keeps_run (λ x, com_Path (spec_Communal (gen_spec x)) = com_Path (spec_Communal (gen_spec d)))); [|done].
  apply Forall_drop, keeps_path.
Qed.

(** The steps around the settings of a storage in S3 or Google Cloud *)
Lemma Create_communal o objs kvs fail :
  Create (make_DBGenerator o) = Ret (Ok objs) → gen_query DBCfgQuery None = Ok (MkRows (config_row <$> kvs) fail) →
  IsAzure (ko_Vdb objs) = false →
  ∃ d d1 d2 d3, objs = Objs d ∧ DBCfg d1 = settings kvs ∧ setCommunalEndpointAWS d1 = Ret (Ok d2) ∧
    setCommunalEndpointGCloud d2 = Ret (Ok d3) ∧ com_part d = com_part d3 ∧
    com_Path (spec_Communal (gen_spec d1)) = com_Path (spec_Communal (gen_spec d)) ∧
    com_Path (spec_Communal (gen_spec d2)) = com_Path (spec_Communal (gen_spec d)).
Proof.
  intros Hr Hq Haz.
  destruct (Create_around (take 4 collectors) fetchDatabaseConfig (drop 5 collectors) o objs Hr eq_refl)
    as (d & d0 & d1 & -> & _ & Hf & Hrest).
  change (drop 5 collectors) with
    (setCommunalEndpointAWS :: setCommunalEndpointGCloud :: setCommunalEndpointAzure :: drop 8 collectors) in Hrest.
  pose proof (path_kept 1 d1 d Hrest) as P1.
  apply (run_collectors_app []) in Hrest as (d1' & d2 & [= <-] & Haws & Hrest).
  pose proof (path_kept 2 d2 d Hrest) as P2.
  apply (run_collectors_app []) in Hrest as (d2' & d3 & [= <-] & Hgc & Hrest).
  pose proof (path_kept 3 d3 d Hrest) as P3.
  apply (run_collectors_app []) in Hrest as (d3' & d4 & [= <-] & Ha & Hrest).
  apply (keeps_run _ _ (keeps_communal (com_part d4))) in Hrest; [|done].
  unfold setCommunalEndpointAzure, IsAzure in *. unfold gen_spec in P3. rewrite P3, Haz in Ha. injection Ha as ->.
  exists d, d1, d2, d4. split_and!; try done.
  unfold fetchDatabaseConfig in Hf. rewrite Hq in Hf. cbn [rows_data] in Hf. rewrite each_config_row in Hf.
  by injection Hf as <-.
Qed.

Lemma Generic_result hk ek ak rk d d' value endpoint user secret region :
  DBCfg d !! hk = Some value → DBCfg d !! ek = Some endpoint → DBCfg d !! ak = Some (user +:+ ":" +:+ secret) →
  DBCfg d !! rk = Some region → Contains user ":" = false →
  setCommunalEndpointGeneric hk ek ak rk d = Ret (Ok d') →
  com_part d' = (com_Path (spec_Communal (gen_spec d)),
    (if bool_decide (value = "0") then "http" else "https") +:+ "://" +:+ endpoint, region,
    {[CommunalAccessKeyName := user; CommunalSecretKeyName := secret]}).
Proof.
  intros H1 H2 H3 H4 Hu. unfold setCommunalEndpointGeneric. rewrite H1, H2, H3, H4, split_colon_app by done.
  intros [= <-]. by split_generator d.
Qed.

End communal.

(** The names of the settings for a storage in S3 or Google Cloud *)
Definition storage_keys (v : VerticaDB) : option (string * string * string * string) :=
  if IsS3 v then Some ("AWSEnableHttps", "AWSEndpoint", "AWSAuth", "AWSRegion")
  else if IsGCloud v then Some ("GCSEnableHttps", "GCSEndpoint", "GCSAuth", "GCSRegion") else None.

Lemma one_storage v k : storage_keys v = Some k → IsAzure v = false ∧ (IsS3 v = true → IsGCloud v = false).
Proof.
  unfold storage_keys, IsAzure, IsS3, IsGCloud. intros Hk.
  destruct (HasPrefix _ S3Prefix) eqn:H1; [|destruct (HasPrefix _ GCloudPrefix) eqn:H2; [|done]].
  - by apply HasPrefix_spec in H1 as [t ->].
  - by apply HasPrefix_spec in H2 as [t ->].
Qed.

Lemma getCommunalEndpoint_url v (b : bool) e :
  com_Endpoint (spec_Communal (vdb_Spec v)) = (if b then "http" else "https") +:+ "://" +:+ e →
  HasSuffix e "/" = false →
  getCommunalEndpoint v = e ∧ getEnableHTTPS v = if b then "0" else "1".
Proof.
  unfold getCommunalEndpoint, getEnableHTTPS. intros -> He.
  destruct b; cbn [strip_protocol].
  - assert (HasPrefix ("http" +:+ "://" +:+ e) "http://" = true) as -> by by apply HasPrefix_spec; eexists.
    change (HasPrefix _ _) with false. split; [|done]. by apply TrimSuffix_none.
  - assert (HasPrefix ("https" +:+ "://" +:+ e) "https://" = true) as -> by by apply HasPrefix_spec; eexists.
    split; [|done]. by apply TrimSuffix_none.
Qed.

(** C27: Reading back what the operator configured: when the settings of a database
    in S3 or Google Cloud are the ones that the operator derives from a VerticaDB and
    its credentials (an access key without a colon, an endpoint that does not end
    in a slash), then the generated VerticaDB yields the same endpoint, protocol and region
    again, and the generated secret holds the two keys. *)
Theorem communal_roundtrip `{GenEnv} o objs kvs fail v accessKey secretKey hk ek ak rk region :
  Create (make_DBGenerator o) = Ret (Ok objs) → gen_query DBCfgQuery None = Ok (MkRows (config_row <$> kvs) fail) →
  storage_keys (ko_Vdb objs) = Some (hk, ek, ak, rk) →
  settings kvs !! hk = Some (getEnableHTTPS v) → settings kvs !! ek = Some (getCommunalEndpoint v) →
  settings kvs !! ak = Some (accessKey +:+ ":" +:+ secretKey) → settings kvs !! rk = Some region →
  (∀ parm, getRegion v parm = parm +:+ " = " +:+ region) → region ≠ "" →
  Contains accessKey ":" = false → HasSuffix (getCommunalEndpoint v) "/" = false →
  getEnableHTTPS (ko_Vdb objs) = getEnableHTTPS v ∧ getCommunalEndpoint (ko_Vdb objs) = getCommunalEndpoint v ∧
  (∀ parm, getRegion (ko_Vdb objs) parm = getRegion v parm) ∧
  gs_Data (CredSecret objs) = {[CommunalAccessKeyName := accessKey; CommunalSecretKeyName := secretKey]}.
Proof.
  intros Hr Hq Hk H1 H2 H3 H4 Hreg Hne Hc Hs.
  assert (com_Endpoint (spec_Communal (vdb_Spec (ko_Vdb objs))) =
            (if bool_decide (getEnableHTTPS v = "0") then "http" else "https") +:+ "://" +:+ getCommunalEndpoint v ∧
          com_Region (spec_Communal (vdb_Spec (ko_Vdb objs))) = region ∧
          gs_Data (CredSecret objs) = {[CommunalAccessKeyName := accessKey; CommunalSecretKeyName := secretKey]})
    as (He & Hrg & Hd).
  2: { destruct (getCommunalEndpoint_url _ _ _ He Hs) as [-> ->]. split_and!; [|done| |done].
       - unfold getEnableHTTPS. by destruct (HasPrefix _ _).
       - intros parm. rewrite Hreg. unfold getRegion. rewrite Hrg. by rewrite bool_decide_eq_false_2. }
  destruct (Create_communal o objs kvs fail Hr Hq) as (d & d1 & d2 & d3 & -> & Hcfg & Ha & Hg & Hp & P1 & P2).
  - by eapply one_storage.
  - rewrite <- Hcfg in H1, H2, H3, H4. destruct (one_storage _ _ Hk) as [_ Ho]. unfold storage_keys in Hk.
    unfold setCommunalEndpointAWS, setCommunalEndpointGCloud, IsS3, IsGCloud in *. unfold gen_spec in P1, P2.
    rewrite P1 in Ha. rewrite P2 in Hg. unfold com_part, gen_spec in Hp. injection Hp as Hp1 Hp2 Hp3 Hp4.
    rewrite Hp2, Hp3, Hp4. clear Hp1 Hp2 Hp3 Hp4.
    destruct (HasPrefix _ S3Prefix); [|destruct (HasPrefix _ GCloudPrefix); [|done]]; simplify_eq; simpl in *.
    + rewrite Ho in Hg by done. injection Hg as <-.
      apply (Generic_result _ _ _ _ _ _ _ _ _ _ _ H1 H2 H3 H4 Hc) in Ha. by injection Ha.
    + injection Ha as <-. apply (Generic_result _ _ _ _ _ _ _ _ _ _ _ H1 H2 H3 H4 Hc) in Hg. by injection Hg.
Qed.

(** A VerticaDB with the settings of the example *)
Definition demo_s3 : VerticaDB :=
  set_spec MakeVDB (with_Communal (MkCommunalStorage "s3://nimbusdb/db" false "http://minio:9000/" "s3-auth" "" "" "" "" "")
    (vdb_Spec MakeVDB)).

Lemma communal_roundtrip_witness :
  getCommunalEndpoint (ko_Vdb demo_objs) = "minio:9000" ∧
  gs_Data (CredSecret demo_objs) = {[CommunalAccessKeyName := "user"; CommunalSecretKeyName := "pass"]}.
Proof.
  pose proof (@communal_roundtrip demo_gen demo_options demo_objs demo_config false demo_s3 "user" "pass"
    "AWSEnableHttps" "AWSEndpoint" "AWSAuth" "AWSRegion" "us-east-1" demo_created eq_refl
    ltac:(vm_compute; reflexivity) ltac:(vm_compute; reflexivity) ltac:(vm_compute; reflexivity)
    ltac:(vm_compute; reflexivity) ltac:(vm_compute; reflexivity) (λ parm, eq_refl) ltac:(discriminate)
    ltac:(vm_compute; reflexivity) ltac:(vm_compute; reflexivity)) as (_ & He & _ & Hs).
  split; [exact He|exact Hs].
Defined.
