(* ===== verification/AzureSpec.v ===== *)
(** * Credentials for Azure

    The operator writes the credentials for a storage in Azure as JSON into the
    parameters of the database, and the generator reads them back: what of it
    survives the round trip. *)

From Stdlib Require Import Ascii.
From stdpp Require Import base gmap strings pretty sorting numbers list.
From S2P Require Import Prelude GoStrings GoRegexp GoJson K8s Types Webhook KObjects Effects Builder ObjRec InitDB VdbGen VdbGenSpec.

(** ** Plain strings: printable ASCII without quotes and backslashes *)

Definition plain_char (c : ascii) : bool :=
  in_byte 32 127 c && negb (bool_decide (c = "034"%char)) && negb (bool_decide (c = "\"%char)).

Definition plain (s : string) : Prop := Forall (λ c, plain_char c = true) (String.list_ascii_of_string s).

#[global] Instance plain_decision s : Decision (plain s).
Proof. unfold plain. apply _. Defined.

Lemma parse_chars_plain s r : plain s → parse_chars (s +:+ dquote +:+ r) = Some (s, r).
Proof.
  unfold plain. induction s as [|c s IH]; simpl; [done|]. intros [Hc Hs]%Forall_cons.
  unfold plain_char, in_byte in Hc. rewrite !andb_true_iff, !negb_true_iff, !bool_decide_eq_false in Hc.
  destruct Hc as [[[Hlo%Nat.leb_le Hhi%Nat.leb_le] Hq] Hb].
  rewrite (bool_decide_eq_false_2 _ Hq), (bool_decide_eq_false_2 _ Hb).
  rewrite (proj2 (Nat.ltb_ge _ _)) by lia. rewrite (proj2 (Nat.ltb_lt _ _)) by lia.
  change (parse_chars _) with (parse_chars (s +:+ dquote +:+ r)). by rewrite (IH Hs).
Qed.

(** ** The text of an object *)

Definition member_text (m : string * string) : string :=
  dquote +:+ fst m +:+ dquote +:+ ": " +:+ dquote +:+ snd m +:+ dquote.

Definition members_text (ms : list (string * string)) : string := Join (member_text <$> ms) ",".

Definition nonempty (ms : list (string * string)) : list (string * string) := filter (λ m, snd m ≠ "") ms.

Lemma nonempty_app l k : nonempty (l ++ k) = nonempty l ++ nonempty k.
Proof. apply filter_app. Qed.

Lemma Join_snoc l w sep : Join (l ++ [w]) sep = (if bool_decide (l = []) then w else Join l sep +:+ sep +:+ w).
Proof.
  induction l as [|x l IH]; [done|]. rewrite bool_decide_eq_false_2 by done.
  destruct l as [|y l]; [done|]. rewrite bool_decide_eq_false_2 in IH by done.
  change (Join ((x :: y :: l) ++ [w]) sep) with (x +:+ sep +:+ Join ((y :: l) ++ [w]) sep). rewrite IH.
  change (Join (x :: y :: l) sep) with (x +:+ sep +:+ Join (y :: l) sep). by rewrite !str_app_assoc.
Qed.

Definition text_so_far (ms : list (string * string)) : string * string :=
  ("[{" +:+ members_text ms, if bool_decide (ms = []) then "" else ",").

Lemma json_element_text ms name value :
  json_element name value (text_so_far ms) = text_so_far (ms ++ nonempty [(name, value)]).
Proof.
  unfold json_element, nonempty, text_so_far. rewrite filter_cons, filter_nil. simpl.
  case_bool_decide as Hv; case_decide as Hd; try done; [by rewrite app_nil_r|].
  rewrite (bool_decide_eq_false_2 (ms ++ _ = [])) by by destruct ms.
  f_equal. unfold members_text. rewrite fmap_app. simpl. rewrite Join_snoc.
  destruct ms as [|m ms]; [done|]. rewrite !bool_decide_eq_false_2 by done. done.
Qed.

Lemma azureCredsJSON_text c :
  azureCredsJSON c = "[{" +:+ members_text (nonempty
    [("accountName", ac_AccountName c); ("blobEndpoint", ac_BlobEndpoint c); ("accountKey", ac_AccountKey c);
     ("sharedAccessSignature", ac_SharedAccessSignature c)]) +:+ "}]".
Proof.
  unfold azureCredsJSON. change ("[{", "") with (text_so_far (nonempty [])). rewrite !json_element_text.
  rewrite <- !nonempty_app. unfold text_so_far. cbn [fst]. by rewrite str_app_assoc.
Qed.

Lemma azureConfigJSON_text c :
  azureConfigJSON c = "[{" +:+ members_text (nonempty
    [("accountName", ae_AccountName c); ("blobEndpoint", ae_BlobEndpoint c); ("protocol", ae_Protocol c)]) +:+ "}]".
Proof.
  unfold azureConfigJSON. change ("[{", "") with (text_so_far (nonempty [])). rewrite !json_element_text.
  rewrite <- !nonempty_app. unfold text_so_far. cbn [fst]. by rewrite str_app_assoc.
Qed.

(** ** Reading it back *)

Definition plain_member (m : string * string) : Prop := plain (fst m) ∧ plain (snd m).

Definition string_members (ms : list (string * string)) : list (string * json) := prod_map id JString <$> ms.

Lemma parse_member fuel depth m r :
  plain_member m →
  parse_members (S (S fuel)) depth (member_text m +:+ r) =
  match eat "," r with
  | Some r => '(l, r) ← parse_members (S fuel) depth r; Some ((fst m, JString (snd m)) :: l, r)
  | None => r ← eat "}" r; Some ([(fst m, JString (snd m))], r)
  end.
Proof.
  intros [Hk Hv]. destruct m as [k v]. unfold member_text. cbn [fst snd] in *. rewrite !str_app_assoc.
  transitivity ('(k', r1) ← parse_chars (k +:+ dquote +:+ ": " +:+ dquote +:+ v +:+ dquote +:+ r);
    r1 ← eat ":" r1; '(v', r1) ← parse_value (S fuel) depth r1;
    match eat "," r1 with
    | Some r => '(l, r) ← parse_members (S fuel) depth r; Some ((k', v') :: l, r)
    | None => r ← eat "}" r1; Some ([(k', v')], r)
    end); [done|].
  rewrite parse_chars_plain by done. cbn [mbind option_bind].
  change (eat ":" _) with (Some (" " +:+ dquote +:+ v +:+ dquote +:+ r)). cbn [mbind option_bind].
  transitivity ('(v', r1) ← ('(w, r2) ← parse_chars (v +:+ dquote +:+ r); Some (JString w, r2));
    match eat "," r1 with
    | Some r => '(l, r) ← parse_members (S fuel) depth r; Some ((k, v') :: l, r)
    | None => r ← eat "}" r1; Some ([(k, v')], r)
    end); [done|].
  by rewrite parse_chars_plain by done.
Qed.

Lemma parse_members_text fuel depth m ms r :
  Forall plain_member (m :: ms) →
  parse_members (2 + length ms + fuel) depth (members_text (m :: ms) +:+ "}" +:+ r) = Some (string_members (m :: ms), r).
Proof.
  revert m. induction ms as [|m' ms IH]; intros m [Hm Hms]%Forall_cons.
  - unfold members_text. simpl Join. change (2 + length [] + fuel) with (S (S fuel)). rewrite parse_member by done.
    by destruct m.
  - change (members_text (m :: m' :: ms)) with (member_text m +:+ "," +:+ members_text (m' :: ms)).
    rewrite !str_app_assoc. change (2 + length (m' :: ms) + fuel) with (S (S (1 + length ms + fuel))).
    rewrite parse_member by done. change (eat "," _) with (Some (members_text (m' :: ms) +:+ "}" +:+ r)). cbv iota beta.
    change (S (1 + length ms + fuel)) with (2 + length ms + fuel). rewrite IH by done. by destruct m.
Qed.

(** One object in an array *)
Lemma parse_object ms :
  Forall plain_member ms → parse_json ("[{" +:+ members_text ms +:+ "}]") = Some (JArray [JObject (string_members ms)]).
Proof.
  intros Hms. destruct ms as [|m ms]; [done|]. unfold parse_json. set (t := "[{" +:+ _).
  set (fuel := 2 + length ms + (String.length t + String.length t)).
  rewrite <- (parse_value_fuel t (3 + fuel)) by (unfold fuel; lia).
  assert (parse_value (3 + fuel) 0 t =
    '(l, r) ← ('(v, r) ← ('(l, r) ← parse_members fuel 2 (members_text (m :: ms) +:+ "}" +:+ "]"); Some (JObject l, r));
      match eat "," r with
      | Some r => '(l, r) ← parse_elements (1 + fuel) 1 r; Some (v :: l, r)
      | None => r ← eat "]" r; Some ([v], r)
      end); Some (JArray l, r)) as ->.
  { clearbody fuel. subst t. assert (∃ x, members_text (m :: ms) = dquote +:+ x) as [x ->].
    { unfold members_text, member_text. destruct ms; eexists; simpl; [|rewrite str_app_assoc]; reflexivity. }
    reflexivity. }
  unfold fuel. by rewrite parse_members_text.
Qed.

Lemma nonempty_plain ms : Forall plain_member ms → Forall plain_member (nonempty ms).
Proof. rewrite !Forall_forall. intros Hall m [_ Hm]%list_elem_of_filter. by apply Hall. Qed.

Lemma creds_roundtrip c :
  plain (ac_AccountName c) → plain (ac_BlobEndpoint c) → plain (ac_AccountKey c) → plain (ac_SharedAccessSignature c) →
  Unmarshal azure_cred_fields zero_AzureCredential (azureCredsJSON c) = Some [c].
Proof.
  intros H1 H2 H3 H4. unfold Unmarshal. rewrite azureCredsJSON_text, parse_object.
  - destruct c as [a b k s]. unfold nonempty, string_members. simpl in *. rewrite !filter_cons, filter_nil. simpl.
    repeat case_decide; subst; reflexivity.
  - by apply nonempty_plain; repeat constructor.
Qed.

Lemma config_roundtrip c :
  plain (ae_AccountName c) → plain (ae_BlobEndpoint c) → plain (ae_Protocol c) → ae_IsMultiAccountEndpoint c = false →
  Unmarshal azure_config_fields zero_AzureEndpointConfig (azureConfigJSON c) = Some [c].
Proof.
  intros H1 H2 H3 H4. unfold Unmarshal. rewrite azureConfigJSON_text, parse_object.
  - destruct c as [a b p m]. unfold nonempty, string_members. simpl in *. subst m. rewrite !filter_cons, filter_nil. simpl.
    repeat case_decide; subst; reflexivity.
  - by apply nonempty_plain; repeat constructor.
Qed.

(** ** The protocol of an endpoint *)

Lemma find_submatch_prefix r s caps : match_prefix r s = Some caps → find_submatch r s = Some caps.
Proof. intros Hm. destruct s; simpl; by rewrite Hm. Qed.

Lemma match_prefix_lang r s : is_Some (match_prefix r s) ↔ ∃ u v, s = u +:+ v ∧ lang r u.
Proof.
  unfold match_prefix. assert (succeeds_on (λ _ caps, Some caps) (λ _, True)) as Hk by by intros s' caps; split.
  pose proof (rmatch_defined r _ _ Hk s []) as H. simpl in H. rewrite H. unfold then_lang. naive_solver.
Qed.

(** The pattern only matches where a lower case letter is, and needs a slash. *)
Definition url_like (r : re) : Prop :=
  (∀ c s, is_lower c = false → match_prefix r (String c s) = None) ∧
  (∀ w, lang r w → "/"%char ∈ String.list_ascii_of_string w).

Lemma url_like_none r a h :
  url_like r → all_bytes (λ c, negb (is_lower c)) a → "/"%char ∉ String.list_ascii_of_string h →
  find_submatch r (a +:+ h) = None.
Proof.
  intros [Hlow Hsl] Ha Hh. unfold all_bytes in Ha. induction a as [|c a IH]; simpl in *.
  - induction h as [|c h IH]; simpl in *.
    all: destruct (match_prefix r _) as [caps|] eqn:Hm.
    + assert (is_Some (match_prefix r "")) as (u & v & Hu & Hw%Hsl)%match_prefix_lang by by eexists.
      by destruct u.
    + done.
    + assert (is_Some (match_prefix r (String c h))) as (u & v & Hu & Hw%Hsl)%match_prefix_lang by by eexists.
      apply (f_equal String.list_ascii_of_string) in Hu. rewrite list_ascii_app in Hu. simpl in Hu.
      destruct Hh. rewrite Hu. apply elem_of_app. by left.
    + apply IH. intros Hin. apply Hh. by right.
  - apply Forall_cons in Ha as [Hc%negb_true_iff Ha]. rewrite Hlow by done. by apply IH.
Qed.

Lemma url_like_protocol : url_like protocol_re.
Proof.
  split.
  - intros c s Hc. unfold match_prefix, protocol_re. simpl. by rewrite Hc.
  - intros w (u & v & -> & _ & (x & y & -> & _ & z & t & -> & (c & -> & Hc) & _)). rewrite !list_ascii_app.
    apply bool_decide_eq_true in Hc as ->. apply elem_of_app. right. apply elem_of_app. right. by left.
Qed.

Lemma url_like_endpoint : url_like endpoint_re.
Proof.
  split.
  - intros c s Hc. unfold match_prefix, endpoint_re, protocol_re. simpl. by rewrite Hc.
  - intros w (u & v & -> & Hu & _). apply url_like_protocol in Hu. rewrite list_ascii_app. apply elem_of_app. by left.
Qed.

Lemma protocol_found p h :
  p ≠ "" → all_bytes is_lower p → find_submatch protocol_re (p +:+ "://" +:+ h) = Some [(1, p)].
Proof.
  intros Hne Hp. apply find_submatch_prefix.
  apply (rmatch_group_run 1 is_lower p ("://" +:+ h) []); [done..|]. reflexivity.
Qed.

Lemma endpoint_found p h :
  p ≠ "" → all_bytes is_lower p → all_bytes any_byte h →
  find_submatch endpoint_re (p +:+ "://" +:+ h) = Some [(2, h); (1, p)].
Proof.
  intros Hne Hp Hh. apply find_submatch_prefix.
  apply (rmatch_group_run 1 is_lower p ("://" +:+ h) []); [done..|].
  transitivity (star_set any_byte h [(1, p)] (λ s' caps', Some ((2, consumed h s') :: caps'))).
  { rewrite <- rmatch_star_set. reflexivity. }
  rewrite <- (str_app_nil_r h) at 1. apply star_set_run; [done..|].
  rewrite <- (str_app_nil_r h) at 1. by rewrite consumed_app.
Qed.

Lemma ToUpper_not_lower s : all_bytes (λ c, negb (is_lower c)) (ToUpper s).
Proof.
  unfold all_bytes. induction s as [|c s IH]; simpl; constructor; [|done]. unfold upper_byte.
  destruct (is_lower c) eqn:Hc; [|by rewrite Hc].
  destruct c as [[] [] [] [] [] [] [] []]; vm_compute in Hc |- *; done.
Qed.

(** What the operator takes from a secret with credentials for Azure *)
Definition azure_auth (data : gmap string string) : option (AzureCredential * AzureEndpointConfig) :=
  let name := data !! AzureAccountName in
  let raw := data !! AzureBlobEndpoint in
  let key := data !! AzureAccountKey in
  let sas := data !! AzureSharedAccessSignature in
  let host := default "" (getEndpointHostPort <$> raw) in
  if bool_decide (name = None) && bool_decide (raw = None) then None
  else if Bool.eqb (bool_decide (key = None)) (bool_decide (sas = None)) then None
  else Some (MkAzureCredential (default "" name) host (default "" key) (default "" sas),
             MkAzureEndpointConfig (default "" name) host (getEndpointProtocol (default "" raw)) false).

Lemma getAzureAuth_spec `{Env} v t secret res :
  fst (getCommunalCredsSecret v t) = (secret, (res, None)) → IsReconcileAborted res None = false →
  fst (getAzureAuth v t) =
    match azure_auth (secret_Data secret) with
    | Some auth => (auth, (no_requeue, None))
    | None => (zero_AzureCredential, zero_AzureEndpointConfig, (requeue, None))
    end.
Proof.
  intros Hs Ha. unfold getAzureAuth, mbind, M_bind. destruct (getCommunalCredsSecret v t) as [x t1]. simpl in Hs. subst x.
  rewrite Ha. unfold azure_auth. destruct (_ && _); [done|]. destruct (Bool.eqb _ _); [done|]. simpl.
  by destruct (secret_Data secret !! AzureBlobEndpoint).
Qed.

Definition entry (value test : string) : option string := if bool_decide (test = "") then None else Some value.

Lemma azure_data_lookup cred blob :
  azure_data cred blob !! AzureAccountName = entry (ac_AccountName cred) (ac_AccountName cred) ∧
  azure_data cred blob !! AzureBlobEndpoint = entry blob (ac_BlobEndpoint cred) ∧
  azure_data cred blob !! AzureAccountKey = entry (ac_AccountKey cred) (ac_AccountKey cred) ∧
  azure_data cred blob !! AzureSharedAccessSignature =
    entry (ac_SharedAccessSignature cred) (ac_SharedAccessSignature cred).
Proof. unfold azure_data, add_entry, entry. repeat case_bool_decide; simpl; split_and!; by simplify_map_eq. Qed.

Lemma pick_one {A} (f : A → string) c d :
  op_AzureAccountName (Opts d) = "" ∨ op_AzureAccountName (Opts d) = f c →
  ∃ d', pick_account f [c] d = Ok (d', Some c) ∧ Objs d' = Objs d ∧ DBCfg d' = DBCfg d ∧
    op_AzureAccountName (Opts d') = f c.
Proof.
  intros Hop. unfold pick_account. rewrite (bool_decide_eq_true_2 ([] = [])) by done. simpl.
  case_bool_decide as Hd; simpl.
  - rewrite decide_True by done. by eexists.
  - destruct Hop as [|Hop]; [done|]. rewrite decide_True by done. by eexists.
Qed.

(** The secret that the generator makes of the parameters *)
Lemma azure_generated `{GenEnv} d cred cfg :
  IsAzure (ko_Vdb (Objs d)) = true → op_AzureAccountName (Opts d) = "" →
  DBCfg d !! "AzureStorageCredentials" = Some (azureCredsJSON cred) →
  DBCfg d !! "AzureStorageEndpointConfig" = Some (azureConfigJSON cfg) →
  plain (ac_AccountName cred) → plain (ac_BlobEndpoint cred) → plain (ac_AccountKey cred) →
  plain (ac_SharedAccessSignature cred) → plain (ae_Protocol cfg) → ae_Protocol cfg ≠ "" →
  ae_AccountName cfg = ac_AccountName cred → ae_BlobEndpoint cfg = ac_BlobEndpoint cred →
  ae_IsMultiAccountEndpoint cfg = false →
  ∃ d', setCommunalEndpointAzure d = Ret (Ok d') ∧
    gs_Data (CredSecret (Objs d')) = azure_data cred (ae_Protocol cfg +:+ "://" +:+ ac_BlobEndpoint cred).
Proof.
  intros Haz Hop Hc He P1 P2 P3 P4 P5 Hne Hn Hb Hm.
  unfold setCommunalEndpointAzure. rewrite Haz, Hc. cbn [negb]. unfold extractAzureCredential.
  rewrite creds_roundtrip by done.
  destruct (pick_one ac_AccountName cred d) as (d1 & -> & HO1 & HC1 & Hop1); [by left|]. rewrite HC1, He.
  unfold extractAzureEndpointConfig. rewrite config_roundtrip by (by rewrite ?Hn, ?Hb).
  destruct (pick_one ae_AccountName cfg d1) as (d2 & -> & HO2 & HC2 & Hop2); [right; congruence|].
  rewrite bool_decide_eq_false_2 by done. by eexists.
Qed.

(** ** Examples: an account with a key, and a blob endpoint with a signature *)

Definition key_secret : gmap string string := {[AzureAccountName := "myacc"; AzureAccountKey := "key=="]}.

Definition sas_secret : gmap string string :=
  {[AzureBlobEndpoint := "http://azurite:10000"; AzureSharedAccessSignature := "sv=2021&sig=x"]}.

Definition auth_of (data : gmap string string) : AzureCredential * AzureEndpointConfig :=
  default (zero_AzureCredential, zero_AzureEndpointConfig) (azure_auth data).

(** A generator that has read the parameters that the operator writes for a secret *)
Definition azure_generator (data : gmap string string) : DBGenerator :=
  set_DBCfg (upd_communal (λ c, set_com_Path c "azb://nimbusdb/db") (make_DBGenerator demo_options))
    {["AzureStorageCredentials" := azureCredsJSON (fst (auth_of data));
      "AzureStorageEndpointConfig" := azureConfigJSON (snd (auth_of data))]}.

(** ** Properties *)

(** What the operator configures for a storage in Azure can be read back: from
    the parameters that it writes for a secret without a blob endpoint, whose values
    are printable ASCII without quotes and backslashes, the generator makes a secret from
    which the operator takes the same credential and the same endpoint configuration. *)
Theorem azure_roundtrip `{GenEnv} d data cred cfg :
  azure_auth data = Some (cred, cfg) → data !! AzureBlobEndpoint = None →
  plain (ac_AccountName cred) → plain (ac_AccountKey cred) → plain (ac_SharedAccessSignature cred) →
  ac_AccountName cred ≠ "" → ac_AccountKey cred ≠ "" ∨ ac_SharedAccessSignature cred ≠ "" →
  IsAzure (ko_Vdb (Objs d)) = true → op_AzureAccountName (Opts d) = "" →
  DBCfg d !! "AzureStorageCredentials" = Some (azureCredsJSON cred) →
  DBCfg d !! "AzureStorageEndpointConfig" = Some (azureConfigJSON cfg) →
  ∃ d', setCommunalEndpointAzure d = Ret (Ok d') ∧ azure_auth (gs_Data (CredSecret (Objs d'))) = Some (cred, cfg).
Proof.
  intros Ha Hraw P1 P3 P4 Hn Hk Haz Hop Hc He. unfold azure_auth in Ha. rewrite Hraw in Ha. simpl in Ha.
  destruct (_ && _); [done|]. destruct (Bool.eqb _ _) eqn:Hb; [done|]. simplify_eq. simpl in *.
  edestruct azure_generated as (d' & -> & Hd); [exact Haz|exact Hop|exact Hc|exact He|try done..|];
    [by constructor|by repeat constructor|].
  exists d'. split; [done|]. rewrite Hd. unfold azure_auth.
  edestruct azure_data_lookup as (-> & -> & -> & ->). unfold entry. simpl.
  rewrite (bool_decide_eq_false_2 _ Hn). simpl. clear Hd Hc He.
  destruct (data !! AzureAccountKey) as [k|], (data !! AzureSharedAccessSignature) as [sg|]; try done; simpl in *.
  - destruct Hk as [Hk|]; [|done]. by rewrite (bool_decide_eq_false_2 _ Hk).
  - destruct Hk as [|Hk]; [done|]. by rewrite (bool_decide_eq_false_2 _ Hk).
Qed.

Lemma azure_roundtrip_witness :
  ∃ d', setCommunalEndpointAzure (azure_generator key_secret) = Ret (Ok d') ∧
    azure_auth (gs_Data (CredSecret (Objs d'))) =
      Some (MkAzureCredential "myacc" "" "key==" "", MkAzureEndpointConfig "myacc" "" "HTTPS" false).
Proof.
  exact (@azure_roundtrip demo_gen (azure_generator key_secret) key_secret (MkAzureCredential "myacc" "" "key==" "")
    (MkAzureEndpointConfig "myacc" "" "HTTPS" false) ltac:(vm_compute; reflexivity) ltac:(vm_compute; reflexivity)
    ltac:(by repeat constructor) ltac:(by repeat constructor) ltac:(by repeat constructor) ltac:(discriminate)
    ltac:(left; discriminate) ltac:(vm_compute; reflexivity) ltac:(vm_compute; reflexivity)
    ltac:(vm_compute; reflexivity) ltac:(vm_compute; reflexivity)).
Defined.

Lemma no_slash_suffix h : "/"%char ∉ String.list_ascii_of_string h → HasSuffix h "/" = false.
Proof.
  intros Hh. apply not_true_iff_false. intros [t ->]%HasSuffix_spec. destruct Hh. rewrite list_ascii_app.
  apply elem_of_app. right. by left.
Qed.

Lemma plain_any_byte h : plain h → all_bytes any_byte h.
Proof.
  unfold plain, all_bytes. intros Hh. eapply Forall_impl; [exact Hh|]. intros c Hc.
  destruct c as [[] [] [] [] [] [] [] []]; vm_compute in Hc |- *; done.
Qed.

Lemma ToUpper_plain p : all_bytes is_lower p → plain (ToUpper p).
Proof.
  unfold plain, all_bytes. induction p as [|c p IH]; simpl; intros Hp; constructor.
  - apply Forall_cons in Hp as [Hc _]. destruct c as [[] [] [] [] [] [] [] []]; vm_compute in Hc |- *; done.
  - apply Forall_cons in Hp as [_ Hp]. by apply IH.
Qed.

Lemma all_bytes_app_2 p a b : all_bytes p a → all_bytes p b → all_bytes p (a +:+ b).
Proof. unfold all_bytes. rewrite list_ascii_app, Forall_app. done. Qed.

(** The operator does not recognise an endpoint with a protocol in upper case. *)
Lemma upper_endpoint p h :
  "/"%char ∉ String.list_ascii_of_string h →
  getEndpointHostPort (ToUpper p +:+ "://" +:+ h) = ToUpper p +:+ "://" +:+ h ∧
  getEndpointProtocol (ToUpper p +:+ "://" +:+ h) = AzureDefaultProtocol.
Proof.
  intros Hh. assert (all_bytes (λ c, negb (is_lower c)) (ToUpper p +:+ "://")) as Hup.
  { apply all_bytes_app_2; [apply ToUpper_not_lower|by repeat constructor]. }
  rewrite <- str_app_assoc. unfold getEndpointHostPort, getEndpointProtocol.
  rewrite (url_like_none _ _ _ url_like_protocol Hup Hh), (url_like_none _ _ _ url_like_endpoint Hup Hh).
  by case_bool_decide.
Qed.

Lemma lower_endpoint p h :
  p ≠ "" → all_bytes is_lower p → all_bytes any_byte h → "/"%char ∉ String.list_ascii_of_string h →
  getEndpointHostPort (p +:+ "://" +:+ h) = h ∧ getEndpointProtocol (p +:+ "://" +:+ h) = ToUpper p.
Proof.
  intros Hne Hp Hany Hh. unfold getEndpointHostPort, getEndpointProtocol.
  rewrite protocol_found, endpoint_found by done. rewrite bool_decide_eq_false_2 by by destruct p. simpl.
  split; [|done]. by apply TrimSuffix_none, no_slash_suffix.
Qed.

(** C28: A blob endpoint does not survive the round trip.  For a secret with the
    endpoint [proto://host] the operator sets up the host with the protocol in upper
    case; the generator writes these as the endpoint [PROTO://host]; and from this
    the operator takes no protocol, so the default, and the whole text as the host. *)
Theorem azure_endpoint_lost `{GenEnv} d data cred cfg proto host :
  azure_auth data = Some (cred, cfg) → data !! AzureBlobEndpoint = Some (proto +:+ "://" +:+ host) →
  proto ≠ "" → all_bytes is_lower proto → host ≠ "" → plain host → "/"%char ∉ String.list_ascii_of_string host →
  plain (ac_AccountName cred) → plain (ac_AccountKey cred) → plain (ac_SharedAccessSignature cred) →
  ac_AccountKey cred ≠ "" ∨ ac_SharedAccessSignature cred ≠ "" →
  IsAzure (ko_Vdb (Objs d)) = true → op_AzureAccountName (Opts d) = "" →
  DBCfg d !! "AzureStorageCredentials" = Some (azureCredsJSON cred) →
  DBCfg d !! "AzureStorageEndpointConfig" = Some (azureConfigJSON cfg) →
  ac_BlobEndpoint cred = host ∧ ae_Protocol cfg = ToUpper proto ∧
  ∃ d' cred' cfg', setCommunalEndpointAzure d = Ret (Ok d') ∧
    azure_auth (gs_Data (CredSecret (Objs d'))) = Some (cred', cfg') ∧
    ac_BlobEndpoint cred' = ToUpper proto +:+ "://" +:+ host ∧ ae_Protocol cfg' = AzureDefaultProtocol.
Proof.
  intros Ha Hraw Hne Hlow Hhne Hhost Hsl P1 P3 P4 Hk Haz Hop Hc He.
  destruct (lower_endpoint proto host) as [L1 L2]; [by auto using plain_any_byte..|].
  destruct (upper_endpoint proto host Hsl) as [U1 U2].
  simpl in L1, L2, U1, U2.
  unfold azure_auth in Ha. rewrite Hraw in Ha. simpl in Ha. rewrite L1, L2 in Ha.
  destruct (_ && _); [done|]. destruct (Bool.eqb _ _) eqn:Hb; [done|]. simplify_eq. simpl in *.
  split_and!; [done..|].
  assert (ToUpper proto ≠ "") by by destruct proto.
  edestruct azure_generated as (d' & Hset & Hd); [exact Haz|exact Hop|exact Hc|exact He|simpl; auto using ToUpper_plain..|].
  exists d'. rewrite Hset, Hd. unfold azure_auth.
  edestruct azure_data_lookup as (-> & -> & -> & ->). unfold entry. simpl.
  rewrite (bool_decide_eq_false_2 _ Hhne). simpl. rewrite U1, U2. clear Hd Hc He.
  rewrite andb_false_r.
  destruct (data !! AzureAccountKey) as [k|], (data !! AzureSharedAccessSignature) as [sg|]; try done; simpl in *.
  - destruct Hk as [Hk|]; [|done]. rewrite (bool_decide_eq_false_2 _ Hk). by do 2 eexists.
  - destruct Hk as [|Hk]; [done|]. rewrite (bool_decide_eq_false_2 _ Hk). by do 2 eexists.
Qed.

Lemma azure_endpoint_lost_witness :
  ∃ d' cred' cfg', setCommunalEndpointAzure (azure_generator sas_secret) = Ret (Ok d') ∧
    azure_auth (gs_Data (CredSecret (Objs d'))) = Some (cred', cfg') ∧
    ac_BlobEndpoint cred' = "HTTP://azurite:10000" ∧ ae_Protocol cfg' = "HTTPS".
Proof.
  exact (proj2 (proj2 (@azure_endpoint_lost demo_gen (azure_generator sas_secret) sas_secret
    (MkAzureCredential "" "azurite:10000" "" "sv=2021&sig=x") (MkAzureEndpointConfig "" "azurite:10000" "HTTP" false)
    "http" "azurite:10000" ltac:(vm_compute; reflexivity) ltac:(vm_compute; reflexivity)
    ltac:(discriminate) ltac:(by repeat constructor) ltac:(discriminate) ltac:(by repeat constructor)
    ltac:(apply (bool_decide_unpack _); vm_compute; exact I)
    ltac:(by repeat constructor) ltac:(by repeat constructor) ltac:(by repeat constructor)
    ltac:(right; discriminate) ltac:(vm_compute; reflexivity) ltac:(vm_compute; reflexivity)
    ltac:(vm_compute; reflexivity) ltac:(vm_compute; reflexivity)))).
Defined.
