(* ===== verification/Exec.v ===== *)
(** * The runner of commands in pods

    The rest of [pkg/cmds/exec.go]: how a command becomes a POST request, and
    what is logged.  The client library and the API server are the class [Api].

    [Effects] has one call per command.  [replay] runs the runner for the
    commands of a trace, and [one_request_per_command] says that the requests are
    the commands of the trace, completed with the password, in their order, and that
    the operator's own commands get the password when they need it. *)

From stdpp Require Import base gmap strings pretty sorting numbers list.
From S2P Require Import Prelude GoStrings K8s Types KObjects Effects Labels Cmds Atconf PodFacts PodFactsSpec Builder BuilderSpec Restart RestartSpec Install Scaling ScalingSpec Frame Rules Tracks Controller ControllerSpec.

(** What is sent for a command: [PodExecOptions] and the standard input *)
Record exec_request : Type := MkRequest {
  rq_pod : NamespacedName;
  rq_container : string;
  rq_command : list string;
  rq_stdin : option string }.

Inductive entry : Type :=
| LogEntry (pod : NamespacedName) (command : string)
| Post (rq : exec_request)
| LogStream (pod : NamespacedName) (err : option string) (out err_out : string).

(** What the runner did so far, the latest first *)
Definition journal : Type := list entry.

Class Api := {
  api_clientset : journal → option string;
  api_executor : journal → exec_request → option string;
  api_stream : journal → exec_request → string * string * option string;
  open_file : journal → string → string + string }.

Definition J (A : Type) : Type := journal → A * journal.

#[global] Instance J_ret : MRet J := λ A a j, (a, j).
#[global] Instance J_bind : MBind J := λ A B f m j, let '(a, j) := m j in f a j.

Definition write (e : entry) : J () := λ j, ((), e :: j).
Definition look {A} (f : journal → A) : J A := λ j, (f j, j).

Record ClusterPodRunner : Type := MakeClusterPodRunner { SUPassword : string }.

Section runner.
Context `{Api} (c : ClusterPodRunner).

Definition postExec (podName : NamespacedName) (contName : string) (command : list string) (execIn : option string)
    : J exec_result :=
  _ ← write (LogEntry podName (logInfoCmd command));
  cli ← look api_clientset;
  match cli with
  | Some e => mret (MkExec "" "" (Some (ErrMsg ("could not get clientset: " +:+ e))))
  | None =>
      let req := MkRequest podName contName command execIn in
      exec ← look (λ j, api_executor j req);
      match exec with
      | Some e => mret (MkExec "" "" (Some (ErrMsg ("failed to init executor: " +:+ e))))
      | None =>
          r ← look (λ j, api_stream j req);
          let '(out, errOut, err) := r in
          _ ← write (Post req);
          _ ← write (LogStream podName err out errOut);
          mret (MkExec out errOut ((λ e, ErrMsg ("could not execute: " +:+ e)) <$> err))
      end
  end.

Definition runner_ExecInPod (podName : NamespacedName) (contName : string) (command : list string) : J exec_result :=
  postExec podName contName command None.

(** The part of [CopyToPod] once the file is open *)
Definition copy_stream (podName : NamespacedName) (contName contents destFile : string) : J exec_result :=
  postExec podName contName ["sh"; "-c"; "cat > " +:+ destFile] (Some contents).

Definition runner_CopyToPod (podName : NamespacedName) (contName sourceFile destFile : string) : J exec_result :=
  inFile ← look (λ j, open_file j sourceFile);
  match inFile with
  | inr e => mret (MkExec "" "" (Some (ErrMsg e)))
  | inl contents => copy_stream podName contName contents destFile
  end.

Definition runner_ExecVSQL (podName : NamespacedName) (contName : string) (command : list string) : J exec_result :=
  runner_ExecInPod podName contName (UpdateVsqlCmd (SUPassword c) command).

Definition runner_ExecAdmintools (podName : NamespacedName) (contName : string) (command : list string)
    : J exec_result :=
  runner_ExecInPod podName contName (UpdateAdmintoolsCmd (SUPassword c) command).

(** ** The commands of a trace *)

(** The reconcilers run everything in the server container. *)
Definition run_call (a : action) : J () :=
  match a with
  | AExecInPod pod cmd => _ ← runner_ExecInPod pod ServerContainer cmd; mret ()
  | AExecVSQL pod cmd => _ ← runner_ExecVSQL pod ServerContainer cmd; mret ()
  | AExecAdmintools pod cmd => _ ← runner_ExecAdmintools pod ServerContainer cmd; mret ()
  | ACopyToPod pod contents destFile => _ ← copy_stream pod ServerContainer contents destFile; mret ()
  | _ => mret ()
  end.

(** The trace has the latest call first. *)
Fixpoint replay (t : Trace) : J () :=
  match t with
  | [] => mret ()
  | a :: t => _ ← replay t; run_call a
  end.

End runner.

(** ** The requests that the model stands for *)

(** The tools of admintools that the operator uses on a database, which asks for the
    password of the superuser if there is one *)
Definition database_tools : list string :=
  ["create_db"; "start_db"; "stop_db"; "restart_node"; "db_add_node"; "db_remove_node"; "db_add_subcluster";
   "db_remove_subcluster"].

(** The other ones *)
Definition other_tools : list string := ["list_allnodes"; "re_ip"; "revive_db"].

Definition credentials (passwd : string) : list string :=
  match passwd with "" => [] | _ => ["--password"; passwd] end.

(** The request for a command of the model.  A vsql command has the password first.
    A command of admintools runs as the database administrator, with the password at
    its end if it names a tool that works on a database. *)
Definition request_of (passwd : string) (a : action) : option exec_request :=
  match a with
  | AExecInPod pod cmd => Some (MkRequest pod "server" cmd None)
  | AExecVSQL pod cmd => Some (MkRequest pod "server" ("vsql" :: credentials passwd ++ cmd) None)
  | AExecAdmintools pod cmd =>
      let passwd := if bool_decide (Exists (λ w, w ∈ database_tools) cmd) then passwd else "" in
      Some (MkRequest pod "server"
        (["sudo"; "su"; "dbadmin"; "--"; "/opt/vertica/bin/admintools"] ++ cmd ++ credentials passwd) None)
  | ACopyToPod pod contents destFile =>
      Some (MkRequest pod "server" ["sh"; "-c"; "cat > " +:+ destFile] (Some contents))
  | _ => None
  end.

Lemma credentials_spec passwd : credentials passwd = if bool_decide (passwd = "") then [] else ["--password"; passwd].
Proof. by destruct passwd. Qed.

Lemma vsql_command passwd cmd : UpdateVsqlCmd passwd cmd = "vsql" :: credentials passwd ++ cmd.
Proof. rewrite credentials_spec. unfold UpdateVsqlCmd. by case_bool_decide. Qed.

Lemma takes_password_spec cmd : takes_password cmd ↔ Exists (λ w, w ∈ database_tools) cmd.
Proof.
  unfold takes_password. rewrite Exists_exists.
  assert (∀ w, w ∈ getSupportingPasswdSlice ↔ w ∈ database_tools) as Hw.
  { intros w. unfold getSupportingPasswdSlice, database_tools. rewrite !elem_of_cons, elem_of_nil. tauto. }
  split; intros (w & H1 & H2); exists w; (split; [done|by apply Hw]) || (split; [by apply Hw|done]).
Qed.

Lemma admintools_command passwd cmd :
  UpdateAdmintoolsCmd passwd cmd =
  ["sudo"; "su"; "dbadmin"; "--"; "/opt/vertica/bin/admintools"] ++ cmd ++
    credentials (if bool_decide (Exists (λ w, w ∈ database_tools) cmd) then passwd else "").
Proof.
  unfold UpdateAdmintoolsCmd. cbn [app]. pose proof (supporting_spec cmd) as Hs. rewrite takes_password_spec in Hs.
  set (full := "sudo" :: _) in *. set (b := existsb _ _) in *.
  assert (b = bool_decide (Exists (λ w, w ∈ database_tools) cmd)) as ->.
  { destruct b; symmetry; [by apply bool_decide_eq_true_2, Hs|]. apply bool_decide_eq_false_2. intros H%Hs. done. }
  rewrite credentials_spec. subst full. case_bool_decide as Hp; case_bool_decide as Hd; simpl;
    rewrite ?(bool_decide_eq_false_2 _ Hp), ?(bool_decide_eq_true_2 _ Hp), ?app_nil_r; done.
Qed.

(** The same with the functions of the runner *)
Lemma request_of_runner passwd a :
  request_of passwd a =
  match a with
  | AExecInPod pod cmd => Some (MkRequest pod ServerContainer cmd None)
  | AExecVSQL pod cmd => Some (MkRequest pod ServerContainer (UpdateVsqlCmd passwd cmd) None)
  | AExecAdmintools pod cmd => Some (MkRequest pod ServerContainer (UpdateAdmintoolsCmd passwd cmd) None)
  | ACopyToPod pod contents destFile =>
      Some (MkRequest pod ServerContainer ["sh"; "-c"; "cat > " +:+ destFile] (Some contents))
  | _ => None
  end.
Proof. destruct a; try done; simpl; [by rewrite vsql_command|by rewrite admintools_command]. Qed.

Definition posts (j : journal) : list exec_request := omap (λ e, match e with Post rq => Some rq | _ => None end) j.

(** The log lines of the commands *)
Definition command_log (j : journal) : list string :=
  omap (λ e, match e with LogEntry _ command => Some command | _ => None end) j.

(** The client library is set up properly. *)
Class ApiReady `{Api} : Prop := {
  ready_clientset j : api_clientset j = None;
  ready_executor j rq : api_executor j rq = None }.

Section laws.
Context `{A : Api}.

Lemma postExec_log pod cont cmd stdin j :
  command_log (snd (postExec pod cont cmd stdin j)) = logInfoCmd cmd :: command_log j.
Proof.
  unfold postExec, write, look, mbind, J_bind. simpl. destruct (api_clientset _); [done|].
  destruct (api_executor _ _); [done|]. by destruct (api_stream _ _) as [[out errOut] err].
Qed.

Lemma ignored {B} (m : J B) j : snd ((_ ← m; mret ()) j) = snd (m j).
Proof. unfold mbind, J_bind. by destruct (m j). Qed.

Lemma run_call_log pw a j :
  command_log (snd (run_call (MakeClusterPodRunner pw) a j)) =
  option_list (logInfoCmd ∘ rq_command <$> request_of pw a) ++ command_log j.
Proof.
  rewrite request_of_runner. destruct a; try done; unfold run_call; rewrite ignored; apply postExec_log.
Qed.

(** Every command is logged, with its password hidden, whatever the API server does. *)
Lemma replay_log pw t j :
  command_log (snd (replay (MakeClusterPodRunner pw) t j)) =
  (logInfoCmd ∘ rq_command <$> omap (request_of pw) t) ++ command_log j.
Proof.
  revert j. induction t as [|a t IH]; intros j; [done|]. simpl. unfold mbind, J_bind.
  pose proof (IH j) as Hj. destruct (replay _ t j) as [u j']. simpl in Hj.
  rewrite run_call_log, Hj. destruct (request_of pw a); simpl; by rewrite ?app_assoc.
Qed.

Context `{R : !ApiReady}.

Lemma postExec_post pod cont cmd stdin j :
  posts (snd (postExec pod cont cmd stdin j)) = MkRequest pod cont cmd stdin :: posts j.
Proof using R.
  unfold postExec, write, look, mbind, J_bind. simpl. rewrite ready_clientset, ready_executor.
  by destruct (api_stream _ _) as [[out errOut] err].
Qed.

Lemma run_call_post pw a j :
  posts (snd (run_call (MakeClusterPodRunner pw) a j)) = option_list (request_of pw a) ++ posts j.
Proof using R.
  rewrite request_of_runner. destruct a; try done; unfold run_call; rewrite ignored; apply postExec_post.
Qed.

Lemma replay_post pw t j :
  posts (snd (replay (MakeClusterPodRunner pw) t j)) = omap (request_of pw) t ++ posts j.
Proof using R.
  revert j. induction t as [|a t IH]; intros j; [done|]. simpl. unfold mbind, J_bind.
  pose proof (IH j) as Hj. destruct (replay _ t j) as [u j']. simpl in Hj.
  rewrite run_call_post, Hj. by destruct (request_of pw a).
Qed.

End laws.

(** Commands without a password option of their own *)
Definition own_password (a : action) : bool :=
  match a with
  | AExecVSQL _ cmd | AExecAdmintools _ cmd => bool_decide ("--password" ∈ cmd)
  | _ => false
  end.

Lemma vsql_log pw pw' cmd :
  pw ≠ "" → pw' ≠ "" → logInfoCmd (UpdateVsqlCmd pw cmd) = logInfoCmd (UpdateVsqlCmd pw' cmd).
Proof. intros H1 H2. unfold UpdateVsqlCmd. by rewrite !bool_decide_false. Qed.

Lemma admintools_log pw pw' cmd :
  pw ≠ "" → pw' ≠ "" → "--password" ∉ cmd →
  logInfoCmd (UpdateAdmintoolsCmd pw cmd) = logInfoCmd (UpdateAdmintoolsCmd pw' cmd).
Proof. intros H1 H2 Hn. by apply (password_sent_not_logged pw pw' cmd). Qed.

Lemma request_log pw pw' a :
  pw ≠ "" → pw' ≠ "" → own_password a = false →
  logInfoCmd ∘ rq_command <$> request_of pw a = logInfoCmd ∘ rq_command <$> request_of pw' a.
Proof.
  intros H1 H2 Ha. rewrite !request_of_runner. destruct a; try done; simpl in *; apply bool_decide_eq_false in Ha; f_equal;
    [by apply vsql_log|by apply admintools_log].
Qed.

(** The tools that an iteration of the controller runs *)
Lemma iteration_tools tool : KTool tool ∈ iteration_row → tool ∈ other_tools ∨ tool ∈ database_tools.
Proof.
  intros Hr. assert (forallb (λ k, match k with KTool x => bool_decide (x ∈ other_tools ∨ x ∈ database_tools) | _ => true end)
    iteration_row = true) as Hall by (vm_compute; reflexivity).
  pose proof (proj1 (forallb_forall _ _) Hall _ (proj1 (list_elem_of_In _ _) Hr)) as Hb. by apply bool_decide_eq_true in Hb.
Qed.

(** ** Examples *)

(** A server that answers every command *)
Definition quiet_api : Api := {|
  api_clientset _ := None;
  api_executor _ _ := None;
  api_stream _ _ := ("", "", None);
  open_file _ _ := inr "no such file" |}.

#[global] Instance quiet_ready : @ApiReady quiet_api.
Proof. done. Qed.

Definition demo_calls : Trace :=
  [AExecAdmintools (MkNamespacedName "ns" "pod-0") ["-t"; "stop_db"]; AEvent "StopDBStart";
   AExecVSQL (MkNamespacedName "ns" "pod-0") ["-tAc"; "select 1"]].

(** ** Properties *)

(** C19: the runner implements the commands of the model: when the client
    library is set up, the API server gets one request for each command of a
    trace, in the order of the trace, to the server container of the pod, with input
    only for a copied file.  A vsql request has the password of the superuser, if
    there is one, and a request of admintools runs as the database administrator and
    has it if the command names a tool that works on a database.  Of the commands of
    admintools that an iteration of the controller runs, only those of
    [list_allnodes], [re_ip] and [revive_db] go without it. *)
Theorem one_request_per_command `{A : Api} `{R : !ApiReady} `{D : AtConfDeps} `{E : Env} `{O : PodOrder}
    `{AO : AnnotationOrder} pw t :
  posts (snd (replay (MakeClusterPodRunner pw) t [])) = omap (request_of pw) t ∧
  ∀ d req t0 n1 pod cmd n2,
    snd (VerticaDBReconciler_Reconcile d req t0) = n1 ++ AExecAdmintools pod cmd :: n2 → extends t0 n2 →
    tool_of cmd ∈ other_tools ∨
    request_of pw (AExecAdmintools pod cmd) = Some (MkRequest pod "server"
      (["sudo"; "su"; "dbadmin"; "--"; "/opt/vertica/bin/admintools"] ++ cmd ++ credentials pw) None).
Proof.
  split; [rewrite replay_post; apply app_nil_r|]. intros d req t0 n1 pod cmd n2 Ht He.
  destruct (iteration_runs d req t0) as [_ Hr]. destruct (Hr _ _ _ Ht He) as [Hk _].
  destruct (iteration_tools _ Hk) as [Htool|Hdb]; [by left|right]. simpl. rewrite bool_decide_eq_true_2; [done|].
  apply Exists_exists. exists (tool_of cmd). split; [|done]. unfold tool_of in *.
  destruct (cmd !! 1) as [w|] eqn:Hw; [by eapply list_elem_of_lookup_2|].
  exfalso. revert Hdb. apply (bool_decide_unpack _). vm_compute. exact I.
Qed.

Lemma one_request_per_command_witness :
  posts (snd (@replay quiet_api (MakeClusterPodRunner "pw") demo_calls [])) =
  [MkRequest (MkNamespacedName "ns" "pod-0") "server"
     ["sudo"; "su"; "dbadmin"; "--"; "/opt/vertica/bin/admintools"; "-t"; "stop_db"; "--password"; "pw"] None;
   MkRequest (MkNamespacedName "ns" "pod-0") "server" ["vsql"; "--password"; "pw"; "-tAc"; "select 1"] None].
Proof.
  destruct (@one_request_per_command quiet_api quiet_ready mem_deps add_env map_order map_ann_order "pw" demo_calls) as [Hp _].
  exact Hp.
Defined.

(** C24: the log does not give the password of the superuser away: the lines for
    the commands of a trace are the same for any two passwords and whatever the
    API server answers, provided no command has a password option of its own. *)
Theorem password_not_logged (A A' : Api) pw pw' t :
  pw ≠ "" → pw' ≠ "" → forallb (negb ∘ own_password) t = true →
  command_log (snd (@replay A (MakeClusterPodRunner pw) t [])) =
  command_log (snd (@replay A' (MakeClusterPodRunner pw') t [])).
Proof.
  intros H1 H2 Ht. rewrite !replay_log. f_equal.
  induction t as [|a t IH]; [done|]. simpl in Ht. apply andb_true_iff in Ht as [Ha%negb_true_iff Ht].
  pose proof (request_log pw pw' a H1 H2 Ha) as Hr. simpl.
  destruct (request_of pw a), (request_of pw' a); try done; simpl in *; simplify_eq; [f_equal; [done|]|]; by apply IH.
Qed.

Lemma password_not_logged_witness :
  command_log (snd (@replay quiet_api (MakeClusterPodRunner "s3cret") demo_calls [])) =
  command_log (snd (@replay quiet_api (MakeClusterPodRunner "x") demo_calls [])).
Proof.
  exact (password_not_logged quiet_api quiet_api "s3cret" "x" demo_calls ltac:(discriminate) ltac:(discriminate)
    ltac:(vm_compute; reflexivity)).
Defined.
