(* ===== verification/Metrics.v ===== *)
(** * Metrics

    [pkg/metrics/metrics.go] and the places that use it: the metrics, their
    labels, what the reconcilers record and what is cleaned up.  The Prometheus
    client is the class [Registry] with the laws it documents; [map_registry]
    shows that they can hold. *)

From stdpp Require Import base gmap strings pretty sorting numbers list.
From S2P Require Import Prelude GoStrings K8s Types KObjects Effects Labels PodFacts PodFactsSpec RestartSpec StatusRec StatusSpec.

(** ** The metrics *)

Inductive Metric : Type :=
| UpgradeCount | ClusterRestartAttempt | ClusterRestartFailure | ClusterRestartDuration
| NodesRestartAttempt | NodesRestartFailed | NodesRestartDuration
| SubclusterCount | TotalNodeCount | RunningNodeCount | UpNodeCount.

#[global] Instance Metric_eq_dec : EqDecision Metric.
Proof. solve_decision. Defined.

#[global] Instance Metric_countable : Countable Metric.
Proof.
  refine (inj_countable' (λ m, match m with
      | UpgradeCount => 0 | ClusterRestartAttempt => 1 | ClusterRestartFailure => 2 | ClusterRestartDuration => 3
      | NodesRestartAttempt => 4 | NodesRestartFailed => 5 | NodesRestartDuration => 6 | SubclusterCount => 7
      | TotalNodeCount => 8 | RunningNodeCount => 9 | UpNodeCount => 10
      end)
    (λ n : nat, match n with
      | 0 => UpgradeCount | 1 => ClusterRestartAttempt | 2 => ClusterRestartFailure | 3 => ClusterRestartDuration
      | 4 => NodesRestartAttempt | 5 => NodesRestartFailed | 6 => NodesRestartDuration | 7 => SubclusterCount
      | 8 => TotalNodeCount | 9 => RunningNodeCount | _ => UpNodeCount
      end) _); by intros [].
Defined.

Inductive metric_kind : Type := CounterVec | GaugeVec | HistogramVec.

Definition NamespaceLabel : string := "namespace".
Definition VerticaDBLabel : string := "verticadb".
Definition SubclusterLabel : string := "subcluster".

(** The options of each vector: its kind, its full name and its labels *)
Record metric_opts : Type := MkOpts { mo_kind : metric_kind; mo_name : string; mo_labels : list string }.

Definition Namespace : string := "vertica".
Definition UpgradeSubsystem : string := "upgrade".
Definition ClusterRestartSubsystem : string := "cluster_restart".
Definition NodesRestartSubsystem : string := "nodes_restart".
Definition SubclusterSubsystem : string := "subclusters".

(** The name is the namespace, the subsystem if there is one, and the name of the metric. *)
Definition full_name (subsystem name : string) : string :=
  Namespace +:+ "_" +:+ (if bool_decide (subsystem = "") then "" else subsystem +:+ "_") +:+ name.

Definition opts (m : Metric) : metric_opts :=
  let vdb := [NamespaceLabel; VerticaDBLabel] in
  let sc := [NamespaceLabel; VerticaDBLabel; SubclusterLabel] in
  match m with
  | UpgradeCount => MkOpts CounterVec (full_name UpgradeSubsystem "total") vdb
  | ClusterRestartAttempt => MkOpts CounterVec (full_name ClusterRestartSubsystem "attempted_total") vdb
  | ClusterRestartFailure => MkOpts CounterVec (full_name ClusterRestartSubsystem "failed_total") vdb
  | ClusterRestartDuration => MkOpts HistogramVec (full_name ClusterRestartSubsystem "seconds") vdb
  | NodesRestartAttempt => MkOpts CounterVec (full_name NodesRestartSubsystem "attempted_total") vdb
  | NodesRestartFailed => MkOpts CounterVec (full_name NodesRestartSubsystem "failed_total") vdb
  | NodesRestartDuration => MkOpts HistogramVec (full_name NodesRestartSubsystem "seconds") vdb
  | SubclusterCount => MkOpts GaugeVec (full_name SubclusterSubsystem "count") vdb
  | TotalNodeCount => MkOpts GaugeVec (full_name "" "total_nodes_count") sc
  | RunningNodeCount => MkOpts GaugeVec (full_name "" "running_nodes_count") sc
  | UpNodeCount => MkOpts GaugeVec (full_name "" "up_nodes_count") sc
  end.

(** What [init] registers *)
Definition registered : list Metric :=
  [UpgradeCount; ClusterRestartAttempt; ClusterRestartFailure; ClusterRestartDuration; NodesRestartAttempt;
   NodesRestartFailed; NodesRestartDuration; SubclusterCount; TotalNodeCount; RunningNodeCount; UpNodeCount].

Abbreviation MLabels := (gmap string string).

Definition vdb_labels (ns name : string) : MLabels := {[NamespaceLabel := ns; VerticaDBLabel := name]}.

Definition MakeVDBLabels (vdb : VerticaDB) : MLabels := vdb_labels (vdb_Namespace vdb) (vdb_Name vdb).

Definition sc_labels (ns name scName : string) : MLabels :=
  {[NamespaceLabel := ns; VerticaDBLabel := name; SubclusterLabel := scName]}.

Definition MakeSubclusterLabels (vdb : VerticaDB) (scName : string) : MLabels :=
  sc_labels (vdb_Namespace vdb) (vdb_Name vdb) scName.

(** The label names of a set of labels are the ones of the vector. *)
Definition consistent (m : Metric) (l : MLabels) : bool :=
  bool_decide (dom l = list_to_set (C := gset string) (mo_labels (opts m))).

(** ** The client library *)

(** [value] is the value of a counter or a gauge, or the number of observations of
    a histogram.  [With] and [WithLabelValues] create a series that is missing
    and panic for other label names; [Delete] then does nothing. *)
Class Registry (R : Type) := {
  reg_empty : R;
  reg_value : R → Metric → MLabels → option Z;
  reg_with : Metric → MLabels → R → outcome R;
  reg_add : Metric → MLabels → R → R;
  reg_set : Metric → MLabels → Z → R → R;
  reg_delete : Metric → MLabels → R → R }.

Class RegistryLaws R `{Registry R} : Prop := {
  empty_value m l : reg_value reg_empty m l = None;
  with_ok m l r : consistent m l = true → ∃ r', reg_with m l r = Ret r' ∧
    reg_value r' m l = Some (default 0%Z (reg_value r m l)) ∧
    ∀ m' l', (m', l') ≠ (m, l) → reg_value r' m' l' = reg_value r m' l';
  add_value m l r m' l' : reg_value (reg_add m l r) m' l' =
    if bool_decide ((m', l') = (m, l)) then Z.succ <$> reg_value r m l else reg_value r m' l';
  set_value m l v r m' l' : reg_value (reg_set m l v r) m' l' =
    if bool_decide ((m', l') = (m, l)) then (λ _, v) <$> reg_value r m l else reg_value r m' l';
  delete_value m l r m' l' : reg_value (reg_delete m l r) m' l' =
    if bool_decide ((m', l') = (m, l)) then None else reg_value r m' l' }.

Section use.
Context {R : Type} `{Registry R}.

Definition With_Inc (m : Metric) (l : MLabels) (r : R) : outcome R :=
  match reg_with m l r with Ret r => Ret (reg_add m l r) | Panic e => Panic e end.

(** The value observed only shows in the sum and in the buckets of the histogram. *)
Definition With_Observe (m : Metric) (l : MLabels) (r : R) : outcome R := With_Inc m l r.

Definition With_Set (m : Metric) (l : MLabels) (v : Z) (r : R) : outcome R :=
  match reg_with m l r with Ret r => Ret (reg_set m l v r) | Panic e => Panic e end.

Fixpoint seq_ops (ops : list (R → outcome R)) (r : R) : outcome R :=
  match ops with
  | [] => Ret r
  | op :: ops => match op r with Ret r => seq_ops ops r | Panic e => Panic e end
  end.

(** ** [metrics.go] *)

Definition HandleSubclusterDelete (vdb : VerticaDB) (scName : string) (r : R) : R :=
  let labels := MakeSubclusterLabels vdb scName in
  reg_delete UpNodeCount labels (reg_delete RunningNodeCount labels (reg_delete TotalNodeCount labels r)).

(** The subcluster metrics of the VerticaDB stay. *)
Definition HandleVDBDelete (namespaceName vdbName : string) (r : R) : R :=
  let labels := vdb_labels namespaceName vdbName in
  foldl (λ r m, reg_delete m labels r) r
    [UpgradeCount; ClusterRestartAttempt; ClusterRestartFailure; ClusterRestartDuration; NodesRestartAttempt;
     NodesRestartFailed; NodesRestartDuration; SubclusterCount].

Definition HandleVDBInit (vdb : VerticaDB) (r : R) : outcome R :=
  seq_ops ((λ m, reg_with m (MakeVDBLabels vdb)) <$>
    [UpgradeCount; ClusterRestartAttempt; ClusterRestartFailure; ClusterRestartDuration; NodesRestartAttempt;
     NodesRestartFailed; NodesRestartDuration]) r.

(** ** What the reconcilers record *)

(** [startUpgrade] *)
Definition record_upgrade (vdb : VerticaDB) (ContinuingUpgrade : bool) (r : R) : outcome R :=
  if ContinuingUpgrade then Ret r else With_Inc UpgradeCount (MakeVDBLabels vdb) r.

(** After a restart command: [duration] and [attempt], and [failure] if it failed *)
Definition restart_ops (duration attempt failure : Metric) (labels : MLabels) (failed : bool)
    : list (R → outcome R) :=
  [With_Observe duration labels; With_Inc attempt labels] ++ if failed then [With_Inc failure labels] else [].

(** [execRestartPods] *)
Definition record_nodes_restart (vdb : VerticaDB) (failed : bool) : R → outcome R :=
  seq_ops (restart_ops NodesRestartDuration NodesRestartAttempt NodesRestartFailed (MakeVDBLabels vdb) failed).

(** [restartCluster] *)
Definition record_cluster_restart (vdb : VerticaDB) (failed : bool) : R → outcome R :=
  seq_ops (restart_ops ClusterRestartDuration ClusterRestartAttempt ClusterRestartFailure (MakeVDBLabels vdb) failed).

(** The gauges of one subcluster *)
Definition gauge_ops (vdb : VerticaDB) (x : string * subclusterGaugeDetail) : list (R → outcome R) :=
  let '(scName, detail) := x in
  let scLabels := MakeSubclusterLabels vdb scName in
  [With_Set TotalNodeCount scLabels (podCount detail);
   With_Set UpNodeCount scLabels (readyCount detail);
   With_Set RunningNodeCount scLabels (runningCount detail)].

(** [MetricReconciler.Reconcile] once the facts are there; [rawMetrics] in some
    order of the map *)
Definition set_gauges (vdb : VerticaDB) (rawMetrics : list (string * subclusterGaugeDetail)) (r : R) : outcome R :=
  seq_ops (HandleVDBInit vdb ::
    With_Set SubclusterCount (MakeVDBLabels vdb) (Z.of_nat (length rawMetrics)) :: (rawMetrics ≫= gauge_ops vdb)) r.

End use.

(** ** The registry as a map *)

Abbreviation store := (gmap (Metric * gmap string string) Z).

(** The registry [r] shows what is in [g]. *)
Definition shows {R} `{Registry R} (r : R) (g : store) : Prop := ∀ m l, reg_value r m l = g !! (m, l).

Definition st_with (k : Metric * MLabels) (g : store) : store := <[k := default 0%Z (g !! k)]> g.
Definition st_inc (k : Metric * MLabels) (g : store) : store := <[k := (default 0 (g !! k) + 1)%Z]> g.

(** A registry *)

#[global] Instance map_registry : Registry store := {|
  reg_empty := ∅;
  reg_value g m l := g !! (m, l);
  reg_with m l g := if consistent m l then Ret (st_with (m, l) g) else Panic "inconsistent labels";
  reg_add m l g := alter Z.succ (m, l) g;
  reg_set m l v g := alter (λ _, v) (m, l) g;
  reg_delete m l g := delete (m, l) g |}.

#[global] Instance map_registry_laws : RegistryLaws store.
Proof.
  split; simpl.
  - intros m l. apply lookup_empty.
  - intros m l r ->. eexists. split; [done|]. unfold st_with. split; [apply lookup_insert_eq|].
    intros m' l' Hne. by rewrite lookup_insert_ne.
  - intros m l r m' l'. case_bool_decide as Heq; [injection Heq as -> ->; apply lookup_alter_eq|by rewrite lookup_alter_ne].
  - intros m l v r m' l'. case_bool_decide as Heq; [injection Heq as -> ->; apply lookup_alter_eq|by rewrite lookup_alter_ne].
  - intros m l r m' l'. case_bool_decide as Heq; [injection Heq as -> ->; apply lookup_delete_eq|by rewrite lookup_delete_ne].
Qed.

Section shows.
Context {R : Type} `{L : RegistryLaws R}.

Lemma shows_empty : shows reg_empty ∅.
Proof using L. intros m l. by rewrite empty_value, lookup_empty. Qed.

Lemma shows_with m l r g :
  consistent m l = true → shows r g → ∃ r', reg_with m l r = Ret r' ∧ shows r' (st_with (m, l) g).
Proof using L.
  intros Hc Hg. destruct (with_ok m l r Hc) as (r' & Hr & Hv & Hother). exists r'. split; [done|]. intros m' l'.
  unfold st_with. rewrite <- Hg. destruct (decide ((m', l') = (m, l))) as [[= -> ->]|Hne].
  - by rewrite lookup_insert_eq.
  - rewrite lookup_insert_ne by done. rewrite Hother by done. apply Hg.
Qed.

Lemma shows_inc m l r g :
  consistent m l = true → shows r g → ∃ r', With_Inc m l r = Ret r' ∧ shows r' (st_inc (m, l) g).
Proof using L.
  intros Hc Hg. destruct (shows_with m l r g Hc Hg) as (r' & Hr & Hv). unfold With_Inc. rewrite Hr.
  eexists. split; [done|]. intros m' l'. rewrite add_value. case_bool_decide as Heq.
  - injection Heq as -> ->. rewrite Hv. unfold st_with, st_inc. rewrite !lookup_insert_eq. simpl. by rewrite Z.add_1_r.
  - rewrite Hv. unfold st_with, st_inc. by rewrite !lookup_insert_ne by done.
Qed.

Lemma shows_set m l v r g :
  consistent m l = true → shows r g → ∃ r', With_Set m l v r = Ret r' ∧ shows r' (<[(m, l) := v]> g).
Proof using L.
  intros Hc Hg. destruct (shows_with m l r g Hc Hg) as (r' & Hr & Hv). unfold With_Set. rewrite Hr.
  eexists. split; [done|]. intros m' l'. rewrite set_value. case_bool_decide as Heq.
  - injection Heq as -> ->. rewrite Hv. unfold st_with. by rewrite !lookup_insert_eq.
  - rewrite Hv. unfold st_with. by rewrite !lookup_insert_ne by done.
Qed.

Lemma shows_delete m l r g : shows r g → shows (reg_delete m l r) (delete (m, l) g).
Proof using L.
  intros Hg m' l'. rewrite delete_value. case_bool_decide as Heq.
  - injection Heq as -> ->. by rewrite lookup_delete_eq.
  - by rewrite lookup_delete_ne.
Qed.

Lemma shows_seq_with ms l r g :
  (∀ m, m ∈ ms → consistent m l = true) → shows r g →
  ∃ r', seq_ops ((λ m, reg_with m l) <$> ms) r = Ret r' ∧ shows r' (foldl (λ g m, st_with (m, l) g) g ms).
Proof using L.
  revert r g. induction ms as [|m ms IH]; intros r g Hc Hg; simpl; [by exists r|].
  destruct (shows_with m l r g) as (r' & -> & Hg'); [apply Hc; by left|done|].
  apply IH; [|done]. intros m' Hm'. apply Hc. by right.
Qed.

Lemma shows_deletes ms l r g :
  shows r g → shows (foldl (λ r m, reg_delete m l r) r ms) (foldl (λ g m, delete (m, l) g) g ms).
Proof using L.
  revert r g. induction ms as [|m ms IH]; intros r g Hg; simpl; [done|]. by apply IH, shows_delete.
Qed.

Lemma value_deletes (ms : list Metric) (k : MLabels) (r : R) m l :
  reg_value (foldl (λ r m, reg_delete m k r) r ms) m l =
  if bool_decide (m ∈ ms ∧ l = k) then None else reg_value r m l.
Proof using L.
  revert r. induction ms as [|m' ms IH]; intros r; cbn [foldl].
  { rewrite bool_decide_eq_false_2; [done|]. intros [?%elem_of_nil _]. done. }
  rewrite IH, delete_value. case_bool_decide as H1.
  { rewrite bool_decide_eq_true_2; [done|]. destruct H1. split; [by right|done]. }
  case_bool_decide as Heq.
  - injection Heq as -> ->. rewrite bool_decide_eq_true_2; [done|]. split; [by left|done].
  - rewrite bool_decide_eq_false_2; [done|]. intros [[->|Hm]%elem_of_cons ->]; [done|]. by apply H1.
Qed.

End shows.

Lemma vdb_consistent m ns name : length (mo_labels (opts m)) = 2 → consistent m (vdb_labels ns name) = true.
Proof.
  intros Hm. unfold consistent, vdb_labels. apply bool_decide_eq_true. rewrite dom_insert_L, dom_singleton_L.
  destruct m; try discriminate Hm; simpl; set_solver.
Qed.

Lemma sc_consistent m ns name scName :
  length (mo_labels (opts m)) = 3 → consistent m (sc_labels ns name scName) = true.
Proof.
  intros Hm. unfold consistent, sc_labels. apply bool_decide_eq_true. rewrite !dom_insert_L, dom_singleton_L.
  destruct m; try discriminate Hm; simpl; set_solver.
Qed.

(** ** Sequences of operations *)

Inductive metric_op : Type :=
| OpReconcile (vdb : VerticaDB) (rawMetrics : list (string * subclusterGaugeDetail))
| OpUpgrade (vdb : VerticaDB) (continuing : bool)
| OpNodesRestart (vdb : VerticaDB) (failed : bool)
| OpClusterRestart (vdb : VerticaDB) (failed : bool)
| OpSubclusterDelete (vdb : VerticaDB) (scName : string)
| OpVdbDelete (ns name : string).

Definition apply_op {R} `{Registry R} (op : metric_op) (r : R) : outcome R :=
  match op with
  | OpReconcile vdb rawMetrics => set_gauges vdb rawMetrics r
  | OpUpgrade vdb continuing => record_upgrade vdb continuing r
  | OpNodesRestart vdb failed => record_nodes_restart vdb failed r
  | OpClusterRestart vdb failed => record_cluster_restart vdb failed r
  | OpSubclusterDelete vdb scName => Ret (HandleSubclusterDelete vdb scName r)
  | OpVdbDelete ns name => Ret (HandleVDBDelete ns name r)
  end.

Definition run_ops {R} `{Registry R} (ops : list metric_op) : R → outcome R := seq_ops (apply_op <$> ops).

(** The same on maps *)
Definition vdb_metrics : list Metric :=
  [UpgradeCount; ClusterRestartAttempt; ClusterRestartFailure; ClusterRestartDuration; NodesRestartAttempt;
   NodesRestartFailed; NodesRestartDuration; SubclusterCount].

Definition init_metrics : list Metric :=
  [UpgradeCount; ClusterRestartAttempt; ClusterRestartFailure; ClusterRestartDuration; NodesRestartAttempt;
   NodesRestartFailed; NodesRestartDuration].

Definition st_gauge (l : string → MLabels) (g : store) (x : string * subclusterGaugeDetail) : store :=
  <[(RunningNodeCount, l (fst x)) := runningCount (snd x)]>
  (<[(UpNodeCount, l (fst x)) := readyCount (snd x)]>
  (<[(TotalNodeCount, l (fst x)) := podCount (snd x)]> g)).

Definition st_restart (duration attempt failure : Metric) (l : MLabels) (failed : bool) (g : store) : store :=
  let g := st_inc (attempt, l) (st_inc (duration, l) g) in
  if failed then st_inc (failure, l) g else g.

Definition st_op (op : metric_op) (g : store) : store :=
  match op with
  | OpReconcile vdb rawMetrics =>
      let l := MakeVDBLabels vdb in
      foldl (st_gauge (MakeSubclusterLabels vdb))
        (<[(SubclusterCount, l) := Z.of_nat (length rawMetrics)]> (foldl (λ g m, st_with (m, l) g) g init_metrics))
        rawMetrics
  | OpUpgrade vdb continuing => if continuing then g else st_inc (UpgradeCount, MakeVDBLabels vdb) g
  | OpNodesRestart vdb failed =>
      st_restart NodesRestartDuration NodesRestartAttempt NodesRestartFailed (MakeVDBLabels vdb) failed g
  | OpClusterRestart vdb failed =>
      st_restart ClusterRestartDuration ClusterRestartAttempt ClusterRestartFailure (MakeVDBLabels vdb) failed g
  | OpSubclusterDelete vdb scName =>
      let l := MakeSubclusterLabels vdb scName in
      delete (UpNodeCount, l) (delete (RunningNodeCount, l) (delete (TotalNodeCount, l) g))
  | OpVdbDelete ns name => foldl (λ g m, delete (m, vdb_labels ns name) g) g vdb_metrics
  end.

Section refine.
Context {R : Type} `{L : RegistryLaws R}.

Lemma shows_gauges vdb raw r g :
  shows r g →
  ∃ r', seq_ops (raw ≫= gauge_ops vdb) r = Ret r' ∧
    shows r' (foldl (st_gauge (MakeSubclusterLabels vdb)) g raw).
Proof using L.
  revert r g. induction raw as [|[sc d] raw IH]; intros r g Hg; [by exists r|]. simpl.
  set (l := MakeSubclusterLabels vdb sc).
  assert (∀ m, length (mo_labels (opts m)) = 3 → consistent m l = true) as Hc by (intros m; apply sc_consistent).
  destruct (shows_set TotalNodeCount l (podCount d) r g) as (r1 & -> & H1); [by apply Hc|done|].
  destruct (shows_set UpNodeCount l (readyCount d) r1 _ (Hc UpNodeCount eq_refl) H1) as (r2 & -> & H2).
  destruct (shows_set RunningNodeCount l (runningCount d) r2 _ (Hc RunningNodeCount eq_refl) H2) as (r3 & -> & H3).
  by apply IH.
Qed.

Lemma shows_restart duration attempt failure vdb failed r g :
  Forall (λ m, length (mo_labels (opts m)) = 2) [duration; attempt; failure] → shows r g →
  let l := MakeVDBLabels vdb in
  ∃ r', seq_ops (restart_ops duration attempt failure l failed) r = Ret r' ∧
    shows r' (st_restart duration attempt failure l failed g).
Proof using L.
  intros Hm Hg l. rewrite !Forall_cons in Hm. destruct Hm as (Hd & Ha & Hf & _). unfold st_restart. simpl. unfold With_Observe.
  destruct (shows_inc duration l r g) as (r1 & -> & H1); [by apply vdb_consistent|done|].
  destruct (shows_inc attempt l r1 _ (vdb_consistent _ _ _ Ha) H1) as (r2 & -> & H2).
  destruct failed; simpl; [|by exists r2].
  destruct (shows_inc failure l r2 _ (vdb_consistent _ _ _ Hf) H2) as (r3 & -> & H3). by exists r3.
Qed.

Lemma init_metrics_labels m : m ∈ init_metrics → length (mo_labels (opts m)) = 2.
Proof. intros Hm. repeat (apply elem_of_cons in Hm as [->|Hm]; [done|]). by apply elem_of_nil in Hm. Qed.

(** No operation panics, and each does to the registry what it does to the map. *)
Lemma shows_op op r g : shows r g → ∃ r', apply_op op r = Ret r' ∧ shows r' (st_op op g).
Proof using L.
  intros Hg. destruct op as [vdb raw|vdb []|vdb failed|vdb failed|vdb sc|ns name]; simpl.
  - unfold set_gauges, HandleVDBInit. simpl. set (l := MakeVDBLabels vdb).
    destruct (shows_seq_with init_metrics l r g) as (r1 & Hr1 & H1);
      [intros m Hm; by apply vdb_consistent, init_metrics_labels|done|].
    unfold init_metrics in Hr1. simpl in Hr1. rewrite Hr1.
    destruct (shows_set SubclusterCount l (Z.of_nat (length raw)) r1 _ (vdb_consistent SubclusterCount _ _ eq_refl) H1) as (r2 & -> & H2).
    by apply shows_gauges.
  - by exists r.
  - unfold record_upgrade. destruct (shows_inc UpgradeCount (MakeVDBLabels vdb) r g) as (r1 & Hr1 & H1);
      [by apply vdb_consistent|done|]. by exists r1.
  - apply shows_restart; [by repeat constructor|done].
  - apply shows_restart; [by repeat constructor|done].
  - eexists. split; [done|]. unfold HandleSubclusterDelete. by do 3 apply shows_delete.
  - eexists. split; [done|]. exact (shows_deletes vdb_metrics (vdb_labels ns name) r g Hg).
Qed.

Lemma shows_ops ops r g : shows r g → ∃ r', run_ops ops r = Ret r' ∧ shows r' (foldl (λ g op, st_op op g) g ops).
Proof using L.
  revert r g. induction ops as [|op ops IH]; intros r g Hg; [by exists r|]. unfold run_ops. simpl.
  destruct (shows_op op r g Hg) as (r1 & -> & H1). by apply IH.
Qed.

End refine.

(** ** Counters of restarts *)

Definition count (g : store) (m : Metric) (l : MLabels) : Z := default 0%Z (g !! (m, l)).

Definition restarts_ok (g : store) (duration attempt failure : Metric) : Prop :=
  ∀ l, (0 ≤ count g failure l ≤ count g attempt l)%Z ∧ count g duration l = count g attempt l.

Lemma count_with k g m l : count (st_with k g) m l = count g m l.
Proof.
  unfold count, st_with. destruct (decide (k = (m, l))) as [->|]; [by rewrite lookup_insert_eq|by rewrite lookup_insert_ne].
Qed.

Lemma count_inc_ne m' k g m l : m' ≠ m → count (st_inc (m', k) g) m l = count g m l.
Proof. intros Hne. unfold count, st_inc. by rewrite lookup_insert_ne by congruence. Qed.

Lemma count_inc m k g l : count (st_inc (m, k) g) m l = (count g m l + if bool_decide (k = l) then 1 else 0)%Z.
Proof.
  unfold count, st_inc. case_bool_decide as Heq; [rewrite Heq; by rewrite lookup_insert_eq|].
  rewrite lookup_insert_ne by congruence. by rewrite Z.add_0_r.
Qed.

Lemma count_insert m' l' v g m l : m' ≠ m → count (<[(m', l') := v]> g) m l = count g m l.
Proof. intros Hne. unfold count. by rewrite lookup_insert_ne by congruence. Qed.

Lemma count_withs ms k g m l : count (foldl (λ g m, st_with (m, k) g) g ms) m l = count g m l.
Proof. revert g. induction ms as [|m' ms IH]; intros g; simpl; [done|]. by rewrite IH, count_with. Qed.

Lemma count_gauges L raw g m l :
  m ∉ [RunningNodeCount; UpNodeCount; TotalNodeCount] → count (foldl (st_gauge L) g raw) m l = count g m l.
Proof.
  intros Hm. revert g. induction raw as [|x raw IH]; intros g; simpl; [done|]. rewrite IH. unfold st_gauge.
  rewrite !not_elem_of_cons in Hm. destruct Hm as (H1 & H2 & H3 & _). by rewrite !count_insert by congruence.
Qed.

Lemma lookup_deletes (ms : list Metric) (k : MLabels) (g : store) (m : Metric) (l : MLabels) :
  foldl (λ g m, delete (m, k) g) g ms !! (m, l) = if bool_decide (m ∈ ms ∧ l = k) then None else g !! (m, l).
Proof. exact (value_deletes (R := store) ms k g m l). Qed.

(** What a restart does to the three counters it is about, and to others *)
Lemma restart_counts d a f k failed g l :
  d ≠ a → d ≠ f → a ≠ f →
  let g' := st_restart d a f k failed g in let one := (if bool_decide (k = l) then 1 else 0)%Z in
  count g' d l = (count g d l + one)%Z ∧ count g' a l = (count g a l + one)%Z ∧
  count g' f l = (count g f l + if failed then one else 0)%Z.
Proof.
  intros H1 H2 H3 g' one. unfold g', st_restart. destruct failed;
    split_and!; rewrite ?count_inc_ne, ?count_inc, ?count_inc_ne, ?count_inc by congruence; try done; by rewrite Z.add_0_r.
Qed.

Lemma restart_others d a f k failed g m l :
  m ∉ [d; a; f] → count (st_restart d a f k failed g) m l = count g m l.
Proof.
  rewrite !not_elem_of_cons. intros (H1 & H2 & H3 & _). unfold st_restart.
  destruct failed; by rewrite !count_inc_ne by congruence.
Qed.

Lemma restart_preserves d a f k failed g :
  d ≠ a → d ≠ f → a ≠ f → restarts_ok g d a f → restarts_ok (st_restart d a f k failed g) d a f.
Proof.
  intros H1 H2 H3 Hg l. destruct (restart_counts d a f k failed g l H1 H2 H3) as (-> & -> & ->).
  specialize (Hg l). case_bool_decide; destruct failed; lia.
Qed.

Lemma restart_keeps d a f k failed g d' a' f' :
  d' ∉ [d; a; f] → a' ∉ [d; a; f] → f' ∉ [d; a; f] →
  restarts_ok g d' a' f' → restarts_ok (st_restart d a f k failed g) d' a' f'.
Proof. intros H1 H2 H3 Hg l. rewrite !restart_others by done. apply Hg. Qed.

Lemma deletes_preserve ms k g duration attempt failure :
  (duration ∈ ms ∧ attempt ∈ ms ∧ failure ∈ ms) →
  restarts_ok g duration attempt failure → restarts_ok (foldl (λ g m, delete (m, k) g) g ms) duration attempt failure.
Proof.
  intros (H1 & H2 & H3) Hg l. specialize (Hg l). unfold count in *. rewrite !lookup_deletes.
  destruct (decide (l = k)) as [->|Hne].
  - rewrite !bool_decide_eq_true_2 by done. simpl. lia.
  - rewrite !bool_decide_eq_false_2 by naive_solver. done.
Qed.

Definition counters_ok (g : store) : Prop :=
  restarts_ok g NodesRestartDuration NodesRestartAttempt NodesRestartFailed ∧
  restarts_ok g ClusterRestartDuration ClusterRestartAttempt ClusterRestartFailure.

Definition restart_metric (m : Metric) : bool :=
  match m with
  | NodesRestartDuration | NodesRestartAttempt | NodesRestartFailed
  | ClusterRestartDuration | ClusterRestartAttempt | ClusterRestartFailure => true
  | _ => false
  end.

Lemma counters_same g g' :
  (∀ m l, restart_metric m = true → count g' m l = count g m l) → counters_ok g → counters_ok g'.
Proof. intros Hc [H1 H2]. split; intros l; rewrite !Hc by done; [apply H1|apply H2]. Qed.

(** Memberships in lists of metrics *)
Ltac metrics := apply (bool_decide_unpack _); vm_compute; exact I.

Lemma counters_op op g : counters_ok g → counters_ok (st_op op g).
Proof.
  intros Hg. destruct op as [vdb raw|vdb []|vdb failed|vdb failed|vdb sc|ns name]; cbn [st_op]; try done.
  - eapply counters_same; [|exact Hg]. intros m l Hm. rewrite count_gauges by (destruct m; try done; metrics).
    rewrite count_insert by (by intros <-). apply count_withs.
  - eapply counters_same; [|exact Hg]. intros m l Hm. apply count_inc_ne. by intros <-.
  - destruct Hg as [H1 H2]. split; [by apply restart_preserves|apply restart_keeps; [metrics..|done]].
  - destruct Hg as [H1 H2]. split; [apply restart_keeps; [metrics..|done]|by apply restart_preserves].
  - eapply counters_same; [|exact Hg]. intros m l Hm. unfold count. by rewrite !lookup_delete_ne by (by intros [= <-]).
  - destruct Hg as [H1 H2]. split; (apply deletes_preserve; [split_and!; metrics|done]).
Qed.

(** The list in [HandleVDBDelete] misses no metric with only these labels. *)
Lemma vdb_metrics_labels m : m ∈ vdb_metrics ↔ mo_labels (opts m) = [NamespaceLabel; VerticaDBLabel].
Proof.
  destruct m; split; intros Hm; try done;
    first [metrics | exfalso; revert Hm; metrics].
Qed.

(** ** Gauges *)

Lemma sc_labels_inj ns name a b : sc_labels ns name a = sc_labels ns name b → a = b.
Proof.
  intros Heq. apply (f_equal (.!! SubclusterLabel)) in Heq. unfold sc_labels in Heq.
  rewrite !lookup_insert_ne in Heq by done. rewrite !lookup_singleton_eq in Heq. by injection Heq.
Qed.

(** The gauges that [gauge] describes, in whatever order the map is visited *)
Lemma lookup_gauges vdb raw g m (gauge : subclusterGaugeDetail → Z) sc :
  (∀ l g x, st_gauge l g x !! (m, l (fst x)) = Some (gauge (snd x))) →
  (∀ l g x k, l (fst x) ≠ k → st_gauge l g x !! (m, k) = g !! (m, k)) →
  NoDup raw.*1 →
  foldl (st_gauge (MakeSubclusterLabels vdb)) g raw !! (m, MakeSubclusterLabels vdb sc) =
  match (list_to_map raw : gmap string subclusterGaugeDetail) !! sc with
  | Some d => Some (gauge d)
  | None => g !! (m, MakeSubclusterLabels vdb sc)
  end.
Proof.
  intros Hset Hother. revert g. induction raw as [|[name d] raw IH]; intros g Hnd; simpl; [by rewrite lookup_empty|].
  apply NoDup_cons in Hnd as [Hnew Hnd]. rewrite IH by done.
  destruct (decide (name = sc)) as [->|Hne].
  - rewrite lookup_insert_eq. rewrite (not_elem_of_list_to_map_1 raw sc Hnew).
    apply (Hset (MakeSubclusterLabels vdb) g (sc, d)).
  - rewrite lookup_insert_ne by done. destruct (_ !! sc); [done|]. apply Hother. simpl. intros Heq.
    by apply Hne, (sc_labels_inj (vdb_Namespace vdb) (vdb_Name vdb)).
Qed.

Lemma gauge_total l g x : st_gauge l g x !! (TotalNodeCount, l (fst x)) = Some (podCount (snd x)).
Proof. unfold st_gauge. rewrite !lookup_insert_ne by done. apply lookup_insert_eq. Qed.

Lemma gauge_up l g x : st_gauge l g x !! (UpNodeCount, l (fst x)) = Some (readyCount (snd x)).
Proof. unfold st_gauge. rewrite lookup_insert_ne by done. apply lookup_insert_eq. Qed.

Lemma gauge_running l g x : st_gauge l g x !! (RunningNodeCount, l (fst x)) = Some (runningCount (snd x)).
Proof. unfold st_gauge. apply lookup_insert_eq. Qed.

Lemma gauge_other m l g x k : l (fst x) ≠ k → st_gauge l g x !! (m, k) = g !! (m, k).
Proof. intros Hne. unfold st_gauge. by rewrite !lookup_insert_ne by congruence. Qed.

(** What the three gauges of a subcluster show *)
Definition gauges {R} `{Registry R} (r : R) (l : MLabels) : option Z * option Z * option Z :=
  (reg_value r TotalNodeCount l, reg_value r RunningNodeCount l, reg_value r UpNodeCount l).

Definition gauge_values (d : subclusterGaugeDetail) : option Z * option Z * option Z :=
  (Some (podCount d), Some (runningCount d), Some (readyCount d)).

(** Series of other VerticaDBs are left alone. *)
Definition about (vdb : VerticaDB) (l : MLabels) : Prop :=
  l !! NamespaceLabel = Some (vdb_Namespace vdb) ∧ l !! VerticaDBLabel = Some (vdb_Name vdb).

Lemma about_vdb vdb : about vdb (MakeVDBLabels vdb).
Proof. split; [apply lookup_insert_eq|]. unfold MakeVDBLabels, vdb_labels. by rewrite lookup_insert_ne, lookup_singleton_eq. Qed.

Lemma about_sc vdb sc : about vdb (MakeSubclusterLabels vdb sc).
Proof.
  split; [apply lookup_insert_eq|]. unfold MakeSubclusterLabels, sc_labels. rewrite lookup_insert_ne by done.
  apply lookup_insert_eq.
Qed.

Lemma lookup_gauges_vdb vdb raw g k :
  foldl (st_gauge (MakeSubclusterLabels vdb)) g raw !! (SubclusterCount, k) = g !! (SubclusterCount, k).
Proof.
  revert g. induction raw as [|x raw IH]; intros g; simpl; [done|]. rewrite IH. unfold st_gauge.
  by rewrite !lookup_insert_ne by done.
Qed.

Lemma withs_other vdb ms g m l :
  ¬ about vdb l → foldl (λ g m, st_with (m, MakeVDBLabels vdb) g) g ms !! (m, l) = g !! (m, l).
Proof.
  intros Hl. revert g. induction ms as [|m' ms IH]; intros g; simpl; [done|]. rewrite IH. unfold st_with.
  rewrite lookup_insert_ne; [done|]. intros [= _ <-]. by apply Hl, about_vdb.
Qed.

Lemma gauges_other vdb raw g m l :
  ¬ about vdb l → foldl (st_gauge (MakeSubclusterLabels vdb)) g raw !! (m, l) = g !! (m, l).
Proof.
  intros Hl. revert g. induction raw as [|x raw IH]; intros g; simpl; [done|]. rewrite IH. apply gauge_other.
  intros <-. by apply Hl, about_sc.
Qed.

Lemma counters_ops ops g : counters_ok g → counters_ok (foldl (λ g op, st_op op g) g ops).
Proof. revert g. induction ops as [|op ops IH]; intros g Hg; [done|]. simpl. by apply IH, counters_op. Qed.

Lemma withs_gauge (ms : list Metric) k g m l :
  m ∉ ms → foldl (λ g m, st_with (m, k) g) g ms !! (m, l) = g !! (m, l).
Proof.
  revert g. induction ms as [|m' ms IH]; intros g Hm; simpl; [done|]. apply not_elem_of_cons in Hm as [Hne Hm].
  rewrite IH by done. unfold st_with. by rewrite lookup_insert_ne by congruence.
Qed.

(** ** Properties *)

(** C35: no sequence of operations on the metrics panics because of its labels,
    and after it the restart counters of every VerticaDB agree: no more failures
    than attempts, and as many durations as attempts. *)
Theorem restart_counters_agree {R} `{L : RegistryLaws R} ops :
  ∃ r, run_ops ops reg_empty = Ret r ∧
  ∀ ns name, let v m := default 0%Z (reg_value r m (vdb_labels ns name)) in
    (0 ≤ v NodesRestartFailed ≤ v NodesRestartAttempt)%Z ∧ v NodesRestartDuration = v NodesRestartAttempt ∧
    (0 ≤ v ClusterRestartFailure ≤ v ClusterRestartAttempt)%Z ∧ v ClusterRestartDuration = v ClusterRestartAttempt.
Proof.
  destruct (shows_ops ops reg_empty ∅ shows_empty) as (r & Hr & Hg). exists r. split; [done|]. intros ns name v.
  destruct (counters_ops ops ∅) as [H1 H2].
  { split; intros l; unfold count; by rewrite !lookup_empty. }
  unfold v. rewrite !Hg. by destruct (H1 (vdb_labels ns name)), (H2 (vdb_labels ns name)).
Qed.

(** When a VerticaDB is gone, exactly its series of the metrics that have
    only the labels of a VerticaDB are deleted; series of other VerticaDBs and
    those with a subcluster label stay. *)
Theorem vdb_metrics_deleted {R} `{L : RegistryLaws R} ns name (r : R) m l :
  reg_value (HandleVDBDelete ns name r) m l =
  if bool_decide (mo_labels (opts m) = [NamespaceLabel; VerticaDBLabel] ∧ l = vdb_labels ns name) then None
  else reg_value r m l.
Proof.
  unfold HandleVDBDelete. rewrite value_deletes. apply (f_equal (λ b : bool, if b then _ else _)).
  apply bool_decide_ext. fold vdb_metrics. by rewrite (vdb_metrics_labels m).
Qed.

(** The metrics reconciler sets the gauges of every subcluster of the spec
    that has pods to the number of its pods, of the running ones and of those
    whose node is up, the number of subclusters to those that have pods, and
    touches no series of another VerticaDB.  The gauges of a subcluster without
    pods keep the values they had. *)
Theorem gauges_correct {R} `{L : RegistryLaws R} ops (r : R) vdb p pods raw :
  run_ops ops reg_empty = Ret r → pods ≡ₚ facts_list p → raw ≡ₚ map_to_list (captureRawMetrics vdb pods) →
  ∃ r', apply_op (OpReconcile vdb raw) r = Ret r' ∧
    reg_value r' SubclusterCount (MakeVDBLabels vdb) = Some (Z.of_nat (size (captureRawMetrics vdb pods))) ∧
    (∀ sc, let l := filter (λ pf, subcluster pf = sc) (facts_list p) in
       gauges r' (MakeSubclusterLabels vdb sc) =
       if bool_decide (is_Some (GenSubclusterMap vdb !! sc) ∧ l ≠ []) then gauge_values (gauge_of l)
       else gauges r (MakeSubclusterLabels vdb sc)) ∧
    ∀ m l, ¬ about vdb l → reg_value r' m l = reg_value r m l.
Proof.
  intros Hr Hp Hraw. destruct (shows_ops ops reg_empty ∅ shows_empty) as (r0 & Hr0 & Hg). rewrite Hr in Hr0.
  injection Hr0 as <-. set (g := foldl _ _ _) in Hg.
  destruct (shows_op (OpReconcile vdb raw) r g Hg) as (r' & Hr' & Hg'). exists r'. split; [done|]. cbn [st_op] in Hg'.
  assert (NoDup raw.*1) as Hnd by (rewrite Hraw; apply NoDup_fst_map_to_list).
  assert ((list_to_map raw : gmap string subclusterGaugeDetail) = captureRawMetrics vdb pods) as Hmap.
  { rewrite <- (list_to_map_to_list (captureRawMetrics vdb pods)). by apply list_to_map_proper. }
  split_and!.
  - rewrite Hg', lookup_gauges_vdb, lookup_insert_eq, Hraw. by rewrite length_map_to_list.
  - intros sc l. pose proof (captureRawMetrics_correct vdb p pods sc Hp) as Hc. simpl in Hc. fold l in Hc.
    unfold gauges. rewrite !Hg', !Hg.
    rewrite (lookup_gauges vdb raw _ TotalNodeCount podCount sc gauge_total (gauge_other _) Hnd).
    rewrite (lookup_gauges vdb raw _ RunningNodeCount runningCount sc gauge_running (gauge_other _) Hnd).
    rewrite (lookup_gauges vdb raw _ UpNodeCount readyCount sc gauge_up (gauge_other _) Hnd).
    rewrite Hmap, Hc. case_bool_decide; [done|].
    rewrite !lookup_insert_ne by done. rewrite !(withs_gauge init_metrics) by metrics. done.
  - intros m l Hl. rewrite Hg', Hg, gauges_other by done. rewrite lookup_insert_ne.
    + by apply (withs_other vdb init_metrics).
    + intros [= _ <-]. by apply Hl, about_vdb.
Qed.

(** ** Examples *)

Definition demo_gauge : list (string * subclusterGaugeDetail) := [("defaultsubcluster", MkGauge 3 3 1)].

Definition demo_ops : list metric_op :=
  [OpReconcile MakeVDB demo_gauge; OpNodesRestart MakeVDB true; OpNodesRestart MakeVDB false; OpUpgrade MakeVDB false].

(** What [f] shows after these operations *)
Definition demo_shown {A} (f : store → A) : option A :=
  match run_ops demo_ops (reg_empty : store) with Ret r => Some (f r) | Panic _ => None end.

Lemma demo_shown_at {A} (f : store → A) r a :
  run_ops demo_ops reg_empty = Ret r → demo_shown f = Some a → f r = a.
Proof. unfold demo_shown. intros -> Ha. by injection Ha. Qed.

Definition demo_labels : MLabels := MakeVDBLabels MakeVDB.

Lemma restart_counters_agree_witness :
  ∃ r : store, run_ops demo_ops reg_empty = Ret r ∧
    reg_value r NodesRestartAttempt demo_labels = Some 2%Z ∧
    reg_value r NodesRestartFailed demo_labels = Some 1%Z ∧
    (0 ≤ default 0 (reg_value r NodesRestartFailed demo_labels)
       ≤ default 0 (reg_value r NodesRestartAttempt demo_labels))%Z.
Proof.
  destruct (@restart_counters_agree store map_registry map_registry_laws demo_ops) as (r & Hr & Hok).
  destruct (Hok (vdb_Namespace MakeVDB) (vdb_Name MakeVDB)) as (Hle & _).
  exists r. split; [exact Hr|]. split; [|split; [|exact Hle]].
  - apply (demo_shown_at (λ r, reg_value r NodesRestartAttempt demo_labels) r (Some 2%Z) Hr). vm_compute. reflexivity.
  - apply (demo_shown_at (λ r, reg_value r NodesRestartFailed demo_labels) r (Some 1%Z) Hr). vm_compute. reflexivity.
Defined.

Lemma vdb_metrics_deleted_witness :
  demo_shown (λ r, (reg_value r UpgradeCount demo_labels,
    reg_value (HandleVDBDelete (vdb_Namespace MakeVDB) (vdb_Name MakeVDB) r) UpgradeCount demo_labels)) =
  Some (Some 1%Z, None).
Proof.
  destruct (run_ops demo_ops (reg_empty : store)) as [r|e] eqn:Hr.
  - unfold demo_shown. rewrite Hr. rewrite (@vdb_metrics_deleted store map_registry map_registry_laws).
    rewrite (demo_shown_at (λ r, reg_value r UpgradeCount demo_labels) r (Some 1%Z) Hr) by (vm_compute; reflexivity).
    reflexivity.
  - exfalso. assert (demo_shown (λ _, ()) = Some ()) as Hs by (vm_compute; reflexivity). unfold demo_shown in Hs.
    rewrite Hr in Hs. discriminate Hs.
Defined.

(** The gauges of a subcluster without pods are not updated. *)
Lemma gauges_correct_witness :
  let l := MakeSubclusterLabels MakeVDB "defaultsubcluster" in
  ∃ r r' : store, run_ops demo_ops reg_empty = Ret r ∧ apply_op (OpReconcile MakeVDB []) r = Ret r' ∧
    gauges r l = (Some 3, Some 3, Some 1)%Z ∧ gauges r' l = gauges r l.
Proof.
  intros l. destruct (shows_ops demo_ops reg_empty ∅ (shows_empty (R := store))) as (r & Hr & _).
  destruct (@gauges_correct store map_registry map_registry_laws demo_ops r MakeVDB MakePodFacts [] [] Hr
    (Permutation_refl _) (Permutation_refl _)) as (r' & Hr' & _ & Hg & _).
  exists r, r'. split; [exact Hr|]. split; [exact Hr'|]. split; [|exact (Hg "defaultsubcluster")].
  apply (demo_shown_at (λ r, gauges r l) r _ Hr). vm_compute. reflexivity.
Defined.

(** [HandleVDBInit] gives missing series the value zero and keeps the others. *)
Lemma init_keeps_values {R} `{L : RegistryLaws R} ops (r : R) vdb :
  run_ops ops reg_empty = Ret r → ∃ r', HandleVDBInit vdb r = Ret r' ∧
    ∀ m l, default 0%Z (reg_value r' m l) = default 0%Z (reg_value r m l).
Proof.
  intros Hr. destruct (shows_ops ops reg_empty ∅ shows_empty) as (r0 & Hr0 & Hg). rewrite Hr in Hr0. injection Hr0 as <-.
  destruct (shows_seq_with init_metrics (MakeVDBLabels vdb) r (foldl (λ g op, st_op op g) ∅ ops)) as (r' & Hr' & Hg');
    [intros m Hm; by apply vdb_consistent, init_metrics_labels|exact Hg|].
  exists r'. split; [exact Hr'|]. intros m l. rewrite Hg', Hg. apply count_withs.
Qed.
