(* ===== verification/Flags.v ===== *)
(** * Command lines

    What the two programs use of Go's [flag] package: string, integer and
    boolean flags, [flag.Parse] and its errors, and [strconv.ParseInt] with base
    0.  A flag set keeps the current value of each flag. *)

From Stdlib Require Import Ascii.
From stdpp Require Import base gmap strings pretty numbers list.
From S2P Require Import Prelude GoStrings.

(** ** [strconv.ParseInt(s, 0, 64)] *)

Definition byte_between (lo hi : nat) (c : ascii) : bool := bool_decide (lo ≤ Ascii.nat_of_ascii c ≤ hi).

(** The value of a digit in the largest base *)
Definition digit36 (c : ascii) : option Z :=
  if byte_between 48 57 c then Some (digit_val c)
  else if byte_between 97 122 (lower_byte c)
       then Some (Z.of_nat (Ascii.nat_of_ascii (lower_byte c)) - 97 + 10)%Z else None.

(** The number, and whether there were underscores *)
Fixpoint uint_loop (base : Z) (s : string) (n : Z) (underscores : bool) : option (Z * bool) :=
  match s with
  | EmptyString => Some (n, underscores)
  | String c s =>
      if bool_decide (c = "_"%char) then uint_loop base s n true
      else match digit36 c with
           | Some d => if bool_decide (d < base)%Z then uint_loop base s (n * base + d)%Z underscores else None
           | None => None
           end
  end.

Definition base_prefix (c : ascii) : option Z :=
  let c := lower_byte c in
  if bool_decide (c = "b"%char) then Some 2%Z
  else if bool_decide (c = "o"%char) then Some 8%Z
  else if bool_decide (c = "x"%char) then Some 16%Z else None.

(** The base and the digits *)
Definition split_base (s : string) : Z * string :=
  match s with
  | String "0" (String p (String c rest)) =>
      match base_prefix p with
      | Some base => (base, String c rest)
      | None => (8%Z, String p (String c rest))
      end
  | String "0" rest => (8%Z, rest)
  | _ => (10%Z, s)
  end.

(** What [underscoreOK] saw last: the start, a digit or prefix, an underscore, other *)
Inductive seen : Type := SawStart | SawDigit | SawUnderscore | SawOther.

Fixpoint underscore_loop (hex : bool) (s : string) (i : seen) : bool :=
  match s with
  | EmptyString => match i with SawUnderscore => false | _ => true end
  | String c s =>
      if byte_between 48 57 c || hex && byte_between 97 102 (lower_byte c) then underscore_loop hex s SawDigit
      else if bool_decide (c = "_"%char)
           then match i with SawDigit => underscore_loop hex s SawUnderscore | _ => false end
           else match i with SawUnderscore => false | _ => underscore_loop hex s SawOther end
  end.

Definition underscoreOK (s : string) : bool :=
  match s with
  | String "0" (String p rest) =>
      match base_prefix p with
      | Some base => underscore_loop (bool_decide (base = 16%Z)) rest SawDigit
      | None => underscore_loop false s SawStart
      end
  | _ => underscore_loop false s SawStart
  end.

Definition parse_uint0 (s : string) : option Z :=
  if bool_decide (s = "") then None
  else
    let '(base, digits) := split_base s in
    match uint_loop base digits 0 false with
    | Some (n, underscores) => if underscores && negb (underscoreOK s) then None else Some n
    | None => None
    end.

(** Numbers out of range are errors as well. *)
Definition ParseInt0 (s : string) : option Z :=
  match s with
  | String "-" s => n ← parse_uint0 s; check_int64 (- n)
  | String "+" s => n ← parse_uint0 s; check_int64 n
  | _ => n ← parse_uint0 s; check_int64 n
  end.

(** ** Flags *)

Inductive flag_value : Type :=
| FString (s : string)
| FInt (z : Z)
| FBool (b : bool).

(** [Value.Set], for a flag with this value before *)
Definition set_value_of (old : flag_value) (value : string) : option flag_value :=
  match old with
  | FString _ => Some (FString value)
  | FInt _ => FInt <$> ParseInt0 value
  | FBool _ => FBool <$> ParseBool value
  end.

Definition is_bool_flag (v : flag_value) : bool := match v with FBool _ => true | _ => false end.

Abbreviation flags := (gmap string flag_value).

(** Up to the first [=], and what follows it *)
Fixpoint cut_eq (s : string) : string * option string :=
  match s with
  | EmptyString => ("", None)
  | String c s =>
      if bool_decide (c = "="%char) then ("", Some s)
      else let '(name, value) := cut_eq s in (String c name, value)
  end.

Inductive parse_result : Type :=
| Parsed (f : flags) (args : list string)
| HelpRequested
| BadUsage.

(** What an argument is to the parser *)
Inductive argument : Type :=
| NotAFlag
| Terminator
| BadSyntax
| FlagArg (name : string) (value : option string).

Definition flag_arg (name : string) : argument :=
  match name with
  | EmptyString => BadSyntax
  | String c _ =>
      if bool_decide (c = "-"%char) || bool_decide (c = "="%char) then BadSyntax
      else let '(n, v) := cut_eq name in FlagArg n v
  end.

Definition classify (s : string) : argument :=
  match s with
  | String "-" (String "-" EmptyString) => Terminator
  | String "-" (String "-" name) => flag_arg name
  | String "-" (String c name) => flag_arg (String c name)
  | _ => NotAFlag
  end.

(** [flag.Parse] *)
Fixpoint Parse (args : list string) (f : flags) : parse_result :=
  match args with
  | [] => Parsed f []
  | s :: rest =>
      match classify s with
      | NotAFlag => Parsed f args
      | Terminator => Parsed f rest
      | BadSyntax => BadUsage
      | FlagArg name value =>
          match f !! name with
          | None => if bool_decide (name = "help") || bool_decide (name = "h") then HelpRequested else BadUsage
          | Some old =>
              match value, is_bool_flag old, rest with
              | None, false, [] => BadUsage
              | None, false, v :: rest =>
                  match set_value_of old v with Some new => Parse rest (<[name := new]> f) | None => BadUsage end
              | _, _, _ =>
                  match set_value_of old (default "true" value) with
                  | Some new => Parse rest (<[name := new]> f)
                  | None => BadUsage
                  end
              end
          end
      end
  end.

(** [ExitOnError]: the exit code, or the flags and the other arguments *)
Definition Parse_or_exit (args : list string) (f : flags) : Z + flags * list string :=
  match Parse args f with
  | Parsed f args => inr (f, args)
  | HelpRequested => inl 0%Z
  | BadUsage => inl 2%Z
  end.

Definition string_flag (f : flags) (name : string) : string :=
  match f !! name with Some (FString s) => s | _ => "" end.
Definition int_flag (f : flags) (name : string) : Z := match f !! name with Some (FInt z) => z | _ => 0%Z end.
Definition bool_flag (f : flags) (name : string) : bool := match f !! name with Some (FBool b) => b | _ => false end.

(** ** Printing and parsing *)

Lemma pretty_N_go_first (x : N) (s : string) :
  (0 < x)%N → ∃ d rest, pretty_N_go x s = String (pretty_N_char d) rest ∧ (0 < d < 10)%N.
Proof.
  revert s. induction x as [x IH] using (well_founded_induction N.lt_wf_0). intros s Hx.
  rewrite pretty_N_go_step by done. destruct (decide (x `div` 10 = 0)%N) as [H0|H0].
  - rewrite H0, pretty_N_go_0. exists (x `mod` 10)%N, s. split; [done|].
    pose proof (N.div_mod' x 10). pose proof (N.mod_lt x 10). lia.
  - apply IH; [by apply N.div_lt|by apply N.neq_0_lt_0].
Qed.

Lemma digit36_digit c : is_digit c = true → digit36 c = Some (digit_val c) ∧ (digit_val c < 10)%Z ∧ c ≠ "_"%char.
Proof.
  unfold is_digit, digit36, byte_between, digit_val. intros [H1%Nat.leb_le H2%Nat.leb_le]%andb_true_iff.
  rewrite bool_decide_eq_true_2 by done. split; [done|]. split; [lia|]. intros ->. revert H2. vm_compute. lia.
Qed.

Lemma uint_loop_digits s n v : digits_val s n = Some v → uint_loop 10 s n false = Some (v, false).
Proof.
  revert n. induction s as [|c s IH]; intros n; simpl; [by intros [= ->]|].
  destruct (is_digit c) eqn:Hd; [|done]. intros Hv. destruct (digit36_digit c Hd) as (-> & Hlt & Hne).
  rewrite bool_decide_eq_false_2 by done. rewrite bool_decide_eq_true_2 by done. apply IH. rewrite <- Hv. f_equal. lia.
Qed.

Lemma split_base_10 c s : c ≠ "0"%char → split_base (String c s) = (10%Z, String c s).
Proof. intros Hc. unfold split_base. destruct c as [[] [] [] [] [] [] [] []]; done. Qed.

Lemma parse_uint0_pretty (x : N) : parse_uint0 (pretty x) = Some (Z.of_N x).
Proof.
  pose proof (parse_digits_pretty x) as Hp. destruct (decide (x = 0)%N) as [->|Hx]; [reflexivity|].
  destruct (pretty_N_go_first x "") as (d & rest & Heq & Hd); [lia|].
  assert (pretty x = String (pretty_N_char d) rest) as Hs.
  { rewrite <- Heq. unfold pretty, pretty_N. by rewrite decide_False. }
  rewrite Hs in *. unfold parse_uint0. rewrite bool_decide_eq_false_2 by done. rewrite split_base_10.
  - unfold parse_digits in Hp. by rewrite (uint_loop_digits _ _ _ Hp).
  - intros H0. apply (f_equal digit_val) in H0. rewrite digit_val_char in H0 by lia. change (digit_val "0") with 0%Z in H0. lia.
Qed.

(** Every number is read back. *)
Lemma ParseInt0_Itoa z : int64_range z → ParseInt0 (Itoa z) = Some z.
Proof.
  intros Hz. pose proof (check_int64_Some z Hz) as Hc. destruct z as [|x|x].
  - reflexivity.
  - change (Itoa (Z.pos x)) with (pretty (N.pos x)).
    assert (ParseInt0 (pretty (N.pos x)) = (n ← parse_uint0 (pretty (N.pos x)); check_int64 n)) as ->.
    { destruct (pretty_N_go_first (N.pos x) "") as (d & rest & Heq & Hd); [lia|].
      assert (pretty (N.pos x) = String (pretty_N_char d) rest) as -> by (rewrite <- Heq; done).
      assert (is_digit (pretty_N_char d) = true) as Hdig by (apply is_digit_char; lia).
      generalize dependent (pretty_N_char d). intros c _ Hdig.
      unfold ParseInt0. destruct c as [[] [] [] [] [] [] [] []]; done. }
    by rewrite parse_uint0_pretty.
  - change (Itoa (Z.neg x)) with (String "-" (pretty (N.pos x))). simpl. by rewrite parse_uint0_pretty.
Qed.

Lemma ParseBool_print (b : bool) : ParseBool (if b then "true" else "false") = Some b.
Proof. by destruct b. Qed.

Definition print_value (v : flag_value) : string :=
  match v with
  | FString s => s
  | FInt z => Itoa z
  | FBool b => if b then "true" else "false"
  end.

Definition print_flag (x : string * flag_value) : string := "--" +:+ fst x +:+ "=" +:+ print_value (snd x).

(** Values of the same kind, in range *)
Definition fits (old new : flag_value) : Prop :=
  match old, new with
  | FString _, FString _ => True
  | FInt _, FInt z => int64_range z
  | FBool _, FBool _ => True
  | _, _ => False
  end.

Lemma set_print old new : fits old new → set_value_of old (print_value new) = Some new.
Proof.
  destruct old, new; simpl; try done; intros Hf; [by rewrite ParseInt0_Itoa|by rewrite ParseBool_print].
Qed.

(** Names that a flag can have *)
Definition flag_name (name : string) : bool :=
  match name with
  | EmptyString => false
  | String c _ => negb (bool_decide (c = "-"%char)) && forallb (λ c, negb (bool_decide (c = "="%char))) (String.list_ascii_of_string name)
  end.

Lemma cut_eq_name name value :
  forallb (λ c, negb (bool_decide (c = "="%char))) (String.list_ascii_of_string name) = true →
  cut_eq (name +:+ String "=" value) = (name, Some value).
Proof.
  induction name as [|c name IH]; simpl; [done|]. intros [Hc%negb_true_iff Hn]%andb_true_iff. rewrite Hc.
  by rewrite IH.
Qed.

Lemma classify_flag name value :
  flag_name name = true → classify ("--" +:+ name +:+ "=" +:+ value) = FlagArg name (Some value).
Proof.
  intros Hn. destruct name as [|c name]; [done|]. unfold flag_name in Hn.
  apply andb_true_iff in Hn as [Hc%negb_true_iff Heq]. pose proof (cut_eq_name (String c name) value Heq) as Hcut.
  assert (bool_decide (c = "="%char) = false) as Hc'.
  { simpl in Heq. apply andb_true_iff in Heq as [H1%negb_true_iff _]. done. }
  change (classify ("--" +:+ String c name +:+ "=" +:+ value)) with (flag_arg (String c name +:+ String "=" value)).
  unfold flag_arg. rewrite Hcut. simpl. by rewrite Hc, Hc'.
Qed.

(** Flags written as [--name=value] are read back, in their order. *)
Lemma Parse_print l rest f :
  Forall (λ x, flag_name (fst x) = true ∧ ∃ old, f !! fst x = Some old ∧ fits old (snd x)) l →
  NoDup l.*1 →
  Parse ((print_flag <$> l) ++ rest) f = Parse rest (list_to_map l ∪ f).
Proof.
  revert f. induction l as [|[name v] l IH]; intros f Hl Hnd; [simpl; by rewrite (left_id_L ∅ (∪))|].
  apply Forall_cons in Hl as [(Hn & old & Hold & Hfit) Hl]. apply NoDup_cons in Hnd as [Hnew Hnd].
  cbn [fmap list_fmap app Parse]. unfold print_flag at 1. cbn [fst snd] in *. rewrite classify_flag, Hold by done.
  simpl. rewrite set_print by done. rewrite IH; [|..|done].
  - f_equal. apply map_eq. intros k. destruct (decide (k = name)) as [->|Hk].
    + rewrite lookup_union_r by by apply not_elem_of_list_to_map_1.
      rewrite lookup_insert_eq. symmetry. apply lookup_union_Some_l, lookup_insert_eq.
    + by rewrite !lookup_union, !lookup_insert_ne.
  - apply Forall_forall. intros [name' v'] Hin. rewrite Forall_forall in Hl.
    destruct (Hl _ Hin) as (Hn' & old' & Hold' & Hf'). split; [done|]. exists old'. split; [|done]. simpl in *.
    rewrite lookup_insert_ne; [done|]. intros ->. by apply Hnew, (list_elem_of_fmap_2 fst l (name', v')).
Qed.
