(* ===== verification/Mains.v ===== *)
(** * The two programs

    [cmd/vdb-gen/main.go]: from the command line to the options of the
    generator, what it writes to standard output, and the exit code.  [cmd/operator/main.go]: the flags and the environment variables of
    the operator, and what it sets up in which order.  The manager and the logger
    are libraries: the set-up is the list of the calls that [main] makes on them. *)

From Stdlib Require Import Ascii.
From stdpp Require Import base gmap strings pretty numbers list.
From S2P Require Import Prelude GoStrings K8s Types KObjects Effects Labels Builder Flags GoJson VdbGen VdbGenSpec.

(** ** [vdb-gen] *)

Module VdbGenMain.

Definition DefaultVerticaPort : Z := 5433.

(** [flag.StringVar] and the like: the names and the defaults *)
Definition defined : list (string * flag_value) :=
  [("user", FString "dbadmin"); ("password", FString ""); ("tlsmode", FString "none"); ("name", FString "vert");
   ("port", FInt DefaultVerticaPort); ("ignore-cluster-lease", FBool false); ("image", FString "");
   ("license", FString ""); ("cafile", FString ""); ("cacertname", FString ""); ("hadoopConfig", FString "");
   ("accountName", FString ""); ("krb5conf", FString ""); ("krb5keytab", FString "")].

Definition NumPositionalArgs : nat := 2.

Definition options_of (f : flags) (host dbName : string) : Options := {|
  op_User := string_flag f "user";
  op_Password := string_flag f "password";
  op_TLSMode := string_flag f "tlsmode";
  op_VdbName := string_flag f "name";
  op_Host := host;
  op_Port := int_flag f "port";
  op_DBName := dbName;
  op_IgnoreClusterLease := bool_flag f "ignore-cluster-lease";
  op_Image := string_flag f "image";
  op_LicenseFile := string_flag f "license";
  op_CAFile := string_flag f "cafile";
  op_HadoopConfigDir := string_flag f "hadoopConfig";
  op_AzureAccountName := string_flag f "accountName";
  op_CACertName := string_flag f "cacertname";
  op_Krb5Conf := string_flag f "krb5conf";
  op_Krb5Keytab := string_flag f "krb5keytab" |}.

(** What a command line asks for: [flag.Parse] ends the program with a code, there
    are fewer arguments than [NumPositionalArgs], or the generator runs; more
    arguments are ignored. *)
Inductive command : Type :=
| Exits (code : Z)
| NotEnough
| Runs (o : Options).

Definition options (args : list string) : command :=
  match Parse_or_exit args (list_to_map defined) with
  | inl code => Exits code
  | inr (f, rest) =>
      match rest with
      | host :: dbName :: _ => Runs (options_of f host dbName)
      | _ => NotEnough
      end
  end.

(** The flags that give these options *)
Definition given (o : Options) : list (string * flag_value) :=
  [("user", FString (op_User o)); ("password", FString (op_Password o)); ("tlsmode", FString (op_TLSMode o));
   ("name", FString (op_VdbName o)); ("port", FInt (op_Port o));
   ("ignore-cluster-lease", FBool (op_IgnoreClusterLease o)); ("image", FString (op_Image o));
   ("license", FString (op_LicenseFile o)); ("cafile", FString (op_CAFile o)); ("cacertname", FString (op_CACertName o));
   ("hadoopConfig", FString (op_HadoopConfigDir o)); ("accountName", FString (op_AzureAccountName o));
   ("krb5conf", FString (op_Krb5Conf o)); ("krb5keytab", FString (op_Krb5Keytab o))].

Definition command_line (o : Options) : list string :=
  (print_flag <$> given o) ++ ["--"; op_Host o; op_DBName o].

(** Every option of the generator can be given on the command line: the
    command line with a flag for each option, whatever strings they hold, gives
    exactly these options back. *)
Theorem command_line_roundtrip o : int64_range (op_Port o) → options (command_line o) = Runs o.
Proof.
  intros Hp. unfold options, command_line, Parse_or_exit. rewrite Parse_print.
  - cbn [Parse classify]. by destruct o.
  - repeat (apply Forall_cons; split); [..|by apply Forall_nil];
      (split; [vm_compute; reflexivity|eexists; split; [vm_compute; reflexivity|first [exact I | exact Hp]]]).
  - apply (bool_decide_unpack _). vm_compute. exact I.
Qed.

Lemma command_line_roundtrip_witness :
  options ["--user=dbadmin"; "--password=a=b -c"; "--tlsmode=server"; "--name=vert"; "--port=5433";
           "--ignore-cluster-lease=true"; "--image="; "--license="; "--cafile="; "--cacertname="; "--hadoopConfig=";
           "--accountName="; "--krb5conf="; "--krb5keytab="; "--"; "10.1.1.1"; "-db"] =
  Runs (MkOptions "dbadmin" "a=b -c" "server" "vert" "10.1.1.1" 5433 "-db" true "" "" "" "" "" "" "" "").
Proof.
  apply (command_line_roundtrip
           (MkOptions "dbadmin" "a=b -c" "server" "vert" "10.1.1.1" 5433 "-db" true "" "" "" "" "" "" "" "")).
  apply (bool_decide_unpack _). vm_compute. exact I.
Defined.

(** ** The program *)

(** What the standard output was given and wrote, the error that is printed on
    standard error, and the code.  A write to a closed pipe would end the program
    with a signal; that end has no code and is not modelled. *)
Record run : Type := MkRun { out : output; errOut : option go_error; exit_code : Z }.

Definition eol : string := String "010"%char EmptyString.

(** The part of the usage that goes to standard output; [flag.PrintDefaults] prints
    the list of the flags on standard error. *)
Definition usage `{Writer} (argv0 : string) (wr : output) : output :=
  fst (Fprint wr ("Usage: " +:+ argv0 +:+ " [OPTIONS] <host> <db>" +:+ eol)).

(** A panic ends the program with code 2.  The messages of [flag.Parse] go to
    standard error: [flag.CommandLine] is replaced before [flag.Usage] is set. *)
Definition vdbgen_main `{GenEnv} `{Writer} (argv0 : string) (args : list string) : run :=
  match options args with
  | Exits code => MkRun no_output None code
  | NotEnough =>
      let wr := fst (Fprint no_output ("Not enough positional arguments." +:+ eol)) in
      MkRun (usage argv0 wr) None 1
  | Runs o =>
      match Generate no_output o with
      | Panic m => MkRun no_output None 2
      | Ret (wr, None) => MkRun wr None 0
      | Ret (wr, Some err) => MkRun wr (Some err) 1
      end
  end.

(** The whole manifest: the documents, in YAML, with separators between them *)
Definition whole_manifest `{GenEnv} (objs : KObjs) (text : string) : Prop :=
  ∃ ys, Forall2 (λ doc y, Marshal doc = Ok y) (documents objs) ys ∧ text = Join ys separator.

(** No write to this output failed. *)
Definition nothing_lost `{Writer} (wr : output) : Prop :=
  ∀ i text, texts wr !! i = Some text → snd (Write (take i (texts wr)) text) = None.

(** *** The output *)

Definition Fprints `{Writer} (wr : output) (ts : list string) : output := foldl (λ wr t, fst (Fprint wr t)) wr ts.

Definition given_text (wr : output) : string := foldr String.append "" (texts wr).

(** What is written is what was given, unless a write failed. *)
Definition faithful `{Writer} (wr : output) : Prop := nothing_lost wr → written wr = given_text wr.

Lemma concat_app (l1 l2 : list string) :
  foldr String.append "" (l1 ++ l2) = foldr String.append "" l1 +:+ foldr String.append "" l2.
Proof. induction l1 as [|s l1 IH]; simpl; [done|]. by rewrite IH, str_app_assoc. Qed.

Lemma substring_all n s : (String.length s ≤ n)%nat → String.substring 0 n s = s.
Proof.
  revert n. induction s as [|c s IH]; intros [|n]; simpl; [done|done|lia|].
  intros Hn. by rewrite IH by lia.
Qed.

Lemma Fprint_faithful `{Writer} wr t : faithful wr → faithful (fst (Fprint wr t)).
Proof.
  unfold faithful, Fprint. intros Hwr. destruct (Write (texts wr) t) as [n err] eqn:Hw. simpl. intros Hlost.
  assert (err = None) as ->.
  { specialize (Hlost (length (texts wr)) t). simpl in Hlost.
    rewrite list_lookup_middle, take_app_length, Hw in Hlost by done. by apply Hlost. }
  unfold given_text. simpl. rewrite concat_app. simpl. rewrite Hwr.
  - unfold given_text. f_equal. rewrite str_app_nil_r. apply substring_all.
    destruct (decide (String.length t ≤ n)%nat) as [|Hn]; [done|].
    destruct (Write_short (texts wr) t) as [e He]; rewrite Hw in *; simpl in *; [lia|done].
  - intros i text Hi. specialize (Hlost i text). simpl in Hlost.
    pose proof (lookup_lt_Some _ _ _ Hi) as Hlt. rewrite lookup_app_l, take_app_le in Hlost by lia. by apply Hlost.
Qed.

Lemma Fprints_texts `{Writer} ts wr : texts (Fprints wr ts) = texts wr ++ ts.
Proof.
  revert wr. induction ts as [|t ts IH]; intros wr; simpl; [by rewrite app_nil_r|].
  rewrite IH. unfold Fprint. destruct (Write _ _). simpl. by rewrite <- app_assoc.
Qed.

Lemma Fprints_faithful `{Writer} ts wr : faithful wr → faithful (Fprints wr ts).
Proof. revert wr. induction ts as [|t ts IH]; intros wr Hwr; simpl; [done|]. by apply IH, Fprint_faithful. Qed.

Lemma no_output_faithful `{Writer} : faithful no_output.
Proof. done. Qed.

(** The texts after the first document *)
Definition later_texts (ys : list string) : list string := ys ≫= λ y, [separator; y].

Lemma join_texts y ys : foldr String.append "" (y :: later_texts ys) = Join (y :: ys) separator.
Proof.
  revert y. induction ys as [|z ys IH]; intros y; [apply str_app_nil_r|].
  change (later_texts (z :: ys)) with (separator :: z :: later_texts ys).
  change (foldr String.append "" (y :: separator :: z :: later_texts ys))
    with (y +:+ separator +:+ foldr String.append "" (z :: later_texts ys)).
  rewrite IH. symmetry. by apply (Join_cons y (z :: ys)).
Qed.

(** The documents are written exactly when all can be marshalled, whatever the
    writer does with them. *)
Lemma write_documents_spec `{GenEnv} `{Writer} docs wr :
  match write_documents docs wr with
  | (wr', None) => ∃ ys, Forall2 (λ doc y, Marshal doc = Ok y) docs ys ∧ wr' = Fprints wr (later_texts ys)
  | (_, Some e) => Exists (λ doc, Marshal doc = Err e) docs
  end.
Proof.
  revert wr. induction docs as [|doc docs IH]; intros wr; cbn [write_documents].
  - by exists [].
  - destruct (Marshal doc) as [y|e] eqn:Hy; [|by left].
    specialize (IH (fst (Fprint (fst (Fprint wr separator)) y))).
    destruct (write_documents _ _) as [wr' [e|]]; [by right|].
    destruct IH as (ys & Hys & ->). exists (y :: ys). split; [by constructor|done].
Qed.

Lemma writeManifest_spec `{GenEnv} `{Writer} objs :
  match writeManifest no_output objs with
  | (wr, None) => whole_manifest objs (given_text wr) ∧ faithful wr
  | (_, Some e) => Exists (λ doc, Marshal doc = Err e) (documents objs)
  end.
Proof.
  unfold writeManifest, whole_manifest. change (documents objs) with (MSecret (CredSecret objs) :: tail (documents objs)).
  cbn [tail]. destruct (Marshal _) as [y|e] eqn:Hy; [|by left].
  pose proof (write_documents_spec (tail (documents objs)) (fst (Fprint no_output y))) as Hw.
  cbn [documents tail] in Hw |- *. destruct (write_documents _ _) as [wr [e|]]; [by right|].
  destruct Hw as (ys & Hys & ->). change (Fprints _ _) with (Fprints no_output (y :: later_texts ys)). split.
  - exists (y :: ys). split; [by constructor|]. unfold given_text. rewrite Fprints_texts. apply join_texts.
  - apply Fprints_faithful, no_output_faithful.
Qed.

Lemma marshal_exclusive `{GenEnv} docs ys e :
  Forall2 (λ doc y, Marshal doc = Ok y) docs ys → ¬ Exists (λ doc, Marshal doc = Err e) docs.
Proof. intros Hys Hex. induction Hys as [|doc y docs ys Hy _ IH]; inversion Hex; simplify_eq; naive_solver congruence. Qed.

(** The code does not depend on the writer: a failed write is not noticed. *)
Lemma exit_code_writer `{GenEnv} (W1 W2 : Writer) argv0 args :
  exit_code (@vdbgen_main _ W1 argv0 args) = exit_code (@vdbgen_main _ W2 argv0 args).
Proof.
  unfold vdbgen_main. destruct (options args) as [code| |o]; [done..|].
  unfold Generate. destruct (Create _) as [[objs|e]|m]; [|done..].
  pose proof (writeManifest_spec (H0 := W1) objs) as H1. pose proof (writeManifest_spec (H0 := W2) objs) as H2.
  destruct (@writeManifest _ W1 _ _) as [wr1 [e1|]], (@writeManifest _ W2 _ _) as [wr2 [e2|]]; try done;
    exfalso; [destruct H2 as [(ys & Hys & _) _]|destruct H1 as [(ys & Hys & _) _]]; by eapply marshal_exclusive.
Qed.

(** C30: the exit code of [vdb-gen].  When [flag.Parse] ends the program, nothing is
    written to standard output, and the code is 0 exactly when help was asked for.
    With too few arguments the code is 1 and the standard output is given the
    message and the usage.  Otherwise the code is 0 exactly when the objects could
    be created and the whole manifest was handed to the standard output, 1 exactly
    when there is an error message; and if no write failed, what was handed over
    is what was written.  Nothing more can be said of the code: the errors of the
    writes are ignored, so that it is the same for every writer. *)
Theorem exit_code_correct `{GenEnv} `{W : Writer} argv0 args :
  let r := vdbgen_main argv0 args in
  match options args with
  | Exits code => r = MkRun no_output None code ∧ code ∈ [0; 2]%Z ∧
                  (code = 0%Z ↔ Parse args (list_to_map defined) = HelpRequested)
  | NotEnough => exit_code r = 1%Z ∧ errOut r = None ∧
                 texts (out r) = ["Not enough positional arguments." +:+ eol;
                                  "Usage: " +:+ argv0 +:+ " [OPTIONS] <host> <db>" +:+ eol]
  | Runs o =>
      (exit_code r = 0%Z ↔
        ∃ objs, Create (make_DBGenerator o) = Ret (Ok objs) ∧ whole_manifest objs (given_text (out r))) ∧
      (exit_code r = 1%Z ↔ is_Some (errOut r)) ∧
      (exit_code r = 0%Z → nothing_lost (out r) → written (out r) = given_text (out r)) ∧
      (∀ W' : Writer, exit_code (@vdbgen_main _ W' argv0 args) = exit_code r)
  end.
Proof.
  cbv zeta. pose proof (λ W', exit_code_writer W' W argv0 args) as Hany. unfold vdbgen_main in *.
  destruct (options args) as [code| |o] eqn:Ho.
  - split; [done|]. unfold options, Parse_or_exit in Ho. destruct (Parse _ _) as [f [|h [|d rest]]| |];
      simplify_eq; (split; [set_solver|done]).
  - split_and!; [done|done|]. cbn [out]. unfold usage, Fprint. destruct (Write _ _). cbn [fst texts]. by destruct (Write _ _).
  - assert (∀ P Q R S : Prop, P ∧ Q ∧ R → S → P ∧ Q ∧ R ∧ S) as Hand by tauto. apply Hand; [clear Hany Hand|exact Hany].
    unfold Generate. destruct (Create _) as [[objs|e]|m]; simpl; [..|naive_solver].
    + pose proof (writeManifest_spec objs) as Hw. destruct (writeManifest _ objs) as [wr [e|]]; simpl.
      * split_and!; [|naive_solver|done]. split; [done|]. intros (objs' & [= <-] & ys & Hys & _).
        by edestruct marshal_exclusive.
      * destruct Hw as [Hw Hf]. split_and!; [naive_solver| |done]. split; [done|by intros [? [=]]].
    + split_and!; [naive_solver|naive_solver|done].
Qed.

(** A standard output that takes everything, and the demonstration database *)
Definition all_taken : Writer.
Proof. refine {| Write := λ _ text, (String.length text, None) |}. simpl. lia. Defined.

Definition demo_args : list string :=
  ["--password=secret"; "--name=vdb"; "--license=/lic.dat"; "--cafile=/ca.crt"; "10.0.0.1"; "db"].

Lemma exit_code_correct_witness :
  let r := @vdbgen_main VdbGenSpec.demo_gen all_taken "vdb-gen" demo_args in
  exit_code r = 0%Z ∧ String.length (written (out r)) = 26%nat ∧ written (out r) = given_text (out r).
Proof.
  cbv zeta. pose proof (@exit_code_correct VdbGenSpec.demo_gen all_taken "vdb-gen" demo_args) as Hr. cbv zeta in Hr.
  destruct (options demo_args) as [code| |o] eqn:Ho; [vm_compute in Ho; discriminate Ho..|].
  destruct Hr as (_ & _ & Hw & _). split; [vm_compute; reflexivity|]. split; [vm_compute; reflexivity|].
  apply Hw; [vm_compute; reflexivity|]. intros i text _. reflexivity.
Defined.

(** A standard output that takes nothing, as on a full disk *)
Definition full_disk : Writer.
Proof. refine {| Write := λ _ _, (0%nat, Some (ErrMsg "no space left on device")) |}. eauto. Defined.

(** The manifest can be lost without a trace: whenever the objects can be created
    and marshalled, the program ends with code 0 and no message on a full disk
    although nothing was written. *)
Theorem lost_manifest `{GenEnv} argv0 args o objs text :
  options args = Runs o → Create (make_DBGenerator o) = Ret (Ok objs) → whole_manifest objs text →
  let r := @vdbgen_main _ full_disk argv0 args in
  exit_code r = 0%Z ∧ errOut r = None ∧ written (out r) = "" ∧ given_text (out r) = text.
Proof.
  intros Ho Hc (ys & Hys & ->). cbv zeta. unfold vdbgen_main, Generate. rewrite Ho, Hc.
  pose proof (writeManifest_spec (H0 := full_disk) objs) as Hw.
  assert (∀ docs wr, written wr = "" → written (fst (@write_documents _ full_disk docs wr)) = "") as Hnone.
  { induction docs as [|doc docs IH]; intros wr Hwr; cbn [write_documents]; [done|].
    destruct (Marshal doc) as [y|]; [|done]. apply IH. simpl. rewrite Hwr. by destruct y. }
  assert (written (fst (@writeManifest _ full_disk no_output objs)) = "") as Hout.
  { unfold writeManifest. destruct (documents objs); [done|]. destruct (Marshal _) as [y|]; [|done].
    apply Hnone. simpl. by destruct y. }
  destruct (@writeManifest _ full_disk _ _) as [wr [e|]]; [by edestruct marshal_exclusive|].
  destruct Hw as [(zs & Hzs & Hw) _]. split_and!; [done|done|done|]. simpl. rewrite Hw. f_equal.
  clear -Hys Hzs. revert zs Hzs. induction Hys as [|doc y docs ys Hy _ IH]; intros zs Hzs; inversion Hzs; simplify_eq; [done|].
  f_equal; [congruence|by apply IH].
Qed.

End VdbGenMain.

(** ** The operator *)

Module OperatorMain.

(** *** Flags and environment *)

Record Logging : Type := MkLogging {
  FilePath : string;
  Level : string;
  MaxFileSize : Z;
  MaxFileAge : Z;
  MaxFileRotation : Z;
  DevMode : bool }.

Record FlagConfig : Type := MkFlagConfig {
  MetricsAddr : string;
  EnableLeaderElection : bool;
  ProbeAddr : string;
  EnableProfiler : bool;
  ServiceAccountName : string;
  PrefixName : string;
  LogArgs : Logging }.

Definition DefaultMaxFileSize : Z := 500.
Definition DefaultMaxFileAge : Z := 7.
Definition DefaultMaxFileRotation : Z := 3.
Definition DefaultLevel : string := "info".
Definition DefaultDevMode : bool := true.

Definition setLoggingFlagArgs : list (string * flag_value) :=
  [("filepath", FString ""); ("maxfilesize", FInt DefaultMaxFileSize); ("maxfileage", FInt DefaultMaxFileAge);
   ("maxfilerotation", FInt DefaultMaxFileRotation); ("level", FString DefaultLevel); ("dev", FBool DefaultDevMode)].

Definition setFlagArgs : list (string * flag_value) :=
  [("metrics-bind-address", FString ":8080"); ("health-probe-bind-address", FString ":8081");
   ("leader-elect", FBool false); ("enable-profiler", FBool false);
   ("service-account-name", FString "verticadb-operator-controller-manager");
   ("prefix-name", FString "verticadb-operator")] ++ setLoggingFlagArgs.

(** Where the parsed flags are stored *)
Definition logging_of (f : flags) : Logging :=
  MkLogging (string_flag f "filepath") (string_flag f "level") (int_flag f "maxfilesize") (int_flag f "maxfileage")
    (int_flag f "maxfilerotation") (bool_flag f "dev").

Definition config_of (f : flags) : FlagConfig :=
  MkFlagConfig (string_flag f "metrics-bind-address") (bool_flag f "leader-elect")
    (string_flag f "health-probe-bind-address") (bool_flag f "enable-profiler") (string_flag f "service-account-name")
    (string_flag f "prefix-name") (logging_of f).

(** The environment variables *)
Abbreviation environ := (gmap string string).

Definition getWatchNamespace (env : environ) : string * option go_error :=
  match env !! "WATCH_NAMESPACE" with
  | None => ("", Some (ErrMsg "WATCH_NAMESPACE must be set"))
  | Some ns => (ns, None)
  end.

Definition getIsWebhookEnabled (env : environ) : bool :=
  let DefaultEnabled := true in
  match env !! "ENABLE_WEBHOOKS" with
  | None => DefaultEnabled
  | Some enableWebhook =>
      match ParseBool enableWebhook with
      | None => DefaultEnabled
      | Some enabled => enabled
      end
  end.

(** *** The logger *)

(** The levels of the logging library *)
Inductive ZapLevel : Type :=
| DebugLevel | InfoLevel | WarnLevel | ErrorLevel | DPanicLevel | PanicLevel | FatalLevel.

(** A configuration of the library, with the fields that are assigned *)
Inductive EncoderConfig : Type :=
| DevelopmentEncoderConfig
| ProductionEncoderConfig (encodeLevel encodeTime : string).

Inductive WriteSyncer : Type :=
| Stdout
| RollingFile (filename : string) (maxSize maxBackups maxAge : Z).

(** What the logger is built from; sampling has its first and its later messages
    per second *)
Record Logger : Type := MkLogger {
  lg_encoder : EncoderConfig;
  lg_writes : list WriteSyncer;
  lg_level : ZapLevel;
  lg_stacktrace : ZapLevel;
  lg_sampler : option (Z * Z) }.

Definition DefaultZapcoreLevel : ZapLevel := InfoLevel.
Definition First : Z := 100.
Definition ThereAfter : Z := 100.

Definition getEncoderConfig (devMode : bool) : EncoderConfig :=
  if negb devMode then ProductionEncoderConfig "CapitalLevelEncoder" "ISO8601TimeEncoder" else DevelopmentEncoderConfig.

Definition getLogWriter (logArgs : Logging) : WriteSyncer :=
  RollingFile (FilePath logArgs) (MaxFileSize logArgs) (MaxFileRotation logArgs) (MaxFileAge logArgs).

Definition getStackTrace (devMode : bool) : ZapLevel := if devMode then WarnLevel else ErrorLevel.

(** *** The calls on the libraries *)

Inductive setup_call : Type :=
| SetLogger (l : Logger)
| ListenAndServe (addr : string)
| GetConfig
| NewManager (MetricsBindAddress : string) (Port : Z) (HealthProbeBindAddress : string) (LeaderElection : bool)
    (LeaderElectionID Namespace : string)
| AddVerticaDBController (d : DeploymentNames)
| AddVerticaAutoscalerController
| SetTLSMinVersion (version : string)
| AddVerticaDBWebhook
| AddVerticaAutoscalerWebhook
| AddHealthzCheck (name : string)
| AddReadyzCheck (name : string)
| Start.

(** The functions of the libraries: [UnmarshalText] reads a level, [refuses] says
    which call on the manager fails, given the calls before it.  [extra] are the
    flags that the libraries define. *)
Class Libraries := {
  UnmarshalText : string → option ZapLevel;
  refuses : list setup_call → setup_call → bool;
  extra : list (string * flag_value) }.

Section main.
Context `{Libraries}.

Definition getZapcoreLevel (lvl : string) : ZapLevel := default DefaultZapcoreLevel (UnmarshalText lvl).

Definition getLogger (logArgs : Logging) : Logger :=
  let writes := if bool_decide (FilePath logArgs ≠ "") then [getLogWriter logArgs] else [] in
  let writes := if bool_decide (FilePath logArgs = "") || DevMode logArgs then writes ++ [Stdout] else writes in
  MkLogger (getEncoderConfig (DevMode logArgs)) writes (getZapcoreLevel (Level logArgs)) (getStackTrace (DevMode logArgs))
    (if negb (DevMode logArgs) then Some (First, ThereAfter) else None).

(** *** The set-up *)

(** The calls so far, the latest first; an exit code ends the program. *)
Definition Setup (A : Type) : Type := list setup_call → list setup_call * (Z + A).

#[local] Instance Setup_ret : MRet Setup := λ A a t, (t, inr a).
#[local] Instance Setup_bind : MBind Setup := λ A B f m t,
  match m t with
  | (t, inl code) => (t, inl code)
  | (t, inr a) => f a t
  end.

(** A call that cannot fail *)
Definition call (c : setup_call) : Setup () := λ t, (c :: t, inr ()).

(** A call whose failure ends the program with [os.Exit(1)] *)
Definition call_or_exit (c : setup_call) : Setup () := λ t,
  (c :: t, if refuses t c then inl 1%Z else inr ()).

Definition addReconcilersToManager (flagArgs : FlagConfig) : Setup () :=
  _ ← call_or_exit (AddVerticaDBController (MkDeploymentNames (ServiceAccountName flagArgs) (PrefixName flagArgs)));
  call_or_exit AddVerticaAutoscalerController.

Definition addWebhooksToManager : Setup () :=
  _ ← call (SetTLSMinVersion "1.3");
  _ ← call_or_exit AddVerticaDBWebhook;
  call_or_exit AddVerticaAutoscalerWebhook.

(** [main] once the flags are parsed *)
Definition setup (flagArgs : FlagConfig) (env : environ) : Setup () :=
  _ ← call (SetLogger (getLogger (LogArgs flagArgs)));
  _ ← if EnableProfiler flagArgs then call (ListenAndServe "localhost:6060") else mret ();
  _ ← call_or_exit GetConfig;
  let watchNamespace := fst (getWatchNamespace env) in
  _ ← call_or_exit (NewManager (MetricsAddr flagArgs) 9443 (ProbeAddr flagArgs) (EnableLeaderElection flagArgs)
                      "5c1e6227.vertica.com" watchNamespace);
  _ ← addReconcilersToManager flagArgs;
  _ ← if getIsWebhookEnabled env then addWebhooksToManager else mret ();
  _ ← call_or_exit (AddHealthzCheck "healthz");
  _ ← call_or_exit (AddReadyzCheck "readyz");
  call_or_exit Start.

(** The calls and the exit code *)
Definition operator_main (args : list string) (env : environ) : list setup_call * Z :=
  match Parse_or_exit args (list_to_map (setFlagArgs ++ extra)) with
  | inl code => ([], code)
  | inr (f, _) =>
      match setup (config_of f) env [] with
      | (t, inl code) => (t, code)
      | (t, inr _) => (t, 0%Z)
      end
  end.

(** *** The order of the calls *)

(** The calls of a set-up without failures, in their order *)
Definition plan (flagArgs : FlagConfig) (env : environ) : list setup_call :=
  [SetLogger (getLogger (LogArgs flagArgs))] ++
  (if EnableProfiler flagArgs then [ListenAndServe "localhost:6060"] else []) ++
  [GetConfig;
   NewManager (MetricsAddr flagArgs) 9443 (ProbeAddr flagArgs) (EnableLeaderElection flagArgs) "5c1e6227.vertica.com"
     (default "" (env !! "WATCH_NAMESPACE"));
   AddVerticaDBController (MkDeploymentNames (ServiceAccountName flagArgs) (PrefixName flagArgs));
   AddVerticaAutoscalerController] ++
  (if getIsWebhookEnabled env then [SetTLSMinVersion "1.3"; AddVerticaDBWebhook; AddVerticaAutoscalerWebhook] else []) ++
  [AddHealthzCheck "healthz"; AddReadyzCheck "readyz"; Start].

Definition refused (past : list setup_call) (c : setup_call) : bool :=
  match c with
  | SetLogger _ | ListenAndServe _ | SetTLSMinVersion _ => false
  | _ => refuses past c
  end.

(** No call was refused. *)
Fixpoint accepted (t : list setup_call) : bool :=
  match t with
  | [] => true
  | c :: past => negb (refused past c) && accepted past
  end.

Fixpoint follow (cs : list setup_call) : Setup () := λ t,
  match cs with
  | [] => (t, inr ())
  | c :: cs => if refused t c then (c :: t, inl 1%Z) else follow cs (c :: t)
  end.

Lemma setup_plan flagArgs env t : setup flagArgs env t = follow (plan flagArgs env) t.
Proof.
  assert (fst (getWatchNamespace env) = default "" (env !! "WATCH_NAMESPACE")) as Hns.
  { unfold getWatchNamespace. by destruct (env !! _). }
  unfold setup, plan, addReconcilersToManager, addWebhooksToManager. rewrite Hns.
  unfold call, call_or_exit, mbind, Setup_bind, mret, Setup_ret.
  destruct (EnableProfiler flagArgs), (getIsWebhookEnabled env); cbn -[getLogger];
    repeat (case_match; simplify_eq; try done).
Qed.

Lemma follow_spec cs t t' r :
  accepted t = true → follow cs t = (t', r) →
  ∃ before, before `prefix_of` cs ∧ t' = rev before ++ t ∧
    match r with
    | inr _ => before = cs ∧ accepted t' = true
    | inl code => code = 1%Z ∧ ∃ c past, t' = c :: past ∧ refused past c = true ∧ accepted past = true
    end.
Proof.
  revert t. induction cs as [|c cs IH]; intros t Ht; simpl.
  - intros [= <- <-]. by exists [].
  - destruct (refused t c) eqn:Hc.
    + intros [= <- <-]. exists [c]. split; [by apply prefix_cons, prefix_nil|]. split; [done|]. split; [done|]. by exists c, t.
    + intros (before & Hb & -> & Hr)%IH; [|simpl; by rewrite Hc, Ht]. exists (c :: before). split; [by apply prefix_cons|].
      simpl. rewrite <- app_assoc. split; [done|]. destruct r as [code|]; [done|]. by destruct Hr as [-> Hr].
Qed.

(** What has been done before a call *)
Definition ready (flagArgs : FlagConfig) (env : environ) (c : setup_call) (past : list setup_call) : Prop :=
  match c with
  | SetLogger l => past = [] ∧ lg_writes l ≠ []
  | AddVerticaDBController d =>
      d = MkDeploymentNames (ServiceAccountName flagArgs) (PrefixName flagArgs) ∧
      ∃ a p b e i n, NewManager a p b e i n ∈ past
  | AddVerticaAutoscalerController | AddHealthzCheck _ | AddReadyzCheck _ => ∃ a p b e i n, NewManager a p b e i n ∈ past
  | SetTLSMinVersion _ => AddVerticaDBWebhook ∉ past ∧ AddVerticaAutoscalerWebhook ∉ past
  | AddVerticaDBWebhook | AddVerticaAutoscalerWebhook =>
      getIsWebhookEnabled env = true ∧ SetTLSMinVersion "1.3" ∈ past
  | Start =>
      (∃ d, AddVerticaDBController d ∈ past) ∧ AddVerticaAutoscalerController ∈ past ∧
      (∃ name, AddHealthzCheck name ∈ past) ∧ (∃ name, AddReadyzCheck name ∈ past) ∧
      (getIsWebhookEnabled env = true → AddVerticaDBWebhook ∈ past ∧ AddVerticaAutoscalerWebhook ∈ past)
  | GetConfig | ListenAndServe _ | NewManager _ _ _ _ _ _ => ∃ l, SetLogger l ∈ past
  end.

Lemma logger_writes logArgs : lg_writes (getLogger logArgs) ≠ [].
Proof. unfold getLogger. simpl. destruct (DevMode logArgs); repeat case_bool_decide; simpl; naive_solver. Qed.

Ltac elem_tac := solve [repeat first [apply list_elem_of_here | apply list_elem_of_further]].

Ltac not_elem_tac :=
  let Hin := fresh in
  solve [intros Hin; repeat (apply elem_of_cons in Hin as [?|Hin]; [done|]); by apply elem_of_nil in Hin].

Ltac ready_tac := solve [repeat first [done | congruence | not_elem_tac | split | intros ? | eexists]; elem_tac].

Lemma plan_ready flagArgs env before c after :
  plan flagArgs env = before ++ c :: after → ready flagArgs env c (rev before).
Proof.
  pose proof (logger_writes (LogArgs flagArgs)) as Hw. unfold plan. generalize dependent (getLogger (LogArgs flagArgs)).
  intros l Hw. destruct (EnableProfiler flagArgs), (getIsWebhookEnabled env) eqn:He; simpl; intros Hp;
    repeat (destruct before as [|? before]; simplify_eq/=;
            [ready_tac|]); by destruct before.
Qed.

(** C20: the operator is set up in the right order: a logger that writes somewhere
    comes first; the webhooks are registered only when they are enabled and after the
    minimum TLS version of their server is set; the manager is started only when both
    controllers, both health checks and, when enabled, both webhooks are registered.
    The first refused call is the last one and gives the exit code 1; without a
    refused call the last one is [Start]. *)
Theorem operator_setup args env t code f rest :
  Parse args (list_to_map (setFlagArgs ++ extra)) = Parsed f rest →
  operator_main args env = (t, code) →
  (∀ c past, (c :: past) `suffix_of` t → ready (config_of f) env c past) ∧
  match t with
  | [] => False
  | c :: past =>
      accepted past = true ∧
      ((refused past c = true ∧ code = 1%Z) ∨ (refused past c = false ∧ c = Start ∧ code = 0%Z))
  end.
Proof.
  intros Hf. unfold operator_main, Parse_or_exit. rewrite Hf, setup_plan.
  destruct (follow _ []) as [t' r] eqn:Hfol. apply follow_spec in Hfol as (before & Hb & -> & Hr); [|done].
  rewrite app_nil_r in *. intros Ht. assert (t = rev before) as -> by (destruct r; congruence). split.
  - intros c past [l Hl]. apply (f_equal (@rev _)) in Hl. rewrite rev_involutive, rev_app_distr in Hl. simpl in Hl.
    destruct Hb as [after Hp]. rewrite Hl, <- !app_assoc in Hp. apply plan_ready in Hp. by rewrite rev_involutive in Hp.
  - destruct r as [code'|].
    + destruct Hr as (-> & c & past & -> & Hc & Hpast). rewrite Hpast. split; [done|]. left. split; [done|congruence].
    + destruct Hr as [-> Hacc]. unfold plan in *. rewrite !rev_app_distr in *. simpl in Hacc |- *.
      apply andb_true_iff in Hacc as [Hs%negb_true_iff Hacc]. split; [done|]. right. split; [done|]. split; [done|congruence].
Qed.

End main.

(** No call fails; the levels are those of the documentation. *)
Definition quiet_libraries : Libraries := {|
  UnmarshalText lvl :=
    if bool_decide (lvl = "debug") then Some DebugLevel else if bool_decide (lvl = "info") then Some InfoLevel
    else if bool_decide (lvl = "warn") then Some WarnLevel else if bool_decide (lvl = "error") then Some ErrorLevel
    else None;
  refuses _ _ := false;
  extra := [("kubeconfig", FString "")] |}.

Lemma operator_setup_witness :
  let t := fst (operator_main (H := quiet_libraries) ["-dev=false"; "--level"; "trace"] {["ENABLE_WEBHOOKS" := "maybe"]}) in
  length t = 11 ∧ AddVerticaDBWebhook ∈ tail t.
Proof.
  pose (args := ["-dev=false"; "--level"; "trace"]). pose (env := {["ENABLE_WEBHOOKS" := "maybe"]} : environ).
  destruct (operator_setup (H := quiet_libraries) args env _ 0%Z _ _ eq_refl eq_refl) as [Hready _].
  intros t. split; [reflexivity|]. apply (Hready Start (tail t)); [by exists []|reflexivity].
Defined.

End OperatorMain.
